(* ===== verification/_CoqProject ===== *)
-Q . S2P
Prelude.v
Kernel.v
Waiting.v
LinkedList.v
Connection.v
Protocol.v
Devices.v
Terminal.v
State.v
Poller.v
Send.v
Seat.v
Client.v
Control.v
Server.v
Daemon.v
Embedded.v
Trace.v
Frames.v
Invariant.v
Lifecycle.v
Rules.v
SendOk.v
SeatOk.v
SeatSwitch.v
SeatVt.v
SeatDevices.v
SeatMembers.v
SeatRemove.v
ClientOk.v
ControlOk.v
PollerOk.v
ServerOk.v
DispatchOk.v
StartOk.v
DaemonOk.v
EmbeddedOk.v
Demo.v
CommonTheorems.v
SeatTheorems.v
DaemonTheorems.v
FindingTheorems.v
EmbeddedTheorems.v
Backend.v
LibseatSeatd.v
LibseatNoop.v
LibseatLogind.v
Libseat.v
LibseatOk.v
LibseatOpen.v
LibseatLogindOk.v
LibseatSeat.v
Wire.v
LibseatWait.v
LibseatTheorems.v
LibseatFindings.v
LogindTheorems.v
Launcher.v
LauncherOk.v
LauncherTheorems.v
Log.v
