(* ===== verification/Prelude.v ===== *)
(** * A verification library for dde-seatd

    dde-seatd is a seat management daemon: it hands the input and graphics devices
    of a seat to one of several clients at a time, and moves them with the virtual
    terminals (VTs).  Applications use it through a library, libseat, which can also
    run the server itself or use logind; a launcher starts the daemon for one
    command.  This library translates the daemon, libseat and the launcher into
    Rocq, function by function, and proves what makes them correct.

    ** The program and its model

    - [common/linked_list.c], the intrusive lists every other part uses:
      LinkedList.v.  A heap of nodes with the pointer updates of the C, proved to
      simulate abstract lists.  The rest of the model uses the abstract lists.
    - [common/connection.c], message connections with descriptor passing:
      Connection.v.  Ring buffers with free-running 32-bit indices, scatter/gather
      vectors, control messages, [connection_read], [connection_flush] and the
      queueing functions.
    - [include/protocol.h], [include/control.h]: Protocol.v, constants and layouts
      as little-endian bytes.
    - [common/drm.c], [evdev.c], [hidraw.c], [wscons.c]: Devices.v, path classes
      per platform and the ioctls on devices.
    - [common/terminal.c]: Terminal.v, tty paths of the three platforms and the VT
      and keyboard ioctls of the Linux build.
    - [include/seat.h], [client.h], [server.h], [control.h] and the descriptor
      sources of [seatd/poller.c]: State.v.  The daemon's state is the record
      [server]: tables of clients, control clients and seats by address (finite
      maps), the lists that link them, the poller's sources, array, signals and
      pipe, and the watcher thread with its queue.  A use of an address that is not
      in its table is a [Fault].
    - [seatd/seat.c]: Seat.v; [seatd/client.c]: Client.v, with the sending
      functions in Send.v; [seatd/control.c]: Control.v; [seatd/server.c]: Server.v,
      with start, shutdown and the watcher thread; [seatd/poller.c]: Poller.v and
      the dispatch in Daemon.v; [seatd/seatd.c]: Daemon.v, options, sockets, main
      loop and exit.
    - [libseat/libseat.c]: Libseat.v, the choice of a backend and the public calls.
      The seat of the application is a [handle]: none, or the object of a backend
      (Backend.v).  The functions of the application's listener are a parameter,
      the class [Listener]; [notify] records each call of them in the history.
    - [libseat/backend/seatd.c]: LibseatSeatd.v, the client of the daemon, with the
      parent process of the builtin backend; Embedded.v, the server in its child,
      which is the daemon's with [libseat_build] set.
    - [libseat/backend/noop.c]: LibseatNoop.v; [libseat/backend/logind.c]:
      LibseatLogind.v, where sd-bus and sd-login are calls like the system calls.
    - [seatd-launch/seatd-launch.c]: Launcher.v, the launcher and its two children.
    - [common/log.c]: Log.v.
    - Kernel.v: everything the program does not decide.  Each system call, and
      each libc call that can fail, is a [call] answered by a function of the whole
      history ([Kernel]); [KernelOk] holds the documented behaviour the program
      relies on.  [M] is the monad of the translated C: state, errno, the trace of
      calls, and the outcomes [Aborted] (assert, abort), [Fault] (invalid
      dereference) and [Hang] (a loop that does not end).

    Names are those of the source.  A loop that the C writes inside a function is a
    [Fixpoint] next to it.

    ** How the proofs are organised

    Total correctness is [wp] of Kernel.v: the program returns, and its result
    satisfies the postcondition.  Rules.v has the rules for accesses and for
    messages, [wp_steps] executes symbolically.  Invariant.v states the invariant
    [server_wf] of the daemon's objects (pointers, lists and back pointers, ranges,
    the number of live sources), Lifecycle.v the updates that create, move and free
    objects; PollerOk.v states the poller's invariant [poller_wf].  The files
    called *Ok say what each operation does and that it keeps the invariants;
    SeatSwitch.v, SeatVt.v, SeatDevices.v, SeatMembers.v and SeatRemove.v belong to
    seat.c.  Two properties hold by the shape of the code alone and are proved by
    walking it: Trace.v (the history only grows) and Frames.v (what the handlers
    leave to the poller; the class [Leaves] is the interface for the part of the
    code that destroys clients).  DispatchOk.v, StartOk.v and DaemonOk.v put the
    daemon together; [reachable] in DaemonOk.v are its states after [main_start] and
    any sequence of turns of the main loop, signals and turns of the watcher.
    EmbeddedOk.v does the same for the server inside libseat.

    Programs that wait for another process have partial correctness, [wlp], and a
    proof that they return where the other process does its part, [returns] (both in
    Waiting.v).  LibseatOk.v, LibseatOpen.v and LibseatSeat.v have the operations of
    libseat and the law [ListenerOk] of the listener; LibseatWait.v shows when they
    return; Wire.v joins what libseat sends with what the daemon's handlers read.
    LibseatLogindOk.v proves the operations on logind for any predicate that bears
    their calls ([Bears], [Processes]) and keeps the books of what is held
    ([booked]).  LauncherOk.v describes the histories of the launcher.

    Demo.v is a concrete kernel that keeps the laws, on which the whole daemon runs
    inside Rocq; the witnesses use it.

    ** What the theorems show

    - DaemonTheorems.v: every step from a reachable state completes and keeps the
      invariants, or the daemon exits with everything freed; [main] starts the
      daemon or exits cleanly; SIGINT and SIGTERM stop it; [server_finish] frees
      everything; poll(2) is asked for exactly the live sources; the dispatch loop
      skips no source and serves none twice; connections are dropped whole or kept
      whole; a seat is open to one client at a time; sources and objects match.
    - SeatTheorems.v: each operation of a seat on every branch: membership and
      sessions, granting, disabling and handing over, VT signals and VT events,
      devices, grouped VTs.
    - CommonTheorems.v: the ring buffer refines a queue, flush and read keep the
      bytes in order, lists, headers, tty paths.
    - FindingTheorems.v and LibseatFindings.v: behaviour the comments or the callers
      do not expect, as runs or theorems.
    - LibseatTheorems.v: a request of the library reaches the daemon's handler with
      its arguments, and the answer reaches the caller; calls on an open seat are
      safe with every backend, waiting ends on an attentive socket, opening gives a
      seat or leaves nothing, closing frees it.
    - LogindTheorems.v: the session as a transition system; the application is told
      every change of its seat once and before logind is told that a device is
      paused; what is taken is given back.
    - EmbeddedTheorems.v: the server inside libseat is as safe as the daemon, and
      stops with its client.
    - LauncherTheorems.v: the command runs unprivileged and after seatd is ready,
      seatd does not outlive it, and seatd understands the options it gets.
    - Log.v: messages leave the program as it was, which is why the other files leave
      them out.

    ** Bounds and fuel

    Loops over a list take the list; loops until a list is empty take its length as
    fuel, and the theorems show that they never run out ([Hang]).  The loops over the
    messages of a connection take at most [max_messages] turns, as each consumes a
    header of a buffer of 256 bytes; flushing takes at most one turn per byte.
    Calls interrupted by signals are repeated up to [eintr_limit] times, and [KernelOk] says that such calls settle by then.
    [next_session] moves on at most once per session in use, enough to find a free
    number.  Addresses and identifiers are natural numbers chosen fresh.

    The loops of libseat and of the launcher that wait for another process take
    [patience] turns, and [Hang] is still waiting.  Any patience is covered by the
    safety theorems; those about requests, closing and the launcher say how much is
    enough: a turn per byte that can still come, or as long as the other process is
    not heard of.

    ** What is not modelled

    - Log messages, outside Log.v, and the strings made only for them.
    - Tests and examples: programs that exercise the code.
    - sd-bus and sd-login, which are not part of the sources: their functions are
      answered calls, and the reply of [sd_bus_process] says which handler it runs.
    - The memory that is overwritten where a D-Bus boolean is read into a [bool],
      apart from the field after [active].
    - FreeBSD and NetBSD variants, apart from the paths in Devices.v and Terminal.v.
    - getopt(3): [main_start] and [launch_main] take the options it returns.
    - Preemption inside a step: a turn of the watcher thread is atomic, and signals
      arrive between turns or while the function of a signal source runs, the one
      place where the code can tell the difference.
    - The values of [errno] after a successful call, and timing. *)

From Stdlib Require Export ZArith Lia ZifyNat ZifyBool.
From Stdlib Require Ascii String.
From stdpp Require Export base tactics numbers strings option gmap list.

#[global] Open Scope Z_scope.
#[global] Set Default Goal Selector "!".

(** ** Machine integers

    C's [uint16_t], [uint32_t] and [int32_t] are integers in [Z] kept in range
    by these wrap-around functions. *)
Definition u8 (x : Z) : Z := x mod 2 ^ 8.
Definition u16 (x : Z) : Z := x mod 2 ^ 16.
Definition u32 (x : Z) : Z := x mod 2 ^ 32.
Definition i32 (x : Z) : Z := (x + 2 ^ 31) mod 2 ^ 32 - 2 ^ 31.

Lemma u32_bound x : 0 <= u32 x < 2 ^ 32.
Proof. apply Z.mod_pos_bound; lia. Qed.

Lemma u32_small x : 0 <= x < 2 ^ 32 -> u32 x = x.
Proof. apply Z.mod_small. Qed.

Lemma u32_sub_u32 x y : u32 (x - u32 y) = u32 (x - y).
Proof. apply Zminus_mod_idemp_r. Qed.

Lemma u32_u32_sub x y : u32 (u32 x - y) = u32 (x - y).
Proof. apply Zminus_mod_idemp_l. Qed.

Lemma u32_u32_add x y : u32 (u32 x + y) = u32 (x + y).
Proof. apply Zplus_mod_idemp_l. Qed.

Lemma u32_sub x n : 0 <= n <= u32 x -> u32 (x - n) = u32 x - n.
Proof. intros. rewrite <- u32_u32_sub. pose proof (u32_bound x). apply u32_small. lia. Qed.

Lemma u32_add x n : 0 <= n -> u32 x + n < 2 ^ 32 -> u32 (x + n) = u32 x + n.
Proof. intros. rewrite <- u32_u32_add. pose proof (u32_bound x). apply u32_small. lia. Qed.

(** 256 divides 2^32, so ring offsets survive the index wrap-around. *)
Lemma u32_mod_256 x : u32 x mod 256 = x mod 256.
Proof.
  unfold u32. symmetry. rewrite (Z.div_mod x (2 ^ 32)) at 1 by lia.
  replace (2 ^ 32 * (x / 2 ^ 32)) with (x / 2 ^ 32 * 2 ^ 24 * 256) by lia.
  rewrite Z.add_comm. apply Z.mod_add. lia.
Qed.

Lemma u16_small x : 0 <= x < 2 ^ 16 -> u16 x = x.
Proof. apply Z.mod_small. Qed.

Lemma i32_small x : - 2 ^ 31 <= x < 2 ^ 31 -> i32 x = x.
Proof. intros. unfold i32. rewrite Z.mod_small; lia. Qed.

Lemma i32_u32 x : i32 (u32 x) = i32 x.
Proof. unfold i32, u32. by rewrite Zplus_mod_idemp_l. Qed.

(** ** Bytes

    A [char] buffer is a list of byte values; a C string is the list of its
    characters without the terminating NUL. *)
Abbreviation bytes := (list Z).

Definition is_byte (b : Z) : Prop := 0 <= b < 256.

Fixpoint str (s : string) : bytes :=
  match s with
  | String.EmptyString => []
  | String.String a s' => Z.of_N (Ascii.N_of_ascii a) :: str s'
  end.

(** Little-endian images of the integers the wire structs hold. *)
Fixpoint le_bytes (n : nat) (z : Z) : bytes :=
  match n with
  | O => []
  | S n' => u8 z :: le_bytes n' (z / 2 ^ 8)
  end.

Fixpoint le_value (bs : bytes) : Z :=
  match bs with
  | [] => 0
  | b :: bs' => b + 2 ^ 8 * le_value bs'
  end.

Lemma length_le_bytes n z : length (le_bytes n z) = n.
Proof. revert z; induction n; intros; simpl; [done|]. by rewrite IHn. Qed.

Lemma le_bytes_byte n z : Forall is_byte (le_bytes n z).
Proof.
  revert z; induction n; intros; simpl; constructor; [|done].
  apply Z.mod_pos_bound; lia.
Qed.

Lemma le_value_bytes n z : le_value (le_bytes n z) = z mod 2 ^ (8 * Z.of_nat n).
Proof.
  revert z; induction n as [|n IH]; intros z.
  { simpl. by rewrite Z.mod_1_r. }
  cbn [le_bytes le_value]. rewrite IH. unfold u8.
  replace (8 * Z.of_nat (S n)) with (8 + 8 * Z.of_nat n) by lia.
  rewrite Z.pow_add_r, Z.rem_mul_r by lia. done.
Qed.

Lemma le_value_bound bs :
  Forall is_byte bs -> 0 <= le_value bs < 2 ^ (8 * Z.of_nat (length bs)).
Proof.
  induction 1 as [|b bs Hb _ IH]; [simpl; lia|].
  cbn [le_value length]. unfold is_byte in Hb.
  replace (8 * Z.of_nat (S (length bs))) with (8 + 8 * Z.of_nat (length bs)) by lia.
  rewrite Z.pow_add_r by lia. lia.
Qed.

(** [strncmp(a, b, n) == 0] on NUL-terminated strings: the terminators take
    part in the comparison. *)
Fixpoint strncmp_eq (a b : bytes) (n : nat) : bool :=
  match n with
  | O => true
  | S n' =>
      match a, b with
      | [], [] => true
      | x :: a', y :: b' => (x =? y) && strncmp_eq a' b' n'
      | _, _ => false
      end
  end.

(** [strcmp(a, b) == 0]. *)
Definition strcmp_eq (a b : bytes) : bool := bool_decide (a = b).

(** [strnlen(s, n)]: the number of characters before the first NUL, [n] at most. *)
Fixpoint strnlen (s : bytes) (n : nat) : nat :=
  match n, s with
  | O, _ | _, [] => O
  | S n', c :: s' => if c =? 0 then O else S (strnlen s' n')
  end.

(** Comparing the first [length p] characters is testing for the prefix [p]. *)
Lemma strncmp_prefix p s : strncmp_eq p s (length p) = true <-> p `prefix_of` s.
Proof.
  revert s; induction p as [|x p IH]; intros s; simpl.
  { split; [intros _; apply prefix_nil|done]. }
  destruct s as [|y s].
  { split; [done|]. intros [? [=]]. }
  rewrite andb_true_iff, Z.eqb_eq, IH. split.
  - intros [-> ?]. by apply prefix_cons.
  - intros Hp. split; [by apply prefix_cons_inv_1 in Hp|by apply prefix_cons_inv_2 in Hp].
Qed.

(** ** Error numbers (Linux values) *)
Definition EPERM := 1.
Definition ENOENT := 2.
Definition ESRCH := 3.
Definition EINTR := 4.
Definition EIO := 5.
Definition EBADF := 9.
Definition ECHILD := 10.
Definition EAGAIN := 11.
Definition ENOMEM := 12.
Definition EACCES := 13.
Definition EBUSY := 16.
Definition EINVAL := 22.
Definition EMFILE := 24.
Definition EPIPE := 32.
Definition ENOSYS := 38.
Definition EPROTO := 71.
Definition EBADMSG := 74.
Definition EOVERFLOW := 75.
Definition ENOTCONN := 107.
Definition EALREADY := 114.

(** ** Lists *)

(** [linked_list_remove] on a list without duplicates. *)
Definition list_remove_id (x : nat) (l : list nat) : list nat := filter (.≠ x) l.

Lemma elem_of_list_remove_id x y l : y ∈ list_remove_id x l <-> y ≠ x /\ y ∈ l.
Proof. unfold list_remove_id. by rewrite list_elem_of_filter. Qed.

Lemma list_remove_id_absent x l : x ∉ l -> list_remove_id x l = l.
Proof.
  intros Hx. unfold list_remove_id. induction l as [|y l IH]; [done|].
  rewrite filter_cons, IH by set_solver. case_decide; set_solver.
Qed.

Lemma list_remove_id_mid x l1 l2 :
  x ∉ l1 -> x ∉ l2 -> list_remove_id x (l1 ++ x :: l2) = l1 ++ l2.
Proof.
  intros. unfold list_remove_id. rewrite filter_app, filter_cons.
  rewrite decide_False by tauto.
  fold (list_remove_id x l1) (list_remove_id x l2).
  by rewrite !list_remove_id_absent.
Qed.

Lemma NoDup_list_remove_id x l : NoDup l -> NoDup (list_remove_id x l).
Proof. apply NoDup_filter. Qed.

Lemma NoDup_fmap_inj {A B} (f : A -> B) l x y :
  NoDup (f <$> l) -> x ∈ l -> y ∈ l -> f x = f y -> x = y.
Proof.
  rewrite !list_elem_of_lookup. intros Hnd [i Hi] [j Hj] E.
  assert (i = j) as ->; [|congruence].
  eapply NoDup_lookup; [exact Hnd| |]; rewrite list_lookup_fmap, ?Hi, ?Hj; cbn; by rewrite ?E.
Qed.

Lemma NoDup_fmap_filter {A B} (f : A -> B) (P : A -> Prop) `{!forall x, Decision (P x)} l :
  NoDup (f <$> l) -> NoDup (f <$> filter P l).
Proof.
  induction l as [|x l IH]; [done|]. rewrite fmap_cons. intros [Hx Hl]%NoDup_cons.
  rewrite filter_cons. case_decide; [|auto]. rewrite fmap_cons. constructor; [|auto].
  rewrite list_elem_of_fmap. intros (y & E & [_ Hy]%list_elem_of_filter). apply Hx.
  rewrite list_elem_of_fmap. eauto.
Qed.

Lemma filter_keeps_all {A} (P : A -> Prop) `{!forall x, Decision (P x)} (l : list A) :
  Forall P l -> filter P l = l.
Proof. induction 1 as [|x l Hx _ IH]; [done|]. by rewrite filter_cons_True, IH. Qed.

Lemma Forall_filter_keep {A} (Q P : A -> Prop) `{!forall x, Decision (P x)} l :
  Forall Q l -> Forall Q (filter P l).
Proof. rewrite !Forall_forall. intros HQ x [_ Hx]%list_elem_of_filter. auto. Qed.
