(* ===== verification/Kernel.v ===== *)
(** * Calls out of the program, and the effect monad

    The daemon runs against an operating system it does not contain.  Every
    call whose outcome the program does not decide (a system call, a libc call
    that can fail) is a [call]; what comes back is a [reply].  The operating
    system is a parameter: a function from the history of the calls made so far
    and the next call to its reply, so any deterministic or hostile behaviour is
    an instance.  [M] is the effect monad of the translated C: explicit state,
    [errno], the trace of calls, failed assertions, invalid dereferences and
    exhausted loops as outcomes of their own. *)
From S2P Require Import Prelude.

(** ** Calls and replies *)

Inductive open_flag :=
| O_RDWR | O_NOCTTY | O_NOFOLLOW | O_CLOEXEC | O_NONBLOCK.

Inductive vt_mode := VT_AUTO | VT_PROCESS.
Inductive kb_mode := K_ENABLE | K_DISABLE.
Inductive kd_mode := KD_TEXT | KD_GRAPHICS.

Inductive ioctl_request :=
| DRM_IOCTL_SET_MASTER
| DRM_IOCTL_DROP_MASTER
| DRM_IOCTL_AUTH_MAGIC (magic : Z)
| EVIOCREVOKE
| HIDIOCREVOKE
| VT_OPENQRY
| VT_GETSTATE
| VT_SETMODE (mode : vt_mode) (relsig acqsig : Z)
| VT_ACTIVATE (vt : Z)
| VT_RELDISP (arg : Z)
| VT_WAITEVENT
| KDSKBMODE (mode : kb_mode)
| KDSETMODE (mode : kd_mode).

Inductive fcntl_cmd :=
| F_GETFD | F_SETFD (flags : Z) | F_GETFL | F_SETFL (flags : Z) | F_DUPFD_CLOEXEC (min : Z).

(** The functions of sd-bus and sd-login that libseat calls.  The bus is the system
    bus and the destination of all calls is org.freedesktop.login1.  What is written
    through pointers is in the reply; the reply to [sd_bus_process] names the
    handler that sd-bus runs, and [sd_bus_processed] is the return from it. *)
Inductive bus_arg := BusU (u : Z) | BusB (b : bool) | BusS (s : bytes).

Inductive bus_call :=
| sd_bus_default_system
| sd_bus_unref
| sd_bus_call_method (path interface member : bytes) (args : list bus_arg)
| sd_bus_call_method_async (path interface member : bytes)
| sd_bus_get_property_trivial (path interface member : bytes)
| sd_bus_match_signal (path interface member : bytes)
| sd_bus_get_n_queued_read
| sd_bus_get_n_queued_write
| sd_bus_get_fd
| sd_bus_process
| sd_bus_processed (ret : Z)
| sd_bus_message_read (types : bytes)
| sd_bus_message_read_basic (type : bytes)
| sd_bus_message_enter_container (type contents : bytes)
| sd_bus_message_exit_container
| sd_bus_message_skip (types : bytes)
| sd_bus_message_is_method_error
| sd_bus_message_unref
| sd_session_is_active (session : bytes)
| sd_pid_get_session (pid : Z)
| sd_uid_get_display (uid : Z)
| sd_session_get_seat (session : bytes).

Inductive call :=
| Calloc
| Strdup (s : bytes)
| Open (path : bytes) (flags : list open_flag)
| Close (fd : Z)
| Dup (fd : Z)
| Realpath (path : bytes)
| Ioctl (fd : Z) (req : ioctl_request)
| Sendmsg (fd : Z) (data ctl : bytes)
| Recvmsg (fd : Z) (room : Z)
| Accept (fd : Z)
| Shutdown (fd : Z)
| Getpeer (fd : Z)
| Fcntl (fd : Z) (cmd : fcntl_cmd)
| Geteuid
| Realloc (bytes : Z)
| Pipe
| Pipe2 (flags : list open_flag)
| Write (fd : Z) (data : bytes)
| Poll (fds : list (Z * Z)) (timeout : Z)   (* descriptors, and the events asked for *)
| Sigaction (sig : Z) (handler : bool)   (* the program's handler, or SIG_DFL *)
| Pthread_create
| Pthread_cancel
| Pthread_join
| Socket
| Socketpair
| Fork                             (* as the parent sees it *)
| Connect (fd : Z) (path : bytes)
| Bind (fd : Z) (path : bytes)
| Listen (fd : Z)
| Chmod (path : bytes) (mode : Z)
| Chown (path : bytes) (uid gid : Z)
| Lstat (path : bytes)
| Unlink (path : bytes)
| Getpwnam (name : bytes)
| Getgrnam (name : bytes)
| Waitpid (pid : Z) (nohang : bool)
| Read (fd : Z) (room : Z)
| Getuid
| Getgid
| Getpid
| Setuid (uid : Z)
| Setgid (gid : Z)
| Kill (pid sig : Z)
| Setenv (name value : bytes)
| Execve (path : bytes) (argv env : list bytes)   (* returns only if it fails *)
| Execvp (file : bytes) (argv : list bytes)       (* likewise *)
| Stat (path : bytes)
| Fstat (fd : Z)
| Clock_gettime
| Isatty (fd : Z)
| Fprintf_stderr (text : bytes)
| Bus (c : bus_call)
| Notify (enabled : bool).         (* a call of the application's listener *)

(** One control message of a received datagram. *)
Record cmsg := Cmsg {
  cmsg_rights : bool;      (* level SOL_SOCKET and type SCM_RIGHTS *)
  cmsg_data : bytes
}.

Record reply := Reply {
  r_ret : Z;               (* the return value *)
  r_errno : Z;             (* errno, where [r_ret] is -1 *)
  r_vals : list Z;         (* integers written through pointer arguments *)
  r_bytes : bytes;         (* bytes written through pointer arguments *)
  r_cmsgs : list cmsg
}.

Definition r_val (n : nat) (r : reply) : Z := nth n (r_vals r) 0.

(** A reply that only returns a value. *)
Definition reply_ret (z : Z) : reply := Reply z 0 [] [] [].
Definition reply_err (e : Z) : reply := Reply (-1) e [] [] [].

(** ** The events of poll(2) *)

Definition POLLIN : Z := 1.
Definition POLLOUT : Z := 4.
Definition POLLERR : Z := 8.
Definition POLLHUP : Z := 16.

(** [mask & bits], as a condition. *)
Definition has_event (mask bits : Z) : bool := negb (Z.land mask bits =? 0).

Definition history := list (call * reply).

(** The operating system: its reply to a call after a history, latest call
    first.  [eintr_limit] is the number of times an interrupted call is issued
    again before it settles. *)
Class Kernel := {
  answer : history -> call -> reply;
  eintr_limit : nat;
  has_hidiocrevoke : bool;  (* the build's kernel headers define HIDIOCREVOKE *)
  libseat_build : bool      (* the build is the one inside libseat: LIBSEAT is defined *)
}.

Definition is_eintr (r : reply) : bool := (r_ret r =? -1) && (r_errno r =? EINTR).

(** Issued again and again, the call settles within [n] attempts. *)
Fixpoint settles `{Kernel} (n : nat) (h : history) (c : call) : Prop :=
  match n with
  | O => False
  | S n' =>
      let r := answer h c in
      is_eintr r = false \/ settles n' ((c, r) :: h) c
  end.

(** What the program relies on, all of it documented: [sendmsg] on a stream
    socket with data to send reports an error or between one and all of the
    bytes; [recvmsg] stores as many bytes as it reports, at most the room given
    to it, and passes whole descriptors; the VT a switch event names is numbered
    from one; a socket pair is two descriptors; interrupted calls settle. *)
Class KernelOk `{Kernel} := {
  sendmsg_ret : forall h fd data ctl,
    data <> [] ->
    r_ret (answer h (Sendmsg fd data ctl)) = -1 \/
    1 <= r_ret (answer h (Sendmsg fd data ctl)) <= Z.of_nat (length data);
  recvmsg_ret : forall h fd room,
    r_ret (answer h (Recvmsg fd room)) = -1 \/
    (0 <= r_ret (answer h (Recvmsg fd room)) <= room /\
     Z.of_nat (length (r_bytes (answer h (Recvmsg fd room)))) =
       r_ret (answer h (Recvmsg fd room)));
  recvmsg_bytes : forall h fd room,
    Forall is_byte (r_bytes (answer h (Recvmsg fd room)));
  recvmsg_cmsgs : forall h fd room,
    Forall (fun m => Forall is_byte (cmsg_data m)) (r_cmsgs (answer h (Recvmsg fd room)));
  waitevent_vt : forall h fd,
    r_ret (answer h (Ioctl fd VT_WAITEVENT)) <> -1 ->
    0 < r_val 2 (answer h (Ioctl fd VT_WAITEVENT)) < 2 ^ 31;
  socketpair_fds : forall h,
    r_ret (answer h Socketpair) <> -1 ->
    0 <= r_val 0 (answer h Socketpair) /\ 0 <= r_val 1 (answer h Socketpair);
  eintr_settles : forall h c, settles eintr_limit h c
}.

(** ** The monad *)

Record sys := Sys {
  trace : history;
  errno : Z
}.

Inductive outcome (A : Type) :=
| Done (a : A)
| Aborted               (* a failed assert, or abort() *)
| Fault                 (* a NULL or dangling pointer is dereferenced *)
| Hang.                 (* a loop ran out of its bound *)
Arguments Done {A} a.
Arguments Aborted {A}.
Arguments Fault {A}.
Arguments Hang {A}.

Definition M (S A : Type) : Type := S -> sys -> outcome (A * S * sys).

#[global] Instance M_ret {S} : MRet (M S) := fun A a s w => Done (a, s, w).
#[global] Instance M_bind {S} : MBind (M S) := fun A B f m s w =>
  match m s w with
  | Done (a, s', w') => f a s' w'
  | Aborted => Aborted
  | Fault => Fault
  | Hang => Hang
  end.

Section Operations.
Context {S : Type}.

Definition get : M S S := fun s w => Done (s, s, w).
Definition gets {A} (f : S -> A) : M S A := fun s w => Done (f s, s, w).
Definition modify (f : S -> S) : M S () := fun s w => Done ((), f s, w).
Definition get_errno : M S Z := fun s w => Done (errno w, s, w).
Definition set_errno (e : Z) : M S () := fun s w => Done ((), s, Sys (trace w) e).
Definition abort {A} : M S A := fun _ _ => Aborted.
Definition fault {A} : M S A := fun _ _ => Fault.
Definition hang {A} : M S A := fun _ _ => Hang.
Definition assert_ (b : bool) : M S () := if b then mret () else abort.

(** Fail with an [errno], returning [a]. *)
Definition fail_with {A} (e : Z) (a : A) : M S A := set_errno e;; mret a.

(** Dereference a pointer that may be NULL. *)
Definition deref {A} (o : option A) : M S A :=
  match o with Some a => mret a | None => fault end.

Definition logged (w : sys) (c : call) (r : reply) : sys :=
  Sys ((c, r) :: trace w) (if r_ret r =? -1 then r_errno r else errno w).

Definition ext `{Kernel} (c : call) : M S reply := fun s w =>
  let r := answer (trace w) c in Done (r, s, logged w c r).

(** [do { r = c; if (r == -1 && errno != EINTR) return -1; } while (r == -1)] *)
Fixpoint ext_retry `{Kernel} (n : nat) (c : call) : M S reply :=
  match n with
  | O => hang
  | Datatypes.S n' => r ← ext c; if is_eintr r then ext_retry n' c else mret r
  end.

(** [for] over a linked list whose body leaves the list alone. *)
Fixpoint for_each {A} (f : A -> M S ()) (l : list A) : M S () :=
  match l with
  | [] => mret ()
  | x :: l' => f x;; for_each f l'
  end.

End Operations.

(** Run an operation on a part of the state reached through a pointer. *)
Definition zoom {S T A} (get : S -> option T) (put : T -> S -> S) (m : M T A) : M S A :=
  fun s w =>
    match get s with
    | None => Fault
    | Some t =>
        match m t w with
        | Done (a, t', w') => Done (a, put t' s, w')
        | Aborted => Aborted
        | Fault => Fault
        | Hang => Hang
        end
    end.

(** ** Weakest preconditions (total correctness) *)

Definition wp {S A} (m : M S A) (Q : A -> S -> sys -> Prop) (s : S) (w : sys) : Prop :=
  match m s w with
  | Done (a, s', w') => Q a s' w'
  | _ => False
  end.

Create HintDb wp.

Section Rules.
Context {S : Type}.
Implicit Types (s : S) (w : sys).

Lemma wp_ret {A} (a : A) Q s w : Q a s w -> wp (mret a) Q s w.
Proof. done. Qed.

Lemma wp_bind {A B} (m : M S A) (f : A -> M S B) Q s w :
  wp m (fun a => wp (f a) Q) s w -> wp (m ≫= f) Q s w.
Proof.
  unfold wp, mbind, M_bind. by destruct (m s w) as [[[a s'] w']| | |].
Qed.

Lemma wp_mono {A} (m : M S A) (P Q : A -> S -> sys -> Prop) s w :
  wp m P s w -> (forall a s' w', P a s' w' -> Q a s' w') -> wp m Q s w.
Proof. unfold wp. destruct (m s w) as [[[a s'] w']| | |]; auto. Qed.

Lemma wp_and {A} (m : M S A) (P Q : A -> S -> sys -> Prop) s w :
  wp m P s w -> wp m Q s w -> wp m (fun a s' w' => P a s' w' /\ Q a s' w') s w.
Proof. unfold wp. destruct (m s w) as [[[a s'] w']| | |]; auto. Qed.

(** A total specification is a run that returns. *)
Lemma wp_done {A} (m : M S A) Q s w :
  wp m Q s w -> exists a s' w', m s w = Done (a, s', w') /\ Q a s' w'.
Proof. unfold wp. destruct (m s w) as [[[a s'] w']| | |]; [|done..]. eauto 6. Qed.

(** A specification with one outcome. *)
Lemma wp_exact {A} (m : M S A) a s' w' s w :
  wp m (fun a1 s1 w1 => a1 = a /\ s1 = s' /\ w1 = w') s w -> m s w = Done (a, s', w').
Proof. intros (? & ? & ? & -> & -> & -> & ->)%wp_done. done. Qed.

Lemma wp_get Q s w : Q s s w -> wp get Q s w.
Proof. done. Qed.

Lemma wp_gets {A} (f : S -> A) Q s w : Q (f s) s w -> wp (gets f) Q s w.
Proof. done. Qed.

Lemma wp_modify f Q s w : Q () (f s) w -> wp (modify f) Q s w.
Proof. done. Qed.

Lemma wp_get_errno Q s w : Q (errno w) s w -> wp get_errno Q s w.
Proof. done. Qed.

Lemma wp_set_errno e Q s w : Q () s (Sys (trace w) e) -> wp (set_errno e) Q s w.
Proof. done. Qed.

Lemma wp_fail_with {A} e (a : A) Q s w : Q a s (Sys (trace w) e) -> wp (fail_with e a) Q s w.
Proof. done. Qed.

Lemma wp_assert b Q s w : b = true -> Q () s w -> wp (assert_ b) Q s w.
Proof. by intros ->. Qed.

Lemma wp_deref {A} (o : option A) a Q s w : o = Some a -> Q a s w -> wp (deref o) Q s w.
Proof. by intros ->. Qed.

Lemma wp_ext `{Kernel} c Q s w :
  (forall r, r = answer (trace w) c -> Q r s (logged w c r)) -> wp (ext c) Q s w.
Proof. intros HQ. by apply HQ. Qed.

(** The history only grows. *)
Definition sys_le (w w' : sys) : Prop := exists t, trace w' = t ++ trace w.

#[global] Instance sys_le_preorder : PreOrder sys_le.
Proof.
  split.
  - intros w. by exists [].
  - intros w1 w2 w3 [t1 E1] [t2 E2]. exists (t2 ++ t1). by rewrite E2, E1, app_assoc.
Qed.

Lemma sys_le_logged w c r : sys_le w (logged w c r).
Proof. by exists [(c, r)]. Qed.

Lemma sys_le_errno w e : sys_le w (Sys (trace w) e).
Proof. by exists []. Qed.

(** A call failed, or a question for a VT got no VT as its answer. *)
Definition is_vt_query (c : call) : bool :=
  match c with Ioctl _ VT_GETSTATE | Ioctl _ VT_OPENQRY => true | _ => false end.

Definition bad_reply (c : call) (r : reply) : Prop :=
  r_ret r = -1 \/ is_vt_query c = true /\ r_val 0 r <= 0.

(** One of the calls in between was refused in that sense. *)
Definition refused (w w' : sys) : Prop :=
  exists t x, trace w' = t ++ trace w /\ x ∈ t /\ bad_reply x.1 x.2.

Lemma refused_logged w c r : bad_reply c r -> refused w (logged w c r).
Proof. intros Hr. exists [(c, r)], (c, r). split; [done|]. split; [left|done]. Qed.

Lemma refused_l w0 w1 w2 : sys_le w0 w1 -> refused w1 w2 -> refused w0 w2.
Proof.
  intros [t0 E0] (t & x & E & Hx & Hr). exists (t ++ t0), x. rewrite E, E0, app_assoc.
  split; [done|]. rewrite elem_of_app. auto.
Qed.

Lemma refused_r w0 w1 w2 : refused w0 w1 -> sys_le w1 w2 -> refused w0 w2.
Proof.
  intros (t & x & E & Hx & Hr) [t2 E2]. exists (t2 ++ t), x. rewrite E2, E, app_assoc.
  split; [done|]. rewrite elem_of_app. auto.
Qed.

Lemma refused_le w w' : refused w w' -> sys_le w w'.
Proof. intros (t & x & E & _). by exists t. Qed.

(** The interrupted attempts before a call that settled. *)
Definition interrupted (c : call) (t : history) : Prop :=
  Forall (fun x => x.1 = c /\ is_eintr x.2 = true) t.

Lemma wp_retry `{KernelOk} c Q s w :
  (forall r t e, interrupted c t -> is_eintr r = false -> r = answer (t ++ trace w) c ->
     Q r s (logged (Sys (t ++ trace w) e) c r)) ->
  wp (ext_retry eintr_limit c) Q s w.
Proof.
  intros HQ. pose proof (eintr_settles (trace w) c) as Hs.
  revert w HQ Hs. generalize eintr_limit as n.
  induction n as [|n IH]; intros [h e] HQ Hs; [done|].
  cbn [ext_retry]. apply wp_bind, wp_ext. simpl. intros r ->.
  destruct (is_eintr (answer h c)) eqn:E.
  - apply IH.
    + intros r t e' Ht Hr Hans. simpl in Hans |- *.
      assert (Ea : t ++ (c, answer h c) :: h = (t ++ [(c, answer h c)]) ++ h)
        by by rewrite <- app_assoc.
      rewrite Ea in Hans |- *. apply HQ; [|done..]. apply Forall_app. split; [done|].
      by apply Forall_singleton.
    + cbn [settles trace] in Hs. rewrite E in Hs. by destruct Hs.
  - apply wp_ret. apply (HQ _ [] e); [constructor|done..].
Qed.

Lemma wp_for_each {A} (I : list A -> S -> sys -> Prop) (f : A -> M S ()) l Q s w :
  I l s w ->
  (forall x l' s' w', I (x :: l') s' w' -> wp (f x) (fun _ => I l') s' w') ->
  (forall s' w', I [] s' w' -> Q () s' w') ->
  wp (for_each f l) Q s w.
Proof.
  intros HI Hf HQ. revert s w HI. induction l as [|x l IH]; intros s w HI.
  - by apply wp_ret, HQ.
  - apply wp_bind. eapply wp_mono; [by apply Hf|]. intros [] s' w'. apply IH.
Qed.

End Rules.

Lemma wp_zoom {S T A} (get : S -> option T) put (m : M T A) t Q s w :
  get s = Some t ->
  wp m (fun a t' w' => Q a (put t' s) w') t w ->
  wp (zoom get put m) Q s w.
Proof.
  unfold wp, zoom. intros ->. by destruct (m t w) as [[[a t'] w']| | |].
Qed.

#[export] Hint Resolve sys_le_logged sys_le_errno : wp.

(** One symbolic step of a translated function: sequencing, the primitives that
    cannot fail, and tests, decided at once where they compare literals. *)
Ltac is_Z_literal x := lazymatch x with Z0 => idtac | Zpos _ => idtac | Zneg _ => idtac end.
Ltac wp_if b :=
  lazymatch b with
  | Z.eqb ?x ?y => is_Z_literal x; is_Z_literal y; cbn [Z.eqb Pos.eqb]
  | Z.ltb ?x ?y => is_Z_literal x; is_Z_literal y; cbn [Z.ltb Z.compare Pos.compare Pos.compare_cont]
  | negb ?c => wp_if c; cbn [negb]
  | true => idtac
  | false => idtac
  end.
Ltac wp_step_core :=
  lazymatch goal with
  | |- wp (mbind _ _) _ _ _ => apply wp_bind
  | |- wp (mret _) _ _ _ => apply wp_ret
  | |- wp get _ _ _ => apply wp_get
  | |- wp (gets _) _ _ _ => apply wp_gets
  | |- wp (modify _) _ _ _ => apply wp_modify
  | |- wp get_errno _ _ _ => apply wp_get_errno
  | |- wp (set_errno _) _ _ _ => apply wp_set_errno
  | |- wp (fail_with _ _) _ _ _ => apply wp_fail_with
  | |- wp (if ?b then _ else _) _ _ _ => wp_if b; cbn iota
  end.
Ltac wp_step := cbn beta iota; wp_step_core; cbn beta iota.
Ltac wp_steps := repeat wp_step.
(** Case analysis on the next test. *)
Ltac wp_case :=
  cbn beta iota;
  lazymatch goal with
  | |- wp (if ?b then _ else _) _ _ _ => let E := fresh "E" in destruct b eqn:E
  end.
