(* ===== verification/Waiting.v ===== *)
(** * Programs that wait

    Some loops wait for another process, and run out of turns if it does not do its
    part.  [wlp] is partial correctness: [wp] for a program that may still be
    waiting ([Hang]).  [returns] says that it is not. *)
From S2P Require Import Prelude Kernel.

(** ** Programs that may wait *)

(** Like [wp], but the program may be waiting, and it may fail an assertion where
    [A] holds. *)
Definition wlp {S B} (A : Prop) (m : M S B) (Q : B -> S -> sys -> Prop) (s : S) (w : sys) : Prop :=
  match m s w with
  | Done (a, s', w') => Q a s' w'
  | Hang => True
  | Aborted => A
  | Fault => False
  end.

Section Wlp.
Context {S : Type} (A : Prop).

Lemma wlp_wp {B} (m : M S B) Q s w : wp m Q s w -> wlp A m Q s w.
Proof. unfold wp, wlp. by destruct (m s w) as [[[a s'] w']| | |]. Qed.

Lemma wlp_bind {B C} (m : M S B) (f : B -> M S C) Q s w :
  wlp A m (fun a => wlp A (f a) Q) s w -> wlp A (m ≫= f) Q s w.
Proof. unfold wlp, mbind, M_bind. by destruct (m s w) as [[[a s'] w']| | |]. Qed.

Lemma wlp_mono {B} (m : M S B) (P Q : B -> S -> sys -> Prop) s w :
  wlp A m P s w -> (forall a s' w', P a s' w' -> Q a s' w') -> wlp A m Q s w.
Proof. unfold wlp. destruct (m s w) as [[[a s'] w']| | |]; auto. Qed.

(** Sequencing after a part that does not wait. *)
Lemma wlp_seq {B C} (m : M S B) (f : B -> M S C) (P : B -> S -> sys -> Prop) Q s w :
  wp m P s w -> (forall a s' w', P a s' w' -> wlp A (f a) Q s' w') -> wlp A (m ≫= f) Q s w.
Proof. intros Hm Hf. apply wlp_bind, wlp_wp. by eapply wp_mono. Qed.

(** What an assertion must hold for, unless it may fail. *)
Lemma wlp_assert b Q (s : S) w : (b = false -> A) -> (b = true -> Q () s w) -> wlp A (assert_ b) Q s w.
Proof. intros Hf Ht. destruct b; [exact (Ht eq_refl)|exact (Hf eq_refl)]. Qed.

Lemma wlp_ret {B} (a : B) Q (s : S) w : Q a s w -> wlp A (mret a) Q s w.
Proof. done. Qed.

Lemma wlp_get_errno Q (s : S) w : Q (errno w) s w -> wlp A get_errno Q s w.
Proof. done. Qed.

Lemma wlp_ext `{Kernel} c Q (s : S) w :
  (forall r, r = answer (trace w) c -> Q r s (logged w c r)) -> wlp A (ext c) Q s w.
Proof. intros HQ. by apply HQ. Qed.

End Wlp.

Lemma wlp_weaken {S B} (A A' : Prop) (m : M S B) Q s w :
  (A -> A') -> wlp A m Q s w -> wlp A' m Q s w.
Proof. unfold wlp. destruct (m s w) as [[[a s'] w']| | |]; auto. Qed.

(** ** Programs that return *)

Definition returns {S A} (m : M S A) (s : S) (w : sys) : Prop := m s w <> Hang.

Lemma returns_wp {S A} (m : M S A) Q s w : wp m Q s w -> returns m s w.
Proof. unfold wp, returns. by destruct (m s w) as [[[a s'] w']| | |]. Qed.

Lemma returns_bind {S A B} (m : M S A) (f : A -> M S B) s w :
  returns m s w -> (forall a s' w', m s w = Done (a, s', w') -> returns (f a) s' w') -> returns (m ≫= f) s w.
Proof.
  unfold returns, mbind, M_bind. intros Hm Hf. destruct (m s w) as [[[a s'] w']| | |]; try done. by apply Hf.
Qed.

(** After a part with a specification. *)
Lemma returns_seq {S A B} (m : M S A) (f : A -> M S B) (P : A -> S -> sys -> Prop) s w :
  wp m P s w -> (forall a s' w', P a s' w' -> returns (f a) s' w') -> returns (m ≫= f) s w.
Proof.
  intros Hm Hf. apply returns_bind; [by eapply returns_wp|]. intros a s' w' E. apply Hf.
  unfold wp in Hm. by rewrite E in Hm.
Qed.

Lemma wp_returns {S A} (m : M S A) Q s w : wlp False m Q s w -> returns m s w -> wp m Q s w.
Proof. unfold wlp, wp, returns. by destruct (m s w) as [[[a s'] w']| | |]. Qed.
