(* ===== verification/LinkedList.v ===== *)
(** * common/linked_list.c: the intrusive doubly linked list

    Nodes are [struct linked_list] values at addresses of a heap; a list is a
    cycle through a head node that carries no element.  The operations are
    translated pointer by pointer, with their assertions, and refined against
    Rocq lists: the other components of the library use plain lists for the
    program's linked lists, which these theorems justify. *)
From S2P Require Import Prelude Kernel.

Record linked_list := Node {
  prev : option nat;       (* None is NULL *)
  next : option nat
}.

Abbreviation heap := (gmap nat linked_list).

(** Memory accesses through a [struct linked_list *]. *)
Definition load (a : nat) : M heap linked_list := h ← get; deref (h !! a).
Definition store_next (a : nat) (v : option nat) : M heap () :=
  n ← load a; modify <[a := Node (prev n) v]>.
Definition store_prev (a : nat) (v : option nat) : M heap () :=
  n ← load a; modify <[a := Node v (next n)]>.

Definition non_null (n : linked_list) : bool :=
  bool_decide (prev n ≠ None) && bool_decide (next n ≠ None).

Definition linked_list_init (lst : nat) : M heap () :=
  store_next lst (Some lst);;
  store_prev lst (Some lst).

Definition linked_list_insert (lst elem : nat) : M heap () :=
  l ← load lst;
  assert_ (non_null l);;
  e ← load elem;
  assert_ (bool_decide (prev e = next e));;
  store_prev elem (Some lst);;
  l ← load lst;
  store_next elem (next l);;
  store_next lst (Some elem);;
  e ← load elem;
  n ← deref (next e);
  store_prev n (Some elem).

Definition linked_list_remove (elem : nat) : M heap () :=
  e ← load elem;
  assert_ (non_null e);;
  p ← deref (prev e);
  store_next p (next e);;
  e ← load elem;
  n ← deref (next e);
  store_prev n (prev e);;
  store_next elem None;;
  store_prev elem None.

Definition linked_list_empty (lst : nat) : M heap bool :=
  l ← load lst;
  assert_ (non_null l);;
  mret (bool_decide (next l = Some lst)).

Definition linked_list_take (target source : nat) : M heap () :=
  b ← linked_list_empty source;
  if (b : bool) then mret () else
  s ← load source;
  n ← deref (next s);
  store_prev n (Some target);;
  s ← load source;
  p ← deref (prev s);
  t ← load target;
  store_next p (next t);;
  t ← load target;
  n ← deref (next t);
  s ← load source;
  store_prev n (prev s);;
  s ← load source;
  store_next target (next s);;
  linked_list_init source.

(** ** The abstraction *)

Definition nx (h : heap) (a : nat) : option nat := h !! a ≫= next.
Definition pv (h : heap) (a : nat) : option nat := h !! a ≫= prev.

(** Consecutive addresses of a path point at each other. *)
Fixpoint linked (h : heap) (path : list nat) : Prop :=
  match path with
  | a :: ((b :: _) as rest) => nx h a = Some b /\ pv h b = Some a /\ linked h rest
  | _ => True
  end.

(** [l] heads a well-formed cycle through exactly the elements [xs], in order. *)
Definition is_list (h : heap) (l : nat) (xs : list nat) : Prop :=
  linked h (l :: xs ++ [l]) /\ NoDup (l :: xs).

(** The elements [for (e = l->next; e != l; e = e->next)] visits; [fuel] bounds
    the number of steps. *)
Fixpoint walk (h : heap) (l : nat) (fuel : nat) (e : option nat) : option (list nat) :=
  match e, fuel with
  | Some e', S fuel' =>
      if decide (e' = l) then Some []
      else cons e' <$> walk h l fuel' (nx h e')
  | _, _ => None
  end.

(** ** Paths *)

Section Paths.
Implicit Types (h : heap) (p q : list nat).

Lemma linked_app h p a q :
  linked h (p ++ a :: q) <-> linked h (p ++ [a]) /\ linked h (a :: q).
Proof.
  induction p as [|x p IH].
  { simpl. tauto. }
  destruct p as [|y p]; simpl in *; tauto.
Qed.

Lemma linked_frame h h' p :
  (forall a, a ∈ removelast p -> nx h' a = nx h a) ->
  (forall b, b ∈ tail p -> pv h' b = pv h b) ->
  linked h p -> linked h' p.
Proof.
  induction p as [|a [|b p] IH]; [done..|]. intros Hn Hp (H1 & H2 & H3).
  split; [|split].
  - rewrite Hn; [done|]. simpl. set_solver.
  - rewrite Hp; [done|]. simpl. set_solver.
  - apply IH; [..|done].
    + intros x Hx. apply Hn. simpl in *. set_solver.
    + intros x Hx. apply Hp. simpl in *. set_solver.
Qed.

Lemma nx_valid h a b : nx h a = Some b -> is_Some (h !! a).
Proof. unfold nx. destruct (h !! a); [eauto|done]. Qed.

Lemma pv_valid h a b : pv h a = Some b -> is_Some (h !! a).
Proof. unfold pv. destruct (h !! a); [eauto|done]. Qed.

Lemma walk_S h l n e :
  walk h l (S n) (Some e) = if decide (e = l) then Some [] else cons e <$> walk h l n (nx h e).
Proof. done. Qed.

Lemma walk_path h l xs a :
  linked h (a :: xs ++ [l]) -> l ∉ xs -> walk h l (S (length xs)) (nx h a) = Some xs.
Proof.
  revert a; induction xs as [|x xs IH]; intros a Hl Hin.
  - destruct Hl as [-> _]. rewrite walk_S. by rewrite decide_True.
  - destruct Hl as (-> & _ & Hl). rewrite walk_S, decide_False by set_solver.
    cbn [length]. rewrite IH; [done|done|set_solver].
Qed.

(** A traversal of a well-formed list sees exactly its elements, in order, and
    ends. *)
Lemma walk_list h l xs : is_list h l xs -> walk h l (S (length xs)) (nx h l) = Some xs.
Proof. intros [Hl [Hin _]%NoDup_cons]. by apply walk_path. Qed.

Lemma is_list_inj h l xs ys : is_list h l xs -> is_list h l ys -> xs = ys.
Proof.
  intros Hx Hy.
  assert (walk_mono : forall n m e r, (n <= m)%nat ->
    walk h l n e = Some r -> walk h l m e = Some r).
  { induction n as [|n IH]; intros [|m] e r Hle; destruct e; simpl; try done; [lia|].
    case_decide; [done|]. intros (r' & ? & ->)%fmap_Some. apply fmap_Some.
    exists r'. split; [|done]. apply IH; [lia|done]. }
  apply walk_list, (walk_mono _ (S (length xs + length ys))) in Hx; [|lia].
  apply walk_list, (walk_mono _ (S (length xs + length ys))) in Hy; [|lia].
  congruence.
Qed.

End Paths.

(** ** Symbolic execution

    The rules speak of [nx] and [pv] only, so that a chain of stores is read
    back as a chain of equations. *)

Section Exec.
Implicit Types (h : heap).

Lemma wp_load a Q h w :
  is_Some (h !! a) -> Q (Node (pv h a) (nx h a)) h w -> wp (load a) Q h w.
Proof.
  intros [n E] HQ. unfold load. wp_steps. eapply wp_deref; [done|].
  unfold pv, nx in HQ. rewrite E in HQ. by destruct n.
Qed.

Lemma wp_store_next a v Q h w :
  is_Some (h !! a) ->
  (forall h', (forall b, is_Some (h !! b) -> is_Some (h' !! b)) ->
     (forall b, nx h' b = if decide (b = a) then v else nx h b) ->
     (forall b, pv h' b = pv h b) -> Q () h' w) ->
  wp (store_next a v) Q h w.
Proof.
  intros Ha HQ. unfold store_next. apply wp_bind, wp_load; [done|]. apply wp_modify.
  destruct Ha as [n E]. apply HQ; intros b; unfold nx, pv; simpl;
    destruct (decide (b = a)) as [->|]; simplify_map_eq; naive_solver.
Qed.

Lemma wp_store_prev a v Q h w :
  is_Some (h !! a) ->
  (forall h', (forall b, is_Some (h !! b) -> is_Some (h' !! b)) ->
     (forall b, nx h' b = nx h b) ->
     (forall b, pv h' b = if decide (b = a) then v else pv h b) -> Q () h' w) ->
  wp (store_prev a v) Q h w.
Proof.
  intros Ha HQ. unfold store_prev. apply wp_bind, wp_load; [done|]. apply wp_modify.
  destruct Ha as [n E]. apply HQ; intros b; unfold nx, pv; simpl;
    destruct (decide (b = a)) as [->|]; simplify_map_eq; naive_solver.
Qed.

End Exec.

(** Steps one store or load, discharging validity from the context. *)
Ltac ll_valid := solve [eauto using nx_valid, pv_valid
  | repeat match goal with H : forall b, is_Some _ -> is_Some _ |- _ => apply H; clear H end;
    eauto using nx_valid, pv_valid].
Ltac ll_step :=
  lazymatch goal with
  | |- wp (mbind _ _) _ _ _ => apply wp_bind
  | |- wp (load _) _ _ _ => apply wp_load; [ll_valid|cbn [prev next]]
  | |- wp (store_next _ _) _ _ _ =>
      apply wp_store_next; [ll_valid|
        let h := fresh "h" in let V := fresh "V" in let N := fresh "N" in
        let P := fresh "P" in intros h V N P]
  | |- wp (store_prev _ _) _ _ _ =>
      apply wp_store_prev; [ll_valid|
        let h := fresh "h" in let V := fresh "V" in let N := fresh "N" in
        let P := fresh "P" in intros h V N P]
  end.

(** Reads back the chain of stores in [nx] or [pv] of the last heap. *)
Ltac ll_read := repeat match goal with
  | N : forall b, nx ?h b = _ |- context [nx ?h _] => rewrite !N
  | P : forall b, pv ?h b = _ |- context [pv ?h _] => rewrite !P
  end.
Ltac ll_cases := ll_read; repeat case_decide; simplify_eq; try congruence.

Section Refinement.
Implicit Types (h : heap) (w : sys).

Lemma is_list_frame h h' l ys :
  (forall a, a ∈ l :: ys -> nx h' a = nx h a /\ pv h' a = pv h a) ->
  is_list h l ys -> is_list h' l ys.
Proof.
  intros Heq [Hl Hnd]. split; [|done]. eapply linked_frame; [..|done].
  - intros a Ha. apply Heq.
    change (l :: ys ++ [l]) with ((l :: ys) ++ [l]) in Ha.
    rewrite removelast_last in Ha. done.
  - intros b Hb. apply Heq. simpl in Hb.
    apply elem_of_app in Hb as [? | ->%list_elem_of_singleton]; [by right|left].
Qed.

Lemma linked_list_init_ok h l w :
  is_Some (h !! l) ->
  wp (linked_list_init l) (fun _ h' w' => w' = w /\ is_list h' l [] /\
    (forall b, is_Some (h !! b) -> is_Some (h' !! b)) /\
    (forall b, b ≠ l -> nx h' b = nx h b /\ pv h' b = pv h b)) h w.
Proof.
  intros Hv. unfold linked_list_init. repeat ll_step.
  split; [done|]. split.
  - split; [|apply NoDup_singleton]. simpl. split; [|split; [|done]]; ll_cases.
  - split; [naive_solver|]. intros b Hb. split; ll_cases.
Qed.

(** The first and the last node of the cycle. *)
Lemma is_list_first h l xs n p :
  is_list h l xs -> xs ++ [l] = n :: p -> nx h l = Some n /\ pv h n = Some l.
Proof. intros [Hl _] E. rewrite E in Hl. simpl in Hl. tauto. Qed.

Lemma is_list_last h l xs : is_list h l xs -> exists m, pv h l = Some m.
Proof.
  intros [Hl _]. destruct (decide (xs = [])) as [->|Hx].
  { destruct Hl as (_ & ? & _). eauto. }
  destruct (exists_last Hx) as (ys & y & ->). rewrite <- app_assoc in Hl.
  apply (linked_app h (l :: ys) y [l]) in Hl as [_ (_ & ? & _)]. eauto.
Qed.

Lemma is_list_nodes h l xs n p :
  is_list h l xs -> xs ++ [l] = n :: p -> NoDup (n :: p) /\ (forall b, b ∈ n :: p <-> b ∈ l :: xs).
Proof.
  intros [_ [Hin Hnd]%NoDup_cons] <-. split.
  - apply NoDup_app. split_and!; [done| |apply NoDup_singleton]. clear -Hin. set_solver.
  - clear. set_solver.
Qed.

Lemma NoDup_swap (a b : nat) l : NoDup (a :: b :: l) -> NoDup (b :: a :: l).
Proof. rewrite !NoDup_cons. intros (H1 & H2 & H3). set_solver. Qed.

Lemma linked_list_insert_ok h l e xs w :
  is_list h l xs -> e ∉ l :: xs ->
  is_Some (h !! e) -> pv h e = nx h e ->
  wp (linked_list_insert l e) (fun _ h' w' => w' = w /\ is_list h' l (e :: xs) /\
    (forall b, b ∉ e :: l :: xs -> nx h' b = nx h b /\ pv h' b = pv h b)) h w.
Proof.
  intros HL He Hve Hpn. pose proof HL as [Hl Hnd].
  destruct (xs ++ [l]) as [|n p] eqn:Ex; [by destruct xs|].
  destruct (is_list_first _ _ _ _ _ HL Ex) as [Hnl Hpl].
  destruct (is_list_last _ _ _ HL) as [m Hm].
  destruct (is_list_nodes _ _ _ _ _ HL Ex) as [Hnp Hin].
  assert (e ≠ l) by (intros ->; apply He; left).
  assert (e ≠ n) by (intros ->; apply He, Hin; left).
  unfold linked_list_insert. ll_step. ll_step.
  ll_step. apply wp_assert; [by unfold non_null; simpl; rewrite Hnl, Hm|].
  ll_step. ll_step. ll_step. apply wp_assert; [by apply bool_decide_eq_true|].
  ll_step. ll_step. ll_step. ll_step. ll_step. ll_step. ll_step. ll_step. ll_step. ll_step.
  ll_step.
  eapply (wp_deref _ n); [ll_cases|].
  assert (is_Some (h2 !! n)) by (apply V1, V0, V; by eapply pv_valid).
  ll_step. split; [done|]. split.
  - split; [|apply (NoDup_swap e); by apply NoDup_cons].
    change ((e :: xs) ++ [l]) with (e :: (xs ++ [l])). rewrite Ex.
    split; [ll_cases|]. split; [ll_cases|]. split; [ll_cases|]. split; [ll_cases|].
    eapply linked_frame; [..|by destruct Hl as (_ & _ & Hl)].
    + intros a Ha. rewrite <- Ex, removelast_last in Ha.
      assert (a ≠ l) by (intros ->; by apply NoDup_cons in Hnd as []).
      assert (a ≠ e) by (intros ->; apply He; by right). ll_cases.
    + intros b Hb. simpl in Hb.
      assert (b ≠ e) by (intros ->; apply He, Hin; by right).
      assert (b ≠ n) by (intros ->; by apply NoDup_cons in Hnp as []). ll_cases.
  - intros b Hb.
    assert (b ≠ e) by (intros ->; apply Hb; left).
    assert (b ≠ l) by (intros ->; apply Hb; right; left).
    assert (b ≠ n) by (intros ->; apply Hb; right; apply Hin; left).
    split; ll_cases.
Qed.

Lemma linked_list_empty_ok h l xs w :
  is_list h l xs ->
  wp (linked_list_empty l) (fun b h' w' => w' = w /\ h' = h /\ b = bool_decide (xs = [])) h w.
Proof.
  intros HL. destruct (is_list_last _ _ _ HL) as [m Hm].
  unfold linked_list_empty. ll_step. ll_step. ll_step.
  destruct xs as [|x xs]; destruct HL as [(Hnx & _) Hnd].
  - apply wp_assert; [unfold non_null; simpl; by rewrite Hm, Hnx|]. wp_steps.
    simpl. by rewrite Hnx, bool_decide_eq_true_2.
  - apply wp_assert; [unfold non_null; simpl; by rewrite Hm, Hnx|]. wp_steps.
    simpl. split_and!; [done..|]. rewrite Hnx, !bool_decide_eq_false_2; [done..|].
    intros [= ->]. apply NoDup_cons in Hnd as [[] _]. left.
Qed.

(** The neighbours of a node. *)
Lemma is_list_around h l xs1 x xs2 pre p n post :
  is_list h l (xs1 ++ x :: xs2) -> l :: xs1 = pre ++ [p] -> xs2 ++ [l] = n :: post ->
  linked h (pre ++ [p]) /\ nx h p = Some x /\ pv h x = Some p /\ nx h x = Some n /\ pv h n = Some x /\
  linked h (n :: post) /\ NoDup (pre ++ p :: x :: xs2) /\ NoDup (xs1 ++ x :: n :: post).
Proof.
  intros [Hl Hnd] Epre Epost.
  assert (Hc : l :: (xs1 ++ x :: xs2) ++ [l] = pre ++ p :: x :: n :: post).
  { rewrite <- app_assoc. simpl. rewrite app_comm_cons, Epre, Epost, <- app_assoc. done. }
  rewrite Hc in Hl. apply linked_app in Hl as [Hl1 (Hnp & Hpx & Hnx & Hpn & Hl2)]. split_and!; try done.
  - rewrite app_comm_cons, Epre, <- app_assoc in Hnd. done.
  - rewrite <- Epost, app_comm_cons, app_assoc. apply NoDup_cons in Hnd as [Hin Hnd].
    apply NoDup_app. split_and!; [done| |apply NoDup_singleton]. clear -Hin. set_solver.
Qed.

(** The list without a node, when its neighbours are linked to each other. *)
Lemma is_list_unlink h h' l xs1 x xs2 pre p n post :
  is_list h l (xs1 ++ x :: xs2) -> l :: xs1 = pre ++ [p] -> xs2 ++ [l] = n :: post ->
  (forall b, b ≠ x -> nx h' b = if decide (b = p) then Some n else nx h b) ->
  (forall b, b ≠ x -> pv h' b = if decide (b = n) then Some p else pv h b) ->
  is_list h' l (xs1 ++ xs2).
Proof.
  intros HL Epre Epost Hn Hp.
  destruct (is_list_around _ _ _ _ _ _ _ _ _ HL Epre Epost) as (Hl1 & _ & _ & _ & _ & Hl2 & Hnd1 & Hnd2).
  apply NoDup_app in Hnd1 as (Hp1 & Hp2 & [Hp3 [Hp4 Hp5]%NoDup_cons]%NoDup_cons).
  apply NoDup_app in Hnd2 as (Hq1 & Hq2 & [Hq3 [Hq4 _]%NoDup_cons]%NoDup_cons).
  assert (p ≠ x /\ n ≠ x) as [? ?] by (split; intros ->; [apply Hp3|apply Hq3]; left).
  split.
  - assert (Hc : l :: (xs1 ++ xs2) ++ [l] = pre ++ p :: n :: post).
    { rewrite <- app_assoc, Epost, app_comm_cons, Epre, <- app_assoc. done. }
    rewrite Hc. apply linked_app. split; [|split; [rewrite Hn by done|split; [rewrite Hp by done|]]]; [|by case_decide..|].
    + eapply linked_frame; [..|exact Hl1].
      * intros a Ha. rewrite removelast_last in Ha.
        rewrite Hn, decide_False; [done|..]; intros ->; apply (Hp2 _ Ha); [left|right; left].
      * intros b Hb. assert (Hb' : b ∈ xs1) by (by rewrite <- Epre in Hb).
        rewrite Hp, decide_False; [done|..]; intros ->; apply (Hq2 _ Hb'); [right; left|left].
    + eapply linked_frame; [..|exact Hl2].
      * intros a Ha. rewrite <- Epost, removelast_last in Ha.
        rewrite Hn, decide_False; [done|..]; intros ->; [apply Hp3; by right|done].
      * intros b Hb. rewrite Hp, decide_False; [done|..]; intros ->; [done|apply Hq3; by right].
  - destruct HL as [_ Hnd]. eapply sublist_NoDup; [exact Hnd|]. apply sublist_skip, sublist_app; [done|].
    by apply sublist_cons.
Qed.

Lemma linked_list_remove_ok h l xs1 x xs2 w :
  is_list h l (xs1 ++ x :: xs2) ->
  wp (linked_list_remove x) (fun _ h' w' => w' = w /\ is_list h' l (xs1 ++ xs2) /\
    is_Some (h' !! x) /\ nx h' x = None /\ pv h' x = None /\
    (forall b, b ∉ l :: xs1 ++ x :: xs2 -> nx h' b = nx h b /\ pv h' b = pv h b)) h w.
Proof.
  intros HL. destruct (exists_last (l := l :: xs1)) as (pre & p & Epre); [done|].
  destruct (xs2 ++ [l]) as [|n post] eqn:Epost; [by destruct xs2|].
  destruct (is_list_around _ _ _ _ _ _ _ _ _ HL Epre Epost) as (_ & Hnp & Hpx & Hnx & Hpn & _ & Hnd1 & Hnd2).
  assert (p ≠ x).
  { intros ->. apply NoDup_app in Hnd1 as (_ & _ & [Hx _]%NoDup_cons). apply Hx. left. }
  assert (n ≠ x).
  { intros ->. apply NoDup_app in Hnd2 as (_ & _ & [Hx _]%NoDup_cons). apply Hx. left. }
  unfold linked_list_remove. do 2 ll_step.
  ll_step. apply wp_assert; [by unfold non_null; simpl; rewrite Hnx, Hpx|].
  ll_step. eapply (wp_deref _ p); [done|]. ll_step. ll_step. ll_step. ll_step.
  ll_step. eapply (wp_deref _ n); [ll_cases|].
  assert (is_Some (h0 !! n)) by (apply V; by eapply pv_valid).
  repeat ll_step. split; [done|]. split_and!; [|ll_valid|ll_cases|ll_cases|].
  - by eapply is_list_unlink; [exact HL|done|done|intros b Hb; ll_cases..].
  - intros b Hb. assert (b ≠ x) by (intros ->; clear -Hb; set_solver).
    assert (b ≠ p). { intros ->. apply Hb. assert (Hin : p ∈ l :: xs1) by (rewrite Epre; set_solver). clear -Hin. set_solver. }
    assert (b ≠ n). { intros ->. apply Hb. assert (Hin : n ∈ xs2 ++ [l]) by (rewrite Epost; left). clear -Hin. set_solver. }
    split; ll_cases.
Qed.

(** A node linked to itself only (as [linked_list_init] leaves it) is removed as
    well. *)
Lemma linked_list_remove_self_ok h x w :
  is_list h x [] ->
  wp (linked_list_remove x) (fun _ h' w' => w' = w /\
    nx h' x = None /\ pv h' x = None /\
    (forall b, b ≠ x -> nx h' b = nx h b /\ pv h' b = pv h b)) h w.
Proof.
  intros [(Hn & Hp & _) _].
  unfold linked_list_remove. do 2 ll_step.
  ll_step. apply wp_assert; [by unfold non_null; simpl; rewrite Hn, Hp|].
  ll_step. eapply (wp_deref _ x); [done|]. do 4 ll_step.
  ll_step. eapply (wp_deref _ x); [ll_cases|]. repeat ll_step.
  split_and!; [done|ll_cases..|]. intros b Hb. split; ll_cases.
Qed.

Lemma is_list_ends h s q xl x0 r :
  is_list h s (q ++ [xl]) -> q ++ [xl] = x0 :: r ->
  linked h (q ++ [xl]) /\ nx h s = Some x0 /\ pv h x0 = Some s /\ nx h xl = Some s /\ pv h s = Some xl.
Proof.
  intros [Hs _] E. rewrite <- app_assoc in Hs. simpl in Hs.
  apply (linked_app h (s :: q) xl [s]) in Hs as [Hs (? & ? & _)].
  change ((s :: q) ++ [xl]) with (s :: (q ++ [xl])) in Hs. rewrite E in *. destruct Hs as (? & ? & ?). auto.
Qed.

(** The nodes of a list in front of those of another one, when the ends are linked
    to the new neighbours. *)
Lemma is_list_splice h h' t s q xl x0 r ys y ry :
  is_list h t ys -> is_list h s (q ++ [xl]) -> (forall a, a ∈ t :: ys -> a ∉ s :: q ++ [xl]) ->
  q ++ [xl] = x0 :: r -> ys ++ [t] = y :: ry ->
  (forall b, b ≠ s -> nx h' b = if decide (b = t) then Some x0 else if decide (b = xl) then Some y else nx h b) ->
  (forall b, b ≠ s -> pv h' b = if decide (b = y) then Some xl else if decide (b = x0) then Some t else pv h b) ->
  is_list h' t ((q ++ [xl]) ++ ys).
Proof.
  intros Ht Hs Hdisj Ex Ey Hn Hp. destruct (is_list_ends _ _ _ _ _ _ Hs Ex) as (Hlxs & _).
  destruct (is_list_nodes _ _ _ _ _ Ht Ey) as [Hny Hiny].
  destruct Ht as [Ht [Htin Hndy]%NoDup_cons], Hs as [_ [Hsin Hndx]%NoDup_cons]. rewrite Ey in Ht. destruct Ht as (_ & _ & Hly).
  set (xs := q ++ [xl]) in *.
  assert (HD : forall b, b ∈ t :: ys -> b ≠ s /\ b ∉ xs) by (intros b Hb%Hdisj; clear -Hb; set_solver).
  assert (Hx0 : x0 ∈ xs) by (rewrite Ex; left).
  assert (Hxl : xl ∈ xs) by (apply elem_of_app; right; left).
  assert (Hxs : forall b, b ∈ xs -> b ≠ s /\ b ≠ t /\ b ≠ y).
  { intros b Hb. split_and!; [by intros ->|intros ->; by apply (HD t); [left|]|intros ->; by apply (HD y); [apply Hiny; left|]]. }
  assert (Hys : forall b, b ∈ y :: ry -> b ≠ s /\ b ≠ x0 /\ b ≠ xl).
  { intros b [? ?]%Hiny%HD. split_and!; [done|by intros ->..]. }
  split.
  - rewrite <- app_assoc, Ey. unfold xs. rewrite <- app_assoc. apply (linked_app h' (t :: q) xl (y :: ry)). split.
    + change ((t :: q) ++ [xl]) with (t :: xs). rewrite Ex. destruct (Hxs x0 Hx0) as (? & ? & ?).
      split; [rewrite Hn; [by rewrite decide_True|by apply HD; left]|].
      split; [rewrite Hp by done; by rewrite decide_False, decide_True|].
      rewrite <- Ex. eapply linked_frame; [..|exact Hlxs].
      * intros a Ha. unfold xs in Ha. rewrite removelast_last in Ha. apply NoDup_app in Hndx as (_ & Hd & _).
        destruct (Hxs a) as (? & ? & ?); [apply elem_of_app; by left|].
        rewrite Hn, !decide_False by (done || (intros ->; apply (Hd _ Ha); left)). done.
      * intros b Hb. rewrite Ex in Hb, Hndx. apply NoDup_cons in Hndx as [Hx _].
        destruct (Hxs b) as (? & ? & ?); [rewrite Ex; by right|]. rewrite Hp, !decide_False by (done || by intros ->). done.
    + destruct (Hxs xl Hxl) as (? & ? & ?). destruct (Hys y) as (? & ? & ?); [left|].
      split; [rewrite Hn by done; by rewrite decide_False, decide_True|].
      split; [rewrite Hp by done; by rewrite decide_True|].
      eapply linked_frame; [..|exact Hly].
      * intros a Ha. rewrite <- Ey, removelast_last in Ha. destruct (Hys a) as (? & ? & ?); [apply Hiny; by right|].
        rewrite Hn, !decide_False by (done || by intros ->). done.
      * intros b Hb. destruct (Hys b) as (? & ? & ?); [by right|]. apply NoDup_cons in Hny as [Hy _].
        rewrite Hp, !decide_False by (done || by intros ->). done.
  - apply NoDup_cons. split; [rewrite elem_of_app; intros [Hb|Hb]; [by apply (HD t); [left|]|done]|].
    apply NoDup_app. split_and!; [done| |done]. intros b Hb Hb'. by apply (HD b); [right|].
Qed.

Lemma linked_list_take_ok h t s ys xs w :
  is_list h t ys -> is_list h s xs -> (forall a, a ∈ t :: ys -> a ∉ s :: xs) ->
  wp (linked_list_take t s) (fun _ h' w' => w' = w /\
    is_list h' t (xs ++ ys) /\ is_list h' s [] /\
    (forall b, b ∉ t :: ys -> b ∉ s :: xs -> nx h' b = nx h b /\ pv h' b = pv h b)) h w.
Proof.
  intros Ht Hs Hdisj. unfold linked_list_take.
  apply wp_bind. eapply wp_mono; [by apply linked_list_empty_ok|].
  intros b h' w' (-> & -> & ->). case_bool_decide as Exs.
  { subst xs. apply wp_ret. auto. }
  destruct (exists_last Exs) as (q & xl & ->). destruct (q ++ [xl]) as [|x0 r] eqn:Ex; [done|]. rewrite <- Ex in *.
  destruct (ys ++ [t]) as [|y ry] eqn:Ey; [by destruct ys|].
  destruct (is_list_ends _ _ _ _ _ _ Hs Ex) as (_ & Hsn & Hx0 & Hxl & Hsp).
  destruct (is_list_first _ _ _ _ _ Ht Ey) as [Htn Hyp].
  destruct (is_list_nodes _ _ _ _ _ Ht Ey) as [_ Hiny].
  assert (HtD : t ∉ s :: q ++ [xl]) by (apply Hdisj; left).
  assert (HyD : y ∉ s :: q ++ [xl]) by (apply Hdisj, Hiny; left).
  assert (Hsx : s ∉ q ++ [xl]) by (by destruct Hs as [_ [? _]%NoDup_cons]).
  assert (Hx0in : x0 ∈ q ++ [xl]) by (rewrite Ex; left).
  assert (Hxlin : xl ∈ q ++ [xl]) by (apply elem_of_app; right; left).
  assert (t ≠ s /\ t ≠ x0 /\ t ≠ xl) as (? & ? & ?) by (clear -HtD Hx0in Hxlin; set_solver).
  assert (y ≠ s /\ y ≠ x0 /\ y ≠ xl) as (? & ? & ?) by (clear -HyD Hx0in Hxlin; set_solver).
  assert (x0 ≠ s /\ xl ≠ s) as [? ?] by (split; intros ->; done).
  ll_step. ll_step. ll_step. eapply (wp_deref _ x0); [done|].
  do 4 ll_step. ll_step. eapply (wp_deref _ xl); [ll_cases|].
  do 3 ll_step. assert (is_Some (h0 !! xl)) by (apply V; by eapply nx_valid).
  ll_step. ll_step. ll_step. ll_step. eapply (wp_deref _ y); [ll_cases|].
  assert (is_Some (h1 !! y)) by (apply V0, V; by eapply pv_valid).
  repeat ll_step. eapply wp_mono.
  { apply linked_list_init_ok. apply V2, V1, V0, V. by eapply nx_valid. }
  intros [] h' w' (-> & Hs' & _ & Hfr). split; [done|]. split_and!; [|done|].
  - eapply (is_list_splice h h' t s q xl x0 r ys y ry); [done..| |]; intros b Hb;
      [rewrite (proj1 (Hfr b Hb))|rewrite (proj2 (Hfr b Hb))]; ll_cases.
  - intros b Hb1 Hb2. assert (b ≠ s /\ b ≠ x0 /\ b ≠ xl) as (Hb & ? & ?) by (clear -Hb2 Hx0in Hxlin; set_solver).
    assert (b ≠ t /\ b ≠ y) as [? ?] by (split; intros ->; apply Hb1; [left|apply Hiny; left]).
    rewrite (proj1 (Hfr b Hb)), (proj2 (Hfr b Hb)). split; ll_cases.
Qed.
End Refinement.

(** ** Several lists at once

    The program keeps its objects on several lists and moves them around.  The
    abstract state is a list per head and the set of nodes on no list. *)

Inductive list_op := Insert (l e : nat) | Remove (e : nat) | Take (t s : nat).

Definition exec (op : list_op) : M heap () :=
  match op with
  | Insert l e => linked_list_insert l e
  | Remove e => linked_list_remove e
  | Take t s => linked_list_take t s
  end.

Record lists := Lists { on : gmap nat (list nat); free : gset nat }.

Inductive list_step : list_op -> lists -> lists -> Prop :=
| step_insert l e xs L F :
    L !! l = Some xs -> e ∈ F ->
    list_step (Insert l e) (Lists L F) (Lists (<[l := e :: xs]> L) (F ∖ {[e]}))
| step_remove l e xs1 xs2 L F :
    L !! l = Some (xs1 ++ e :: xs2) ->
    list_step (Remove e) (Lists L F) (Lists (<[l := xs1 ++ xs2]> L) ({[e]} ∪ F))
| step_take t s ys xs L F :
    t ≠ s -> L !! t = Some ys -> L !! s = Some xs ->
    list_step (Take t s) (Lists L F) (Lists (<[t := xs ++ ys]> (<[s := []]> L)) F).

Inductive list_steps : list (list_op) -> lists -> lists -> Prop :=
| steps_nil A : list_steps [] A A
| steps_cons op ops A A' A'' :
    list_step op A A' -> list_steps ops A' A'' -> list_steps (op :: ops) A A''.

(** The heap holds exactly these lists, on nodes of their own, and the free
    nodes are detached. *)
Record represents (h : heap) (A : lists) : Prop := {
  rep_list l xs : on A !! l = Some xs -> is_list h l xs;
  rep_disjoint l1 l2 xs1 xs2 a :
    l1 ≠ l2 -> on A !! l1 = Some xs1 -> on A !! l2 = Some xs2 -> a ∈ l1 :: xs1 -> a ∉ l2 :: xs2;
  rep_free e : e ∈ free A -> is_Some (h !! e) /\ pv h e = nx h e /\
    forall l xs, on A !! l = Some xs -> e ∉ l :: xs
}.

(** No operation frees a node. *)
Definition keeps_nodes {A} (m : M heap A) : Prop :=
  forall h w x h' w', m h w = Done (x, h', w') -> forall b, is_Some (h !! b) -> is_Some (h' !! b).

Section Keeps.
Context {A B : Type}.

Lemma keeps_bind (m : M heap A) (f : A -> M heap B) :
  keeps_nodes m -> (forall a, keeps_nodes (f a)) -> keeps_nodes (m ≫= f).
Proof.
  intros Hm Hf h w x h' w' E b Hb. unfold mbind, M_bind in E.
  destruct (m h w) as [[[a h1] w1]| | |] eqn:E1; try done. eapply Hf; [exact E|]. by eapply Hm.
Qed.

(** An operation that does not write. *)
Lemma keeps_pure (m : M heap A) :
  (forall h w x h' w', m h w = Done (x, h', w') -> h' = h) -> keeps_nodes m.
Proof. intros Hm h w x h' w' E%Hm. by subst. Qed.

End Keeps.

Lemma keeps_load a : keeps_nodes (load a).
Proof.
  apply keeps_pure. intros h w x h' w'. unfold load, mbind, M_bind, get, deref. destruct (h !! a); [by intros [= _ <- _]|done].
Qed.

Lemma keeps_deref {A} (o : option A) : keeps_nodes (deref o).
Proof. apply keeps_pure. intros h w x h' w'. unfold deref. destruct o; [by intros [= _ <- _]|done]. Qed.

Lemma keeps_assert b : keeps_nodes (assert_ b).
Proof. apply keeps_pure. intros h w x h' w'. unfold assert_. destruct b; [by intros [= _ <- _]|done]. Qed.

Lemma keeps_ret {A} (a : A) : keeps_nodes (mret a).
Proof. apply keeps_pure. intros h w x h' w'. by intros [= _ <- _]. Qed.

Lemma keeps_modify (a : nat) (n : linked_list) : keeps_nodes (modify <[a := n]>).
Proof.
  intros h w x h' w' [= _ <- _] b Hb. by apply lookup_insert_is_Some'; right.
Qed.

Create HintDb keeps.
#[export] Hint Resolve keeps_load keeps_deref keeps_assert keeps_ret keeps_modify : keeps.
Ltac keeps_auto := repeat first [solve [auto with keeps] | apply keeps_bind; [|intros ?] | case_match].

Lemma exec_keeps op : keeps_nodes (exec op).
Proof.
  destruct op; unfold exec, linked_list_insert, linked_list_remove, linked_list_take,
    linked_list_empty, linked_list_init, store_next, store_prev; keeps_auto.
Qed.

Section Simulation.
Implicit Types (h : heap) (w : sys) (A : lists).

(** What an operation owes: the lists it changed, on nodes that were theirs or
    free, and nothing else.  [D] are the nodes it may write. *)
Lemma represents_change h h' A A' (D : list nat) :
  represents h A ->
  (forall b, is_Some (h !! b) -> is_Some (h' !! b)) ->
  (forall b, b ∉ D -> nx h' b = nx h b /\ pv h' b = pv h b) ->
  (forall l xs, on A' !! l = Some xs ->
     is_list h' l xs /\ (forall a, a ∈ l :: xs -> a ∈ D) \/
     on A !! l = Some xs /\ forall a, a ∈ l :: xs -> a ∉ D) ->
  (forall l1 l2 xs1 xs2 a, l1 ≠ l2 -> on A' !! l1 = Some xs1 -> on A' !! l2 = Some xs2 ->
     a ∈ D -> a ∈ l1 :: xs1 -> a ∉ l2 :: xs2) ->
  (forall e, e ∈ free A' -> (e ∈ free A /\ e ∉ D \/ is_Some (h' !! e) /\ pv h' e = nx h' e) /\
     forall l xs, on A' !! l = Some xs -> e ∉ l :: xs) ->
  represents h' A'.
Proof.
  intros R Hv Hf Hl Hd Hfree. split.
  - intros l xs Hx. destruct (Hl l xs Hx) as [[? _]|[H0 Hn]]; [done|].
    apply (is_list_frame h); [|by apply (rep_list _ _ R)]. intros a Ha. by apply Hf, Hn.
  - intros l1 l2 xs1 xs2 a Hne H1 H2 Ha.
    destruct (decide (a ∈ D)) as [Hin|Hout]; [by eapply Hd|].
    destruct (Hl _ _ H1) as [[_ Hn]|[H1' _]]; [by apply Hn in Ha|].
    destruct (Hl _ _ H2) as [[_ Hn]|[H2' _]]; [by intros Hx%Hn|].
    by eapply (rep_disjoint _ _ R).
  - intros e He. destruct (Hfree e He) as [[[H0 Hn]|[Hs Hp]] Hx]; [|done].
    destruct (rep_free _ _ R e H0) as (Hs & Hp & _). destruct (Hf e Hn) as [-> ->]. auto.
Qed.

Lemma represents_insert h h' l e xs L F :
  represents h (Lists L F) -> L !! l = Some xs -> e ∈ F ->
  (forall b, is_Some (h !! b) -> is_Some (h' !! b)) -> is_list h' l (e :: xs) ->
  (forall b, b ∉ e :: l :: xs -> nx h' b = nx h b /\ pv h' b = pv h b) ->
  represents h' (Lists (<[l := e :: xs]> L) (F ∖ {[e]})).
Proof.
  intros R Hl He Hv Hli Hf. destruct (rep_free _ _ R e He) as (_ & _ & Hfe). cbn in Hfe.
  assert (Hother : forall l' xs', l' ≠ l -> L !! l' = Some xs' -> forall a, a ∈ l' :: xs' -> a ∉ e :: l :: xs).
  { intros l' xs' Hne H' a Ha [->|Hx]%elem_of_cons; [by eapply Hfe in H'|].
    by eapply (rep_disjoint _ _ R l' l) in Ha. }
  eapply (represents_change _ _ _ _ (e :: l :: xs)); [exact R|done|done|..]; cbn.
  - intros l' xs' [[<- <-]|[Hne H']]%lookup_insert_Some; [left|right; eauto].
    split; [done|]. intros a. rewrite !elem_of_cons. tauto.
  - intros l1 l2 xs1 xs2 a Hne [[<- <-]|[N1 H1]]%lookup_insert_Some [[E2 <-]|[N2 H2]]%lookup_insert_Some Ha H Hn;
      [done|by eapply Hother in Hn|by eapply Hother in H|by eapply Hother in H].
  - intros x [Hx Hxe]%elem_of_difference. rewrite elem_of_singleton in Hxe.
    destruct (rep_free _ _ R x Hx) as (_ & _ & Hfx). cbn in Hfx. split.
    + left. split; [done|]. rewrite elem_of_cons. by intros [|Hin%Hfx].
    + intros l' xs' [[<- <-]|[Hne H']]%lookup_insert_Some; [|by eapply Hfx].
      specialize (Hfx _ _ Hl). rewrite elem_of_cons in Hfx. rewrite !elem_of_cons. tauto.
Qed.

Lemma represents_remove h h' l e xs1 xs2 L F :
  represents h (Lists L F) -> L !! l = Some (xs1 ++ e :: xs2) ->
  (forall b, is_Some (h !! b) -> is_Some (h' !! b)) -> is_list h' l (xs1 ++ xs2) ->
  is_Some (h' !! e) -> pv h' e = nx h' e ->
  (forall b, b ∉ l :: xs1 ++ e :: xs2 -> nx h' b = nx h b /\ pv h' b = pv h b) ->
  represents h' (Lists (<[l := xs1 ++ xs2]> L) ({[e]} ∪ F)).
Proof.
  intros R Hl Hv Hli Hse Hpe Hf.
  assert (Hother : forall l' xs', l' ≠ l -> L !! l' = Some xs' ->
    forall a, a ∈ l' :: xs' -> a ∉ l :: xs1 ++ e :: xs2).
  { intros l' xs' Hne H' a Ha. by eapply (rep_disjoint _ _ R l' l). }
  assert (Hsub : forall a, a ∈ l :: xs1 ++ xs2 -> a ∈ l :: xs1 ++ e :: xs2).
  { intros a. rewrite !elem_of_cons, !elem_of_app, !elem_of_cons. tauto. }
  assert (Hne : e ∉ l :: xs1 ++ xs2).
  { destruct (rep_list _ _ R l _ Hl) as [_ Hnd].
    rewrite app_comm_cons, <- Permutation_middle in Hnd. by apply NoDup_cons in Hnd as [? _]. }
  eapply (represents_change _ _ _ _ (l :: xs1 ++ e :: xs2)); [exact R|done|done|..]; cbn.
  - intros l' xs' [[<- <-]|[Hn H']]%lookup_insert_Some; [left; auto|right; eauto].
  - intros l1 l2 ys1 ys2 a Hn [[<- <-]|[N1 H1]]%lookup_insert_Some [[E2 <-]|[N2 H2]]%lookup_insert_Some Ha H Hx;
      [done|by eapply Hother in Hx|by eapply Hother in H|by eapply Hother in H].
  - intros x [->%elem_of_singleton|Hx]%elem_of_union; split.
    + right. by rewrite Hpe.
    + intros l' xs' [[<- <-]|[Hn H']]%lookup_insert_Some; [done|]. intros Hx. eapply Hother in Hx; [|done..].
      apply Hx. rewrite elem_of_cons, elem_of_app, elem_of_cons. tauto.
    + left. split; [done|]. by eapply (rep_free _ _ R x Hx).
    + destruct (rep_free _ _ R x Hx) as (_ & _ & Hfx). cbn in Hfx.
      intros l' xs' [[<- <-]|[Hn H']]%lookup_insert_Some; [|by eapply Hfx]. intros Hin%Hsub. by eapply Hfx in Hin.
Qed.

Lemma represents_take h h' t s ys xs L F :
  represents h (Lists L F) -> t ≠ s -> L !! t = Some ys -> L !! s = Some xs ->
  (forall b, is_Some (h !! b) -> is_Some (h' !! b)) -> is_list h' t (xs ++ ys) -> is_list h' s [] ->
  (forall b, b ∉ t :: ys -> b ∉ s :: xs -> nx h' b = nx h b /\ pv h' b = pv h b) ->
  represents h' (Lists (<[t := xs ++ ys]> (<[s := []]> L)) F).
Proof.
  intros R Hts Ht Hs Hv Hlt Hls Hf.
  set (D := (t :: ys) ++ (s :: xs)).
  assert (Hother : forall l' xs', l' ≠ t -> l' ≠ s -> L !! l' = Some xs' -> forall a, a ∈ l' :: xs' -> a ∉ D).
  { intros l' xs' Hnt Hns H' a Ha [Hx|Hx]%elem_of_app;
      [by eapply (rep_disjoint _ _ R l' t) in Ha|by eapply (rep_disjoint _ _ R l' s) in Ha]. }
  assert (HD : forall a, a ∈ D <-> a ∈ t :: xs ++ ys \/ a = s).
  { intros a. unfold D. rewrite !elem_of_app, !elem_of_cons, !elem_of_app. tauto. }
  assert (Hst : s ∉ t :: xs ++ ys).
  { rewrite elem_of_cons, elem_of_app. intros [->|[Hx|Hx]]; [done| |].
    - destruct (rep_list _ _ R s xs Hs) as [_ Hnd]. by apply NoDup_cons in Hnd as [? _].
    - eapply (rep_disjoint _ _ R t s ys xs s); [done..|by right|left]. }
  assert (Hcases : forall l' xs', <[t := xs ++ ys]> (<[s := []]> L) !! l' = Some xs' ->
    l' = t /\ xs' = xs ++ ys \/ l' = s /\ xs' = [] \/ l' ≠ t /\ l' ≠ s /\ L !! l' = Some xs').
  { intros l' xs' [[<- <-]|[Hn [[<- <-]|[Hn' ?]]%lookup_insert_Some]]%lookup_insert_Some; auto 8. }
  eapply (represents_change _ _ _ _ D); [exact R|done| | | |]; cbn.
  - intros b Hb. rewrite app_comm_cons, elem_of_app in Hb. apply Hf; tauto.
  - intros l' xs' [(-> & ->)|[(-> & ->)|(N1 & N2 & H')]]%Hcases; [left|left|right; eauto].
    + split; [done|]. intros a Ha. apply HD. auto.
    + split; [done|]. intros a ->%list_elem_of_singleton. apply HD. auto.
  - intros l1 l2 ys1 ys2 a Hn H1%Hcases H2%Hcases Ha Hin Hin2.
    destruct H1 as [(-> & ->)|[(-> & ->)|(N1 & N2 & H1)]], H2 as [(-> & ->)|[(-> & ->)|(N3 & N4 & H2)]];
      try done; try (by eapply Hother in Hin); try (by eapply Hother in Hin2).
    + by apply list_elem_of_singleton in Hin2 as ->.
    + by apply list_elem_of_singleton in Hin as ->.
  - intros x Hx. destruct (rep_free _ _ R x Hx) as (_ & _ & Hfx). cbn in Hfx. split.
    + left. split; [done|]. rewrite app_comm_cons, elem_of_app. intros [Hy|Hy]; by eapply Hfx in Hy.
    + intros l' xs' [(-> & ->)|[(-> & ->)|(N1 & N2 & H')]]%Hcases Hy.
      * pose proof (Hfx t ys Ht) as Hxt. pose proof (Hfx s xs Hs) as Hxs.
        rewrite elem_of_cons in Hxt, Hxs. rewrite elem_of_cons, elem_of_app in Hy. tauto.
      * apply list_elem_of_singleton in Hy as ->. eapply (Hfx s xs Hs). left.
      * by eapply Hfx in Hy.
Qed.

(** One operation: the code ends without a failed assertion, and the heap
    represents the lists the operation should leave. *)
Lemma exec_ok op h A A' w :
  represents h A -> list_step op A A' ->
  wp (exec op) (fun _ h' w' => w' = w /\ represents h' A') h w.
Proof.
  intros R Hs.
  assert (Hk : forall Q, wp (exec op) Q h w -> wp (exec op) (fun x h' w' =>
    (forall b, is_Some (h !! b) -> is_Some (h' !! b)) /\ Q x h' w') h w).
  { intros Q. unfold wp. destruct (exec op h w) as [[[x h'] w']| | |] eqn:E; try done.
    split; [by eapply exec_keeps|done]. }
  destruct Hs as [l e xs L F Hl He|l e xs1 xs2 L F Hl|t s ys xs L F Hts Ht Hsx]; cbn [exec] in *.
  - destruct (rep_free _ _ R e He) as (Hse & Hpe & Hfe).
    eapply wp_mono; [apply Hk, linked_list_insert_ok; [by apply (rep_list _ _ R)|by eapply Hfe|done..]|].
    intros _ h' w' (Hv & -> & ? & ?). split; [done|]. by eapply represents_insert.
  - eapply wp_mono; [apply Hk, linked_list_remove_ok; by apply (rep_list _ _ R)|].
    intros _ h' w' (Hv & -> & ? & ? & Hn & Hp & ?). split; [done|].
    eapply represents_remove; try done. by rewrite Hn.
  - eapply wp_mono; [apply Hk, linked_list_take_ok; [by apply (rep_list _ _ R)..|]|].
    + intros a Ha. by eapply (rep_disjoint _ _ R t s).
    + intros _ h' w' (Hv & -> & ? & ? & ?). split; [done|]. by eapply represents_take.
Qed.

(** Any sequence of operations. *)
Lemma exec_steps_ok ops h A A' w :
  represents h A -> list_steps ops A A' ->
  wp (for_each exec ops) (fun _ h' w' => w' = w /\ represents h' A') h w.
Proof.
  intros R Hs. revert h R. induction Hs as [|op ops A A' A'' H1 H2 IH]; intros h R; cbn; [by wp_steps|].
  wp_step. eapply wp_mono; [by eapply exec_ok|]. intros _ h' w' [-> R']. by apply IH.
Qed.

End Simulation.
