(* ===== verification/Connection.v ===== *)
(** * common/connection.c: buffered message connections

    The ring buffers with their free-running 32-bit indices, the scatter/gather
    vectors over them, and the connection operations.  The buffer's abstraction
    is the queue of bytes it holds, [contents]. *)
From S2P Require Import Prelude Kernel.

Definition CONNECTION_BUFFER_SIZE : Z := 256.
Definition MAX_FDS : Z := 64.

Record connection_buffer := Buffer {
  head : Z;                (* uint32_t *)
  tail : Z;                (* uint32_t *)
  data : bytes             (* char data[CONNECTION_BUFFER_SIZE] *)
}.

Record connection := Connection {
  conn_in : connection_buffer;
  conn_out : connection_buffer;
  fds_in : connection_buffer;
  fds_out : connection_buffer;
  fd : Z;
  want_flush : bool
}.

Definition set_in b c := Connection b (conn_out c) (fds_in c) (fds_out c) (fd c) (want_flush c).
Definition set_out b c := Connection (conn_in c) b (fds_in c) (fds_out c) (fd c) (want_flush c).
Definition set_fds_in b c := Connection (conn_in c) (conn_out c) b (fds_out c) (fd c) (want_flush c).
Definition set_fds_out b c := Connection (conn_in c) (conn_out c) (fds_in c) b (fd c) (want_flush c).
Definition set_want_flush f c := Connection (conn_in c) (conn_out c) (fds_in c) (fds_out c) (fd c) f.
Definition set_fd n c := Connection (conn_in c) (conn_out c) (fds_in c) (fds_out c) n (want_flush c).

(** [calloc]'d buffers: all zero. *)
Definition empty_buffer : connection_buffer := Buffer 0 0 (replicate 256 0).
Definition new_connection (fd : Z) : connection :=
  Connection empty_buffer empty_buffer empty_buffer empty_buffer fd false.

(** [memcpy(d + off, src, length src)]. *)
Definition memcpy (d : bytes) (off : Z) (src : bytes) : bytes :=
  take (Z.to_nat off) d ++ src ++ drop (Z.to_nat off + length src) d.

(** The [len] bytes at [off]. *)
Definition slice (d : bytes) (off len : Z) : bytes := take (Z.to_nat len) (drop (Z.to_nat off) d).

Definition zlen {A} (l : list A) : Z := Z.of_nat (length l).

(** ** Ring buffers *)

Definition connection_buffer_mask (idx : Z) : Z := Z.land idx (CONNECTION_BUFFER_SIZE - 1).

Definition connection_buffer_size (b : connection_buffer) : Z := u32 (head b - tail b).

Definition connection_buffer_consume (b : connection_buffer) (size : Z) : connection_buffer :=
  Buffer (head b) (u32 (tail b + size)) (data b).

Definition connection_buffer_restore (b : connection_buffer) (size : Z) : connection_buffer :=
  Buffer (head b) (u32 (tail b - size)) (data b).

Record iovec := Iovec {
  iov_base : Z;            (* offset into the buffer's data *)
  iov_len : Z
}.

Definition connection_buffer_get_iov (b : connection_buffer) : list iovec :=
  let head := connection_buffer_mask (head b) in
  let tail := connection_buffer_mask (tail b) in
  if tail <? head then [Iovec tail (head - tail)]
  else if head =? 0 then [Iovec tail (CONNECTION_BUFFER_SIZE - tail)]
  else [Iovec tail (CONNECTION_BUFFER_SIZE - tail); Iovec 0 head].

Definition connection_buffer_put_iov (b : connection_buffer) : list iovec :=
  let head := connection_buffer_mask (head b) in
  let tail := connection_buffer_mask (tail b) in
  if head <? tail then [Iovec head (tail - head)]
  else if tail =? 0 then [Iovec head (CONNECTION_BUFFER_SIZE - head)]
  else [Iovec head (CONNECTION_BUFFER_SIZE - head); Iovec 0 tail].

Definition connection_buffer_copy (b : connection_buffer) (count : Z) : bytes :=
  let tail := connection_buffer_mask (tail b) in
  if tail + count <=? CONNECTION_BUFFER_SIZE then slice (data b) tail count
  else
    let size := CONNECTION_BUFFER_SIZE - tail in
    slice (data b) tail size ++ slice (data b) 0 (count - size).

(** The buffer after a put of [src], which the caller knows to fit the array. *)
Definition buffer_write (b : connection_buffer) (src : bytes) : connection_buffer :=
  let count := zlen src in
  let head' := connection_buffer_mask (head b) in
  let data' :=
    if head' + count <=? CONNECTION_BUFFER_SIZE then memcpy (data b) head' src
    else
      let size := CONNECTION_BUFFER_SIZE - head' in
      memcpy (memcpy (data b) head' (take (Z.to_nat size) src)) 0 (drop (Z.to_nat size) src) in
  Buffer (u32 (head b + count)) (tail b) data'.

Definition connection_buffer_put {S} (b : connection_buffer) (src : bytes) :
    M S (Z * connection_buffer) :=
  if CONNECTION_BUFFER_SIZE <? zlen src then fail_with EOVERFLOW (-1, b)
  else mret (0, buffer_write b src).

(** What the kernel does to the array behind [iov] when it receives [src]. *)
Fixpoint scatter (d : bytes) (iov : list iovec) (src : bytes) : bytes :=
  match iov with
  | [] => d
  | v :: iov' =>
      let n := Z.to_nat (iov_len v) in
      scatter (memcpy d (iov_base v) (take n src)) iov' (drop n src)
  end.

(** What the kernel sends from the array behind [iov]. *)
Definition gather (d : bytes) (iov : list iovec) : bytes :=
  concat ((fun v => slice d (iov_base v) (iov_len v)) <$> iov).

Definition iov_total (iov : list iovec) : Z := foldr (fun v n => iov_len v + n) 0 iov.

(** The [int]s of a descriptor buffer. *)
Fixpoint ints_of (n : nat) (bs : bytes) : list Z :=
  match n with
  | O => []
  | S n' => i32 (le_value (take 4 bs)) :: ints_of n' (drop 4 bs)
  end.

(** ** The abstraction: a queue of bytes *)

Record buffer_wf (b : connection_buffer) : Prop := {
  wf_head : 0 <= head b < 2 ^ 32;
  wf_tail : 0 <= tail b < 2 ^ 32;
  wf_length : length (data b) = 256%nat;
  wf_bytes : Forall is_byte (data b);
  wf_size : connection_buffer_size b <= CONNECTION_BUFFER_SIZE
}.

Definition contents (b : connection_buffer) : bytes :=
  take (Z.to_nat (connection_buffer_size b)) (rotate (Z.to_nat (tail b mod 256)) (data b)).

Section Ring.
#[local] Ltac Zify.zify_post_hook ::= Z.to_euclidean_division_equations.
Implicit Types (b : connection_buffer).

Lemma mask_mod x : connection_buffer_mask x = x mod 256.
Proof. apply (Z.land_ones x 8). lia. Qed.

Lemma head_mod b : head b mod 256 = (tail b + connection_buffer_size b) mod 256.
Proof.
  unfold connection_buffer_size.
  rewrite <- (Zplus_mod_idemp_r (u32 _)), u32_mod_256, Zplus_mod_idemp_r. f_equal. lia.
Qed.

Lemma size_bound b : 0 <= connection_buffer_size b < 2 ^ 32.
Proof. apply u32_bound. Qed.

Lemma lookup_memcpy (d src : bytes) off j :
  0 <= off -> off + zlen src <= zlen d ->
  memcpy d off src !! j =
    if decide (Z.to_nat off <= j < Z.to_nat off + length src)%nat
    then src !! (j - Z.to_nat off)%nat else d !! j.
Proof.
  unfold memcpy, zlen. intros. rewrite !lookup_app, lookup_take, lookup_drop, length_take.
  case_decide; case_decide; try lia.
  - by destruct (lookup_lt_is_Some_2 d j) as [x ->]; [lia|].
  - replace (j - _)%nat with (j - Z.to_nat off)%nat by lia.
    destruct (lookup_lt_is_Some_2 src (j - Z.to_nat off)%nat) as [x ->]; [lia|]. done.
  - replace (j - _)%nat with (j - Z.to_nat off)%nat by lia.
    rewrite (proj2 (lookup_ge_None src _)); [|lia]. f_equal. lia.
Qed.

Lemma length_memcpy d off src :
  0 <= off -> off + zlen src <= zlen d -> length (memcpy d off src) = length d.
Proof. unfold memcpy, zlen. intros. rewrite !length_app, length_take, length_drop. lia. Qed.

Lemma lookup_slice d off len i :
  slice d off len !! i =
    if decide (i < Z.to_nat len)%nat then d !! (Z.to_nat off + i)%nat else None.
Proof. unfold slice. rewrite lookup_take. case_decide; [by rewrite lookup_drop|done]. Qed.

Lemma length_slice d off len :
  0 <= off -> 0 <= len -> off + len <= zlen d -> length (slice d off len) = Z.to_nat len.
Proof. unfold slice, zlen. intros. rewrite length_take, length_drop. lia. Qed.

Lemma lookup_ring b i :
  buffer_wf b -> (i < 256)%nat ->
  rotate (Z.to_nat (tail b mod 256)) (data b) !! i = data b !! Z.to_nat ((tail b + Z.of_nat i) mod 256).
Proof.
  intros Hb Hi. rewrite lookup_rotate_r by (rewrite (wf_length _ Hb); lia).
  unfold rotate_nat_add. rewrite (wf_length _ Hb), Z2Nat.id by (apply Z.mod_pos_bound; lia).
  do 2 f_equal. lia.
Qed.

Lemma length_contents b : buffer_wf b -> length (contents b) = Z.to_nat (connection_buffer_size b).
Proof.
  intros Hb. unfold contents. rewrite length_take, length_rotate, (wf_length _ Hb).
  pose proof (wf_size _ Hb). unfold CONNECTION_BUFFER_SIZE in *. lia.
Qed.

Lemma zlen_contents b : buffer_wf b -> zlen (contents b) = connection_buffer_size b.
Proof. intros Hb. unfold zlen. rewrite length_contents by done. pose proof (size_bound b). lia. Qed.

Lemma lookup_contents b i :
  buffer_wf b ->
  contents b !! i =
    if decide (i < Z.to_nat (connection_buffer_size b))%nat
    then data b !! Z.to_nat ((tail b + Z.of_nat i) mod 256) else None.
Proof.
  intros Hb. unfold contents. rewrite lookup_take. case_decide; [|done].
  rewrite lookup_ring; [done..|].
  pose proof (wf_size _ Hb). unfold CONNECTION_BUFFER_SIZE in *. lia.
Qed.

Lemma lookup_copy b count i :
  buffer_wf b -> 0 <= count <= 256 ->
  connection_buffer_copy b count !! i =
    if decide (i < Z.to_nat count)%nat
    then data b !! Z.to_nat ((tail b + Z.of_nat i) mod 256) else None.
Proof.
  intros Hb Hc. unfold connection_buffer_copy. rewrite mask_mod.
  unfold CONNECTION_BUFFER_SIZE. pose proof (wf_length _ Hb) as Hlen.
  destruct (Z.leb_spec (tail b mod 256 + count) 256).
  - rewrite lookup_slice. case_decide; [|done]. f_equal. lia.
  - rewrite lookup_app, !lookup_slice, length_slice by (unfold zlen; lia).
    case_decide.
    + destruct (lookup_lt_is_Some_2 (data b) (Z.to_nat (tail b mod 256) + i)%nat) as [x Ex]; [lia|].
      rewrite Ex. rewrite decide_True by lia. rewrite <- Ex. f_equal. lia.
    + case_decide; case_decide; try lia; [|done]. f_equal. lia.
Qed.

(** Copying out of the ring reads a prefix of the queue. *)
Lemma copy_contents b count :
  buffer_wf b -> 0 <= count <= connection_buffer_size b ->
  connection_buffer_copy b count = take (Z.to_nat count) (contents b).
Proof.
  intros Hb Hc. pose proof (wf_size _ Hb). unfold CONNECTION_BUFFER_SIZE in *.
  apply list_eq. intros i. rewrite lookup_copy by (done || lia).
  rewrite lookup_take. case_decide; [|done].
  rewrite lookup_contents by done. by rewrite decide_True by lia.
Qed.

Lemma consume_wf b n :
  buffer_wf b -> 0 <= n <= connection_buffer_size b -> buffer_wf (connection_buffer_consume b n).
Proof.
  intros Hb Hn. destruct Hb. split; simpl; auto using u32_bound.
  unfold connection_buffer_size, CONNECTION_BUFFER_SIZE in *. simpl.
  rewrite u32_sub_u32, Z.sub_add_distr, u32_sub by done. lia.
Qed.

Lemma size_consume b n :
  buffer_wf b -> 0 <= n <= connection_buffer_size b ->
  connection_buffer_size (connection_buffer_consume b n) = connection_buffer_size b - n.
Proof.
  intros Hb Hn. unfold connection_buffer_size in *. simpl.
  rewrite u32_sub_u32. rewrite <- u32_sub by done. f_equal. lia.
Qed.

(** Consuming drops a prefix of the queue. *)
Lemma contents_consume b n :
  buffer_wf b -> 0 <= n <= connection_buffer_size b ->
  contents (connection_buffer_consume b n) = drop (Z.to_nat n) (contents b).
Proof.
  intros Hb Hn. apply list_eq. intros i.
  rewrite lookup_drop, !lookup_contents, size_consume by auto using consume_wf.
  simpl. case_decide; case_decide; try lia; [|done].
  do 2 f_equal. rewrite <- Zplus_mod_idemp_l, u32_mod_256, Zplus_mod_idemp_l. f_equal. lia.
Qed.

(** Restoring undoes a consume exactly, whatever was read in between. *)
Lemma restore_consume b n :
  buffer_wf b -> connection_buffer_restore (connection_buffer_consume b n) n = b.
Proof.
  intros Hb. destruct b as [h t d]. unfold connection_buffer_restore, connection_buffer_consume.
  simpl. f_equal. destruct Hb; simpl in *.
  rewrite u32_u32_sub, u32_small; lia.
Qed.

Lemma Forall_memcpy d off src :
  Forall is_byte d -> Forall is_byte src -> Forall is_byte (memcpy d off src).
Proof.
  intros. unfold memcpy. rewrite !Forall_app. auto using Forall_take, Forall_drop.
Qed.

(** The array after a put: offset [j] holds the new byte number [j - head] modulo
    the array size, or what it held. *)
Lemma lookup_write b src j :
  buffer_wf b -> connection_buffer_size b + zlen src <= 256 -> (j < 256)%nat ->
  data (buffer_write b src) !! j =
    let k := Z.to_nat ((Z.of_nat j - head b) mod 256) in
    if decide (k < length src)%nat then src !! k else data b !! j.
Proof.
  intros Hb Hfit Hj. unfold buffer_write, zlen, CONNECTION_BUFFER_SIZE in *. cbn [data].
  pose proof (wf_length _ Hb) as Hlen. pose proof (size_bound b). rewrite mask_mod.
  destruct (Z.leb_spec (head b mod 256 + Z.of_nat (length src)) 256) as [Hle|Hgt].
  - rewrite lookup_memcpy by (unfold zlen; lia).
    case_decide; case_decide; try lia; [|done]. f_equal. lia.
  - rewrite lookup_memcpy; [|lia|].
    2: { unfold zlen. rewrite length_memcpy, length_drop; [lia|lia|].
         unfold zlen. rewrite length_take. lia. }
    rewrite length_drop, lookup_drop.
    rewrite lookup_memcpy; [|lia|unfold zlen; rewrite length_take; lia].
    rewrite length_take.
    case_decide; case_decide; try lia.
    + f_equal. lia.
    + rewrite decide_True by lia. rewrite lookup_take_lt by lia. f_equal. lia.
    + rewrite decide_False by lia. done.
Qed.

Lemma length_write b src :
  buffer_wf b -> connection_buffer_size b + zlen src <= 256 ->
  length (data (buffer_write b src)) = 256%nat.
Proof.
  intros Hb Hfit. unfold buffer_write, zlen, CONNECTION_BUFFER_SIZE in *. cbn [data].
  pose proof (wf_length _ Hb). pose proof (size_bound b). rewrite mask_mod.
  case_match; rewrite ?length_memcpy; unfold zlen;
    rewrite ?length_memcpy, ?length_drop, ?length_take; unfold zlen;
    rewrite ?length_take; lia.
Qed.

Lemma size_write b src :
  buffer_wf b -> connection_buffer_size b + zlen src <= 256 ->
  connection_buffer_size (buffer_write b src) = connection_buffer_size b + zlen src.
Proof.
  intros Hb Hfit. unfold connection_buffer_size in *. simpl.
  rewrite u32_u32_sub. replace (head b + zlen src - tail b) with (head b - tail b + zlen src) by lia.
  apply u32_add; unfold zlen in *; lia.
Qed.

Lemma write_wf b src :
  buffer_wf b -> Forall is_byte src -> connection_buffer_size b + zlen src <= 256 ->
  buffer_wf (buffer_write b src).
Proof.
  intros Hb Hs Hfit. split.
  - apply u32_bound.
  - apply Hb.
  - by apply length_write.
  - simpl. destruct Hb. case_match; auto using Forall_memcpy, Forall_take, Forall_drop.
  - rewrite size_write by done. unfold CONNECTION_BUFFER_SIZE. lia.
Qed.

(** Putting appends to the queue. *)
Lemma contents_write b src :
  buffer_wf b -> Forall is_byte src -> connection_buffer_size b + zlen src <= 256 ->
  contents (buffer_write b src) = contents b ++ src.
Proof.
  intros Hb Hs Hfit. pose proof (size_bound b).
  apply list_eq. intros i. rewrite lookup_contents, size_write by auto using write_wf.
  rewrite lookup_app, lookup_contents, length_contents by done. simpl tail.
  unfold zlen in *. destruct (decide (i < Z.to_nat (connection_buffer_size b) + length src)%nat).
  2: { rewrite !decide_False by lia. symmetry. apply lookup_ge_None. lia. }
  rewrite decide_True by lia. rewrite lookup_write by (unfold zlen; done || lia).
  assert (Hk : (Z.of_nat (Z.to_nat ((tail b + Z.of_nat i) mod 256)) - head b) mod 256 =
               (Z.of_nat i - connection_buffer_size b) mod 256).
  { unfold connection_buffer_size. rewrite Z2Nat.id by (apply Z.mod_pos_bound; lia).
    rewrite Zminus_mod_idemp_l. rewrite <- (Zminus_mod_idemp_r _ (u32 _)), u32_mod_256, Zminus_mod_idemp_r.
    f_equal. lia. }
  cbv zeta. rewrite Hk. clear Hk.
  destruct (decide (i < Z.to_nat (connection_buffer_size b))%nat).
  - rewrite decide_False by lia.
    destruct (data b !! _) eqn:E; [done|].
    apply lookup_ge_None in E. rewrite (wf_length _ Hb) in E. lia.
  - rewrite decide_True by lia. f_equal. lia.
Qed.

(** The gather vector of a non-empty buffer covers the queue exactly. *)
Lemma gather_get_iov b :
  buffer_wf b -> connection_buffer_size b ≠ 0 ->
  gather (data b) (connection_buffer_get_iov b) = contents b.
Proof.
  intros Hb Hne. pose proof (size_bound b) as Hs0. pose proof (wf_size _ Hb) as Hs.
  pose proof (wf_length _ Hb) as Hlen. unfold CONNECTION_BUFFER_SIZE in *.
  pose proof (head_mod b) as Hh.
  apply list_eq. intros i. rewrite lookup_contents by done.
  unfold gather, connection_buffer_get_iov. rewrite !mask_mod, Hh.
  unfold CONNECTION_BUFFER_SIZE.
  destruct (Z.ltb_spec (tail b mod 256) ((tail b + connection_buffer_size b) mod 256)).
  - simpl. rewrite app_nil_r, lookup_slice.
    case_decide; case_decide; try lia; [|done]. f_equal. lia.
  - destruct (Z.eqb_spec ((tail b + connection_buffer_size b) mod 256) 0).
    + simpl. rewrite app_nil_r, lookup_slice.
      case_decide; case_decide; try lia; [|done]. f_equal. lia.
    + simpl. rewrite app_nil_r, lookup_app, !lookup_slice, length_slice by (unfold zlen; lia).
      case_decide.
      * destruct (lookup_lt_is_Some_2 (data b) (Z.to_nat (tail b mod 256) + i)%nat) as [x Ex]; [lia|].
        rewrite Ex, decide_True by lia. rewrite <- Ex. f_equal. lia.
      * case_decide; case_decide; try lia; [|done]. f_equal. lia.
Qed.

(** The scatter vector of a buffer that is not full offers exactly the free
    space. *)
Lemma total_put_iov b :
  buffer_wf b -> connection_buffer_size b < 256 ->
  iov_total (connection_buffer_put_iov b) = 256 - connection_buffer_size b.
Proof.
  intros Hb Hlt. pose proof (size_bound b) as Hs0.
  pose proof (head_mod b) as Hh.
  unfold connection_buffer_put_iov. rewrite !mask_mod, Hh. unfold CONNECTION_BUFFER_SIZE.
  repeat case_match; simpl; lia.
Qed.

(** Receiving through the scatter vector writes what a put writes. *)
Lemma scatter_put_iov b src :
  buffer_wf b -> connection_buffer_size b < 256 -> connection_buffer_size b + zlen src <= 256 ->
  scatter (data b) (connection_buffer_put_iov b) src = data (buffer_write b src).
Proof.
  intros Hb Hlt Hfit. pose proof (size_bound b) as Hs0. unfold zlen in *.
  pose proof (wf_length _ Hb) as Hlen.
  pose proof (head_mod b) as Hh.
  unfold connection_buffer_put_iov, buffer_write. cbn [data]. rewrite !mask_mod.
  unfold CONNECTION_BUFFER_SIZE, zlen.
  destruct (Z.ltb_spec (head b mod 256) (tail b mod 256)).
  - cbn [scatter iov_len iov_base]. rewrite take_ge by lia.
    destruct (Z.leb_spec (head b mod 256 + Z.of_nat (length src)) 256); [done|lia].
  - destruct (Z.eqb_spec (tail b mod 256) 0).
    + cbn [scatter iov_len iov_base]. rewrite take_ge by lia.
      destruct (Z.leb_spec (head b mod 256 + Z.of_nat (length src)) 256); [done|lia].
    + cbn [scatter iov_len iov_base].
      destruct (Z.leb_spec (head b mod 256 + Z.of_nat (length src)) 256).
      * rewrite (take_ge src), (drop_ge src) by lia. rewrite take_nil.
        done.
      * f_equal. apply take_ge. rewrite length_drop. lia.
Qed.

End Ring.

(** ** Connections *)

Section Operations.
Context `{K : Kernel}.

Definition close_all {S} (fds : list Z) : M S () :=
  for_each (fun f => ext (Close f);; mret ()) fds.

Definition connection_buffer_close_fds {S} (b : connection_buffer) : M S connection_buffer :=
  let size := connection_buffer_size b in
  if size =? 0 then mret b else
  let fds := connection_buffer_copy b size in
  let count := size / 4 in
  close_all (ints_of (Z.to_nat count) fds);;
  mret (connection_buffer_consume b (count * 4)).

(** The control message payload; empty stands for no control message. *)
Definition build_cmsg (b : connection_buffer) : bytes :=
  let size := connection_buffer_size b in
  let size := if MAX_FDS * 4 <? size then MAX_FDS * 4 else size in
  if size <=? 0 then [] else connection_buffer_copy b size.

Fixpoint decode_cmsgs {S} (b : connection_buffer) (overflow : bool) (msgs : list cmsg) :
    M S (Z * connection_buffer) :=
  match msgs with
  | [] => if overflow then fail_with EOVERFLOW (-1, b) else mret (0, b)
  | m :: msgs' =>
      if negb (cmsg_rights m) then decode_cmsgs b overflow msgs' else
      let size := zlen (cmsg_data m) in
      let max := CONNECTION_BUFFER_SIZE - connection_buffer_size b in
      if (max <? size) || overflow then
        close_all (ints_of (Z.to_nat (size / 4)) (cmsg_data m));;
        decode_cmsgs b true msgs'
      else
        '(r, b') ← connection_buffer_put b (cmsg_data m);
        if r <? 0 then mret (-1, b') else decode_cmsgs b' overflow msgs'
  end.

Definition decode_cmsg {S} (b : connection_buffer) (msgs : list cmsg) : M S (Z * connection_buffer) :=
  decode_cmsgs b false msgs.

Definition connection_read : M connection Z :=
  c ← get;
  if CONNECTION_BUFFER_SIZE <=? connection_buffer_size (conn_in c) then fail_with EOVERFLOW (-1)
  else
  let iov := connection_buffer_put_iov (conn_in c) in
  r ← ext_retry eintr_limit (Recvmsg (fd c) (iov_total iov));
  if r_ret r =? -1 then mret (-1) else
  let received := scatter (data (conn_in c)) iov (r_bytes r) in
  modify (set_in (Buffer (head (conn_in c)) (tail (conn_in c)) received));;
  '(d, b) ← decode_cmsg (fds_in c) (r_cmsgs r);
  modify (set_fds_in b);;
  if negb (d =? 0) then mret (-1) else
  modify (set_in (Buffer (u32 (head (conn_in c) + r_ret r)) (tail (conn_in c)) received));;
  gets (fun c' => connection_buffer_size (conn_in c')).

(** The loop of [connection_flush]; [n] bounds its iterations. *)
Fixpoint flush_loop (n : nat) : M connection Z :=
  c ← get;
  if negb (0 <? u32 (head (conn_out c) - tail (conn_out c))) then mret 0 else
  match n with
  | O => hang
  | S n' =>
      let out := gather (data (conn_out c)) (connection_buffer_get_iov (conn_out c)) in
      r ← ext_retry eintr_limit (Sendmsg (fd c) out (build_cmsg (fds_out c)));
      if r_ret r =? -1 then mret (-1) else
      b ← connection_buffer_close_fds (fds_out c);
      modify (set_fds_out b);;
      modify (fun c' => set_out (connection_buffer_consume (conn_out c') (r_ret r)) c');;
      flush_loop n'
  end.

Definition connection_flush : M connection Z :=
  c ← get;
  if negb (want_flush c) then mret 0 else
  let tail0 := tail (conn_out c) in
  r ← flush_loop (S (Z.to_nat (connection_buffer_size (conn_out c))));
  if r =? -1 then mret (-1) else
  modify (set_want_flush false);;
  gets (fun c' => i32 (head (conn_out c') - tail0)).

Definition connection_put (src : bytes) : M connection Z :=
  c ← get;
  r ← (if CONNECTION_BUFFER_SIZE <? connection_buffer_size (conn_out c) + zlen src then
         modify (set_want_flush true);; connection_flush
       else mret 0);
  if r =? -1 then mret (-1) else
  c ← get;
  '(r, b) ← connection_buffer_put (conn_out c) src;
  modify (set_out b);;
  if r =? -1 then mret (-1) else
  modify (set_want_flush true);;
  mret 0.

Definition connection_put_fd (f : Z) : M connection Z :=
  c ← get;
  if MAX_FDS * 4 <=? connection_buffer_size (fds_out c) then fail_with EOVERFLOW (-1) else
  '(r, b) ← connection_buffer_put (fds_out c) (le_bytes 4 f);
  modify (set_fds_out b);;
  mret r.

(** The bytes copied to [dst]; [None] is the return value -1. *)
Definition connection_get (count : Z) : M connection (option bytes) :=
  c ← get;
  if connection_buffer_size (conn_in c) <? count then fail_with EAGAIN None else
  let dst := connection_buffer_copy (conn_in c) count in
  modify (set_in (connection_buffer_consume (conn_in c) count));;
  mret (Some dst).

Definition connection_get_fd : M connection (option Z) :=
  c ← get;
  if connection_buffer_size (fds_in c) <? 4 then fail_with EAGAIN None else
  let f := i32 (le_value (connection_buffer_copy (fds_in c) 4)) in
  modify (set_fds_in (connection_buffer_consume (fds_in c) 4));;
  mret (Some f).

Definition connection_close_fds : M connection () :=
  c ← get;
  b ← connection_buffer_close_fds (fds_in c);
  modify (set_fds_in b);;
  c ← get;
  b ← connection_buffer_close_fds (fds_out c);
  modify (set_fds_out b).

Definition connection_pending (c : connection) : Z := connection_buffer_size (conn_in c).

Definition connection_restore (count : Z) : M connection () :=
  modify (fun c => set_in (connection_buffer_restore (conn_in c) count) c).

End Operations.

(** ** What has been sent

    The bytes the kernel accepted on a descriptor, in order. *)

Fixpoint sent (f : Z) (h : history) : bytes :=
  match h with
  | [] => []
  | (Sendmsg g d _, r) :: h' =>
      sent f h' ++ (if (g =? f) && (0 <? r_ret r) then take (Z.to_nat (r_ret r)) d else [])
  | _ :: h' => sent f h'
  end.

(** Between [w] and [w'], exactly [d] was sent, on descriptor [f]. *)
Definition sends (f : Z) (d : bytes) (w w' : sys) : Prop :=
  sys_le w w' /\ forall g, sent g (trace w') = sent g (trace w) ++ (if g =? f then d else []).

(** Nothing was sent. *)
Definition quiet (w w' : sys) : Prop :=
  sys_le w w' /\ forall g, sent g (trace w') = sent g (trace w).

Definition is_send (c : call) : bool := match c with Sendmsg _ _ _ => true | _ => false end.

#[global] Instance quiet_preorder : PreOrder quiet.
Proof.
  split.
  - intros w. by split.
  - intros w1 w2 w3 [L1 E1] [L2 E2]. split; [by etrans|]. intros g. by rewrite E2, E1.
Qed.

Lemma quiet_logged w c r : is_send c = false -> quiet w (logged w c r).
Proof. intros Hc. split; [apply sys_le_logged|]. intros g. by destruct c. Qed.

Lemma quiet_errno w e : quiet w (Sys (trace w) e).
Proof. by split; [apply sys_le_errno|]. Qed.

Lemma quiet_le w w' : quiet w w' -> sys_le w w'.
Proof. by intros []. Qed.

Lemma sends_le f d w w' : sends f d w w' -> sys_le w w'.
Proof. by intros []. Qed.

Lemma sends_quiet f w w' : quiet w w' <-> sends f [] w w'.
Proof.
  split; intros [L E]; (split; [done|]); intros g; rewrite E; case_match; by rewrite ?app_nil_r.
Qed.

Lemma sends_trans f d1 d2 w1 w2 w3 :
  sends f d1 w1 w2 -> sends f d2 w2 w3 -> sends f (d1 ++ d2) w1 w3.
Proof.
  intros [L1 E1] [L2 E2]. split; [by etrans|]. intros g. rewrite E2, E1, <- app_assoc.
  by case_match.
Qed.

Lemma sends_quiet_l f d w1 w2 w3 : quiet w1 w2 -> sends f d w2 w3 -> sends f d w1 w3.
Proof. intros Hq Hs. eapply (sends_trans f []); [by apply sends_quiet|done]. Qed.

Lemma sends_quiet_r f d w1 w2 w3 : sends f d w1 w2 -> quiet w2 w3 -> sends f d w1 w3.
Proof.
  intros Hs Hq. rewrite <- (app_nil_r d). eapply sends_trans; [done|by apply sends_quiet].
Qed.

#[export] Hint Resolve quiet_errno quiet_le sends_le : wp.
#[export] Hint Extern 2 (quiet _ (logged _ _ _)) => apply quiet_logged; reflexivity : wp.

(** Interrupted attempts send nothing. *)
Lemma sent_interrupted g c t h : interrupted c t -> sent g (t ++ h) = sent g h.
Proof.
  induction 1 as [|[c' r] t [E1 E2] Ht IH]; [done|]. simpl in E1, E2. subst c'.
  unfold is_eintr in E2. apply andb_true_iff in E2 as [E2 _].
  destruct c; simpl; try done. rewrite IH, (proj2 (Z.ltb_ge _ _)) by lia.
  by rewrite andb_false_r, app_nil_r.
Qed.

Lemma sends_sendmsg f d ctl t w e r :
  interrupted (Sendmsg f d ctl) t -> 0 < r_ret r ->
  sends f (take (Z.to_nat (r_ret r)) d) w (logged (Sys (t ++ trace w) e) (Sendmsg f d ctl) r).
Proof.
  intros Ht Hr. split; [exists ((Sendmsg f d ctl, r) :: t); done|]. intros g.
  cbn [trace logged sent]. rewrite (proj2 (Z.ltb_lt _ _) Hr), andb_true_r, Z.eqb_sym.
  f_equal. by eapply sent_interrupted.
Qed.

Lemma quiet_sendmsg f d ctl t w e r :
  interrupted (Sendmsg f d ctl) t -> r_ret r = -1 ->
  quiet w (logged (Sys (t ++ trace w) e) (Sendmsg f d ctl) r).
Proof.
  intros Ht Hr. split; [exists ((Sendmsg f d ctl, r) :: t); done|]. intros g.
  cbn [trace logged sent]. rewrite Hr, andb_false_r, app_nil_r. by eapply sent_interrupted.
Qed.

Lemma quiet_retry c t w e r :
  is_send c = false -> interrupted c t -> quiet w (logged (Sys (t ++ trace w) e) c r).
Proof.
  intros Hc Ht. split; [exists ((c, r) :: t); done|]. intros g.
  transitivity (sent g (t ++ trace w)); [by destruct c|by eapply sent_interrupted].
Qed.

(** ** Well-formed connections and the operations on them *)

Record conn_wf (c : connection) : Prop := {
  wf_in : buffer_wf (conn_in c);
  wf_out : buffer_wf (conn_out c);
  wf_fds_in : buffer_wf (fds_in c);
  wf_fds_out : buffer_wf (fds_out c);
  wf_fds_aligned : connection_buffer_size (fds_out c) mod 4 = 0;
  wf_flushed : want_flush c = false -> contents (conn_out c) = []
}.

Lemma empty_buffer_wf : buffer_wf empty_buffer.
Proof.
  split; try done. unfold empty_buffer. cbn [data]. by apply Forall_replicate.
Qed.

Lemma new_connection_wf f : conn_wf (new_connection f).
Proof. split; (apply empty_buffer_wf || done). Qed.

Lemma set_fd_wf f c : conn_wf c -> conn_wf (set_fd f c).
Proof. by intros []. Qed.

Section Specs.
Context `{KOk : KernelOk}.

Lemma wp_close {S} f Q (s : S) w :
  (forall w', quiet w w' -> Q () s w') -> wp (ext (Close f);; mret ()) Q s w.
Proof. intros HQ. apply wp_bind, wp_ext. intros r _. apply wp_ret, HQ. auto with wp. Qed.

Lemma wp_close_all {S} fds Q (s : S) w :
  (forall w', quiet w w' -> Q () s w') -> wp (close_all fds) Q s w.
Proof.
  intros HQ. apply (wp_for_each (fun _ s' w' => s' = s /\ quiet w w')).
  - by split.
  - intros f l s' w' [-> Hq]. apply wp_close. intros w'' Hq'. split; [done|by etrans].
  - intros s' w' [-> Hq]. by apply HQ.
Qed.

Lemma wp_close_fds {S} b Q (s : S) w :
  buffer_wf b ->
  (forall b' w', quiet w w' -> buffer_wf b' ->
     connection_buffer_size b' = connection_buffer_size b mod 4 -> Q b' s w') ->
  wp (connection_buffer_close_fds b) Q s w.
Proof.
  intros Hb HQ. unfold connection_buffer_close_fds. pose proof (size_bound b).
  destruct (Z.eqb_spec (connection_buffer_size b) 0).
  { apply wp_ret, HQ; [done..|]. by rewrite e. }
  assert (0 <= connection_buffer_size b / 4 * 4 <= connection_buffer_size b).
  { pose proof (Z.mul_div_le (connection_buffer_size b) 4).
    pose proof (Z.div_pos (connection_buffer_size b) 4). lia. }
  apply wp_bind, wp_close_all. intros w' Hq. apply wp_ret, HQ; [done|by apply consume_wf|].
  rewrite size_consume by done. rewrite Z.mod_eq; lia.
Qed.

Lemma flush_loop_ok n c w :
  conn_wf c -> connection_buffer_size (conn_out c) < Z.of_nat n ->
  wp (flush_loop n) (fun r c' w' =>
    (conn_in c' = conn_in c /\ fds_in c' = fds_in c /\ fd c' = fd c /\
     want_flush c' = want_flush c /\ head (conn_out c') = head (conn_out c)) /\
    buffer_wf (conn_out c') /\ buffer_wf (fds_out c') /\
    connection_buffer_size (fds_out c') mod 4 = 0 /\
    (exists d, sends (fd c) d w w' /\ contents (conn_out c) = d ++ contents (conn_out c')) /\
    (r = -1 /\ refused w w' \/ r = 0 /\ contents (conn_out c') = [])) c w.
Proof.
  revert c w. induction n as [|n IH]; intros c w Hc Hn; [pose proof (size_bound (conn_out c)); lia|].
  cbn [flush_loop]. wp_step. wp_step.
  change (u32 (head (conn_out c) - tail (conn_out c))) with (connection_buffer_size (conn_out c)).
  pose proof (size_bound (conn_out c)). destruct Hc as [Hin Hout Hfi Hfo Hal Hfl].
  destruct (Z.ltb_spec 0 (connection_buffer_size (conn_out c))) as [Hlt|Hge]; cbn [negb].
  2: { apply wp_ret. split_and!; try done.
       - exists []. split; [by apply sends_quiet|done].
       - right. split; [done|]. apply nil_length_inv. rewrite length_contents by done. lia. }
  apply wp_bind, wp_retry. intros r t e Ht Hr Hans. rewrite gather_get_iov in * by (done || lia).
  assert (Hne : contents (conn_out c) <> []).
  { intros E. apply (f_equal zlen) in E. rewrite zlen_contents in E by done. change (zlen (A:=Z) []) with 0 in E. lia. }
  destruct (Z.eqb_spec (r_ret r) (-1)) as [Er|Er].
  { apply wp_ret. split_and!; try done.
    - exists []. split; [|done]. apply sends_quiet. by apply quiet_sendmsg.
    - left. split; [done|]. eapply refused_l, refused_logged; [by exists t|by left]. }
  destruct (sendmsg_ret (t ++ trace w) (fd c) (contents (conn_out c)) (build_cmsg (fds_out c)) Hne)
    as [?|Hret]; rewrite <- Hans in *; [done|].
  change (Z.of_nat (length (contents (conn_out c)))) with (zlen (contents (conn_out c))) in Hret.
  rewrite zlen_contents in Hret by done.
  apply wp_bind, wp_close_fds; [done|]. intros b' w1 Hq Hb' Hs'.
  wp_step. wp_step. wp_step. wp_step.
  eapply wp_mono; [apply IH|].
  - split; try done; simpl; [apply consume_wf; [done|lia]| |].
    + by rewrite Hs', Hal.
    + intros Hf. by rewrite (Hfl Hf) in Hne.
  - simpl. rewrite size_consume by (done || lia). lia.
  - simpl. intros r' c' w' ((? & ? & ? & ? & ?) & ? & ? & ? & (d & Hd & Ed) & Hr').
    split_and!; try done.
    2: { destruct Hr' as [[-> Href]|?]; [left|by right]. split; [done|]. eapply refused_l, Href.
         etrans; [|by apply quiet_le]. by exists ((Sendmsg (fd c) (contents (conn_out c)) (build_cmsg (fds_out c)), r) :: t). }
    exists (take (Z.to_nat (r_ret r)) (contents (conn_out c)) ++ d). split.
    + eapply sends_trans; [|done]. eapply sends_quiet_r; [|done]. apply sends_sendmsg; [done|lia].
    + rewrite <- app_assoc, <- Ed, contents_consume by (done || lia). by rewrite take_drop.
Qed.

(** [connection_flush] ends, sends a prefix of the queue in order and drops
    exactly that, and on success has sent all of it and reports its length. *)
Lemma connection_flush_ok c w :
  conn_wf c ->
  wp connection_flush (fun r c' w' =>
    conn_wf c' /\ conn_in c' = conn_in c /\ fds_in c' = fds_in c /\ fd c' = fd c /\
    (exists d, sends (fd c) d w w' /\ contents (conn_out c) = d ++ contents (conn_out c')) /\
    (r = -1 /\ want_flush c' = true /\ refused w w' \/
     r = zlen (contents (conn_out c)) /\ contents (conn_out c') = [] /\ want_flush c' = false)) c w.
Proof.
  intros Hc. unfold connection_flush. wp_step. wp_step.
  destruct (want_flush c) eqn:Ewf; cbn [negb].
  2: { apply wp_ret. split_and!; try done.
       - exists []. split; [by apply sends_quiet|done].
       - right. rewrite (wf_flushed c Hc Ewf). done. }
  apply wp_bind. eapply wp_mono; [apply flush_loop_ok; [done|]|].
  { pose proof (size_bound (conn_out c)). lia. }
  cbn beta. intros r c' w' ((E1 & E2 & E3 & E4 & E5) & H1 & H2 & H3 & Hd & Hr).
  destruct Hc as [Hin Hout Hfi Hfo Hal Hfl].
  destruct Hr as [[-> Href]|[-> Hnil]].
  - apply wp_ret. split_and!; try done; [|by left; rewrite E4, Ewf].
    split; try done; by rewrite ?E1, ?E2, ?E4, ?Ewf.
  - cbn [Z.eqb]. do 2 wp_step. apply wp_gets. cbn beta. split_and!; try done.
    + split; simpl; try done; by rewrite ?E1, ?E2.
    + right. split_and!; [|done..]. simpl. rewrite E5.
      rewrite <- (i32_u32 (head _ - _)).
      change (u32 (head (conn_out c) - tail (conn_out c))) with (connection_buffer_size (conn_out c)).
      rewrite zlen_contents by done. apply i32_small.
      pose proof (size_bound (conn_out c)). pose proof (wf_size _ Hout).
      unfold CONNECTION_BUFFER_SIZE in *. lia.
Qed.

(** [connection_put] queues all of the bytes behind what is there, or fails and
    queues none of them; it may send a prefix of the queue to make room. *)
Lemma connection_put_ok src c w :
  conn_wf c -> Forall is_byte src ->
  wp (connection_put src) (fun r c' w' =>
    conn_wf c' /\ conn_in c' = conn_in c /\ fds_in c' = fds_in c /\ fd c' = fd c /\
    exists d, sends (fd c) d w w' /\
      (r = 0 /\ contents (conn_out c) ++ src = d ++ contents (conn_out c') /\
         want_flush c' = true /\ zlen src <= 256 \/
       r = -1 /\ contents (conn_out c) = d ++ contents (conn_out c') /\
         (refused w w' \/ 256 < zlen src))) c w.
Proof.
  intros Hc Hs. unfold connection_put. wp_step. wp_step.
  set (Post := fun (r : Z) c' w' =>
    conn_wf c' /\ conn_in c' = conn_in c /\ fds_in c' = fds_in c /\ fd c' = fd c /\
    (exists d, sends (fd c) d w w' /\ contents (conn_out c) = d ++ contents (conn_out c')) /\
    (r = -1 /\ refused w w' \/ 0 <= r /\
      (connection_buffer_size (conn_out c') + zlen src <= 256 \/ 256 < zlen src))).
  apply wp_bind. apply (wp_mono _ Post).
  { destruct (Z.ltb_spec CONNECTION_BUFFER_SIZE (connection_buffer_size (conn_out c) + zlen src))
      as [Hlt|Hge]; unfold CONNECTION_BUFFER_SIZE in *.
    - do 2 wp_step. eapply wp_mono; [apply connection_flush_ok; by destruct Hc|].
      cbn beta. intros r c' w' (H1 & H2 & H3 & H4 & H5 & H6). simpl in *.
      split_and!; try done. destruct H6 as [(-> & _ & ?)|(-> & Hnil & _)]; [by left|right].
      split; [unfold zlen; lia|]. destruct H1 as [? Hout' ????].
      rewrite <- zlen_contents, Hnil by done. change (zlen (A:=Z) []) with 0. lia.
    - apply wp_ret. split_and!; try done; [|right; lia].
      exists []. split; [by apply sends_quiet|done]. }
  intros r c' w' (Hc' & E1 & E2 & E3 & (d & Hd & Ed) & Hr).
  destruct Hr as [[-> Href]|[Hr Hfit]].
  { apply wp_ret. split_and!; try done. exists d. split; [done|]. right. auto. }
  rewrite (proj2 (Z.eqb_neq r (-1))) by lia. do 3 wp_step.
  unfold connection_buffer_put, CONNECTION_BUFFER_SIZE.
  destruct (Z.ltb_spec 256 (zlen src)).
  { wp_steps. split_and!; try done; [by destruct Hc'|].
    exists d. split; [eapply sends_quiet_r; [done|auto with wp]|]. right. auto. }
  destruct Hfit as [Hfit|]; [|lia]. destruct Hc' as [? ? ? ? ? ?].
  wp_steps. split_and!; try done.
  - split; simpl; try done. by apply write_wf.
  - exists d. split; [done|]. left. split_and!; try done. simpl.
    by rewrite contents_write, app_assoc, Ed by done.
Qed.

(** A put that fits makes no call. *)
Lemma connection_put_fits src c w :
  connection_buffer_size (conn_out c) + zlen src <= 256 ->
  connection_put src c w =
    Done (0, set_want_flush true (set_out (buffer_write (conn_out c) src) c), w).
Proof.
  intros Hfit. unfold connection_put, connection_buffer_put, CONNECTION_BUFFER_SIZE.
  unfold mbind, M_bind, get. pose proof (size_bound (conn_out c)).
  destruct (Z.ltb_spec 256 (connection_buffer_size (conn_out c) + zlen src)); [lia|].
  simpl. destruct (Z.ltb_spec 256 (zlen src)); [lia|]. done.
Qed.

(** [connection_get] makes no call: it takes exactly [count] bytes off the
    queue, or fails with [EAGAIN] and leaves the connection alone. *)
Lemma connection_get_eq count c w :
  conn_wf c -> 0 <= count ->
  connection_get count c w =
    if connection_buffer_size (conn_in c) <? count
    then Done (None, c, Sys (trace w) EAGAIN)
    else Done (Some (take (Z.to_nat count) (contents (conn_in c))),
               set_in (connection_buffer_consume (conn_in c) count) c, w).
Proof.
  intros Hc Hcnt. unfold connection_get, mbind, M_bind, get.
  destruct (Z.ltb_spec (connection_buffer_size (conn_in c)) count); [done|].
  unfold modify, mret, M_ret. rewrite copy_contents by (apply Hc || lia). done.
Qed.

Lemma set_in_wf b c : conn_wf c -> buffer_wf b -> conn_wf (set_in b c).
Proof. by intros [] ?. Qed.

Lemma set_fds_in_wf b c : conn_wf c -> buffer_wf b -> conn_wf (set_fds_in b c).
Proof. by intros [] ?. Qed.

Lemma set_fds_out_wf b c :
  conn_wf c -> buffer_wf b -> connection_buffer_size b mod 4 = 0 -> conn_wf (set_fds_out b c).
Proof. by intros [] ?. Qed.

Lemma connection_put_fd_ok f c w :
  conn_wf c ->
  wp (connection_put_fd f) (fun r c' w' =>
    conn_wf c' /\ conn_in c' = conn_in c /\ conn_out c' = conn_out c /\ fds_in c' = fds_in c /\
    fd c' = fd c /\ want_flush c' = want_flush c /\ quiet w w' /\
    (r = 0 \/ r = -1)) c w.
Proof.
  intros Hc. unfold connection_put_fd. wp_steps. unfold MAX_FDS.
  destruct (Z.leb_spec (64 * 4) (connection_buffer_size (fds_out c))).
  { wp_steps. split_and!; auto with wp. }
  wp_steps. unfold connection_buffer_put, CONNECTION_BUFFER_SIZE.
  destruct (Z.ltb_spec 256 (zlen (le_bytes 4 f))).
  { wp_steps. split_and!; auto with wp. by destruct Hc. }
  wp_steps. split_and!; auto; [|done]. pose proof (wf_fds_aligned _ Hc) as Hal.
  assert (connection_buffer_size (fds_out c) + zlen (le_bytes 4 f) <= 256).
  { change (zlen (le_bytes 4 f)) with 4. apply Z.mod_divide in Hal as [k Hk]; lia. }
  assert (Forall is_byte (le_bytes 4 f)) by apply le_bytes_byte.
  apply set_fds_out_wf; [done|apply write_wf; [apply Hc|done..]|].
  rewrite size_write by (done || apply Hc). change (zlen (le_bytes 4 f)) with 4.
  rewrite <- Zplus_mod_idemp_l, Hal. done.
Qed.

Lemma connection_get_ok count c w :
  conn_wf c -> 0 <= count ->
  wp (connection_get count) (fun r c' w' =>
    conn_wf c' /\ conn_out c' = conn_out c /\ fds_in c' = fds_in c /\ fds_out c' = fds_out c /\
    fd c' = fd c /\ want_flush c' = want_flush c /\ trace w' = trace w /\
    match r with
    | None => c' = c /\ connection_buffer_size (conn_in c) < count
    | Some bs => w' = w /\ zlen bs = count /\ Forall is_byte bs /\
        contents (conn_in c) = bs ++ contents (conn_in c') /\
        c' = set_in (connection_buffer_consume (conn_in c) count) c
    end) c w.
Proof.
  intros Hc Hcnt. unfold wp. rewrite connection_get_eq by done.
  destruct (Z.ltb_spec (connection_buffer_size (conn_in c)) count) as [Hlt|Hge].
  { split_and!; done. }
  pose proof (wf_in _ Hc) as Hin.
  split_and!; try done.
  - by apply set_in_wf, consume_wf.
  - unfold zlen. rewrite length_take, length_contents by done. lia.
  - apply Forall_take. unfold contents. apply Forall_take. unfold rotate.
    pose proof (wf_bytes _ Hin). apply Forall_app. auto using Forall_take, Forall_drop.
  - simpl. rewrite contents_consume by (done || lia). by rewrite take_drop.
Qed.

(** [connection_restore] puts back what the last [connection_get] took. *)
Lemma connection_restore_get count c w :
  conn_wf c -> 0 <= count <= connection_buffer_size (conn_in c) ->
  (connection_get count;; connection_restore count) c w = Done ((), c, w).
Proof.
  intros Hc Hcnt. unfold mbind, M_bind. rewrite connection_get_eq by (done || lia).
  destruct (Z.ltb_spec (connection_buffer_size (conn_in c)) count); [lia|].
  unfold connection_restore, modify. do 3 f_equal.
  destruct c. unfold set_in. simpl. rewrite restore_consume by apply Hc. done.
Qed.

Lemma restored_conn c n :
  conn_wf c ->
  set_in (connection_buffer_restore (conn_in (set_in (connection_buffer_consume (conn_in c) n) c)) n)
    (set_in (connection_buffer_consume (conn_in c) n) c) = c.
Proof. intros W. destruct c. unfold set_in. simpl. by rewrite restore_consume by apply W. Qed.

Lemma connection_get_fd_ok c w :
  conn_wf c ->
  wp connection_get_fd (fun r c' w' =>
    conn_wf c' /\ conn_in c' = conn_in c /\ conn_out c' = conn_out c /\ fds_out c' = fds_out c /\
    fd c' = fd c /\ want_flush c' = want_flush c /\ trace w' = trace w) c w.
Proof.
  intros Hc. unfold connection_get_fd. wp_steps.
  destruct (Z.ltb_spec (connection_buffer_size (fds_in c)) 4); wp_steps; split_and!; try done.
  apply set_fds_in_wf, consume_wf; [done|apply Hc|lia].
Qed.

Lemma connection_close_fds_ok c w :
  conn_wf c ->
  wp connection_close_fds (fun _ c' w' =>
    conn_wf c' /\ conn_in c' = conn_in c /\ conn_out c' = conn_out c /\
    fd c' = fd c /\ want_flush c' = want_flush c /\ quiet w w' /\
    connection_buffer_size (fds_in c') < 4 /\ connection_buffer_size (fds_out c') = 0) c w.
Proof.
  intros Hc. unfold connection_close_fds. wp_steps.
  apply wp_close_fds; [apply Hc|]. intros b1 w1 Hq1 Hb1 Hs1. wp_steps.
  apply wp_close_fds; [apply Hc|]. intros b2 w2 Hq2 Hb2 Hs2. wp_steps.
  simpl in Hs2. rewrite (wf_fds_aligned _ Hc) in Hs2.
  split_and!; try done; [|by etrans|].
  - apply set_fds_out_wf; [by apply set_fds_in_wf|done|by rewrite Hs2].
  - simpl. rewrite Hs1. by apply Z.mod_pos_bound.
Qed.

(** What lands behind the write index is not part of the queue until the index
    moves. *)
Lemma contents_behind b src :
  buffer_wf b -> Forall is_byte src -> connection_buffer_size b + zlen src <= 256 ->
  let b' := Buffer (head b) (tail b) (data (buffer_write b src)) in
  buffer_wf b' /\ contents b' = contents b.
Proof.
  intros Hb Hs Hfit b'. pose proof (write_wf b src Hb Hs Hfit) as Hw.
  split; [destruct Hb, Hw; by split|].
  pose proof (contents_write b src Hb Hs Hfit) as E.
  apply (f_equal (take (Z.to_nat (connection_buffer_size b)))) in E.
  rewrite take_app_length' in E by (symmetry; by apply length_contents).
  rewrite <- E. unfold contents at 2. rewrite size_write by done. rewrite take_take.
  unfold contents. simpl. f_equal. change (connection_buffer_size b') with (connection_buffer_size b).
  pose proof (size_bound b). unfold zlen. lia.
Qed.

Lemma decode_cmsgs_ok {S} msgs b overflow (s : S) w Q :
  buffer_wf b -> Forall (fun m => Forall is_byte (cmsg_data m)) msgs ->
  (forall r b' w', buffer_wf b' -> quiet w w' -> r = 0 \/ r = -1 /\ errno w' = EOVERFLOW ->
     Q (r, b') s w') ->
  wp (decode_cmsgs b overflow msgs) Q s w.
Proof.
  intros Hb Hm. revert b overflow w Hb. induction Hm as [|m msgs Hm _ IH]; intros b ov w Hb HQ.
  { cbn [decode_cmsgs]. destruct ov; wp_steps; apply HQ; auto with wp; done. }
  cbn [decode_cmsgs]. wp_case; [by apply IH|]. wp_case.
  - apply wp_bind, wp_close_all. intros w' Hq. apply IH; [done|].
    intros r b' w'' Hb' Hq'. apply HQ; [done|by etrans].
  - unfold CONNECTION_BUFFER_SIZE in *. wp_steps. unfold connection_buffer_put.
    apply orb_false_iff in E0 as [E0 _]. apply Z.ltb_ge in E0. pose proof (size_bound b).
    rewrite (proj2 (Z.ltb_ge _ _)) by (unfold CONNECTION_BUFFER_SIZE; lia). wp_steps.
    apply IH; [|done]. apply write_wf; [done..|lia].
Qed.

(** [connection_read] appends exactly what the kernel delivered to the queue and
    reports the length of the whole queue, or fails and leaves the queue alone. *)
Lemma connection_read_ok c w :
  conn_wf c ->
  wp connection_read (fun r c' w' =>
    conn_wf c' /\ conn_out c' = conn_out c /\ fds_out c' = fds_out c /\
    fd c' = fd c /\ want_flush c' = want_flush c /\ quiet w w' /\
    (r = -1 /\ contents (conn_in c') = contents (conn_in c) /\ (refused w w' \/ errno w' = EOVERFLOW) \/
     exists m t1 t2, let call := Recvmsg (fd c) (256 - connection_buffer_size (conn_in c)) in
       trace w' = t2 ++ (call, m) :: t1 ++ trace w /\ interrupted call t1 /\
       r = zlen (contents (conn_in c')) /\
       contents (conn_in c') = contents (conn_in c) ++ r_bytes m /\
       m = answer (t1 ++ trace w) call /\ r_ret m <> -1)) c w.
Proof.
  intros Hc. unfold connection_read. wp_steps. pose proof (wf_in _ Hc) as Hin.
  unfold CONNECTION_BUFFER_SIZE.
  destruct (Z.leb_spec 256 (connection_buffer_size (conn_in c))) as [Hle|Hlt].
  { wp_steps. split_and!; auto with wp. }
  rewrite total_put_iov by done. apply wp_bind, wp_retry. intros r t e Ht Hr Hans.
  assert (Hq0 : quiet w (logged (Sys (t ++ trace w) e)
                  (Recvmsg (fd c) (256 - connection_buffer_size (conn_in c))) r))
    by by apply quiet_retry.
  destruct (Z.eqb_spec (r_ret r) (-1)).
  { wp_steps. split_and!; auto. left. split_and!; [done..|]. left.
    eapply refused_l, refused_logged; [by exists t|by left]. }
  destruct (recvmsg_ret (t ++ trace w) (fd c) (256 - connection_buffer_size (conn_in c)))
    as [?|[Hret Hlen]]; rewrite <- Hans in *; [done|].
  pose proof (recvmsg_bytes (t ++ trace w) (fd c) (256 - connection_buffer_size (conn_in c))) as Hbs.
  pose proof (recvmsg_cmsgs (t ++ trace w) (fd c) (256 - connection_buffer_size (conn_in c))) as Hcm.
  rewrite <- Hans in Hbs, Hcm.
  assert (Hfit : connection_buffer_size (conn_in c) + zlen (r_bytes r) <= 256)
    by (unfold zlen; lia).
  rewrite scatter_put_iov by done.
  destruct (contents_behind _ _ Hin Hbs Hfit) as [Hb' Eb'].
  wp_steps. apply decode_cmsgs_ok; [apply Hc|done|]. intros d b w' Hb Hq Hd.
  wp_steps. wp_case.
  { wp_steps. split_and!; try done; [|by etrans|].
    - by apply set_fds_in_wf, Hb; apply set_in_wf.
    - left. split_and!; [done..|]. right. by destruct Hd as [->|[_ ?]]. }
  wp_steps. rewrite <- Hlen.
  change (Buffer (u32 (head (conn_in c) + Z.of_nat (length (r_bytes r)))) (tail (conn_in c))
            (data (buffer_write (conn_in c) (r_bytes r))))
    with (buffer_write (conn_in c) (r_bytes r)).
  pose proof (write_wf _ _ Hin Hbs Hfit).
  split_and!; try done; [|by etrans|].
  - apply set_in_wf; [|done]. apply set_fds_in_wf, Hb. by apply set_in_wf.
  - right. destruct (quiet_le _ _ Hq) as [t2 Et]. exists r, t, t2. cbv zeta. simpl.
    rewrite zlen_contents, contents_write by done. split_and!; done.
Qed.

End Specs.

(** ** Operations that send nothing and leave the state alone *)

Definition silent {S A} (m : M S A) : Prop :=
  forall s w, wp m (fun _ s' w' => s' = s /\ quiet w w') s w.

Section Silent.
Context {S : Type}.

Lemma wp_silent {A} (m : M S A) Q s w :
  silent m -> (forall r w', quiet w w' -> Q r s w') -> wp m Q s w.
Proof.
  intros Hm HQ. eapply wp_mono; [apply Hm|]. intros r s' w' [-> Hq]. by apply HQ.
Qed.

Lemma silent_ret {A} (a : A) : silent (S:=S) (mret a).
Proof. intros s w. by apply wp_ret. Qed.

Lemma silent_bind {A B} (m : M S A) (f : A -> M S B) :
  silent m -> (forall a, silent (f a)) -> silent (m ≫= f).
Proof.
  intros Hm Hf s w. apply wp_bind, (wp_silent _ _ _ _ Hm). intros r w1 Hq.
  apply (wp_silent _ _ _ _ (Hf r)). intros r' w2 Hq'. split; [done|by etrans].
Qed.

Lemma silent_ext `{Kernel} c : is_send c = false -> silent (S:=S) (ext c).
Proof. intros Hc s w. apply wp_ext. intros r _. split; [done|by apply quiet_logged]. Qed.

Lemma silent_get_errno : silent (S:=S) get_errno.
Proof. intros s w. by apply wp_get_errno. Qed.

Lemma silent_set_errno e : silent (S:=S) (set_errno e).
Proof. intros s w. apply wp_set_errno. auto with wp. Qed.

Lemma silent_fail_with {A} e (a : A) : silent (S:=S) (fail_with e a).
Proof. intros s w. apply wp_fail_with. auto with wp. Qed.

Lemma silent_gets {A} (f : S -> A) : silent (gets f).
Proof. intros s w. by apply wp_gets. Qed.

Lemma silent_if {A} (b : bool) (m1 m2 : M S A) : silent m1 -> silent m2 -> silent (if b then m1 else m2).
Proof. by destruct b. Qed.

Lemma silent_assert b : b = true -> silent (S:=S) (assert_ b).
Proof. intros ->. apply silent_ret. Qed.

End Silent.

Create HintDb silent.
#[export] Hint Resolve silent_ret silent_get_errno silent_set_errno silent_fail_with silent_gets : silent.
Ltac silent_step :=
  first
    [ solve [auto with silent]
    | lazymatch goal with
      | |- silent (mbind _ _) => apply silent_bind; [|intros ?]
      | |- silent (if _ then _ else _) => apply silent_if
      | |- silent (ext _) => apply silent_ext; reflexivity
      | |- silent (assert_ _) => apply silent_assert; lia
      end ].
Ltac silent_auto := repeat silent_step.
