(* ===== verification/Protocol.v ===== *)
(** * include/protocol.h and include/control.h: constants and message layouts

    The structs as they lie in memory on a little-endian machine with 2-byte
    [uint16_t] and 4-byte [int] (none of them needs padding). *)
From S2P Require Import Prelude.

Definition MAX_PATH_LEN : Z := 256.
Definition MAX_SEAT_LEN : Z := 64.
Definition MAX_SEAT_DEVICES : Z := 128.

Definition CLIENT_EVENT (opcode : Z) : Z := opcode.
Definition SERVER_EVENT (opcode : Z) : Z := opcode + Z.shiftl 1 15.

Definition CLIENT_OPEN_SEAT := CLIENT_EVENT 1.
Definition CLIENT_CLOSE_SEAT := CLIENT_EVENT 2.
Definition CLIENT_OPEN_DEVICE := CLIENT_EVENT 3.
Definition CLIENT_CLOSE_DEVICE := CLIENT_EVENT 4.
Definition CLIENT_DISABLE_SEAT := CLIENT_EVENT 5.
Definition CLIENT_SWITCH_SESSION := CLIENT_EVENT 6.
Definition CLIENT_PING := CLIENT_EVENT 7.

Definition SERVER_SEAT_OPENED := SERVER_EVENT 1.
Definition SERVER_SEAT_CLOSED := SERVER_EVENT 2.
Definition SERVER_DEVICE_OPENED := SERVER_EVENT 3.
Definition SERVER_DEVICE_CLOSED := SERVER_EVENT 4.
Definition SERVER_DISABLE_SEAT := SERVER_EVENT 5.
Definition SERVER_ENABLE_SEAT := SERVER_EVENT 6.
Definition SERVER_PONG := SERVER_EVENT 7.
Definition SERVER_SESSION_SWITCHED := SERVER_EVENT 8.
Definition SERVER_SEAT_DISABLED := SERVER_EVENT 9.
Definition SERVER_ERROR := SERVER_EVENT 32767.

(** ** Struct images *)

(** [struct proto_header], and [struct control_header] alike. *)
Record proto_header := Header {
  opcode : Z;              (* uint16_t *)
  size : Z                 (* uint16_t *)
}.
Definition sizeof_header : Z := 4.

Definition header_bytes (h : proto_header) : bytes :=
  le_bytes 2 (opcode h) ++ le_bytes 2 (size h).
Definition header_of (bs : bytes) : proto_header :=
  Header (le_value (take 2 bs)) (le_value (take 2 (drop 2 bs))).

(** A struct of one [int], and of one [uint16_t]. *)
Definition int_bytes (n : Z) : bytes := le_bytes 4 n.
Definition int_of (bs : bytes) : Z := i32 (le_value (take 4 bs)).
Definition u16_bytes (n : Z) : bytes := le_bytes 2 n.
Definition u16_of (bs : bytes) : Z := le_value (take 2 bs).

(** ** The control protocol *)

Definition CONTROL_NAME_MAX : Z := 64.
Definition CONTROL_CREATE_GROUP_VT : Z := 1.
Definition CONTROL_DESTROY_GROUP_VT : Z := 2.
Definition CONTROL_GET_ACTIVE_VT : Z := 3.
Definition CONTROL_FIND_FREE_VT : Z := 4.
Definition CONTROL_SWITCH_VT : Z := 5.
Definition CONTROL_GROUP_VT_CREATED : Z := 100.
Definition CONTROL_VT_CHANGED : Z := 101.
Definition CONTROL_OK : Z := 102.
Definition CONTROL_ACTIVE_VT : Z := 103.
Definition CONTROL_FREE_VT : Z := 104.
Definition CONTROL_ERROR : Z := 255.

Record control_create_group_vt_request := CreateRequest {
  cr_owner_pid : Z;        (* int32_t *)
  cr_vt : Z;               (* int32_t *)
  cr_user : bytes;         (* char[CONTROL_NAME_MAX] *)
  cr_session : bytes       (* char[CONTROL_NAME_MAX] *)
}.
Definition sizeof_create_request : Z := 136.

Definition create_request_of (bs : bytes) : control_create_group_vt_request :=
  CreateRequest (int_of bs) (int_of (drop 4 bs)) (take 64 (drop 8 bs)) (take 64 (drop 72 bs)).

(** The C string in a buffer: the characters before the first NUL. *)
Definition cstring (buf : bytes) : bytes := take (strnlen buf (length buf)) buf.

(** ** Round trips *)

Lemma length_header_bytes h : length (header_bytes h) = 4%nat.
Proof. unfold header_bytes. by rewrite length_app, !length_le_bytes. Qed.

Lemma header_bytes_byte h : Forall is_byte (header_bytes h).
Proof. unfold header_bytes. apply Forall_app. auto using le_bytes_byte. Qed.

Lemma header_of_bytes h rest :
  0 <= opcode h < 2 ^ 16 -> 0 <= size h < 2 ^ 16 -> header_of (header_bytes h ++ rest) = h.
Proof.
  intros. unfold header_of, header_bytes. rewrite <- app_assoc.
  rewrite take_app_length' by by rewrite length_le_bytes.
  rewrite drop_app_length' by by rewrite length_le_bytes.
  rewrite take_app_length' by by rewrite length_le_bytes.
  rewrite !le_value_bytes, !Z.mod_small by (simpl; lia). by destruct h.
Qed.

Lemma int_of_bytes n rest : - 2 ^ 31 <= n < 2 ^ 31 -> int_of (int_bytes n ++ rest) = n.
Proof.
  intros. unfold int_of, int_bytes. rewrite take_app_length' by by rewrite length_le_bytes.
  rewrite le_value_bytes. change (n mod 2 ^ (8 * Z.of_nat 4)) with (u32 n).
  by rewrite i32_u32, i32_small.
Qed.

Lemma u16_of_bound bs : Forall is_byte bs -> 0 <= u16_of bs < 2 ^ 16.
Proof.
  intros Hb. unfold u16_of. pose proof (le_value_bound (take 2 bs) (Forall_take _ _ _ Hb)) as [? Hlt].
  split; [done|]. eapply Z.lt_le_trans; [exact Hlt|]. apply Z.pow_le_mono_r; [lia|]. rewrite length_take. lia.
Qed.

Lemma header_of_bound bs :
  Forall is_byte bs -> 0 <= opcode (header_of bs) < 2 ^ 16 /\ 0 <= size (header_of bs) < 2 ^ 16.
Proof.
  intros Hb. split; [exact (u16_of_bound bs Hb)|exact (u16_of_bound (drop 2 bs) (Forall_drop _ _ _ Hb))].
Qed.
