(* ===== verification/Devices.v ===== *)
(** * common/drm.c, evdev.c, hidraw.c, wscons.c: device classes

    Path classification for each platform the code compiles for, and the
    ioctls that grant and revoke a device. *)
From S2P Require Import Prelude Kernel Connection.

Inductive platform := Linux | FreeBSD | NetBSD.

Definition STR_HAS_PREFIX (prefix s : bytes) : bool := strncmp_eq prefix s (length prefix).

Definition path_is_drm (p : platform) (path : bytes) : bool :=
  match p with
  | Linux | NetBSD => STR_HAS_PREFIX (str "/dev/dri/") path
  | FreeBSD => STR_HAS_PREFIX (str "/dev/dri/") path || STR_HAS_PREFIX (str "/dev/drm/") path
  end.

Definition path_is_evdev (p : platform) (path : bytes) : bool :=
  match p with
  | Linux | FreeBSD =>
      let prefix := str "/dev/input/event" in strncmp_eq prefix path (length prefix)
  | NetBSD => false
  end.

(** [revoke]: the kernel headers define [HIDIOCREVOKE]. *)
Definition path_is_hidraw (p : platform) (revoke : bool) (path : bytes) : bool :=
  match p, revoke with
  | Linux, true => let prefix := str "/dev/hidraw" in strncmp_eq prefix path (length prefix)
  | _, _ => false
  end.

Definition path_is_wscons (p : platform) (path : bytes) : bool :=
  match p with
  | NetBSD =>
      let wskbd := str "/dev/wskbd" in
      let wsmouse := str "/dev/wsmouse" in
      let wsmux := str "/dev/wsmux" in
      strncmp_eq path wskbd (length wskbd) ||
      strncmp_eq path wsmouse (length wsmouse) ||
      strncmp_eq path wsmux (length wsmouse)
  | _ => false
  end.

Section Ioctls.
Context `{K : Kernel} {S : Type}.

Definition ioctl (fd : Z) (req : ioctl_request) : M S Z :=
  r ← ext (Ioctl fd req); mret (r_ret r).

Definition drm_set_master (fd : Z) : M S Z := ioctl fd DRM_IOCTL_SET_MASTER.
Definition drm_drop_master (fd : Z) : M S Z := ioctl fd DRM_IOCTL_DROP_MASTER.

Definition drm_is_master (fd : Z) : M S Z :=
  r ← ioctl fd (DRM_IOCTL_AUTH_MAGIC 0);
  if r =? -1 then
    e ← get_errno;
    if e =? EACCES then mret 0 else
    if e =? EINVAL then mret 1 else
    mret (-1)
  else mret 1.

Definition evdev_revoke (fd : Z) : M S Z := ioctl fd EVIOCREVOKE.

Definition hidraw_revoke (fd : Z) : M S Z :=
  if has_hidiocrevoke then ioctl fd HIDIOCREVOKE else mret 0.

Lemma ioctl_silent fd req : silent (ioctl fd req).
Proof. unfold ioctl. silent_auto. Qed.

Lemma drm_is_master_silent fd : silent (drm_is_master fd).
Proof. unfold drm_is_master, ioctl. silent_auto. Qed.

Lemma hidraw_revoke_silent fd : silent (hidraw_revoke fd).
Proof. unfold hidraw_revoke, ioctl. silent_auto. Qed.

End Ioctls.

#[export] Hint Resolve ioctl_silent drm_is_master_silent hidraw_revoke_silent : silent.
#[export] Hint Extern 1 (silent (drm_set_master _)) => apply ioctl_silent : silent.
#[export] Hint Extern 1 (silent (drm_drop_master _)) => apply ioctl_silent : silent.
#[export] Hint Extern 1 (silent (evdev_revoke _)) => apply ioctl_silent : silent.

(** ** Classification *)

Lemma has_prefix_spec p s : STR_HAS_PREFIX p s = true <-> p `prefix_of` s.
Proof. apply strncmp_prefix. Qed.

(** The third comparison of [path_is_wscons] covers the terminating NUL. *)
Lemma wsmux_exact c rest :
  path_is_wscons NetBSD (str "/dev/wsmux") = true /\
  path_is_wscons NetBSD (str "/dev/wsmux" ++ c :: rest) = false.
Proof. done.
Qed.
