(* ===== verification/Terminal.v ===== *)
(** * common/terminal.c: virtual terminals

    The device path of a VT on each platform, and the VT ioctls (as the Linux
    build issues them). *)
From S2P Require Import Prelude Kernel Connection Protocol Devices.

Definition TTYPATHLEN : Z := 16.
Definition SIGUSR1 : Z := 10.
Definition SIGUSR2 : Z := 12.
Definition VT_ACKACQ : Z := 2.

(** ** Numerals, as printf's [%d] and the kernel's radix formatter print them *)

Definition digit_char (value : Z) : Z :=
  if 10 <=? value then 97 + value - 10 else 48 + value.

(** Digits of [n], least significant first. *)
Fixpoint radix_rev (fuel : nat) (base n : Z) : bytes :=
  match fuel with
  | O => []
  | S fuel' =>
      if n <=? 0 then [] else digit_char (n mod base) :: radix_rev fuel' base (n / base)
  end.

(** The numeral of a non-negative [n]; a number has no more digits than bits. *)
Definition numeral (base n : Z) : bytes :=
  if n <=? 0 then [48] else rev (radix_rev (Z.to_nat (Z.log2 n + 1)) base n).

(** ** Device paths *)

Section Paths.
Context {S : Type}.

(** [path[i] = c]. *)
Definition path_set (path : bytes) (i c : Z) : bytes := <[Z.to_nat i := c]> path.

(** FreeBSD: the digit loop, [for (remaining = tty; remaining > 0; remaining /=
    base, offset++)].  The bound on [offset] ends it after six digits. *)
Fixpoint tty_digits (fuel : nat) (remaining offset : Z) (path : bytes) :
    M S (option (Z * bytes)) :=
  if remaining <=? 0 then mret (Some (offset, path)) else
  match fuel with
  | O => hang
  | Datatypes.S fuel' =>
      if TTYPATHLEN <=? offset + 1 then fail_with ENOMEM None else
      let value := remaining mod 32 in
      tty_digits fuel' (remaining / 32) (offset + 1) (path_set path offset (digit_char value))
  end.

(** FreeBSD: the swap loop, [for (i = 0; i < num_len / 2; i++)]; [n] counts the
    remaining iterations. *)
Fixpoint tty_swap (n : nat) (i prefix_len offset : Z) (path : bytes) : bytes :=
  match n with
  | O => path
  | Datatypes.S n' =>
      let p1 := prefix_len + i in
      let p2 := offset - 1 - i in
      let tmp := nth (Z.to_nat p1) path 0 in
      let path := path_set path p1 (nth (Z.to_nat p2) path 0) in
      tty_swap n' (i + 1) prefix_len offset (path_set path p2 tmp)
  end.

Definition get_tty_path_freebsd (tty : Z) : M S (option bytes) :=
  assert_ (0 <=? tty);;
  let prefix := str "/dev/ttyv" in
  let prefix_len := zlen prefix in
  let path := memcpy (replicate (Z.to_nat TTYPATHLEN) 0) 0 (prefix ++ [0]) in
  let tty := if 0 <? tty then tty - 1 else tty in
  if tty =? 0 then
    let path := path_set path prefix_len 48 in
    let path := path_set path (prefix_len + 1) 0 in
    mret (Some (cstring path))
  else
  res ← tty_digits 7 tty prefix_len path;
  match res with
  | None => mret None
  | Some (offset, path) =>
      let num_len := offset - prefix_len in
      let path := tty_swap (Z.to_nat (num_len / 2)) 0 prefix_len offset path in
      mret (Some (cstring (path_set path offset 0)))
  end.

(** Linux and NetBSD: [snprintf(path, TTYPATHLEN, ...)] keeps the first
    [TTYPATHLEN - 1] characters. *)
Definition get_tty_path (p : platform) (tty : Z) : M S (option bytes) :=
  match p with
  | FreeBSD => get_tty_path_freebsd tty
  | Linux =>
      assert_ (0 <=? tty);;
      mret (Some (take (Z.to_nat (TTYPATHLEN - 1)) (str "/dev/tty" ++ numeral 10 tty)))
  | NetBSD =>
      assert_ (0 <=? tty);;
      mret (Some (take (Z.to_nat (TTYPATHLEN - 1)) (str "/dev/ttyE" ++ numeral 10 tty)))
  end.

End Paths.

(** ** Operations *)

Section Operations.
Context `{K : Kernel} {S : Type}.

Definition terminal_open (vt : Z) : M S Z :=
  path ← get_tty_path Linux vt;
  match path with
  | None => mret (-1)
  | Some path =>
      r ← ext (Open path [O_RDWR; O_NOCTTY]);
      mret (r_ret r)
  end.

Definition terminal_find_available (fd : Z) : M S Z :=
  r ← ext (Ioctl fd VT_OPENQRY);
  if r_ret r =? -1 then mret (-1) else
  let vt := r_val 0 r in
  if vt <=? 0 then fail_with ENOENT (-1) else
  mret vt.

Definition terminal_current_vt (fd : Z) : M S Z :=
  r ← ext (Ioctl fd VT_GETSTATE);
  if r_ret r =? -1 then mret (-1) else
  mret (r_val 0 r).

Definition terminal_set_process_switching (fd : Z) (enable : bool) : M S Z :=
  let mode := VT_SETMODE (if enable then VT_PROCESS else VT_AUTO)
                (if enable then SIGUSR1 else 0) (if enable then SIGUSR2 else 0) in
  r ← ioctl fd mode;
  if r =? -1 then mret (-1) else mret 0.

Definition terminal_switch_vt (fd vt : Z) : M S Z :=
  r ← ioctl fd (VT_ACTIVATE vt);
  if r =? -1 then mret (-1) else mret 0.

Definition terminal_ack_release (fd : Z) : M S Z :=
  r ← ioctl fd (VT_RELDISP 1);
  if r =? -1 then mret (-1) else mret 0.

Definition terminal_ack_acquire (fd : Z) : M S Z :=
  r ← ioctl fd (VT_RELDISP VT_ACKACQ);
  if r =? -1 then mret (-1) else mret 0.

Definition terminal_set_keyboard (fd : Z) (enable : bool) : M S Z :=
  r ← ioctl fd (KDSKBMODE (if enable then K_ENABLE else K_DISABLE));
  if r =? -1 then mret (-1) else mret 0.

Definition terminal_set_graphics (fd : Z) (enable : bool) : M S Z :=
  r ← ioctl fd (KDSETMODE (if enable then KD_GRAPHICS else KD_TEXT));
  if r =? -1 then mret (-1) else mret 0.

Definition close (fd : Z) : M S () := ext (Close fd);; mret ().

(** Opening a terminal aborts on a negative VT number, and only then. *)
Lemma terminal_open_silent vt : 0 <= vt -> silent (terminal_open vt).
Proof.
  intros Hvt. unfold terminal_open, get_tty_path. silent_auto.
  case_match; silent_auto.
Qed.

Lemma terminal_open_negative vt s w : vt < 0 -> terminal_open vt s w = Aborted.
Proof.
  intros. unfold terminal_open, get_tty_path, mbind, M_bind, assert_.
  by rewrite (proj2 (Z.leb_gt _ _)).
Qed.

(** Operations that change nothing here and whose results in [P], the failures,
    come from a refused call. *)
Definition honest (P : Z -> Prop) (m : M S Z) : Prop :=
  forall s w, wp m (fun r s' w' => s' = s /\ quiet w w' /\ (P r -> refused w w')) s w.

Lemma wp_honest P (m : M S Z) Q s w :
  honest P m -> (forall r w', quiet w w' -> (P r -> refused w w') -> Q r s w') -> wp m Q s w.
Proof. intros Hm HQ. eapply wp_mono; [apply Hm|]. intros r s' w' (-> & ? & ?). auto. Qed.

Lemma terminal_open_honest vt : 0 <= vt -> honest (eq (-1)) (terminal_open vt).
Proof.
  intros Hvt s w. unfold terminal_open, get_tty_path. wp_steps. apply wp_assert; [lia|]. wp_steps.
  apply wp_ext. intros r _. wp_steps. split_and!; [done|auto with wp|].
  intros Hr. apply refused_logged. by left.
Qed.

Lemma ioctl_status_honest fd req :
  honest (eq (-1)) (r ← ioctl fd req; if r =? -1 then mret (-1) else mret 0).
Proof.
  intros s w. unfold ioctl. wp_steps. apply wp_ext. intros r _. wp_steps.
  destruct (Z.eqb_spec (r_ret r) (-1)); wp_steps; (split_and!; [done|auto with wp|]); [|done].
  intros _. apply refused_logged. by left.
Qed.

Lemma terminal_current_vt_honest fd : honest (fun r => r <= 0) (terminal_current_vt fd).
Proof.
  intros s w. unfold terminal_current_vt. wp_steps. apply wp_ext. intros r _.
  destruct (Z.eqb_spec (r_ret r) (-1)); wp_steps; (split; [done|]; split; [auto with wp|]);
    intros Hr; apply refused_logged; [by left|by right].
Qed.

Lemma terminal_find_available_silent fd : silent (terminal_find_available fd).
Proof. unfold terminal_find_available. silent_auto. Qed.

Lemma terminal_current_vt_silent fd : silent (terminal_current_vt fd).
Proof. unfold terminal_current_vt. silent_auto. Qed.

Lemma terminal_set_process_switching_silent fd b : silent (terminal_set_process_switching fd b).
Proof. unfold terminal_set_process_switching. silent_auto. Qed.

Lemma terminal_switch_vt_silent fd vt : silent (terminal_switch_vt fd vt).
Proof. unfold terminal_switch_vt. silent_auto. Qed.

Lemma terminal_ack_release_silent fd : silent (terminal_ack_release fd).
Proof. unfold terminal_ack_release. silent_auto. Qed.

Lemma terminal_ack_acquire_silent fd : silent (terminal_ack_acquire fd).
Proof. unfold terminal_ack_acquire. silent_auto. Qed.

Lemma terminal_set_keyboard_silent fd b : silent (terminal_set_keyboard fd b).
Proof. unfold terminal_set_keyboard. silent_auto. Qed.

Lemma terminal_set_graphics_silent fd b : silent (terminal_set_graphics fd b).
Proof. unfold terminal_set_graphics. silent_auto. Qed.

Lemma close_silent fd : silent (close fd).
Proof. unfold close. silent_auto. Qed.

(** A free VT is a positive number. *)
Lemma terminal_find_available_ok fd Q s w :
  (forall vt w', quiet w w' -> vt = -1 /\ refused w w' \/ 0 < vt -> Q vt s w') ->
  wp (terminal_find_available fd) Q s w.
Proof.
  intros HQ. unfold terminal_find_available. apply wp_bind, wp_ext. intros r _.
  destruct (Z.eqb_spec (r_ret r) (-1)); wp_steps.
  { apply HQ; [auto with wp|]. left. split; [done|]. apply refused_logged. by left. }
  destruct (Z.leb_spec (r_val 0 r) 0); wp_steps; apply HQ; auto with wp.
  - etrans; [|apply quiet_errno]. auto with wp.
  - left. split; [done|]. apply (refused_r _ (logged w (Ioctl fd VT_OPENQRY) r)); [|apply sys_le_errno].
    apply refused_logged. by right.
Qed.

End Operations.

#[export] Hint Resolve terminal_open_silent terminal_find_available_silent
  terminal_current_vt_silent terminal_set_process_switching_silent
  terminal_switch_vt_silent terminal_ack_release_silent terminal_ack_acquire_silent
  terminal_set_keyboard_silent terminal_set_graphics_silent close_silent : silent.

(** ** Paths as strings *)

Lemma radix_rev_unfold fuel base n :
  0 < n -> radix_rev (Datatypes.S fuel) base n = digit_char (n mod base) :: radix_rev fuel base (n / base).
Proof. intros. cbn [radix_rev]. by rewrite (proj2 (Z.leb_gt _ _)). Qed.

Lemma radix_rev_done fuel base n : n <= 0 -> radix_rev fuel base n = [].
Proof. intros. destruct fuel; [done|]. cbn [radix_rev]. by rewrite (proj2 (Z.leb_le _ _)). Qed.

Lemma div_bound base n f :
  1 < base -> 0 < n -> n < base ^ Z.of_nat (Datatypes.S f) -> 0 <= n / base < base ^ Z.of_nat f.
Proof.
  intros Hb Hn Hlt. rewrite Nat2Z.inj_succ, Z.pow_succ_r in Hlt by lia. split.
  - apply Z.div_pos; lia.
  - apply Z.div_lt_upper_bound; lia.
Qed.

(** With enough fuel the digits do not depend on it. *)
Lemma radix_rev_fuel f1 f2 base n :
  1 < base -> n < base ^ Z.of_nat f1 -> n < base ^ Z.of_nat f2 ->
  radix_rev f1 base n = radix_rev f2 base n.
Proof.
  intros Hb. revert f2 n. induction f1 as [|f1 IH]; intros f2 n H1 H2.
  - cbn in H1. by rewrite !radix_rev_done by lia.
  - destruct (Z.leb_spec n 0); [by rewrite !radix_rev_done by done|].
    destruct f2 as [|f2]; [cbn in H2; lia|]. rewrite !radix_rev_unfold by done. f_equal.
    apply IH; by apply div_bound.
Qed.

Lemma digit_char_nonzero v : 0 <= v -> digit_char v <> 0.
Proof. unfold digit_char. case_match; lia. Qed.

Lemma radix_rev_nonzero f base n : 0 < base -> Forall (fun c => c <> 0) (radix_rev f base n).
Proof.
  intros Hb. revert n. induction f as [|f IH]; intros n; [constructor|]. cbn.
  case_match; constructor; [|done]. apply digit_char_nonzero, Z.mod_pos_bound. lia.
Qed.

Lemma cstring_app l r : Forall (fun c => c <> 0) l -> cstring (l ++ 0 :: r) = l.
Proof.
  intros Hl. unfold cstring.
  assert (E : strnlen (l ++ 0 :: r) (length (l ++ 0 :: r)) = length l).
  { induction Hl as [|c l Hc Hl IH]; [done|]. cbn. rewrite (proj2 (Z.eqb_neq c 0) Hc). by rewrite IH. }
  by rewrite E, take_app_length.
Qed.

Lemma path_set_mid l c x r : path_set (l ++ x :: r) (zlen l) c = l ++ c :: r.
Proof.
  unfold path_set, zlen. rewrite Nat2Z.id. rewrite insert_app_r_alt by lia. by rewrite Nat.sub_diag.
Qed.

(** FreeBSD: the digit loop writes the digits after the prefix, least significant
    first, while they leave room for the final NUL. *)
Section FreeBSD.
Context {S : Type}.
Implicit Types (s : S) (w : sys).

Lemma tty_digits_ok fuel n pre rest s w :
  0 <= n < 32 ^ Z.of_nat fuel -> length (pre ++ rest) = 16%nat ->
  tty_digits fuel n (zlen pre) (pre ++ rest) s w =
    let ds := radix_rev fuel 32 n in
    if n <=? 0 then Done (Some (zlen pre, pre ++ rest), s, w) else
    if zlen (pre ++ ds) <=? 15
    then Done (Some (zlen (pre ++ ds), (pre ++ ds) ++ drop (length ds) rest), s, w)
    else Done (None, s, Sys (trace w) ENOMEM).
Proof.
  revert n pre rest. induction fuel as [|fuel IH]; intros n pre rest Hn Hlen.
  { cbn in Hn. cbn [tty_digits]. by rewrite (proj2 (Z.leb_le n 0)) by lia. }
  cbn [tty_digits]. cbn zeta. destruct (Z.leb_spec n 0); [done|].
  rewrite radix_rev_unfold by lia. pose proof (div_bound 32 n fuel ltac:(lia) ltac:(lia) ltac:(lia)) as Hdiv.
  rewrite length_app in Hlen. unfold TTYPATHLEN.
  destruct (Z.leb_spec 16 (zlen pre + 1)) as [Hfull|Hroom].
  { rewrite (proj2 (Z.leb_gt _ _)); [done|]. unfold zlen in *. rewrite length_app. cbn [length]. lia. }
  destruct rest as [|x rest]; [unfold zlen in *; cbn in Hlen; lia|].
  rewrite path_set_mid. set (c := digit_char (n mod 32)).
  replace (zlen pre + 1) with (zlen (pre ++ [c])) by (unfold zlen; rewrite length_app; cbn; lia).
  replace (pre ++ c :: rest) with ((pre ++ [c]) ++ rest) by by rewrite <- app_assoc.
  rewrite IH; [|done|rewrite !length_app in *; cbn in *; lia]. cbn zeta.
  destruct (Z.leb_spec (n / 32) 0).
  - rewrite radix_rev_done by lia. cbn [drop length]. rewrite (proj2 (Z.leb_le _ _)); [done|].
    unfold zlen in *. rewrite length_app. cbn [length]. lia.
  - cbn [drop length]. by rewrite <- app_assoc.
Qed.

(** The swap loop reverses the digits; there are at most six. *)
Lemma tty_swap_rev (ds rest : bytes) :
  (length ds <= 6)%nat ->
  let pre := str "/dev/ttyv" in
  tty_swap (Z.to_nat (zlen ds / 2)) 0 (zlen pre) (zlen (pre ++ ds)) ((pre ++ ds) ++ rest) =
    pre ++ rev ds ++ rest.
Proof.
  intros Hlen. do 7 (destruct ds as [|? ds]; [reflexivity|]). cbn in Hlen. lia.
Qed.

Lemma radix_rev_length f base n k :
  1 < base -> 0 <= n < base ^ Z.of_nat k -> (length (radix_rev f base n) <= k)%nat.
Proof.
  intros Hb. revert n k. induction f as [|f IH]; intros n k Hn; [cbn; lia|].
  destruct (Z.leb_spec n 0); [rewrite radix_rev_done by done; cbn; lia|].
  rewrite radix_rev_unfold by done. destruct k as [|k]; [cbn in Hn; lia|]. cbn [length].
  apply le_n_S, IH. apply div_bound; lia.
Qed.

Lemma radix_rev_length_ge f base n k :
  1 < base -> base ^ Z.of_nat k <= n < base ^ Z.of_nat f -> (k < length (radix_rev f base n))%nat.
Proof.
  intros Hb. revert n k. induction f as [|f IH]; intros n k Hn.
  { cbn in Hn. pose proof (Z.pow_pos_nonneg base (Z.of_nat k)). lia. }
  pose proof (Z.pow_pos_nonneg base (Z.of_nat k) ltac:(lia) ltac:(lia)).
  rewrite radix_rev_unfold by lia. cbn [length]. destruct k as [|k]; [lia|].
  apply -> Nat.succ_lt_mono. apply IH. split; [|apply div_bound; lia].
  apply Z.div_le_lower_bound; [lia|]. rewrite Nat2Z.inj_succ, Z.pow_succ_r in Hn by lia. lia.
Qed.

Lemma numeral_radix n f :
  0 < n -> n < 32 ^ Z.of_nat f -> numeral 32 n = rev (radix_rev f 32 n).
Proof.
  intros Hn Hf. unfold numeral. rewrite (proj2 (Z.leb_gt n 0)) by done. f_equal.
  apply radix_rev_fuel; [lia| |done]. rewrite Z2Nat.id by (pose proof (Z.log2_nonneg n); lia).
  destruct (Z.log2_spec n Hn) as [_ Hlt]. eapply Z.lt_le_trans; [exact Hlt|].
  apply Z.pow_le_mono_l. lia.
Qed.

Lemma get_tty_path_freebsd_ok tty s w :
  0 <= tty < 2 ^ 31 ->
  get_tty_path_freebsd tty s w =
    if tty - 1 <? 2 ^ 30
    then Done (Some (str "/dev/ttyv" ++ numeral 32 (Z.max 0 (tty - 1))), s, w)
    else Done (None, s, Sys (trace w) ENOMEM).
Proof.
  intros Ht. unfold get_tty_path_freebsd, assert_, mbind, M_bind, mret, M_ret.
  rewrite (proj2 (Z.leb_le 0 tty)) by lia. cbv zeta.
  set (n := if 0 <? tty then tty - 1 else tty).
  assert (En : n = Z.max 0 (tty - 1)) by (unfold n; destruct (Z.ltb_spec 0 tty); lia).
  destruct (Z.eqb_spec n 0) as [E0|E0].
  { rewrite (proj2 (Z.ltb_lt _ _)) by lia. rewrite <- En, E0. reflexivity. }
  rewrite <- En. set (pre := str "/dev/ttyv").
  change (memcpy _ 0 (pre ++ [0])) with (pre ++ replicate 7 0).
  rewrite tty_digits_ok by (cbn; lia || done). cbv zeta.
  rewrite (proj2 (Z.leb_gt n 0)) by lia. set (ds := radix_rev 7 32 n).
  assert (Hz : zlen (pre ++ ds) = 9 + zlen ds) by (unfold zlen; rewrite length_app; change (length pre) with 9%nat; lia).
  destruct (Z.ltb_spec (tty - 1) (2 ^ 30)) as [Hlt|Hge].
  - pose proof (radix_rev_length 7 32 n 6 ltac:(lia) ltac:(cbn; lia)) as Hlen. fold ds in Hlen.
    rewrite (proj2 (Z.leb_le _ _)) by (unfold zlen in *; lia).
    rewrite (numeral_radix n 7) by (cbn; lia). fold ds.
    assert (Hd : exists z, drop (length ds) (replicate 7 0) = 0 :: z).
    { rewrite drop_replicate. replace (7 - length ds)%nat with (Datatypes.S (6 - length ds)) by lia.
      eexists. reflexivity. }
    destruct Hd as [z ->]. cbn beta iota.
    replace (zlen (pre ++ ds) - zlen pre) with (zlen ds) by (rewrite Hz; change (zlen pre) with 9; lia).
    rewrite tty_swap_rev by done. fold pre. rewrite app_assoc.
    replace (zlen (pre ++ ds)) with (zlen (pre ++ rev ds))
      by (unfold zlen; by rewrite !length_app, length_rev).
    rewrite path_set_mid, cstring_app; [done|]. apply Forall_app. split; [by repeat constructor|].
    apply Forall_rev, radix_rev_nonzero. lia.
  - pose proof (radix_rev_length_ge 7 32 n 6 ltac:(lia) ltac:(cbn; lia)) as Hlen. fold ds in Hlen.
    by rewrite (proj2 (Z.leb_gt _ _)) by (unfold zlen in *; lia).
Qed.

End FreeBSD.
