(* ===== verification/State.v ===== *)
(** * The daemon's state: include/seat.h, client.h, server.h, control.h, poller.c

    Structs are records; a pointer to a seat, a client or a control client is an
    address in the server's tables, which hold exactly the allocated objects, so
    that dereferencing a freed object is an outcome of its own.  The intrusive
    linked lists are the lists [LinkedList] proves them to be.  Each field has a
    setter [set_<field>]. *)
From S2P Require Import Prelude Kernel Connection.

(** ** The poller's event sources (poller.c) *)

Inductive fd_handler :=
| server_handle_connection_fn
| control_handle_connection_fn
| client_handle_connection_fn
| control_client_handle_connection_fn
| server_handle_vt_event_fn.

#[export] Instance fd_handler_eq : EqDecision fd_handler.
Proof. solve_decision. Defined.

(** [struct event_source_fd]; [es_id] is its address, [es_data] the address its callback gets *)
Record event_source_fd := EventSourceFd {
  es_id : nat;
  es_func : fd_handler;
  es_fd : Z;
  es_mask : Z;
  es_data : nat;
  es_killed : bool;
  es_pollfd_idx : Z
}.

Definition set_es_id (x : nat) (r : event_source_fd) : event_source_fd :=
  EventSourceFd x (es_func r) (es_fd r) (es_mask r) (es_data r) (es_killed r) (es_pollfd_idx r).
Definition set_es_func (x : fd_handler) (r : event_source_fd) : event_source_fd :=
  EventSourceFd (es_id r) x (es_fd r) (es_mask r) (es_data r) (es_killed r) (es_pollfd_idx r).
Definition set_es_fd (x : Z) (r : event_source_fd) : event_source_fd :=
  EventSourceFd (es_id r) (es_func r) x (es_mask r) (es_data r) (es_killed r) (es_pollfd_idx r).
Definition set_es_mask (x : Z) (r : event_source_fd) : event_source_fd :=
  EventSourceFd (es_id r) (es_func r) (es_fd r) x (es_data r) (es_killed r) (es_pollfd_idx r).
Definition set_es_data (x : nat) (r : event_source_fd) : event_source_fd :=
  EventSourceFd (es_id r) (es_func r) (es_fd r) (es_mask r) x (es_killed r) (es_pollfd_idx r).
Definition set_es_killed (x : bool) (r : event_source_fd) : event_source_fd :=
  EventSourceFd (es_id r) (es_func r) (es_fd r) (es_mask r) (es_data r) x (es_pollfd_idx r).
Definition set_es_pollfd_idx (x : Z) (r : event_source_fd) : event_source_fd :=
  EventSourceFd (es_id r) (es_func r) (es_fd r) (es_mask r) (es_data r) (es_killed r) x.

(** [struct event_source_signal]; [sg_id] is its address.  Its data is always the server. *)
Inductive signal_handler_fn :=
| server_handle_vt_rel_fn
| server_handle_vt_acq_fn
| server_handle_kill_fn.

#[export] Instance signal_handler_fn_eq : EqDecision signal_handler_fn.
Proof. solve_decision. Defined.

Record event_source_signal := EventSourceSignal {
  sg_id : nat;
  sg_func : signal_handler_fn;
  sg_signal : Z;
  sg_raised : bool;
  sg_killed : bool
}.

Definition set_sg_raised (x : bool) (r : event_source_signal) : event_source_signal :=
  EventSourceSignal (sg_id r) (sg_func r) (sg_signal r) x (sg_killed r).
Definition set_sg_killed (x : bool) (r : event_source_signal) : event_source_signal :=
  EventSourceSignal (sg_id r) (sg_func r) (sg_signal r) (sg_raised r) x.

(** [struct pollfd] of poll(2) *)
Record pollfd := Pollfd {
  pf_fd : Z;
  pf_events : Z;
  pf_revents : Z
}.

Definition EVENT_READABLE : Z := 1.
Definition EVENT_WRITABLE : Z := 4.
Definition EVENT_ERROR : Z := 8.
Definition EVENT_HANGUP : Z := 16.

(** ** Seats and devices (seat.h) *)

Inductive seat_device_type :=
| SEAT_DEVICE_TYPE_NORMAL
| SEAT_DEVICE_TYPE_EVDEV
| SEAT_DEVICE_TYPE_HIDRAW
| SEAT_DEVICE_TYPE_DRM
| SEAT_DEVICE_TYPE_WSCONS.

#[export] Instance seat_device_type_eq : EqDecision seat_device_type.
Proof. solve_decision. Defined.

(** [struct seat_device] *)
Record seat_device := SeatDevice {
  device_id : Z;
  dev_fd : Z;
  ref_cnt : Z;
  active : bool;
  path : bytes;
  dev_type : seat_device_type
}.

Definition set_device_id (x : Z) (r : seat_device) : seat_device :=
  SeatDevice x (dev_fd r) (ref_cnt r) (active r) (path r) (dev_type r).
Definition set_dev_fd (x : Z) (r : seat_device) : seat_device :=
  SeatDevice (device_id r) x (ref_cnt r) (active r) (path r) (dev_type r).
Definition set_ref_cnt (x : Z) (r : seat_device) : seat_device :=
  SeatDevice (device_id r) (dev_fd r) x (active r) (path r) (dev_type r).
Definition set_active (x : bool) (r : seat_device) : seat_device :=
  SeatDevice (device_id r) (dev_fd r) (ref_cnt r) x (path r) (dev_type r).
Definition set_path (x : bytes) (r : seat_device) : seat_device :=
  SeatDevice (device_id r) (dev_fd r) (ref_cnt r) (active r) x (dev_type r).
Definition set_dev_type (x : seat_device_type) (r : seat_device) : seat_device :=
  SeatDevice (device_id r) (dev_fd r) (ref_cnt r) (active r) (path r) x.

(** [struct seat_group_vt]; the owner is always set when the entry is linked *)
Record seat_group_vt := SeatGroupVt {
  owner : nat;
  group_vt : Z;
  group_user : bytes;
  group_session : bytes
}.

Definition set_owner (x : nat) (r : seat_group_vt) : seat_group_vt :=
  SeatGroupVt x (group_vt r) (group_user r) (group_session r).
Definition set_group_vt (x : Z) (r : seat_group_vt) : seat_group_vt :=
  SeatGroupVt (owner r) x (group_user r) (group_session r).
Definition set_group_user (x : bytes) (r : seat_group_vt) : seat_group_vt :=
  SeatGroupVt (owner r) (group_vt r) x (group_session r).
Definition set_group_session (x : bytes) (r : seat_group_vt) : seat_group_vt :=
  SeatGroupVt (owner r) (group_vt r) (group_user r) x.

(** [struct seat] *)
Record seat := Seat {
  seat_name : bytes;
  clients : list nat;
  active_client : option nat;
  next_client : option nat;
  vt_bound : bool;
  cur_vt : Z;
  pending_vt_switch : Z;
  group_vts : list seat_group_vt
}.

Definition set_seat_name (x : bytes) (r : seat) : seat :=
  Seat x (clients r) (active_client r) (next_client r) (vt_bound r) (cur_vt r) (pending_vt_switch r) (group_vts r).
Definition set_clients (x : list nat) (r : seat) : seat :=
  Seat (seat_name r) x (active_client r) (next_client r) (vt_bound r) (cur_vt r) (pending_vt_switch r) (group_vts r).
Definition set_active_client (x : option nat) (r : seat) : seat :=
  Seat (seat_name r) (clients r) x (next_client r) (vt_bound r) (cur_vt r) (pending_vt_switch r) (group_vts r).
Definition set_next_client (x : option nat) (r : seat) : seat :=
  Seat (seat_name r) (clients r) (active_client r) x (vt_bound r) (cur_vt r) (pending_vt_switch r) (group_vts r).
Definition set_vt_bound (x : bool) (r : seat) : seat :=
  Seat (seat_name r) (clients r) (active_client r) (next_client r) x (cur_vt r) (pending_vt_switch r) (group_vts r).
Definition set_cur_vt (x : Z) (r : seat) : seat :=
  Seat (seat_name r) (clients r) (active_client r) (next_client r) (vt_bound r) x (pending_vt_switch r) (group_vts r).
Definition set_pending_vt_switch (x : Z) (r : seat) : seat :=
  Seat (seat_name r) (clients r) (active_client r) (next_client r) (vt_bound r) (cur_vt r) x (group_vts r).
Definition set_group_vts (x : list seat_group_vt) (r : seat) : seat :=
  Seat (seat_name r) (clients r) (active_client r) (next_client r) (vt_bound r) (cur_vt r) (pending_vt_switch r) x.

(** ** Clients (client.h, control.h) *)

Inductive client_state :=
| CLIENT_NEW
| CLIENT_ACTIVE
| CLIENT_PENDING_DISABLE
| CLIENT_DISABLED
| CLIENT_CLOSED.

#[export] Instance client_state_eq : EqDecision client_state.
Proof. solve_decision. Defined.

(** [struct client]; [c_server] tells whether the server pointer is set *)
Record client := Client {
  c_server : bool;
  c_event_source : option nat;
  c_connection : connection;
  c_pid : Z;
  c_uid : Z;
  c_gid : Z;
  c_seat : option nat;
  session : Z;
  state : client_state;
  devices : list seat_device
}.

Definition set_c_server (x : bool) (r : client) : client :=
  Client x (c_event_source r) (c_connection r) (c_pid r) (c_uid r) (c_gid r) (c_seat r) (session r) (state r) (devices r).
Definition set_c_event_source (x : option nat) (r : client) : client :=
  Client (c_server r) x (c_connection r) (c_pid r) (c_uid r) (c_gid r) (c_seat r) (session r) (state r) (devices r).
Definition set_c_connection (x : connection) (r : client) : client :=
  Client (c_server r) (c_event_source r) x (c_pid r) (c_uid r) (c_gid r) (c_seat r) (session r) (state r) (devices r).
Definition set_c_pid (x : Z) (r : client) : client :=
  Client (c_server r) (c_event_source r) (c_connection r) x (c_uid r) (c_gid r) (c_seat r) (session r) (state r) (devices r).
Definition set_c_uid (x : Z) (r : client) : client :=
  Client (c_server r) (c_event_source r) (c_connection r) (c_pid r) x (c_gid r) (c_seat r) (session r) (state r) (devices r).
Definition set_c_gid (x : Z) (r : client) : client :=
  Client (c_server r) (c_event_source r) (c_connection r) (c_pid r) (c_uid r) x (c_seat r) (session r) (state r) (devices r).
Definition set_c_seat (x : option nat) (r : client) : client :=
  Client (c_server r) (c_event_source r) (c_connection r) (c_pid r) (c_uid r) (c_gid r) x (session r) (state r) (devices r).
Definition set_session (x : Z) (r : client) : client :=
  Client (c_server r) (c_event_source r) (c_connection r) (c_pid r) (c_uid r) (c_gid r) (c_seat r) x (state r) (devices r).
Definition set_state (x : client_state) (r : client) : client :=
  Client (c_server r) (c_event_source r) (c_connection r) (c_pid r) (c_uid r) (c_gid r) (c_seat r) (session r) x (devices r).
Definition set_devices (x : list seat_device) (r : client) : client :=
  Client (c_server r) (c_event_source r) (c_connection r) (c_pid r) (c_uid r) (c_gid r) (c_seat r) (session r) (state r) x.

(** [struct control_client] *)
Record control_client := ControlClient {
  cc_event_source : option nat;
  cc_connection : connection;
  cc_pid : Z;
  cc_uid : Z;
  cc_gid : Z
}.

Definition set_cc_event_source (x : option nat) (r : control_client) : control_client :=
  ControlClient x (cc_connection r) (cc_pid r) (cc_uid r) (cc_gid r).
Definition set_cc_connection (x : connection) (r : control_client) : control_client :=
  ControlClient (cc_event_source r) x (cc_pid r) (cc_uid r) (cc_gid r).
Definition set_cc_pid (x : Z) (r : control_client) : control_client :=
  ControlClient (cc_event_source r) (cc_connection r) x (cc_uid r) (cc_gid r).
Definition set_cc_uid (x : Z) (r : control_client) : control_client :=
  ControlClient (cc_event_source r) (cc_connection r) (cc_pid r) x (cc_gid r).
Definition set_cc_gid (x : Z) (r : control_client) : control_client :=
  ControlClient (cc_event_source r) (cc_connection r) (cc_pid r) (cc_uid r) x.

(** ** The server (server.h)

    [sv_seats], [sv_clients], [sv_controls], [sv_sources] and [signals] are the
    allocated objects; [seats], [idle_clients] and [control_clients] the linked
    lists of the struct.  [struct poller] is spread out: [sv_sources] is its list
    [fds], event sources in list order, [pollfds] its array, whose length is
    [pollfds_len]; [global_poller] tells whether the global pointer is set.  The
    two pipes are held by their descriptors and by what is in them: [signal_pipe]
    bytes, and the messages [vt_event_queue] of the watcher thread.
    [vt_event_thread_live] is the control state of that thread: it is in its loop. *)
(** [struct server], with the objects it reaches *)
Record server := Server {
  running : bool;
  sv_sources : list event_source_fd;
  fd_event_sources : Z;
  poll_dirty : bool;
  signals : list event_source_signal;
  signal_fds : Z * Z;
  signal_pipe : nat;
  pollfds : list pollfd;
  global_poller : bool;
  sv_seats : gmap nat seat;
  seats : list nat;
  sv_clients : gmap nat client;
  idle_clients : list nat;
  sv_controls : gmap nat control_client;
  control_clients : list nat;
  vt_event_running : bool;
  vt_event_thread_started : bool;
  vt_event_thread_live : bool;
  vt_event_fd : Z;
  vt_event_pipe : Z * Z;
  vt_event_queue : list (Z * Z)
}.

Definition set_running (x : bool) (r : server) : server :=
  Server x (sv_sources r) (fd_event_sources r) (poll_dirty r) (signals r) (signal_fds r)
    (signal_pipe r) (pollfds r) (global_poller r) (sv_seats r) (seats r) (sv_clients r)
    (idle_clients r) (sv_controls r) (control_clients r) (vt_event_running r)
    (vt_event_thread_started r) (vt_event_thread_live r) (vt_event_fd r) (vt_event_pipe r)
    (vt_event_queue r).
Definition set_sv_sources (x : list event_source_fd) (r : server) : server :=
  Server (running r) x (fd_event_sources r) (poll_dirty r) (signals r) (signal_fds r)
    (signal_pipe r) (pollfds r) (global_poller r) (sv_seats r) (seats r) (sv_clients r)
    (idle_clients r) (sv_controls r) (control_clients r) (vt_event_running r)
    (vt_event_thread_started r) (vt_event_thread_live r) (vt_event_fd r) (vt_event_pipe r)
    (vt_event_queue r).
Definition set_fd_event_sources (x : Z) (r : server) : server :=
  Server (running r) (sv_sources r) x (poll_dirty r) (signals r) (signal_fds r) (signal_pipe r)
    (pollfds r) (global_poller r) (sv_seats r) (seats r) (sv_clients r) (idle_clients r)
    (sv_controls r) (control_clients r) (vt_event_running r) (vt_event_thread_started r)
    (vt_event_thread_live r) (vt_event_fd r) (vt_event_pipe r) (vt_event_queue r).
Definition set_poll_dirty (x : bool) (r : server) : server :=
  Server (running r) (sv_sources r) (fd_event_sources r) x (signals r) (signal_fds r)
    (signal_pipe r) (pollfds r) (global_poller r) (sv_seats r) (seats r) (sv_clients r)
    (idle_clients r) (sv_controls r) (control_clients r) (vt_event_running r)
    (vt_event_thread_started r) (vt_event_thread_live r) (vt_event_fd r) (vt_event_pipe r)
    (vt_event_queue r).
Definition set_signals (x : list event_source_signal) (r : server) : server :=
  Server (running r) (sv_sources r) (fd_event_sources r) (poll_dirty r) x (signal_fds r)
    (signal_pipe r) (pollfds r) (global_poller r) (sv_seats r) (seats r) (sv_clients r)
    (idle_clients r) (sv_controls r) (control_clients r) (vt_event_running r)
    (vt_event_thread_started r) (vt_event_thread_live r) (vt_event_fd r) (vt_event_pipe r)
    (vt_event_queue r).
Definition set_signal_fds (x : Z * Z) (r : server) : server :=
  Server (running r) (sv_sources r) (fd_event_sources r) (poll_dirty r) (signals r) x
    (signal_pipe r) (pollfds r) (global_poller r) (sv_seats r) (seats r) (sv_clients r)
    (idle_clients r) (sv_controls r) (control_clients r) (vt_event_running r)
    (vt_event_thread_started r) (vt_event_thread_live r) (vt_event_fd r) (vt_event_pipe r)
    (vt_event_queue r).
Definition set_signal_pipe (x : nat) (r : server) : server :=
  Server (running r) (sv_sources r) (fd_event_sources r) (poll_dirty r) (signals r) (signal_fds r)
    x (pollfds r) (global_poller r) (sv_seats r) (seats r) (sv_clients r) (idle_clients r)
    (sv_controls r) (control_clients r) (vt_event_running r) (vt_event_thread_started r)
    (vt_event_thread_live r) (vt_event_fd r) (vt_event_pipe r) (vt_event_queue r).
Definition set_pollfds (x : list pollfd) (r : server) : server :=
  Server (running r) (sv_sources r) (fd_event_sources r) (poll_dirty r) (signals r) (signal_fds r)
    (signal_pipe r) x (global_poller r) (sv_seats r) (seats r) (sv_clients r) (idle_clients r)
    (sv_controls r) (control_clients r) (vt_event_running r) (vt_event_thread_started r)
    (vt_event_thread_live r) (vt_event_fd r) (vt_event_pipe r) (vt_event_queue r).
Definition set_global_poller (x : bool) (r : server) : server :=
  Server (running r) (sv_sources r) (fd_event_sources r) (poll_dirty r) (signals r) (signal_fds r)
    (signal_pipe r) (pollfds r) x (sv_seats r) (seats r) (sv_clients r) (idle_clients r)
    (sv_controls r) (control_clients r) (vt_event_running r) (vt_event_thread_started r)
    (vt_event_thread_live r) (vt_event_fd r) (vt_event_pipe r) (vt_event_queue r).
Definition set_sv_seats (x : gmap nat seat) (r : server) : server :=
  Server (running r) (sv_sources r) (fd_event_sources r) (poll_dirty r) (signals r) (signal_fds r)
    (signal_pipe r) (pollfds r) (global_poller r) x (seats r) (sv_clients r) (idle_clients r)
    (sv_controls r) (control_clients r) (vt_event_running r) (vt_event_thread_started r)
    (vt_event_thread_live r) (vt_event_fd r) (vt_event_pipe r) (vt_event_queue r).
Definition set_seats (x : list nat) (r : server) : server :=
  Server (running r) (sv_sources r) (fd_event_sources r) (poll_dirty r) (signals r) (signal_fds r)
    (signal_pipe r) (pollfds r) (global_poller r) (sv_seats r) x (sv_clients r) (idle_clients r)
    (sv_controls r) (control_clients r) (vt_event_running r) (vt_event_thread_started r)
    (vt_event_thread_live r) (vt_event_fd r) (vt_event_pipe r) (vt_event_queue r).
Definition set_sv_clients (x : gmap nat client) (r : server) : server :=
  Server (running r) (sv_sources r) (fd_event_sources r) (poll_dirty r) (signals r) (signal_fds r)
    (signal_pipe r) (pollfds r) (global_poller r) (sv_seats r) (seats r) x (idle_clients r)
    (sv_controls r) (control_clients r) (vt_event_running r) (vt_event_thread_started r)
    (vt_event_thread_live r) (vt_event_fd r) (vt_event_pipe r) (vt_event_queue r).
Definition set_idle_clients (x : list nat) (r : server) : server :=
  Server (running r) (sv_sources r) (fd_event_sources r) (poll_dirty r) (signals r) (signal_fds r)
    (signal_pipe r) (pollfds r) (global_poller r) (sv_seats r) (seats r) (sv_clients r) x
    (sv_controls r) (control_clients r) (vt_event_running r) (vt_event_thread_started r)
    (vt_event_thread_live r) (vt_event_fd r) (vt_event_pipe r) (vt_event_queue r).
Definition set_sv_controls (x : gmap nat control_client) (r : server) : server :=
  Server (running r) (sv_sources r) (fd_event_sources r) (poll_dirty r) (signals r) (signal_fds r)
    (signal_pipe r) (pollfds r) (global_poller r) (sv_seats r) (seats r) (sv_clients r)
    (idle_clients r) x (control_clients r) (vt_event_running r) (vt_event_thread_started r)
    (vt_event_thread_live r) (vt_event_fd r) (vt_event_pipe r) (vt_event_queue r).
Definition set_control_clients (x : list nat) (r : server) : server :=
  Server (running r) (sv_sources r) (fd_event_sources r) (poll_dirty r) (signals r) (signal_fds r)
    (signal_pipe r) (pollfds r) (global_poller r) (sv_seats r) (seats r) (sv_clients r)
    (idle_clients r) (sv_controls r) x (vt_event_running r) (vt_event_thread_started r)
    (vt_event_thread_live r) (vt_event_fd r) (vt_event_pipe r) (vt_event_queue r).
Definition set_vt_event_running (x : bool) (r : server) : server :=
  Server (running r) (sv_sources r) (fd_event_sources r) (poll_dirty r) (signals r) (signal_fds r)
    (signal_pipe r) (pollfds r) (global_poller r) (sv_seats r) (seats r) (sv_clients r)
    (idle_clients r) (sv_controls r) (control_clients r) x (vt_event_thread_started r)
    (vt_event_thread_live r) (vt_event_fd r) (vt_event_pipe r) (vt_event_queue r).
Definition set_vt_event_thread_started (x : bool) (r : server) : server :=
  Server (running r) (sv_sources r) (fd_event_sources r) (poll_dirty r) (signals r) (signal_fds r)
    (signal_pipe r) (pollfds r) (global_poller r) (sv_seats r) (seats r) (sv_clients r)
    (idle_clients r) (sv_controls r) (control_clients r) (vt_event_running r) x
    (vt_event_thread_live r) (vt_event_fd r) (vt_event_pipe r) (vt_event_queue r).
Definition set_vt_event_thread_live (x : bool) (r : server) : server :=
  Server (running r) (sv_sources r) (fd_event_sources r) (poll_dirty r) (signals r) (signal_fds r)
    (signal_pipe r) (pollfds r) (global_poller r) (sv_seats r) (seats r) (sv_clients r)
    (idle_clients r) (sv_controls r) (control_clients r) (vt_event_running r)
    (vt_event_thread_started r) x (vt_event_fd r) (vt_event_pipe r) (vt_event_queue r).
Definition set_vt_event_fd (x : Z) (r : server) : server :=
  Server (running r) (sv_sources r) (fd_event_sources r) (poll_dirty r) (signals r) (signal_fds r)
    (signal_pipe r) (pollfds r) (global_poller r) (sv_seats r) (seats r) (sv_clients r)
    (idle_clients r) (sv_controls r) (control_clients r) (vt_event_running r)
    (vt_event_thread_started r) (vt_event_thread_live r) x (vt_event_pipe r) (vt_event_queue r).
Definition set_vt_event_pipe (x : Z * Z) (r : server) : server :=
  Server (running r) (sv_sources r) (fd_event_sources r) (poll_dirty r) (signals r) (signal_fds r)
    (signal_pipe r) (pollfds r) (global_poller r) (sv_seats r) (seats r) (sv_clients r)
    (idle_clients r) (sv_controls r) (control_clients r) (vt_event_running r)
    (vt_event_thread_started r) (vt_event_thread_live r) (vt_event_fd r) x (vt_event_queue r).
Definition set_vt_event_queue (x : list (Z * Z)) (r : server) : server :=
  Server (running r) (sv_sources r) (fd_event_sources r) (poll_dirty r) (signals r) (signal_fds r)
    (signal_pipe r) (pollfds r) (global_poller r) (sv_seats r) (seats r) (sv_clients r)
    (idle_clients r) (sv_controls r) (control_clients r) (vt_event_running r)
    (vt_event_thread_started r) (vt_event_thread_live r) (vt_event_fd r) (vt_event_pipe r) x.

(** ** Accesses through pointers *)

Definition put_client (c : nat) (k : client) (s : server) : server :=
  set_sv_clients (<[c := k]> (sv_clients s)) s.
Definition put_seat (p : nat) (t : seat) (s : server) : server :=
  set_sv_seats (<[p := t]> (sv_seats s)) s.
Definition put_control (c : nat) (k : control_client) (s : server) : server :=
  set_sv_controls (<[c := k]> (sv_controls s)) s.

Definition get_client (c : nat) : M server client := s ← get; deref (sv_clients s !! c).
Definition upd_client (c : nat) (f : client -> client) : M server () :=
  k ← get_client c; modify (put_client c (f k)).

Definition get_seat (p : nat) : M server seat := s ← get; deref (sv_seats s !! p).
Definition upd_seat (p : nat) (f : seat -> seat) : M server () :=
  t ← get_seat p; modify (put_seat p (f t)).

Definition get_control (c : nat) : M server control_client := s ← get; deref (sv_controls s !! c).
Definition upd_control (c : nat) (f : control_client -> control_client) : M server () :=
  k ← get_control c; modify (put_control c (f k)).

(** Run an operation on one object, apart from the rest of the state. *)
Definition run_local {S T A} (t : T) (m : M T A) : M S (A * T) :=
  fun s w =>
    match m t w with
    | Done (a, t', w') => Done (a, t', s, w')
    | Aborted => Aborted
    | Fault => Fault
    | Hang => Hang
    end.

(** Run an operation on [&client->connection]. *)
Definition on_conn {A} (c : nat) (m : M connection A) : M server A :=
  k ← get_client c;
  '(a, conn) ← run_local (c_connection k) m;
  modify (put_client c (set_c_connection conn k));;
  mret a.

Definition on_control_conn {A} (c : nat) (m : M connection A) : M server A :=
  k ← get_control c;
  '(a, conn) ← run_local (cc_connection k) m;
  modify (put_control c (set_cc_connection conn k));;
  mret a.

(** A device is named by its id, unique in its client. *)
Definition lookup_device (id : Z) (l : list seat_device) : option seat_device :=
  snd <$> list_find (fun d => device_id d = id) l.

Definition replace_device (d : seat_device) (l : list seat_device) : list seat_device :=
  (fun d' => if device_id d' =? device_id d then d else d') <$> l.

(** Run an operation on a device of a client. *)
Definition on_device {A} (c : nat) (id : Z) (m : M seat_device A) : M server A :=
  k ← get_client c;
  d ← deref (lookup_device id (devices k));
  '(a, d') ← run_local d m;
  modify (put_client c (set_devices (replace_device d' (devices k)) k));;
  mret a.

(** [linked_list_remove(&client->link)]: out of whichever list holds the client. *)
Definition unlink_client (c : nat) (s : server) : server :=
  set_idle_clients (list_remove_id c (idle_clients s))
    (set_sv_seats ((fun t => set_clients (list_remove_id c (clients t)) t) <$> sv_seats s) s).

(** ** Event sources *)

Section EventSources.
Context `{K : Kernel}.

Definition find_source (e : nat) (s : server) : option event_source_fd :=
  snd <$> list_find (fun x => es_id x = e) (sv_sources s).

Definition upd_source (e : nat) (f : event_source_fd -> event_source_fd) (s : server) : server :=
  set_sv_sources ((fun x => if decide (es_id x = e) then f x else x) <$> sv_sources s) s.

(** [poller_add_fd]: the new source goes to the front of the list. *)
Definition poller_add_fd (fd mask : Z) (func : fd_handler) (data : nat) : M server (option nat) :=
  r ← ext Calloc;
  if r_ret r =? -1 then mret None else
  s ← get;
  let e := fresh (es_id <$> sv_sources s) in
  modify (set_fd_event_sources (fd_event_sources s + 1));;
  modify (set_poll_dirty true);;
  modify (set_sv_sources (EventSourceFd e func fd mask data false (-1) :: sv_sources s));;
  mret (Some e).

Definition event_source_fd_destroy (e : nat) : M server Z :=
  s ← get;
  _ ← deref (find_source e s);
  modify (set_fd_event_sources (fd_event_sources s - 1));;
  modify (set_poll_dirty true);;
  modify (upd_source e (set_es_killed true));;
  mret 0.

Definition event_source_fd_update (e : nat) (mask : Z) : M server Z :=
  s ← get;
  _ ← deref (find_source e s);
  modify (upd_source e (set_es_mask mask));;
  modify (set_poll_dirty true);;
  mret 0.

End EventSources.
