(* ===== verification/Poller.v ===== *)
(** * seatd/poller.c: the poller, apart from the calls of its sources

    The array given to poll(2), its regeneration from the list of sources, and the
    signal sources with their self-pipe.  Adding, updating and removing a
    descriptor source is in [State]; the dispatch, which calls the handlers of the
    other components, is in [Daemon]. *)
From S2P Require Import Prelude Kernel Connection Protocol Devices Terminal State.

Definition event_mask_to_poll_mask (event_mask : Z) : Z :=
  let poll_mask := 0 in
  let poll_mask := if has_event event_mask EVENT_READABLE then Z.lor poll_mask POLLIN else poll_mask in
  if has_event event_mask EVENT_WRITABLE then Z.lor poll_mask POLLOUT else poll_mask.

Definition poll_mask_to_event_mask (poll_mask : Z) : Z :=
  let event_mask := 0 in
  let event_mask := if has_event poll_mask POLLIN then Z.lor event_mask EVENT_READABLE else event_mask in
  let event_mask := if has_event poll_mask POLLOUT then Z.lor event_mask EVENT_WRITABLE else event_mask in
  let event_mask := if has_event poll_mask POLLERR then Z.lor event_mask EVENT_ERROR else event_mask in
  if has_event poll_mask POLLHUP then Z.lor event_mask EVENT_HANGUP else event_mask.

Section Poller.
Context `{K : Kernel}.

(** poller.c's own [set_nonblock]. *)
Definition poller_set_nonblock (f : Z) : M server Z :=
  r ← ext (Fcntl f F_GETFL);
  if r_ret r =? -1 then mret (-1) else
  r ← ext (Fcntl f (F_SETFL (Z.lor (r_ret r) 2048)));
  if r_ret r =? -1 then mret (-1) else
  mret 0.

Definition poller_init : M server Z :=
  s ← get;
  assert_ (negb (global_poller s));;
  r ← ext Pipe;
  if r_ret r =? -1 then mret (-1) else
  modify (set_signal_fds (r_val 0 r, r_val 1 r));;
  modify (set_signal_pipe 0);;
  n ← poller_set_nonblock (r_val 0 r);
  if n =? -1 then mret (-1) else
  n ← poller_set_nonblock (r_val 1 r);
  if n =? -1 then mret (-1) else
  modify (set_sv_sources []);;
  modify (set_signals []);;
  modify (set_pollfds []);;
  modify (set_poll_dirty true);;
  modify (set_fd_event_sources 1);;
  modify (set_global_poller true);;
  mret 0.

(** The loop over the signal sources of [poller_finish]. *)
Fixpoint finish_signals (fuel : nat) : M server () :=
  s ← get;
  match signals s with
  | [] => mret ()
  | bps :: rest =>
      match fuel with
      | O => hang
      | S fuel' =>
          ext (Sigaction (sg_signal bps) false);;
          modify (set_signals rest);;
          finish_signals fuel'
      end
  end.

Fixpoint finish_fds (fuel : nat) : M server () :=
  s ← get;
  match sv_sources s with
  | [] => mret ()
  | bpfd :: rest =>
      match fuel with
      | O => hang
      | S fuel' => modify (set_sv_sources rest);; finish_fds fuel'
      end
  end.

Definition poller_finish : M server Z :=
  s ← get;
  finish_fds (length (sv_sources s));;
  finish_signals (length (signals s));;
  modify (set_pollfds []);;
  modify (set_global_poller false);;
  mret 0.

(** ** Signal sources *)

Definition poller_add_signal (signal : Z) (func : signal_handler_fn) : M server (option nat) :=
  r ← ext Calloc;
  if r_ret r =? -1 then mret None else
  s ← get;
  let id := fresh (sg_id <$> signals s) in
  ext (Sigaction signal true);;
  modify (fun s => set_signals (EventSourceSignal id func signal false false :: signals s) s);;
  mret (Some id).

Definition find_signal (id : nat) (s : server) : option event_source_signal :=
  snd <$> list_find (fun x => sg_id x = id) (signals s).

Definition upd_signal (id : nat) (f : event_source_signal -> event_source_signal) (s : server) : server :=
  set_signals ((fun x => if decide (sg_id x = id) then f x else x) <$> signals s) s.

Definition event_source_signal_destroy (id : nat) : M server Z :=
  s ← get;
  bps ← deref (find_signal id s);
  let refcnt := length (filter (fun b => sg_signal b = sg_signal bps /\ sg_killed b = false) (signals s)) in
  (if (refcnt =? 0)%nat then ext (Sigaction (sg_signal bps) false);; mret () else mret ());;
  modify (set_poll_dirty true);;
  modify (upd_signal id (set_sg_killed true));;
  mret 0.

(** The signal handler proper: it runs between two steps of the daemon. *)
Definition signal_handler (sig : Z) : M server () :=
  s ← get;
  if negb (global_poller s) then mret () else
  modify (fun s => set_signals
    ((fun bps => if sg_signal bps =? sig then set_sg_raised true bps else bps) <$> signals s) s);;
  saved_errno ← get_errno;
  r ← ext (Write (snd (signal_fds s)) [0]);
  (if r_ret r =? -1 then mret () else modify (fun s => set_signal_pipe (S (signal_pipe s)) s));;
  set_errno saved_errno.

(** [while (read(poller->signal_fds[0], &garbage, sizeof garbage) != -1)]: the
    pipe does not block, so the read of an empty pipe fails. *)
Fixpoint drain_signal_pipe (fuel : nat) : M server () :=
  s ← get;
  if (signal_pipe s =? 0)%nat then set_errno EAGAIN else
  match fuel with
  | O => hang
  | S fuel' => modify (set_signal_pipe (signal_pipe s - 8));; drain_signal_pipe fuel'
  end.

(** ** The array for poll(2) *)

(** [poller->pollfds[idx] = pfd] *)
Definition store_pollfd (idx : Z) (pfd : pollfd) : M server () :=
  s ← get;
  if (0 <=? idx) && (idx <? zlen (pollfds s)) then
    modify (set_pollfds (<[Z.to_nat idx := pfd]> (pollfds s)))
  else fault.

Definition load_pollfd (idx : Z) : M server pollfd :=
  s ← get;
  if idx <? 0 then fault else deref (pollfds s !! Z.to_nat idx).

(** [linked_list_remove(&bpfd->link)] and the release of the source. *)
Definition free_source (e : nat) (s : server) : server :=
  set_sv_sources (filter (fun x => es_id x ≠ e) (sv_sources s)) s.

(** The loop of [regenerate] over the list, which it only shortens itself. *)
Fixpoint regenerate_fds (l : list nat) (idx : Z) : M server Z :=
  match l with
  | [] => mret idx
  | e :: l' =>
      s ← get;
      bpfd ← deref (find_source e s);
      if es_killed bpfd then
        modify (free_source e);;
        regenerate_fds l' idx
      else
        modify (upd_source e (set_es_pollfd_idx idx));;
        assert_ (idx <? zlen (pollfds s));;
        store_pollfd idx (Pollfd (es_fd bpfd) (event_mask_to_poll_mask (es_mask bpfd)) 0);;
        regenerate_fds l' (idx + 1)
  end.

Definition regenerate : M server Z :=
  s ← get;
  let pollfds_len := zlen (pollfds s) in
  ok ← (if pollfds_len <? fd_event_sources s then
          r ← ext (Realloc (fd_event_sources s * 8));
          if r_ret r =? -1 then mret false else
          modify (set_pollfds (pollfds s ++
            replicate (Z.to_nat (fd_event_sources s - pollfds_len)) (Pollfd 0 0 0)));;
          mret true
        else mret true);
  if negb ok then mret (-1) else
  store_pollfd 0 (Pollfd (fst (signal_fds s)) POLLIN 0);;
  s ← get;
  idx ← regenerate_fds (es_id <$> sv_sources s) 1;
  s ← get;
  assert_ (idx =? fd_event_sources s);;
  modify (set_signals (filter (fun bps => sg_killed bps = false) (signals s)));;
  mret 0.

(** [poll(poller->pollfds, poller->fd_event_sources, -1)], again while it is
    interrupted; the kernel writes the [revents] of the entries it was given. *)
Definition poll_fds : M server Z :=
  s ← get;
  if zlen (pollfds s) <? fd_event_sources s then fault else
  let given := take (Z.to_nat (fd_event_sources s)) (pollfds s) in
  r ← ext_retry eintr_limit (Poll ((fun p => (pf_fd p, pf_events p)) <$> given) (-1));
  if r_ret r =? -1 then mret (-1) else
  modify (set_pollfds
    (zip_with (fun p v => Pollfd (pf_fd p) (pf_events p) v) given
       (resize (length given) 0 (r_vals r)) ++
     drop (Z.to_nat (fd_event_sources s)) (pollfds s)));;
  mret (r_ret r).

End Poller.
