(* ===== verification/Send.v ===== *)
(** * The sending halves of seatd/client.c and seatd/control.c

    What the seat calls back: the events of a client, and the broadcast of VT
    changes to the control clients, with the release of a control client whose
    connection fails. *)
From S2P Require Import Prelude Kernel Connection Protocol Devices Terminal State.

(** ** client.c *)

Section ClientSend.
Context `{K : Kernel}.

(** [connection_put(a) == -1 || connection_put(b) == -1 || ...], which stops at
    the first failure. *)
Fixpoint put_all (msgs : list bytes) : M connection Z :=
  match msgs with
  | [] => mret 0
  | m :: msgs' => r ← connection_put m; if r =? -1 then mret (-1) else put_all msgs'
  end.

Definition put_and_flush (header : bytes) : M connection Z :=
  r ← connection_put header;
  if r =? -1 then mret (-1) else
  r ← connection_flush;
  if r =? -1 then mret (-1) else mret 0.

Definition client_send_disable_seat (c : nat) : M server Z :=
  on_conn c (put_and_flush (header_bytes (Header SERVER_DISABLE_SEAT 0))).

Definition client_send_enable_seat (c : nat) : M server Z :=
  on_conn c (put_and_flush (header_bytes (Header SERVER_ENABLE_SEAT 0))).

Definition client_flush (c : nat) : M server Z :=
  ret ← on_conn c connection_flush;
  e ← get_errno;
  if (ret =? -1) && (e =? EAGAIN) then
    k ← get_client c;
    es ← deref (c_event_source k);
    event_source_fd_update es (Z.lor EVENT_READABLE EVENT_WRITABLE);;
    mret 0
  else if ret =? -1 then mret (-1)
  else mret 0.

Definition client_send_error (c : nat) (error_code : Z) : M server Z :=
  on_conn c (put_all [header_bytes (Header SERVER_ERROR 4); int_bytes error_code]).

End ClientSend.

(** ** control.c *)

Section ControlSend.
Context `{K : Kernel}.

Definition control_client_destroy (c : nat) : M server () :=
  k ← get_control c;
  match cc_event_source k with
  | Some es =>
      event_source_fd_destroy es;;
      upd_control c (set_cc_event_source None)
  | None => mret ()
  end;;
  modify (fun s => set_control_clients (list_remove_id c (control_clients s)) s);;
  on_control_conn c connection_close_fds;;
  k ← get_control c;
  (if fd (cc_connection k) =? -1 then mret () else
     close (fd (cc_connection k));;
     upd_control c (fun k => set_cc_connection (set_fd (-1) (cc_connection k)) k));;
  modify (fun s => set_sv_controls (delete c (sv_controls s)) s).

Definition control_client_flush (c : nat) : M server Z :=
  ret ← on_control_conn c connection_flush;
  e ← get_errno;
  k ← get_control c;
  if (ret =? -1) && (e =? EAGAIN) then
    es ← deref (cc_event_source k);
    event_source_fd_update es (Z.lor EVENT_READABLE EVENT_WRITABLE)
  else if 0 <=? ret then
    es ← deref (cc_event_source k);
    event_source_fd_update es EVENT_READABLE
  else mret (-1).

Definition control_send_error (c : nat) (error_code : Z) : M server Z :=
  r ← on_control_conn c (put_all [header_bytes (Header CONTROL_ERROR 4); int_bytes error_code]);
  if r =? -1 then mret (-1) else control_client_flush c.

Definition control_send_ok (c : nat) : M server Z :=
  r ← on_control_conn c (put_all [header_bytes (Header CONTROL_OK 0)]);
  if r =? -1 then mret (-1) else control_client_flush c.

Definition control_send_message (c : nat) (opcode : Z) (payload : bytes) : M server Z :=
  r ← on_control_conn c (put_all [header_bytes (Header opcode (zlen payload)); payload]);
  if r =? -1 then mret (-1) else control_client_flush c.

Definition control_send_group_vt_created (c : nat) (owner_pid vt : Z) : M server Z :=
  control_send_message c CONTROL_GROUP_VT_CREATED (int_bytes owner_pid ++ int_bytes vt).

Definition control_send_vt_state (c : nat) (opcode vt : Z) : M server Z :=
  control_send_message c opcode (int_bytes vt).

Definition control_send_vt_change (c : nat) (old_vt new_vt : Z) : M server Z :=
  control_send_message c CONTROL_VT_CHANGED (int_bytes old_vt ++ int_bytes new_vt).

(** The successor is read before the body runs, and the body removes at most the
    element itself. *)
Definition control_broadcast_vt_change (old_vt new_vt : Z) : M server () :=
  s ← get;
  for_each (fun c =>
    r ← control_send_vt_change c old_vt new_vt;
    if r =? -1 then control_client_destroy c else mret ()) (control_clients s).

End ControlSend.
