(* ===== verification/Seat.v ===== *)
(** * seatd/seat.c: seats, sessions, devices and virtual terminals

    The operations of a seat, in the order of the source.  [seat_destroy], which
    calls back into client.c, is in [Client]. *)
From S2P Require Import Prelude Kernel Connection Protocol Devices Terminal State Send.

Section Seat.
Context `{K : Kernel}.

(** ** VTs *)

Definition seat_create (name : bytes) (bound : bool) : M server (option nat) :=
  r ← ext Calloc;
  if r_ret r =? -1 then mret None else
  r ← ext (Strdup name);
  if r_ret r =? -1 then mret None else
  s ← get;
  let p := fresh (dom (sv_seats s)) in
  modify (put_seat p (Seat name [] None None bound (-1) 0 []));;
  mret (Some p).

Definition seat_update_vt (p : nat) : M server Z :=
  tty0fd ← terminal_open 0;
  if tty0fd =? -1 then mret (-1) else
  vt ← terminal_current_vt tty0fd;
  saved_errno ← get_errno;
  close tty0fd;;
  if vt <=? 0 then fail_with (if saved_errno =? 0 then ENOENT else saved_errno) (-1) else
  upd_seat p (set_cur_vt vt);;
  mret 0.

Definition vt_open (vt : Z) : M server Z :=
  ttyfd ← terminal_open vt;
  if ttyfd =? -1 then mret (-1) else
  terminal_set_process_switching ttyfd true;;
  terminal_set_keyboard ttyfd false;;
  terminal_set_graphics ttyfd true;;
  close ttyfd;;
  mret 0.

Definition vt_close (vt : Z) : M server Z :=
  ttyfd ← terminal_open vt;
  if ttyfd =? -1 then mret (-1) else
  terminal_set_process_switching ttyfd false;;
  terminal_set_keyboard ttyfd true;;
  terminal_set_graphics ttyfd false;;
  close ttyfd;;
  mret 0.

Definition vt_switch (p : nat) (vt : Z) : M server Z :=
  t ← get_seat p;
  ttyfd ← terminal_open (cur_vt t);
  if ttyfd =? -1 then mret (-1) else
  r ← terminal_set_process_switching ttyfd true;
  if r =? -1 then
    saved_errno ← get_errno; close ttyfd;; fail_with saved_errno (-1)
  else
  r ← terminal_switch_vt ttyfd vt;
  if r =? -1 then
    saved_errno ← get_errno; close ttyfd;; fail_with saved_errno (-1)
  else
  close ttyfd;;
  mret 0.

Definition seat_find_group_vt (t : seat) (vt : Z) : option seat_group_vt :=
  snd <$> list_find (fun g => group_vt g = vt) (group_vts t).

Definition client_owns_vt (c : nat) (vt : Z) : M server bool :=
  k ← get_client c;
  if session k =? vt then mret true else
  match c_seat k with
  | None => mret false
  | Some p =>
      t ← get_seat p;
      match seat_find_group_vt t vt with
      | Some g => mret (bool_decide (owner g = c))
      | None => mret false
      end
  end.

Definition vt_for_client_open (p c : nat) : M server Z :=
  t ← get_seat p;
  owns ← (if 0 <? cur_vt t then client_owns_vt c (cur_vt t) else mret false);
  if owns : bool then mret (cur_vt t) else
  k ← get_client c;
  mret (session k).

(** Whether the seat reaches a server: it goes through its first client. *)
Definition seat_get_server (p : nat) : M server bool :=
  t ← get_seat p;
  match clients t with
  | c :: _ => k ← get_client c; mret (c_server k)
  | [] => mret false
  end.

(** What [describe_vt_owner] prints, before formatting. *)
Inductive vt_owner :=
| VtNone
| VtGroup (user session : bytes) (owner_pid owner_vt : Z)
| VtClient (pid uid session : Z)
| VtUnmanaged.

(** The first client of a list that satisfies a test of its struct. *)
Fixpoint first_client (f : client -> bool) (l : list nat) : M server (option nat) :=
  match l with
  | [] => mret None
  | c :: l' => k ← get_client c; if f k then mret (Some c) else first_client f l'
  end.

Definition describe_vt_owner (p : nat) (vt : Z) : M server vt_owner :=
  if vt <=? 0 then mret VtNone else
  t ← get_seat p;
  match seat_find_group_vt t vt with
  | Some g =>
      k ← get_client (owner g);
      mret (VtGroup (group_user g) (group_session g) (c_pid k) (session k))
  | None =>
      o ← first_client (fun k => session k =? vt) (clients t);
      match o with
      | Some c => k ← get_client c; mret (VtClient (c_pid k) (c_uid k) (session k))
      | None => mret VtUnmanaged
      end
  end.

Definition describe_pending_vt_target (p : nat) : M server vt_owner :=
  t ← get_seat p;
  if pending_vt_switch t <=? 0 then mret VtNone else
  describe_vt_owner p (pending_vt_switch t).

Definition vt_ack (p : nat) (release : bool) : M server Z :=
  t ← get_seat p;
  tty0fd ← terminal_open (cur_vt t);
  if tty0fd =? -1 then mret (-1) else
  (if release then terminal_ack_release tty0fd else terminal_ack_acquire tty0fd);;
  close tty0fd;;
  mret 0.

(** ** Devices *)

Definition seat_find_device (c : nat) (id : Z) : M server (option Z) :=
  if id =? 0 then fail_with EINVAL None else
  k ← get_client c;
  match lookup_device id (devices k) with
  | Some d => mret (Some (device_id d))
  | None => fail_with ENOENT None
  end.

(** The scan of the open devices: the device already open on [path], or the next
    id to give out with the number of devices. *)
Fixpoint scan_devices (l : list seat_device) (sanitized : bytes) (id count : Z) : Z + (Z * Z) :=
  match l with
  | [] => inr (id, count)
  | old :: l' =>
      if strcmp_eq (path old) sanitized then inl (device_id old) else
      scan_devices l' sanitized (if id <=? device_id old then device_id old + 1 else id) (count + 1)
  end.

Definition device_type_of (sanitized : bytes) : option seat_device_type :=
  if path_is_evdev Linux sanitized then Some SEAT_DEVICE_TYPE_EVDEV else
  if path_is_drm Linux sanitized then Some SEAT_DEVICE_TYPE_DRM else
  if path_is_wscons Linux sanitized then Some SEAT_DEVICE_TYPE_WSCONS else
  if path_is_hidraw Linux has_hidiocrevoke sanitized then Some SEAT_DEVICE_TYPE_HIDRAW else
  None.

Definition seat_open_device (c : nat) (dev_path : bytes) : M server (option Z) :=
  k ← get_client c;
  p ← deref (c_seat k);
  t ← get_seat p;
  if negb (bool_decide (state k = CLIENT_ACTIVE)) then fail_with EPERM None else
  assert_ (bool_decide (active_client t = Some c));;
  r ← ext (Realpath dev_path);
  if r_ret r =? -1 then mret None else
  let sanitized := r_bytes r in
  match device_type_of sanitized with
  | None => fail_with ENOENT None
  | Some type =>
      match scan_devices (devices k) sanitized 1 0 with
      | inl id =>
          on_device c id (modify (fun d => set_ref_cnt (ref_cnt d + 1) d));;
          mret (Some id)
      | inr (id, count) =>
          if MAX_SEAT_DEVICES <=? count then fail_with EMFILE None else
          r ← ext (Open sanitized [O_RDWR; O_NOCTTY; O_NOFOLLOW; O_CLOEXEC; O_NONBLOCK]);
          let fd := r_ret r in
          if fd =? -1 then mret None else
          match type with
          | SEAT_DEVICE_TYPE_DRM => drm_set_master fd;; mret ()
          | SEAT_DEVICE_TYPE_EVDEV | SEAT_DEVICE_TYPE_WSCONS | SEAT_DEVICE_TYPE_HIDRAW => mret ()
          | SEAT_DEVICE_TYPE_NORMAL => abort
          end;;
          r ← ext Calloc;
          if r_ret r =? -1 then close fd;; fail_with ENOMEM None else
          r ← ext (Strdup sanitized);
          if r_ret r =? -1 then close fd;; fail_with ENOMEM None else
          upd_client c (fun k =>
            set_devices (SeatDevice id fd 1 true sanitized type :: devices k) k);;
          mret (Some id)
      end
  end.

Definition seat_deactivate_device : M seat_device Z :=
  d ← get;
  if negb (active d) then mret 0 else
  r ← match dev_type d with
      | SEAT_DEVICE_TYPE_DRM => drm_drop_master (dev_fd d)
      | SEAT_DEVICE_TYPE_EVDEV => evdev_revoke (dev_fd d)
      | SEAT_DEVICE_TYPE_HIDRAW => hidraw_revoke (dev_fd d)
      | SEAT_DEVICE_TYPE_WSCONS => mret 0
      | SEAT_DEVICE_TYPE_NORMAL => abort
      end;
  if r =? -1 then mret (-1) else
  modify (set_active false);;
  mret 0.

Definition seat_activate_device : M seat_device Z :=
  d ← get;
  if active d then mret 0 else
  match dev_type d with
  | SEAT_DEVICE_TYPE_DRM =>
      m ← drm_is_master (dev_fd d);
      (if m =? 1 then modify (set_active true) else
       drm_set_master (dev_fd d);; modify (set_active true));;
      mret 0
  | SEAT_DEVICE_TYPE_EVDEV | SEAT_DEVICE_TYPE_HIDRAW => fail_with EINVAL (-1)
  | SEAT_DEVICE_TYPE_WSCONS => mret 0
  | SEAT_DEVICE_TYPE_NORMAL => abort
  end.

(** A loop over [client->devices] whose body changes only the device it is at. *)
Definition for_devices (c : nat) (test : seat_device -> bool) (m : M seat_device Z) : M server () :=
  k ← get_client c;
  for_each (fun id =>
    on_device c id (d ← get; if test d then m;; mret () else mret ()))
    (device_id <$> devices k).

Definition is_drm (d : seat_device) : bool := bool_decide (dev_type d = SEAT_DEVICE_TYPE_DRM).

Definition seat_drop_client_drm_master (c : nat) : M server () :=
  for_devices c (fun d => is_drm d && active d) seat_deactivate_device.

Definition seat_restore_client_drm_master (c : nat) : M server () :=
  for_devices c (fun d => is_drm d && negb (active d)) seat_activate_device.

Definition remove_device (id : Z) (l : list seat_device) : list seat_device :=
  filter (fun d => device_id d ≠ id) l.

Definition seat_close_device (c : nat) (id : Z) : M server () :=
  k ← get_client c;
  p ← deref (c_seat k);
  _ ← get_seat p;
  d ← deref (lookup_device id (devices k));
  on_device c id (modify (set_ref_cnt (ref_cnt d - 1)));;
  if 0 <? ref_cnt d - 1 then mret () else
  stored_errno ← get_errno;
  upd_client c (fun k => set_devices (remove_device id (devices k)) k);;
  (if dev_fd d =? -1 then mret () else
     run_local d seat_deactivate_device;;
     close (dev_fd d));;
  set_errno stored_errno.

(** ** Opening and disabling clients *)

Definition seat_open_client (p c : nat) : M server Z :=
  k ← get_client c;
  t ← get_seat p;
  assert_ (bool_decide (c_seat k = Some p));;
  if negb (bool_decide (state k = CLIENT_NEW)) && negb (bool_decide (state k = CLIENT_DISABLED))
  then fail_with EALREADY (-1) else
  if bool_decide (active_client t ≠ None) then fail_with EBUSY (-1) else
  open_vt ← vt_for_client_open p c;
  r ← (if vt_bound t then vt_open open_vt else mret 0);
  if vt_bound t && (r =? -1) then mret (-1) else
  for_devices c (fun _ => true) seat_activate_device;;
  r ← client_send_enable_seat c;
  if r =? -1 then
    for_devices c (fun _ => true) seat_deactivate_device;;
    (if vt_bound t then vt_close open_vt;; mret () else mret ());;
    mret (-1)
  else
  upd_client c (set_state CLIENT_ACTIVE);;
  upd_seat p (set_active_client (Some c));;
  mret 0.

(** The first client of a list that owns a VT. *)
Fixpoint first_owner (vt : Z) (l : list nat) : M server (option nat) :=
  match l with
  | [] => mret None
  | c :: l' => b ← client_owns_vt c vt; if b : bool then mret (Some c) else first_owner vt l'
  end.

Definition seat_activate (p : nat) : M server Z :=
  t ← get_seat p;
  match active_client t, next_client t, clients t with
  | Some _, _, _ => mret 0
  | None, Some c, _ =>
      upd_seat p (set_next_client None);;
      seat_open_client p c
  | None, None, [] => mret (-1)
  | None, None, first :: _ =>
      if vt_bound t && (cur_vt t =? -1) then mret (-1) else
      if vt_bound t then
        o ← first_owner (cur_vt t) (clients t);
        match o with
        | Some c => seat_open_client p c
        | None => mret (-1)
        end
      else seat_open_client p first
  end.

Definition seat_disable_client (c : nat) : M server Z :=
  k ← get_client c;
  if negb (bool_decide (state k = CLIENT_ACTIVE)) then fail_with EBUSY (-1) else
  assert_ (bool_decide (c_seat k ≠ None));;
  p ← deref (c_seat k);
  t ← get_seat p;
  assert_ (bool_decide (active_client t = Some c));;
  for_devices c (fun _ => true) seat_deactivate_device;;
  upd_client c (set_state CLIENT_PENDING_DISABLE);;
  r ← client_send_disable_seat c;
  if r =? -1 then mret (-1) else mret 0.

Definition seat_ack_disable_client (c : nat) : M server Z :=
  k ← get_client c;
  if negb (bool_decide (state k = CLIENT_PENDING_DISABLE)) then fail_with EBUSY (-1) else
  upd_client c (set_state CLIENT_DISABLED);;
  p ← deref (c_seat k);
  t ← get_seat p;
  if negb (bool_decide (active_client t = Some c)) then mret 0 else
  upd_seat p (set_active_client None);;
  seat_activate p;;
  mret 0.

(** ** Adding and removing clients *)

(** The smallest session number in use by none of [all], counting up from
    [next]: a hit restarts the scan of the list. *)
Fixpoint next_session (fuel : nat) (all : list Z) (next : Z) : option Z :=
  (fix scan (rest : list Z) : option Z :=
     match rest with
     | [] => Some next
     | s :: rest' =>
         if s =? next
         then match fuel with O => None | S fuel' => next_session fuel' all (next + 1) end
         else scan rest'
     end) all.

(** [client->session] along a list of clients. *)
Fixpoint sessions (l : list nat) : M server (list Z) :=
  match l with
  | [] => mret []
  | c :: l' => k ← get_client c; r ← sessions l'; mret (session k :: r)
  end.

(** The session of a new client on a VT-bound seat: the current VT. *)
Definition vt_session (p : nat) : M server (option Z) :=
  seat_update_vt p;;
  t ← get_seat p;
  if cur_vt t =? -1 then fail_with EINVAL None else
  taken ← (if bool_decide (active_client t ≠ None)
           then first_client (fun k => session k =? cur_vt t) (clients t)
           else mret None);
  match taken with
  | Some _ => fail_with EBUSY None
  | None => mret (Some (cur_vt t))
  end.

(** On other seats: the first number that is free. *)
Definition free_session (l : list nat) : M server (option Z) :=
  all ← sessions l;
  match next_session (length all) all 1 with
  | Some n => mret (Some n)
  | None => hang
  end.

Definition seat_add_client (p c : nat) : M server Z :=
  t ← get_seat p;
  k ← get_client c;
  if bool_decide (c_seat k ≠ None) then fail_with EBUSY (-1) else
  busy ← (if vt_bound t then
            match active_client t with
            | Some a => ka ← get_client a; mret (bool_decide (state ka ≠ CLIENT_PENDING_DISABLE))
            | None => mret false
            end
          else mret false);
  if busy : bool then fail_with EBUSY (-1) else
  if negb (session k =? -1) then fail_with EINVAL (-1) else
  n ← (if vt_bound t then vt_session p else free_session (clients t));
  match n with
  | None => mret (-1)
  | Some n =>
      upd_client c (set_session n);;
      upd_client c (set_c_seat (Some p));;
      modify (unlink_client c);;
      upd_seat p (fun t => set_clients (c :: clients t) t);;
      mret 0
  end.

(** [while (!linked_list_empty(&client->devices)) seat_close_device(...)] *)
Fixpoint close_devices (fuel : nat) (c : nat) : M server () :=
  k ← get_client c;
  match devices k with
  | [] => mret ()
  | d :: _ =>
      match fuel with
      | O => hang
      | S fuel' => seat_close_device c (device_id d);; close_devices fuel' c
      end
  end.

(** One reference is given up per turn. *)
Definition device_refs (l : list seat_device) : nat :=
  sum_list ((fun d => Z.to_nat (Z.max 1 (ref_cnt d))) <$> l).

Definition remove_group_vt (vt : Z) (t : seat) : seat :=
  set_group_vts (filter (fun g => group_vt g ≠ vt) (group_vts t)) t.

(** [linked_list_remove(&group_vt->link)] and the release of the entry. *)
Definition drop_group_vt (p : nat) (g : seat_group_vt) : M server () :=
  upd_seat p (remove_group_vt (group_vt g));;
  t ← get_seat p;
  if vt_bound t then vt_close (group_vt g);; mret () else mret ().

(** The seat gives up the client if it is the active one, and activates another;
    the result is [was_current]. *)
Definition seat_release_active (p c : nat) : M server bool :=
  t ← get_seat p;
  let was_current := bool_decide (active_client t = Some c) in
  (if was_current then
     upd_seat p (set_active_client None);;
     seat_activate p;;
     mret ()
   else mret ());;
  mret was_current.

(** The VT of a client that leaves goes back to text mode. *)
Definition seat_clean_vt (p c : nat) (was_current : bool) : M server () :=
  t ← get_seat p;
  k ← get_client c;
  if vt_bound t then
    if was_current && bool_decide (active_client t = None) then vt_close (session k);; mret ()
    else if negb was_current && negb (bool_decide (state k = CLIENT_CLOSED))
    then vt_close (session k);; mret ()
    else mret ()
  else mret ().

Definition seat_remove_client (c : nat) : M server () :=
  k ← get_client c;
  p ← deref (c_seat k);
  t ← get_seat p;
  (if bool_decide (next_client t = Some c) then upd_seat p (set_next_client None) else mret ());;
  modify (unlink_client c);;
  close_devices (device_refs (devices k)) c;;
  t ← get_seat p;
  for_each (fun g => if bool_decide (owner g = c) then drop_group_vt p g else mret ())
    (group_vts t);;
  was_current ← seat_release_active p c;
  seat_clean_vt p c was_current;;
  upd_client c (set_state CLIENT_CLOSED);;
  upd_client c (set_c_seat None).

(** ** Switching sessions *)

Definition seat_set_next_session (c : nat) (n : Z) : M server Z :=
  k ← get_client c;
  if negb (bool_decide (state k = CLIENT_ACTIVE)) then fail_with EPERM (-1) else
  p ← deref (c_seat k);
  t ← get_seat p;
  assert_ (bool_decide (active_client t = Some c));;
  if n <=? 0 then fail_with EINVAL (-1) else
  if vt_bound t && (cur_vt t =? n) then mret 0 else
  if negb (vt_bound t) && (n =? session k) then mret 0 else
  if 0 <? pending_vt_switch t then fail_with EBUSY (-1) else
  if bool_decide (next_client t ≠ None) then mret 0 else
  if vt_bound t then
    upd_seat p (set_pending_vt_switch n);;
    r ← vt_switch p n;
    if r =? -1 then upd_seat p (set_pending_vt_switch 0);; mret (-1) else mret 0
  else
  target ← first_client (fun k => session k =? n) (clients t);
  match target with
  | None => fail_with EINVAL (-1)
  | Some _ =>
      upd_seat p (set_next_client target);;
      a ← deref (active_client t);
      seat_disable_client a;;
      mret 0
  end.

Definition seat_vt_activate (p : nat) : M server Z :=
  t ← get_seat p;
  if negb (vt_bound t) then mret (-1) else
  seat_update_vt p;;
  vt_ack p false;;
  mret 0.

Definition seat_vt_release (p : nat) : M server Z :=
  t ← get_seat p;
  if negb (vt_bound t) then mret (-1) else
  seat_update_vt p;;
  t ← get_seat p;
  match active_client t with
  | Some a =>
      ka ← get_client a;
      if bool_decide (state ka = CLIENT_ACTIVE) then
        if 0 <? pending_vt_switch t then
          describe_pending_vt_target p;;
          owns ← client_owns_vt a (pending_vt_switch t);
          if owns : bool then mret () else seat_drop_client_drm_master a
        else seat_drop_client_drm_master a
      else mret ()
  | None => mret ()
  end;;
  vt_ack p true;;
  mret 0.

Definition seat_get_active_vt (p : nat) : M server Z :=
  t ← get_seat p;
  if negb (vt_bound t) then fail_with EINVAL (-1) else
  r ← seat_update_vt p;
  if r =? -1 then mret (-1) else
  t ← get_seat p;
  mret (cur_vt t).

Definition seat_find_available_vt (p : nat) : M server Z :=
  t ← get_seat p;
  if negb (vt_bound t) then fail_with EINVAL (-1) else
  tty0fd ← terminal_open 0;
  if tty0fd =? -1 then mret (-1) else
  vt ← terminal_find_available tty0fd;
  saved_errno ← get_errno;
  close tty0fd;;
  (if vt =? -1 then set_errno saved_errno else mret ());;
  mret vt.

Definition seat_switch_vt (p : nat) (vt : Z) : M server Z :=
  t ← get_seat p;
  if negb (vt_bound t) then fail_with EINVAL (-1) else
  if vt <=? 0 then fail_with EINVAL (-1) else
  r ← seat_update_vt p;
  if r =? -1 then mret (-1) else
  t ← get_seat p;
  if cur_vt t =? vt then mret 0 else
  if 0 <? pending_vt_switch t then fail_with EBUSY (-1) else
  upd_seat p (set_pending_vt_switch vt);;
  r ← vt_switch p vt;
  if r =? -1 then upd_seat p (set_pending_vt_switch 0);; mret (-1) else mret 0.

(** ** Grouped VTs *)

Definition seat_create_group_vt (p own : nat) (requested_vt : Z) (user sess : bytes) : M server Z :=
  t ← get_seat p;
  if negb (vt_bound t) then fail_with EINVAL (-1) else
  k ← get_client own;
  if negb (bool_decide (c_seat k = Some p)) then fail_with EINVAL (-1) else
  vt ← (if requested_vt <=? 0 then
          tty0fd ← terminal_open 0;
          if tty0fd =? -1 then mret (-1) else
          vt ← terminal_find_available tty0fd;
          close tty0fd;;
          mret vt
        else mret requested_vt);
  if vt =? -1 then mret (-1) else
  if (vt =? session k) || bool_decide (seat_find_group_vt t vt ≠ None) then fail_with EBUSY (-1) else
  r ← ext Calloc;
  if r_ret r =? -1 then mret (-1) else
  ru ← ext (Strdup user);
  rs ← ext (Strdup sess);
  if (r_ret ru =? -1) || (r_ret rs =? -1) then mret (-1) else
  r ← vt_open vt;
  if r =? -1 then mret (-1) else
  upd_seat p (fun t => set_group_vts (SeatGroupVt own vt user sess :: group_vts t) t);;
  mret vt.

Definition seat_destroy_group_vt (p : nat) (vt : Z) : M server Z :=
  t ← get_seat p;
  match seat_find_group_vt t vt with
  | None => fail_with ENOENT (-1)
  | Some g => drop_group_vt p g;; mret 0
  end.

Definition seat_get_group_vt_owner_pid (p : nat) (vt : Z) : M server (option Z) :=
  t ← get_seat p;
  match seat_find_group_vt t vt with
  | None => fail_with ENOENT None
  | Some g => k ← get_client (owner g); mret (Some (c_pid k))
  end.

(** ** VT change events *)

Definition seat_handle_vt_event (p : nat) (old_vt new_vt : Z) : M server () :=
  t ← get_seat p;
  describe_vt_owner p old_vt;;
  describe_vt_owner p new_vt;;
  describe_pending_vt_target p;;
  (if 0 <? pending_vt_switch t then upd_seat p (set_pending_vt_switch 0) else mret ());;
  upd_seat p (set_cur_vt new_vt);;
  has_server ← seat_get_server p;
  (if has_server : bool then control_broadcast_vt_change old_vt new_vt else mret ());;
  t ← get_seat p;
  match active_client t with
  | Some a =>
      owns ← client_owns_vt a new_vt;
      if owns : bool then seat_restore_client_drm_master a else
      ka ← get_client a;
      if bool_decide (state ka = CLIENT_ACTIVE) then seat_disable_client a;; mret () else mret ()
  | None => seat_activate p;; mret ()
  end.

End Seat.
