(* ===== verification/Client.v ===== *)
(** * seatd/client.c: the clients of the daemon

    Creation and destruction of a client, its requests, and the handler of its
    connection; [server_get_seat] of server.c and [seat_destroy] of seat.c are
    here because the file calls, or is called by, them. *)
From S2P Require Import Prelude Kernel Connection Protocol Devices Terminal State Poller Send Seat.

Section Client.
Context `{K : Kernel}.

(** The first seat of a list with a name. *)
Fixpoint find_seat (name : bytes) (l : list nat) : M server (option nat) :=
  match l with
  | [] => mret None
  | p :: l' =>
      t ← get_seat p;
      if strcmp_eq (seat_name t) name then mret (Some p) else find_seat name l'
  end.

Definition server_get_seat (name : bytes) : M server (option nat) :=
  s ← get; find_seat name (seats s).

Definition get_peer (f : Z) : M server (option (Z * Z * Z)) :=
  r ← ext (Getpeer f);
  if r_ret r =? -1 then mret None else mret (Some (r_val 0 r, r_val 1 r, r_val 2 r)).

Definition client_create (client_fd : Z) : M server (option nat) :=
  peer ← get_peer client_fd;
  match peer with
  | None => mret None
  | Some (pid, uid, gid) =>
      r ← ext Calloc;
      if r_ret r =? -1 then mret None else
      s ← get;
      let c := fresh (dom (sv_clients s)) in
      modify (put_client c
        (Client true None (new_connection client_fd) pid uid gid None (-1) CLIENT_NEW []));;
      modify (fun s => set_idle_clients (c :: idle_clients s) s);;
      mret (Some c)
  end.

(** [client->server], dereferenced. *)
Definition client_server (c : nat) : M server () :=
  k ← get_client c; if c_server k then mret () else fault.

Definition client_destroy (c : nat) : M server () :=
  (if libseat_build then client_server c;; modify (set_running false) else mret ());;
  upd_client c (set_c_server false);;
  k ← get_client c;
  (if fd (c_connection k) =? -1 then mret () else
     close (fd (c_connection k));;
     upd_client c (fun k => set_c_connection (set_fd (-1) (c_connection k)) k));;
  (if bool_decide (c_seat k = None) then mret () else seat_remove_client c);;
  modify (unlink_client c);;
  k ← get_client c;
  match c_event_source k with
  | Some es =>
      event_source_fd_destroy es;;
      upd_client c (set_c_event_source None)
  | None => mret ()
  end;;
  on_conn c connection_close_fds;;
  k ← get_client c;
  assert_ (bool_decide (devices k = []));;
  modify (fun s => set_sv_clients (delete c (sv_clients s)) s).

(** ** Requests *)

Definition client_get_seat_name (c : nat) : bytes := str "seat0".

Definition put_reply (c : nat) (msgs : list bytes) : M server Z := on_conn c (put_all msgs).

Definition handle_open_seat (c : nat) : M server Z :=
  let name := client_get_seat_name c in
  client_server c;;
  o ← server_get_seat name;
  match o with
  | None => mret (-1)
  | Some p =>
      r ← seat_add_client p c;
      if r =? -1 then mret (-1) else
      let seat_name_len := zlen name + 1 in
      r ← put_reply c [header_bytes (Header SERVER_SEAT_OPENED (2 + seat_name_len));
                       u16_bytes seat_name_len; name ++ [0]];
      if r =? -1 then mret (-1) else
      seat_open_client p c;;
      mret 0
  end.

Definition handle_close_seat (c : nat) : M server Z :=
  k ← get_client c;
  if bool_decide (c_seat k = None) then mret (-1) else
  seat_remove_client c;;
  client_server c;;
  modify (fun s => set_idle_clients (c :: idle_clients s) s);;
  put_reply c [header_bytes (Header SERVER_SEAT_CLOSED 0)].

Definition handle_open_device (c : nat) (dev_path : bytes) : M server Z :=
  k ← get_client c;
  if bool_decide (c_seat k = None) then mret (-1) else
  o ← seat_open_device c dev_path;
  match o with
  | None => e ← get_errno; client_send_error c e
  | Some id =>
      k ← get_client c;
      d ← deref (lookup_device id (devices k));
      r ← ext (Dup (dev_fd d));
      if r_ret r =? -1 then
        seat_close_device c id;;
        e ← get_errno;
        client_send_error c e
      else
      r ← on_conn c (connection_put_fd (r_ret r));
      if r =? -1 then mret (-1) else
      put_reply c [header_bytes (Header SERVER_DEVICE_OPENED 4); int_bytes id]
  end.

Definition handle_close_device (c : nat) (id : Z) : M server Z :=
  k ← get_client c;
  if bool_decide (c_seat k = None) then mret (-1) else
  o ← seat_find_device c id;
  match o with
  | None => client_send_error c EBADF
  | Some id =>
      seat_close_device c id;;
      put_reply c [header_bytes (Header SERVER_DEVICE_CLOSED 0)]
  end.

Definition handle_switch_session (c : nat) (n : Z) : M server Z :=
  k ← get_client c;
  if bool_decide (c_seat k = None) then mret (-1) else
  r ← seat_set_next_session c n;
  if r =? -1 then e ← get_errno; client_send_error c e else
  put_reply c [header_bytes (Header SERVER_SESSION_SWITCHED 0)].

Definition handle_disable_seat (c : nat) : M server Z :=
  k ← get_client c;
  if bool_decide (c_seat k = None) then mret (-1) else
  r ← seat_ack_disable_client c;
  if r =? -1 then e ← get_errno; client_send_error c e else
  put_reply c [header_bytes (Header SERVER_SEAT_DISABLED 0)].

Definition handle_ping (c : nat) : M server Z :=
  put_reply c [header_bytes (Header SERVER_PONG 0)].

(** The body of a request; a failed [connection_get] is a protocol error. *)
Definition get_body (c : nat) (n : Z) (f : bytes -> M server Z) : M server Z :=
  o ← on_conn c (connection_get n);
  match o with None => mret (-1) | Some bs => f bs end.

Definition client_handle_opcode (c : nat) (op sz : Z) : M server Z :=
  res ←
    (if op =? CLIENT_OPEN_SEAT then
       if negb (sz =? 0) then mret (-1) else handle_open_seat c
     else if op =? CLIENT_CLOSE_SEAT then
       if negb (sz =? 0) then mret (-1) else handle_close_seat c
     else if op =? CLIENT_OPEN_DEVICE then
       if sz <? 2 then mret (-1) else
       get_body c 2 (fun bs =>
         let path_len := u16_of bs in
         if negb (path_len =? sz - 2) then mret (-1) else
         if MAX_PATH_LEN <? path_len then mret (-1) else
         get_body c path_len (fun buf =>
           if (path_len =? 0) ||
              negb (Z.of_nat (strnlen buf (Z.to_nat path_len)) =? u16 (path_len - 1))
           then mret (-1) else
           handle_open_device c (cstring buf)))
     else if op =? CLIENT_CLOSE_DEVICE then
       if negb (sz =? 4) then mret (-1) else
       get_body c 4 (fun bs => handle_close_device c (int_of bs))
     else if op =? CLIENT_SWITCH_SESSION then
       if negb (sz =? 4) then mret (-1) else
       get_body c 4 (fun bs => handle_switch_session c (int_of bs))
     else if op =? CLIENT_DISABLE_SEAT then
       if negb (sz =? 0) then mret (-1) else handle_disable_seat c
     else if op =? CLIENT_PING then
       if negb (sz =? 0) then mret (-1) else handle_ping c
     else mret (-1));
  if res =? -1 then mret res else client_flush c.

(** The loop over the complete messages in the buffer; [false] is [goto fail]. *)
Fixpoint client_messages (fuel : nat) (c : nat) : M server bool :=
  o ← on_conn c (connection_get sizeof_header);
  match o with
  | None => mret true
  | Some bs =>
      let header := header_of bs in
      k ← get_client c;
      if connection_pending (c_connection k) <? size header then
        on_conn c (connection_restore sizeof_header);;
        mret true
      else
      match fuel with
      | O => hang
      | S fuel' =>
          r ← client_handle_opcode c (opcode header) (size header);
          if r =? -1 then mret false else client_messages fuel' c
      end
  end.

(** Every message takes at least its header out of the 256-byte buffer. *)
Definition max_messages : nat := 64.

Definition client_events (c : nat) (mask : Z) : M server bool :=
  if has_event mask EVENT_ERROR then mret false else
  if has_event mask EVENT_HANGUP then mret false else
  ok ← (if has_event mask EVENT_WRITABLE then
          len ← on_conn c connection_flush;
          e ← get_errno;
          if (len =? -1) && negb (e =? EAGAIN) then mret false else
          if 0 <=? len then
            k ← get_client c;
            es ← deref (c_event_source k);
            event_source_fd_update es EVENT_READABLE;;
            mret true
          else mret true
        else mret true);
  if negb ok then mret false else
  if has_event mask EVENT_READABLE then
    len ← on_conn c connection_read;
    e ← get_errno;
    if (len =? -1) && negb (e =? EAGAIN) then mret false else
    if len =? 0 then mret false else
    client_messages max_messages c
  else mret true.

Definition client_handle_connection (c : nat) (mask : Z) : M server Z :=
  ok ← client_events c mask;
  if ok : bool then mret 0 else
  client_destroy c;;
  mret (-1).

(** ** seat.c: seat_destroy *)

Fixpoint destroy_clients (fuel : nat) (p : nat) : M server () :=
  t ← get_seat p;
  match clients t with
  | [] => mret ()
  | c :: _ =>
      match fuel with
      | O => hang
      | S fuel' =>
          k ← get_client c;
          assert_ (bool_decide (c_seat k = Some p));;
          client_destroy c;;
          destroy_clients fuel' p
      end
  end.

Definition seat_destroy (p : nat) : M server () :=
  t ← get_seat p;
  destroy_clients (length (clients t)) p;;
  upd_seat p (set_group_vts []);;
  modify (fun s => set_seats (list_remove_id p (seats s)) s);;
  modify (fun s => set_sv_seats (delete p (sv_seats s)) s).

End Client.
