(* ===== verification/Control.v ===== *)
(** * seatd/control.c: the control socket

    The requests of the session manager, and the handlers of the control
    connections; the sending half is in [Send]. *)
From S2P Require Import Prelude Kernel Connection Protocol Devices Terminal State Poller Send Seat Client.

Definition FD_CLOEXEC : Z := 1.
Definition O_NONBLOCK_bit : Z := 2048.

Section Control.
Context `{K : Kernel}.

Definition prepare_control_fd (f : Z) : M server Z :=
  r ← ext (Fcntl f F_GETFD);
  if r_ret r =? -1 then mret (-1) else
  r ← ext (Fcntl f (F_SETFD (Z.lor (r_ret r) FD_CLOEXEC)));
  if r_ret r =? -1 then mret (-1) else
  r ← ext (Fcntl f F_GETFL);
  if r_ret r =? -1 then mret (-1) else
  r ← ext (Fcntl f (F_SETFL (Z.lor (r_ret r) O_NONBLOCK_bit)));
  if r_ret r =? -1 then mret (-1) else
  mret 0.

Fixpoint find_owner (owner_pid : Z) (l : list nat) : M server (option nat) :=
  match l with
  | [] => mret None
  | p :: l' =>
      t ← get_seat p;
      o ← first_client (fun k => c_pid k =? owner_pid) (clients t);
      match o with
      | Some c => mret (Some c)
      | None => find_owner owner_pid l'
      end
  end.

Definition control_find_owner_client (owner_pid : Z) : M server (option nat) :=
  s ← get; find_owner owner_pid (seats s).

(** The body of a request; here a failed [connection_get] is not an error. *)
Definition get_request (c : nat) (n : Z) (f : bytes -> M server Z) : M server Z :=
  o ← on_control_conn c (connection_get n);
  match o with None => mret 0 | Some bs => f bs end.

(** [request.user[sizeof(request.user) - 1] = '\0'], read as a C string. *)
Definition terminated (name : bytes) : bytes :=
  cstring (<[Z.to_nat (CONTROL_NAME_MAX - 1) := 0]> name).

Definition handle_create_group_vt (c : nat) : M server Z :=
  get_request c sizeof_create_request (fun bs =>
    let request := create_request_of bs in
    o ← control_find_owner_client (cr_owner_pid request);
    match o with
    | None => control_send_error c ESRCH
    | Some own =>
        k ← get_client own;
        match c_seat k with
        | None => control_send_error c ESRCH
        | Some p =>
            vt ← seat_create_group_vt p own (cr_vt request)
                   (terminated (cr_user request)) (terminated (cr_session request));
            if vt =? -1 then e ← get_errno; control_send_error c e else
            k ← get_client own;
            control_send_group_vt_created c (c_pid k) vt
        end
    end).

(** Run a request on seat0, or report that there is none. *)
Definition with_seat0 (c : nat) (f : nat -> M server Z) : M server Z :=
  o ← server_get_seat (str "seat0");
  match o with
  | None => control_send_error c ENOENT
  | Some p => f p
  end.

Definition handle_destroy_group_vt (c : nat) : M server Z :=
  get_request c 4 (fun bs =>
    with_seat0 c (fun p =>
      r ← seat_destroy_group_vt p (int_of bs);
      if r =? -1 then e ← get_errno; control_send_error c e else mret 0)).

Definition handle_get_active_vt (c : nat) : M server Z :=
  with_seat0 c (fun p =>
    vt ← seat_get_active_vt p;
    if vt =? -1 then e ← get_errno; control_send_error c e else
    control_send_vt_state c CONTROL_ACTIVE_VT vt).

Definition handle_find_free_vt (c : nat) : M server Z :=
  with_seat0 c (fun p =>
    vt ← seat_find_available_vt p;
    if vt =? -1 then e ← get_errno; control_send_error c e else
    control_send_vt_state c CONTROL_FREE_VT vt).

Definition handle_switch_vt (c : nat) : M server Z :=
  get_request c 4 (fun bs =>
    with_seat0 c (fun p =>
      r ← seat_switch_vt p (int_of bs);
      if r =? -1 then e ← get_errno; control_send_error c e else
      control_send_ok c)).

Definition control_client_handle_opcode (c : nat) (op sz : Z) : M server Z :=
  if op =? CONTROL_CREATE_GROUP_VT then
    if negb (sz =? sizeof_create_request) then control_send_error c EPROTO
    else handle_create_group_vt c
  else if op =? CONTROL_DESTROY_GROUP_VT then
    if negb (sz =? 4) then control_send_error c EPROTO else handle_destroy_group_vt c
  else if op =? CONTROL_GET_ACTIVE_VT then
    if negb (sz =? 0) then control_send_error c EPROTO else handle_get_active_vt c
  else if op =? CONTROL_FIND_FREE_VT then
    if negb (sz =? 0) then control_send_error c EPROTO else handle_find_free_vt c
  else if op =? CONTROL_SWITCH_VT then
    if negb (sz =? 4) then control_send_error c EPROTO else handle_switch_vt c
  else control_send_error c EPROTO.

Fixpoint control_messages (fuel : nat) (c : nat) : M server bool :=
  o ← on_control_conn c (connection_get sizeof_header);
  match o with
  | None => mret true
  | Some bs =>
      let header := header_of bs in
      k ← get_control c;
      if connection_pending (cc_connection k) <? size header then
        on_control_conn c (connection_restore sizeof_header);;
        mret true
      else
      match fuel with
      | O => hang
      | S fuel' =>
          r ← control_client_handle_opcode c (opcode header) (size header);
          if r =? -1 then mret false else control_messages fuel' c
      end
  end.

Definition control_events (c : nat) (mask : Z) : M server bool :=
  if has_event mask EVENT_ERROR then mret false else
  ok ← (if has_event mask EVENT_WRITABLE then
          len ← on_control_conn c connection_flush;
          e ← get_errno;
          if (len =? -1) && negb (e =? EAGAIN) then mret false else
          if 0 <=? len then
            k ← get_control c;
            es ← deref (cc_event_source k);
            r ← event_source_fd_update es EVENT_READABLE;
            mret (negb (r =? -1))
          else mret true
        else mret true);
  if negb ok then mret false else
  ok ← (if has_event mask EVENT_READABLE then
          len ← on_control_conn c connection_read;
          e ← get_errno;
          if (len =? -1) && negb (e =? EAGAIN) then mret false else
          if len =? 0 then mret false else
          control_messages max_messages c
        else mret true);
  if negb ok then mret false else
  mret (negb (has_event mask EVENT_HANGUP)).

Definition control_client_handle_connection (c : nat) (mask : Z) : M server Z :=
  ok ← control_events c mask;
  if ok : bool then mret 0 else
  control_client_destroy c;;
  mret (-1).

Definition control_handle_connection (f mask : Z) : M server Z :=
  if has_event mask (Z.lor EVENT_ERROR EVENT_HANGUP) then mret (-1) else
  if Z.land mask EVENT_READABLE =? 0 then mret 0 else
  r ← ext (Accept f);
  let new_fd := r_ret r in
  if new_fd =? -1 then mret 0 else
  r ← prepare_control_fd new_fd;
  if negb (r =? 0) then close new_fd;; mret 0 else
  peer ← get_peer new_fd;
  match peer with
  | None => close new_fd;; mret 0
  | Some (pid, uid, gid) =>
      r ← ext Geteuid;
      if negb (uid =? r_ret r) then close new_fd;; mret 0 else
      r ← ext Calloc;
      if r_ret r =? -1 then close new_fd;; mret 0 else
      s ← get;
      let c := fresh (dom (sv_controls s)) in
      modify (put_control c (ControlClient None (new_connection new_fd) pid uid gid));;
      modify (fun s => set_control_clients (c :: control_clients s) s);;
      es ← poller_add_fd new_fd EVENT_READABLE control_client_handle_connection_fn c;
      upd_control c (set_cc_event_source es);;
      match es with
      | None => control_client_destroy c;; mret 0
      | Some _ => mret 0
      end
  end.

End Control.
