(* ===== verification/Server.v ===== *)
(** * seatd/server.c: the server's own handlers *)
From S2P Require Import Prelude Kernel Connection Protocol Devices Terminal State Poller Send Seat Client.
From S2P Require Import Control.

Section Server.
Context `{K : Kernel}.

Definition server_handle_vt_acq : M server Z :=
  o ← server_get_seat (str "seat0");
  match o with
  | None => mret (-1)
  | Some p => seat_vt_activate p;; mret 0
  end.

Definition server_handle_vt_rel : M server Z :=
  o ← server_get_seat (str "seat0");
  match o with
  | None => mret (-1)
  | Some p => seat_vt_release p;; mret 0
  end.

Definition server_handle_kill : M server Z :=
  modify (set_running false);; mret 0.

Definition set_nonblock (f : Z) : M server Z :=
  r ← ext (Fcntl f F_GETFD);
  if r_ret r =? -1 then mret (-1) else
  r ← ext (Fcntl f (F_SETFD (Z.lor (r_ret r) FD_CLOEXEC)));
  if r_ret r =? -1 then mret (-1) else
  r ← ext (Fcntl f F_GETFL);
  if r_ret r =? -1 then mret (-1) else
  r ← ext (Fcntl f (F_SETFL (Z.lor (r_ret r) O_NONBLOCK_bit)));
  if r_ret r =? -1 then mret (-1) else
  mret 0.

Definition set_cloexec (f : Z) : M server Z :=
  r ← ext (Fcntl f F_GETFD);
  if r_ret r =? -1 then mret (-1) else
  r ← ext (Fcntl f (F_SETFD (Z.lor (r_ret r) FD_CLOEXEC)));
  if r_ret r =? -1 then mret (-1) else
  mret 0.

(** ** The watcher thread and its pipe *)

Definition create_vt_event_pipe : M server Z :=
  r ← ext (Pipe2 [O_CLOEXEC]);
  if r_ret r =? 0 then modify (set_vt_event_pipe (r_val 0 r, r_val 1 r));; mret 0 else
  e ← get_errno;
  if negb (e =? ENOSYS) && negb (e =? EINVAL) then mret (-1) else
  r ← ext Pipe;
  if r_ret r =? -1 then mret (-1) else
  modify (set_vt_event_pipe (r_val 0 r, r_val 1 r));;
  c0 ← set_cloexec (r_val 0 r);
  c1 ← (if c0 =? -1 then mret (-1) else set_cloexec (r_val 1 r));
  if c1 =? -1 then
    close (r_val 0 r);;
    close (r_val 1 r);;
    modify (set_vt_event_pipe (-1, -1));;
    mret (-1)
  else mret 0.

Definition VT_EVENT_SWITCH : Z := 1.

Definition vt_event_msg (old_vt new_vt : Z) : bytes := int_bytes old_vt ++ int_bytes new_vt.

(** One turn of the loop of [server_vt_event_loop]: whether there is another.  A
    message is shorter than PIPE_BUF, so it is written whole. *)
Definition server_vt_event_turn : M server bool :=
  s ← get;
  if negb (vt_event_running s) then mret false else
  r ← ext (Ioctl (vt_event_fd s) VT_WAITEVENT);
  if r_ret r =? -1 then e ← get_errno; mret (e =? EINTR) else
  if Z.land (r_val 0 r) VT_EVENT_SWITCH =? 0 then mret true else
  let old_vt := i32 (r_val 1 r) in
  let new_vt := i32 (r_val 2 r) in
  r ← ext (Write (snd (vt_event_pipe s)) (vt_event_msg old_vt new_vt));
  if r_ret r =? -1 then e ← get_errno; mret (e =? EINTR) else
  modify (fun s => set_vt_event_queue (vt_event_queue s ++ [(old_vt, new_vt)]) s);;
  mret true.

(** The thread takes a turn; [errno] is its own. *)
Definition server_vt_event_loop : M server () :=
  saved_errno ← get_errno;
  more ← server_vt_event_turn;
  (if more : bool then mret () else modify (set_vt_event_thread_live false));;
  set_errno saved_errno.

(** [while (read(fd, &msg, sizeof(msg)) == sizeof(msg))]: the pipe does not
    block, and holds whole messages. *)
Fixpoint vt_event_messages (fuel : nat) : M server () :=
  s ← get;
  match vt_event_queue s with
  | [] => set_errno EAGAIN
  | msg :: rest =>
      match fuel with
      | O => hang
      | S fuel' =>
          modify (set_vt_event_queue rest);;
          o ← server_get_seat (str "seat0");
          match o with
          | None => mret ()
          | Some p => seat_handle_vt_event p msg.1 msg.2
          end;;
          vt_event_messages fuel'
      end
  end.

Definition server_handle_vt_event (f mask : Z) : M server Z :=
  if has_event mask (Z.lor EVENT_ERROR EVENT_HANGUP) then mret (-1) else
  if Z.land mask EVENT_READABLE =? 0 then mret 0 else
  s ← get;
  vt_event_messages (length (vt_event_queue s));;
  mret 0.

(** ** Connections *)

Definition server_add_client (f : Z) : M server Z :=
  r ← set_nonblock f;
  if negb (r =? 0) then close f;; mret (-1) else
  o ← client_create f;
  match o with
  | None => close f;; mret (-1)
  | Some c =>
      es ← poller_add_fd f EVENT_READABLE client_handle_connection_fn c;
      upd_client c (set_c_event_source es);;
      match es with
      | None => client_destroy c;; mret (-1)
      | Some _ => mret 0
      end
  end.

Definition server_handle_connection (f mask : Z) : M server Z :=
  if has_event mask (Z.lor EVENT_ERROR EVENT_HANGUP) then
    ext (Shutdown f);;
    modify (set_running false);;
    mret (-1)
  else
  if has_event mask EVENT_READABLE then
    r ← ext (Accept f);
    if r_ret r =? -1 then mret 0 else
    server_add_client (r_ret r);;
    mret 0
  else mret 0.

(** ** Shutdown and start *)

(** Close a descriptor held in a field, if there is one. *)
Definition close_field (get : server -> Z) (clear : server -> server) : M server () :=
  f ← gets get;
  if f =? -1 then mret () else close f;; modify clear.

(** The first part of [server_finish]: the watcher thread, its terminal and its pipe. *)
Definition finish_watcher : M server () :=
  modify (set_vt_event_running false);;
  s ← get;
  (if vt_event_thread_started s then
     ext Pthread_cancel;;
     ext Pthread_join;;
     modify (set_vt_event_thread_live false);;
     modify (set_vt_event_thread_started false)
   else mret ());;
  close_field vt_event_fd (set_vt_event_fd (-1));;
  close_field (fun s => fst (vt_event_pipe s)) (fun s => set_vt_event_pipe (-1, snd (vt_event_pipe s)) s);;
  close_field (fun s => snd (vt_event_pipe s)) (fun s => set_vt_event_pipe (fst (vt_event_pipe s), -1) s).

Fixpoint finish_controls (fuel : nat) : M server () :=
  s ← get;
  match control_clients s with
  | [] => mret ()
  | c :: _ =>
      match fuel with
      | O => hang
      | S fuel' =>
          modify (fun s => set_control_clients (list_remove_id c (control_clients s)) s);;
          k ← get_control c;
          match cc_event_source k with
          | Some es => event_source_fd_destroy es;; mret ()
          | None => mret ()
          end;;
          on_control_conn c connection_close_fds;;
          k ← get_control c;
          close (fd (cc_connection k));;
          modify (fun s => set_sv_controls (delete c (sv_controls s)) s);;
          finish_controls fuel'
      end
  end.

Fixpoint finish_idle (fuel : nat) : M server () :=
  s ← get;
  match idle_clients s with
  | [] => mret ()
  | c :: _ =>
      match fuel with
      | O => hang
      | S fuel' => client_destroy c;; finish_idle fuel'
      end
  end.

Fixpoint finish_seats (fuel : nat) : M server () :=
  s ← get;
  match seats s with
  | [] => mret ()
  | p :: _ =>
      match fuel with
      | O => hang
      | S fuel' => seat_destroy p;; finish_seats fuel'
      end
  end.

Definition server_finish : M server () :=
  finish_watcher;;
  s ← get;
  finish_controls (length (control_clients s));;
  s ← get;
  finish_idle (length (idle_clients s));;
  s ← get;
  finish_seats (length (seats s));;
  poller_finish;;
  mret ().

Definition SIGINT : Z := 2.
Definition SIGTERM : Z := 15.

(** [poller_add_signal(...) == NULL || ...] *)
Fixpoint add_signals (l : list (Z * signal_handler_fn)) : M server bool :=
  match l with
  | [] => mret true
  | (sig, fn) :: l' =>
      o ← poller_add_signal sig fn;
      match o with None => mret false | Some _ => add_signals l' end
  end.

Definition server_signals : list (Z * signal_handler_fn) :=
  [(SIGUSR1, server_handle_vt_rel_fn); (SIGUSR2, server_handle_vt_acq_fn);
   (SIGINT, server_handle_kill_fn); (SIGTERM, server_handle_kill_fn)].

(** The watcher of VT switches; the server runs without it if it cannot be set up. *)
Definition start_vt_event_thread : M server () :=
  f ← terminal_open 0;
  modify (set_vt_event_fd f);;
  if f =? -1 then mret () else
  r ← create_vt_event_pipe;
  if negb (r =? 0) then mret () else
  s ← get;
  r ← set_nonblock (fst (vt_event_pipe s));
  if negb (r =? 0) then mret () else
  es ← poller_add_fd (fst (vt_event_pipe s)) EVENT_READABLE server_handle_vt_event_fn 0;
  match es with
  | None => mret ()
  | Some _ =>
      modify (set_vt_event_running true);;
      r ← ext Pthread_create;
      if negb (r_ret r =? 0) then modify (set_vt_event_running false) else
      modify (set_vt_event_thread_live true);;
      modify (set_vt_event_thread_started true)
  end.

(** [vtenv] is the value of SEATD_VTBOUND. *)
Definition server_init (vtenv : option bytes) : M server Z :=
  r ← poller_init;
  if r =? -1 then mret (-1) else
  modify (fun s => set_seats [] (set_idle_clients [] (set_control_clients [] s)));;
  modify (set_vt_event_fd (-1));;
  modify (set_vt_event_pipe (-1, -1));;
  modify (set_vt_event_thread_started false);;
  modify (set_vt_event_running false);;
  ok ← add_signals server_signals;
  if negb ok then server_finish;; mret (-1) else
  o ← seat_create (str "seat0") (match vtenv with None => true | Some v => strcmp_eq v (str "1") end);
  match o with
  | None => server_finish;; mret (-1)
  | Some p =>
      modify (fun s => set_seats (p :: seats s) s);;
      start_vt_event_thread;;
      modify (set_running true);;
      mret 0
  end.

End Server.
