(* ===== verification/Daemon.v ===== *)
(** * The running daemon: the dispatch of poller.c, and seatd.c

    The poller calls the handlers of the other components; [main] sets the daemon
    up, runs the poller until the daemon is told to stop, and cleans up. *)
From S2P Require Import Prelude Kernel Connection Protocol Devices Terminal State Poller Send Seat.
From S2P Require Import Client Control Server.

Section Dispatch.
Context `{K : Kernel}.

(** [bpfd->func(fd, mask, bpfd->data)] *)
Definition call_fd_func (func : fd_handler) (f mask : Z) (data : nat) : M server Z :=
  match func with
  | server_handle_connection_fn => server_handle_connection f mask
  | control_handle_connection_fn => control_handle_connection f mask
  | client_handle_connection_fn => client_handle_connection data mask
  | control_client_handle_connection_fn => control_client_handle_connection data mask
  | server_handle_vt_event_fn => server_handle_vt_event f mask
  end.

(** [bps->func(bps->signal, bps->data)] *)
Definition call_signal_func (func : signal_handler_fn) : M server Z :=
  match func with
  | server_handle_vt_rel_fn => server_handle_vt_rel
  | server_handle_vt_acq_fn => server_handle_vt_acq
  | server_handle_kill_fn => server_handle_kill
  end.

(** One turn of the loop over the signal sources.  [late sig] are the signals that
    arrive while the function of a source for [sig] runs. *)
Definition dispatch_signal (late : Z -> list Z) (id : nat) : M server () :=
  s ← get;
  bps ← deref (find_signal id s);
  if negb (sg_raised bps) || sg_killed bps then mret () else
  call_signal_func (sg_func bps);;
  for_each signal_handler (late (sg_signal bps));;
  modify (upd_signal id (set_sg_raised false)).

(** [elem->next], for an element of the list. *)
Fixpoint next_after (e : nat) (l : list nat) : option nat :=
  match l with
  | [] => None
  | x :: l' => if decide (x = e) then hd_error l' else next_after e l'
  end.

(** One turn of the loop over the descriptor sources. *)
Definition dispatch_fd (e : nat) : M server () :=
  s ← get;
  bpfd ← deref (find_source e s);
  if (es_pollfd_idx bpfd =? -1) || es_killed bpfd then mret () else
  assert_ (es_pollfd_idx bpfd <? zlen (pollfds s));;
  pfd ← load_pollfd (es_pollfd_idx bpfd);
  if pf_revents pfd =? 0 then mret () else
  call_fd_func (es_func bpfd) (pf_fd pfd) (poll_mask_to_event_mask (pf_revents pfd)) (es_data bpfd);;
  mret ().

(** The loop over the descriptor sources.  The functions called may add sources
    to the front of the list; sources removed stay linked until the array is
    regenerated. *)
Fixpoint dispatch_fds (fuel : nat) (elem : option nat) : M server () :=
  match elem with
  | None => mret ()
  | Some e =>
      match fuel with
      | O => hang
      | S fuel' =>
          dispatch_fd e;;
          s ← get;
          dispatch_fds fuel' (next_after e (es_id <$> sv_sources s))
      end
  end.

Definition dispatch (late : Z -> list Z) : M server () :=
  pfd ← load_pollfd 0;
  (if has_event (pf_revents pfd) POLLIN then
     s ← get;
     drain_signal_pipe (signal_pipe s);;
     for_each (dispatch_signal late) (sg_id <$> signals s)
   else mret ());;
  s ← get;
  dispatch_fds (length (sv_sources s)) (hd_error (es_id <$> sv_sources s)).

Definition poller_poll (late : Z -> list Z) : M server Z :=
  s ← get;
  ok ← (if poll_dirty s then
          r ← regenerate;
          if r =? -1 then mret false else
          modify (set_poll_dirty false);; mret true
        else mret true);
  if negb ok then mret (-1) else
  r ← poll_fds;
  if r =? -1 then mret (-1) else
  dispatch late;;
  mret 0.

End Dispatch.

(** ** seatd.c *)

(** What getopt(3) returns, argument included; [Opt_unknown] is ['?']. *)
Inductive opt :=
| Opt_n (optarg : bytes)
| Opt_s (optarg : bytes)
| Opt_c (optarg : bytes)
| Opt_u (optarg : bytes)
| Opt_g (optarg : bytes)
| Opt_l (optarg : bytes)
| Opt_z
| Opt_v
| Opt_h
| Opt_unknown.

Inductive log_level :=
| LIBSEAT_LOG_LEVEL_SILENT
| LIBSEAT_LOG_LEVEL_ERROR
| LIBSEAT_LOG_LEVEL_INFO
| LIBSEAT_LOG_LEVEL_DEBUG.

(** The variables of [main] that the options set. *)
Record settings := Settings {
  uid : Z;
  gid : Z;
  readiness : Z;
  unlink_existing_socket : bool;
  chown_socket : bool;
  socket_path : bytes;
  control_socket_path : option bytes;
  level : log_level
}.

Definition set_uid x r := Settings x (gid r) (readiness r) (unlink_existing_socket r) (chown_socket r)
  (socket_path r) (control_socket_path r) (level r).
Definition set_gid x r := Settings (uid r) x (readiness r) (unlink_existing_socket r) (chown_socket r)
  (socket_path r) (control_socket_path r) (level r).
Definition set_readiness x r := Settings (uid r) (gid r) x (unlink_existing_socket r) (chown_socket r)
  (socket_path r) (control_socket_path r) (level r).
Definition set_socket_path x r := Settings (uid r) (gid r) (readiness r) (unlink_existing_socket r)
  (chown_socket r) x (control_socket_path r) (level r).
Definition set_control_socket_path x r := Settings (uid r) (gid r) (readiness r)
  (unlink_existing_socket r) (chown_socket r) (socket_path r) x (level r).
Definition set_level x r := Settings (uid r) (gid r) (readiness r) (unlink_existing_socket r)
  (chown_socket r) (socket_path r) (control_socket_path r) x.
Definition set_launched r := Settings (uid r) (gid r) (readiness r) false false
  (socket_path r) (control_socket_path r) (level r).

(** [atoi]: an optional sign and the digits that follow, after white space. *)
Fixpoint digits_value (acc : Z) (s : bytes) : Z :=
  match s with
  | b :: s' => if (48 <=? b) && (b <=? 57) then digits_value (10 * acc + (b - 48)) s' else acc
  | [] => acc
  end.

Fixpoint skip_space (s : bytes) : bytes :=
  match s with
  | b :: s' => if (b =? 32) || ((9 <=? b) && (b <=? 13)) then skip_space s' else s
  | [] => []
  end.

Definition atoi (s : bytes) : Z :=
  match skip_space s with
  | b :: s' =>
      if b =? 45 then i32 (- digits_value 0 s') else
      if b =? 43 then i32 (digits_value 0 s') else
      i32 (digits_value 0 (b :: s'))
  | [] => 0
  end.

Definition parse_level (arg : bytes) : option log_level :=
  if strcmp_eq arg (str "debug") then Some LIBSEAT_LOG_LEVEL_DEBUG else
  if strcmp_eq arg (str "info") then Some LIBSEAT_LOG_LEVEL_INFO else
  if strcmp_eq arg (str "error") then Some LIBSEAT_LOG_LEVEL_ERROR else
  if strcmp_eq arg (str "silent") then Some LIBSEAT_LOG_LEVEL_SILENT else
  None.

Section Main.
Context `{K : Kernel}.

(** The option loop: the settings, or the exit status of an early return. *)
Fixpoint parse_options (args : list opt) (o : settings) : M server (settings + Z) :=
  match args with
  | [] => mret (inl o)
  | Opt_n arg :: args' =>
      if atoi arg <? 0 then mret (inr 1) else parse_options args' (set_readiness (atoi arg) o)
  | Opt_s arg :: args' => parse_options args' (set_socket_path arg o)
  | Opt_c arg :: args' => parse_options args' (set_control_socket_path (Some arg) o)
  | Opt_u arg :: args' =>
      if negb (chown_socket o) then mret (inr 1) else
      pw ← ext (Getpwnam arg);
      if r_ret pw =? -1 then mret (inr 1) else parse_options args' (set_uid (i32 (r_val 0 pw)) o)
  | Opt_g arg :: args' =>
      if negb (chown_socket o) then mret (inr 1) else
      gr ← ext (Getgrnam arg);
      if r_ret gr =? -1 then mret (inr 1) else parse_options args' (set_gid (i32 (r_val 0 gr)) o)
  | Opt_l arg :: args' =>
      match parse_level arg with
      | None => mret (inr 1)
      | Some l => parse_options args' (set_level l o)
      end
  | Opt_z :: args' =>
      if negb (uid o =? -1) || negb (gid o =? -1) then mret (inr 1) else
      parse_options args' (set_launched o)
  | Opt_v :: _ => mret (inr 0)
  | Opt_h :: _ => mret (inr 0)
  | Opt_unknown :: _ => mret (inr 1)
  end.

Definition default_settings (defaultpath : bytes) : settings :=
  Settings (-1) (-1) (-1) true true defaultpath None LIBSEAT_LOG_LEVEL_INFO.

(** [S_ISSOCK(mode)] *)
Definition S_ISSOCK (mode : Z) : bool := Z.land mode 61440 =? 49152.

(** A leftover file at a socket path: whether to go on. *)
Definition clear_socket_path (path : bytes) (unlink_existing : bool) : M server bool :=
  r ← ext (Lstat path);
  if negb (r_ret r =? 0) then mret true else
  if negb (S_ISSOCK (r_val 0 r)) then mret false else
  if negb unlink_existing then mret false else
  r ← ext (Unlink path);
  mret (negb (r_ret r =? -1)).

(** [sizeof addr.unix.sun_path - 1] *)
Definition SUN_PATH_MAX : nat := 107.

Definition open_socket_internal (path : bytes) (u g : Z) (chmod_socket : bool) (mode : Z) : M server Z :=
  r ← ext Socket;
  let f := r_ret r in
  if f =? -1 then mret (-1) else
  ok ← (r ← ext (Bind f (take SUN_PATH_MAX path));
        if r_ret r =? -1 then mret false else
        r ← ext (Listen f);
        if r_ret r =? -1 then mret false else
        ok ← (if chmod_socket then r ← ext (Chmod path mode); mret (negb (r_ret r =? -1)) else mret true);
        if negb ok then mret false else
        if negb (u =? -1) || negb (g =? -1) then
          r ← ext (Chown path u g); mret (negb (r_ret r =? -1))
        else mret true);
  if ok : bool then mret f else
  close f;;
  mret (-1).

Definition open_socket (path : bytes) (u g : Z) : M server Z :=
  open_socket_internal path u g (negb (u =? -1) || negb (g =? -1)) 504.

Definition open_control_socket (path : bytes) : M server Z :=
  open_socket_internal path (-1) (-1) true 384.

(** The labels at the end of [main]. *)
Definition error_server (ret : Z) : M server Z := server_finish;; mret ret.

Definition error_socket (o : settings) (ret : Z) : M server Z :=
  ext (Unlink (socket_path o));;
  error_server ret.

Definition error_control_socket (o : settings) (control_socket_fd ret : Z) : M server Z :=
  match control_socket_path o with
  | Some path =>
      (if control_socket_fd =? -1 then mret () else close control_socket_fd);;
      ext (Unlink path);;
      mret ()
  | None => mret ()
  end;;
  error_socket o ret.

(** [main] up to its loop: it has exited, or the daemon is up. *)
Inductive started :=
| Exited (ret : Z)
| Running (o : settings) (control_socket_fd : Z).

Definition main_sockets (o : settings) : M server started :=
  socket_fd ← open_socket (socket_path o) (uid o) (gid o);
  if socket_fd =? -1 then r ← error_server 1; mret (Exited r) else
  es ← poller_add_fd socket_fd EVENT_READABLE server_handle_connection_fn 0;
  match es with
  | None => close socket_fd;; r ← error_socket o 1; mret (Exited r)
  | Some _ =>
      match control_socket_path o with
      | None => mret (Running o (-1))
      | Some path =>
          control_socket_fd ← open_control_socket path;
          if control_socket_fd =? -1 then r ← error_socket o 1; mret (Exited r) else
          es ← poller_add_fd control_socket_fd EVENT_READABLE control_handle_connection_fn 0;
          match es with
          | None =>
              close control_socket_fd;;
              r ← error_control_socket o (-1) 1; mret (Exited r)
          | Some _ => mret (Running o control_socket_fd)
          end
      end
  end.

(** The second half of the start: the server, its sockets, and the notice that it is ready. *)
Definition main_up (vtenv : option bytes) (o : settings) : M server started :=
  r ← server_init vtenv;
  if r =? -1 then mret (Exited 1) else
  st ← main_sockets o;
  match st with
  | Exited r => mret (Exited r)
  | Running o f =>
      (if readiness o =? -1 then mret () else
         ext (Write (readiness o) [10]);;
         close (readiness o));;
      mret (Running o f)
  end.

Definition main_start (defaultpath : bytes) (vtenv : option bytes) (args : list opt) : M server started :=
  res ← parse_options args (default_settings defaultpath);
  match res with
  | inr ret => mret (Exited ret)
  | inl o =>
      ok ← clear_socket_path (socket_path o) (unlink_existing_socket o);
      if negb ok then mret (Exited 1) else
      ok ← (match control_socket_path o with
            | Some path => clear_socket_path path (unlink_existing_socket o)
            | None => mret true
            end);
      if negb ok then mret (Exited 1) else
      main_up vtenv o
  end.

(** One turn of [while (server.running)]: the exit status, if this was the last. *)
Definition main_turn (o : settings) (control_socket_fd : Z) (late : Z -> list Z) : M server (option Z) :=
  s ← get;
  if negb (running s) then
    ret ← error_control_socket o control_socket_fd 0; mret (Some ret)
  else
  r ← poller_poll late;
  if r =? -1 then
    ret ← error_control_socket o control_socket_fd 1; mret (Some ret)
  else mret None.

End Main.

(** [struct server server = {0}], before [main] has set anything up *)
Definition zero_server : server :=
  Server false [] 0 false [] (0, 0) 0 [] false ∅ [] ∅ [] ∅ [] false false false 0 (0, 0) [].
