(* ===== verification/Embedded.v ===== *)
(** * The server inside libseat

    The builtin backend forks a child that runs the server of seatd for the one
    client at the other end of a socket pair: [builtin_open_seat] in
    libseat/backend/seatd.c, the branch of the child.  Its loop takes the place of
    the one in [main]. *)
From S2P Require Import Prelude Kernel Terminal State Server Daemon.

Section Embedded.
Context `{K : Kernel}.

(** The labels at the end of the branch, which ends in exit(3). *)
Definition child_error (fd res : Z) : M server Z := close fd;; mret res.
Definition child_server_error (fd res : Z) : M server Z := server_finish;; child_error fd res.

(** Up to the loop; the result is the exit status, if the child has exited. *)
Definition builtin_child_start (vtenv : option bytes) (fd0 fd1 : Z) : M server (option Z) :=
  close fd1;;
  r ← server_init vtenv;
  if r =? -1 then (ret ← child_error fd0 1; mret (Some ret)) else
  r ← server_add_client fd0;
  if r =? -1 then (ret ← child_server_error fd0 1; mret (Some ret)) else
  mret None.

(** One turn of the loop. *)
Definition builtin_child_turn (fd : Z) (late : Z -> list Z) : M server (option Z) :=
  s ← get;
  if negb (running s) then (ret ← child_server_error fd 0; mret (Some ret)) else
  r ← poller_poll late;
  if r =? -1 then (ret ← child_server_error fd 1; mret (Some ret)) else
  mret None.

End Embedded.
