(* ===== verification/Trace.v ===== *)
(** * The history of calls only grows

    Whatever part of the program runs, the calls already made stay in the
    history, in their order.  This is a property of the shape of the code, for
    every state it may run on. *)
From S2P Require Import Prelude Kernel Connection Protocol Devices Terminal State Poller Send Seat.
From S2P Require Import Client Control Server Daemon.

Definition extends {S A} (m : M S A) : Prop :=
  forall s w a s' w', m s w = Done (a, s', w') -> sys_le w w'.

Create HintDb extends.

Section Shapes.
Context {S : Type}.
Implicit Types s : S.

Lemma extends_ret {A} (a : A) : extends (mret a : M S A).
Proof. by intros s w a' s' w' [= <- <- <-]. Qed.

Lemma extends_bind {A B} (m : M S A) (f : A -> M S B) :
  extends m -> (forall a, extends (f a)) -> extends (m ≫= f).
Proof.
  intros Hm Hf s w b s' w'. unfold mbind, M_bind.
  destruct (m s w) as [[[a s1] w1]| | |] eqn:E; [|done..]. intros E'.
  etrans; [by eapply Hm|by eapply Hf].
Qed.

Lemma extends_get : extends (get : M S S).
Proof. by intros s w a' s' w' [= <- <- <-]. Qed.

Lemma extends_gets {A} (f : S -> A) : extends (gets f).
Proof. by intros s w a' s' w' [= <- <- <-]. Qed.

Lemma extends_modify (f : S -> S) : extends (modify f).
Proof. by intros s w a' s' w' [= <- <- <-]. Qed.

Lemma extends_get_errno : extends (get_errno : M S Z).
Proof. by intros s w a' s' w' [= <- <- <-]. Qed.

Lemma extends_set_errno e : extends (set_errno e : M S ()).
Proof. intros s w a' s' w' [= <- <- <-]. apply sys_le_errno. Qed.

Lemma extends_abort {A} : extends (@abort S A).
Proof. done. Qed.

Lemma extends_fault {A} : extends (@fault S A).
Proof. done. Qed.

Lemma extends_hang {A} : extends (@hang S A).
Proof. done. Qed.

Lemma extends_deref {A} (o : option A) : extends (deref o : M S A).
Proof. destruct o; [apply extends_ret|done]. Qed.

Lemma extends_for_each {A} (f : A -> M S ()) l : (forall x, extends (f x)) -> extends (for_each f l).
Proof.
  intros Hf. induction l as [|x l IH]; [apply extends_ret|]. by apply extends_bind; [|intros].
Qed.

Lemma extends_run_local {T A} (t : T) (m : M T A) : extends m -> extends (run_local t m : M S (A * T)).
Proof.
  intros Hm s w a s' w'. unfold run_local. destruct (m t w) as [[[b t'] w1]| | |] eqn:E; [|done..].
  intros [= <- <- <-]. by eapply Hm.
Qed.

Lemma extends_ext `{K : Kernel} c : extends (ext c : M S reply).
Proof. intros s w a' s' w' [= <- <- <-]. apply sys_le_logged. Qed.

Lemma extends_retry `{K : Kernel} n c : extends (ext_retry n c : M S reply).
Proof.
  induction n as [|n IH]; cbn [ext_retry]; [done|]. apply extends_bind; [apply extends_ext|].
  intros r. destruct (is_eintr r); [done|apply extends_ret].
Qed.

Lemma wp_extends {A} (m : M S A) Q s w :
  extends m -> wp m Q s w -> wp m (fun a s' w' => Q a s' w' /\ sys_le w w') s w.
Proof.
  intros Hm. unfold wp. destruct (m s w) as [[[a s'] w']| | |] eqn:E; [|done..]. intros HQ.
  split; [done|by eapply Hm].
Qed.

End Shapes.

#[export] Hint Resolve extends_ret extends_get extends_gets extends_modify extends_get_errno extends_set_errno
  extends_abort extends_fault extends_hang extends_deref extends_ext extends_retry : extends.

Ltac program_head m := lazymatch m with ?f _ => program_head f | _ => m end.

Ltac extends_step :=
  match goal with
  | |- forall _, _ => intros
  | |- extends (_ ≫= _) => apply extends_bind
  | |- extends (for_each _ _) => apply extends_for_each
  | |- extends (run_local _ _) => apply extends_run_local
  | |- extends (if ?b then _ else _) => destruct b
  | |- extends (match ?x with _ => _ end) => destruct x
  | |- extends (let _ := _ in _) => cbn zeta
  | |- extends _ => solve [eauto with extends]
  | |- extends ?m => let h := program_head m in unfold h
  end.

Ltac extends_auto := repeat extends_step.

(** ** The program *)

Section Program.
Context `{K : Kernel}.

Lemma extends_decode_cmsgs {S} (b : connection_buffer) o msgs : extends (decode_cmsgs b o msgs : M S _).
Proof. revert b o. induction msgs as [|? l IH]; intros b o; cbn [decode_cmsgs]; extends_auto. Qed.
#[local] Hint Resolve extends_decode_cmsgs : extends.

Lemma extends_flush_loop n : extends (flush_loop n).
Proof. induction n as [|n IH]; cbn [flush_loop]; extends_auto. Qed.
#[local] Hint Resolve extends_flush_loop : extends.

Lemma extends_connection_read : extends connection_read.
Proof. extends_auto. Qed.
#[local] Hint Resolve extends_connection_read : extends.

Lemma extends_put_all msgs : extends (put_all msgs).
Proof. induction msgs as [|? l IH]; cbn [put_all]; extends_auto. Qed.
#[local] Hint Resolve extends_put_all : extends.

Lemma extends_first_client f l : extends (first_client f l).
Proof. induction l as [|? l IH]; cbn [first_client]; extends_auto. Qed.
#[local] Hint Resolve extends_first_client : extends.

Lemma extends_first_owner vt l : extends (first_owner vt l).
Proof. induction l as [|? l IH]; cbn [first_owner]; extends_auto. Qed.
#[local] Hint Resolve extends_first_owner : extends.

Lemma extends_sessions l : extends (sessions l).
Proof. induction l as [|? l IH]; cbn [sessions]; extends_auto. Qed.
#[local] Hint Resolve extends_sessions : extends.

Lemma extends_find_seat name l : extends (find_seat name l).
Proof. induction l as [|? l IH]; cbn [find_seat]; extends_auto. Qed.
#[local] Hint Resolve extends_find_seat : extends.

Lemma extends_find_owner pid l : extends (find_owner pid l).
Proof. induction l as [|? l IH]; cbn [find_owner]; extends_auto. Qed.
#[local] Hint Resolve extends_find_owner : extends.

Lemma extends_broadcast old new : extends (control_broadcast_vt_change old new).
Proof. extends_auto. Qed.
#[local] Hint Resolve extends_broadcast : extends.

Lemma extends_open_client p c : extends (seat_open_client p c).
Proof. extends_auto. Qed.
#[local] Hint Resolve extends_open_client : extends.

Lemma extends_activate p : extends (seat_activate p).
Proof. extends_auto. Qed.
#[local] Hint Resolve extends_activate : extends.

Lemma extends_close_device c id : extends (seat_close_device c id).
Proof. extends_auto. Qed.
#[local] Hint Resolve extends_close_device : extends.

Lemma extends_close_devices fuel c : extends (close_devices fuel c).
Proof. induction fuel as [|n IH]; cbn [close_devices]; extends_auto. Qed.
#[local] Hint Resolve extends_close_devices : extends.

Lemma extends_remove_client c : extends (seat_remove_client c).
Proof. extends_auto. Qed.
#[local] Hint Resolve extends_remove_client : extends.

Lemma extends_client_destroy c : extends (client_destroy c).
Proof. extends_auto. Qed.
#[local] Hint Resolve extends_client_destroy : extends.

Lemma extends_handle_vt_event p old new : extends (seat_handle_vt_event p old new).
Proof. extends_auto. Qed.
#[local] Hint Resolve extends_handle_vt_event : extends.

Lemma extends_client_opcode c op sz : extends (client_handle_opcode c op sz).
Proof. extends_auto. Qed.
#[local] Hint Resolve extends_client_opcode : extends.

Lemma extends_client_messages fuel c : extends (client_messages fuel c).
Proof. induction fuel as [|n IH]; cbn [client_messages]; extends_auto. Qed.
#[local] Hint Resolve extends_client_messages : extends.

Lemma extends_control_opcode c op sz : extends (control_client_handle_opcode c op sz).
Proof. extends_auto. Qed.
#[local] Hint Resolve extends_control_opcode : extends.

Lemma extends_control_messages fuel c : extends (control_messages fuel c).
Proof. induction fuel as [|n IH]; cbn [control_messages]; extends_auto. Qed.
#[local] Hint Resolve extends_control_messages : extends.

Lemma extends_vt_event_messages fuel : extends (vt_event_messages fuel).
Proof. induction fuel as [|n IH]; cbn [vt_event_messages]; extends_auto. Qed.
#[local] Hint Resolve extends_vt_event_messages : extends.

Lemma extends_call_fd_func fn f mask data : extends (call_fd_func fn f mask data).
Proof. extends_auto. Qed.
#[local] Hint Resolve extends_call_fd_func : extends.

Lemma extends_call_signal_func fn : extends (call_signal_func fn).
Proof. extends_auto. Qed.
#[local] Hint Resolve extends_call_signal_func : extends.

Lemma extends_drain fuel : extends (drain_signal_pipe fuel).
Proof. induction fuel as [|n IH]; cbn [drain_signal_pipe]; extends_auto. Qed.
#[local] Hint Resolve extends_drain : extends.

Lemma extends_dispatch_fd e : extends (dispatch_fd e).
Proof. extends_auto. Qed.
#[local] Hint Resolve extends_dispatch_fd : extends.

Lemma extends_dispatch_fds fuel elem : extends (dispatch_fds fuel elem).
Proof. revert elem. induction fuel as [|n IH]; intros elem; cbn [dispatch_fds]; extends_auto. Qed.
#[local] Hint Resolve extends_dispatch_fds : extends.

Lemma extends_dispatch late : extends (dispatch late).
Proof. extends_auto. Qed.
#[local] Hint Resolve extends_dispatch : extends.

Lemma extends_destroy_clients fuel p : extends (destroy_clients fuel p).
Proof. induction fuel as [|n IH]; cbn [destroy_clients]; extends_auto. Qed.
#[local] Hint Resolve extends_destroy_clients : extends.

Lemma extends_finish_controls fuel : extends (finish_controls fuel).
Proof. induction fuel as [|n IH]; cbn [finish_controls]; extends_auto. Qed.
#[local] Hint Resolve extends_finish_controls : extends.

Lemma extends_finish_idle fuel : extends (finish_idle fuel).
Proof. induction fuel as [|n IH]; cbn [finish_idle]; extends_auto. Qed.
#[local] Hint Resolve extends_finish_idle : extends.

Lemma extends_finish_seats fuel : extends (finish_seats fuel).
Proof. induction fuel as [|n IH]; cbn [finish_seats]; extends_auto. Qed.
#[local] Hint Resolve extends_finish_seats : extends.

Lemma extends_finish_signals fuel : extends (finish_signals fuel).
Proof. induction fuel as [|n IH]; cbn [finish_signals]; extends_auto. Qed.
#[local] Hint Resolve extends_finish_signals : extends.

Lemma extends_finish_fds fuel : extends (finish_fds fuel).
Proof. induction fuel as [|n IH]; cbn [finish_fds]; extends_auto. Qed.
#[local] Hint Resolve extends_finish_fds : extends.

Lemma extends_server_finish : extends server_finish.
Proof. extends_auto. Qed.
#[local] Hint Resolve extends_server_finish : extends.

Lemma extends_error_control_socket o f ret : extends (error_control_socket o f ret).
Proof. extends_auto. Qed.
#[local] Hint Resolve extends_error_control_socket : extends.

End Program.
