(* ===== verification/Frames.v ===== *)
(** * What the handlers leave to the poller

    Whatever a handler does, it touches the poller only through
    [poller_add_fd], [event_source_fd_update] and [event_source_fd_destroy]: the
    poll array, the signal sources and the watcher's pipe stay as they are, and
    the list of sources only grows at its front.  This is a property of the shape
    of the code; [serves] states it of a program, and the lemmas walk the code. *)
From S2P Require Import Prelude Kernel Connection Protocol Devices Terminal State Poller Send Seat.
From S2P Require Import Client Control Server.

(** A source after a handler has run: at most its mask changed, or it was removed. *)
Record same_source (x y : event_source_fd) : Prop := {
  ss_id : es_id y = es_id x;
  ss_func : es_func y = es_func x;
  ss_fd : es_fd y = es_fd x;
  ss_data : es_data y = es_data x;
  ss_idx : es_pollfd_idx y = es_pollfd_idx x;
  ss_killed : es_killed x = true -> es_killed y = true
}.

(** The fields that only the poller, the signal handler and the watcher write. *)
Definition poller_private (s : server) :=
  (signals s, signal_fds s, signal_pipe s, pollfds s, global_poller s,
   (vt_event_running s, vt_event_thread_started s, vt_event_thread_live s, vt_event_fd s, vt_event_pipe s)).

Definition vt_numbered (msg : Z * Z) : Prop := 0 < msg.2.

Record evolves (s s' : server) : Prop := {
  ev_private : poller_private s' = poller_private s;
  ev_sources : exists new old, sv_sources s' = new ++ old /\
    Forall (fun x => es_pollfd_idx x = -1) new /\ Forall2 same_source (sv_sources s) old;
  ev_dirty : poll_dirty s' = true \/
    poll_dirty s' = poll_dirty s /\ fd_event_sources s' = fd_event_sources s /\ sv_sources s' = sv_sources s;
  ev_queue : vt_event_queue s' `suffix_of` vt_event_queue s;
  ev_vt : Forall vt_numbered (vt_event_queue s) ->
    forall p t', sv_seats s' !! p = Some t' ->
      exists t, sv_seats s !! p = Some t /\ (cur_vt t ≠ -1 -> cur_vt t' ≠ -1);
  ev_running : running s' = true -> running s = true
}.

#[export] Instance same_source_preorder : PreOrder same_source.
Proof.
  split; [by split|]. intros x y z [] []. split; try congruence. auto.
Qed.

Lemma Forall_suffix {A} (P : A -> Prop) (l1 l2 : list A) : l1 `suffix_of` l2 -> Forall P l2 -> Forall P l1.
Proof. intros [k ->]. rewrite Forall_app. tauto. Qed.

#[export] Instance evolves_preorder : PreOrder evolves.
Proof.
  split.
  - intros s. split; try done.
    + exists [], (sv_sources s). split_and!; [done|constructor|]. reflexivity.
    + by right.
    + eauto.
  - intros s1 s2 s3 [P1 (n1 & o1 & E1 & N1 & F1) D1 Q1 V1 R1] [P2 (n2 & o2 & E2 & N2 & F2) D2 Q2 V2 R2]. split.
    + congruence.
    + rewrite E1 in F2. apply Forall2_app_inv_l in F2 as (n1' & o1' & Fn & Fo & ->).
      exists (n2 ++ n1'), o1'. rewrite E2, app_assoc. split_and!; [done| |].
      * apply Forall_app. split; [done|]. eapply Forall2_Forall_r; [exact Fn|].
        eapply Forall_impl; [exact N1|]. intros x Hx y []. congruence.
      * etrans; [exact F1|exact Fo].
    + destruct D2 as [|(? & ? & ?)]; [by left|]. destruct D1 as [|(? & ? & ?)]; [left|right]; [congruence|].
      split_and!; congruence.
    + by etrans.
    + intros Hq p t3 H3. destruct (V2 (Forall_suffix vt_numbered _ _ Q1 Hq) p t3 H3) as (t2 & H2 & K2).
      destruct (V1 Hq p t2 H2) as (t1 & H1 & K1). eauto.
    + auto.
Qed.

(** ** The shapes of code

    [respects R m]: whatever [m] does, the states before and after are related by
    the preorder [R].  For code this follows from its shape, once it is known of
    the updates it makes. *)

Definition respects {A} (R : relation server) (m : M server A) : Prop :=
  forall s w a s' w', m s w = Done (a, s', w') -> R s s'.

Create HintDb respects.

Section Shapes.
Context (R : relation server) `{!PreOrder R}.

Lemma respects_ret {A} (a : A) : respects R (mret a).
Proof. by intros s w a' s' w' [= <- <- <-]. Qed.

Lemma respects_bind {A B} (m : M server A) (f : A -> M server B) :
  respects R m -> (forall a, respects R (f a)) -> respects R (m ≫= f).
Proof.
  intros Hm Hf s w b s' w'. unfold mbind, M_bind.
  destruct (m s w) as [[[a s1] w1]| | |] eqn:E; [|done..]. intros E'.
  etrans; [by eapply Hm|by eapply Hf].
Qed.

Lemma respects_get : respects R get.
Proof. by intros s w a' s' w' [= <- <- <-]. Qed.

Lemma respects_gets {A} (f : server -> A) : respects R (gets f).
Proof. by intros s w a' s' w' [= <- <- <-]. Qed.

Lemma respects_modify f : (forall s, R s (f s)) -> respects R (modify f).
Proof. intros Hf s w a' s' w' [= <- <- <-]. apply Hf. Qed.

Lemma respects_get_errno : respects R get_errno.
Proof. by intros s w a' s' w' [= <- <- <-]. Qed.

Lemma respects_set_errno e : respects R (set_errno e).
Proof. by intros s w a' s' w' [= <- <- <-]. Qed.

Lemma respects_fail_with {A} e (a : A) : respects R (fail_with e a).
Proof. apply respects_bind; [apply respects_set_errno|intros; apply respects_ret]. Qed.

Lemma respects_abort {A} : respects R (@abort server A).
Proof. done. Qed.

Lemma respects_fault {A} : respects R (@fault server A).
Proof. done. Qed.

Lemma respects_hang {A} : respects R (@hang server A).
Proof. done. Qed.

Lemma respects_assert b : respects R (assert_ b).
Proof. destruct b; [apply respects_ret|done]. Qed.

Lemma respects_deref {A} (o : option A) : respects R (deref o).
Proof. destruct o; [apply respects_ret|done]. Qed.

Lemma respects_for_each {A} (f : A -> M server ()) l :
  (forall x, respects R (f x)) -> respects R (for_each f l).
Proof.
  intros Hf. induction l as [|x l IH]; [apply respects_ret|]. by apply respects_bind; [|intros].
Qed.

Lemma respects_run_local {T A} (t : T) (m : M T A) : respects R (run_local t m).
Proof.
  intros s w a s' w'. unfold run_local. destruct (m t w) as [[[b t'] w1]| | |]; [|done..]. by intros [= <- <- <-].
Qed.

Lemma respects_ext `{K : Kernel} c : respects R (ext c).
Proof. by intros s w a' s' w' [= <- <- <-]. Qed.

Lemma respects_ext_retry `{K : Kernel} n c : respects R (ext_retry n c).
Proof.
  induction n as [|n IH]; cbn [ext_retry]; [done|]. apply respects_bind; [apply respects_ext|]. intros r.
  by destruct (is_eintr r); [|apply respects_ret].
Qed.

(** Together with a specification. *)
Lemma wp_respects {A} (m : M server A) Q s w :
  respects R m -> wp m Q s w -> wp m (fun a s' w' => Q a s' w' /\ R s s') s w.
Proof using Type.
  intros Hm. unfold wp. destruct (m s w) as [[[a s'] w']| | |] eqn:E; [|done..]. intros HQ.
  split; [done|by eapply Hm].
Qed.

(** Updates of one object through its pointer. *)
Hypothesis R_client : forall c k s, R s (put_client c k s).

Lemma respects_get_client c : respects R (get_client c).
Proof using PreOrder0. apply respects_bind; [apply respects_get|intros; apply respects_deref]. Qed.

Lemma respects_get_seat p : respects R (get_seat p).
Proof using PreOrder0. apply respects_bind; [apply respects_get|intros; apply respects_deref]. Qed.

Lemma respects_get_control c : respects R (get_control c).
Proof using PreOrder0. apply respects_bind; [apply respects_get|intros; apply respects_deref]. Qed.

Lemma respects_upd_client c f : respects R (upd_client c f).
Proof.
  apply respects_bind; [apply respects_get_client|]. intros k. apply respects_modify, R_client.
Qed.

Lemma respects_upd_seat p f :
  (forall t s, sv_seats s !! p = Some t -> R s (put_seat p (f t) s)) -> respects R (upd_seat p f).
Proof using PreOrder0.
  intros Hf s w [] s' w'. unfold upd_seat, get_seat, deref, mbind, M_bind. cbn.
  destruct (sv_seats s !! p) as [t|] eqn:Ht; [|done]. intros [= <- <-]. by apply Hf.
Qed.

Lemma respects_on_conn {A} c (m : M connection A) : respects R (on_conn c m).
Proof.
  apply respects_bind; [apply respects_get_client|]. intros k.
  apply respects_bind; [apply respects_run_local|]. intros [a conn].
  apply respects_bind; [apply respects_modify, R_client|]. intros. apply respects_ret.
Qed.

Lemma respects_on_device {A} c id (m : M seat_device A) : respects R (on_device c id m).
Proof.
  apply respects_bind; [apply respects_get_client|]. intros k.
  apply respects_bind; [apply respects_deref|]. intros d.
  apply respects_bind; [apply respects_run_local|]. intros [a d'].
  apply respects_bind; [apply respects_modify, R_client|]. intros. apply respects_ret.
Qed.

End Shapes.

#[export] Hint Resolve respects_ret respects_get respects_gets respects_get_errno respects_set_errno
  respects_fail_with respects_abort respects_fault respects_hang respects_assert respects_deref
  respects_run_local respects_ext respects_ext_retry respects_get_client respects_get_seat respects_get_control : respects.

Ltac head_of m := lazymatch m with ?f _ => head_of f | _ => m end.

(** Walk the code: binds and branches by their shape, calls by what is known of
    them or else by their definition. *)
Ltac respects_step :=
  match goal with
  | |- forall _, _ => intros
  | |- respects _ (_ ≫= _) => apply respects_bind; [typeclasses eauto| |]
  | |- respects _ (for_each _ _) => apply respects_for_each; [typeclasses eauto|]
  | |- respects _ (upd_seat _ _) => apply respects_upd_seat; [typeclasses eauto|]
  | |- respects _ (modify _) => apply respects_modify
  | |- respects _ (if ?b then _ else _) => destruct b
  | |- respects _ (match ?x with _ => _ end) => destruct x
  | |- respects _ (let _ := _ in _) => cbn zeta
  | |- respects _ _ => solve [eauto with respects typeclass_instances]
  | |- respects _ ?m => let h := head_of m in unfold h
  | |- _ => solve [eauto with respects]
  end.

Ltac respects_auto := repeat respects_step.

(** ** Evolution *)

Abbreviation serves := (respects evolves).

(** An update of the fields the handlers own. *)
Lemma evolves_own s s' :
  poller_private s' = poller_private s -> sv_sources s' = sv_sources s -> poll_dirty s' = poll_dirty s ->
  fd_event_sources s' = fd_event_sources s -> vt_event_queue s' = vt_event_queue s ->
  (forall p t', sv_seats s' !! p = Some t' ->
     exists t, sv_seats s !! p = Some t /\ (cur_vt t ≠ -1 -> cur_vt t' ≠ -1)) ->
  (running s' = true -> running s = true) ->
  evolves s s'.
Proof.
  intros P S D N Q V R. split; try done.
  - exists [], (sv_sources s). rewrite S. split_and!; [done|constructor|reflexivity].
  - by right.
  - by rewrite Q.
Qed.

Lemma evolves_put_client c k s : evolves s (put_client c k s).
Proof. apply evolves_own; try done. eauto. Qed.

Lemma evolves_put_control c k s : evolves s (put_control c k s).
Proof. apply evolves_own; try done. eauto. Qed.

Lemma evolves_unlink c s : evolves s (unlink_client c s).
Proof.
  apply evolves_own; try done. intros p t'. cbn. rewrite lookup_fmap, fmap_Some.
  intros (t & Ht & ->). by exists t.
Qed.

Lemma evolves_upd_source e f s :
  (forall x, same_source x (f x)) -> evolves s (set_poll_dirty true (upd_source e f s)).
Proof.
  intros Hf. split; try done; cbn.
  - eexists [], _. split_and!; [reflexivity|constructor|]. apply Forall2_fmap_r, Forall_Forall2_diag, Forall_true.
    intros x. unfold compose. case_decide; [apply Hf|reflexivity].
  - by left.
  - eauto.
Qed.

Lemma evolves_put_seat p t t' s :
  sv_seats s !! p = Some t -> (cur_vt t ≠ -1 -> cur_vt t' ≠ -1) -> evolves s (put_seat p t' s).
Proof.
  intros Ht Hv. apply evolves_own; try done. cbn. intros q t0 [[<- <-]|[_ Hq]]%lookup_insert_Some; eauto.
Qed.

Section Serves.
Context `{K : Kernel}.

Lemma serves_upd_control c f : serves (upd_control c f).
Proof.
  apply respects_bind; [apply _|apply respects_get_control, _|]. intros k.
  apply respects_modify, evolves_put_control.
Qed.

Lemma serves_on_control_conn {A} c (m : M connection A) : serves (on_control_conn c m).
Proof.
  apply respects_bind; [apply _|apply respects_get_control, _|]. intros k.
  apply respects_bind; [apply _|apply respects_run_local, _|]. intros [a conn].
  apply respects_bind; [apply _|apply respects_modify, evolves_put_control|]. intros. apply respects_ret, _.
Qed.

Lemma serves_add_fd f mask fn data : serves (poller_add_fd f mask fn data).
Proof.
  intros s w a s' w'. unfold poller_add_fd, ext, mbind, M_bind, mret, M_ret. cbn.
  destruct (r_ret _ =? -1); intros [= <- <- <-]; [done|]. split; try done; cbn.
  - eexists [_], (sv_sources s). split_and!; [reflexivity|by repeat constructor|reflexivity].
  - by left.
  - eauto.
Qed.

Lemma serves_source_update e mask : serves (event_source_fd_update e mask).
Proof.
  intros s w a s' w'. unfold event_source_fd_update, deref, mbind, M_bind, mret, M_ret. cbn.
  destruct (find_source e s); [|done]. intros [= <- <- <-]. apply evolves_upd_source. by split.
Qed.

Lemma serves_source_destroy e : serves (event_source_fd_destroy e).
Proof.
  intros s w a s' w'. unfold event_source_fd_destroy, deref, mbind, M_bind, mret, M_ret. cbn.
  destruct (find_source e s); [|done]. intros [= <- <- <-].
  pose proof (evolves_upd_source e (set_es_killed true) s ltac:(by split)) as [P S D Q V R].
  split; [done|exact S|by left|done|exact V|done].
Qed.

End Serves.

#[export] Hint Resolve serves_upd_control serves_on_control_conn serves_add_fd serves_source_update serves_source_destroy evolves_unlink : respects.
#[export] Hint Extern 1 (evolves _ (put_seat _ _ _)) => (eapply evolves_put_seat; [eassumption|cbn; (by intros) || lia]) : respects.
#[export] Hint Extern 5 (evolves _ _) => (apply evolves_own; [done..|by eauto|by cbn]) : respects.

(** ** Code that only reads *)

Section Reading.
Context `{K : Kernel} (R : relation server) `{!PreOrder R}.

Lemma respects_first_client f l : respects R (first_client f l).
Proof. induction l as [|c l IH]; cbn [first_client]; respects_auto. Qed.

Lemma respects_client_owns_vt c vt : respects R (client_owns_vt c vt).
Proof. respects_auto. Qed.
#[local] Hint Resolve respects_client_owns_vt : respects.

Lemma respects_first_owner vt l : respects R (first_owner vt l).
Proof. induction l as [|c l IH]; cbn [first_owner]; respects_auto. Qed.

Lemma respects_sessions l : respects R (sessions l).
Proof. induction l as [|c l IH]; cbn [sessions]; respects_auto. Qed.

Lemma respects_vt_open vt : respects R (vt_open vt).
Proof. respects_auto. Qed.

Lemma respects_vt_close vt : respects R (vt_close vt).
Proof. respects_auto. Qed.

Lemma respects_find_seat name l : respects R (find_seat name l).
Proof. induction l as [|p l IH]; cbn [find_seat]; respects_auto. Qed.

Lemma respects_find_owner pid l : respects R (find_owner pid l).
Proof.
  induction l as [|p l IH]; cbn [find_owner]; respects_auto.
  all: apply respects_first_client.
Qed.

End Reading.

#[export] Hint Resolve respects_first_client respects_client_owns_vt respects_first_owner
  respects_sessions respects_vt_open respects_vt_close respects_find_seat respects_find_owner : respects.

(** ** Giving up a client

    What a relation needs for the destruction of clients to respect it. *)

Class Leaves `{K : Kernel} (R : relation server) := {
  leaves_preorder :: PreOrder R;
  leaves_client : forall c k s, R s (put_client c k s);
  leaves_seat : forall p t t' s, sv_seats s !! p = Some t -> cur_vt t' = cur_vt t -> R s (put_seat p t' s);
  leaves_unlink : forall c s, R s (unlink_client c s);
  leaves_stop : forall s, R s (set_running false s);
  leaves_free : forall c s, R s (set_sv_clients (delete c (sv_clients s)) s);
  leaves_source : forall e, respects R (event_source_fd_destroy e)
}.

Section Leaving.
Context `{K : Kernel} (R : relation server) `{L : !Leaves R}.
#[local] Hint Resolve leaves_source : respects.
#[local] Hint Extern 1 (R _ _) => (apply leaves_client || apply leaves_unlink || apply leaves_stop || apply leaves_free) : respects.
#[local] Hint Extern 1 (R _ (put_seat _ _ _)) => (eapply leaves_seat; [eassumption|reflexivity]) : respects.

Lemma leaves_upd_client c f : respects R (upd_client c f).
Proof. apply respects_upd_client; [apply _|apply leaves_client]. Qed.
#[local] Hint Resolve leaves_upd_client : respects.

Lemma leaves_on_conn {A} c (m : M connection A) : respects R (on_conn c m).
Proof. apply respects_on_conn; [apply _|apply leaves_client]. Qed.
#[local] Hint Resolve leaves_on_conn : respects.

Lemma leaves_on_device {A} c id (m : M seat_device A) : respects R (on_device c id m).
Proof. apply respects_on_device; [apply _|apply leaves_client]. Qed.
#[local] Hint Resolve leaves_on_device : respects.

Lemma leaves_open_client p c : respects R (seat_open_client p c).
Proof. respects_auto. Qed.
#[local] Hint Resolve leaves_open_client : respects.

Lemma leaves_activate p : respects R (seat_activate p).
Proof. respects_auto. Qed.
#[local] Hint Resolve leaves_activate : respects.

Lemma leaves_disable_client c : respects R (seat_disable_client c).
Proof. respects_auto. Qed.

Lemma leaves_close_device c id : respects R (seat_close_device c id).
Proof. respects_auto. Qed.
#[local] Hint Resolve leaves_close_device : respects.

Lemma leaves_close_devices fuel c : respects R (close_devices fuel c).
Proof. induction fuel as [|fuel IH]; cbn [close_devices]; respects_auto. Qed.
#[local] Hint Resolve leaves_close_devices : respects.

Lemma leaves_remove_client c : respects R (seat_remove_client c).
Proof. respects_auto. Qed.
#[local] Hint Resolve leaves_remove_client : respects.

Lemma leaves_client_destroy c : respects R (client_destroy c).
Proof. respects_auto. Qed.
#[local] Hint Resolve leaves_client_destroy : respects.

Lemma leaves_destroy_clients fuel p : respects R (destroy_clients fuel p).
Proof. induction fuel as [|fuel IH]; cbn [destroy_clients]; respects_auto. Qed.

End Leaving.

#[export] Hint Resolve leaves_upd_client leaves_on_conn leaves_on_device leaves_open_client
  leaves_activate leaves_disable_client leaves_close_device leaves_remove_client
  leaves_client_destroy : respects.

(** ** The handlers *)

#[export] Instance evolves_leaves `{K : Kernel} : Leaves evolves.
Proof.
  split; [apply _|apply evolves_put_client| |apply evolves_unlink| | |apply serves_source_destroy].
  - intros p t t' s Ht E. eapply evolves_put_seat; [done|congruence].
  - intros s. apply evolves_own; try done. eauto.
  - intros c s. apply evolves_own; try done. eauto.
Qed.

Section Operations.
Context `{K : Kernel}.

Lemma serves_update_vt p : serves (seat_update_vt p).
Proof.
  unfold seat_update_vt. apply respects_bind; [apply _|respects_auto|intros f]. destruct (f =? -1); [respects_auto|].
  apply respects_bind; [apply _|respects_auto|intros vt]. do 2 (apply respects_bind; [apply _|respects_auto|intros ?]).
  destruct (Z.leb_spec vt 0); respects_auto.
Qed.
#[local] Hint Resolve serves_update_vt : respects.

Lemma serves_vt_event p old new : 0 < new -> serves (seat_handle_vt_event p old new).
Proof.
  intros Hn. unfold seat_handle_vt_event. respects_auto.
Qed.

Lemma serves_client_messages fuel c : serves (client_messages fuel c).
Proof. induction fuel as [|fuel IH]; cbn [client_messages]; respects_auto. Qed.
#[local] Hint Resolve serves_client_messages : respects.

Lemma serves_client c mask : serves (client_handle_connection c mask).
Proof. respects_auto. Qed.

Lemma serves_control_messages fuel c : serves (control_messages fuel c).
Proof. induction fuel as [|fuel IH]; cbn [control_messages]; respects_auto. Qed.
#[local] Hint Resolve serves_control_messages : respects.

Lemma serves_control_client c mask : serves (control_client_handle_connection c mask).
Proof. respects_auto. Qed.

Lemma serves_connection f mask : serves (server_handle_connection f mask).
Proof. respects_auto. Qed.

Lemma serves_control_connection f mask : serves (control_handle_connection f mask).
Proof. respects_auto. Qed.

Lemma serves_vt_rel : serves server_handle_vt_rel.
Proof. respects_auto. Qed.

Lemma serves_vt_acq : serves server_handle_vt_acq.
Proof. respects_auto. Qed.

Lemma serves_kill : serves server_handle_kill.
Proof. respects_auto. Qed.

End Operations.
