(* ===== verification/Invariant.v ===== *)
(** * The invariant of the daemon's state

    [server_wf] says which pointers are valid, which lists agree with which
    back-pointers, and what ranges numbers have.  The lemmas below it are one per
    kind of update the operations make; each operation's proof is symbolic
    execution that ends in one of them.

    Three sets of addresses are exempt from parts of it while an operation is in
    the middle of its work: [X], clients being created or destroyed, which may
    lack their event source and server; [D], clients taken off their seat's list
    whose seat pointer is still set; [Y], control clients without an event
    source. *)
From S2P Require Import Prelude Kernel Connection Protocol Devices Terminal State Poller Send Seat Client.

Definition is_open (st : client_state) : bool :=
  match st with CLIENT_ACTIVE | CLIENT_PENDING_DISABLE => true | _ => false end.

Record devices_wf (l : list seat_device) : Prop := {
  dw_ids : NoDup (device_id <$> l);
  dw_paths : NoDup (path <$> l);
  dw_each : Forall (fun d => 0 < device_id d /\ 1 <= ref_cnt d /\
                             dev_type d ≠ SEAT_DEVICE_TYPE_NORMAL) l;
  dw_count : Z.of_nat (length l) <= MAX_SEAT_DEVICES
}.

(** A source the poller still serves, for this handler and object. *)
Definition live_source (s : server) (fn : fd_handler) (e data : nat) : Prop :=
  exists x, x ∈ sv_sources s /\ es_id x = e /\ es_killed x = false /\
    es_func x = fn /\ es_data x = data.

(** The number of sources the poller serves. *)
Definition live_count (l : list event_source_fd) : nat :=
  length (filter (fun x => es_killed x = false) l).

Lemma live_count_cons x l :
  live_count (x :: l) = ((if es_killed x then 0 else 1) + live_count l)%nat.
Proof. unfold live_count. rewrite filter_cons. by destruct (es_killed x). Qed.

Lemma live_count_upd e f s :
  (forall x, es_killed (f x) = es_killed x) ->
  live_count (sv_sources (upd_source e f s)) = live_count (sv_sources s).
Proof.
  intros Hf. unfold upd_source. cbn -[live_count fmap].
  induction (sv_sources s) as [|x l IH]; [done|]. rewrite fmap_cons, !live_count_cons, IH.
  case_decide; [by rewrite Hf|done].
Qed.

(** Killing a source that was served. *)
Lemma live_count_kill s fn e d :
  NoDup (es_id <$> sv_sources s) -> live_source s fn e d ->
  live_count (sv_sources s) = S (live_count (sv_sources (upd_source e (set_es_killed true) s))).
Proof.
  intros Hnd (x & Hx & He & Hk & _). unfold upd_source. cbn -[live_count fmap].
  induction (sv_sources s) as [|y l IH]; [by apply elem_of_nil in Hx|].
  rewrite fmap_cons. rewrite fmap_cons in Hnd. apply NoDup_cons in Hnd as [Hout Hnd]. rewrite !live_count_cons.
  apply elem_of_cons in Hx as [<-|Hx].
  - rewrite decide_True, Hk by done. cbn [es_killed set_es_killed].
    replace ((fun x0 => if decide (es_id x0 = e) then set_es_killed true x0 else x0) <$> l) with l; [lia|].
    symmetry. rewrite <- (list_fmap_id l) at 2. apply list_fmap_ext. intros i y Hy. rewrite decide_False; [done|].
    intros Ey. apply Hout. rewrite He, <- Ey. apply list_elem_of_fmap_2, list_elem_of_lookup. eauto.
  - rewrite decide_False.
    + rewrite (IH Hnd Hx). lia.
    + intros Ey. apply Hout. rewrite Ey, <- He. by apply list_elem_of_fmap_2.
Qed.

Section Invariant.
Variables X Y D : nat -> Prop.

Record client_wf (s : server) (c : nat) (k : client) : Prop := {
  cw_conn : conn_wf (c_connection k);
  cw_source : match c_event_source k with
              | Some e => live_source s client_handle_connection_fn e c
              | None => X c
              end;
  cw_server : X c \/ c_server k = true;
  cw_devices : devices_wf (devices k);
  cw_seat : match c_seat k with
            | Some p => 0 < session k /\ exists t, sv_seats s !! p = Some t /\
                (D c \/ c ∈ clients t /\ (is_open (state k) = true -> active_client t = Some c))
            | None => devices k = [] /\ is_open (state k) = false
            end
}.

Record seat_wf (s : server) (p : nat) (t : seat) : Prop := {
  sw_nodup : NoDup (clients t);
  sw_members : forall c, c ∈ clients t ->
    exists k, sv_clients s !! c = Some k /\ c_seat k = Some p;
  sw_active : forall c, active_client t = Some c ->
    (c ∈ clients t \/ D c) /\
    exists k, sv_clients s !! c = Some k /\ c_seat k = Some p /\ is_open (state k) = true;
  sw_next : forall c, next_client t = Some c -> c ∈ clients t;
  sw_groups : NoDup (group_vt <$> group_vts t);
  sw_owners : Forall (fun g => 0 < group_vt g /\ (owner g ∈ clients t \/ D (owner g)) /\
                exists k, sv_clients s !! owner g = Some k /\ c_seat k = Some p) (group_vts t);
  sw_pending : 0 <= pending_vt_switch t;
  sw_cur : cur_vt t = -1 \/ 0 < cur_vt t;
  sw_vt : vt_bound t = true -> clients t ≠ [] -> 0 < cur_vt t
}.

Record control_wf (s : server) (c : nat) (k : control_client) : Prop := {
  ctw_conn : conn_wf (cc_connection k);
  ctw_source : match cc_event_source k with
               | Some e => live_source s control_client_handle_connection_fn e c
               | None => Y c
               end
}.

(** The object a live source calls back is allocated, and holds the source. *)
Definition source_wf (s : server) (x : event_source_fd) : Prop :=
  es_killed x = false ->
  match es_func x with
  | client_handle_connection_fn =>
      exists k, sv_clients s !! es_data x = Some k /\ c_event_source k = Some (es_id x)
  | control_client_handle_connection_fn =>
      exists k, sv_controls s !! es_data x = Some k /\ cc_event_source k = Some (es_id x)
  | _ => True
  end.

Record server_wf (s : server) : Prop := {
  vw_clients : forall c k, sv_clients s !! c = Some k -> client_wf s c k;
  vw_seats : forall p t, sv_seats s !! p = Some t -> seat_wf s p t;
  vw_controls : forall c k, sv_controls s !! c = Some k -> control_wf s c k;
  vw_seat_list : forall p, p ∈ seats s -> is_Some (sv_seats s !! p);
  vw_idle_nodup : NoDup (idle_clients s);
  vw_idle : forall c, c ∈ idle_clients s ->
    exists k, sv_clients s !! c = Some k /\ c_seat k = None;
  vw_control_nodup : NoDup (control_clients s);
  vw_control_list : forall c, c ∈ control_clients s -> is_Some (sv_controls s !! c);
  vw_source_ids : NoDup (es_id <$> sv_sources s);
  vw_sources : Forall (source_wf s) (sv_sources s);
  vw_unseated : forall c k, sv_clients s !! c = Some k -> c_seat k = None -> c ∈ idle_clients s \/ D c;
  vw_controlled : forall c, is_Some (sv_controls s !! c) -> c ∈ control_clients s \/ Y c;
  vw_seated : forall p, is_Some (sv_seats s !! p) -> p ∈ seats s;
  vw_count : fd_event_sources s = 1 + Z.of_nat (live_count (sv_sources s))
}.

(** ** Tables of clients that agree on the links *)

Definition keeps_links (m m' : gmap nat client) : Prop :=
  forall c k, m !! c = Some k ->
    exists k', m' !! c = Some k' /\ c_seat k' = c_seat k /\ c_event_source k' = c_event_source k.

Lemma keeps_links_insert m c k k' :
  m !! c = Some k -> c_seat k' = c_seat k -> c_event_source k' = c_event_source k ->
  keeps_links m (<[c := k']> m).
Proof.
  intros Hk Es Ee c0 k0 H0. destruct (decide (c0 = c)) as [->|Hne].
  - exists k'. rewrite lookup_insert_eq. by simplify_eq.
  - exists k0. by rewrite lookup_insert_ne.
Qed.

(** Whoever is without a seat is on the idle list, also after an update of one. *)
Lemma unseated_insert (m : gmap nat client) c k k' (I : nat -> Prop) :
  m !! c = Some k -> c_seat k' = c_seat k ->
  (forall c0 k0, m !! c0 = Some k0 -> c_seat k0 = None -> I c0) ->
  forall c0 k0, <[c := k']> m !! c0 = Some k0 -> c_seat k0 = None -> I c0.
Proof.
  intros Hk Es H c0 k0 [[<- <-]|[_ H0]]%lookup_insert_Some Hn; [|eauto].
  apply (H _ k); congruence.
Qed.

Lemma links_seated m m' c o :
  keeps_links m m' -> (exists k, m !! c = Some k /\ c_seat k = o) ->
  exists k, m' !! c = Some k /\ c_seat k = o.
Proof. intros L (k & Hk & <-). destruct (L _ _ Hk) as (k' & ? & ? & ?). eauto. Qed.

Lemma links_owners m m' (P : seat_group_vt -> Prop) o l :
  keeps_links m m' ->
  Forall (fun g => 0 < group_vt g /\ P g /\ exists k, m !! owner g = Some k /\ c_seat k = o) l ->
  Forall (fun g => 0 < group_vt g /\ P g /\ exists k, m' !! owner g = Some k /\ c_seat k = o) l.
Proof.
  intros L Hl. eapply Forall_impl; [exact Hl|]. intros g (? & ? & ?).
  split_and!; [done|done|]. eapply links_seated; eauto.
Qed.

Lemma links_sources s s' l :
  keeps_links (sv_clients s) (sv_clients s') -> sv_controls s' = sv_controls s ->
  Forall (source_wf s) l -> Forall (source_wf s') l.
Proof.
  intros L Ec Hl. eapply Forall_impl; [exact Hl|]. intros x Hx Hkill. specialize (Hx Hkill).
  rewrite Ec. destruct (es_func x); try done. destruct Hx as (k & Hk & E).
  destruct (L _ _ Hk) as (k' & ? & ? & ?). exists k'. split; [done|congruence].
Qed.

(** Tables of clients that agree on seats. *)
Definition keeps_seats (m m' : gmap nat client) : Prop :=
  forall c k, m !! c = Some k ->
    exists k', m' !! c = Some k' /\ c_seat k' = c_seat k /\ is_open (state k') = is_open (state k).

Lemma keeps_seats_insert m c k k' :
  m !! c = Some k -> c_seat k' = c_seat k -> is_open (state k') = is_open (state k) ->
  keeps_seats m (<[c := k']> m).
Proof.
  intros Hk Es Ee c0 k0 H0. destruct (decide (c0 = c)) as [->|Hne].
  - exists k'. rewrite lookup_insert_eq. by simplify_eq.
  - exists k0. by rewrite lookup_insert_ne.
Qed.

Lemma keeps_seated m m' c o :
  keeps_seats m m' -> (exists k, m !! c = Some k /\ c_seat k = o) ->
  exists k, m' !! c = Some k /\ c_seat k = o.
Proof. intros L (k & Hk & <-). destruct (L _ _ Hk) as (k' & ? & ? & ?). eauto. Qed.

Lemma seat_wf_keeps s s' p t :
  keeps_seats (sv_clients s) (sv_clients s') -> seat_wf s p t -> seat_wf s' p t.
Proof.
  intros L []. split; try done.
  - intros c Hc. eapply keeps_seated; eauto.
  - intros c Hc. destruct (sw_active0 _ Hc) as (Hin & k & Hk & E & O). split; [done|].
    destruct (L _ _ Hk) as (k' & ? & ? & ?). exists k'. split_and!; [done|congruence..].
  - eapply Forall_impl; [exact sw_owners0|]. intros g (? & ? & ?).
    split_and!; [done|done|]. eapply keeps_seated; eauto.
Qed.

(** What holds of a control client does not depend on the rest of the state. *)
Lemma control_wf_sources s s' c k :
  sv_sources s' = sv_sources s -> control_wf s c k -> control_wf s' c k.
Proof. intros E [Hc Hs]. split; [done|]. unfold live_source. by rewrite E. Qed.

Lemma client_wf_sources s s' c k :
  sv_sources s' = sv_sources s -> sv_seats s' = sv_seats s ->
  client_wf s c k -> client_wf s' c k.
Proof.
  intros E1 E2 [H1 H2 H3 H4 H5]. split; unfold live_source; rewrite ?E1, ?E2; done.
Qed.

Lemma seat_wf_clients s s' p t :
  sv_clients s' = sv_clients s -> seat_wf s p t -> seat_wf s' p t.
Proof. intros E []. split; rewrite ?E; done. Qed.

(** Fields that the invariant does not mention. *)
Lemma wf_same s s' :
  sv_clients s' = sv_clients s -> sv_seats s' = sv_seats s -> sv_controls s' = sv_controls s ->
  seats s' = seats s -> idle_clients s' = idle_clients s ->
  control_clients s' = control_clients s -> sv_sources s' = sv_sources s ->
  fd_event_sources s' = fd_event_sources s -> server_wf s -> server_wf s'.
Proof.
  intros Ec Es Ect El Ei Ecl Eso En [W1 W2 W3 W4 W5 W6 W7 W8 W9 W10 W11 W12 W13 W14].
  split; rewrite ?Ec, ?Es, ?Ect, ?El, ?Ei, ?Ecl, ?Eso, ?En; try done.
  - intros. eapply client_wf_sources; eauto.
  - intros. eapply seat_wf_clients; eauto.
  - intros. eapply control_wf_sources; eauto.
  - eapply links_sources; [|done..]. rewrite Ec. intros c k Hk. eauto.
Qed.

(** ** Updates of one client *)

(** An update that leaves the links of the client alone. *)
Record client_local (k k' : client) : Prop := {
  cl_conn : conn_wf (c_connection k');
  cl_devices : devices_wf (devices k');
  cl_seat : c_seat k' = c_seat k;
  cl_source : c_event_source k' = c_event_source k;
  cl_server : c_server k' = c_server k;
  cl_session : session k' = session k;
  cl_open : is_open (state k') = is_open (state k);
  cl_idle : c_seat k = None -> devices k' = []
}.

Lemma client_local_refl s c k : client_wf s c k -> client_local k k.
Proof. intros []. split; try done. intros E. rewrite E in *. by destruct cw_seat0. Qed.

Lemma client_local_trans k1 k2 k3 : client_local k1 k2 -> client_local k2 k3 -> client_local k1 k3.
Proof. intros [] []. split; try congruence; try done. intros E. apply cl_idle1. congruence. Qed.

Lemma client_wf_local s c k k' : client_wf s c k -> client_local k k' -> client_wf s c k'.
Proof.
  intros [] [? ? Lse Lso Lsv Lss Lop Lid].
  split; simpl; rewrite ?Lso, ?Lsv, ?Lse, ?Lss, ?Lop; try done.
  destruct (c_seat k); [done|]. destruct cw_seat0. auto.
Qed.

Lemma wf_set_client s c k k' :
  server_wf s -> sv_clients s !! c = Some k -> client_wf s c k' ->
  c_seat k' = c_seat k -> c_event_source k' = c_event_source k ->
  is_open (state k') = is_open (state k) -> server_wf (put_client c k' s).
Proof.
  intros [Wc Ws Wct Wsl Win Wi Wcn Wcl Wsi Wso Wun Wca Wsa Wnc] Hk Wk Es Ee Eo.
  pose proof (keeps_links_insert _ _ _ _ Hk Es Ee) as HL.
  split; try done; cbn -[lookup insert].
  - intros c0 k0 H0. eapply client_wf_sources with (s := s); try done.
    apply lookup_insert_Some in H0 as [[<- <-]|[Hne H0]]; auto.
  - intros p t Ht. eapply seat_wf_keeps with (s := s); [by eapply keeps_seats_insert|by apply Ws].
  - intros c0 k0 H0. eapply control_wf_sources with (s := s); auto.
  - intros c0 Hc0. eapply links_seated; eauto.
  - by eapply links_sources.
  - by eapply unseated_insert.
Qed.

Lemma wf_put_client s c k k' :
  server_wf s -> sv_clients s !! c = Some k -> client_local k k' -> server_wf (put_client c k' s).
Proof.
  intros W Hk L. pose proof (client_wf_local _ _ _ _ (vw_clients _ W _ _ Hk) L).
  destruct L. by eapply wf_set_client.
Qed.

(** ** Updates of one seat *)

Lemma insert_seat_list (m : gmap nat seat) p t (l : list nat) :
  (forall q, q ∈ l -> is_Some (m !! q)) -> forall q, q ∈ l -> is_Some (<[p := t]> m !! q).
Proof. intros H q Hq. rewrite lookup_insert_is_Some'. auto. Qed.

Lemma present_insert {A} (m : gmap nat A) p x y (I : nat -> Prop) :
  m !! p = Some x -> (forall q, is_Some (m !! q) -> I q) -> forall q, is_Some (<[p := y]> m !! q) -> I q.
Proof.
  intros Hp H q [<-|Hq]%lookup_insert_is_Some'; [|by apply H]. apply H. by exists x.
Qed.

(** An update that keeps the members and the active client. *)
Lemma wf_put_seat s p t t' :
  server_wf s -> sv_seats s !! p = Some t ->
  clients t' = clients t -> active_client t' = active_client t -> seat_wf s p t' ->
  server_wf (put_seat p t' s).
Proof.
  intros [Wc Ws Wct Wsl Win Wi Wcn Wcl Wsi Wso Wun Wca Wsa Wnc] Ht Ec Ea Wt.
  split; try done; cbn -[lookup insert].
  - intros c k Hk. destruct (Wc _ _ Hk). split; try done. simpl.
    destruct (c_seat k) as [q|]; [|done]. destruct cw_seat0 as (Hs & t0 & H0 & Hin).
    split; [done|]. destruct (decide (q = p)) as [->|Hne].
    + exists t'. rewrite lookup_insert_eq. simplify_eq. by rewrite Ec, Ea.
    + exists t0. by rewrite lookup_insert_ne.
  - intros q t0 H0. apply seat_wf_clients with (s := s); [done|].
    apply lookup_insert_Some in H0 as [[<- <-]|[Hne H0]]; auto.
  - intros c0 k0 H0. eapply control_wf_sources with (s := s); auto.
  - by apply insert_seat_list.
  - by eapply present_insert.
Qed.

(** ** The active client changes *)

(** [client->state] and [seat->active_client] change together: [k'] and [t'] are
    the client and the seat afterwards. *)
Lemma wf_put_active s p t t' c k k' :
  server_wf s -> sv_seats s !! p = Some t -> sv_clients s !! c = Some k ->
  c_seat k = Some p -> c ∈ clients t ->
  (forall a, active_client t = Some a -> a = c) ->
  c_seat k' = c_seat k -> c_event_source k' = c_event_source k -> c_server k' = c_server k ->
  session k' = session k -> conn_wf (c_connection k') -> devices_wf (devices k') ->
  t' = set_active_client (if is_open (state k') then Some c else None) t ->
  server_wf (put_seat p t' (put_client c k' s)).
Proof.
  intros [Wc Ws Wct Wsl Win Wi Wcn Wcl Wsi Wso Wun Wca Wsa Wnc] Ht Hk Hseat Hin Hact Ese Eso Esv Ess Wcon Wdev ->.
  pose proof (keeps_links_insert _ _ _ _ Hk Ese Eso) as HL.
  split; try done; cbn -[lookup insert].
  - intros c0 k0 [[<- <-]|[Hne H0]]%lookup_insert_Some.
    + pose proof (Wc _ _ Hk) as []. split; simpl; rewrite ?Eso, ?Esv, ?Ese, ?Ess; try done.
      rewrite Hseat in *. destruct cw_seat0 as (Hs & _). split; [done|].
      eexists. rewrite lookup_insert_eq. split; [done|]. right. simpl.
      split; [done|]. by intros ->.
    + destruct (Wc _ _ H0). split; try done. simpl.
      destruct (c_seat k0) as [q|]; [|done]. destruct cw_seat0 as (Hs & t0 & Ht0 & Hor).
      split; [done|]. destruct (decide (q = p)) as [->|Hqp].
      * eexists. rewrite lookup_insert_eq. split; [done|]. simplify_eq. simpl.
        destruct Hor as [|[Hc0 Hop]]; [by left|right]. split; [done|]. intros Ho.
        destruct Hne. symmetry. auto.
      * exists t0. by rewrite lookup_insert_ne.
  - intros q t0 [[<- <-]|[Hqp H0]]%lookup_insert_Some.
    + destruct (Ws _ _ Ht). split; try done; simpl.
      * intros c0 Hc0. eapply links_seated; eauto.
      * intros c0 Hc0. destruct (is_open (state k')) eqn:E; [|done]. simplify_eq.
        split; [by left|]. exists k'. rewrite lookup_insert_eq. split_and!; [done|congruence|done].
      * by eapply (links_owners _ _ (fun g => _ \/ _)).
    + destruct (Ws _ _ H0). split; try done; simpl.
      * intros c0 Hc0. eapply links_seated; eauto.
      * intros c0 Hc0. destruct (sw_active0 _ Hc0) as (Hor & k0 & Hk0 & E0 & O0).
        split; [done|]. exists k0. rewrite lookup_insert_ne; [done|]. intros <-. congruence.
      * by eapply (links_owners _ _ (fun g => _ \/ _)).
  - intros c0 k0 H0. eapply control_wf_sources with (s := s); auto.
  - by apply insert_seat_list.
  - intros c0 Hc0. eapply links_seated; eauto.
  - by eapply links_sources.
  - by eapply unseated_insert.
  - by eapply present_insert.
Qed.

(** ** Updates of one control client *)

Lemma wf_put_control s c k k' :
  server_wf s -> sv_controls s !! c = Some k ->
  conn_wf (cc_connection k') -> cc_event_source k' = cc_event_source k ->
  server_wf (put_control c k' s).
Proof.
  intros [Wc Ws Wct Wsl Win Wi Wcn Wcl Wsi Wso Wun Wca Wsa Wnc] Hk Wk Ee. split; try done; cbn -[lookup insert].
  - intros. eapply client_wf_sources with (s := s); auto.
  - intros. eapply seat_wf_clients with (s := s); auto.
  - intros c0 k0 [[<- <-]|[Hne H0]]%lookup_insert_Some.
    + destruct (Wct _ _ Hk). split; [done|]. by rewrite Ee.
    + eapply control_wf_sources with (s := s); auto.
  - intros c0 Hc0. rewrite lookup_insert_is_Some'. auto.
  - eapply Forall_impl; [exact Wso|]. intros x Hx Hkill. specialize (Hx Hkill).
    destruct (es_func x); try done. destruct Hx as (k0 & H0 & E0).
    destruct (decide (es_data x = c)) as [<-|Hne].
    + exists k'. simpl. rewrite lookup_insert_eq. simplify_eq. split; congruence.
    + exists k0. simpl. by rewrite lookup_insert_ne.
  - by eapply present_insert.
Qed.

(** ** Updates of one event source *)

Lemma elem_of_upd_source e f s x :
  x ∈ sv_sources (upd_source e f s) ->
  exists y, y ∈ sv_sources s /\ x = if decide (es_id y = e) then f y else y.
Proof. unfold upd_source. simpl. intros (y & -> & Hy)%list_elem_of_fmap. eauto. Qed.

Lemma upd_source_elem e f s y :
  y ∈ sv_sources s -> (if decide (es_id y = e) then f y else y) ∈ sv_sources (upd_source e f s).
Proof. intros. unfold upd_source. simpl. apply list_elem_of_fmap. eauto. Qed.

Lemma upd_source_ids e f s :
  (forall x, es_id (f x) = es_id x) ->
  es_id <$> sv_sources (upd_source e f s) = es_id <$> sv_sources s.
Proof.
  intros Hf. unfold upd_source. simpl. rewrite <- list_fmap_compose. apply list_fmap_ext.
  intros i x _. simpl. by case_decide.
Qed.

(** Changing the mask of a source. *)
Lemma wf_upd_source s e m :
  server_wf s -> server_wf (upd_source e (set_es_mask m) s).
Proof.
  intros [Wc Ws Wct Wsl Win Wi Wcn Wcl Wsi Wso Wun Wca Wsa Wnc].
  assert (Hlive : forall fn e0 d, live_source s fn e0 d ->
    live_source (upd_source e (set_es_mask m) s) fn e0 d).
  { intros fn e0 d (x & Hx & ? & ? & ? & ?). eexists. split; [by apply upd_source_elem|].
    by case_decide. }
  split; try done.
  - intros c k Hk. destruct (Wc _ _ Hk). split; try done. destruct (c_event_source k); auto.
  - intros. eapply seat_wf_clients with (s := s); auto.
  - intros c k Hk. destruct (Wct _ _ Hk). split; try done. destruct (cc_event_source k); auto.
  - by rewrite upd_source_ids.
  - apply Forall_forall. intros x (y & Hy & ->)%elem_of_upd_source.
    rewrite Forall_forall in Wso. specialize (Wso _ Hy). by case_decide.
  - by rewrite live_count_upd.
Qed.

End Invariant.

Definition nobody : nat -> Prop := fun _ => False.
Abbreviation daemon_wf := (server_wf nobody nobody nobody).
