(* ===== verification/Lifecycle.v ===== *)
(** * The invariant across the life of a client

    Clients and control clients are created, move between the lists of the
    daemon, and are freed; each lemma is one such move. *)
From S2P Require Import Prelude Kernel Connection Protocol Devices Terminal State Poller Send Seat Client.
From S2P Require Import Invariant.

(** ** Unlinking *)

Lemma set_clients_absent c t : c ∉ clients t -> set_clients (list_remove_id c (clients t)) t = t.
Proof. intros Hc. rewrite list_remove_id_absent by done. by destruct t. Qed.

(** A client in no seat's list is at most in the idle list. *)
Lemma unlink_idle s c :
  (forall p t, sv_seats s !! p = Some t -> c ∉ clients t) ->
  unlink_client c s = set_idle_clients (list_remove_id c (idle_clients s)) s.
Proof.
  intros Hout. unfold unlink_client. f_equal.
  assert (E : (fun t => set_clients (list_remove_id c (clients t)) t) <$> sv_seats s = sv_seats s).
  { apply map_eq. intros p. rewrite lookup_fmap. destruct (sv_seats s !! p) as [t|] eqn:Ht; [|done].
    simpl. f_equal. apply set_clients_absent. eauto. }
  rewrite E. by destruct s.
Qed.

Lemma unlink_nowhere s c :
  (forall p t, sv_seats s !! p = Some t -> c ∉ clients t) -> c ∉ idle_clients s ->
  unlink_client c s = s.
Proof. intros H Hi. rewrite unlink_idle, list_remove_id_absent by done. by destruct s. Qed.

Section Unlink.
Variables X Y D : nat -> Prop.
Abbreviation wf := (server_wf X Y D).

(** A client is in the list of its own seat only. *)
Lemma wf_member_seat s p t c k :
  wf s -> sv_seats s !! p = Some t -> c ∈ clients t -> sv_clients s !! c = Some k ->
  c_seat k = Some p.
Proof.
  intros W Ht Hc Hk. destruct (vw_seats _ _ _ _ W _ _ Ht).
  destruct (sw_members _ Hc) as (k0 & ? & ?). by simplify_eq.
Qed.

Lemma wf_idle_seat s c k :
  wf s -> c ∈ idle_clients s -> sv_clients s !! c = Some k -> c_seat k = None.
Proof.
  intros W Hc Hk. destruct (vw_idle _ _ _ _ W _ Hc) as (k0 & ? & ?). by simplify_eq.
Qed.

Lemma unlink_seated s c k p t :
  wf s -> sv_clients s !! c = Some k -> c_seat k = Some p -> sv_seats s !! p = Some t ->
  unlink_client c s = put_seat p (set_clients (list_remove_id c (clients t)) t) s.
Proof.
  intros W Hk Hp Ht. unfold unlink_client, put_seat.
  rewrite list_remove_id_absent.
  2:{ intros Hi. pose proof (wf_idle_seat _ _ _ W Hi Hk). congruence. }
  assert (E : (fun t => set_clients (list_remove_id c (clients t)) t) <$> sv_seats s =
              <[p := set_clients (list_remove_id c (clients t)) t]> (sv_seats s)).
  { apply map_eq. intros q. rewrite lookup_fmap. destruct (decide (q = p)) as [->|Hne].
    - by rewrite Ht, lookup_insert_eq.
    - rewrite lookup_insert_ne by done. destruct (sv_seats s !! q) as [t0|] eqn:H0; [|done].
      simpl. f_equal. apply set_clients_absent. intros Hc.
      pose proof (wf_member_seat _ _ _ _ _ W H0 Hc Hk). congruence. }
  rewrite E. by destruct s.
Qed.

End Unlink.

(** ** Leaving a seat *)

(** First the client is taken off the list ... *)
Lemma wf_detach X Y s c k p t :
  server_wf X Y nobody s -> sv_clients s !! c = Some k -> c_seat k = Some p ->
  sv_seats s !! p = Some t -> next_client t ≠ Some c ->
  server_wf X Y (eq c) (put_seat p (set_clients (list_remove_id c (clients t)) t) s).
Proof.
  intros [Wc Ws Wct Wsl Win Wi Wcn Wcl Wsi Wso Wun Wca Wsa Wnc] Hk Hp Ht Hn.
  assert (Hin : forall c0, c0 ∈ clients t -> c0 ∈ list_remove_id c (clients t) \/ c = c0).
  { intros c0 Hc0. rewrite elem_of_list_remove_id. destruct (decide (c0 = c)); auto. }
  split; try done; cbn -[lookup insert].
  - intros c0 k0 H0. destruct (Wc _ _ H0). split; try done. simpl.
    destruct (c_seat k0) as [q|]; [|done]. destruct cw_seat as (Hs & t0 & Ht0 & [[]|[Hc0 Ho]]).
    split; [done|]. destruct (decide (q = p)) as [->|Hne].
    + eexists. rewrite lookup_insert_eq. split; [done|]. simplify_eq. simpl.
      destruct (Hin _ Hc0); auto.
    + exists t0. rewrite lookup_insert_ne by done. auto.
  - intros q t0 [[<- <-]|[Hne H0]]%lookup_insert_Some.
    + destruct (Ws _ _ Ht). split; try done; simpl.
      * by apply NoDup_list_remove_id.
      * intros c0 [_ Hc0]%elem_of_list_remove_id. auto.
      * intros c0 Hc0. destruct (sw_active _ Hc0) as ([Hc|[]] & Hex). split; [|done]. auto.
      * intros c0 Hc0. destruct (Hin _ (sw_next _ Hc0)) as [|<-]; [done|]. by destruct Hn.
      * eapply Forall_impl; [exact sw_owners|]. intros g (Hv & [Ho|[]] & Hex). auto.
      * intros Hb Hne. apply sw_vt; [done|]. intros E. by rewrite E in Hne.
    + destruct (Ws _ _ H0). split; try done; simpl.
      * intros c0 Hc0. destruct (sw_active _ Hc0) as ([Hc|[]] & Hex). auto.
      * eapply Forall_impl; [exact sw_owners|]. intros g (Hv & [Ho|[]] & Hex). auto.
  - intros c0 k0 H0. eapply control_wf_sources with (s := s); auto.
  - by apply insert_seat_list.
  - intros c0 k0 H0 Hn0. destruct (Wun _ _ H0 Hn0) as [|[]]. by left.
  - by eapply present_insert.
Qed.

(** ... then, with nothing left that refers to it, it leaves the seat; it is on no list. *)
Lemma wf_leave X Y s c k p t :
  server_wf X Y (eq c) s -> sv_clients s !! c = Some k -> c_seat k = Some p ->
  sv_seats s !! p = Some t -> c ∉ clients t -> active_client t ≠ Some c ->
  Forall (fun g => owner g ≠ c) (group_vts t) -> devices k = [] ->
  server_wf X Y (eq c) (put_client c (set_c_seat None (set_state CLIENT_CLOSED k)) s).
Proof.
  intros W Hk Hp Ht Hout Ha Hg Hd. pose proof W as [Wc Ws Wct Wsl Win Wi Wcn Wcl Wsi Wso Wun Wca Wsa Wnc].
  set (k' := set_c_seat None (set_state CLIENT_CLOSED k)).
  assert (Hseated : forall c0 q, c0 ≠ c ->
    (exists k0, sv_clients s !! c0 = Some k0 /\ c_seat k0 = Some q) ->
    exists k0, <[c:=k']> (sv_clients s) !! c0 = Some k0 /\ c_seat k0 = Some q).
  { intros c0 q Hne (k0 & H0 & E0). exists k0. by rewrite lookup_insert_ne. }
  assert (Hnc : forall q t0 c0, sv_seats s !! q = Some t0 -> c0 ∈ clients t0 -> c0 ≠ c).
  { intros q t0 c0 H0 Hc ->. pose proof (wf_member_seat _ _ _ _ _ _ _ _ W H0 Hc Hk). congruence. }
  split; try done; cbn -[lookup insert].
  - intros c0 k0 [[<- <-]|[Hne H0]]%lookup_insert_Some.
    + by destruct (Wc _ _ Hk).
    + destruct (Wc _ _ H0). by split.
  - intros q t0 H0. destruct (Ws _ _ H0). split; try done; simpl.
    + intros c0 Hc0. apply Hseated; eauto.
    + intros c0 Hc0. destruct (sw_active _ Hc0) as (Hor & k0 & Hk0 & E0 & O0).
      assert (c0 ≠ c) by (intros ->; simplify_eq; congruence).
      split; [done|]. exists k0. by rewrite lookup_insert_ne.
    + rewrite Forall_forall in sw_owners |- *. intros g Hgin.
      destruct (sw_owners _ Hgin) as (Hv & Hor & Hex).
      assert (owner g ≠ c).
      { intros E. rewrite E in Hex. destruct Hex as (k0 & ? & ?). simplify_eq.
        rewrite Forall_forall in Hg. by destruct (Hg _ Hgin). }
      split_and!; [done|done|by apply Hseated].
  - intros c0 k0 H0. eapply control_wf_sources with (s := s); auto.
  - intros c0 Hc0. destruct (Wi _ Hc0) as (k0 & H0 & E0). exists k0.
    rewrite lookup_insert_ne; [done|]. intros ->. congruence.
  - eapply Forall_impl; [exact Wso|]. intros x Hx Hkill. specialize (Hx Hkill).
    destruct (es_func x); try done. destruct Hx as (k0 & H0 & E0). simpl.
    destruct (decide (es_data x = c)) as [<-|Hne].
    + exists k'. rewrite lookup_insert_eq. simplify_eq. done.
    + exists k0. by rewrite lookup_insert_ne.
  - intros c0 k0 [[<- <-]|[Hne H0]]%lookup_insert_Some Hn0; [by right|eauto].
Qed.

(** ** Joining a seat *)

(** A seat whose clients are still there. *)
Lemma seat_wf_kept D s s' q t :
  (forall c k, sv_clients s !! c = Some k -> c_seat k = Some q -> sv_clients s' !! c = Some k) ->
  seat_wf D s q t -> seat_wf D s' q t.
Proof.
  intros Hk []. split; try done.
  - intros c Hc. destruct (sw_members c Hc) as (k & ? & ?). exists k. eauto.
  - intros c Hc. destruct (sw_active c Hc) as (Hor & k & ? & ? & ?). split; [done|]. exists k. eauto.
  - eapply Forall_impl; [exact sw_owners|]. intros g (Hv & Hor & k & ? & ?).
    split_and!; [done..|]. exists k. eauto.
Qed.

(** With a client more. *)
Lemma seat_wf_joined s p t c k :
  seat_wf nobody s p t -> sv_clients s !! c = Some k -> c_seat k = Some p -> c ∉ clients t ->
  (vt_bound t = true -> 0 < cur_vt t) -> seat_wf nobody s p (set_clients (c :: clients t) t).
Proof.
  intros [] Hk Hp Hc Hvt. split; try done; cbn.
  - by constructor.
  - intros c0 [->|Hc0]%elem_of_cons; [eauto|auto].
  - intros c0 Hc0. destruct (sw_active _ Hc0) as ([Hin|[]] & Hex). split; [left; by right|done].
  - intros c0 Hc0. right. auto.
  - eapply Forall_impl; [exact sw_owners|]. intros g (Hv & [Ho|[]] & Hex). split_and!; [done|left; by right|done].
  - auto.
Qed.

Lemma wf_join X Y s p t c k n :
  server_wf X Y nobody s -> sv_clients s !! c = Some k -> c_seat k = None ->
  sv_seats s !! p = Some t -> 0 < n -> (vt_bound t = true -> 0 < cur_vt t) ->
  server_wf X Y nobody
    (put_seat p (set_clients (c :: clients t) t)
       (set_idle_clients (list_remove_id c (idle_clients s))
          (put_client c (set_c_seat (Some p) (set_session n k)) s))).
Proof.
  intros W Hk Hn Ht Hpos Hvt. pose proof W as [Wc Ws Wct Wsl Win Wi Wcn Wcl Wsi Wso Wun Wca Wsa Wnc].
  set (k' := set_c_seat (Some p) (set_session n k)).
  assert (Hseated : forall q c0 k0, sv_clients s !! c0 = Some k0 -> c_seat k0 = Some q -> <[c:=k']> (sv_clients s) !! c0 = Some k0).
  { intros q c0 k0 H0 E0. rewrite lookup_insert_ne; [done|]. intros ->. congruence. }
  assert (Hout : forall q t0, sv_seats s !! q = Some t0 -> c ∉ clients t0).
  { intros q t0 H0 Hc. pose proof (wf_member_seat _ _ _ _ _ _ _ _ W H0 Hc Hk). congruence. }
  split; try done; cbn -[lookup insert].
  - intros c0 k0 [[<- <-]|[Hne H0]]%lookup_insert_Some.
    + destruct (Wc _ _ Hk). rewrite Hn in cw_seat. destruct cw_seat as [Hd Ho].
      split; try done. simpl. split; [done|]. eexists. rewrite lookup_insert_eq.
      split; [done|]. right. rewrite Ho. split; [left|done].
    + destruct (Wc _ _ H0). split; try done. simpl. destruct (c_seat k0) as [q|]; [|done].
      destruct cw_seat as (Hs & t0 & Ht0 & [[]|[Hc0 Ho]]). split; [done|].
      destruct (decide (q = p)) as [->|Hqp].
      * eexists. rewrite lookup_insert_eq. split; [done|]. simplify_eq. simpl. right.
        split; [by right|done].
      * exists t0. rewrite lookup_insert_ne by done. auto.
  - intros q t0 [[<- <-]|[Hne H0]]%lookup_insert_Some.
    + eapply (seat_wf_joined _ p t c k'); [|cbn; by rewrite lookup_insert_eq|done|by eapply Hout|done].
      eapply seat_wf_kept; [|by apply Ws]. exact (Hseated p).
    + eapply seat_wf_kept; [|by apply Ws]. exact (Hseated q).
  - intros c0 k0 H0. eapply control_wf_sources with (s := s); auto.
  - by apply insert_seat_list.
  - by apply NoDup_list_remove_id.
  - intros c0 [Hne Hc0]%elem_of_list_remove_id. destruct (Wi _ Hc0) as (k0 & H0 & E0).
    exists k0. by rewrite lookup_insert_ne.
  - eapply Forall_impl; [exact Wso|]. intros x Hx Hkill. specialize (Hx Hkill).
    destruct (es_func x); try done. destruct Hx as (k0 & H0 & E0). simpl.
    destruct (decide (es_data x = c)) as [<-|Hne].
    + exists k'. rewrite lookup_insert_eq. simplify_eq. done.
    + exists k0. by rewrite lookup_insert_ne.
  - intros c0 k0 [[<- <-]|[Hne H0]]%lookup_insert_Some Hn0; [done|].
    destruct (Wun _ _ H0 Hn0) as [Hi|[]]. left. by apply elem_of_list_remove_id.
  - by eapply present_insert.
Qed.

(** ** Creation and destruction *)

Lemma wf_exempt X X' Y Y' D D' s :
  (forall c, X c -> X' c) -> (forall c, Y c -> Y' c) -> (forall c, D c -> D' c) ->
  server_wf X Y D s -> server_wf X' Y' D' s.
Proof.
  intros HX HY HD [Wc Ws Wct Wsl Win Wi Wcn Wcl Wsi Wso Wun Wca Wsa Wnc]. split; try done.
  - intros c k Hk. destruct (Wc _ _ Hk). split; try done.
    + destruct (c_event_source k); auto.
    + destruct cw_server; auto.
    + destruct (c_seat k); [|done]. destruct cw_seat as (? & t & ? & [?|?]); eauto 6.
  - intros p t Ht. destruct (Ws _ _ Ht). split; try done.
    + intros c Hc. destruct (sw_active _ Hc) as ([?|?] & ?); auto.
    + eapply Forall_impl; [exact sw_owners|]. intros g (? & [?|?] & ?); auto.
  - intros c k Hk. destruct (Wct _ _ Hk). split; try done. destruct (cc_event_source k); auto.
  - intros c k Hk Hn. destruct (Wun _ _ Hk Hn); auto.
  - intros c Hc. destruct (Wca _ Hc); auto.
Qed.

(** A new client: idle, and exempt until the poller serves it. *)
Lemma wf_enter Y s c k :
  server_wf nobody Y nobody s -> sv_clients s !! c = None ->
  conn_wf (c_connection k) -> c_event_source k = None -> c_seat k = None ->
  devices k = [] -> is_open (state k) = false ->
  server_wf (eq c) Y nobody (set_idle_clients (c :: idle_clients s) (put_client c k s)).
Proof.
  intros W Hc Wk He Hs Hd Ho. apply (wf_exempt _ (eq c) _ Y _ nobody) in W; [|done..].
  pose proof W as [Wc Ws Wct Wsl Win Wi Wcn Wcl Wsi Wso Wun Wca Wsa Wnc].
  assert (Hmore : forall c0 k0, sv_clients s !! c0 = Some k0 ->
    <[c:=k]> (sv_clients s) !! c0 = Some k0).
  { intros c0 k0 H0. rewrite lookup_insert_ne; [done|]. intros ?. congruence. }
  assert (HL : keeps_links (sv_clients s) (<[c:=k]> (sv_clients s))).
  { intros c0 k0 H0. exists k0. auto. }
  split; try done; cbn -[lookup insert].
  - intros c0 k0 [[<- <-]|[Hne H0]]%lookup_insert_Some.
    + split; [done| | | |]; simpl.
      * by rewrite He.
      * by left.
      * rewrite Hd. repeat constructor. simpl. unfold MAX_SEAT_DEVICES. lia.
      * by rewrite Hs.
    + eapply client_wf_sources with (s := s); auto.
  - intros p t Ht. eapply seat_wf_keeps; [|by apply Ws]. intros c0 k0 H0. eauto.
  - intros c0 k0 H0. eapply control_wf_sources with (s := s); auto.
  - constructor; [|done]. intros Hin. destruct (Wi _ Hin) as (k0 & ? & ?). congruence.
  - intros c0 [->|Hc0]%elem_of_cons.
    + exists k. by rewrite lookup_insert_eq.
    + eapply links_seated; eauto.
  - by eapply links_sources.
  - intros c0 k0 [[<- <-]|[Hne H0]]%lookup_insert_Some Hn0; left; [left|].
    right. by destruct (Wun _ _ H0 Hn0) as [|[]].
Qed.

(** The poller serves the new client. *)
Lemma wf_attach Y s c k e f m :
  server_wf (eq c) Y nobody s -> sv_clients s !! c = Some k ->
  c_event_source k = None -> c_server k = true -> e ∉ es_id <$> sv_sources s ->
  server_wf nobody Y nobody
    (put_client c (set_c_event_source (Some e) k)
       (set_sv_sources
          (EventSourceFd e client_handle_connection_fn f m c false (-1) :: sv_sources s)
          (set_poll_dirty true (set_fd_event_sources (fd_event_sources s + 1) s)))).
Proof.
  intros W Hk He Hsv Hfresh. pose proof W as [Wc Ws Wct Wsl Win Wi Wcn Wcl Wsi Wso Wun Wca Wsa Wnc].
  set (x := EventSourceFd e client_handle_connection_fn f m c false (-1)).
  assert (Hlive : forall fn e0 d, live_source s fn e0 d ->
    live_source (set_sv_sources (x :: sv_sources s) s) fn e0 d).
  { intros fn e0 d (y & Hy & ?). exists y. split; [by right|done]. }
  split; try done; cbn -[lookup insert live_count].
  - intros c0 k0 [[<- <-]|[Hne H0]]%lookup_insert_Some.
    + destruct (Wc _ _ Hk). split; try done; simpl; [|by right]. exists x. split; [by left|done].
    + destruct (Wc _ _ H0). split; try done.
      * destruct (c_event_source k0); [by apply Hlive|]. by destruct Hne.
      * destruct cw_server; [done|by right].
  - intros p t Ht. eapply seat_wf_keeps with (s := s); [by eapply keeps_seats_insert|by apply Ws].
  - intros c0 k0 H0. destruct (Wct _ _ H0). split; [done|].
    destruct (cc_event_source k0); [by apply Hlive|done].
  - intros c0 Hc0. eapply keeps_seated; [by eapply keeps_seats_insert|by apply Wi].
  - constructor; done.
  - constructor.
    + intros _. simpl. eexists. by rewrite lookup_insert_eq.
    + eapply Forall_impl; [exact Wso|]. intros y Hy Hkill. specialize (Hy Hkill).
      destruct (es_func y); try done. destruct Hy as (k0 & H0 & E0). simpl.
      exists k0. rewrite lookup_insert_ne; [done|]. intros ?. congruence.
  - by eapply unseated_insert.
  - rewrite live_count_cons. cbn [es_killed x]. lia.
Qed.

(** Live sources have distinct ids, so killing one leaves the others. *)
Lemma live_source_kill s e fn e0 d :
  e0 ≠ e -> live_source s fn e0 d -> live_source (upd_source e (set_es_killed true) s) fn e0 d.
Proof.
  intros Hne (x & Hx & He & ? & ? & ?). exists x. split; [|done].
  assert (x = if decide (es_id x = e) then set_es_killed true x else x) as E
    by (rewrite decide_False; congruence).
  rewrite E. by apply upd_source_elem.
Qed.

Lemma live_source_inj s fn fn' e d d' :
  NoDup (es_id <$> sv_sources s) -> live_source s fn e d -> live_source s fn' e d' ->
  fn = fn' /\ d = d'.
Proof.
  intros Hnd (x & Hx & Ex & _ & <- & <-) (y & Hy & Ey & _ & <- & <-).
  apply list_elem_of_lookup in Hx as [i Hi]. apply list_elem_of_lookup in Hy as [j Hj].
  assert (i = j) as ->.
  { apply (NoDup_lookup _ _ _ e Hnd); rewrite list_lookup_fmap;
      [rewrite Hi|rewrite Hj]; simpl; congruence. }
  by simplify_eq.
Qed.

(** The poller is told to drop a client that is being destroyed. *)
Lemma wf_kill X Y D s c k e :
  server_wf X Y D s -> X c -> sv_clients s !! c = Some k -> c_event_source k = Some e ->
  server_wf X Y D
    (put_client c (set_c_event_source None k)
       (upd_source e (set_es_killed true)
          (set_poll_dirty true (set_fd_event_sources (fd_event_sources s - 1) s)))).
Proof.
  intros W HX Hk He. pose proof W as [Wc Ws Wct Wsl Win Wi Wcn Wcl Wsi Wso Wun Wca Wsa Wnc].
  assert (Hl : live_source s client_handle_connection_fn e c).
  { destruct (Wc _ _ Hk). by rewrite He in cw_source. }
  pose proof (live_count_kill _ _ _ _ Wsi Hl) as Hcount.
  split; try done; cbn -[lookup insert live_count].
  - intros c0 k0 [[<- <-]|[Hne H0]]%lookup_insert_Some.
    + by destruct (Wc _ _ Hk).
    + destruct (Wc _ _ H0). split; try done. destruct (c_event_source k0) as [e0|]; [|done].
      apply live_source_kill; [|done]. intros ->.
      by destruct (live_source_inj _ _ _ _ _ _ Wsi Hl cw_source).
  - intros p t Ht. eapply seat_wf_keeps with (s := s); [by eapply keeps_seats_insert|by apply Ws].
  - intros c0 k0 H0. destruct (Wct _ _ H0). split; [done|].
    destruct (cc_event_source k0) as [e0|]; [|done].
    apply live_source_kill; [|done]. intros ->.
    by destruct (live_source_inj _ _ _ _ _ _ Wsi Hl ctw_source).
  - intros c0 Hc0. eapply keeps_seated; [by eapply keeps_seats_insert|by apply Wi].
  - change (NoDup (es_id <$> sv_sources (upd_source e (set_es_killed true) s))).
    by rewrite upd_source_ids.
  - apply Forall_forall. intros x (y & Hy & ->)%elem_of_upd_source Hkill.
    rewrite Forall_forall in Wso. specialize (Wso _ Hy). case_decide; [done|].
    specialize (Wso Hkill). destruct (es_func y); try done. destruct Wso as (k0 & H0 & E0).
    exists k0. simpl. rewrite lookup_insert_ne; [done|]. intros ?. congruence.
  - by eapply unseated_insert.
  - unfold upd_source in Hcount. cbn -[live_count] in Hcount. lia.
Qed.

(** A client without a seat is on the idle list again. *)
Lemma wf_relist X Y s c k :
  server_wf X Y (eq c) s -> sv_clients s !! c = Some k -> c_seat k = None -> c ∉ idle_clients s ->
  server_wf X Y nobody (set_idle_clients (c :: idle_clients s) s).
Proof.
  intros [Wc Ws Wct Wsl Win Wi Wcn Wcl Wsi Wso Wun Wca Wsa Wnc] Hk Hn Hi.
  assert (Hne : forall c0 k0 p, sv_clients s !! c0 = Some k0 -> c_seat k0 = Some p -> c ≠ c0).
  { intros c0 k0 p H0 E ->. congruence. }
  split; try done; cbn.
  - intros c0 k0 H0. destruct (Wc _ _ H0). split; try done. destruct (c_seat k0) as [p|] eqn:E; [|done].
    destruct cw_seat as (? & t & ? & [->|?]); [by destruct (Hne _ _ _ H0 E)|]. eauto 6.
  - intros p t Ht. destruct (Ws _ _ Ht). split; try done.
    + intros c0 Hc0. destruct (sw_active _ Hc0) as (Hor & k0 & H0 & E & Ho). split; [|by eauto].
      destruct Hor as [|Hc]; [by left|]. by destruct (Hne _ _ _ H0 E Hc).
    + eapply Forall_impl; [exact sw_owners|]. intros g (? & Hor & k0 & H0 & E). split_and!; [done| |by eauto].
      destruct Hor as [|Hc]; [by left|]. by destruct (Hne _ _ _ H0 E Hc).
  - intros. eapply control_wf_sources with (s := s); auto.
  - by constructor.
  - intros c0 [->|Hc0]%elem_of_cons; eauto.
  - intros c0 k0 H0 E. left. destruct (Wun _ _ H0 E) as [|<-]; [by right|left].
Qed.

(** The client is freed. *)
Lemma wf_free Y s c k :
  server_wf (eq c) Y (eq c) s -> sv_clients s !! c = Some k -> c_seat k = None ->
  c_event_source k = None -> c ∉ idle_clients s ->
  server_wf nobody Y nobody (set_sv_clients (delete c (sv_clients s)) s).
Proof.
  intros [Wc Ws Wct Wsl Win Wi Wcn Wcl Wsi Wso Wun Wca Wsa Wnc] Hk Hs He Hi.
  assert (Hseated : forall c0 p, (exists k0, sv_clients s !! c0 = Some k0 /\ c_seat k0 = Some p) ->
    exists k0, delete c (sv_clients s) !! c0 = Some k0 /\ c_seat k0 = Some p).
  { intros c0 p (k0 & H0 & E0). exists k0. rewrite lookup_delete_ne; [done|]. intros ?. congruence. }
  split; try done; cbn -[lookup delete].
  - intros c0 k0 [Hne H0]%lookup_delete_Some. destruct (Wc _ _ H0). split; try done.
    + by destruct (c_event_source k0); [|destruct Hne].
    + destruct cw_server; [done|by right].
    + destruct (c_seat k0) as [p|]; [|done]. destruct cw_seat as (? & t & ? & [?|?]); [done|]. eauto 6.
  - intros p t Ht. destruct (Ws _ _ Ht). split; try done; simpl.
    + auto.
    + intros c0 Hc0. destruct (sw_active _ Hc0) as (Hor & k0 & ? & ? & ?).
      assert (c ≠ c0) by (intros ->; congruence).
      split; [by destruct Hor; [left|]|]. exists k0. by rewrite lookup_delete_ne.
    + eapply Forall_impl; [exact sw_owners|]. intros g (? & Hor & k0 & ? & ?).
      assert (c ≠ owner g) by (intros ->; congruence).
      split_and!; [done|by destruct Hor; [left|]|]. exists k0. by rewrite lookup_delete_ne.
  - intros c0 k0 H0. eapply control_wf_sources with (s := s); auto.
  - intros c0 Hc0. destruct (Wi _ Hc0) as (k0 & ? & ?). exists k0.
    rewrite lookup_delete_ne; [done|]. by intros ->.
  - eapply Forall_impl; [exact Wso|]. intros x Hx Hkill. specialize (Hx Hkill).
    destruct (es_func x); try done. destruct Hx as (k0 & H0 & E0).
    exists k0. simpl. rewrite lookup_delete_ne; [done|]. intros ?. congruence.
  - intros c0 k0 [Hne H0]%lookup_delete_Some Hn. left. by destruct (Wun _ _ H0 Hn).
Qed.

(** ** Control clients *)

Lemma wf_control_enter X s c k :
  server_wf X nobody nobody s -> sv_controls s !! c = None ->
  conn_wf (cc_connection k) -> cc_event_source k = None ->
  server_wf X (eq c) nobody (set_control_clients (c :: control_clients s) (put_control c k s)).
Proof.
  intros W Hc Wk He. apply (wf_exempt _ X _ (eq c) _ nobody) in W; [|done..].
  destruct W as [Wc Ws Wct Wsl Win Wi Wcn Wcl Wsi Wso Wun Wca Wsa Wnc]. split; try done; cbn -[lookup insert].
  - intros. eapply client_wf_sources with (s := s); auto.
  - intros. eapply seat_wf_clients with (s := s); auto.
  - intros c0 k0 [[<- <-]|[Hne H0]]%lookup_insert_Some.
    + split; [done|]. by rewrite He.
    + eapply control_wf_sources with (s := s); auto.
  - constructor; [|done]. intros Hin. destruct (Wcl _ Hin). congruence.
  - intros c0 Hc0. rewrite lookup_insert_is_Some'. apply elem_of_cons in Hc0 as [->|]; auto.
  - eapply Forall_impl; [exact Wso|]. intros x Hx Hkill. specialize (Hx Hkill).
    destruct (es_func x); try done. destruct Hx as (k0 & H0 & E0).
    exists k0. simpl. rewrite lookup_insert_ne; [done|]. intros ?. congruence.
  - intros c0 [<-|Hc0]%lookup_insert_is_Some'; [by right|]. left. right.
    destruct (Wca _ Hc0) as [|<-]; [done|]. destruct Hc0. congruence.
Qed.

Lemma wf_control_attach X s c k e f m :
  server_wf X (eq c) nobody s -> sv_controls s !! c = Some k ->
  cc_event_source k = None -> c ∈ control_clients s -> e ∉ es_id <$> sv_sources s ->
  server_wf X nobody nobody
    (put_control c (set_cc_event_source (Some e) k)
       (set_sv_sources
          (EventSourceFd e control_client_handle_connection_fn f m c false (-1) :: sv_sources s)
          (set_poll_dirty true (set_fd_event_sources (fd_event_sources s + 1) s)))).
Proof.
  intros [Wc Ws Wct Wsl Win Wi Wcn Wcl Wsi Wso Wun Wca Wsa Wnc] Hk He Hcc Hfresh.
  set (x := EventSourceFd e control_client_handle_connection_fn f m c false (-1)).
  assert (Hlive : forall fn e0 d, live_source s fn e0 d ->
    live_source (set_sv_sources (x :: sv_sources s) s) fn e0 d).
  { intros fn e0 d (y & Hy & ?). exists y. split; [by right|done]. }
  split; try done; cbn -[lookup insert live_count].
  - intros c0 k0 H0. destruct (Wc _ _ H0). split; try done. destruct (c_event_source k0); [|done].
    by apply Hlive.
  - intros. eapply seat_wf_clients with (s := s); auto.
  - intros c0 k0 [[<- <-]|[Hne H0]]%lookup_insert_Some.
    + destruct (Wct _ _ Hk). split; [done|]. simpl. exists x. split; [by left|done].
    + destruct (Wct _ _ H0). split; [done|].
      destruct (cc_event_source k0); [by apply Hlive|]. by destruct Hne.
  - intros c0 Hc0. rewrite lookup_insert_is_Some'. auto.
  - constructor; done.
  - constructor.
    + intros _. simpl. eexists. by rewrite lookup_insert_eq.
    + eapply Forall_impl; [exact Wso|]. intros y Hy Hkill. specialize (Hy Hkill).
      destruct (es_func y); try done. destruct Hy as (k0 & H0 & E0). simpl.
      exists k0. rewrite lookup_insert_ne; [done|]. intros ?. congruence.
  - eapply present_insert; [done|]. intros c0 Hc0. left. by destruct (Wca _ Hc0) as [|<-].
  - rewrite live_count_cons. cbn [es_killed x]. lia.
Qed.

Lemma wf_control_kill X Y s c k e :
  server_wf X Y nobody s -> Y c -> sv_controls s !! c = Some k -> cc_event_source k = Some e ->
  server_wf X Y nobody
    (put_control c (set_cc_event_source None k)
       (upd_source e (set_es_killed true)
          (set_poll_dirty true (set_fd_event_sources (fd_event_sources s - 1) s)))).
Proof.
  intros [Wc Ws Wct Wsl Win Wi Wcn Wcl Wsi Wso Wun Wca Wsa Wnc] HY Hk He.
  assert (Hl : live_source s control_client_handle_connection_fn e c).
  { destruct (Wct _ _ Hk). by rewrite He in ctw_source. }
  pose proof (live_count_kill _ _ _ _ Wsi Hl) as Hcount.
  split; try done; cbn -[lookup insert live_count].
  - intros c0 k0 H0. destruct (Wc _ _ H0). split; try done.
    destruct (c_event_source k0) as [e0|]; [|done].
    apply live_source_kill; [|done]. intros ->.
    by destruct (live_source_inj _ _ _ _ _ _ Wsi Hl cw_source).
  - intros. eapply seat_wf_clients with (s := s); auto.
  - intros c0 k0 [[<- <-]|[Hne H0]]%lookup_insert_Some.
    + by destruct (Wct _ _ Hk).
    + destruct (Wct _ _ H0). split; try done. destruct (cc_event_source k0) as [e0|]; [|done].
      apply live_source_kill; [|done]. intros ->.
      by destruct (live_source_inj _ _ _ _ _ _ Wsi Hl ctw_source).
  - intros c0 Hc0. rewrite lookup_insert_is_Some'. auto.
  - change (NoDup (es_id <$> sv_sources (upd_source e (set_es_killed true) s))).
    by rewrite upd_source_ids.
  - apply Forall_forall. intros x (y & Hy & ->)%elem_of_upd_source Hkill.
    rewrite Forall_forall in Wso. specialize (Wso _ Hy). case_decide; [done|].
    specialize (Wso Hkill). destruct (es_func y); try done. destruct Wso as (k0 & H0 & E0).
    exists k0. simpl. rewrite lookup_insert_ne; [done|]. intros ?. congruence.
  - by eapply present_insert.
  - unfold upd_source in Hcount. cbn -[live_count] in Hcount. lia.
Qed.

Lemma wf_control_unlink X Y D s c :
  server_wf X Y D s -> Y c ->
  server_wf X Y D (set_control_clients (list_remove_id c (control_clients s)) s).
Proof.
  intros [Wc Ws Wct Wsl Win Wi Wcn Wcl Wsi Wso Wun Wca Wsa Wnc] HY. split; try done; simpl.
  - intros. eapply client_wf_sources with (s := s); auto.
  - intros. eapply seat_wf_clients with (s := s); auto.
  - intros. eapply control_wf_sources with (s := s); auto.
  - by apply NoDup_list_remove_id.
  - intros c0 [_ Hc0]%elem_of_list_remove_id. auto.
  - intros c0 Hc0. rewrite elem_of_list_remove_id. destruct (decide (c0 = c)) as [->|]; [by right|].
    destruct (Wca _ Hc0); auto.
Qed.

Lemma wf_control_free X s c k :
  server_wf X (eq c) nobody s -> sv_controls s !! c = Some k -> cc_event_source k = None ->
  c ∉ control_clients s ->
  server_wf X nobody nobody (set_sv_controls (delete c (sv_controls s)) s).
Proof.
  intros [Wc Ws Wct Wsl Win Wi Wcn Wcl Wsi Wso Wun Wca Wsa Wnc] Hk He Hout.
  split; try done; cbn -[lookup delete].
  - intros. eapply client_wf_sources with (s := s); auto.
  - intros. eapply seat_wf_clients with (s := s); auto.
  - intros c0 k0 [Hne H0]%lookup_delete_Some. destruct (Wct _ _ H0). split; [done|].
    by destruct (cc_event_source k0); [|destruct Hne].
  - intros c0 Hc0. rewrite lookup_delete_ne by (by intros ->). auto.
  - eapply Forall_impl; [exact Wso|]. intros x Hx Hkill. specialize (Hx Hkill).
    destruct (es_func x); try done. destruct Hx as (k0 & H0 & E0).
    exists k0. simpl. rewrite lookup_delete_ne; [done|]. intros ?. congruence.
  - intros c0 [Hne Hc0]%lookup_delete_is_Some. left. by destruct (Wca _ Hc0).
Qed.
