(* ===== verification/Rules.v ===== *)
(** * Proof rules for the daemon's operations

    The accesses of [State] as weakest-precondition rules, the loops over the
    devices of a client, and the sending functions of [Send]. *)
From S2P Require Import Prelude Kernel Connection Protocol Devices Terminal State Poller Send Seat Client.
From S2P Require Import Invariant Lifecycle.

(** ** Accesses *)

Section Access.
Implicit Types (s : server) (w : sys).

Lemma wp_get_client c k Q s w :
  sv_clients s !! c = Some k -> Q k s w -> wp (get_client c) Q s w.
Proof. intros Hk HQ. unfold get_client. wp_steps. by apply (wp_deref _ k). Qed.

Lemma wp_upd_client c f k Q s w :
  sv_clients s !! c = Some k -> Q () (put_client c (f k) s) w -> wp (upd_client c f) Q s w.
Proof. intros Hk HQ. unfold upd_client. wp_steps. by eapply wp_get_client. Qed.

Lemma wp_get_seat p t Q s w :
  sv_seats s !! p = Some t -> Q t s w -> wp (get_seat p) Q s w.
Proof. intros Ht HQ. unfold get_seat. wp_steps. by apply (wp_deref _ t). Qed.

Lemma wp_upd_seat p f t Q s w :
  sv_seats s !! p = Some t -> Q () (put_seat p (f t) s) w -> wp (upd_seat p f) Q s w.
Proof. intros Ht HQ. unfold upd_seat. wp_steps. by eapply wp_get_seat. Qed.

Lemma wp_get_control c k Q s w :
  sv_controls s !! c = Some k -> Q k s w -> wp (get_control c) Q s w.
Proof. intros Hk HQ. unfold get_control. wp_steps. by apply (wp_deref _ k). Qed.

Lemma wp_upd_control c f k Q s w :
  sv_controls s !! c = Some k -> Q () (put_control c (f k) s) w -> wp (upd_control c f) Q s w.
Proof. intros Hk HQ. unfold upd_control. wp_steps. by eapply wp_get_control. Qed.

Lemma wp_run_local {S T A} (t : T) (m : M T A) Q (s : S) w :
  wp m (fun a t' w' => Q (a, t') s w') t w -> wp (run_local t m) Q s w.
Proof. unfold wp, run_local. by destruct (m t w) as [[[a t'] w']| | |]. Qed.

Lemma wp_on_conn {A} c k (m : M connection A) Q s w :
  sv_clients s !! c = Some k ->
  wp m (fun a conn w' => Q a (put_client c (set_c_connection conn k) s) w') (c_connection k) w ->
  wp (on_conn c m) Q s w.
Proof.
  intros Hk Hm. unfold on_conn. wp_steps. eapply wp_get_client; [done|]. wp_steps.
  by apply wp_run_local.
Qed.

Lemma wp_on_control_conn {A} c k (m : M connection A) Q s w :
  sv_controls s !! c = Some k ->
  wp m (fun a conn w' => Q a (put_control c (set_cc_connection conn k) s) w') (cc_connection k) w ->
  wp (on_control_conn c m) Q s w.
Proof.
  intros Hk Hm. unfold on_control_conn. wp_steps. eapply wp_get_control; [done|]. wp_steps.
  by apply wp_run_local.
Qed.

Lemma wp_on_device {A} c k id d (m : M seat_device A) Q s w :
  sv_clients s !! c = Some k -> lookup_device id (devices k) = Some d ->
  wp m (fun a d' w' =>
    Q a (put_client c (set_devices (replace_device d' (devices k)) k) s) w') d w ->
  wp (on_device c id m) Q s w.
Proof.
  intros Hk Hd Hm. unfold on_device. wp_steps. eapply wp_get_client; [done|]. wp_steps.
  apply (wp_deref _ d); [done|]. wp_steps. by apply wp_run_local.
Qed.

Lemma put_client_twice c k k' s : put_client c k (put_client c k' s) = put_client c k s.
Proof. unfold put_client, set_sv_clients. cbn. by rewrite insert_insert_eq. Qed.

Lemma put_client_same c k s : sv_clients s !! c = Some k -> put_client c k s = s.
Proof. intros Hk. unfold put_client. rewrite insert_id by done. by destruct s. Qed.

Lemma put_seat_twice p t t' s : put_seat p t (put_seat p t' s) = put_seat p t s.
Proof. unfold put_seat, set_sv_seats. cbn. by rewrite insert_insert_eq. Qed.

Lemma put_seat_same p t s : sv_seats s !! p = Some t -> put_seat p t s = s.
Proof. intros Ht. unfold put_seat. rewrite insert_id by done. by destruct s. Qed.

Lemma put_seat_client p t c k s : put_seat p t (put_client c k s) = put_client c k (put_seat p t s).
Proof. done. Qed.

Lemma put_control_twice c k k' s : put_control c k (put_control c k' s) = put_control c k s.
Proof. unfold put_control, set_sv_controls. cbn. by rewrite insert_insert_eq. Qed.

End Access.

(** Finding an object in the state an operation left. *)
Ltac look :=
  cbn -[lookup insert delete fmap];
  first [eassumption | by rewrite lookup_insert_eq | by rewrite lookup_insert_ne by congruence].

(** ** Devices *)

Lemma lookup_device_elem id l d : lookup_device id l = Some d -> d ∈ l /\ device_id d = id.
Proof.
  unfold lookup_device. intros ((i & d') & Hf & [= <-])%fmap_Some.
  apply list_find_Some in Hf as (Hl & E & _). split; [|done]. by eapply list_elem_of_lookup_2.
Qed.

Lemma lookup_device_mid id l1 d l2 :
  id ∉ device_id <$> l1 -> device_id d = id -> lookup_device id (l1 ++ d :: l2) = Some d.
Proof.
  intros Hout E. unfold lookup_device.
  assert (Hf : list_find (fun d => device_id d = id) (l1 ++ d :: l2) = Some (length l1, d)).
  { apply list_find_Some. split_and!; [by apply list_lookup_middle|done|].
    intros j y Hj Hlt Ey. apply Hout. rewrite lookup_app_l in Hj by done.
    apply list_elem_of_fmap. exists y. split; [done|]. by eapply list_elem_of_lookup_2. }
  by rewrite Hf.
Qed.

Lemma lookup_device_none id l : lookup_device id l = None <-> id ∉ device_id <$> l.
Proof.
  unfold lookup_device. rewrite fmap_None, list_find_None, Forall_forall.
  rewrite list_elem_of_fmap. split; [intros H (d & -> & Hd); by eapply H|].
  intros H d Hd E. apply H. eauto.
Qed.

Lemma replace_device_out d l :
  device_id d ∉ device_id <$> l -> replace_device d l = l.
Proof.
  intros Hout. unfold replace_device. rewrite <- (list_fmap_id l) at 2.
  apply list_fmap_ext. intros i y Hy. destruct (Z.eqb_spec (device_id y) (device_id d)); [|done].
  destruct Hout. apply list_elem_of_fmap. exists y. split; [done|]. by eapply list_elem_of_lookup_2.
Qed.

Lemma replace_device_mid l1 d d' l2 :
  NoDup (device_id <$> (l1 ++ d :: l2)) -> device_id d' = device_id d ->
  replace_device d' (l1 ++ d :: l2) = l1 ++ d' :: l2.
Proof.
  rewrite fmap_app, fmap_cons. intros (H1 & H2 & H3)%NoDup_app E.
  apply NoDup_cons in H3 as [H3 H4]. unfold replace_device at 1. rewrite fmap_app, fmap_cons.
  fold (replace_device d' l1) (replace_device d' l2).
  rewrite !replace_device_out, E, Z.eqb_refl; [done|by rewrite E|].
  rewrite E. intros Hin. apply (H2 _ Hin). by left.
Qed.

(** The devices differ at most in the flag [active]. *)
Definition same_device (d d' : seat_device) : Prop := d' = set_active (active d') d.

Lemma same_device_refl d : same_device d d.
Proof. by destruct d. Qed.

Lemma same_device_set d b : same_device d (set_active b d).
Proof. done. Qed.

Lemma same_devices_wf l l' : Forall2 same_device l l' -> devices_wf l -> devices_wf l'.
Proof.
  intros H [W1 W2 W3 W4].
  assert (E1 : device_id <$> l' = device_id <$> l).
  { clear -H. induction H as [|d d' ? ? E]; [done|]. rewrite !fmap_cons, IHForall2. by rewrite E. }
  assert (E2 : path <$> l' = path <$> l).
  { clear -H. induction H as [|d d' ? ? E]; [done|]. rewrite !fmap_cons, IHForall2. by rewrite E. }
  split; rewrite ?E1, ?E2; try done.
  - clear -H W3. induction H as [|d d' ? ? E]; [done|]. apply Forall_cons in W3 as [? ?].
    constructor; [|auto]. by rewrite E.
  - by rewrite <- (Forall2_length _ _ _ H).
Qed.

(** The calls made between two points, latest first. *)
Definition calls (P : call -> Prop) (t : history) (w w' : sys) : Prop :=
  trace w' = t ++ trace w /\ Forall (fun x => P x.1) t.

Lemma calls_nil P w e : calls P [] w (Sys (trace w) e).
Proof. by split. Qed.

Lemma calls_refl P w : calls P [] w w.
Proof. by split. Qed.

Lemma calls_one (P : call -> Prop) c r w : P c -> calls P [(c, r)] w (logged w c r).
Proof. intros HP. split; [done|]. by repeat constructor. Qed.

Lemma calls_step (P : call -> Prop) c r t w w1 :
  calls P t w w1 -> P c -> calls P ((c, r) :: t) w (logged w1 c r).
Proof. intros [E Ht] HP. split; [by rewrite <- app_comm_cons, <- E|]. by constructor. Qed.

Lemma calls_errno P t w w1 e : calls P t w w1 -> calls P t w (Sys (trace w1) e).
Proof. done. Qed.

Lemma calls_app P t1 t2 w1 w2 w3 :
  calls P t1 w1 w2 -> calls P t2 w2 w3 -> calls P (t2 ++ t1) w1 w3.
Proof. intros [E1 H1] [E2 H2]. split; [by rewrite E2, E1, app_assoc|]. by apply Forall_app. Qed.

Lemma calls_quiet P t w w' : (forall c, P c -> is_send c = false) -> calls P t w w' -> quiet w w'.
Proof.
  intros HP [E H]. split; [by exists t|]. intros g. rewrite E. clear E.
  induction H as [|[c r] t Hc Ht IH]; [done|]. cbn in Hc. specialize (HP _ Hc).
  by destruct c; cbn; rewrite ?IH.
Qed.

(** A loop over the devices, by a relation between a device before, a device
    after, and the calls made meanwhile. *)
Section ForDevices.
Context `{K : Kernel}.
Variable P : call -> Prop.
Variable R : seat_device -> seat_device -> history -> Prop.
Hypothesis R_same : forall d d' t, R d d' t -> same_device d d'.
Hypothesis R_more : forall d d' t1 t2 t3, R d d' t2 -> R d d' (t3 ++ t2 ++ t1).

Lemma for_devices_ok c k (test : seat_device -> bool) (m : M seat_device Z) Q s w :
  sv_clients s !! c = Some k -> devices_wf (devices k) ->
  (forall d w, dev_type d ≠ SEAT_DEVICE_TYPE_NORMAL ->
     wp (d ← get; if test d then m;; mret () else mret ())
       (fun _ d' w' => exists t, calls P t w w' /\ R d d' t) d w) ->
  (forall ds' t w', calls P t w w' -> Forall2 (fun d d' => R d d' t) (devices k) ds' ->
     Q () (put_client c (set_devices ds' k) s) w') ->
  wp (for_devices c test m) Q s w.
Proof.
  intros Hk Wd Hm HQ. unfold for_devices. wp_steps. eapply wp_get_client; [done|]. wp_steps.
  apply (wp_for_each (fun l s' w' => exists ds1 ds2 ds1' t,
    devices k = ds1 ++ ds2 /\ l = device_id <$> ds2 /\
    s' = put_client c (set_devices (ds1' ++ ds2) k) s /\
    calls P t w w' /\ Forall2 (fun d d' => R d d' t) ds1 ds1')).
  - exists [], (devices k), [], []. split_and!; try done.
    rewrite (put_client_same c); [done|]. by destruct k.
  - intros id l s' w' (ds1 & ds2 & ds1' & t & Ed & El & -> & Hc & HF).
    destruct ds2 as [|d ds2]; [done|]. injection El as -> ->.
    destruct Wd as [Wids _ Weach _]. rewrite Ed in Wids, Weach.
    assert (Eids : device_id <$> ds1' = device_id <$> ds1).
    { clear -HF R_same. induction HF as [|x y l l' HR HF IH]; [done|].
      rewrite !fmap_cons, IH. by rewrite (R_same _ _ _ HR). }
    assert (Hnd : NoDup (device_id <$> (ds1' ++ d :: ds2)))
      by (by rewrite fmap_app, Eids, <- fmap_app).
    eapply wp_on_device; [look| |].
    { apply lookup_device_mid; [|done]. rewrite fmap_app, fmap_cons in Hnd.
      apply NoDup_app in Hnd as (_ & Hnd & _). intros Hin. apply (Hnd _ Hin). by left. }
    apply Forall_app in Weach as [_ Weach]. apply Forall_cons in Weach as [(_ & _ & Hty) _].
    eapply wp_mono; [by apply Hm|]. intros _ d' w2 (t2 & Hc2 & HR2).
    exists (ds1 ++ [d]), ds2, (ds1' ++ [d']), (t2 ++ t). split_and!.
    + by rewrite <- app_assoc.
    + done.
    + rewrite put_client_twice. cbn -[replace_device]. rewrite replace_device_mid; [|done|by rewrite (R_same _ _ _ HR2)].
      by rewrite <- app_assoc.
    + by eapply calls_app.
    + apply Forall2_app.
      * eapply Forall2_impl; [exact HF|]. intros x y HR. specialize (R_more _ _ [] _ t2 HR).
        by rewrite app_nil_r in R_more.
      * constructor; [|done]. by apply (R_more _ _ t t2 []).
  - intros s' w' (ds1 & ds2 & ds1' & t & Ed & El & -> & Hc & HF).
    destruct ds2; [|done]. rewrite app_nil_r in Ed |- *. subst ds1. by eapply HQ.
Qed.

End ForDevices.

(** ** Activating and deactivating devices *)

Definition device_call (c : call) : Prop :=
  match c with
  | Ioctl _ (DRM_IOCTL_SET_MASTER | DRM_IOCTL_DROP_MASTER | DRM_IOCTL_AUTH_MAGIC _
             | EVIOCREVOKE | HIDIOCREVOKE) => True
  | _ => False
  end.

Lemma device_call_send c : device_call c -> is_send c = false.
Proof. by destruct c. Qed.

Section DeviceSpecs.
Context `{K : Kernel}.

(** The ioctl that takes a device of a type away. *)
Definition revoke_request (ty : seat_device_type) : option ioctl_request :=
  match ty with
  | SEAT_DEVICE_TYPE_DRM => Some DRM_IOCTL_DROP_MASTER
  | SEAT_DEVICE_TYPE_EVDEV => Some EVIOCREVOKE
  | SEAT_DEVICE_TYPE_HIDRAW => if has_hidiocrevoke then Some HIDIOCREVOKE else None
  | _ => None
  end.

(** After deactivation a device is inactive, unless the ioctl was refused. *)
Definition deactivated (d d' : seat_device) (t : history) : Prop :=
  same_device d d' /\
  if active d then
    match revoke_request (dev_type d) with
    | Some q => exists r, (Ioctl (dev_fd d) q, r) ∈ t /\ active d' = (r_ret r =? -1)
    | None => active d' = false
    end
  else active d' = false.

(** Only DRM devices come back. *)
Definition activated (d d' : seat_device) (t : history) : Prop :=
  same_device d d' /\ active d' = active d || is_drm d.

Lemma deactivated_more d d' t1 t2 t3 :
  deactivated d d' t2 -> deactivated d d' (t3 ++ t2 ++ t1).
Proof.
  intros [Hs H]. split; [done|]. destruct (active d); [|done].
  destruct (revoke_request (dev_type d)); [|done]. destruct H as (r & Hr & E).
  exists r. split; [|done]. rewrite !elem_of_app. auto.
Qed.

Lemma seat_deactivate_device_ok d w :
  dev_type d ≠ SEAT_DEVICE_TYPE_NORMAL ->
  wp seat_deactivate_device (fun r d' w' =>
    (r = 0 \/ r = -1) /\ exists t, calls device_call t w w' /\ deactivated d d' t) d w.
Proof.
  intros Hty. unfold seat_deactivate_device, deactivated. wp_steps.
  destruct (active d) eqn:Ha; cbn [negb]; wp_steps.
  2:{ split; [by left|]. exists []. split; [apply calls_refl|]. split; [apply same_device_refl|done]. }
  assert (Hioctl : forall q, revoke_request (dev_type d) = Some q -> device_call (Ioctl (dev_fd d) q) ->
    wp (ioctl (dev_fd d) q) (fun r => wp (if r =? -1 then mret (-1) else modify (set_active false);; mret 0)
      (fun r d' w' => (r = 0 \/ r = -1) /\ exists t, calls device_call t w w' /\ same_device d d' /\
        match revoke_request (dev_type d) with
        | Some q => exists r, (Ioctl (dev_fd d) q, r) ∈ t /\ active d' = (r_ret r =? -1)
        | None => active d' = false
        end)) d w).
  { intros q Eq Hq. unfold ioctl. wp_steps. apply wp_ext. intros r _. rewrite Eq. wp_steps.
    wp_case; wp_steps; (split; [by auto|]); exists [(Ioctl (dev_fd d) q, r)];
      (split; [by apply calls_one|]).
    - split; [apply same_device_refl|]. exists r. split; [by left|]. congruence.
    - split; [apply same_device_set|]. exists r. split; [by left|]. by rewrite E. }
  destruct (dev_type d) eqn:Ety; try done; cbn beta iota.
  - by apply Hioctl.
  - unfold hidraw_revoke. destruct has_hidiocrevoke eqn:Eh; cbn beta iota.
    + apply Hioctl; [|done]. cbn. by rewrite Eh.
    + wp_steps. split; [by left|]. exists []. split; [apply calls_refl|].
      split; [apply same_device_set|]. cbn. by rewrite Eh.
  - by apply Hioctl.
  - wp_steps. split; [by left|]. exists []. split; [apply calls_refl|].
    split; [apply same_device_set|done].
Qed.

Lemma seat_activate_device_ok d w :
  dev_type d ≠ SEAT_DEVICE_TYPE_NORMAL ->
  wp seat_activate_device (fun r d' w' =>
    (r = 0 \/ r = -1) /\ exists t, calls device_call t w w' /\ activated d d' t) d w.
Proof.
  intros Hty. unfold seat_activate_device, activated, is_drm. wp_steps.
  destruct (active d) eqn:Ha; cbn [orb]; wp_steps.
  { split; [by left|]. exists []. split; [apply calls_refl|]. split; [apply same_device_refl|done]. }
  destruct (dev_type d) eqn:Ety; try done; cbn beta iota.
  1,2,4: wp_steps; (split; [by auto|]); exists []; split; [apply calls_nil || apply calls_refl|];
    split; [apply same_device_refl|done].
  unfold drm_is_master, ioctl. wp_steps. apply wp_ext. intros r _. wp_steps.
  set (w1 := logged w _ r).
  assert (Hw1 : calls device_call [(Ioctl (dev_fd d) (DRM_IOCTL_AUTH_MAGIC 0), r)] w w1)
    by by apply calls_one.
  unfold drm_set_master, ioctl.
  repeat first [wp_step | wp_case | apply wp_ext; intros ? _]; (split; [by left|]).
  all: eexists; split; [first [exact Hw1 | eapply calls_app; [exact Hw1|by apply calls_one]]|].
  all: by split; [apply same_device_set|].
Qed.

(** The loops of the seat over the devices of a client. *)
Lemma deactivate_devices_ok c k test Q s w :
  sv_clients s !! c = Some k -> devices_wf (devices k) ->
  (forall ds' t w', calls device_call t w w' ->
     Forall2 (fun d d' => if test d : bool then deactivated d d' t else d' = d) (devices k) ds' ->
     Q () (put_client c (set_devices ds' k) s) w') ->
  wp (for_devices c test seat_deactivate_device) Q s w.
Proof.
  intros Hk Wd HQ.
  apply (for_devices_ok device_call (fun d d' t => if test d then deactivated d d' t else d' = d))
    with (k := k); try done.
  - intros d d' t. destruct (test d); [by intros []|intros ->; apply same_device_refl].
  - intros d d' t1 t2 t3. destruct (test d); [apply deactivated_more|done].
  - intros d w0 Hty. wp_steps. destruct (test d); wp_steps.
    + eapply wp_mono; [by apply seat_deactivate_device_ok|]. intros r d' w' (_ & Ht). by wp_steps.
    + exists []. split; [apply calls_refl|done].
Qed.

Lemma activate_devices_ok c k test Q s w :
  sv_clients s !! c = Some k -> devices_wf (devices k) ->
  (forall ds' t w', calls device_call t w w' ->
     Forall2 (fun d d' => if test d : bool then activated d d' t else d' = d) (devices k) ds' ->
     Q () (put_client c (set_devices ds' k) s) w') ->
  wp (for_devices c test seat_activate_device) Q s w.
Proof.
  intros Hk Wd HQ.
  apply (for_devices_ok device_call (fun d d' t => if test d then activated d d' t else d' = d))
    with (k := k); try done.
  - intros d d' t. destruct (test d); [by intros []|intros ->; apply same_device_refl].
  - intros d w0 Hty. wp_steps. destruct (test d); wp_steps.
    + eapply wp_mono; [by apply seat_activate_device_ok|]. intros r d' w' (_ & Ht). by wp_steps.
    + exists []. split; [apply calls_refl|done].
Qed.

Lemma deactivated_same test l l' t :
  Forall2 (fun d d' => if test d : bool then deactivated d d' t else d' = d) l l' ->
  Forall2 same_device l l'.
Proof.
  intros H. eapply Forall2_impl; [exact H|]. intros d d'. cbn.
  destruct (test d); [by intros []|intros ->; apply same_device_refl].
Qed.

Lemma activated_same test l l' t :
  Forall2 (fun d d' => if test d : bool then activated d d' t else d' = d) l l' ->
  Forall2 same_device l l'.
Proof.
  intros H. eapply Forall2_impl; [exact H|]. intros d d'. cbn.
  destruct (test d); [by intros []|intros ->; apply same_device_refl].
Qed.

End DeviceSpecs.

(** ** What operations leave alone

    No operation on seats touches the identity of a client or the bytes it has
    received, or frees one. *)

Definition frame (s s' : server) : Prop :=
  forall c k, sv_clients s !! c = Some k ->
    exists k', sv_clients s' !! c = Some k' /\
      conn_in (c_connection k') = conn_in (c_connection k) /\
      fd (c_connection k') = fd (c_connection k) /\
      c_event_source k' = c_event_source k /\ c_server k' = c_server k /\ c_pid k' = c_pid k.

#[global] Instance frame_preorder : PreOrder frame.
Proof.
  split.
  - intros s c k Hk. eauto 10.
  - intros s1 s2 s3 H12 H23 c k Hk. destruct (H12 _ _ Hk) as (k2 & Hk2 & ? & ? & ? & ? & ?).
    destruct (H23 _ _ Hk2) as (k3 & Hk3 & ? & ? & ? & ? & ?). exists k3. split_and!; congruence.
Qed.

Lemma frame_clients s s' : sv_clients s' = sv_clients s -> frame s s'.
Proof. intros E c k Hk. rewrite E. eauto 10. Qed.

Lemma frame_put_client s c k k' :
  sv_clients s !! c = Some k ->
  conn_in (c_connection k') = conn_in (c_connection k) ->
  fd (c_connection k') = fd (c_connection k) ->
  c_event_source k' = c_event_source k -> c_server k' = c_server k -> c_pid k' = c_pid k ->
  frame s (put_client c k' s).
Proof.
  intros Hk ? ? ? ? ? c0 k0 H0. cbn. destruct (decide (c0 = c)) as [->|Hne].
  - exists k'. rewrite lookup_insert_eq. by simplify_eq.
  - exists k0. by rewrite lookup_insert_ne.
Qed.

(** Operations on the control side leave clients and seats alone. *)
Definition same_core (s s' : server) : Prop :=
  sv_clients s' = sv_clients s /\ sv_seats s' = sv_seats s /\ seats s' = seats s /\
  idle_clients s' = idle_clients s.

#[global] Instance same_core_preorder : PreOrder same_core.
Proof.
  split; [done|]. intros s1 s2 s3 (? & ? & ? & ?) (? & ? & ? & ?). split_and!; congruence.
Qed.

(** ** Sending *)

Section Sending.
Context `{K : Kernel} `{Kok : !KernelOk}.

(** [msg] was appended to what the connection sends: part of it may have left
    already, the rest waits in the buffer. *)
Definition posted (msg : bytes) (conn conn' : connection) (w w' : sys) : Prop :=
  exists d, sends (fd conn) d w w' /\
    contents (conn_out conn) ++ msg = d ++ contents (conn_out conn').

(** The connection is well-formed and its receiving side untouched. *)
Definition same_in (conn conn' : connection) : Prop :=
  conn_wf conn' /\ conn_in conn' = conn_in conn /\ fd conn' = fd conn.

Lemma same_in_trans c1 c2 c3 : same_in c1 c2 -> same_in c2 c3 -> same_in c1 c3.
Proof. intros (? & ? & ?) (? & ? & ?). split_and!; congruence || done. Qed.

Lemma posted_trans m1 m2 c1 c2 c3 w1 w2 w3 :
  fd c2 = fd c1 -> posted m1 c1 c2 w1 w2 -> posted m2 c2 c3 w2 w3 -> posted (m1 ++ m2) c1 c3 w1 w3.
Proof.
  intros Ef (d1 & Hs1 & E1) (d2 & Hs2 & E2). exists (d1 ++ d2). rewrite Ef in Hs2. split.
  - by eapply sends_trans.
  - rewrite app_assoc, E1, <- !app_assoc. by rewrite E2.
Qed.

Lemma posted_le m c1 c2 w1 w2 : posted m c1 c2 w1 w2 -> sys_le w1 w2.
Proof. intros (d & Hs & _). by eapply sends_le. Qed.

Lemma connection_put_posts msg conn w :
  conn_wf conn -> Forall is_byte msg ->
  wp (connection_put msg) (fun r conn' w' =>
    same_in conn conn' /\
    (r = 0 /\ posted msg conn conn' w w' \/
     r = -1 /\ posted [] conn conn' w w' /\ (refused w w' \/ 256 < zlen msg))) conn w.
Proof.
  intros W Hm. eapply wp_mono; [by apply connection_put_ok|].
  intros r conn' w' (W' & Ei & _ & Ef & d & Hs & [(-> & E & _)|(-> & E & ?)]);
    (split; [done|]); [left|right]; (split; [done|]); [by exists d|]. split; [|done].
  exists d. by rewrite app_nil_r.
Qed.

Lemma connection_flush_posts conn w :
  conn_wf conn ->
  wp connection_flush (fun r conn' w' =>
    same_in conn conn' /\ posted [] conn conn' w w' /\
    (r = -1 /\ refused w w' \/ 0 <= r /\ contents (conn_out conn') = [])) conn w.
Proof.
  intros W. eapply wp_mono; [by apply connection_flush_ok|].
  intros r conn' w' (W' & Ei & _ & Ef & (d & Hs & E) & Hr). split; [done|]. split.
  - exists d. by rewrite app_nil_r.
  - destruct Hr as [(-> & _ & ?)|(-> & ? & _)]; [by left|right]. split; [|done]. unfold zlen. lia.
Qed.

(** The messages are sent in order; on failure, a prefix of them. *)
Lemma put_all_ok msgs conn w :
  conn_wf conn -> Forall (Forall is_byte) msgs ->
  wp (put_all msgs) (fun r conn' w' =>
    same_in conn conn' /\
    (r = 0 \/ r = -1 /\ (refused w w' \/ Exists (fun m => 256 < zlen m) msgs)) /\
    exists n, (r = 0 -> n = length msgs) /\ posted (concat (take n msgs)) conn conn' w w') conn w.
Proof.
  revert conn w. induction msgs as [|m msgs IH]; intros conn w W Hm; cbn [put_all].
  - wp_steps. split; [done|]. split; [by left|]. exists O. split; [done|]. exists [].
    cbn. rewrite app_nil_r. split; [by apply sends_quiet|done].
  - apply Forall_cons in Hm as [Hm Hms]. wp_steps.
    eapply wp_mono; [by apply connection_put_posts|].
    intros r c1 w1 (Hin & [[-> Hp]|(-> & Hp & Hf)]); wp_steps.
    + eapply wp_mono; [apply IH; [apply Hin|done]|].
      intros r c2 w2 (Hin2 & Hr & n & Hn & Hp2). split; [by eapply same_in_trans|].
      split.
      { destruct Hr as [?|[? [Hf|?]]]; [by left|right; split; [done|]..]; [left|right; by constructor].
        eapply refused_l; [by eapply posted_le|done]. }
      exists (S n). split; [intros Hr0; cbn; auto|].
      cbn. eapply posted_trans; [apply Hin|done..].
    + split; [done|]. split; [|by exists O].
      right. split; [done|]. destruct Hf; [by left|]. right. by constructor.
Qed.

(** One event: sent whole, or kept or dropped whole. *)
Lemma put_and_flush_ok msg conn w :
  conn_wf conn -> Forall is_byte msg ->
  wp (put_and_flush msg) (fun r conn' w' =>
    same_in conn conn' /\
    (r = 0 /\ posted msg conn conn' w w' /\ contents (conn_out conn') = [] \/
     r = -1 /\ (posted msg conn conn' w w' \/ posted [] conn conn' w w') /\
       (refused w w' \/ 256 < zlen msg))) conn w.
Proof.
  intros W Hm. unfold put_and_flush. wp_steps. eapply wp_mono; [by apply connection_put_posts|].
  intros r c1 w1 (Hin & [[-> Hp]|(-> & Hp & Hf)]); wp_steps; [|by auto 8].
  eapply wp_mono; [apply connection_flush_posts, Hin|].
  intros r c2 w2 (Hin2 & Hp2 & Hr).
  assert (Hp12 : posted msg conn c2 w w2).
  { rewrite <- (app_nil_r msg). eapply posted_trans; [apply Hin|done..]. }
  assert (same_in conn c2) by by eapply same_in_trans.
  destruct Hr as [[-> Hf]|[Hr E]]; [|rewrite (proj2 (Z.eqb_neq r (-1))) by lia]; wp_steps; [|by auto 8].
  split; [done|]. right. split_and!; [done|by left|left]. eapply refused_l; [eapply posted_le, Hp|done].
Qed.

End Sending.
