(* ===== verification/SendOk.v ===== *)
(** * The event sources and the sending functions keep the invariant *)
From S2P Require Import Prelude Kernel Connection Protocol Devices Terminal State Poller Send Seat Client.
From S2P Require Import Invariant Lifecycle Rules.

(** ** Event sources *)

Section Sources.
Context `{K : Kernel}.
Implicit Types (s : server) (w : sys).

Lemma live_source_find s fn e d : live_source s fn e d -> is_Some (find_source e s).
Proof.
  intros (x & Hx & He & _). unfold find_source.
  destruct (list_find_elem_of (fun y => es_id y = e) (sv_sources s) x Hx He) as [[i y] Hy].
  rewrite Hy. cbn. eauto.
Qed.

Lemma wp_source_update e mask Q s w :
  is_Some (find_source e s) ->
  Q 0 (set_poll_dirty true (upd_source e (set_es_mask mask) s)) w ->
  wp (event_source_fd_update e mask) Q s w.
Proof.
  intros [x Hx] HQ. unfold event_source_fd_update. wp_steps. apply (wp_deref _ x); [done|]. by wp_steps.
Qed.

Lemma wp_source_destroy e Q s w :
  is_Some (find_source e s) ->
  Q 0 (upd_source e (set_es_killed true)
        (set_poll_dirty true (set_fd_event_sources (fd_event_sources s - 1) s))) w ->
  wp (event_source_fd_destroy e) Q s w.
Proof.
  intros [x Hx] HQ. unfold event_source_fd_destroy. wp_steps.
  apply (wp_deref _ x); [done|]. by wp_steps.
Qed.

Lemma wp_add_fd f mask fn data Q s w :
  (forall w', quiet w w' -> Q None s w') ->
  (forall w', quiet w w' ->
     let e := fresh (es_id <$> sv_sources s) in
     Q (Some e) (set_sv_sources (EventSourceFd e fn f mask data false (-1) :: sv_sources s)
                  (set_poll_dirty true (set_fd_event_sources (fd_event_sources s + 1) s))) w') ->
  wp (poller_add_fd f mask fn data) Q s w.
Proof.
  intros HN HS. unfold poller_add_fd. wp_steps. apply wp_ext. intros r _. wp_steps.
  assert (quiet w (logged w Calloc r)) by auto with wp.
  wp_case; wp_steps; [by apply HN|by apply HS].
Qed.

Lemma wf_dirty X Y D s b : server_wf X Y D s -> server_wf X Y D (set_poll_dirty b s).
Proof. by apply wf_same. Qed.

Lemma wf_source X Y D s c k e :
  server_wf X Y D s -> sv_clients s !! c = Some k -> c_event_source k = Some e ->
  is_Some (find_source e s).
Proof.
  intros W Hk He. destruct (vw_clients _ _ _ _ W _ _ Hk). rewrite He in cw_source.
  by eapply live_source_find.
Qed.

Lemma wf_control_source X Y D s c k e :
  server_wf X Y D s -> sv_controls s !! c = Some k -> cc_event_source k = Some e ->
  is_Some (find_source e s).
Proof.
  intros W Hk He. destruct (vw_controls _ _ _ _ W _ _ Hk). rewrite He in ctw_source.
  by eapply live_source_find.
Qed.

End Sources.

(** ** The connection of a client *)

Section Clients.
Context `{K : Kernel} `{Kok : !KernelOk}.
Implicit Types (s : server) (w : sys).

Lemma client_local_conn X D s c k conn :
  client_wf X D s c k -> conn_wf conn -> client_local k (set_c_connection conn k).
Proof. intros W Wc. pose proof (client_local_refl _ _ _ _ _ W) as []. by split. Qed.

Lemma wf_put_conn X Y D s c k conn :
  server_wf X Y D s -> sv_clients s !! c = Some k -> conn_wf conn ->
  server_wf X Y D (put_client c (set_c_connection conn k) s).
Proof.
  intros W Hk Wc. eapply wf_put_client; [done..|].
  eapply client_local_conn; [by eapply vw_clients|done].
Qed.

Lemma frame_put_conn s c k conn :
  sv_clients s !! c = Some k -> conn_in conn = conn_in (c_connection k) ->
  fd conn = fd (c_connection k) -> frame s (put_client c (set_c_connection conn k) s).
Proof. intros. by eapply frame_put_client. Qed.

(** An operation on the connection that leaves the receiving side alone. *)
Lemma on_conn_ok {A} X Y D c k (m : M connection A) (R : A -> connection -> sys -> Prop) s w :
  server_wf X Y D s -> sv_clients s !! c = Some k ->
  (conn_wf (c_connection k) ->
     wp m (fun a conn w' => same_in (c_connection k) conn /\ R a conn w') (c_connection k) w) ->
  wp (on_conn c m) (fun a s' w' => exists conn,
    s' = put_client c (set_c_connection conn k) s /\ server_wf X Y D s' /\ frame s s' /\
    same_in (c_connection k) conn /\ R a conn w') s w.
Proof.
  intros W Hk Hm. pose proof (vw_clients _ _ _ _ W _ _ Hk) as [Wc _ _ _ _].
  eapply wp_on_conn; [done|]. eapply wp_mono; [by apply Hm|].
  intros a conn w' (Hin & HR). exists conn. destruct Hin as (W' & Ei & Ef).
  split; [done|]. split_and!; try done.
  - by apply wf_put_conn.
  - by apply frame_put_conn.
Qed.

(** [client_send_enable_seat] and [client_send_disable_seat]. *)
Lemma send_event_ok X Y D c k msg s w :
  server_wf X Y D s -> sv_clients s !! c = Some k -> Forall is_byte msg ->
  wp (on_conn c (put_and_flush msg)) (fun r s' w' => exists conn,
    s' = put_client c (set_c_connection conn k) s /\ server_wf X Y D s' /\ frame s s' /\
    same_in (c_connection k) conn /\
    (r = 0 /\ posted msg (c_connection k) conn w w' \/
     r = -1 /\ (posted msg (c_connection k) conn w w' \/ posted [] (c_connection k) conn w w') /\
       (refused w w' \/ 256 < zlen msg))) s w.
Proof.
  intros W Hk Hm. apply on_conn_ok; [done..|]. intros Wc.
  eapply wp_mono; [by apply put_and_flush_ok|]. intros r conn w' (Hin & [(? & ? & ?)|?]); auto.
Qed.

Lemma put_reply_ok X Y D c k msgs s w :
  server_wf X Y D s -> sv_clients s !! c = Some k -> Forall (Forall is_byte) msgs ->
  wp (on_conn c (put_all msgs)) (fun r s' w' => exists conn,
    s' = put_client c (set_c_connection conn k) s /\ server_wf X Y D s' /\ frame s s' /\
    same_in (c_connection k) conn /\
    (r = 0 \/ r = -1 /\ (refused w w' \/ Exists (fun m => 256 < zlen m) msgs)) /\
    (r = 0 -> posted (concat msgs) (c_connection k) conn w w')) s w.
Proof.
  intros W Hk Hm. apply on_conn_ok; [done..|]. intros Wc.
  eapply wp_mono; [by apply put_all_ok|]. intros r conn w' (Hin & Hr & n & Hn & Hp).
  split_and!; try done. intros E. rewrite (Hn E), firstn_all in Hp. done.
Qed.

(** A reply: sent behind what is queued, or refused by the kernel. *)
Definition answered (c : nat) (k : client) (msg : bytes) (s : server) (w : sys)
    (r : Z) (s' : server) (w' : sys) : Prop :=
  exists conn, s' = put_client c (set_c_connection conn k) s /\ same_in (c_connection k) conn /\
    (r = 0 /\ posted msg (c_connection k) conn w w' \/ r = -1 /\ refused w w').

Lemma reply_answered X Y D c k msgs s w :
  server_wf X Y D s -> sv_clients s !! c = Some k -> Forall (Forall is_byte) msgs ->
  Forall (fun m => zlen m <= 256) msgs ->
  wp (on_conn c (put_all msgs)) (answered c k (concat msgs) s w) s w.
Proof.
  intros W Hk Hm Hl. eapply wp_mono; [by eapply put_reply_ok|].
  intros r s' w' (conn & -> & _ & _ & Hin & Hr & Hp). exists conn. split_and!; [done..|].
  destruct Hr as [->|[-> [?|Hlong]]]; [left; auto|by right|].
  exfalso. apply Exists_exists in Hlong as (m & Hm' & Hlt). rewrite Forall_forall in Hl.
  apply Hl in Hm'. lia.
Qed.

Lemma answered_wf X Y D c k msg s w r s' w' :
  server_wf X Y D s -> sv_clients s !! c = Some k -> answered c k msg s w r s' w' ->
  server_wf X Y D s' /\ frame s s' /\ (r = 0 \/ r = -1).
Proof.
  intros W Hk (conn & -> & (? & ? & ?) & Hr).
  split_and!; [by apply wf_put_conn|by apply frame_put_conn|]. destruct Hr as [[-> _]|[-> _]]; auto.
Qed.

Lemma int_bytes_byte n : Forall is_byte (int_bytes n).
Proof. apply le_bytes_byte. Qed.
Lemma u16_bytes_byte n : Forall is_byte (u16_bytes n).
Proof. apply le_bytes_byte. Qed.

Definition error_message (e : Z) : bytes := header_bytes (Header SERVER_ERROR 4) ++ int_bytes e.

Lemma client_send_error_ok X Y D c k e s w :
  server_wf X Y D s -> sv_clients s !! c = Some k ->
  wp (client_send_error c e) (answered c k (error_message e) s w) s w.
Proof.
  intros W Hk. unfold client_send_error. eapply wp_mono; [eapply reply_answered; [done..| |]|].
  - auto using header_bytes_byte, int_bytes_byte.
  - by repeat constructor.
  - intros r s' w'. cbn [concat]. by rewrite app_nil_r.
Qed.

Lemma client_flush_ok Y D c k s w :
  server_wf nobody Y D s -> sv_clients s !! c = Some k ->
  wp (client_flush c) (fun r s' w' =>
    server_wf nobody Y D s' /\ frame s s' /\ (r = 0 \/ r = -1)) s w.
Proof.
  intros W Hk. unfold client_flush. wp_steps.
  eapply wp_mono.
  { eapply (on_conn_ok nobody Y D c k _ (fun r _ _ => r = -1 \/ 0 <= r)); [done..|]. intros Wc.
    eapply wp_mono; [by apply connection_flush_posts|]. intros r conn w' (? & _ & Hr). split; [done|lia]. }
  intros r s1 w1 (conn & -> & W1 & F1 & _ & Hr). wp_steps.
  wp_case; [|wp_case; wp_steps; auto]. wp_steps. eapply wp_get_client; [look|]. wp_steps.
  pose proof (vw_clients _ _ _ _ W _ _ Hk) as [_ Hes _ _ _]. cbn.
  destruct (c_event_source k) as [e|] eqn:He; [|done]. apply (wp_deref _ e); [done|]. wp_steps.
  apply wp_source_update; [eapply wf_source; [done|look|done]|]. wp_steps.
  split_and!; [by apply wf_dirty, wf_upd_source| |by left].
  etrans; [exact F1|]. by apply frame_clients.
Qed.

End Clients.

(** ** Control clients *)

Section Controls.
Context `{K : Kernel} `{Kok : !KernelOk}.
Variables X D : nat -> Prop.
Implicit Types (s : server) (w : sys).

(** The control client is still there, with the bytes it has received. *)
Definition control_frame (c : nat) (k : control_client) (s' : server) : Prop :=
  exists k', sv_controls s' !! c = Some k' /\
    conn_in (cc_connection k') = conn_in (cc_connection k).

Definition control_post (c : nat) (k : control_client) (s s' : server) : Prop :=
  server_wf X nobody D s' /\ same_core s s' /\ control_clients s' = control_clients s /\
  control_frame c k s'.

Lemma on_control_conn_ok {A} Y c k (m : M connection A) (R : A -> connection -> sys -> Prop) s w :
  server_wf X Y D s -> sv_controls s !! c = Some k ->
  (conn_wf (cc_connection k) ->
     wp m (fun a conn w' => same_in (cc_connection k) conn /\ R a conn w') (cc_connection k) w) ->
  wp (on_control_conn c m) (fun a s' w' => exists conn,
    s' = put_control c (set_cc_connection conn k) s /\ server_wf X Y D s' /\
    same_in (cc_connection k) conn /\ R a conn w') s w.
Proof.
  intros W Hk Hm. pose proof (vw_controls _ _ _ _ W _ _ Hk) as [Wc _].
  eapply wp_on_control_conn; [done|]. eapply wp_mono; [by apply Hm|].
  intros a conn w' (Hin & HR). exists conn. split_and!; try done.
  eapply wf_put_control; [done..| |done]. apply Hin.
Qed.

(** The message is sent, or queued behind what is there, unless the kernel
    refuses; nothing but the connection of the client changes. *)
Definition control_sent (c : nat) (k : control_client) (msg : bytes) (s : server) (w : sys)
    (r : Z) (s' : server) (w' : sys) : Prop :=
  server_wf X nobody D s' /\ same_core s s' /\ control_clients s' = control_clients s /\
  sys_le w w' /\ exists conn,
    sv_controls s' = <[c := set_cc_connection conn k]> (sv_controls s) /\
    same_in (cc_connection k) conn /\
    (r = 0 /\ posted msg (cc_connection k) conn w w' \/ r = -1 /\ refused w w').

Lemma control_sent_post c k msg s w r s' w' :
  control_sent c k msg s w r s' w' -> control_post c k s s' /\ (r = 0 \/ r = -1).
Proof.
  intros (W & Hc & El & _ & conn & E & (_ & Ei & _) & Hr). split; [|naive_solver].
  split_and!; [done..|]. eexists. rewrite E. by split; [apply lookup_insert_eq|].
Qed.

Lemma control_client_flush_ok c k s w :
  server_wf X nobody D s -> sv_controls s !! c = Some k ->
  wp (control_client_flush c) (control_sent c k [] s w) s w.
Proof.
  intros W Hk. unfold control_client_flush. wp_steps. eapply wp_mono.
  { eapply (on_control_conn_ok nobody c k _ (fun r conn w' => posted [] (cc_connection k) conn w w' /\
      (r = -1 /\ refused w w' \/ 0 <= r))); [done..|].
    intros Wc. eapply wp_mono; [by apply connection_flush_posts|].
    intros r conn w' (? & Hp & Hr). split_and!; [done..|]. destruct Hr as [?|[? _]]; auto. }
  intros r s1 w1 (conn & -> & W1 & Hin & Hp & Hr). wp_steps.
  eapply wp_get_control; [look|]. wp_steps.
  pose proof (vw_controls _ _ _ _ W _ _ Hk) as [_ Hes]. cbn.
  destruct (cc_event_source k) as [e|] eqn:He; [|done].
  assert (Hfind : is_Some (find_source e (put_control c (set_cc_connection conn k) s))).
  { eapply wf_control_source with (c := c); [exact W1|look|done]. }
  assert (Hpost : forall m, control_sent c k [] s w 0 (set_poll_dirty true
    (upd_source e (set_es_mask m) (put_control c (set_cc_connection conn k) s))) w1).
  { intros m. split_and!; [by apply wf_dirty, wf_upd_source|done|done|by eapply posted_le|].
    exists conn. split_and!; [done..|]. by left. }
  destruct ((r =? -1) && (errno w1 =? EAGAIN)); wp_steps.
  { apply (wp_deref _ e); [done|]. wp_steps. apply wp_source_update; auto. }
  destruct (Z.leb_spec 0 r); wp_steps.
  { apply (wp_deref _ e); [done|]. wp_steps. apply wp_source_update; auto. }
  destruct Hr as [[-> Hf]|?]; [|lia]. split_and!; [done..|by eapply posted_le|].
  exists conn. split_and!; [done..|]. by right.
Qed.

Lemma control_send_ok_gen c k msgs s w :
  server_wf X nobody D s -> sv_controls s !! c = Some k -> Forall (Forall is_byte) msgs ->
  Forall (fun m => zlen m <= 256) msgs ->
  wp (r ← on_control_conn c (put_all msgs);
      if r =? -1 then mret (-1) else control_client_flush c)
    (control_sent c k (concat msgs) s w) s w.
Proof.
  intros W Hk Hm Hl. wp_steps. eapply wp_mono.
  { eapply (on_control_conn_ok nobody c k _ (fun r conn w' => sys_le w w' /\
      (r = 0 /\ posted (concat msgs) (cc_connection k) conn w w' \/ r = -1 /\ refused w w'))); [done..|].
    intros Wc. eapply wp_mono; [by apply put_all_ok|]. intros r conn w' (? & Hr & n & Hn & Hp).
    split; [done|]. split; [by eapply posted_le|]. destruct Hr as [->|[-> [?|Hlong]]]; [left|by right|].
    - split; [done|]. by rewrite (Hn eq_refl), firstn_all in Hp.
    - exfalso. apply Exists_exists in Hlong as (m & Hm' & ?). rewrite Forall_forall in Hl.
      apply Hl in Hm'. lia. }
  intros r s1 w1 (conn & -> & W1 & Hin & Hle & [[-> Hp]|[-> Hf]]); wp_steps.
  - eapply wp_mono; [eapply control_client_flush_ok; [done|look]|].
    intros r s2 w2 (W2 & Hc2 & El & Hle2 & conn2 & E2 & Hin2 & Hr). cbn in Hin2, Hr.
    split_and!; [done|by etrans; [|exact Hc2]|done|by etrans|]. exists conn2. split_and!.
    + rewrite E2. cbn. by rewrite insert_insert_eq.
    + by eapply same_in_trans.
    + destruct Hr as [[-> Hp2]|[-> Hf]]; [left|right]; (split; [done|]); [|by eapply refused_l].
      rewrite <- (app_nil_r (concat msgs)). eapply posted_trans; [apply Hin|done..].
  - split_and!; [done..|]. exists conn. split_and!; [done..|]. by right.
Qed.

Lemma control_send_error_ok c k e s w :
  server_wf X nobody D s -> sv_controls s !! c = Some k ->
  wp (control_send_error c e)
    (control_sent c k (header_bytes (Header CONTROL_ERROR 4) ++ int_bytes e) s w) s w.
Proof.
  intros. rewrite <- (app_nil_r (header_bytes _ ++ _)), <- app_assoc. apply (control_send_ok_gen _ _ [_; _]); [done..| |].
  - auto using header_bytes_byte, int_bytes_byte.
  - by repeat constructor.
Qed.

Lemma control_send_ok_ok c k s w :
  server_wf X nobody D s -> sv_controls s !! c = Some k ->
  wp (control_send_ok c) (control_sent c k (header_bytes (Header CONTROL_OK 0)) s w) s w.
Proof.
  intros. rewrite <- (app_nil_r (header_bytes _)). apply (control_send_ok_gen _ _ [_]); [done..| |].
  - auto using header_bytes_byte.
  - by repeat constructor.
Qed.

Lemma control_send_message_ok c k op payload s w :
  server_wf X nobody D s -> sv_controls s !! c = Some k -> Forall is_byte payload ->
  zlen payload <= 256 ->
  wp (control_send_message c op payload)
    (control_sent c k (header_bytes (Header op (zlen payload)) ++ payload) s w) s w.
Proof.
  intros. rewrite <- (app_nil_r (_ ++ payload)), <- app_assoc.
  apply (control_send_ok_gen _ _ [_; _]); [done..| |].
  - auto using header_bytes_byte.
  - repeat constructor; done.
Qed.

End Controls.

(** ** Releasing a control client *)

Section ControlDestroy.
Context `{K : Kernel} `{Kok : !KernelOk}.
Variables X : nat -> Prop.
Implicit Types (s : server) (w : sys).

(** The tail of the function, from the removal from the list on. *)
Lemma control_release_ok c k s w :
  server_wf X (eq c) nobody s -> sv_controls s !! c = Some k -> cc_event_source k = None ->
  wp (modify (fun s => set_control_clients (list_remove_id c (control_clients s)) s);;
      on_control_conn c connection_close_fds;;
      k ← get_control c;
      (if fd (cc_connection k) =? -1 then mret () else
         close (fd (cc_connection k));;
         upd_control c (fun k => set_cc_connection (set_fd (-1) (cc_connection k)) k));;
      modify (fun s => set_sv_controls (delete c (sv_controls s)) s))
    (fun _ s' w' => server_wf X nobody nobody s' /\ same_core s s' /\ quiet w w' /\
      control_clients s' = list_remove_id c (control_clients s) /\
      sv_controls s' = delete c (sv_controls s)) s w.
Proof.
  intros W Hk He. wp_steps. apply (wf_control_unlink _ _ _ _ c) in W; [|done].
  eapply wp_on_control_conn; [look|]. pose proof (vw_controls _ _ _ _ W _ _ Hk) as [Wc _].
  eapply wp_mono; [by apply connection_close_fds_ok|].
  intros _ conn w1 (Wc1 & _ & _ & Ef & _ & Hq & _). wp_steps.
  eapply wp_get_control; [look|]. wp_steps. cbn [cc_connection set_cc_connection].
  set (s1 := put_control c _ _).
  assert (W1 : server_wf X (eq c) nobody s1) by by eapply wf_put_control.
  assert (Hk1 : sv_controls s1 !! c = Some (set_cc_connection conn k)) by look.
  assert (Hfree : forall k' w', cc_event_source k' = None -> conn_wf (cc_connection k') ->
    quiet w w' ->
    server_wf X nobody nobody (set_sv_controls (delete c (sv_controls (put_control c k' s1)))
      (put_control c k' s1)) /\
    same_core s (set_sv_controls (delete c (sv_controls (put_control c k' s1)))
      (put_control c k' s1)) /\ quiet w w' /\
    list_remove_id c (control_clients s) = list_remove_id c (control_clients s) /\
    delete c (sv_controls (put_control c k' s1)) = delete c (sv_controls s)).
  { intros k' w' He' Wk' Hq'. split_and!; [|done|done|done|].
    - eapply wf_control_free; [eapply wf_put_control; [exact W1|done|done|by rewrite He']|look|done|].
      cbn. rewrite elem_of_list_remove_id. tauto.
    - cbn. by rewrite !delete_insert_eq. }
  wp_case; wp_steps.
  - specialize (Hfree (set_cc_connection conn k) w1 He Wc1 Hq).
    assert (E1 : put_control c (set_cc_connection conn k) s1 = s1).
    { unfold s1. apply put_control_twice. }
    rewrite E1 in Hfree. destruct Hfree as (? & ? & ? & ? & ?). by split_and!.
  - apply (wp_silent _ _ _ _ (close_silent _)). intros _ w2 Hq2. wp_steps.
    eapply wp_upd_control; [exact Hk1|]. wp_steps.
    destruct (Hfree (set_cc_connection (set_fd (-1) conn) k) w2) as (? & ? & ? & ? & ?);
      [done|by apply set_fd_wf|by etrans|]. by split_and!.
Qed.

Lemma control_client_destroy_ok c k s w :
  server_wf X (eq c) nobody s -> sv_controls s !! c = Some k ->
  wp (control_client_destroy c) (fun _ s' w' =>
    server_wf X nobody nobody s' /\ same_core s s' /\ quiet w w' /\
    control_clients s' = list_remove_id c (control_clients s) /\
    sv_controls s' = delete c (sv_controls s)) s w.
Proof.
  intros W Hk. unfold control_client_destroy. wp_steps. eapply wp_get_control; [done|]. wp_step.
  destruct (cc_event_source k) as [e|] eqn:He; wp_step.
  2:{ by eapply control_release_ok. }
  apply wp_source_destroy; [by eapply wf_control_source|]. cbn beta.
  eapply wp_upd_control; [look|]. cbn beta.
  eapply wp_mono; [eapply control_release_ok|].
  - by eapply wf_control_kill.
  - look.
  - done.
  - intros _ s' w' (? & Hc & ? & ? & E). split_and!; try done.
    rewrite E. cbn. by rewrite delete_insert_eq.
Qed.

Definition vt_changed_message (old new : Z) : bytes :=
  header_bytes (Header CONTROL_VT_CHANGED 8) ++ int_bytes old ++ int_bytes new.

(** The control client [c] was told, or dropped because the kernel refused. *)
Definition told (old new : Z) (s s' : server) (w w' : sys) (c : nat) : Prop :=
  exists k, sv_controls s !! c = Some k /\
  ((exists conn w1 w2, sv_controls s' !! c = Some (set_cc_connection conn k) /\
      sys_le w w1 /\ sys_le w2 w' /\
      posted (vt_changed_message old new) (cc_connection k) conn w1 w2) \/
   sv_controls s' !! c = None /\ refused w w').

(** One turn of the broadcast. *)
Lemma broadcast_next old new s s1 s2 w w1 w2 c k l :
  server_wf X nobody nobody s2 -> same_core s s2 -> sys_le w w1 -> sys_le w1 w2 -> NoDup l -> c ∉ l ->
  (forall c0, c0 ∈ c :: l -> c0 ∈ control_clients s1 /\ sv_controls s1 !! c0 = sv_controls s !! c0) ->
  (forall c0, c0 ∈ control_clients s -> c0 ∉ c :: l -> told old new s s1 w w1 c0) ->
  (forall c0, c0 ≠ c -> (c0 ∈ control_clients s2 <-> c0 ∈ control_clients s1) /\
     sv_controls s2 !! c0 = sv_controls s1 !! c0) ->
  sv_controls s !! c = Some k ->
  ((exists conn w1' w2', sv_controls s2 !! c = Some (set_cc_connection conn k) /\
      sys_le w1 w1' /\ sys_le w2' w2 /\
      posted (vt_changed_message old new) (cc_connection k) conn w1' w2') \/
   sv_controls s2 !! c = None /\ refused w1 w2) ->
  server_wf X nobody nobody s2 /\ same_core s s2 /\ sys_le w w2 /\ NoDup l /\
  (forall c0, c0 ∈ l -> c0 ∈ control_clients s2 /\ sv_controls s2 !! c0 = sv_controls s !! c0) /\
  forall c0, c0 ∈ control_clients s -> c0 ∉ l -> told old new s s2 w w2 c0.
Proof.
  intros W2 Hc Hle Hle2 Hnd Hout Hin Htold Hother Hk Hnew. split_and!; try done; [by etrans|..].
  - intros c0 Hc0. destruct (Hother c0) as [Hi E]; [by intros ->|].
    destruct (Hin c0) as [? ?]; [by right|]. split; [by apply Hi|congruence].
  - intros c0 Hc0 Hn. destruct (decide (c0 = c)) as [->|Hne].
    + exists k. split; [done|]. destruct Hnew as [(conn & w1' & w2' & ? & ? & ? & ?)|[? ?]]; [left|right].
      * exists conn, w1', w2'. split_and!; [done|by etrans|done..].
      * split; [done|]. by eapply refused_l.
    + destruct (Htold c0 Hc0) as (k0 & Hk0 & Hcase); [by intros [?|?]%elem_of_cons|].
      destruct (Hother c0 Hne) as [_ E]. exists k0. split; [done|]. rewrite E.
      destruct Hcase as [(conn & w1' & w2' & ? & ? & ? & ?)|[? ?]]; [left|right].
      * exists conn, w1', w2'. split_and!; [done..|by etrans|done].
      * split; [done|]. by eapply refused_r.
Qed.

(** Every control client is told of the change; those that cannot be are
    dropped, and nothing else changes. *)
Lemma control_broadcast_ok old new s w :
  server_wf X nobody nobody s ->
  wp (control_broadcast_vt_change old new) (fun _ s' w' =>
    server_wf X nobody nobody s' /\ same_core s s' /\ sys_le w w' /\
    forall c, c ∈ control_clients s -> told old new s s' w w' c) s w.
Proof.
  intros W. unfold control_broadcast_vt_change. wp_steps.
  apply (wp_for_each (fun l s' w' => server_wf X nobody nobody s' /\ same_core s s' /\ sys_le w w' /\
    NoDup l /\ (forall c, c ∈ l -> c ∈ control_clients s' /\ sv_controls s' !! c = sv_controls s !! c) /\
    forall c, c ∈ control_clients s -> c ∉ l -> told old new s s' w w' c)).
  - split_and!; try done. by destruct W.
  - intros c l s' w' (W' & Hc & Hle & Hnd & Hin & Htold). apply NoDup_cons in Hnd as [Hout Hnd]. wp_steps.
    destruct (Hin c (list_elem_of_here c l)) as [Hcin Ec].
    destruct (vw_control_list _ _ _ _ W' c Hcin) as [k Hk].
    eapply wp_mono; [eapply control_send_message_ok; [done..| |]|].
    { apply Forall_app. auto using int_bytes_byte. }
    { done. }
    intros r s1 w1 (W1 & Hc1 & El & Hle1 & conn & E1 & _ & Hr).
    assert (Hk1 : sv_controls s1 !! c = Some (set_cc_connection conn k))
      by (rewrite E1; apply lookup_insert_eq).
    assert (Hne : forall c0, c0 ≠ c -> sv_controls s1 !! c0 = sv_controls s' !! c0).
    { intros c0 Hc0. rewrite E1. by apply lookup_insert_ne. }
    destruct (Z.eqb_spec r (-1)) as [->|]; wp_steps.
    + destruct Hr as [[? _]|[_ Hf]]; [done|]. apply (wf_exempt _ X _ (eq c) _ nobody) in W1; [|done..].
      eapply wp_mono; [by eapply control_client_destroy_ok|].
      intros _ s2 w2 (W2 & Hc2 & Hq2 & E2 & Ed2). apply quiet_le in Hq2.
      apply broadcast_next with (c := c) (k := k) (s1 := s') (w1 := w'); try done.
      * by do 2 (etrans; [done|]).
      * by etrans.
      * intros c0 Hc0. rewrite E2, El, Ed2, lookup_delete_ne, elem_of_list_remove_id by done.
        split; [tauto|auto].
      * congruence.
      * right. rewrite Ed2, lookup_delete_eq. split; [done|]. by eapply refused_r.
    + destruct Hr as [[_ Hp]|[? _]]; [|done].
      apply broadcast_next with (c := c) (k := k) (s1 := s') (w1 := w'); try done.
      * by etrans.
      * intros c0 Hc0. by rewrite El, Hne.
      * congruence.
      * left. by exists conn, w', w1.
  - intros s' w' (W' & Hc & Hle & _ & _ & Htold). split_and!; try done. intros c Hcin.
    apply Htold; [done|]. apply not_elem_of_nil.
Qed.

End ControlDestroy.
