(* ===== verification/SeatOk.v ===== *)
(** * What the operations of a seat do

    Every operation of seat.c terminates without a failed assertion or an invalid
    dereference, keeps the invariant, and changes what its specification says and
    nothing else. *)
From S2P Require Import Prelude Kernel Connection Protocol Devices Terminal State Poller Send Seat Client.
From S2P Require Import Invariant Lifecycle Rules SendOk.

(** ** Virtual terminals *)

Section Vts.
Context `{K : Kernel} `{Kok : !KernelOk}.
Implicit Types (s : server) (w : sys).

Lemma vt_open_silent vt : 0 <= vt -> silent (vt_open vt).
Proof. intros. unfold vt_open. silent_auto. Qed.

Lemma vt_close_silent vt : 0 <= vt -> silent (vt_close vt).
Proof. intros. unfold vt_close. silent_auto. Qed.

(** [0] or [-1]: the result of a function that only reports failure. *)
Definition status (r : Z) : Prop := r = 0 \/ r = -1.

(** It fails only if the device cannot be opened. *)
Lemma vt_open_ok vt Q s w :
  0 <= vt -> (forall r w', quiet w w' -> (r = -1 -> refused w w') -> Q r s w') -> wp (vt_open vt) Q s w.
Proof.
  intros Hvt HQ. unfold vt_open. wp_steps. eapply wp_honest; [by apply terminal_open_honest|].
  intros f w1 Hq1 Hf. destruct (Z.eqb_spec f (-1)) as [->|]; wp_steps; [by apply HQ; auto|].
  apply wp_silent; [auto with silent|]. intros _ w2 Hq2. wp_steps.
  apply wp_silent; [auto with silent|]. intros _ w3 Hq3. wp_steps.
  apply wp_silent; [auto with silent|]. intros _ w4 Hq4. wp_steps.
  apply wp_silent; [auto with silent|]. intros _ w5 Hq5. wp_steps.
  apply HQ; [|done]. do 4 (etrans; [done|]). done.
Qed.

Lemma vt_close_ok vt Q s w :
  0 <= vt -> (forall r w', quiet w w' -> Q r s w') -> wp (vt_close vt) Q s w.
Proof. intros. apply wp_silent; [by apply vt_close_silent|done]. Qed.

Lemma seat_update_vt_ok p t Q s w :
  sv_seats s !! p = Some t ->
  (forall w', quiet w w' -> refused w w' -> Q (-1) s w') ->
  (forall vt w', quiet w w' -> 0 < vt -> Q 0 (put_seat p (set_cur_vt vt t) s) w') ->
  wp (seat_update_vt p) Q s w.
Proof.
  intros Ht HN HS. unfold seat_update_vt. wp_steps.
  eapply wp_honest; [by apply terminal_open_honest|]. intros fd0 w1 Hq1 Hf1.
  destruct (Z.eqb_spec fd0 (-1)) as [->|]; wp_steps; [by apply HN; auto|].
  eapply wp_honest; [by apply terminal_current_vt_honest|]. intros vt w2 Hq2 Hf2. wp_steps.
  apply wp_silent; [auto with silent|]. intros _ w3 Hq3.
  assert (quiet w w3) by (do 2 (etrans; [done|]); done).
  destruct (Z.leb_spec vt 0); wp_steps.
  - apply HN; [etrans; [done|apply quiet_errno]|].
    eapply refused_l; [apply quiet_le, Hq1|]. eapply refused_r; [by apply Hf2|].
    etrans; [by apply quiet_le|apply sys_le_errno].
  - eapply wp_upd_seat; [done|]. wp_steps. apply HS; [done|lia].
Qed.

Lemma vt_switch_ok p t vt Q s w :
  sv_seats s !! p = Some t -> 0 <= cur_vt t ->
  (forall r w', quiet w w' -> r = 0 \/ r = -1 /\ refused w w' -> Q r s w') -> wp (vt_switch p vt) Q s w.
Proof.
  intros Ht Hvt HQ. unfold vt_switch. wp_steps. eapply wp_get_seat; [done|]. wp_steps.
  eapply wp_honest; [by apply terminal_open_honest|]. intros fd0 w1 Hq1 Hf1.
  assert (Hfail : forall w', quiet w w' -> refused w w' -> wp
    (saved_errno ← get_errno; close fd0;; fail_with saved_errno (-1)) Q s w').
  { intros w' Hq' Hf'. wp_steps. apply wp_silent; [auto with silent|]. intros _ w4 Hq4. wp_steps.
    assert (quiet w' (Sys (trace w4) (errno w'))) by (etrans; [done|apply quiet_errno]).
    apply HQ; [by etrans|right]. split; [done|]. eapply refused_r; [done|by apply quiet_le]. }
  destruct (Z.eqb_spec fd0 (-1)) as [->|]; wp_steps; [apply HQ; auto|].
  eapply wp_honest; [apply ioctl_status_honest|]. intros r2 w2 Hq2 Hf2.
  assert (Hq2' : quiet w w2) by by etrans.
  destruct (Z.eqb_spec r2 (-1)) as [->|].
  { apply Hfail; [done|]. eapply refused_l; [apply quiet_le, Hq1|auto]. }
  wp_steps. eapply wp_honest; [apply ioctl_status_honest|]. intros r3 w3 Hq3 Hf3.
  assert (quiet w w3) by by etrans.
  destruct (Z.eqb_spec r3 (-1)) as [->|].
  { apply Hfail; [done|]. eapply refused_l; [apply quiet_le, Hq2'|auto]. }
  wp_steps.
  apply wp_silent; [auto with silent|]. intros _ w4 Hq4. wp_steps.
  apply HQ; [by etrans|by left].
Qed.

(** The calls [h] acknowledge a switch away from ([b]) or to the VT, unless the VT
    cannot be opened. *)
Definition acked (b : bool) (h : history) : Prop :=
  (exists x, x ∈ h /\ bad_reply x.1 x.2) \/
  exists f r, (Ioctl f (VT_RELDISP (if b then 1 else VT_ACKACQ)), r) ∈ h.

Lemma vt_ack_ok p t b Q s w :
  sv_seats s !! p = Some t -> 0 <= cur_vt t ->
  (forall r w' h, trace w' = h ++ trace w -> acked b h -> quiet w w' -> Q r s w') ->
  wp (vt_ack p b) Q s w.
Proof.
  intros Ht Hvt HQ. unfold vt_ack. wp_steps. eapply wp_get_seat; [done|]. wp_steps.
  eapply wp_honest; [by apply terminal_open_honest|]. intros f w1 Hq1 Hf1.
  destruct (Z.eqb_spec f (-1)) as [->|]; wp_steps.
  { destruct (Hf1 eq_refl) as (h & x & E & Hx & Hb). apply (HQ _ _ h); [done| |done]. left. eauto. }
  set (m := if b then terminal_ack_release f else terminal_ack_acquire f).
  assert (Em : m = (r ← ioctl f (VT_RELDISP (if b then 1 else VT_ACKACQ));
                    if r =? -1 then mret (-1) else mret 0)) by by destruct b.
  rewrite Em. unfold ioctl. wp_steps. apply wp_ext. intros r _. wp_steps.
  assert (Hrest : forall x : Z, wp (close f;; mret 0) Q s
    (logged w1 (Ioctl f (VT_RELDISP (if b then 1 else VT_ACKACQ))) r)).
  { intros _. unfold close. wp_steps. apply wp_ext. intros r2 _. wp_steps.
    destruct (quiet_le _ _ Hq1) as [h1 E1]. eapply HQ.
    - cbn. rewrite E1, !app_comm_cons. reflexivity.
    - right. exists f, r. right. left.
    - etrans; [exact Hq1|]. etrans; by apply quiet_logged. }
  destruct (r_ret r =? -1); wp_step; by apply Hrest.
Qed.

(** ** Who owns a VT *)

(** The client's own session, or a grouped VT it owns. *)
Definition owns_vt (t : seat) (c : nat) (k : client) (vt : Z) : bool :=
  (session k =? vt) ||
  match seat_find_group_vt t vt with Some g => bool_decide (owner g = c) | None => false end.

Lemma client_owns_vt_ok p t c k vt Q s w :
  sv_clients s !! c = Some k -> c_seat k = Some p -> sv_seats s !! p = Some t ->
  Q (owns_vt t c k vt) s w -> wp (client_owns_vt c vt) Q s w.
Proof.
  intros Hk Hp Ht HQ. unfold client_owns_vt, owns_vt in *. wp_steps. eapply wp_get_client; [done|].
  wp_steps. destruct (session k =? vt); cbn [orb] in *; wp_steps; [done|]. rewrite Hp.
  wp_steps. eapply wp_get_seat; [done|]. wp_steps. by destruct (seat_find_group_vt t vt); wp_steps.
Qed.

(** The VT a client is opened on is a VT it owns. *)
Definition open_vt (t : seat) (c : nat) (k : client) : Z :=
  if (0 <? cur_vt t) && owns_vt t c k (cur_vt t) then cur_vt t else session k.

Lemma vt_for_client_open_ok p t c k Q s w :
  sv_clients s !! c = Some k -> c_seat k = Some p -> sv_seats s !! p = Some t ->
  Q (open_vt t c k) s w -> wp (vt_for_client_open p c) Q s w.
Proof.
  intros Hk Hp Ht HQ. unfold vt_for_client_open, open_vt in *. wp_steps.
  eapply wp_get_seat; [done|]. wp_steps. destruct (0 <? cur_vt t); cbn [andb] in *; wp_steps.
  - eapply client_owns_vt_ok; [done..|]. destruct (owns_vt t c k (cur_vt t)); wp_steps; [done|].
    by eapply wp_get_client.
  - by eapply wp_get_client.
Qed.

Lemma open_vt_pos t c k : 0 < session k -> 0 < open_vt t c k.
Proof. unfold open_vt. intros. destruct (0 <? cur_vt t) eqn:E; cbn; [|done]. case_match; lia. Qed.

(** The first client of a list that passes a test. *)
Lemma first_client_ok f l Q s w :
  (forall c, c ∈ l -> is_Some (sv_clients s !! c)) ->
  (forall c k, c ∈ l -> sv_clients s !! c = Some k -> f k = true -> Q (Some c) s w) ->
  ((forall c k, c ∈ l -> sv_clients s !! c = Some k -> f k = false) -> Q None s w) ->
  wp (first_client f l) Q s w.
Proof.
  induction l as [|c l IH]; intros Hin HS HN; cbn [first_client].
  - wp_steps. apply HN. intros c k Hc. by apply not_elem_of_nil in Hc.
  - destruct (Hin c (list_elem_of_here c l)) as [k Hk]. wp_steps.
    eapply wp_get_client; [done|]. destruct (f k) eqn:E; wp_steps.
    + eapply HS; eauto. left.
    + apply IH.
      * intros c0 Hc0. apply Hin. by right.
      * intros c0 k0 Hc0. apply HS. by right.
      * intros Hall. apply HN. intros c0 k0 [->|Hc0]%elem_of_cons H0; [congruence|eauto].
Qed.

Lemma first_owner_ok p t vt l Q s w :
  sv_seats s !! p = Some t ->
  (forall c, c ∈ l -> exists k, sv_clients s !! c = Some k /\ c_seat k = Some p) ->
  (forall c k, c ∈ l -> sv_clients s !! c = Some k -> owns_vt t c k vt = true -> Q (Some c) s w) ->
  ((forall c k, c ∈ l -> sv_clients s !! c = Some k -> owns_vt t c k vt = false) -> Q None s w) ->
  wp (first_owner vt l) Q s w.
Proof.
  intros Ht. induction l as [|c l IH]; intros Hin HS HN; cbn [first_owner].
  - wp_steps. apply HN. intros c k Hc. by apply not_elem_of_nil in Hc.
  - destruct (Hin c (list_elem_of_here c l)) as (k & Hk & Hp). wp_steps.
    eapply client_owns_vt_ok; [done..|]. destruct (owns_vt t c k vt) eqn:E; wp_steps.
    + eapply HS; eauto. left.
    + apply IH.
      * intros c0 Hc0. apply Hin. by right.
      * intros c0 k0 Hc0. apply HS. by right.
      * intros Hall. apply HN. intros c0 k0 [->|Hc0]%elem_of_cons H0; [congruence|eauto].
Qed.

Lemma find_group_vt_elem t vt g :
  seat_find_group_vt t vt = Some g -> g ∈ group_vts t /\ group_vt g = vt.
Proof.
  unfold seat_find_group_vt. intros ((i & g') & Hf & [= <-])%fmap_Some.
  apply list_find_Some in Hf as (Hl & E & _). split; [|done]. by eapply list_elem_of_lookup_2.
Qed.

Lemma find_group_vt_none t vt :
  seat_find_group_vt t vt = None <-> vt ∉ group_vt <$> group_vts t.
Proof.
  unfold seat_find_group_vt. rewrite fmap_None, list_find_None, Forall_forall.
  rewrite list_elem_of_fmap. split; [intros Hn (g & -> & Hg); by eapply Hn|].
  intros Hn g Hg E. apply Hn. eauto.
Qed.

(** Describing owners only reads. *)
Lemma describe_vt_owner_ok X Y D p t vt Q s w :
  server_wf X Y D s -> sv_seats s !! p = Some t ->
  (forall o, Q o s w) -> wp (describe_vt_owner p vt) Q s w.
Proof.
  intros W Ht HQ. unfold describe_vt_owner. wp_case; wp_steps; [done|].
  eapply wp_get_seat; [done|]. wp_steps. pose proof (vw_seats _ _ _ _ W _ _ Ht) as Wt.
  destruct (seat_find_group_vt t vt) as [g|] eqn:Eg; wp_steps.
  - apply find_group_vt_elem in Eg as [Hg _].
    pose proof (sw_owners _ _ _ _ Wt) as Ho. rewrite Forall_forall in Ho.
    destruct (Ho _ Hg) as (_ & _ & k & Hk & _). eapply wp_get_client; [done|]. by wp_steps.
  - assert (Hmem : forall c, c ∈ clients t -> is_Some (sv_clients s !! c)).
    { intros c Hc. destruct (sw_members _ _ _ _ Wt c Hc) as (k & ? & _). eauto. }
    apply first_client_ok; [done| |].
    + intros c k Hc Hk _. wp_steps. eapply wp_get_client; [done|]. by wp_steps.
    + intros _. by wp_steps.
Qed.

Lemma describe_pending_ok X Y D p t Q s w :
  server_wf X Y D s -> sv_seats s !! p = Some t ->
  (forall o, Q o s w) -> wp (describe_pending_vt_target p) Q s w.
Proof.
  intros W Ht HQ. unfold describe_pending_vt_target. wp_steps. eapply wp_get_seat; [done|].
  wp_case; wp_steps; [done|]. by eapply describe_vt_owner_ok.
Qed.

End Vts.

(** ** A client whose connection and devices were touched *)

(** [k'] is [k] but for its connection, whose receiving side is the same, and
    the activity of its devices. *)
Definition touched (k k' : client) : Prop :=
  exists conn ds, k' = set_devices ds (set_c_connection conn k) /\
    same_in (c_connection k) conn /\ Forall2 same_device (devices k) ds.

Lemma touched_refl k : conn_wf (c_connection k) -> touched k k.
Proof.
  intros. exists (c_connection k), (devices k). split_and!; [by destruct k|done|].
  apply Forall_Forall2_diag, Forall_true. apply same_device_refl.
Qed.

Lemma same_device_trans d1 d2 d3 : same_device d1 d2 -> same_device d2 d3 -> same_device d1 d3.
Proof. unfold same_device. intros -> ->. done. Qed.

Lemma same_devices_trans l1 l2 l3 :
  Forall2 same_device l1 l2 -> Forall2 same_device l2 l3 -> Forall2 same_device l1 l3.
Proof.
  intros H1. revert l3. induction H1; intros l3 H2; inversion_clear H2; constructor; eauto.
  by eapply same_device_trans.
Qed.

Lemma touched_conn k conn : same_in (c_connection k) conn -> touched k (set_c_connection conn k).
Proof.
  intros. exists conn, (devices k). split_and!; [by destruct k|done|].
  apply Forall_Forall2_diag, Forall_true. apply same_device_refl.
Qed.

Lemma touched_devices k ds :
  conn_wf (c_connection k) -> Forall2 same_device (devices k) ds -> touched k (set_devices ds k).
Proof. intros. exists (c_connection k), ds. by destruct k. Qed.

Lemma touched_trans k1 k2 k3 : touched k1 k2 -> touched k2 k3 -> touched k1 k3.
Proof.
  intros (conn & ds & -> & Hin & Hds) (conn' & ds' & -> & Hin' & Hds'). exists conn', ds'.
  split_and!; [done|by eapply same_in_trans|by eapply same_devices_trans].
Qed.

Lemma touched_local X D s c k k' : client_wf X D s c k -> touched k k' -> client_local k k'.
Proof.
  intros W (conn & ds & -> & (Wc & _ & _) & Hds).
  destruct (client_local_refl _ _ _ _ _ W). split; try done; cbn.
  - by eapply same_devices_wf.
  - intros E. specialize (cl_idle E). rewrite cl_idle in Hds. by apply Forall2_nil_inv_l in Hds.
Qed.

Lemma wf_touched X Y D s c k k' :
  server_wf X Y D s -> sv_clients s !! c = Some k -> touched k k' ->
  server_wf X Y D (put_client c k' s).
Proof.
  intros W Hk T. eapply wf_put_client; [done..|]. eapply touched_local; [by eapply vw_clients|done].
Qed.

Lemma frame_touched s c k k' :
  sv_clients s !! c = Some k -> touched k k' -> frame s (put_client c k' s).
Proof. intros Hk (conn & ds & -> & (_ & ? & ?) & _). by eapply frame_put_client. Qed.

Lemma posted_quiet_l msg c1 c2 w0 w1 w2 :
  quiet w0 w1 -> posted msg c1 c2 w1 w2 -> posted msg c1 c2 w0 w2.
Proof. intros Hq (d & Hs & E). exists d. split; [by eapply sends_quiet_l|done]. Qed.

(** ** Opening a client *)

Section Open.
Context `{K : Kernel} `{Kok : !KernelOk}.
Implicit Types (s : server) (w : sys).

Definition enable_message : bytes := header_bytes (Header SERVER_ENABLE_SEAT 0).
Definition disable_message : bytes := header_bytes (Header SERVER_DISABLE_SEAT 0).

(** Why a client is not opened. *)
Definition open_refused (t : seat) (k : client) (w w' : sys) : Prop :=
  state k ≠ CLIENT_NEW /\ state k ≠ CLIENT_DISABLED /\ w' = Sys (trace w) EALREADY \/
  active_client t ≠ None /\ w' = Sys (trace w) EBUSY \/
  refused w w'.

(** What [seat_open_client] leaves: on success the client is active, its DRM
    devices are, and it was told; on failure, which has a reason, its state and
    the seat are as before. *)
Definition opened (p c : nat) (t : seat) (k : client) (s : server) (w : sys)
    (r : Z) (s' : server) (w' : sys) : Prop :=
  exists k', touched k k' /\
  (r = 0 /\ active_client t = None /\ (state k = CLIENT_NEW \/ state k = CLIENT_DISABLED) /\
     s' = put_seat p (set_active_client (Some c) t) (put_client c (set_state CLIENT_ACTIVE k') s) /\
     Forall2 (fun d d' => active d' = active d || is_drm d) (devices k) (devices k') /\
     posted enable_message (c_connection k) (c_connection k') w w' \/
   r = -1 /\ open_refused t k w w' /\ s' = put_client c k' s).

Lemma opened_wf X Y D p t c k s w r s' w' :
  server_wf X Y D s -> sv_seats s !! p = Some t -> sv_clients s !! c = Some k ->
  c_seat k = Some p -> c ∈ clients t -> opened p c t k s w r s' w' ->
  server_wf X Y D s' /\ frame s s'.
Proof.
  intros W Ht Hk Hp Hin (k' & T & [(-> & Ha & _ & -> & _)|(-> & _ & ->)]).
  - pose proof (touched_local _ _ _ _ _ _ (vw_clients _ _ _ _ W _ _ Hk) T) as []. split.
    + eapply wf_put_active; try done. intros a. congruence.
    + etrans; [by eapply frame_touched|].
      etrans; [|by apply frame_clients with (s := put_client c (set_state CLIENT_ACTIVE k') s)].
      rewrite <- (put_client_twice c (set_state CLIENT_ACTIVE k') k' s).
      eapply frame_put_client; [look|done..].
  - split; [by eapply wf_touched|by eapply frame_touched].
Qed.

(** A client that cannot be told is not opened. *)
Lemma open_undo_ok p t c k k1 s w w1 vt :
  touched k k1 -> devices_wf (devices k) -> refused w w1 -> 0 <= vt ->
  wp (for_devices c (fun _ => true) seat_deactivate_device;;
      (if vt_bound t then vt_close vt;; mret () else mret ());;
      mret (-1)) (opened p c t k s w) (put_client c k1 s) w1.
Proof.
  intros T1 Wd Hf Hvt. pose proof T1 as (conn & ds & E1 & Hin & Hsd). wp_step.
  eapply deactivate_devices_ok; [look|rewrite E1; by eapply same_devices_wf|].
  intros ds2 t2 w4 Hc4 Hds2. apply (deactivated_same (fun _ => true)) in Hds2. rewrite put_client_twice. wp_steps.
  assert (Hend : forall w', sys_le w4 w' -> opened p c t k s w (-1) (put_client c (set_devices ds2 k1) s) w').
  { intros w' Hle. eexists. split; [eapply touched_trans; [exact T1|]; apply touched_devices; [rewrite E1; apply Hin|done]|].
    right. split_and!; [done| |done]. right. right. eapply refused_r; [|exact Hle].
    eapply refused_r; [done|]. by eapply quiet_le, calls_quiet, Hc4; apply device_call_send. }
  destruct (vt_bound t); wp_steps; [|by apply Hend].
  apply vt_close_ok; [done|]. intros. wp_steps. by apply Hend, quiet_le.
Qed.

Lemma seat_open_client_ok X Y D p t c k s w :
  server_wf X Y D s -> sv_seats s !! p = Some t -> sv_clients s !! c = Some k ->
  c_seat k = Some p -> wp (seat_open_client p c) (opened p c t k s w) s w.
Proof.
  intros W Ht Hk Hp. pose proof (vw_clients _ _ _ _ W _ _ Hk) as Wk.
  assert (T0 : touched k k) by (apply touched_refl; apply Wk).
  assert (Hsame : forall w', open_refused t k w w' -> opened p c t k s w (-1) s w').
  { intros w' Hr. exists k. split; [done|]. right. by rewrite put_client_same. }
  assert (Hvt : 0 <= open_vt t c k).
  { pose proof (cw_seat _ _ _ _ _ Wk) as Hs. rewrite Hp in Hs. destruct Hs as [Hs _].
    pose proof (open_vt_pos t c k Hs). lia. }
  unfold seat_open_client. wp_steps. eapply wp_get_client; [done|]. wp_steps.
  eapply wp_get_seat; [done|]. wp_steps. apply wp_assert; [by apply bool_decide_eq_true|].
  destruct (negb _ && negb _) eqn:Est; wp_steps.
  { apply Hsame. left. rewrite andb_true_iff, !negb_true_iff, !bool_decide_eq_false in Est. tauto. }
  destruct (bool_decide (active_client t ≠ None)) eqn:Eact; wp_steps.
  { apply Hsame. right. left. by apply bool_decide_eq_true in Eact. }
  apply bool_decide_eq_false, dec_stable in Eact.
  eapply vt_for_client_open_ok; [done..|]. wp_steps.
  apply (wp_mono _ (fun r s' w' => s' = s /\ quiet w w' /\ (r = -1 -> refused w w'))).
  { destruct (vt_bound t); [by apply vt_open_ok|by wp_steps]. }
  intros r s1 w1 (-> & Hq1 & Hf1). destruct (vt_bound t && (r =? -1)) eqn:Er; wp_steps.
  { apply Hsame. right. right. apply Hf1. by apply andb_true_iff in Er as [_ ->%Z.eqb_eq]. }
  eapply activate_devices_ok; [done|apply Wk|]. intros ds1 t1 w2 Hc2 Hds1.
  assert (Hsd1 : Forall2 same_device (devices k) ds1) 
    by exact (activated_same (fun _ => true) _ _ _ Hds1).
  assert (T1 : touched k (set_devices ds1 k)) by (apply touched_devices; [apply Wk|done]).
  assert (W1 : server_wf X Y D (put_client c (set_devices ds1 k) s)) by by eapply wf_touched.
  assert (Hq2 : quiet w w2) by (etrans; [done|by eapply calls_quiet, Hc2; apply device_call_send]).
  wp_steps. eapply wp_mono; [eapply send_event_ok; [exact W1|look|apply header_bytes_byte]|].
  intros r2 s2 w3 (conn & -> & W2 & _ & Hin & Hr). cbn in Hin.
  rewrite put_client_twice in W2 |- *.
  assert (T2 : touched k (set_c_connection conn (set_devices ds1 k))).
  { eapply touched_trans; [done|]. by apply touched_conn. }
  destruct Hr as [(-> & Hp3)|(-> & _ & Hf3)].
  - wp_steps. eapply wp_upd_client; [look|]. wp_steps. rewrite put_client_twice.
    eapply wp_upd_seat; [look|]. wp_steps. eexists. split; [exact T2|]. left.
    split_and!; try done.
    + apply andb_false_iff in Est. rewrite !negb_false_iff, !bool_decide_eq_true in Est. tauto.
    + cbn. eapply Forall2_impl; [exact Hds1|]. by intros d d' [_ ->].
    + by eapply posted_quiet_l.
  - rewrite Z.eqb_refl. apply open_undo_ok; [done|apply Wk| |done]. eapply refused_l; [apply quiet_le, Hq2|]. by destruct Hf3 as [?|?].
Qed.

(** ** Choosing the next client *)

(** The client [seat_activate] opens: the queued one; else, on a VT-bound seat,
    one that owns the current VT; else the first one. *)
Definition chosen (t : seat) (c : nat) (k : client) : Prop :=
  next_client t = Some c \/
  next_client t = None /\
    (if vt_bound t then cur_vt t ≠ -1 /\ owns_vt t c k (cur_vt t) = true
     else clients t !! 0%nat = Some c).

(** There is no client to open. *)
Definition none_chosen (t : seat) (s : server) : Prop :=
  next_client t = None /\
  (clients t = [] \/ vt_bound t = true /\
     (cur_vt t = -1 \/ forall c k, c ∈ clients t -> sv_clients s !! c = Some k ->
        owns_vt t c k (cur_vt t) = false)).

Definition activated_seat (p : nat) (t : seat) (s : server) (w : sys)
    (r : Z) (s' : server) (w' : sys) : Prop :=
  if bool_decide (active_client t = None) then
    r = -1 /\ none_chosen t s /\ s' = s /\ w' = w \/
    exists c k, c ∈ clients t /\ sv_clients s !! c = Some k /\ c_seat k = Some p /\ chosen t c k /\
      opened p c (set_next_client None t) k (put_seat p (set_next_client None t) s) w r s' w'
  else r = 0 /\ s' = s /\ w' = w.

Lemma wf_clear_next X Y D s p t :
  server_wf X Y D s -> sv_seats s !! p = Some t ->
  server_wf X Y D (put_seat p (set_next_client None t) s).
Proof.
  intros W Ht. eapply wf_put_seat; [done..|]. by destruct (vw_seats _ _ _ _ W _ _ Ht).
Qed.

Lemma activated_seat_wf X Y D p t s w r s' w' :
  server_wf X Y D s -> sv_seats s !! p = Some t -> activated_seat p t s w r s' w' ->
  server_wf X Y D s' /\ frame s s'.
Proof.
  intros W Ht. unfold activated_seat. destruct (bool_decide _); [|by intros (_ & -> & _)].
  intros [(_ & _ & -> & _)|(c & k & Hin & Hk & Hp & _ & Ho)]; [done|].
  eapply opened_wf in Ho as [? ?]; [|by eapply wf_clear_next|look|done..].
  split; [done|]. etrans; [|done]. by apply frame_clients.
Qed.

Lemma opened_le p c t k s w r s' w' : opened p c t k s w r s' w' -> sys_le w w'.
Proof.
  intros (k' & _ & [(_ & _ & _ & _ & _ & Hp)|(_ & Hf & _)]); [by eapply posted_le|].
  destruct Hf as [(_ & _ & ->)|[(_ & ->)|Hf]]; [apply sys_le_errno..|by apply refused_le].
Qed.

Lemma activated_le p t s w r s' w' : activated_seat p t s w r s' w' -> sys_le w w'.
Proof.
  unfold activated_seat. destruct (bool_decide _); [|by intros (_ & _ & ->)].
  intros [(_ & _ & _ & ->)|(c & k & _ & _ & _ & _ & Ho)]; [done|by eapply opened_le].
Qed.

Lemma seat_activate_ok X Y D p t s w :
  server_wf X Y D s -> sv_seats s !! p = Some t ->
  wp (seat_activate p) (activated_seat p t s w) s w.
Proof.
  intros W Ht. pose proof (vw_seats _ _ _ _ W _ _ Ht) as Wt. unfold seat_activate, activated_seat.
  wp_steps. eapply wp_get_seat; [done|]. cbn beta.
  destruct (active_client t) as [a|] eqn:Ea; cbn beta iota; [by wp_steps|].
  rewrite bool_decide_eq_true_2 by done.
  assert (Hopen : forall c k, next_client t = None -> c ∈ clients t -> sv_clients s !! c = Some k ->
    chosen t c k -> wp (seat_open_client p c) (fun r s' w' => exists c k,
      c ∈ clients t /\ sv_clients s !! c = Some k /\ c_seat k = Some p /\ chosen t c k /\
      opened p c (set_next_client None t) k (put_seat p (set_next_client None t) s) w r s' w') s w).
  { intros c k En Hc Hk Hch. destruct (sw_members _ _ _ _ Wt _ Hc) as (k0 & H0 & Hp). simplify_eq.
    assert (Et : set_next_client None t = t) by (rewrite <- En; by destruct t).
    rewrite Et, (put_seat_same p t s Ht). eapply wp_mono; [by eapply seat_open_client_ok|].
    intros r s' w' Ho. by exists c, k. }
  destruct (next_client t) as [c|] eqn:En.
  { wp_steps. eapply wp_upd_seat; [done|]. wp_steps.
    pose proof (sw_next _ _ _ _ Wt _ En) as Hin.
    destruct (sw_members _ _ _ _ Wt _ Hin) as (k & Hk & Hp).
    eapply wp_mono; [eapply seat_open_client_ok; [by eapply wf_clear_next|look|done..]|].
    intros r s' w' Ho. right. exists c, k. split_and!; try done. by left. }
  destruct (clients t) as [|first rest] eqn:Ec.
  { wp_steps. left. split_and!; try done. split; [done|]. by left. }
  rewrite <- Ec in *. destruct (vt_bound t) eqn:Ev; cbn [andb].
  - destruct (Z.eqb_spec (cur_vt t) (-1)); wp_steps.
    { left. split_and!; try done. split; [done|]. right. auto. }
    eapply first_owner_ok; [done|by apply Wt| |].
    + intros c k Hc Hk Ho. eapply wp_mono; [eapply Hopen; try done|intros; by right].
      right. rewrite Ev. auto.
    + intros Hnone. wp_steps. left. split_and!; try done. split; [done|]. right. auto.
  - assert (Hin : first ∈ clients t) by (rewrite Ec; left).
    destruct (sw_members _ _ _ _ Wt _ Hin) as (k & Hk & _).
    eapply wp_mono; [eapply Hopen; try done|intros; by right].
    right. rewrite Ev, Ec. auto.
Qed.

End Open.

(** ** Disabling a client *)

Section Disable.
Context `{K : Kernel} `{Kok : !KernelOk}.
Variables X Y : nat -> Prop.
Abbreviation wf := (server_wf X Y nobody).
Implicit Types (s : server) (w : sys).

(** The seat of an open client is its own, and the client the active one. *)
Lemma wf_open_client s c k :
  wf s -> sv_clients s !! c = Some k -> is_open (state k) = true ->
  exists p t, c_seat k = Some p /\ sv_seats s !! p = Some t /\ c ∈ clients t /\
    active_client t = Some c.
Proof.
  intros W Hk Ho. destruct (vw_clients _ _ _ _ W _ _ Hk) as [_ _ _ _ Hs].
  destruct (c_seat k) as [p|]; [|destruct Hs; congruence].
  destruct Hs as (_ & t & Ht & [[]|[Hin Hact]]). eauto 8.
Qed.

Lemma wf_seated s c k p :
  wf s -> sv_clients s !! c = Some k -> c_seat k = Some p ->
  exists t, sv_seats s !! p = Some t /\ c ∈ clients t /\ 0 < session k.
Proof.
  intros W Hk Hp. destruct (vw_clients _ _ _ _ W _ _ Hk) as [_ _ _ _ Hs]. rewrite Hp in Hs.
  destruct Hs as (Hpos & t & Ht & [[]|[Hin _]]). eauto 8.
Qed.

(** The active client of a seat. *)
Lemma wf_active s p t a :
  wf s -> sv_seats s !! p = Some t -> active_client t = Some a ->
  exists k, a ∈ clients t /\ sv_clients s !! a = Some k /\ c_seat k = Some p /\
    is_open (state k) = true.
Proof.
  intros W Ht Ha. destruct (sw_active _ _ _ _ (vw_seats _ _ _ _ W _ _ Ht) _ Ha)
    as ([Hin|[]] & k & ? & ? & ?). eauto 8.
Qed.

(** A disabled client has lost its devices but for refused ioctls, waits for the
    acknowledgement, and was told unless its connection failed. *)
Definition disabled (c : nat) (k : client) (s : server) (w : sys)
    (r : Z) (s' : server) (w' : sys) : Prop :=
  exists k' t, touched k k' /\ s' = put_client c (set_state CLIENT_PENDING_DISABLE k') s /\
    Forall2 (fun d d' => deactivated d d' t) (devices k) (devices k') /\
    (exists t', trace w' = t' ++ t ++ trace w) /\
    (r = 0 /\ posted disable_message (c_connection k) (c_connection k') w w' \/ r = -1 /\ refused w w').

Lemma disabled_wf c k s w r s' w' :
  wf s -> sv_clients s !! c = Some k -> state k = CLIENT_ACTIVE ->
  disabled c k s w r s' w' -> wf s' /\ frame s s'.
Proof.
  intros W Hk Hst (k' & t & T & -> & _). destruct (touched_local _ _ _ _ _ _
    (vw_clients _ _ _ _ W _ _ Hk) T). split.
  - eapply wf_put_client; [done..|]. split; try done. cbn. by rewrite Hst.
  - destruct T as (conn & ds & -> & (_ & ? & ?) & _). by eapply frame_put_client.
Qed.

Lemma seat_disable_client_ok c k s w :
  wf s -> sv_clients s !! c = Some k -> state k = CLIENT_ACTIVE ->
  wp (seat_disable_client c) (disabled c k s w) s w.
Proof.
  intros W Hk Hst. destruct (wf_open_client s c k W Hk) as (p & t & Hp & Ht & Hin & Hact).
  { by rewrite Hst. }
  pose proof (vw_clients _ _ _ _ W _ _ Hk) as Wk. unfold seat_disable_client. wp_steps.
  eapply wp_get_client; [done|]. rewrite Hst. cbn [negb]. rewrite bool_decide_eq_true_2 by done.
  cbn [negb]. wp_steps. rewrite Hp. apply wp_assert; [done|]. wp_steps.
  apply (wp_deref _ p); [done|]. wp_steps. eapply wp_get_seat; [done|]. wp_steps.
  apply wp_assert; [by apply bool_decide_eq_true|]. wp_steps.
  eapply deactivate_devices_ok; [done|apply Wk|]. intros ds t1 w1 Hc1 Hds.
  assert (T1 : touched k (set_devices ds k)).
  { apply touched_devices; [apply Wk|]. by apply (deactivated_same (fun _ => true)) in Hds. }
  wp_steps. eapply wp_upd_client; [look|]. wp_steps. rewrite put_client_twice.
  set (k1 := set_state _ _).
  assert (W1 : wf (put_client c k1 s)).
  { destruct (touched_local _ _ _ _ _ _ Wk T1). eapply wf_put_client; [done..|].
    split; try done. cbn. by rewrite Hst. }
  eapply wp_mono; [eapply send_event_ok; [exact W1|look|apply header_bytes_byte]|].
  intros r s2 w2 (conn & -> & W2 & _ & Hsi & Hr). rewrite put_client_twice.
  assert (T2 : touched k (set_c_connection conn (set_devices ds k))).
  { eapply touched_trans; [done|]. by apply touched_conn. }
  assert (Hpost : forall r, (r = 0 /\ posted disable_message (c_connection k) conn w w2 \/
      r = -1 /\ refused w w2) ->
    disabled c k s w r (put_client c (set_c_connection conn k1) s) w2).
  { intros r' Hr'. eexists _, t1. split; [exact T2|]. split_and!; [done..| |done].
    assert (Hle : sys_le w1 w2).
    { destruct Hr as [(_ & d & [? _] & _)|(_ & [(d & [? _] & _)|(d & [? _] & _)] & _)]; done. }
    destruct Hle as [t' E']. exists t'. rewrite E'. by destruct Hc1 as [-> _]. }
  assert (Hq1 : quiet w w1) by (eapply calls_quiet, Hc1; apply device_call_send).
  destruct Hr as [(-> & Hp2)|(-> & _ & [Hf|?])]; wp_steps; [apply Hpost; left|apply Hpost; right|done].
  - split; [done|]. by eapply posted_quiet_l.
  - split; [done|]. by eapply refused_l; [apply quiet_le, Hq1|].
Qed.

(** ** Acknowledging *)

Lemma seat_ack_disable_ok c k p t s w :
  wf s -> sv_clients s !! c = Some k -> c_seat k = Some p -> sv_seats s !! p = Some t ->
  wp (seat_ack_disable_client c) (fun r s' w' =>
    if bool_decide (state k = CLIENT_PENDING_DISABLE) then
      r = 0 /\
      exists r1, activated_seat p (set_active_client None t)
        (put_seat p (set_active_client None t) (put_client c (set_state CLIENT_DISABLED k) s)) w r1 s' w'
    else r = -1 /\ errno w' = EBUSY /\ s' = s) s w.
Proof.
  intros W Hk Hp Ht. unfold seat_ack_disable_client. wp_steps. eapply wp_get_client; [done|].
  wp_steps. case_bool_decide as Hst; cbn [negb]; wp_steps; [|done].
  destruct (wf_open_client s c k W Hk) as (p' & t' & Hp' & Ht' & Hin & Hact).
  { by rewrite Hst. }
  simplify_eq. eapply wp_upd_client; [done|]. wp_steps. apply (wp_deref _ p); [done|]. wp_steps.
  eapply wp_get_seat; [look|]. wp_steps. rewrite Hact, bool_decide_eq_true_2 by done.
  cbn [negb]. wp_steps. eapply wp_upd_seat; [look|]. wp_steps.
  pose proof (vw_clients _ _ _ _ W _ _ Hk) as [].
  eapply wp_mono; [eapply seat_activate_ok; [|look]|].
  - eapply wf_put_active; try done. intros a. congruence.
  - intros r s' w' Hact'. wp_steps. split; [done|]. by exists r.
Qed.

Lemma wf_ack s c k p t :
  wf s -> sv_clients s !! c = Some k -> c_seat k = Some p -> sv_seats s !! p = Some t ->
  state k = CLIENT_PENDING_DISABLE ->
  wf (put_seat p (set_active_client None t) (put_client c (set_state CLIENT_DISABLED k) s)).
Proof.
  intros W Hk Hp Ht Hst. destruct (wf_open_client s c k W Hk) as (p' & t' & Hp' & Ht' & Hin & Hact).
  { by rewrite Hst. }
  simplify_eq. pose proof (vw_clients _ _ _ _ W _ _ Hk) as [].
  eapply wf_put_active; try done. intros a. congruence.
Qed.

Lemma seat_ack_disable_wf c k p t s w :
  wf s -> sv_clients s !! c = Some k -> c_seat k = Some p -> sv_seats s !! p = Some t ->
  wp (seat_ack_disable_client c) (fun r s' w' => wf s' /\ frame s s' /\ status r) s w.
Proof.
  intros W Hk Hp Ht. eapply wp_mono; [by eapply seat_ack_disable_ok|].
  intros r s' w'. cbn beta. case_bool_decide as Hst.
  - intros (-> & r1 & Ha). eapply activated_seat_wf in Ha as [W' F]; [|by eapply wf_ack|look].
    split_and!; [done| |by left]. etrans; [|exact F].
    etrans; [|by apply frame_clients with (s := put_client c (set_state CLIENT_DISABLED k) s)].
    by eapply frame_put_client.
  - intros (-> & _ & ->). split_and!; [done..|by right].
Qed.

End Disable.
