(* ===== verification/SeatSwitch.v ===== *)
(** * Switching sessions and virtual terminals *)
From S2P Require Import Prelude Kernel Connection Protocol Devices Terminal State Poller Send Seat Client.
From S2P Require Import Invariant Lifecycle Rules SendOk SeatOk.

Section Switch.
Context `{K : Kernel} `{Kok : !KernelOk}.
Variables X Y : nat -> Prop.
Abbreviation wf := (server_wf X Y nobody).
Implicit Types (s : server) (w : sys).

(** ** Updates of the seat's own fields *)

Lemma wf_set_pending s p t n :
  wf s -> sv_seats s !! p = Some t -> 0 <= n -> wf (put_seat p (set_pending_vt_switch n t) s).
Proof.
  intros W Ht Hn. eapply wf_put_seat; [done..|]. by destruct (vw_seats _ _ _ _ W _ _ Ht).
Qed.

Lemma wf_set_cur_vt s p t n :
  wf s -> sv_seats s !! p = Some t -> 0 < n -> wf (put_seat p (set_cur_vt n t) s).
Proof.
  intros W Ht Hn. eapply wf_put_seat; [done..|]. destruct (vw_seats _ _ _ _ W _ _ Ht).
  split; try done. by right.
Qed.

Lemma wf_set_next s p t c :
  wf s -> sv_seats s !! p = Some t -> c ∈ clients t ->
  wf (put_seat p (set_next_client (Some c) t) s).
Proof.
  intros W Ht Hc. eapply wf_put_seat; [done..|]. destruct (vw_seats _ _ _ _ W _ _ Ht).
  split; try done. cbn. by intros ? [= <-].
Qed.

Lemma frame_put_seat s p t : frame s (put_seat p t s).
Proof. by apply frame_clients. Qed.

Lemma set_pending_zero t : pending_vt_switch t = 0 -> set_pending_vt_switch 0 t = t.
Proof. intros E. rewrite <- E. by destruct t. Qed.

(** ** seat_set_next_session *)

(** The outcome of a switch request of the active client, branch by branch. *)
Definition switch_post (c : nat) (k : client) (p : nat) (t : seat) (n : Z) (s : server) (w : sys)
    (r : Z) (s' : server) (w' : sys) : Prop :=
  if negb (bool_decide (state k = CLIENT_ACTIVE)) then r = -1 /\ errno w' = EPERM /\ s' = s
  else if n <=? 0 then r = -1 /\ errno w' = EINVAL /\ s' = s
  else if (if vt_bound t then cur_vt t =? n else n =? session k) then r = 0 /\ s' = s
  else if 0 <? pending_vt_switch t then r = -1 /\ errno w' = EBUSY /\ s' = s
  else if bool_decide (next_client t ≠ None) then r = 0 /\ s' = s
  else if vt_bound t then
    r = 0 /\ s' = put_seat p (set_pending_vt_switch n t) s \/ r = -1 /\ refused w w' /\ s' = s
  else
    r = -1 /\ errno w' = EINVAL /\ s' = s /\
      (forall c' k', c' ∈ clients t -> sv_clients s !! c' = Some k' -> session k' ≠ n) \/
    r = 0 /\ exists c' k' r1, c' ∈ clients t /\ sv_clients s !! c' = Some k' /\ session k' = n /\
      disabled c k (put_seat p (set_next_client (Some c') t) s) w r1 s' w'.

Lemma seat_set_next_session_ok c k p t n s w :
  wf s -> sv_clients s !! c = Some k -> c_seat k = Some p -> sv_seats s !! p = Some t ->
  wp (seat_set_next_session c n) (switch_post c k p t n s w) s w.
Proof.
  intros W Hk Hp Ht. pose proof (vw_seats _ _ _ _ W _ _ Ht) as Wt.
  destruct (wf_seated _ _ _ _ _ _ W Hk Hp) as (t' & Ht' & Hin & Hpos). simplify_eq.
  unfold seat_set_next_session, switch_post. wp_steps. eapply wp_get_client; [done|]. wp_steps.
  case_bool_decide as Hst; cbn [negb]; wp_steps; [|done].
  destruct (wf_open_client _ _ s c k W Hk) as (p' & t' & Hp' & Ht' & _ & Hact); [by rewrite Hst|].
  simplify_eq. apply (wp_deref _ p); [done|]. wp_steps. eapply wp_get_seat; [done|]. wp_steps.
  apply wp_assert; [by apply bool_decide_eq_true|]. wp_case; wp_steps; [done|].
  destruct (vt_bound t) eqn:Ev; cbn [andb negb].
  - destruct (cur_vt t =? n); wp_steps; [done|]. destruct (0 <? pending_vt_switch t) eqn:Epe; wp_steps; [done|].
    destruct (bool_decide (next_client t ≠ None)); wp_steps; [done|].
    assert (Hvt : 0 <= cur_vt t).
    { apply Z.lt_le_incl, Wt; [done|]. intros E0. rewrite E0 in Hin. by apply not_elem_of_nil in Hin. }
    eapply wp_upd_seat; [done|]. wp_steps. eapply vt_switch_ok; [look|done|].
    intros r w1 _ [-> | [-> Hf]]; wp_steps; [by left|].
    eapply wp_upd_seat; [look|]. wp_steps. right. split; [done|]. split; [done|].
    rewrite put_seat_twice, put_seat_same; [done|].
    pose proof (sw_pending _ _ _ _ Wt). cbn. rewrite Ht. f_equal. symmetry.
    rewrite <- (set_pending_zero t) at 2 by lia. done.
  - destruct (n =? session k); wp_steps; [done|].
    destruct (0 <? pending_vt_switch t) eqn:Epe; wp_steps; [done|].
    destruct (bool_decide (next_client t ≠ None)); wp_steps; [done|].
    eapply first_client_ok.
    + intros c0 Hc0. destruct (sw_members _ _ _ _ Wt c0 Hc0) as (k0 & ? & _). eauto.
    + intros c0 k0 Hc0 Hk0 E0. cbn beta iota. wp_steps. eapply wp_upd_seat; [done|]. wp_steps.
      apply (wp_deref _ c); [done|]. wp_steps.
      eapply wp_mono; [eapply seat_disable_client_ok; [by eapply wf_set_next|done..]|].
      intros r1 s' w' Hd. wp_steps. right. split; [done|]. exists c0, k0, r1.
      split_and!; try done. lia.
    + intros Hnone. wp_steps. left. split_and!; try done. intros c0 k0 Hc0 Hk0.
      specialize (Hnone _ _ Hc0 Hk0). cbn in Hnone. lia.
Qed.

Lemma seat_set_next_session_wf c k p t n s w :
  wf s -> sv_clients s !! c = Some k -> c_seat k = Some p -> sv_seats s !! p = Some t ->
  wp (seat_set_next_session c n) (fun r s' w' => wf s' /\ frame s s' /\ status r) s w.
Proof.
  intros W Hk Hp Ht. eapply wp_mono; [by eapply seat_set_next_session_ok|].
  assert (Hsame : forall r, status r -> wf s /\ frame s s /\ status r) by done.
  unfold status in Hsame |- *. intros r s' w'. unfold switch_post.
  case_bool_decide as Hst; cbn [negb]; [|intros (-> & _ & ->); auto].
  destruct (n <=? 0) eqn:En; [intros (-> & _ & ->); auto|].
  generalize (if vt_bound t then cur_vt t =? n else n =? session k) as here.
  intros [|]; [intros (-> & ->); auto|].
  destruct (0 <? _); [intros (-> & _ & ->); auto|].
  destruct (bool_decide (next_client t ≠ None)); [intros (-> & ->); auto|].
  destruct (vt_bound t).
  - intros [(-> & ->)|(-> & _ & ->)]; [|auto].
    split_and!; [apply wf_set_pending; [done..|lia]|apply frame_put_seat|auto].
  - intros [(-> & _ & -> & _)|(-> & c0 & k0 & r1 & Hc0 & Hk0 & _ & Hd)]; [auto|].
    eapply disabled_wf in Hd as [W' F]; [|by eapply wf_set_next|done..].
    split_and!; [done| |auto]. etrans; [|exact F]. apply frame_put_seat.
Qed.

(** ** Requests of the control socket *)

(** The invariant is kept, and the control side untouched. *)
Definition kept (s s' : server) : Prop :=
  wf s' /\ frame s s' /\ sv_controls s' = sv_controls s /\ control_clients s' = control_clients s.

Lemma kept_refl s : wf s -> kept s s.
Proof. done. Qed.

Lemma kept_put_seat s p t : wf (put_seat p t s) -> kept s (put_seat p t s).
Proof. intros. split_and!; try done. apply frame_put_seat. Qed.

(** A switch asked for on the control socket: the current VT is read first;
    being there already is success, a switch under way refuses a second one, and
    the recorded switch is taken back if the kernel does not start it. *)
Definition control_switch_post (p : nat) (t : seat) (vt : Z) (s : server) (w : sys)
    (r : Z) (s' : server) (w' : sys) : Prop :=
  if negb (vt_bound t) || (vt <=? 0) then r = -1 /\ errno w' = EINVAL /\ s' = s else
  r = -1 /\ refused w w' /\ s' = s \/
  exists cur, 0 < cur /\ let t1 := set_cur_vt cur t in
    if cur =? vt then r = 0 /\ s' = put_seat p t1 s
    else if 0 <? pending_vt_switch t then r = -1 /\ errno w' = EBUSY /\ s' = put_seat p t1 s
    else r = 0 /\ s' = put_seat p (set_pending_vt_switch vt t1) s \/
         r = -1 /\ refused w w' /\ s' = put_seat p (set_pending_vt_switch 0 t1) s.

Lemma seat_switch_vt_ok p t vt s w :
  sv_seats s !! p = Some t ->
  wp (seat_switch_vt p vt) (control_switch_post p t vt s w) s w.
Proof.
  intros Ht. unfold seat_switch_vt, control_switch_post. wp_steps.
  eapply wp_get_seat; [done|]. destruct (negb (vt_bound t)); cbn [orb]; wp_steps; [done|].
  destruct (vt <=? 0); wp_steps; [done|].
  eapply seat_update_vt_ok; [done|intros; wp_steps; by left|]. intros cur w1 Hq1 Hcur. wp_steps.
  eapply wp_get_seat; [look|]. cbn [cur_vt set_cur_vt pending_vt_switch].
  destruct (cur =? vt) eqn:Ec; wp_steps; [right; exists cur; by rewrite Ec|].
  destruct (0 <? pending_vt_switch t) eqn:Ep; wp_steps; [right; exists cur; by rewrite Ec|].
  eapply wp_upd_seat; [look|]. wp_steps. rewrite put_seat_twice.
  eapply vt_switch_ok; [look|cbn; lia|]. intros r w2 Hq2 [-> | [-> Hf]]; wp_steps.
  - right. exists cur. rewrite Ec. auto.
  - eapply wp_upd_seat; [look|]. wp_steps. rewrite put_seat_twice. right. exists cur. rewrite Ec.
    split; [done|]. right. split_and!; [done| |done]. eapply refused_l; [by apply quiet_le|done].
Qed.

Lemma control_switch_kept p t vt s w r s' w' :
  wf s -> sv_seats s !! p = Some t -> control_switch_post p t vt s w r s' w' -> kept s s' /\ status r.
Proof.
  intros W Ht. pose proof (kept_refl _ W). unfold control_switch_post, status.
  destruct (negb (vt_bound t)); cbn [orb]; [intros (-> & _ & ->); auto|].
  destruct (Z.leb_spec vt 0); [intros (-> & _ & ->); auto|].
  intros [(-> & _ & ->)|(cur & Hcur & Hp)]; [auto|].
  assert (W1 : wf (put_seat p (set_cur_vt cur t) s)) by (apply wf_set_cur_vt; [done..|lia]).
  pose proof (kept_put_seat _ _ _ W1).
  assert (Hpend : forall n, 0 <= n -> kept s (put_seat p (set_pending_vt_switch n (set_cur_vt cur t)) s)).
  { intros n Hn. apply kept_put_seat. rewrite <- (put_seat_twice p _ (set_cur_vt cur t)).
    eapply wf_set_pending; [done|look|done]. }
  cbn zeta in Hp. destruct (cur =? vt); [destruct Hp as (-> & ->); auto|].
  destruct (0 <? _); [destruct Hp as (-> & _ & ->); auto|].
  destruct Hp as [(-> & ->)|(-> & _ & ->)]; (split; [apply Hpend; lia|auto]).
Qed.

Lemma seat_get_active_vt_ok p t s w :
  wf s -> sv_seats s !! p = Some t ->
  wp (seat_get_active_vt p) (fun r s' w' => kept s s') s w.
Proof.
  intros W Ht. pose proof (kept_refl _ W). unfold seat_get_active_vt. wp_steps.
  eapply wp_get_seat; [done|]. wp_case; wp_steps; [by auto|].
  eapply seat_update_vt_ok; [done|intros; wp_steps; by auto|]. intros cur w1 _ Hcur. wp_steps.
  eapply wp_get_seat; [look|]. wp_steps. apply kept_put_seat, wf_set_cur_vt; [done..|lia].
Qed.

Lemma seat_find_available_vt_ok p t Q s w :
  sv_seats s !! p = Some t -> (forall r w', quiet w w' -> Q r s w') ->
  wp (seat_find_available_vt p) Q s w.
Proof.
  intros Ht HQ. unfold seat_find_available_vt. wp_steps. eapply wp_get_seat; [done|].
  wp_case; wp_steps; [apply HQ, quiet_errno|].
  apply wp_silent; [by apply terminal_open_silent|]. intros fd0 w1 Hq1.
  wp_case; wp_steps; [by apply HQ|].
  apply wp_silent; [auto with silent|]. intros vt w2 Hq2. wp_steps.
  apply wp_silent; [auto with silent|]. intros _ w3 Hq3. wp_steps.
  assert (quiet w w3) by (do 2 (etrans; [done|]); done).
  wp_case; wp_steps; apply HQ; [|done]. etrans; [done|apply quiet_errno].
Qed.

(** ** Grouped VTs *)

Lemma wf_add_group s p t own vt user sess :
  wf s -> sv_seats s !! p = Some t -> own ∈ clients t -> 0 < vt ->
  seat_find_group_vt t vt = None ->
  wf (put_seat p (set_group_vts (SeatGroupVt own vt user sess :: group_vts t) t) s).
Proof.
  intros W Ht Ho Hvt Hn. eapply wf_put_seat; [done..|]. destruct (vw_seats _ _ _ _ W _ _ Ht).
  split; try done; cbn -[fmap].
  - rewrite fmap_cons. constructor; [by apply find_group_vt_none|done].
  - constructor; [|done]. cbn. split_and!; [done|by left|by apply sw_members].
Qed.

(** A grouped VT is created for a free VT number only, and registered with its
    owner; otherwise nothing changes. *)
Definition group_post (p own : nat) (t : seat) (k : client) (req : Z) (user sess : bytes)
    (s : server) (w : sys) (r : Z) (s' : server) (w' : sys) : Prop :=
  r = -1 /\ s' = s /\
    (vt_bound t = false /\ errno w' = EINVAL \/ refused w w' \/
     exists vt, (0 < req -> vt = req) /\ (vt = session k \/ seat_find_group_vt t vt ≠ None) /\
       errno w' = EBUSY) \/
  0 < r /\ (0 < req -> r = req) /\ r ≠ session k /\ seat_find_group_vt t r = None /\
    vt_bound t = true /\
    s' = put_seat p (set_group_vts (SeatGroupVt own r user sess :: group_vts t) t) s.

(** The VT a request is about: the one asked for, or one the kernel says is free. *)
Lemma group_vt_choice_ok req s w :
  wp (if req <=? 0 then
        tty0fd ← terminal_open 0;
        if tty0fd =? -1 then mret (-1) else
        vt ← terminal_find_available tty0fd;
        close tty0fd;;
        mret vt
      else mret req)
    (fun vt s' w' => s' = s /\ quiet w w' /\ (vt = -1 /\ refused w w' \/ 0 < vt /\ (0 < req -> vt = req))) s w.
Proof.
  destruct (Z.leb_spec req 0); wp_steps; [|split_and!; [done..|right; lia]].
  eapply wp_honest; [by apply terminal_open_honest|]. intros f w1 Hq1 Hf1.
  destruct (Z.eqb_spec f (-1)) as [->|]; wp_steps; [split_and!; auto|].
  apply terminal_find_available_ok. intros vt w2 Hq2 Hvt. wp_steps.
  apply wp_silent; [auto with silent|]. intros _ w3 Hq3. wp_steps.
  split_and!; [done|do 2 (etrans; [done|]); done|]. destruct Hvt as [[-> Hf]|?]; [left|right; lia].
  split; [done|]. eapply refused_l; [apply quiet_le, Hq1|]. eapply refused_r; [done|by apply quiet_le].
Qed.

Lemma seat_create_group_vt_ok p t own k req user sess s w :
  sv_seats s !! p = Some t -> sv_clients s !! own = Some k -> c_seat k = Some p ->
  wp (seat_create_group_vt p own req user sess) (group_post p own t k req user sess s w) s w.
Proof.
  intros Ht Hk Hp. unfold seat_create_group_vt, group_post. wp_steps. eapply wp_get_seat; [done|].
  destruct (vt_bound t) eqn:Ev; cbn [negb]; wp_steps; [|by auto 8].
  eapply wp_get_client; [done|]. rewrite Hp, bool_decide_eq_true_2 by done. cbn [negb]. wp_step.
  eapply wp_mono; [apply group_vt_choice_ok|]. cbn beta. intros vt s1 w1 (-> & Hq1 & Hvt).
  destruct (Z.eqb_spec vt (-1)) as [->|]; wp_steps; [destruct Hvt as [[_ ?]|[? _]]; [by auto 8|lia]|].
  destruct Hvt as [[? _]|[Hpos Hreq]]; [done|].
  destruct ((vt =? session k) || _) eqn:E0; wp_steps.
  { left. split_and!; [done..|]. right. right. exists vt. split_and!; [done| |done].
    by apply orb_true_iff in E0 as [?%Z.eqb_eq|?%bool_decide_eq_true]; [left|right]. }
  apply orb_false_iff in E0 as [Es Eg]. apply bool_decide_eq_false, dec_stable in Eg.
  assert (Hfail : forall w', refused w1 w' -> refused w w') by (intros; by eapply refused_l; [apply quiet_le|]).
  apply wp_ext. intros r1 _. destruct (Z.eqb_spec (r_ret r1) (-1)); wp_steps.
  { left. split_and!; [done..|]. right. left. apply Hfail, refused_logged. by left. }
  apply wp_ext. intros r2 _. wp_steps. apply wp_ext. intros r3 _.
  set (w3 := logged (logged (logged _ _ _) _ _) _ _).
  assert (Hq3 : quiet w1 w3) by (do 2 (etrans; [|by apply quiet_logged]); by apply quiet_logged).
  destruct ((r_ret r2 =? -1) || (r_ret r3 =? -1)) eqn:Er; wp_steps.
  { left. split_and!; [done..|]. right. left. apply Hfail.
    exists [(Strdup sess, r3); (Strdup user, r2); (Calloc, r1)].
    apply orb_true_iff in Er as [Er%Z.eqb_eq|Er%Z.eqb_eq];
      [exists (Strdup user, r2)|exists (Strdup sess, r3)]; (split; [done|]; split; [|by left]); set_solver. }
  apply vt_open_ok; [lia|]. intros r4 w4 _ Hf4. destruct (Z.eqb_spec r4 (-1)); wp_steps.
  { left. split_and!; [done..|]. right. left. apply Hfail. eapply refused_l; [by apply quiet_le|auto]. }
  eapply wp_upd_seat; [done|]. wp_steps. right. split_and!; try done. lia.
Qed.

Lemma group_post_kept p t own k req user sess s w r s' w' :
  wf s -> sv_seats s !! p = Some t -> sv_clients s !! own = Some k -> c_seat k = Some p ->
  group_post p own t k req user sess s w r s' w' -> kept s s'.
Proof.
  intros W Ht Hk Hp [(-> & -> & _)|(? & _ & _ & ? & _ & ->)]; [done|].
  destruct (wf_seated _ _ _ _ _ _ W Hk Hp) as (t' & ? & ? & _). simplify_eq.
  by apply kept_put_seat, wf_add_group.
Qed.

End Switch.
