(* ===== verification/SeatVt.v ===== *)
(** * Grouped VTs, VT signals and VT change events *)
From S2P Require Import Prelude Kernel Connection Protocol Devices Terminal State Poller Send Seat Client.
From S2P Require Import Invariant Lifecycle Rules SendOk SeatOk SeatSwitch.

(** ** Removing grouped VTs *)

Section Groups.
Context `{K : Kernel} `{Kok : !KernelOk}.
Variables X Y D : nat -> Prop.
Implicit Types (s : server) (w : sys).

Lemma wf_remove_group s p t vt :
  server_wf X Y D s -> sv_seats s !! p = Some t ->
  server_wf X Y D (put_seat p (remove_group_vt vt t) s).
Proof.
  intros W Ht. eapply wf_put_seat; [done..|]. destruct (vw_seats _ _ _ _ W _ _ Ht).
  split; try done; cbn -[fmap filter].
  - by apply NoDup_fmap_filter.
  - by apply Forall_filter_keep.
Qed.

Lemma drop_group_vt_ok p t g Q s w :
  sv_seats s !! p = Some t -> 0 <= group_vt g ->
  (forall w', quiet w w' -> Q () (put_seat p (remove_group_vt (group_vt g) t) s) w') ->
  wp (drop_group_vt p g) Q s w.
Proof.
  intros Ht Hvt HQ. unfold drop_group_vt. wp_steps. eapply wp_upd_seat; [done|]. wp_steps.
  eapply wp_get_seat; [look|]. wp_case; wp_steps; [|by apply HQ].
  apply vt_close_ok; [done|]. intros r w' Hq. wp_steps. by apply HQ.
Qed.

(** Destroying a grouped VT: it is gone, or it was not there. *)
Lemma seat_destroy_group_vt_ok p t vt s w :
  server_wf X Y D s -> sv_seats s !! p = Some t ->
  wp (seat_destroy_group_vt p vt) (fun r s' w' =>
    match seat_find_group_vt t vt with
    | None => r = -1 /\ errno w' = ENOENT /\ s' = s
    | Some _ => r = 0 /\ s' = put_seat p (remove_group_vt vt t) s
    end) s w.
Proof.
  intros W Ht. unfold seat_destroy_group_vt. wp_steps. eapply wp_get_seat; [done|].
  destruct (seat_find_group_vt t vt) as [g|] eqn:Eg; wp_steps; [|done].
  apply find_group_vt_elem in Eg as [Hg <-].
  pose proof (sw_owners _ _ _ _ (vw_seats _ _ _ _ W _ _ Ht)) as Ho. rewrite Forall_forall in Ho.
  destruct (Ho _ Hg) as (Hpos & _). eapply drop_group_vt_ok; [done|lia|]. intros. by wp_steps.
Qed.

(** A grouped VT just registered is found, and its removal restores the seat. *)
Lemma group_vt_known p t own k vt user sess s w :
  server_wf X Y D s -> sv_seats s !! p = Some t -> sv_clients s !! own = Some k -> 0 < vt ->
  seat_find_group_vt t vt = None ->
  server_wf X Y D (put_seat p (set_group_vts (SeatGroupVt own vt user sess :: group_vts t) t) s) ->
  let s' := put_seat p (set_group_vts (SeatGroupVt own vt user sess :: group_vts t) t) s in
  seat_get_group_vt_owner_pid p vt s' w = Done (Some (c_pid k), s', w) /\
  exists w'', seat_destroy_group_vt p vt s' w = Done (0, s, w'').
Proof.
  intros W Ht Hk Hvt Hnew W' s'. set (t' := set_group_vts _ t) in s'.
  assert (Hfind : seat_find_group_vt t' vt = Some (SeatGroupVt own vt user sess)).
  { unfold seat_find_group_vt, t'. cbn. by rewrite decide_True. }
  split.
  - apply wp_exact. unfold seat_get_group_vt_owner_pid. wp_steps. eapply wp_get_seat; [look|].
    rewrite Hfind. wp_steps. eapply wp_get_client; [done|]. by wp_steps.
  - pose proof (seat_destroy_group_vt_ok p t' vt s' w W' ltac:(look)) as Hd. rewrite Hfind in Hd.
    destruct (wp_done _ _ _ _ Hd) as (r & s2 & w2 & E & -> & ->). exists w2. rewrite E.
    do 2 f_equal. unfold s'. rewrite put_seat_twice.
    replace (remove_group_vt vt t') with t; [by rewrite put_seat_same|].
    unfold remove_group_vt, t'. cbn [group_vts set_group_vts]. rewrite filter_cons_False by tauto.
    rewrite filter_keeps_all; [by destruct t|]. apply Forall_forall. intros g Hg E'.
    apply find_group_vt_none in Hnew. apply Hnew, list_elem_of_fmap. eauto.
Qed.

End Groups.

(** ** VT signals *)

Section Signals.
Context `{K : Kernel} `{Kok : !KernelOk}.
Variables X Y : nat -> Prop.
Abbreviation wf := (server_wf X Y nobody).
Implicit Types (s : server) (w : sys).

(** The seat after [seat_update_vt], whose failure the signal handlers ignore. *)
Definition refreshed_vt (t t1 : seat) : Prop :=
  t1 = t \/ exists vt, 0 < vt /\ t1 = set_cur_vt vt t.

Definition is_reldisp (c : call) : bool :=
  match c with Ioctl _ (VT_RELDISP _) => true | _ => false end.

Definition no_reldisp (c : call) : Prop := is_reldisp c = false.

Ltac wp_calls := repeat first
  [ wp_step
  | apply wp_assert; [done|]
  | apply wp_ext; intros ? _
  | wp_case ].

(** Reading the current VT releases nothing. *)
Lemma seat_update_vt_calls p t s w :
  sv_seats s !! p = Some t ->
  wp (seat_update_vt p) (fun r s' w' => exists h t1, calls no_reldisp h w w' /\
    refreshed_vt t t1 /\ s' = put_seat p t1 s) s w.
Proof.
  intros Ht. eapply wp_mono.
  { apply wp_and with
      (P := fun r s' w' => exists t1, refreshed_vt t t1 /\ s' = put_seat p t1 s)
      (Q := fun r s' w' => exists h, calls no_reldisp h w w').
    - eapply seat_update_vt_ok; [done|..].
      + intros w' _ _. exists t. split; [by left|by rewrite put_seat_same].
      + intros vt w' _ Hvt. exists (set_cur_vt vt t). split; [right; eauto|done].
    - unfold seat_update_vt, terminal_open, get_tty_path, terminal_current_vt, close. wp_calls.
      all: try (eapply wp_upd_seat; [done|]; wp_steps).
      all: eexists; repeat first
        [apply calls_refl | apply calls_errno | apply calls_step; [|done]]. }
  intros r s' w' ((t1 & Hr & ->) & h & Hc). eauto 8.
Qed.

Lemma refreshed_wf s p t t1 :
  wf s -> sv_seats s !! p = Some t -> refreshed_vt t t1 -> wf (put_seat p t1 s).
Proof.
  intros W Ht [->|(vt & Hvt & ->)]; [by rewrite put_seat_same|].
  apply wf_set_cur_vt; [done..|lia].
Qed.

Lemma refreshed_cur t t1 : refreshed_vt t t1 -> 0 <= cur_vt t -> 0 <= cur_vt t1.
Proof. intros [->|(vt & ? & ->)]; cbn; lia. Qed.

(** [seat_vt_activate]: the VT is read, and the acquisition acknowledged. *)
Lemma seat_vt_activate_ok p t s w :
  sv_seats s !! p = Some t -> vt_bound t = true -> 0 <= cur_vt t ->
  wp (seat_vt_activate p) (fun r s' w' => r = 0 /\ quiet w w' /\ exists t1 h0 h1,
    refreshed_vt t t1 /\ s' = put_seat p t1 s /\ trace w' = h1 ++ h0 ++ trace w /\ acked false h1) s w.
Proof.
  intros Ht Hb Hcur. unfold seat_vt_activate. wp_steps. eapply wp_get_seat; [done|].
  rewrite Hb. cbn [negb]. wp_steps.
  assert (Hrest : forall t1 w1, refreshed_vt t t1 -> quiet w w1 ->
    wp (vt_ack p false) (fun _ => wp (mret 0) (fun r s' w' => r = 0 /\ quiet w w' /\ exists t1 h0 h1,
      refreshed_vt t t1 /\ s' = put_seat p t1 s /\ trace w' = h1 ++ h0 ++ trace w /\ acked false h1))
      (put_seat p t1 s) w1).
  { intros t1 w1 Hr Hq. eapply vt_ack_ok; [look|by eapply refreshed_cur|]. intros r w2 h E2 Ha Hq2.
    wp_steps. split; [done|]. split; [by etrans|]. destruct (quiet_le _ _ Hq) as [h0 E0].
    exists t1, h0, h. by rewrite <- E0. }
  eapply seat_update_vt_ok; [done|..].
  - intros w1 Hq _. wp_steps. specialize (Hrest t w1 (or_introl eq_refl) Hq). by rewrite (put_seat_same p t s Ht) in Hrest.
  - intros vt w1 Hq Hvt. wp_steps. apply Hrest; [right; eauto|done].
Qed.

(** Whether a release drops DRM master: the active client is not on its way out
    already, and the target of the switch, if known, is not one of its VTs. *)
Definition drops_drm (t : seat) (a : nat) (ka : client) : bool :=
  bool_decide (state ka = CLIENT_ACTIVE) &&
  negb ((0 <? pending_vt_switch t) && owns_vt t a ka (pending_vt_switch t)).

(** [seat_vt_release]: the calls [h1] that take DRM master away come before any
    acknowledgement of the release, which is in [h2] if the VT can be opened. *)
Definition release_post (p : nat) (t : seat) (s : server) (w : sys) (s' : server) (w' : sys) : Prop :=
  exists t1 h0 h1 h2, refreshed_vt t t1 /\ trace w' = h2 ++ h1 ++ h0 ++ trace w /\
    Forall (fun x => no_reldisp x.1) (h1 ++ h0) /\ acked true h2 /\
    match active_client t with
    | None => s' = put_seat p t1 s
    | Some a => exists ka, sv_clients s !! a = Some ka /\
        if drops_drm t a ka then
          exists ds, s' = put_client a (set_devices ds ka) (put_seat p t1 s) /\
            Forall2 (fun d d' => if is_drm d && active d then deactivated d d' h1 else d' = d)
              (devices ka) ds
        else s' = put_seat p t1 s
    end.

Lemma refreshed_fields t t1 :
  refreshed_vt t t1 -> active_client t1 = active_client t /\
    pending_vt_switch t1 = pending_vt_switch t /\ group_vts t1 = group_vts t /\ clients t1 = clients t.
Proof. by intros [->|(vt & ? & ->)]. Qed.

Lemma device_call_reldisp c : device_call c -> no_reldisp c.
Proof. unfold no_reldisp. destruct c; try done. by destruct req. Qed.

Lemma calls_weaken (P Q : call -> Prop) t w w' : (forall c, P c -> Q c) -> calls P t w w' -> calls Q t w w'.
Proof. intros HPQ [E Ht]. split; [done|]. eapply Forall_impl; [exact Ht|]. auto. Qed.

Lemma seat_vt_release_ok p t s w :
  wf s -> sv_seats s !! p = Some t -> vt_bound t = true -> 0 <= cur_vt t ->
  wp (seat_vt_release p) (fun r s' w' => r = 0 /\ release_post p t s w s' w') s w.
Proof.
  intros W Ht Hb Hcur. unfold seat_vt_release. wp_steps. eapply wp_get_seat; [done|].
  rewrite Hb. cbn [negb]. wp_steps. eapply wp_mono; [by eapply seat_update_vt_calls|].
  intros r0 s1 w1 (h0 & t1 & Hc0 & Hr & ->). wp_steps. eapply wp_get_seat; [look|]. cbn beta.
  destruct (refreshed_fields _ _ Hr) as (Ea & Epe & Eg & Ec).
  assert (W1 : wf (put_seat p t1 s)) by by eapply refreshed_wf.
  assert (Hack : forall s2 w2 h1, sv_seats s2 !! p = Some t1 -> calls no_reldisp h1 w1 w2 ->
    (forall h2 w3, trace w3 = h2 ++ h1 ++ h0 ++ trace w -> acked true h2 -> release_post p t s w s2 w3) ->
    wp (vt_ack p true;; mret 0) (fun r s' w' => r = 0 /\ release_post p t s w s' w') s2 w2).
  { intros s2 w2 h1 Hs2 Hc1 Hpost. wp_steps.
    eapply vt_ack_ok; [done|by eapply refreshed_cur|]. intros r w3 h2 E Hak _. wp_steps.
    split; [done|]. apply (Hpost h2); [|done]. destruct Hc0 as [E0 _], Hc1 as [E1 _]. by rewrite E, E1, E0. }
  apply wp_bind. rewrite Ea. destruct (active_client t) as [a|] eqn:Eact.
  2:{ wp_step. apply (Hack _ _ []); [look|apply calls_refl|]. intros h2 w3 E Hak.
      exists t1, h0, [], h2. split_and!; try done; [apply Hc0|]. by rewrite Eact. }
  destruct (wf_active _ _ _ _ _ _ W Ht Eact) as (ka & Hina & Hka & Hpa & Hopen).
  assert (Hkeep : drops_drm t a ka = false ->
    wp (vt_ack p true;; mret 0) (fun r s' w' => r = 0 /\ release_post p t s w s' w')
      (put_seat p t1 s) w1).
  { intros Ed. apply (Hack _ _ []); [look|apply calls_refl|]. intros h2 w3 E Hak.
    exists t1, h0, [], h2. split_and!; try done; [apply Hc0|]. rewrite Eact. exists ka.
    by rewrite Ed. }
  assert (Hdrop : drops_drm t a ka = true -> wp (seat_drop_client_drm_master a)
    (fun _ => wp (vt_ack p true;; mret 0) (fun r s' w' => r = 0 /\ release_post p t s w s' w'))
      (put_seat p t1 s) w1).
  { intros Ed. eapply deactivate_devices_ok; [done|apply (vw_clients _ _ _ _ W _ _ Hka)|].
    intros ds h1 w2 Hc1 Hds. apply (Hack _ _ h1); [look| |].
    { eapply calls_weaken; [|exact Hc1]. apply device_call_reldisp. }
    intros h2 w3 E Hak. exists t1, h0, h1, h2. split_and!; try done.
    - apply Forall_app. split; [|apply Hc0]. eapply Forall_impl; [apply Hc1|].
      intros x. apply device_call_reldisp.
    - rewrite Eact. exists ka. split; [done|]. rewrite Ed. by exists ds. }
  apply wp_bind. eapply wp_get_client; [done|]. cbn beta.
  unfold drops_drm in Hkeep, Hdrop. case_bool_decide as Hst; cbn [andb] in *; [|by wp_step; apply Hkeep].
  rewrite Epe. destruct (0 <? pending_vt_switch t) eqn:Ep; cbn [andb negb] in *; [|by apply Hdrop].
  wp_steps. eapply describe_pending_ok; [exact W1|look|]. intros _. wp_steps.
  eapply client_owns_vt_ok; [done..|look|].
  replace (owns_vt t1 a ka (pending_vt_switch t)) with (owns_vt t a ka (pending_vt_switch t))
    by (unfold owns_vt, seat_find_group_vt; by rewrite Eg).
  destruct (owns_vt t a ka (pending_vt_switch t)); cbn [negb] in *; [by wp_step; apply Hkeep|by apply Hdrop].
Qed.

Lemma release_kept p t s w s' w' :
  wf s -> sv_seats s !! p = Some t -> release_post p t s w s' w' -> kept X Y s s'.
Proof.
  intros W Ht (t1 & h0 & h1 & h2 & Hr & _ & _ & _ & Hs).
  assert (W1 : wf (put_seat p t1 s)) by by eapply refreshed_wf.
  destruct (active_client t) as [a|]; [|subst; by apply kept_put_seat].
  destruct Hs as (ka & Hka & Hs). destruct (drops_drm t a ka); [|subst; by apply kept_put_seat].
  destruct Hs as (ds & -> & Hds). apply (deactivated_same (fun d => is_drm d && active d)) in Hds.
  assert (T : touched ka (set_devices ds ka)).
  { apply touched_devices; [|done]. by destruct (vw_clients _ _ _ _ W _ _ Hka). }
  split_and!; try done.
  - by eapply wf_touched.
  - etrans; [by apply frame_put_seat|]. by eapply frame_touched.
Qed.

End Signals.

(** ** VT change events *)

Section Events.
Context `{K : Kernel} `{Kok : !KernelOk}.
Abbreviation wf := (server_wf nobody nobody nobody).
Implicit Types (s : server) (w : sys).

(** The seat once the event is recorded: the switch is no longer pending. *)
Definition after_event (new_vt : Z) (t : seat) : seat :=
  set_cur_vt new_vt (if 0 <? pending_vt_switch t then set_pending_vt_switch 0 t else t).

(** The decision about the active client after a VT change. *)
Definition event_post (p : nat) (t1 : seat) (new_vt : Z) (s1 : server) (w1 : sys)
    (s' : server) (w' : sys) : Prop :=
  match active_client t1 with
  | None => exists r, activated_seat p t1 s1 w1 r s' w'
  | Some a => exists ka, sv_clients s1 !! a = Some ka /\
      if owns_vt t1 a ka new_vt then
        exists ds, s' = put_client a (set_devices ds ka) s1 /\
          Forall2 (fun d d' => d' = if is_drm d then set_active true d else d) (devices ka) ds
      else if bool_decide (state ka = CLIENT_ACTIVE) then exists r, disabled a ka s1 w1 r s' w'
      else s' = s1
  end.

Lemma seat_get_server_ok p t Q s w :
  wf s -> sv_seats s !! p = Some t ->
  Q (negb (bool_decide (clients t = []))) s w -> wp (seat_get_server p) Q s w.
Proof.
  intros W Ht HQ. unfold seat_get_server. wp_steps. eapply wp_get_seat; [done|]. cbn beta.
  destruct (clients t) as [|c l] eqn:Ec; wp_steps; [by rewrite bool_decide_eq_true_2 in HQ|].
  destruct (sw_members _ _ _ _ (vw_seats _ _ _ _ W _ _ Ht) c) as (k & Hk & _); [rewrite Ec; left|].
  eapply wp_get_client; [done|]. wp_steps.
  destruct (cw_server _ _ _ _ _ (vw_clients _ _ _ _ W _ _ Hk)) as [[]| ->].
  by rewrite bool_decide_eq_false_2 in HQ by done.
Qed.

Lemma restore_devices_ok c k Q s w :
  sv_clients s !! c = Some k -> devices_wf (devices k) ->
  (forall ds w', quiet w w' ->
     Forall2 (fun d d' => d' = if is_drm d then set_active true d else d) (devices k) ds ->
     Q () (put_client c (set_devices ds k) s) w') ->
  wp (seat_restore_client_drm_master c) Q s w.
Proof.
  intros Hk Wd HQ. eapply activate_devices_ok; [done..|]. intros ds h w' Hc Hds. apply HQ.
  - eapply calls_quiet, Hc. apply device_call_send.
  - eapply Forall2_impl; [exact Hds|]. intros d d'. cbn beta.
    destruct (is_drm d) eqn:Ed; cbn [andb]; [|done]. destruct (active d) eqn:Ea; cbn [negb].
    + intros ->. destruct d; cbn in *. by subst.
    + intros [Hs Ha]. by rewrite Hs, Ha, Ed, orb_true_r.
Qed.

(** The body of the event handler after the broadcast. *)
Lemma event_decision_ok p t1 new_vt s1 w1 :
  wf s1 -> sv_seats s1 !! p = Some t1 ->
  wp (t ← get_seat p;
      match active_client t with
      | Some a =>
          owns ← client_owns_vt a new_vt;
          if owns : bool then seat_restore_client_drm_master a else
          ka ← get_client a;
          if bool_decide (state ka = CLIENT_ACTIVE) then seat_disable_client a;; mret () else mret ()
      | None => seat_activate p;; mret ()
      end) (fun _ => event_post p t1 new_vt s1 w1) s1 w1.
Proof.
  intros W Ht. unfold event_post. wp_steps. eapply wp_get_seat; [done|]. cbn beta.
  destruct (active_client t1) as [a|] eqn:Ea; wp_steps.
  2:{ eapply wp_mono; [by eapply seat_activate_ok|]. intros r s' w' Hp. wp_steps. by exists r. }
  destruct (wf_active _ _ _ _ _ _ W Ht Ea) as (ka & _ & Hka & Hpa & _).
  eapply client_owns_vt_ok; [done..|]. destruct (owns_vt t1 a ka new_vt) eqn:Eo; wp_steps.
  { eapply restore_devices_ok; [done|apply (vw_clients _ _ _ _ W _ _ Hka)|].
    intros ds w' _ Hds. exists ka. rewrite Eo. eauto. }
  eapply wp_get_client; [done|]. case_bool_decide as Hst; wp_steps.
  - eapply wp_mono; [by eapply seat_disable_client_ok|]. intros r s' w' Hd. wp_steps.
    exists ka. rewrite Eo, bool_decide_eq_true_2 by done. split; [done|]. by exists r.
  - exists ka. by rewrite Eo, bool_decide_eq_false_2.
Qed.

Lemma wf_after_event p t new_vt s :
  wf s -> sv_seats s !! p = Some t -> 0 < new_vt -> wf (put_seat p (after_event new_vt t) s).
Proof.
  intros W Ht Hn. unfold after_event. case_match; [|by apply wf_set_cur_vt].
  rewrite <- (put_seat_twice p _ (set_pending_vt_switch 0 t)).
  apply (wf_set_cur_vt _ _ _ p (set_pending_vt_switch 0 t)); [by apply wf_set_pending|look|done].
Qed.

Lemma seat_handle_vt_event_ok p t old_vt new_vt s w :
  wf s -> sv_seats s !! p = Some t -> 0 < new_vt ->
  wp (seat_handle_vt_event p old_vt new_vt) (fun _ s' w' => exists s1 w1,
    wf s1 /\ same_core (put_seat p (after_event new_vt t) s) s1 /\
    (clients t ≠ [] -> forall c, c ∈ control_clients s -> told old_vt new_vt s s1 w w1 c) /\
    event_post p (after_event new_vt t) new_vt s1 w1 s' w') s w.
Proof.
  intros W Ht Hn. unfold seat_handle_vt_event. wp_steps. eapply wp_get_seat; [done|]. wp_steps.
  eapply describe_vt_owner_ok; [done..|]. intros _. wp_steps.
  eapply describe_vt_owner_ok; [done..|]. intros _. wp_steps.
  eapply describe_pending_ok; [done..|]. intros _. wp_steps.
  set (t0 := if 0 <? pending_vt_switch t then set_pending_vt_switch 0 t else t).
  apply (wp_mono _ (fun _ s' w' => s' = put_seat p t0 s /\ w' = w)).
  { unfold t0. wp_case; wp_steps; [by eapply wp_upd_seat|by rewrite put_seat_same]. }
  intros _ s0 w0 [-> ->]. wp_steps. eapply wp_upd_seat; [look|]. wp_steps. rewrite put_seat_twice.
  change (set_cur_vt new_vt t0) with (after_event new_vt t).
  pose proof (wf_after_event _ _ _ _ W Ht Hn) as W1.
  assert (Ecl : clients (after_event new_vt t) = clients t)
    by (unfold after_event; by destruct (0 <? pending_vt_switch t)).
  eapply seat_get_server_ok; [exact W1|look|]. rewrite Ecl. apply wp_bind.
  apply (wp_mono _ (fun _ s' w' => wf s' /\ same_core (put_seat p (after_event new_vt t) s) s' /\
    (clients t ≠ [] -> forall c, c ∈ control_clients s -> told old_vt new_vt s s' w w' c))).
  { case_bool_decide; cbn [negb]; [by wp_steps|].
    eapply wp_mono; [by apply control_broadcast_ok|]. by intros _ s' w' (? & ? & _ & ?). }
  intros _ s1 w1 (Ws1 & Hc & Htold). eapply wp_mono; [eapply event_decision_ok; [done|]|].
  - destruct Hc as (_ & -> & _). look.
  - intros [] s' w' Hpost. by exists s1, w1.
Qed.

Lemma event_post_wf p t1 new_vt s1 w1 s' w' :
  wf s1 -> sv_seats s1 !! p = Some t1 -> event_post p t1 new_vt s1 w1 s' w' ->
  wf s' /\ frame s1 s'.
Proof.
  intros W Ht. unfold event_post. destruct (active_client t1) as [a|].
  2:{ intros (r & Ha). by eapply activated_seat_wf. }
  intros (ka & Hka & Hpost). destruct (owns_vt t1 a ka new_vt).
  - destruct Hpost as (ds & -> & Hds).
    assert (T : touched ka (set_devices ds ka)).
    { apply touched_devices; [by destruct (vw_clients _ _ _ _ W _ _ Hka)|].
      eapply Forall2_impl; [exact Hds|]. intros d d' ->. destruct (is_drm d);
        [apply same_device_set|apply same_device_refl]. }
    split; [by eapply wf_touched|by eapply frame_touched].
  - destruct (bool_decide_reflect (state ka = CLIENT_ACTIVE)); [|by subst s'].
    destruct Hpost as (r & Hd). by eapply disabled_wf.
Qed.

Lemma seat_handle_vt_event_wf p t old_vt new_vt s w :
  wf s -> sv_seats s !! p = Some t -> 0 < new_vt ->
  wp (seat_handle_vt_event p old_vt new_vt) (fun _ s' w' => wf s' /\ frame s s') s w.
Proof.
  intros W Ht Hn. eapply wp_mono; [by eapply seat_handle_vt_event_ok|].
  intros _ s' w' (s1 & w1 & W1 & Hc & _ & Hpost).
  eapply event_post_wf in Hpost as [W' F]; [|done|destruct Hc as (_ & -> & _); look].
  split; [done|]. etrans; [|exact F]. apply frame_clients. apply Hc.
Qed.

End Events.
