(* ===== verification/SeatDevices.v ===== *)
(** * Opening and closing devices *)
From S2P Require Import Prelude Kernel Connection Protocol Devices Terminal State Poller Send Seat Client.
From S2P Require Import Invariant Lifecycle Rules SendOk SeatOk.

(** ** The list of devices *)

Lemma device_id_replace d l : device_id <$> replace_device d l = device_id <$> l.
Proof.
  unfold replace_device. rewrite <- list_fmap_compose. apply list_fmap_ext. intros i x _. cbn.
  destruct (Z.eqb_spec (device_id x) (device_id d)); done.
Qed.

Lemma replace_device_split l d d' :
  devices_wf l -> d ∈ l -> device_id d' = device_id d ->
  exists l1 l2, l = l1 ++ d :: l2 /\ replace_device d' l = l1 ++ d' :: l2.
Proof.
  intros W Hd E. apply list_elem_of_split in Hd as (l1 & l2 & ->). exists l1, l2. split; [done|].
  apply replace_device_mid; [apply W|done].
Qed.

(** Changing the reference count of a device. *)
Lemma devices_wf_replace l d n :
  devices_wf l -> d ∈ l -> 1 <= n -> devices_wf (replace_device (set_ref_cnt n d) l).
Proof.
  intros W Hd Hn. destruct (replace_device_split l d (set_ref_cnt n d) W Hd eq_refl)
    as (l1 & l2 & El & ->). subst l. destruct W as [W1 W2 W3 W4].
  rewrite !fmap_app, !fmap_cons in *. split; rewrite ?fmap_app, ?fmap_cons; try done.
  - rewrite Forall_app, Forall_cons in *. destruct W3 as (? & (? & _ & ?) & ?). by split_and!.
  - rewrite length_app in *. done.
Qed.

Lemma devices_wf_remove l id : devices_wf l -> devices_wf (remove_device id l).
Proof.
  intros [W1 W2 W3 W4]. split.
  - by apply NoDup_fmap_filter.
  - by apply NoDup_fmap_filter.
  - by apply Forall_filter_keep.
  - unfold remove_device. etrans; [|exact W4]. apply inj_le, length_filter.
Qed.

Lemma remove_device_replace l d :
  remove_device (device_id d) (replace_device d l) = remove_device (device_id d) l.
Proof.
  unfold remove_device, replace_device. induction l as [|x l IH]; [done|].
  rewrite fmap_cons, !filter_cons, IH. destruct (Z.eqb_spec (device_id x) (device_id d)).
  - by rewrite !decide_False by tauto.
  - done.
Qed.

Lemma lookup_device_remove l id : lookup_device id (remove_device id l) = None.
Proof.
  apply lookup_device_none. rewrite list_elem_of_fmap. intros (d & E & Hd).
  unfold remove_device in Hd. apply list_elem_of_filter in Hd as [Hne _]. by symmetry in E.
Qed.

(** ** The scan of the open devices *)

Lemma scan_devices_inl l san id n i :
  scan_devices l san id n = inl i -> exists d, d ∈ l /\ device_id d = i /\ path d = san.
Proof.
  revert id n. induction l as [|d l IH]; intros id n; cbn; [done|].
  unfold strcmp_eq at 1. case_bool_decide as E.
  - intros [= <-]. exists d. split_and!; [left|done..].
  - intros H. destruct (IH _ _ H) as (d0 & ? & ? & ?). exists d0. split_and!; [by right|done..].
Qed.

Lemma scan_devices_inr l san id n id' n' :
  scan_devices l san id n = inr (id', n') ->
  n' = n + Z.of_nat (length l) /\ id <= id' /\ (san ∉ path <$> l) /\
  Forall (fun d => device_id d < id') l.
Proof.
  revert id n. induction l as [|d l IH]; intros id n; cbn -[fmap].
  - intros [= <- <-]. split_and!; [lia|lia|apply not_elem_of_nil|constructor].
  - unfold strcmp_eq at 1. case_bool_decide as E; [done|]. intros H.
    destruct (IH _ _ H) as (-> & Hid & Hp & Hl). split_and!.
    + lia.
    + case_match; lia.
    + rewrite fmap_cons. apply not_elem_of_cons. split; [congruence|done].
    + constructor; [|done]. case_match; lia.
Qed.

(** The new device has an id larger than all, and a path of its own. *)
Lemma devices_wf_cons l id f san ty :
  devices_wf l -> scan_devices l san 1 0 = inr (id, Z.of_nat (length l)) ->
  Z.of_nat (length l) < MAX_SEAT_DEVICES -> ty ≠ SEAT_DEVICE_TYPE_NORMAL ->
  devices_wf (SeatDevice id f 1 true san ty :: l).
Proof.
  intros [W1 W2 W3 W4] Hs Hn Hty. apply scan_devices_inr in Hs as (_ & Hid & Hp & Hl).
  split; rewrite ?fmap_cons.
  - apply NoDup_cons. split; [|done]. cbn. rewrite list_elem_of_fmap. intros (d & E & Hd).
    rewrite Forall_forall in Hl. specialize (Hl _ Hd). lia.
  - by apply NoDup_cons.
  - constructor; [|done]. cbn. split_and!; [lia|lia|done].
  - cbn [length]. lia.
Qed.

(** ** seat_open_device *)

Section Open.
Context `{K : Kernel} `{Kok : !KernelOk}.
Variables X Y : nat -> Prop.
Abbreviation wf := (server_wf X Y nobody).
Implicit Types (s : server) (w : sys).

Lemma device_type_of_supported san ty :
  device_type_of san = Some ty -> ty ≠ SEAT_DEVICE_TYPE_NORMAL.
Proof. unfold device_type_of. intros H ->. by repeat case_match. Qed.

(** A device is opened for an active client only, by the path the kernel
    resolves; an open device gains a reference, a new one gets a fresh id; a
    refusal has a reason and no effect. *)
Definition open_device_post (c : nat) (k : client) (dev_path : bytes) (s : server) (w : sys)
    (o : option Z) (s' : server) (w' : sys) : Prop :=
  let san := r_bytes (answer (trace w) (Realpath dev_path)) in
  match o with
  | None => s' = s /\
      (state k ≠ CLIENT_ACTIVE /\ errno w' = EPERM \/ refused w w' \/
       device_type_of san = None /\ errno w' = ENOENT \/
       MAX_SEAT_DEVICES <= Z.of_nat (length (devices k)) /\ errno w' = EMFILE)
  | Some id => state k = CLIENT_ACTIVE /\
      ((exists d, d ∈ devices k /\ device_id d = id /\ path d = san /\
         s' = put_client c
           (set_devices (replace_device (set_ref_cnt (ref_cnt d + 1) d) (devices k)) k) s) \/
       (exists f ty, scan_devices (devices k) san 1 0 = inr (id, Z.of_nat (length (devices k))) /\
         device_type_of san = Some ty /\ Z.of_nat (length (devices k)) < MAX_SEAT_DEVICES /\
         s' = put_client c (set_devices (SeatDevice id f 1 true san ty :: devices k) k) s))
  end.

Lemma lookup_device_in l d :
  devices_wf l -> d ∈ l -> lookup_device (device_id d) l = Some d.
Proof.
  intros W Hd. apply list_elem_of_split in Hd as (l1 & l2 & ->). apply lookup_device_mid; [|done].
  destruct W as [W _ _ _]. rewrite fmap_app, fmap_cons in W. apply NoDup_app in W as (_ & W & _).
  intros Hin. apply (W _ Hin). left.
Qed.

(** The part of [seat_open_device] that makes a new device. *)
Lemma open_new_device_ok c k san id ty s w :
  sv_clients s !! c = Some k -> ty ≠ SEAT_DEVICE_TYPE_NORMAL ->
  wp (r ← ext (Open san [O_RDWR; O_NOCTTY; O_NOFOLLOW; O_CLOEXEC; O_NONBLOCK]);
      let fd := r_ret r in
      if fd =? -1 then mret None else
      match ty with
      | SEAT_DEVICE_TYPE_DRM => drm_set_master fd;; mret ()
      | SEAT_DEVICE_TYPE_EVDEV | SEAT_DEVICE_TYPE_WSCONS | SEAT_DEVICE_TYPE_HIDRAW => mret ()
      | SEAT_DEVICE_TYPE_NORMAL => abort
      end;;
      r ← ext Calloc;
      if r_ret r =? -1 then close fd;; fail_with ENOMEM None else
      r ← ext (Strdup san);
      if r_ret r =? -1 then close fd;; fail_with ENOMEM None else
      upd_client c (fun k => set_devices (SeatDevice id fd 1 true san ty :: devices k) k);;
      mret (Some id))
    (fun o s' w' => quiet w w' /\
      (o = None /\ s' = s /\ refused w w' \/
       o = Some id /\ exists f, s' = put_client c (set_devices (SeatDevice id f 1 true san ty :: devices k) k) s))
    s w.
Proof.
  intros Hk Hty. wp_steps. apply wp_ext. intros r2 _. cbv zeta.
  assert (Hq2 : quiet w (logged w (Open san [O_RDWR; O_NOCTTY; O_NOFOLLOW; O_CLOEXEC; O_NONBLOCK]) r2))
    by auto with wp.
  destruct (Z.eqb_spec (r_ret r2) (-1)); wp_steps.
  { split; [done|]. left. split_and!; [done..|]. apply refused_logged. by left. }
  apply wp_silent. { destruct ty; silent_auto. done. }
  intros _ w3 Hq3. wp_steps. assert (Hq : quiet w w3) by by etrans.
  assert (Hclose : forall w', quiet w w' -> refused w w' ->
    wp (close (r_ret r2);; fail_with ENOMEM None) (fun (o : option Z) s' w' => quiet w w' /\
      (o = None /\ s' = s /\ refused w w' \/
       o = Some id /\ exists f, s' = put_client c (set_devices (SeatDevice id f 1 true san ty :: devices k) k) s))
      s w').
  { intros w' Hq' Hf'. wp_steps. apply wp_silent; [auto with silent|]. intros _ w5 Hq5. wp_steps.
    assert (Hq6 : quiet w' (Sys (trace w5) ENOMEM)) by (etrans; [done|apply quiet_errno]).
    split; [by etrans|]. left. split_and!; [done..|]. eapply refused_r; [done|by apply quiet_le]. }
  apply wp_ext. intros r4 _. assert (Hq4 : quiet w (logged w3 Calloc r4)) by (etrans; [done|]; auto with wp).
  destruct (Z.eqb_spec (r_ret r4) (-1)).
  { apply Hclose; [done|]. eapply refused_l; [apply quiet_le, Hq|]. apply refused_logged. by left. }
  wp_steps. apply wp_ext. intros r5 _.
  assert (Hq5 : quiet w (logged (logged w3 Calloc r4) (Strdup san) r5)) by (etrans; [done|]; auto with wp).
  destruct (Z.eqb_spec (r_ret r5) (-1)).
  { apply Hclose; [done|]. eapply refused_l; [apply quiet_le, Hq4|]. apply refused_logged. by left. }
  wp_steps. eapply wp_upd_client; [done|]. wp_steps. split; [done|]. right. eauto.
Qed.

Lemma seat_open_device_ok c k dev_path s w :
  wf s -> sv_clients s !! c = Some k -> is_Some (c_seat k) ->
  wp (seat_open_device c dev_path) (fun o s' w' =>
    open_device_post c k dev_path s w o s' w' /\ quiet w w') s w.
Proof.
  intros W Hk [p Hp]. destruct (wf_seated _ _ _ _ _ _ W Hk Hp) as (t & Ht & Hin & _).
  pose proof (cw_devices _ _ _ _ _ (vw_clients _ _ _ _ W _ _ Hk)) as Wd.
  unfold seat_open_device. wp_steps. eapply wp_get_client; [done|]. wp_steps.
  apply (wp_deref _ p); [done|]. wp_steps. eapply wp_get_seat; [done|]. wp_steps.
  case_bool_decide as Hst; cbn [negb]; wp_steps.
  2:{ split; [|apply quiet_errno]. split; [done|]. by left. }
  destruct (wf_open_client _ _ s c k W Hk) as (p' & t' & Hp' & Ht' & _ & Hact); [by rewrite Hst|].
  simplify_eq. apply wp_assert; [by apply bool_decide_eq_true|]. wp_steps.
  apply wp_ext. intros r Hr. set (w1 := logged w (Realpath dev_path) r).
  assert (Hq1 : quiet w w1) by (unfold w1; auto with wp).
  assert (Hnone : forall w', quiet w w' -> (refused w w' \/
      device_type_of (r_bytes r) = None /\ errno w' = ENOENT \/
      MAX_SEAT_DEVICES <= Z.of_nat (length (devices k)) /\ errno w' = EMFILE) ->
    open_device_post c k dev_path s w None s w' /\ quiet w w').
  { intros w' Hq Hwhy. split; [|done]. unfold open_device_post. rewrite <- Hr. auto. }
  destruct (Z.eqb_spec (r_ret r) (-1)); wp_steps.
  { apply Hnone; [done|]. left. apply refused_logged. by left. }
  set (san := r_bytes r) in *.
  assert (Hq1e : forall e, quiet w (Sys (trace w1) e)) by (intros; etrans; [done|apply quiet_errno]).
  destruct (device_type_of san) as [ty|] eqn:Ety; wp_steps; [|by apply Hnone; auto].
  destruct (scan_devices (devices k) san 1 0) as [id|[id n']] eqn:Esc; cbn beta iota.
  { apply scan_devices_inl in Esc as (d & Hd & <- & Epath). wp_steps.
    eapply wp_on_device; [done|by apply lookup_device_in|]. wp_steps.
    split; [|done]. split; [done|]. left. rewrite <- Hr. by exists d. }
  pose proof Esc as (-> & _)%scan_devices_inr. rewrite Z.add_0_l in *.
  destruct (Z.leb_spec MAX_SEAT_DEVICES (Z.of_nat (length (devices k)))); [wp_steps; by apply Hnone; auto|].
  eapply wp_mono; [apply open_new_device_ok; [done|by eapply device_type_of_supported]|].
  intros o s' w' (Hq & [(-> & -> & Hf)|(-> & f & ->)]); (assert (quiet w w') by by etrans).
  - apply Hnone; [done|]. left. eapply refused_l; [apply quiet_le, Hq1|done].
  - split; [|done]. split; [done|]. right. rewrite <- Hr. by exists f, ty.
Qed.

Lemma open_device_wf c k dev_path s w o s' w' :
  wf s -> sv_clients s !! c = Some k -> is_Some (c_seat k) -> open_device_post c k dev_path s w o s' w' ->
  wf s' /\ frame s s'.
Proof.
  intros W Hk [p Hp] Hpost. pose proof (vw_clients _ _ _ _ W _ _ Hk) as Wk.
  destruct (client_local_refl _ _ _ _ _ Wk).
  assert (Hset : forall ds, devices_wf ds -> wf (put_client c (set_devices ds k) s) /\
    frame s (put_client c (set_devices ds k) s)).
  { intros ds Wds. split; [|by eapply frame_put_client].
    eapply wf_put_client; [done..|]. split; try done. congruence. }
  destruct o as [id|]; cbn in Hpost; [|by destruct Hpost as [-> _]].
  destruct Hpost as (_ & [(d & Hd & _ & _ & ->)|(f & ty & Hsc & Hty & Hn & ->)]); apply Hset.
  - apply devices_wf_replace; [done..|]. destruct cl_devices as [_ _ We _].
    rewrite Forall_forall in We. destruct (We _ Hd). lia.
  - eapply devices_wf_cons; [done..|]. by eapply device_type_of_supported.
Qed.

End Open.

(** ** seat_close_device *)

Section Close.
Context `{K : Kernel} `{Kok : !KernelOk}.
Implicit Types (s : server) (w : sys).

(** One reference less; the device goes with its last one. *)
Definition close_one (d : seat_device) (l : list seat_device) : list seat_device :=
  if 1 <? ref_cnt d then replace_device (set_ref_cnt (ref_cnt d - 1) d) l
  else remove_device (device_id d) l.

(** The client keeps [errno]; a device that goes is revoked, then closed. *)
Definition close_calls (d : seat_device) (w w' : sys) : Prop :=
  if (1 <? ref_cnt d) || (dev_fd d =? -1) then trace w' = trace w
  else exists t r, calls device_call t w (Sys (t ++ trace w) (errno w)) /\
    (exists d', deactivated d d' t) /\ trace w' = (Close (dev_fd d), r) :: t ++ trace w.

Lemma seat_close_device_ok c k p t d Q s w :
  sv_clients s !! c = Some k -> c_seat k = Some p -> sv_seats s !! p = Some t ->
  devices_wf (devices k) -> d ∈ devices k ->
  (forall w', quiet w w' -> errno w' = errno w -> close_calls d w w' ->
     Q () (put_client c (set_devices (close_one d (devices k)) k) s) w') ->
  wp (seat_close_device c (device_id d)) Q s w.
Proof.
  intros Hk Hp Ht Wd Hd HQ. unfold seat_close_device, close_one, close_calls in *. wp_steps.
  eapply wp_get_client; [done|]. wp_steps. apply (wp_deref _ p); [done|]. wp_steps.
  eapply wp_get_seat; [done|]. wp_steps.
  pose proof (lookup_device_in _ _ Wd Hd) as Hlook. apply (wp_deref _ d); [done|]. wp_steps.
  eapply wp_on_device; [done..|]. wp_steps. replace (0 <? ref_cnt d - 1) with (1 <? ref_cnt d) by lia.
  destruct (1 <? ref_cnt d); cbn [orb] in HQ; wp_steps; [by apply HQ|].
  eapply wp_upd_client; [look|]. rewrite put_client_twice. wp_steps.
  cbn -[remove_device replace_device].
  change (device_id d) with (device_id (set_ref_cnt (ref_cnt d - 1) d)) at 1.
  rewrite remove_device_replace. cbn [device_id set_ref_cnt].
  destruct (dev_fd d =? -1); wp_steps; [by apply HQ; [apply quiet_errno|..]|].
  apply wp_run_local. eapply wp_mono; [apply seat_deactivate_device_ok|].
  { destruct Wd as [_ _ We _]. rewrite Forall_forall in We. by destruct (We _ Hd) as (_ & _ & ?). }
  intros r d' w1 (_ & h & Hc & Hdeact). wp_steps. unfold close. wp_steps. apply wp_ext. intros r2 _.
  wp_steps. apply HQ; [|done|].
  - etrans; [eapply calls_quiet, Hc; apply device_call_send|].
    etrans; [|apply quiet_errno]. auto with wp.
  - exists h, r2. split_and!; [by split; [|apply Hc]|by exists d'|]. cbn. by destruct Hc as [-> _].
Qed.

Lemma close_one_wf d l : devices_wf l -> d ∈ l -> devices_wf (close_one d l).
Proof.
  intros W Hd. unfold close_one. case_match; [|by apply devices_wf_remove].
  apply devices_wf_replace; [done..|lia].
Qed.

Lemma device_refs_app l1 l2 : device_refs (l1 ++ l2) = (device_refs l1 + device_refs l2)%nat.
Proof. unfold device_refs. by rewrite fmap_app, sum_list_with_app. Qed.

Lemma close_one_refs d l :
  devices_wf l -> d ∈ l -> (device_refs (close_one d l) < device_refs l)%nat.
Proof.
  intros W Hd. pose proof Hd as (l1 & l2 & ->)%list_elem_of_split.
  unfold close_one. case_match.
  - rewrite replace_device_mid by (apply W || done). rewrite !device_refs_app. cbn. lia.
  - unfold remove_device. rewrite filter_app, filter_cons, decide_False by tauto.
    rewrite !device_refs_app. cbn.
    assert (Hle : forall l, (device_refs (filter (fun x => device_id x ≠ device_id d) l) <= device_refs l)%nat).
    { clear. induction l as [|x l IH]; [done|]. rewrite filter_cons. case_decide; cbn; unfold device_refs in *; cbn; lia. }
    specialize (Hle l1) as H1. specialize (Hle l2) as H2. unfold device_refs in *. cbn. lia.
Qed.

(** Every descriptor of the list was closed. *)
Definition closed_all (l : list seat_device) (w w' : sys) : Prop :=
  exists h, trace w' = h ++ trace w /\
    forall d, d ∈ l -> dev_fd d ≠ -1 -> exists r, (Close (dev_fd d), r) ∈ h.

Lemma close_one_fd d d0 l :
  devices_wf l -> d ∈ l -> d0 ∈ l ->
  (exists d1, d1 ∈ close_one d l /\ dev_fd d1 = dev_fd d0) \/ d0 = d /\ (1 <? ref_cnt d) = false.
Proof.
  intros W Hd H0. unfold close_one. destruct (1 <? ref_cnt d); [left|].
  - destruct (replace_device_split l d (set_ref_cnt (ref_cnt d - 1) d) W Hd eq_refl)
      as (l1 & l2 & -> & ->).
    rewrite elem_of_app, elem_of_cons in H0. destruct H0 as [H0|[->|H0]]; [exists d0|eexists|exists d0];
      (split; [rewrite elem_of_app, elem_of_cons|]); eauto.
  - destruct (decide (device_id d0 = device_id d)) as [E|Hne]; [right|left].
    + split; [|done]. pose proof (lookup_device_in _ _ W Hd) as E1.
      pose proof (lookup_device_in _ _ W H0) as E2. rewrite E in E2. congruence.
    + exists d0. split; [|done]. apply list_elem_of_filter. auto.
Qed.

Lemma closed_all_cons d l w w1 w2 :
  devices_wf l -> d ∈ l -> close_calls d w w1 -> closed_all (close_one d l) w1 w2 -> closed_all l w w2.
Proof.
  intros W Hd Hc (h & E & Hh).
  assert (Hle : exists h0, trace w1 = h0 ++ trace w).
  { unfold close_calls in Hc. case_match; [by exists []|]. destruct Hc as (t & r & _ & _ & ->).
    exists ((Close (dev_fd d), r) :: t). done. }
  destruct Hle as [h0 E0]. exists (h ++ h0). split; [by rewrite E, E0, app_assoc|].
  intros d0 H0 Hf. destruct (close_one_fd d d0 l W Hd H0) as [(d1 & H1 & E1)|[-> Href]].
  - destruct (Hh d1 H1) as [r Hr]; [by rewrite E1|]. exists r. rewrite <- E1, elem_of_app. auto.
  - unfold close_calls in Hc. rewrite Href in Hc. cbn [orb] in Hc.
    rewrite (proj2 (Z.eqb_neq _ _) Hf) in Hc. destruct Hc as (t & r & _ & _ & Et).
    exists r. rewrite elem_of_app. right. rewrite E0 in Et.
    change ((Close (dev_fd d), r) :: t ++ trace w) with (((Close (dev_fd d), r) :: t) ++ trace w) in Et.
    apply app_inv_tail in Et as ->. left.
Qed.

(** The loop that closes everything ends: each turn gives up a reference. *)
Lemma close_devices_ok fuel c k p t Q s w :
  sv_clients s !! c = Some k -> c_seat k = Some p -> sv_seats s !! p = Some t ->
  devices_wf (devices k) -> (device_refs (devices k) <= fuel)%nat ->
  (forall w', quiet w w' -> closed_all (devices k) w w' -> Q () (put_client c (set_devices [] k) s) w') ->
  wp (close_devices fuel c) Q s w.
Proof.
  revert k s w. induction fuel as [|fuel IH]; intros k s w Hk Hp Ht Wd Hf HQ;
    cbn [close_devices]; wp_steps; (eapply wp_get_client; [done|]); cbn beta;
    destruct (devices k) as [|d l] eqn:Ed; cbn beta iota.
  1,3: wp_steps; specialize (HQ w (reflexivity _)); replace (set_devices [] k) with k in HQ by (rewrite <- Ed; by destruct k);
    rewrite put_client_same in HQ by done; apply HQ; exists []; split; [done|]; by intros d ?%not_elem_of_nil.
  - exfalso. destruct Wd as [_ _ We _]. apply Forall_cons in We as [(_ & ? & _) _].
    unfold device_refs in Hf. cbn in Hf. lia.
  - wp_steps. rewrite <- Ed in *. assert (Hd : d ∈ devices k) by (rewrite Ed; left).
    eapply seat_close_device_ok; [done..|]. intros w1 Hq1 _ Hc1.
    eapply IH; [look|done|look|by apply close_one_wf| |].
    + cbn [devices set_devices]. pose proof (close_one_refs _ _ Wd Hd). lia.
    + intros w2 Hq2 Hc2. rewrite put_client_twice. apply HQ; [by etrans|]. by eapply closed_all_cons.
Qed.

(** Closing undoes opening on the list of devices. *)
Lemma close_reopened l d :
  devices_wf l -> d ∈ l ->
  let d' := set_ref_cnt (ref_cnt d + 1) d in
  d' ∈ replace_device d' l /\ close_one d' (replace_device d' l) = l.
Proof.
  intros W Hd d'. assert (1 <= ref_cnt d).
  { destruct W as [_ _ We _]. rewrite Forall_forall in We. by destruct (We _ Hd) as (_ & ? & _). }
  assert (W' : devices_wf (replace_device d' l)) by (apply devices_wf_replace; [done..|lia]).
  destruct (replace_device_split l d d' W Hd eq_refl) as (l1 & l2 & -> & E'). rewrite E' in *.
  split; [rewrite elem_of_app; right; left|]. unfold close_one.
  rewrite (proj2 (Z.ltb_lt _ _)) by (cbn; lia).
  rewrite replace_device_mid by (apply W' || done). do 2 f_equal.
  unfold d'. destruct d as [i f n a p ty]. cbn. replace (n + 1 - 1) with n by lia. done.
Qed.

Lemma close_fresh l d :
  Forall (fun x => device_id x < device_id d) l -> ref_cnt d = 1 -> close_one d (d :: l) = l.
Proof.
  intros Hl Hr. unfold close_one, remove_device. rewrite Hr. cbn [Z.ltb Z.compare Pos.compare Pos.compare_cont].
  rewrite filter_cons, decide_False by tauto. apply filter_keeps_all.
  eapply Forall_impl; [exact Hl|]. cbn. lia.
Qed.

(** The device [seat_open_device] returns, closed again, leaves the client as it was. *)
Lemma open_device_close c k dev_path id s w s1 w1 :
  devices_wf (devices k) -> sv_clients s !! c = Some k ->
  open_device_post c k dev_path s w (Some id) s1 w1 ->
  exists k1 d, sv_clients s1 !! c = Some k1 /\ c_seat k1 = c_seat k /\ sv_seats s1 = sv_seats s /\
    d ∈ devices k1 /\ device_id d = id /\ devices_wf (devices k1) /\
    put_client c (set_devices (close_one d (devices k1)) k1) s1 = s.
Proof.
  intros W Hk (_ & Hcase).
  assert (Hback : forall ds, put_client c (set_devices (devices k) (set_devices ds k))
    (put_client c (set_devices ds k) s) = s).
  { intros ds. rewrite put_client_twice. replace (set_devices _ _) with k by by destruct k.
    by apply put_client_same. }
  destruct Hcase as [(d & Hd & <- & _ & ->)|(f & ty & Hsc & Hty & Hn & ->)].
  - destruct (close_reopened _ _ W Hd) as [Hin E]. eexists _, _. split; [look|].
    split_and!; [done|done|exact Hin|done| |by cbn -[replace_device put_client]; rewrite E].
    apply devices_wf_replace; [done..|]. destruct W as [_ _ We _]. rewrite Forall_forall in We.
    destruct (We _ Hd) as (_ & ? & _). lia.
  - eexists _, _. split; [look|]. split_and!; [done|done|left|done| |].
    + by eapply devices_wf_cons; [..|by eapply device_type_of_supported].
    + cbn -[close_one put_client]. rewrite close_fresh; [apply Hback| |done].
      by apply scan_devices_inr in Hsc as (_ & _ & _ & ?).
Qed.

End Close.
