(* ===== verification/SeatMembers.v ===== *)
(** * Joining and leaving a seat *)
From S2P Require Import Prelude Kernel Connection Protocol Devices Terminal State Poller Send Seat Client.
From S2P Require Import Invariant Lifecycle Rules SendOk SeatOk SeatSwitch SeatVt SeatDevices.

(** ** Session numbers *)

Lemma next_session_unfold fuel all n :
  next_session fuel all n =
  if bool_decide (n ∈ all)
  then match fuel with O => None | S fuel' => next_session fuel' all (n + 1) end
  else Some n.
Proof.
  assert (Hscan : forall rest,
    (fix scan (rest : list Z) : option Z :=
       match rest with
       | [] => Some n
       | s :: rest' =>
           if s =? n
           then match fuel with O => None | S fuel' => next_session fuel' all (n + 1) end
           else scan rest'
       end) rest =
    if bool_decide (n ∈ rest)
    then match fuel with O => None | S fuel' => next_session fuel' all (n + 1) end
    else Some n).
  { induction rest as [|x rest IH]; [done|]. rewrite IH. destruct (Z.eqb_spec x n) as [->|Hne].
    - by rewrite bool_decide_eq_true_2 by left.
    - replace (bool_decide (n ∈ x :: rest)) with (bool_decide (n ∈ rest)); [done|].
      apply bool_decide_ext. rewrite elem_of_cons. split; [auto|].
      intros [E|]; [by destruct Hne|done]. }
  destruct fuel; apply Hscan.
Qed.

(** As many restarts as there are sessions from [n] on are enough, and the
    result is the first number from [n] on that is not in use. *)
Lemma next_session_ok fuel all n :
  (length (filter (fun x => (n <= x)%Z) all) <= fuel)%nat ->
  exists m, next_session fuel all n = Some m /\ n <= m /\ (m ∉ all) /\
    forall i, n <= i < m -> i ∈ all.
Proof.
  revert n. induction fuel as [|fuel IH]; intros n Hf; rewrite next_session_unfold;
    case_bool_decide as Hin.
  - exfalso. assert (Hn : n ∈ filter (fun x => (n <= x)%Z) all) by (apply list_elem_of_filter; split; [lia|done]).
    destruct (filter (fun x => (n <= x)%Z) all); [by apply not_elem_of_nil in Hn|cbn in Hf; lia].
  - exists n. split_and!; [done|lia|done|lia].
  - destruct (IH (n + 1)) as (m & Hm & Hle & Hout & Hall).
    { apply Nat.lt_succ_r. eapply Nat.lt_le_trans; [|exact Hf]. clear -Hin.
      assert (Hsub : forall l : list Z,
        (length (filter (fun x => ((n + 1)%Z <= x)%Z) l) <= length (filter (fun x => (n <= x)%Z) l))%nat).
      { induction l as [|x l IHl]; [done|]. rewrite !filter_cons. repeat case_decide; cbn; lia. }
      apply list_elem_of_split in Hin as (l1 & l2 & ->).
      rewrite !filter_app, !filter_cons, !length_app, (decide_True (P := n <= n)) by lia.
      rewrite decide_False by lia. pose proof (Hsub l1). pose proof (Hsub l2). cbn. lia. }
    exists m. split_and!; [done|lia|done|]. intros i Hi.
    destruct (decide (i = n)) as [->|]; [done|]. apply Hall. lia.
  - exists n. split_and!; [done|lia|done|lia].
Qed.

(** With the length of the list as fuel, counting from 1. *)
Lemma next_session_total all :
  exists m, next_session (length all) all 1 = Some m /\ 1 <= m /\ (m ∉ all) /\
    forall i, 1 <= i < m -> i ∈ all.
Proof. apply next_session_ok. apply length_filter. Qed.

Section Join.
Context `{K : Kernel} `{Kok : !KernelOk}.
Variables X Y : nat -> Prop.
Abbreviation wf := (server_wf X Y nobody).
Implicit Types (s : server) (w : sys).

Lemma sessions_ok l Q s w :
  (forall c, c ∈ l -> is_Some (sv_clients s !! c)) ->
  (forall all, Forall2 (fun c n => exists k, sv_clients s !! c = Some k /\ session k = n) l all ->
     Q all s w) ->
  wp (sessions l) Q s w.
Proof.
  revert Q. induction l as [|c l IH]; intros Q Hin HQ; cbn [sessions].
  - wp_steps. by apply HQ.
  - destruct (Hin c (list_elem_of_here c l)) as [k Hk]. wp_steps.
    eapply wp_get_client; [done|]. wp_steps. apply IH.
    + intros c0 Hc0. apply Hin. by right.
    + intros all Hall. wp_steps. apply HQ. constructor; eauto.
Qed.

(** The session a new client gets: the current VT, free of other sessions if a
    client is on its way out; or the smallest free number. *)
Definition session_choice (t t1 : seat) (s : server) (n : Z) : Prop :=
  if vt_bound t then
    refreshed_vt t t1 /\ n = cur_vt t1 /\
    (active_client t ≠ None -> forall c k, c ∈ clients t -> sv_clients s !! c = Some k -> session k ≠ n)
  else
    t1 = t /\ (forall c k, c ∈ clients t -> sv_clients s !! c = Some k -> session k ≠ n) /\
    forall i, 1 <= i < n -> exists c k, c ∈ clients t /\ sv_clients s !! c = Some k /\ session k = i.

(** The client joined: it is first in the seat's list, and in no other. *)
Definition join (p c : nat) (t : seat) (k : client) (n : Z) (s : server) : server :=
  put_seat p (set_clients (c :: clients t) t)
    (set_idle_clients (list_remove_id c (idle_clients s))
       (put_client c (set_c_seat (Some p) (set_session n k)) s)).

(** No VT for the client: it is not known, or a client on its way out and another
    one contend for it. *)
Definition vt_refused (t t1 : seat) (s : server) (w' : sys) : Prop :=
  vt_bound t = true /\
  (cur_vt t1 = -1 /\ errno w' = EINVAL \/
   active_client t ≠ None /\ errno w' = EBUSY /\
     exists c k, c ∈ clients t /\ sv_clients s !! c = Some k /\ session k = cur_vt t1).

(** Why a client is not added to a seat. *)
Definition add_refused (t t1 : seat) (k : client) (s : server) (w' : sys) : Prop :=
  c_seat k ≠ None /\ errno w' = EBUSY \/
  session k ≠ -1 /\ errno w' = EINVAL \/
  vt_bound t = true /\ errno w' = EBUSY /\
    (exists a ka, active_client t = Some a /\ sv_clients s !! a = Some ka /\
       state ka ≠ CLIENT_PENDING_DISABLE) \/
  vt_refused t t1 s w'.

Definition add_post (p c : nat) (t : seat) (k : client) (s : server)
    (r : Z) (s' : server) (w' : sys) : Prop :=
  r = -1 /\ (exists t1, refreshed_vt t t1 /\ s' = put_seat p t1 s /\ add_refused t t1 k s w') \/
  r = 0 /\ exists t1 n, c_seat k = None /\ session k = -1 /\ 0 < n /\ session_choice t t1 s n /\
    refreshed_vt t t1 /\ s' = join p c t1 k n (put_seat p t1 s).

Definition session_post (p : nat) (t : seat) (s : server) (w : sys)
    (o : option Z) (s' : server) (w' : sys) : Prop :=
  quiet w w' /\ exists t1, refreshed_vt t t1 /\ s' = put_seat p t1 s /\
    match o with None => vt_refused t t1 s w' | Some n => 0 < n /\ session_choice t t1 s n end.

Lemma wf_seat_members s p t :
  wf s -> sv_seats s !! p = Some t -> forall c, c ∈ clients t -> is_Some (sv_clients s !! c).
Proof.
  intros W Ht c Hc. destruct (sw_members _ _ _ _ (vw_seats _ _ _ _ W _ _ Ht) c Hc) as (k & ? & _). eauto.
Qed.

(** The part of [vt_session] after the refresh. *)
Lemma vt_session_rest p t t1 s w w1 :
  wf s -> sv_seats s !! p = Some t -> vt_bound t = true -> refreshed_vt t t1 -> quiet w w1 ->
  wp (t ← get_seat p;
      if cur_vt t =? -1 then fail_with EINVAL None else
      taken ← (if bool_decide (active_client t ≠ None)
               then first_client (fun k => session k =? cur_vt t) (clients t) else mret None);
      match taken with Some _ => fail_with EBUSY None | None => mret (Some (cur_vt t)) end)
    (session_post p t s w) (put_seat p t1 s) w1.
Proof.
  intros W Ht Hb Hr Hq. pose proof (vw_seats _ _ _ _ W _ _ Ht) as Wt. wp_steps.
  eapply wp_get_seat; [look|]. destruct (refreshed_fields _ _ Hr) as (Ea & _ & _ & Ec).
  assert (Hnone : forall e w2, quiet w w2 -> vt_refused t t1 s (Sys (trace w2) e) ->
    session_post p t s w None (put_seat p t1 s) (Sys (trace w2) e)).
  { intros e w2 Hq2 Hv. split; [by etrans; [|apply quiet_errno]|]. by exists t1. }
  destruct (Z.eqb_spec (cur_vt t1) (-1)); wp_steps; [by apply Hnone; [|split; auto]|].
  assert (Hcur : 0 < cur_vt t1).
  { destruct Hr as [->|(v & ? & ->)]; [|done]. destruct (sw_cur _ _ _ _ Wt); [done|lia]. }
  rewrite Ea, Ec. case_bool_decide as Hact; wp_steps.
  - eapply first_client_ok; [exact (wf_seat_members s p t W Ht)|..].
    + intros c0 k0 Hc0 Hk0 E0. wp_steps. apply Hnone; [done|]. split; [done|]. right.
      split_and!; [done..|]. exists c0, k0. split_and!; [done..|lia].
    + intros Hfree. wp_steps. split; [done|]. exists t1. split_and!; try done.
      unfold session_choice. rewrite Hb. split_and!; try done. intros _ c0 k0 Hc0 Hk0.
      specialize (Hfree _ _ Hc0 Hk0). cbn in Hfree. lia.
  - split; [done|]. exists t1. unfold session_choice. rewrite Hb. by split_and!.
Qed.

Lemma vt_session_ok p t s w :
  wf s -> sv_seats s !! p = Some t -> vt_bound t = true ->
  wp (vt_session p) (session_post p t s w) s w.
Proof.
  intros W Ht Hb. unfold vt_session. wp_step. eapply seat_update_vt_ok; [done|..].
  - intros w1 Hq _. pose proof (vt_session_rest p t t s w w1 W Ht Hb (or_introl eq_refl) Hq) as Hrest.
    by rewrite (put_seat_same p t s Ht) in Hrest.
  - intros vt w1 Hq Hvt. apply vt_session_rest; try done. right. eauto.
Qed.

Lemma free_session_ok p t s w :
  wf s -> sv_seats s !! p = Some t -> vt_bound t = false ->
  wp (free_session (clients t)) (session_post p t s w) s w.
Proof.
  intros W Ht Hb. unfold free_session. wp_steps. apply sessions_ok; [by eapply wf_seat_members|].
  intros all Hall. wp_steps.
  destruct (next_session_total all) as (m & -> & Hm & Hout & Hlow). wp_steps.
  split; [done|]. exists t. rewrite put_seat_same by done. unfold session_choice. rewrite Hb.
  split_and!; try done; [by left|lia|..].
  - intros c0 k0 Hc0 Hk0 <-. apply Hout. apply list_elem_of_lookup in Hc0 as [i Hi].
    destruct (Forall2_lookup_l _ _ _ _ _ Hall Hi) as (n & Hn & k1 & Hk1 & <-). simplify_eq.
    by eapply list_elem_of_lookup_2.
  - intros i Hi. apply Hlow in Hi. apply list_elem_of_lookup in Hi as [j Hj].
    destruct (Forall2_lookup_r _ _ _ _ _ Hall Hj) as (c0 & Hc0 & k1 & Hk1 & <-).
    exists c0, k1. split_and!; [by eapply list_elem_of_lookup_2|done..].
Qed.

Lemma seat_add_client_ok p t c k s w :
  wf s -> sv_seats s !! p = Some t -> sv_clients s !! c = Some k ->
  wp (seat_add_client p c) (fun r s' w' => add_post p c t k s r s' w' /\ quiet w w') s w.
Proof.
  intros W Ht Hk. unfold seat_add_client. wp_steps.
  eapply wp_get_seat; [done|]. wp_steps. eapply wp_get_client; [done|].
  assert (Hfail : forall e, add_refused t t k s (Sys (trace w) e) ->
    add_post p c t k s (-1) s (Sys (trace w) e) /\ quiet w (Sys (trace w) e)).
  { intros e Hwhy. split; [|apply quiet_errno]. left. split; [done|]. exists t. split; [by left|].
    by rewrite put_seat_same. }
  case_bool_decide as Hseat; wp_steps; [by apply Hfail; left|].
  apply (wp_mono _ (fun (b : bool) s' w' => s' = s /\ w' = w /\ (b = true -> vt_bound t = true /\
    exists a ka, active_client t = Some a /\ sv_clients s !! a = Some ka /\ state ka ≠ CLIENT_PENDING_DISABLE))).
  { wp_case; wp_steps; [|done]. destruct (active_client t) as [a|] eqn:Ea; wp_steps; [|done].
    destruct (wf_active _ _ _ _ _ _ W Ht Ea) as (ka & _ & Hka & _). eapply wp_get_client; [done|]. wp_steps.
    split_and!; [done..|]. intros Hb%bool_decide_eq_true. eauto 8. }
  intros b s0 w0 (-> & -> & Hb). wp_case; wp_steps.
  { apply Hfail. right. right. left. destruct (Hb eq_refl). auto. }
  destruct (Z.eqb_spec (session k) (-1)) as [Hnew|]; cbn [negb]; wp_steps; [|by apply Hfail; right; left].
  apply (wp_mono _ (session_post p t s w)).
  { destruct (vt_bound t) eqn:Ev; [by apply vt_session_ok|by apply free_session_ok]. }
  intros o s1 w1 (Hq & t1 & Hr & -> & Hn). destruct o as [n|]; wp_steps.
  2:{ split; [|done]. left. split; [done|]. exists t1. split_and!; [done..|]. by do 3 right. }
  destruct Hn as [Hpos Hch]. eapply wp_upd_client; [done|]. wp_steps.
  eapply wp_upd_client; [look|]. wp_steps. rewrite put_client_twice. rewrite unlink_idle.
  2:{ cbn. intros q t0 [[<- <-]|[Hne H0]]%lookup_insert_Some Hc0.
      - destruct (refreshed_fields _ _ Hr) as (_ & _ & _ & Ec). rewrite Ec in Hc0.
        pose proof (wf_member_seat _ _ _ _ _ _ _ _ W Ht Hc0 Hk). congruence.
      - pose proof (wf_member_seat _ _ _ _ _ _ _ _ W H0 Hc0 Hk). congruence. }
  eapply wp_upd_seat; [look|]. wp_steps. split; [|done]. right. split; [done|].
  exists t1, n. by split_and!.
Qed.

Lemma add_post_wf p t c k s r s' w' :
  wf s -> sv_seats s !! p = Some t -> sv_clients s !! c = Some k -> add_post p c t k s r s' w' ->
  wf s' /\ frame s s'.
Proof.
  intros W Ht Hk [(-> & t1 & Hr & -> & _)|(-> & t1 & n & Hs & _ & Hn & Hch & Hr & ->)].
  - split; [by eapply refreshed_wf|]. apply frame_put_seat.
  - assert (W1 : wf (put_seat p t1 s)) by by eapply refreshed_wf. split.
    + apply wf_join; [done|done|done|look|done|]. intros Hb.
      unfold session_choice in Hch. replace (vt_bound t) with true in Hch; [by destruct Hch as (_ & -> & _)|].
      symmetry. by destruct Hr as [->|(v & _ & ->)].
    + etrans; [apply (frame_put_seat s p t1)|].
      etrans; [by eapply (frame_put_client _ c k (set_c_seat (Some p) (set_session n k)))|].
      by apply frame_clients.
Qed.

End Join.
