(* ===== verification/SeatRemove.v ===== *)
(** * Removing a client from its seat *)
From S2P Require Import Prelude Kernel Connection Protocol Devices Terminal State Poller Send Seat Client.
From S2P Require Import Invariant Lifecycle Rules SendOk SeatOk SeatSwitch SeatVt SeatDevices.
From S2P Require Import SeatMembers.

(** ** Activation around a client that is on its way out *)

Section Others.
Context `{K : Kernel}.
Implicit Types (s : server) (w : sys).

Lemma opened_other p c t k s w r s' w' c0 :
  opened p c t k s w r s' w' -> c0 ≠ c -> sv_clients s' !! c0 = sv_clients s !! c0.
Proof.
  intros (k' & _ & [(_ & _ & _ & -> & _)|(_ & _ & ->)]) Hne; cbn; by rewrite lookup_insert_ne.
Qed.

(** Opening changes [active_client] of the seat at most. *)
Lemma opened_seat p c t k s w r s' w' :
  opened p c t k s w r s' w' -> sv_seats s !! p = Some t ->
  exists t', sv_seats s' !! p = Some t' /\
    (t' = t \/ t' = set_active_client (Some c) t /\ active_client t = None).
Proof.
  intros (k' & _ & [(_ & Ha & _ & -> & _)|(_ & _ & ->)]) Ht.
  - eexists. split; [look|by right].
  - exists t. by split; [|left].
Qed.

(** What activation leaves of a seat: the members and grouped VTs, and an active
    client, if there is a new one, among the members. *)
Definition activation_seat (t t' : seat) : Prop :=
  clients t' = clients t /\ group_vts t' = group_vts t /\ vt_bound t' = vt_bound t /\
  cur_vt t' = cur_vt t /\
  (next_client t' = next_client t \/ next_client t' = None) /\
  (active_client t' = active_client t \/
   active_client t = None /\ exists a, a ∈ clients t /\ active_client t' = Some a).

Lemma activated_seat_shape p t s w r s' w' :
  activated_seat p t s w r s' w' -> sv_seats s !! p = Some t ->
  (exists t', sv_seats s' !! p = Some t' /\ activation_seat t t') /\
  (forall c, c ∉ clients t -> sv_clients s' !! c = sv_clients s !! c) /\
  idle_clients s' = idle_clients s /\ seats s' = seats s.
Proof.
  assert (Hrefl : activation_seat t t) by (split_and!; auto).
  unfold activated_seat. intros Hact Ht.
  destruct (bool_decide _) eqn:Ea; [|destruct Hact as (_ & -> & _); eauto 8].
  apply bool_decide_eq_true in Ea.
  destruct Hact as [(_ & _ & -> & _)|(c & k & Hin & Hk & Hp & _ & Ho)]; [eauto 8|].
  pose proof Ho as Hseat. eapply opened_seat in Hseat as (t' & Ht' & Hor); [|look]. split_and!.
  - exists t'. split; [done|]. destruct Hor as [->|[-> _]]; split_and!; cbn; auto. right. eauto.
  - intros c0 Hc0. eapply opened_other in Ho; [by rewrite Ho|]. by intros ->.
  - by destruct Ho as (k' & _ & [(_ & _ & _ & -> & _)|(_ & _ & ->)]).
  - by destruct Ho as (k' & _ & [(_ & _ & _ & -> & _)|(_ & _ & ->)]).
Qed.

End Others.

(** The seat forgets its active client, which is off the list already. *)
Lemma wf_drop_active X Y s p t c :
  server_wf X Y (eq c) s -> sv_seats s !! p = Some t -> active_client t = Some c ->
  server_wf X Y (eq c) (put_seat p (set_active_client None t) s).
Proof.
  intros [Wc Ws Wct Wsl Win Wi Wcn Wcl Wsi Wso Wun Wca Wsa Wnc] Ht Ha. split; try done; cbn -[lookup insert].
  - intros c0 k0 H0. destruct (Wc _ _ H0). split; try done. cbn -[lookup insert].
    destruct (c_seat k0) as [q|]; [|done]. destruct cw_seat as (Hs & t0 & Ht0 & Hor).
    split; [done|]. destruct (decide (q = p)) as [->|Hne].
    + eexists. rewrite lookup_insert_eq. split; [done|]. simplify_eq.
      destruct Hor as [|[Hin Ho]]; [by left|].
      destruct (is_open (state k0)) eqn:Eo; [left; rewrite Ho in Ha; [congruence|done]|by right].
    + exists t0. by rewrite lookup_insert_ne.
  - intros q t0 [[<- <-]|[Hne H0]]%lookup_insert_Some.
    + by destruct (Ws _ _ Ht).
    + apply (seat_wf_clients _ s); auto.
  - intros c0 k0 H0. eapply control_wf_sources with (s := s); auto.
  - by apply insert_seat_list.
  - by eapply present_insert.
Qed.

Section Remove.
Context `{K : Kernel} `{Kok : !KernelOk}.
Variables X Y : nat -> Prop.
Implicit Types (s : server) (w : sys).

(** ** The grouped VTs of the client *)

Lemma remove_group_mid l1 g l2 t :
  NoDup (group_vt <$> (l1 ++ g :: l2)) ->
  remove_group_vt (group_vt g) (set_group_vts (l1 ++ g :: l2) t) = set_group_vts (l1 ++ l2) t.
Proof.
  intros Hnd. unfold remove_group_vt. cbn -[filter].
  assert (Hout : forall l : list seat_group_vt, group_vt g ∉ group_vt <$> l -> filter (fun x => group_vt x ≠ group_vt g) l = l).
  { induction l as [|x l IH]; [done|]. rewrite fmap_cons, not_elem_of_cons. intros [Hne Hl].
    rewrite filter_cons, decide_True by done. by rewrite IH. }
  rewrite fmap_app, fmap_cons in Hnd. apply NoDup_app in Hnd as (_ & H1 & [H2 _]%NoDup_cons).
  rewrite filter_app, filter_cons, decide_False by tauto. rewrite !Hout; [done|done|].
  intros Hin. apply (H1 _ Hin). left.
Qed.

(** The loop closes exactly the grouped VTs the client owns. *)
Lemma drop_groups_ok p t c Q s w :
  server_wf X Y (eq c) s -> sv_seats s !! p = Some t ->
  (forall w', quiet w w' ->
     let t' := set_group_vts (filter (fun g => owner g ≠ c) (group_vts t)) t in
     server_wf X Y (eq c) (put_seat p t' s) -> Q () (put_seat p t' s) w') ->
  wp (for_each (fun g => if bool_decide (owner g = c) then drop_group_vt p g else mret ())
        (group_vts t)) Q s w.
Proof.
  intros W Ht HQ. pose proof (vw_seats _ _ _ _ W _ _ Ht) as Wt.
  apply (wp_for_each (fun l s' w' => exists l0, group_vts t = l0 ++ l /\ quiet w w' /\
    server_wf X Y (eq c) s' /\
    s' = put_seat p (set_group_vts (filter (fun g => owner g ≠ c) l0 ++ l) t) s)).
  - exists []. split_and!; try done. cbn. rewrite put_seat_same; [done|]. by destruct t.
  - intros g l s' w' (l0 & El & Hq & W' & ->).
    assert (Hnd : NoDup (group_vt <$> (filter (fun g => owner g ≠ c) l0 ++ g :: l))).
    { destruct (vw_seats _ _ _ _ W' p _ ltac:(look)). done. }
    assert (El' : group_vts t = (l0 ++ [g]) ++ l) by by rewrite <- app_assoc.
    case_bool_decide as Ho; wp_steps.
    + eapply drop_group_vt_ok; [look| |].
      { pose proof (sw_owners _ _ _ _ Wt) as Hall. rewrite El, Forall_app, Forall_cons in Hall.
        destruct Hall as (_ & (? & _) & _). lia. }
      intros w2 Hq2. exists (l0 ++ [g]). split_and!; [done|by etrans| |].
      * by apply (wf_remove_group _ _ _ _ _ _ _ W'); look.
      * rewrite put_seat_twice, remove_group_mid by done. rewrite filter_app, filter_cons.
        rewrite decide_False by tauto. by rewrite filter_nil, app_nil_r.
    + exists (l0 ++ [g]). split_and!; try done. rewrite filter_app, filter_cons.
      rewrite decide_True by done. by rewrite filter_nil, <- app_assoc.
  - intros s' w' (l0 & El & Hq & W' & ->). rewrite app_nil_r in El, W' |- *. subst l0. by apply HQ.
Qed.

(** ** The active client *)

Lemma seat_release_active_ok p t c k s w :
  server_wf X Y (eq c) s -> sv_seats s !! p = Some t -> sv_clients s !! c = Some k ->
  c ∉ clients t ->
  wp (seat_release_active p c) (fun b s' w' => exists t',
    server_wf X Y (eq c) s' /\ frame s s' /\ sv_clients s' !! c = Some k /\
    sv_seats s' !! p = Some t' /\ clients t' = clients t /\ group_vts t' = group_vts t /\
    active_client t' ≠ Some c /\ (next_client t' = next_client t \/ next_client t' = None) /\
    idle_clients s' = idle_clients s /\ seats s' = seats s /\ sys_le w w' /\
    (active_client t = Some c -> exists r, activated_seat p (set_active_client None t)
       (put_seat p (set_active_client None t) s) w r s' w')) s w.
Proof.
  intros W Ht Hk Hout. unfold seat_release_active. wp_steps. eapply wp_get_seat; [done|].
  case_bool_decide as Ha; wp_steps; [|exists t; by split_and!; auto].
  eapply wp_upd_seat; [done|]. wp_steps. pose proof (wf_drop_active _ _ _ _ _ _ W Ht Ha) as W1.
  eapply wp_mono; [eapply seat_activate_ok; [exact W1|look]|]. intros r s' w' Hact. wp_steps.
  destruct (activated_seat_wf _ _ _ _ _ _ _ _ _ _ W1 ltac:(look) Hact) as [W' F].
  pose proof (activated_le _ _ _ _ _ _ _ Hact) as Hle. pose proof Hact as Hact0.
  eapply activated_seat_shape in Hact as ((t' & Ht' & Ec & Eg & _ & _ & Hn & Hor) & Hcl & Ei & El); [|look].
  cbn in Ec, Eg, Hn, Hor, Hcl, Ei, El. exists t'. split_and!; try done.
  - by rewrite Hcl.
  - intros Hc. destruct Hor as [E|(_ & a & Hin & E)]; [congruence|]. rewrite E in Hc.
    by injection Hc as ->.
  - eauto.
Qed.

Lemma seat_clean_vt_ok p t c k b Q s w :
  sv_seats s !! p = Some t -> sv_clients s !! c = Some k -> 0 < session k ->
  (forall w', quiet w w' -> Q () s w') -> wp (seat_clean_vt p c b) Q s w.
Proof.
  intros Ht Hk Hs HQ. unfold seat_clean_vt. wp_steps. eapply wp_get_seat; [done|]. wp_steps.
  eapply wp_get_client; [done|].
  repeat (wp_case; wp_steps); try (by apply HQ); (apply vt_close_ok; [lia|]); intros; wp_steps; by apply HQ.
Qed.

(** ** The whole removal *)

(** The seat was given to another client once the one that left was off it. *)
Definition handed_over (c p : nat) (t : seat) (s' : server) : Prop :=
  exists t0 s0 w0 r s1 w1, active_client t0 = None /\ clients t0 = list_remove_id c (clients t) /\
    next_client t0 = (if bool_decide (next_client t = Some c) then None else next_client t) /\
    activated_seat p t0 s0 w0 r s1 w1 /\ sv_seats s' !! p = sv_seats s1 !! p.

(** Afterwards nothing refers to the client: its devices are closed, it is without a seat, and
    the seat's list, active and queued clients and grouped VTs are free of it; if
    it was the active one, the seat has chosen another. *)
Definition removed (c : nat) (k : client) (p : nat) (t : seat) (s : server) (w : sys)
    (s' : server) (w' : sys) : Prop :=
  closed_all (devices k) w w' /\
  (exists k', sv_clients s' !! c = Some k' /\ c_seat k' = None /\ state k' = CLIENT_CLOSED /\
     devices k' = [] /\ session k' = session k) /\
  (exists t', sv_seats s' !! p = Some t' /\ clients t' = list_remove_id c (clients t) /\
     active_client t' ≠ Some c /\ next_client t' ≠ Some c /\
     group_vts t' = filter (fun g => owner g ≠ c) (group_vts t)) /\
  (active_client t = Some c -> handed_over c p t s') /\
  idle_clients s' = idle_clients s /\ seats s' = seats s.

(** The client is not the next one any more. *)
Lemma forget_next_ok c p t s w :
  server_wf X Y nobody s -> sv_seats s !! p = Some t ->
  wp (if bool_decide (next_client t = Some c) then upd_seat p (set_next_client None) else mret ())
    (fun _ s' w' => w' = w /\ exists t1, s' = put_seat p t1 s /\ server_wf X Y nobody s' /\
      clients t1 = clients t /\ group_vts t1 = group_vts t /\ active_client t1 = active_client t /\
      next_client t1 ≠ Some c /\
      next_client t1 = (if bool_decide (next_client t = Some c) then None else next_client t)) s w.
Proof.
  intros W Ht. case_bool_decide; wp_steps.
  - eapply wp_upd_seat; [done|]. split; [done|]. eexists. split; [reflexivity|]. split; [by eapply wf_clear_next|done].
  - split; [done|]. exists t. by rewrite put_seat_same.
Qed.

Lemma seat_remove_client_ok c k p t s w :
  server_wf X Y nobody s -> sv_clients s !! c = Some k -> c_seat k = Some p ->
  sv_seats s !! p = Some t ->
  wp (seat_remove_client c) (fun _ s' w' =>
    server_wf X Y (eq c) s' /\ frame s s' /\ removed c k p t s w s' w') s w.
Proof.
  intros W Hk Hp Ht. destruct (wf_seated _ _ _ _ _ _ W Hk Hp) as (t0 & Ht0 & Hin & Hpos). simplify_eq.
  pose proof (vw_clients _ _ _ _ W _ _ Hk) as Wk.
  unfold seat_remove_client. wp_steps. eapply wp_get_client; [done|]. wp_steps.
  apply (wp_deref _ p); [done|]. wp_steps. eapply wp_get_seat; [done|]. wp_steps.
  eapply wp_mono; [by apply forget_next_ok|]. intros _ s1 w1 (-> & t1 & -> & W1 & Ec & Eg & Ea & Hn & En). wp_steps.
  rewrite (unlink_seated X Y nobody _ c k p t1 W1 Hk Hp ltac:(look)), put_seat_twice.
  set (t2 := set_clients (list_remove_id c (clients t1)) t1).
  assert (W2 : server_wf X Y (eq c) (put_seat p t2 s)).
  { rewrite <- (put_seat_twice p _ t1). eapply wf_detach; [done|done|done|look|done]. }
  eapply close_devices_ok; [done|done|look|apply Wk|done|]. intros w3 Hq3 Hcl.
  assert (W3 : server_wf X Y (eq c) (put_client c (set_devices [] k) (put_seat p t2 s))).
  { eapply wf_put_client; [exact W2|done|]. destruct (client_local_refl _ _ _ _ _ Wk).
    split; try done. repeat constructor. by cbn. }
  wp_steps. eapply wp_get_seat; [look|]. wp_steps.
  eapply drop_groups_ok; [exact W3|look|]. intros w4 Hq4 t3 W4. wp_steps.
  eapply wp_mono; [eapply seat_release_active_ok; [exact W4|look|look|]|].
  { cbn. rewrite elem_of_list_remove_id. tauto. }
  intros b s5 w5 (t5 & W5 & F5 & Hk5 & Ht5 & Ec5 & Eg5 & Ha5 & Hn5 & Ei5 & El5 & Hle5 & Hact). wp_steps.
  eapply seat_clean_vt_ok; [done|done|done|]. intros w6 Hq6. wp_steps.
  eapply wp_upd_client; [done|]. wp_steps. eapply wp_upd_client; [look|]. rewrite put_client_twice.
  cbn -[filter] in Ec5, Eg5, Hn5. split_and!.
  - eapply wf_leave; [exact W5|done|done|done| |done| |done].
    + rewrite Ec5, elem_of_list_remove_id. tauto.
    + rewrite Eg5. apply Forall_forall. by intros g [? _]%list_elem_of_filter.
  - etrans; [apply (frame_put_seat s p t2)|].
    etrans; [by eapply (frame_put_client _ c k (set_devices [] k))|].
    etrans; [apply (frame_put_seat _ p t3)|]. etrans; [exact F5|]. by eapply frame_put_client.
  - split_and!; [|eexists; split; [look|done]| | |done|done].
    + destruct Hcl as (h & E & Hh).
      assert (Hle : sys_le w3 w6) by (etrans; [by apply quiet_le|]; etrans; [done|by apply quiet_le]).
      destruct Hle as [h' E']. exists (h' ++ h). split; [by rewrite E', E, app_assoc|].
      intros d Hd Hf. destruct (Hh d Hd Hf) as [r Hr]. exists r. rewrite elem_of_app. auto.
    + exists t5. split_and!; [done|by rewrite Ec5, Ec|done| |by rewrite Eg5, Eg].
      destruct Hn5 as [->| ->]; done.
    + intros Hcur. destruct Hact as [r Hact]; [by cbn; rewrite Ea|].
      do 6 eexists. split_and!; [| | |exact Hact|done]; cbn; [done|by rewrite Ec|done].
Qed.

End Remove.
