(* ===== verification/ClientOk.v ===== *)
(** * What the operations of client.c do *)
From S2P Require Import Prelude Kernel Connection Protocol Devices Terminal State Poller Send Seat Client.
From S2P Require Import Invariant Lifecycle Rules SendOk SeatOk SeatSwitch SeatVt SeatDevices.
From S2P Require Import SeatMembers SeatRemove.

(** ** Destruction *)

Section Destroy.
Context `{K : Kernel} `{Kok : !KernelOk}.
Variable Y : nat -> Prop.
Implicit Types (s : server) (w : sys).

Lemma wf_unidle X s c :
  server_wf X Y (eq c) s -> server_wf X Y (eq c) (set_idle_clients (list_remove_id c (idle_clients s)) s).
Proof.
  intros [Wc Ws Wct Wsl Win Wi Wcn Wcl Wsi Wso Wun Wca Wsa Wnc]. split; try done; cbn.
  - intros. eapply client_wf_sources with (s := s); auto.
  - intros. eapply seat_wf_clients with (s := s); auto.
  - intros. eapply control_wf_sources with (s := s); auto.
  - by apply NoDup_list_remove_id.
  - intros c0 [_ Hc0]%elem_of_list_remove_id. auto.
  - intros c0 k0 H0 Hn. rewrite elem_of_list_remove_id. destruct (decide (c0 = c)) as [->|]; [by right|].
    destruct (Wun _ _ H0 Hn); auto.
Qed.

(** A client being destroyed loses its server and its descriptor. *)
Lemma wf_orphan s c k :
  server_wf (eq c) Y nobody s -> sv_clients s !! c = Some k ->
  server_wf (eq c) Y nobody (put_client c (set_c_server false k) s).
Proof.
  intros W Hk. eapply wf_set_client; [done..| |done|done|done].
  destruct (vw_clients _ _ _ _ W _ _ Hk). split; try done. by left.
Qed.

(** What [client_destroy] leaves: the client is freed, on no list, its socket and
    devices are closed, and its seat has no trace of it. *)
Definition destroyed (c : nat) (k : client) (s : server) (w : sys) (s' : server) (w' : sys) : Prop :=
  sv_clients s' !! c = None /\ idle_clients s' = list_remove_id c (idle_clients s) /\
  seats s' = seats s /\
  (fd (c_connection k) ≠ -1 -> exists h r, trace w' = h ++ trace w /\ (Close (fd (c_connection k)), r) ∈ h) /\
  (forall p t, c_seat k = Some p -> sv_seats s !! p = Some t -> closed_all (devices k) w w' /\
     exists t', sv_seats s' !! p = Some t' /\ clients t' = list_remove_id c (clients t) /\
       active_client t' ≠ Some c /\ next_client t' ≠ Some c /\
       group_vts t' = filter (fun g => owner g ≠ c) (group_vts t)) /\
  (c_seat k = None -> sv_seats s' = sv_seats s).

Lemma closed_all_mono l w0 w1 w2 w3 :
  sys_le w0 w1 -> closed_all l w1 w2 -> sys_le w2 w3 -> closed_all l w0 w3.
Proof.
  intros [h1 E1] (h & E & Hh) [h3 E3]. exists (h3 ++ h ++ h1).
  split; [by rewrite E3, E, E1, <- !app_assoc|]. intros d Hd Hf. destruct (Hh d Hd Hf) as [r Hr].
  exists r. rewrite !elem_of_app. auto.
Qed.

(** From a client that has left its seat on. *)
Lemma client_release_ok c k s w :
  server_wf (eq c) Y (eq c) s -> sv_clients s !! c = Some k -> c_seat k = None -> devices k = [] ->
  wp (modify (unlink_client c);;
      k ← get_client c;
      match c_event_source k with
      | Some es => event_source_fd_destroy es;; upd_client c (set_c_event_source None)
      | None => mret ()
      end;;
      on_conn c connection_close_fds;;
      k ← get_client c;
      assert_ (bool_decide (devices k = []));;
      modify (fun s => set_sv_clients (delete c (sv_clients s)) s))
    (fun _ s' w' => server_wf nobody Y nobody s' /\ sv_clients s' !! c = None /\
      idle_clients s' = list_remove_id c (idle_clients s) /\ seats s' = seats s /\
      sv_seats s' = sv_seats s /\ sys_le w w') s w.
Proof.
  intros W Hk Hs Hd. wp_step. wp_step. rewrite unlink_idle.
  2:{ intros p t Ht Hc. pose proof (wf_member_seat _ _ _ _ _ _ _ _ W Ht Hc Hk). congruence. }
  apply (wf_unidle _ _ c) in W. set (s1 := set_idle_clients _ _) in *.
  wp_step. eapply wp_get_client; [exact Hk|]. wp_step.
  apply (wp_mono _ (fun _ s' w' => exists k', server_wf (eq c) Y (eq c) s' /\
    sv_clients s' !! c = Some k' /\ c_event_source k' = None /\ c_seat k' = None /\ devices k' = [] /\
    idle_clients s' = idle_clients s1 /\ seats s' = seats s /\ sv_seats s' = sv_seats s /\ w' = w)).
  { destruct (c_event_source k) as [e|] eqn:He; wp_steps; [|by exists k].
    apply wp_source_destroy; [by eapply wf_source|]. wp_steps. eapply wp_upd_client; [look|].
    eexists. split; [by eapply wf_kill|].
    split; [look|done]. }
  intros _ s2 w2 (k2 & W2 & Hk2 & He2 & Hs2 & Hd2 & Ei2 & El2 & Et2 & ->). wp_steps.
  eapply wp_on_conn; [done|]. pose proof (vw_clients _ _ _ _ W2 _ _ Hk2) as [Wc2 _ _ _ _].
  eapply wp_mono; [by apply connection_close_fds_ok|]. intros _ conn w3 (Wc3 & _ & _ & _ & _ & Hq3 & _). wp_steps.
  eapply wp_get_client; [look|]. wp_steps. apply wp_assert; [by apply bool_decide_eq_true|]. wp_steps.
  split_and!; cbn; try done.
  - eapply wf_free; [by apply wf_put_conn|look|done|done|]. cbn. rewrite Ei2. cbn.
    rewrite elem_of_list_remove_id. tauto.
  - by rewrite lookup_delete_eq.
  - by apply quiet_le.
Qed.

(** The first part: an embedded server is told to stop, and the socket is closed. *)
Lemma stop_embedded_ok c k s w :
  sv_clients s !! c = Some k -> c_server k = true ->
  wp (if libseat_build then client_server c;; modify (set_running false) else mret ())
    (fun _ s' w' => (s' = s \/ s' = set_running false s) /\ w' = w) s w.
Proof.
  intros Hk Hsrv. destruct libseat_build; wp_steps; [|auto]. unfold client_server. wp_step.
  eapply wp_get_client; [done|]. rewrite Hsrv. wp_steps. auto.
Qed.

Lemma close_socket_ok c k s w :
  server_wf (eq c) Y nobody (put_client c k s) -> conn_wf (c_connection k) ->
  wp (if fd (c_connection k) =? -1 then mret () else
        close (fd (c_connection k));;
        upd_client c (fun k => set_c_connection (set_fd (-1) (c_connection k)) k))
    (fun _ s' w' => exists k', s' = put_client c k' s /\ server_wf (eq c) Y nobody s' /\
      c_seat k' = c_seat k /\ devices k' = devices k /\ exists h, trace w' = h ++ trace w /\
      (fd (c_connection k) ≠ -1 -> exists r, (Close (fd (c_connection k)), r) ∈ h)) (put_client c k s) w.
Proof.
  intros W Hc. destruct (Z.eqb_spec (fd (c_connection k)) (-1)) as [Ef|Ef]; wp_steps.
  { eexists. split_and!; [done..|]. by exists []. }
  unfold close. wp_steps. apply wp_ext. intros r _. wp_steps.
  eapply wp_upd_client; [look|]. eexists. split; [by rewrite put_client_twice|].
  split_and!; [|done|done|by eexists [_]; split; [reflexivity|]; intros _; exists r; left].
  apply wf_put_conn; [done|look|by apply set_fd_wf].
Qed.

Lemma client_destroy_ok c k s w :
  server_wf (eq c) Y nobody s -> sv_clients s !! c = Some k -> c_server k = true ->
  wp (client_destroy c) (fun _ s' w' => server_wf nobody Y nobody s' /\ destroyed c k s w s' w') s w.
Proof.
  intros W Hk Hsrv. unfold client_destroy. wp_step.
  eapply wp_mono; [by apply (stop_embedded_ok c k)|]. intros _ s1 w1 [E1 ->].
  assert (Hd : forall s' w', destroyed c k s1 w s' w' -> destroyed c k s w s' w') by by destruct E1 as [-> | ->].
  assert (W1 : server_wf (eq c) Y nobody s1) by (destruct E1 as [-> | ->]; [done|by apply (wf_same _ _ _ s)]).
  assert (Hk1 : sv_clients s1 !! c = Some k) by by destruct E1 as [-> | ->].
  apply (wp_mono _ (fun _ s' w' => server_wf nobody Y nobody s' /\ destroyed c k s1 w s' w')); [|naive_solver].
  clear dependent s. rename s1 into s, W1 into W, Hk1 into Hk. wp_step. eapply wp_upd_client; [done|]. wp_step.
  eapply wp_get_client; [look|]. pose proof (wf_orphan _ _ _ W Hk) as W1. wp_step.
  eapply wp_mono; [apply close_socket_ok; [done|by destruct (vw_clients _ _ _ _ W _ _ Hk)]|].
  intros _ s2 w2 (k2 & -> & W2 & Es2 & Ed2 & h2 & E2 & Hh2). wp_step.
  cbn [c_seat devices c_connection set_c_server] in Es2, Ed2, Hh2.
  assert (Hsock : forall w', sys_le w2 w' -> fd (c_connection k) ≠ -1 ->
    exists h r, trace w' = h ++ trace w /\ (Close (fd (c_connection k)), r) ∈ h).
  { intros w' [h E] Hf. destruct (Hh2 Hf) as [r Hr]. exists (h ++ h2), r.
    rewrite E, E2, app_assoc, elem_of_app. auto. }
  pose proof (vw_clients _ _ _ _ W2 c k2 ltac:(look)) as Wk2.
  cbn [c_seat set_c_server]. case_bool_decide as Hs.
  - wp_step. pose proof (cw_seat _ _ _ _ _ Wk2) as Hx. rewrite Es2, Hs in Hx. destruct Hx as [Hd _].
    apply (wf_exempt _ (eq c) _ Y _ (eq c)) in W2; [|done..].
    eapply wp_mono; [eapply client_release_ok; [done|look|congruence|done]|].
    intros _ s3 w3 (W3 & Hc & Ei & El & Et & Hle). split; [done|]. split_and!; try done; [by apply Hsock|].
    intros p t Hp. congruence.
  - destruct (c_seat k) as [p|] eqn:Hp; [|done].
    assert (Hk2 : sv_clients (put_client c k2 s) !! c = Some k2) by look.
    assert (Hp2 : c_seat k2 = Some p) by by rewrite Es2.
    destruct (wf_seated _ _ _ _ _ _ W2 Hk2 Hp2) as (t & Ht & _).
    eapply wp_mono; [eapply seat_remove_client_ok; [exact W2|done..]|].
    intros _ s3 w3 (W3 & _ & Hcl & (k3 & Hk3 & Hs3 & _ & Hd3 & _) & (t3 & Ht3 & Hseat) & _ & Ei3 & El3).
    assert (Hle3 : sys_le w2 w3) by (destruct Hcl as (h & E & _); by exists h).
    eapply wp_mono; [eapply client_release_ok; [exact W3|done..]|].
    intros _ s4 w4 (W4 & Hc & Ei & El & Et & Hle4). split; [done|]. cbn in Ht, Ei3, El3. split_and!.
    + done.
    + by rewrite Ei, Ei3.
    + by rewrite El, El3.
    + apply Hsock. by etrans.
    + intros p0 t0 Hp0 Ht0. simplify_eq. rewrite Ed2 in Hcl. split; [|exists t3; by rewrite Et].
      eapply closed_all_mono; [by exists h2|exact Hcl|done].
    + congruence.
Qed.

(** A client of a well-formed server. *)
Lemma client_destroy_wf c k s w :
  server_wf nobody Y nobody s -> sv_clients s !! c = Some k ->
  wp (client_destroy c) (fun _ s' w' => server_wf nobody Y nobody s' /\ destroyed c k s w s' w') s w.
Proof.
  intros W Hk. apply client_destroy_ok; [|done|].
  - by apply (wf_exempt _ (eq c) _ Y _ nobody) in W.
  - by destruct (cw_server _ _ _ _ _ (vw_clients _ _ _ _ W _ _ Hk)).
Qed.

End Destroy.

(** ** Requests *)

Section Requests.
Context `{K : Kernel} `{Kok : !KernelOk}.
Variable Y : nat -> Prop.
Abbreviation wf := (server_wf nobody Y nobody).
Implicit Types (s : server) (w : sys).

(** A request leaves a well-formed state in which no client is gone and nothing
    was taken from what they sent. *)
Definition request_post (s : server) (r : Z) (s' : server) (w' : sys) : Prop :=
  wf s' /\ frame s s' /\ status r.

Lemma request_fail s s' w : wf s' -> frame s s' -> request_post s (-1) s' w.
Proof. intros W F. split; [done|]. split; [done|by right]. Qed.

Lemma request_done s s' w : wf s' -> frame s s' -> request_post s 0 s' w.
Proof. intros W F. split; [done|]. split; [done|by left]. Qed.

Lemma request_trans s1 s2 r s3 w : frame s1 s2 -> request_post s2 r s3 w -> request_post s1 r s3 w.
Proof. intros F (W & F' & Hr). split_and!; [done|by etrans|done]. Qed.

Lemma find_seat_ok name l Q s w :
  (forall p, p ∈ l -> is_Some (sv_seats s !! p)) ->
  (forall p t, p ∈ l -> sv_seats s !! p = Some t -> seat_name t = name -> Q (Some p) s w) ->
  Q None s w ->
  wp (find_seat name l) Q s w.
Proof.
  induction l as [|p l IH]; intros Hin HS HN; cbn [find_seat]; [by wp_steps|].
  destruct (Hin p (list_elem_of_here p l)) as [t Ht]. wp_steps. eapply wp_get_seat; [done|].
  unfold strcmp_eq at 1. case_bool_decide; wp_steps; [by eapply HS; [left|..]|].
  apply IH; [|intros q ? ?; apply HS; by right|done]. intros q Hq. apply Hin. by right.
Qed.

Lemma server_get_seat_ok X D name Q s w :
  server_wf X Y D s ->
  (forall p t, p ∈ seats s -> sv_seats s !! p = Some t -> seat_name t = name -> Q (Some p) s w) ->
  Q None s w ->
  wp (server_get_seat name) Q s w.
Proof.
  intros W HS HN. unfold server_get_seat. wp_steps. apply find_seat_ok; [apply W|done|done].
Qed.

Lemma client_server_ok D c k Q s w :
  server_wf nobody Y D s -> sv_clients s !! c = Some k -> Q () s w -> wp (client_server c) Q s w.
Proof.
  intros W Hk HQ. unfold client_server. wp_steps. eapply wp_get_client; [done|].
  destruct (vw_clients _ _ _ _ W _ _ Hk) as [_ _ [[]|Hsv] _ _]. rewrite Hsv. by wp_steps.
Qed.

Lemma one_header h : Forall (Forall is_byte) [header_bytes h].
Proof. constructor; [apply header_bytes_byte|done]. Qed.

(** A reply without further effect. *)
Lemma reply_ok c msgs s w :
  wf s -> is_Some (sv_clients s !! c) -> Forall (Forall is_byte) msgs ->
  wp (put_reply c msgs) (request_post s) s w.
Proof.
  intros W [k Hk] Hm. eapply wp_mono; [by eapply put_reply_ok|].
  intros r s' w' (conn & -> & ? & ? & _ & Hr & _). split_and!; [done..|].
  destruct Hr as [?|[? _]]; [by left|by right].
Qed.

Lemma error_reply_ok c e s w :
  wf s -> is_Some (sv_clients s !! c) -> wp (client_send_error c e) (request_post s) s w.
Proof.
  intros W [k Hk]. eapply wp_mono; [by eapply client_send_error_ok|].
  intros r s' w' Ha. by eapply answered_wf in Ha.
Qed.

Lemma frame_alive s s' c : frame s s' -> is_Some (sv_clients s !! c) -> is_Some (sv_clients s' !! c).
Proof. intros F [k Hk]. destruct (F _ _ Hk) as (k' & ? & _). eauto. Qed.

Lemma handle_open_seat_ok c k s w :
  wf s -> sv_clients s !! c = Some k -> wp (handle_open_seat c) (request_post s) s w.
Proof.
  intros W Hk. unfold handle_open_seat. wp_steps. eapply client_server_ok; [done..|]. wp_steps.
  eapply server_get_seat_ok; [done| |wp_steps; by apply request_fail]. intros p t _ Ht _. wp_steps.
  eapply wp_mono; [by eapply seat_add_client_ok|]. intros r s1 w1 [Hadd _].
  destruct (add_post_wf _ _ _ _ _ _ _ _ _ _ W Ht Hk Hadd) as [W1 F1].
  destruct Hadd as [(-> & t1 & Hr & -> & _)|(-> & t1 & n & Hs & _ & Hn & _ & Hr & ->)]; wp_steps.
  { by apply request_fail. }
  set (k1 := set_c_seat (Some p) (set_session n k)).
  assert (Hk1 : sv_clients (join p c t1 k n (put_seat p t1 s)) !! c = Some k1) by look.
  eapply wp_mono; [eapply put_reply_ok; [exact W1|exact Hk1|]|].
  { repeat constructor; apply header_bytes_byte || apply u16_bytes_byte || by repeat constructor. }
  intros r s2 w2 (conn & -> & W2 & F2 & _ & Hr2 & _).
  assert (F12 : frame s (put_client c (set_c_connection conn k1) (join p c t1 k n (put_seat p t1 s))))
    by by etrans.
  destruct Hr2 as [-> | [-> _]]; wp_steps; [|by apply request_fail].
  eapply wp_mono; [eapply seat_open_client_ok; [exact W2|look|look|done]|].
  intros r3 s3 w3 Ho. wp_steps. eapply opened_wf in Ho as [W3 F3]; [|exact W2|look|look|done|by left].
  apply request_done; [done|by etrans].
Qed.

Lemma handle_close_seat_ok c k s w :
  wf s -> sv_clients s !! c = Some k -> wp (handle_close_seat c) (request_post s) s w.
Proof.
  intros W Hk. unfold handle_close_seat. wp_steps. eapply wp_get_client; [done|].
  case_bool_decide as Hs; wp_steps; [by apply request_fail|].
  destruct (c_seat k) as [p|] eqn:Hp; [|done].
  destruct (wf_seated _ _ _ _ _ _ W Hk Hp) as (t & Ht & _).
  eapply wp_mono; [by eapply seat_remove_client_ok|].
  intros _ s1 w1 (W1 & F1 & _ & (k1 & Hk1 & Hs1 & _) & _ & _ & Ei & _). wp_steps.
  eapply client_server_ok; [done..|]. wp_steps. set (s2 := set_idle_clients _ _).
  assert (W2 : wf s2).
  { eapply wf_relist; [done..|]. rewrite Ei. intros Hc.
    pose proof (wf_idle_seat _ _ _ _ _ _ W Hc Hk). congruence. }
  eapply wp_mono; [apply reply_ok; [exact W2|eauto|apply one_header]|].
  intros r s3 w3. apply request_trans. etrans; [exact F1|]. by apply frame_clients.
Qed.

Lemma close_one_client_wf c k p d s :
  wf s -> sv_clients s !! c = Some k -> c_seat k = Some p -> d ∈ devices k ->
  wf (put_client c (set_devices (close_one d (devices k)) k) s) /\
  frame s (put_client c (set_devices (close_one d (devices k)) k) s).
Proof.
  intros W Hk Hp Hd. destruct (client_local_refl _ _ _ _ _ (vw_clients _ _ _ _ W _ _ Hk)). split.
  - eapply wf_put_client; [done..|]. split; try done; cbn; [by apply close_one_wf|congruence].
  - by eapply frame_put_client.
Qed.

Lemma handle_close_device_ok c k id s w :
  wf s -> sv_clients s !! c = Some k -> wp (handle_close_device c id) (request_post s) s w.
Proof.
  intros W Hk. unfold handle_close_device. wp_steps. eapply wp_get_client; [done|].
  case_bool_decide as Hs; wp_steps; [by apply request_fail|].
  destruct (c_seat k) as [p|] eqn:Hp; [|done].
  destruct (wf_seated _ _ _ _ _ _ W Hk Hp) as (t & Ht & _).
  unfold seat_find_device. wp_case; wp_steps; [by apply error_reply_ok|].
  eapply wp_get_client; [done|]. destruct (lookup_device id (devices k)) as [d|] eqn:Hd; wp_steps;
    [|by apply error_reply_ok].
  apply lookup_device_elem in Hd as [Hd _].
  eapply seat_close_device_ok; [done|done|done|apply (vw_clients _ _ _ _ W _ _ Hk)|done|].
  intros w1 _ _ _. wp_steps. destruct (close_one_client_wf _ _ _ _ _ W Hk Hp Hd) as [W1 F1].
  eapply wp_mono; [apply reply_ok; [done|look; eauto|]|].
  - apply one_header.
  - intros r s2 w2. by apply request_trans.
Qed.

(** The device that was opened is one of the client's. *)
Lemma open_device_found c k dev_path id s w s' w' :
  devices_wf (devices k) -> sv_clients s !! c = Some k ->
  open_device_post c k dev_path s w (Some id) s' w' ->
  exists k' d, sv_clients s' !! c = Some k' /\ c_seat k' = c_seat k /\ d ∈ devices k' /\
    device_id d = id.
Proof.
  intros Wd Hk (_ & [(d & Hd & <- & _ & ->)|(f & ty & _ & _ & _ & ->)]).
  - eexists _, (set_ref_cnt (ref_cnt d + 1) d). split; [look|]. split_and!; [done| |done].
    destruct (replace_device_split _ d (set_ref_cnt (ref_cnt d + 1) d) Wd Hd eq_refl)
      as (l1 & l2 & _ & E). cbn -[replace_device]. rewrite E. apply elem_of_app. right. left.
  - eexists _, _. split; [look|]. split_and!; [done|by left|done].
Qed.

Lemma handle_open_device_ok c k dev_path s w :
  wf s -> sv_clients s !! c = Some k -> wp (handle_open_device c dev_path) (request_post s) s w.
Proof.
  intros W Hk. unfold handle_open_device. wp_steps. eapply wp_get_client; [done|].
  case_bool_decide as Hs; wp_steps; [by apply request_fail|].
  destruct (c_seat k) as [p|] eqn:Hp; [|done].
  assert (Hsome : is_Some (c_seat k)) by (rewrite Hp; eauto).
  eapply wp_mono; [by eapply seat_open_device_ok|]. intros o s1 w1 (Ho & _).
  destruct (open_device_wf _ _ _ _ _ _ _ _ _ _ W Hk Hsome Ho) as [W1 F1].
  destruct o as [id|]; wp_steps.
  2:{ eapply wp_mono; [apply error_reply_ok; [done|by eapply frame_alive]|].
      intros r s2 w2. by apply request_trans. }
  destruct (open_device_found c k dev_path id s w s1 w1) as (k1 & d & Hk1 & Es1 & Hd & <-);
    [apply (vw_clients _ _ _ _ W _ _ Hk)|done|done|].
  pose proof (vw_clients _ _ _ _ W1 _ _ Hk1) as Wk1.
  destruct (wf_seated _ _ _ _ _ _ W1 Hk1 (eq_trans Es1 Hp)) as (t1 & Ht1 & _).
  eapply wp_get_client; [done|]. wp_steps. apply (wp_deref _ d); [apply lookup_device_in; [apply Wk1|done]|].
  wp_steps. apply wp_ext. intros r _. wp_case; wp_steps.
  - eapply seat_close_device_ok; [done|exact (eq_trans Es1 Hp)|done|apply Wk1|done|]. intros w2 _ _ _. wp_steps.
    destruct (close_one_client_wf _ _ _ _ _ W1 Hk1 (eq_trans Es1 Hp) Hd) as [W2 F2].
    eapply wp_mono; [apply error_reply_ok; [done|look; eauto]|].
    intros r2 s2 w3. apply request_trans. by etrans.
  - eapply wp_mono.
    { eapply (on_conn_ok nobody Y nobody c k1 _ (fun r _ _ => status r)); [done..|]. intros Wc.
      eapply wp_mono; [by apply connection_put_fd_ok|].
      intros r2 conn w2 (? & ? & ? & ? & ? & ? & ? & ?). done. }
    intros r2 s2 w2 (conn & -> & W2 & F2 & _ & Hr2). destruct Hr2 as [-> | ->]; wp_steps.
    + eapply wp_mono; [apply reply_ok; [done|look; eauto|]|].
      * constructor; [apply header_bytes_byte|]. constructor; [apply int_bytes_byte|done].
      * intros r3 s3 w3. apply request_trans. by etrans.
    + apply request_fail; [done|by etrans].
Qed.

(** A request that changes the seat and then reports the outcome. *)
Lemma report_ok c (m : M server Z) h s w :
  is_Some (sv_clients s !! c) ->
  wp m (request_post s) s w ->
  wp (r ← m; if r =? -1 then e ← get_errno; client_send_error c e else put_reply c [header_bytes h])
    (request_post s) s w.
Proof.
  intros Hc Hm. wp_step. eapply wp_mono; [exact Hm|]. intros r s1 w1 (W1 & F1 & _). wp_case; wp_steps.
  - eapply wp_mono; [apply error_reply_ok; [done|by eapply frame_alive]|].
    intros r2 s2 w2. by apply request_trans.
  - eapply wp_mono; [apply reply_ok; [done|by eapply frame_alive|apply one_header]|].
    intros r2 s2 w2. by apply request_trans.
Qed.

Lemma handle_switch_session_ok c k n s w :
  wf s -> sv_clients s !! c = Some k -> wp (handle_switch_session c n) (request_post s) s w.
Proof.
  intros W Hk. unfold handle_switch_session. wp_step. eapply wp_get_client; [done|].
  case_bool_decide as Hs; [wp_steps; by apply request_fail|].
  destruct (c_seat k) as [p|] eqn:Hp; [|done].
  destruct (wf_seated _ _ _ _ _ _ W Hk Hp) as (t & Ht & _).
  apply report_ok; [eauto|]. by eapply seat_set_next_session_wf.
Qed.

Lemma handle_disable_seat_ok c k s w :
  wf s -> sv_clients s !! c = Some k -> wp (handle_disable_seat c) (request_post s) s w.
Proof.
  intros W Hk. unfold handle_disable_seat. wp_step. eapply wp_get_client; [done|].
  case_bool_decide as Hs; [wp_steps; by apply request_fail|].
  destruct (c_seat k) as [p|] eqn:Hp; [|done].
  destruct (wf_seated _ _ _ _ _ _ W Hk Hp) as (t & Ht & _).
  apply report_ok; [eauto|]. by eapply seat_ack_disable_wf.
Qed.

(** ** Messages *)

(** How much of what the client sent is still unread. *)
Definition unread (c : nat) (s : server) : Z :=
  match sv_clients s !! c with
  | Some k => connection_pending (c_connection k)
  | None => 0
  end.

(** A request consumed at most what was there. *)
Definition message_post (c : nat) (s : server) (r : Z) (s' : server) (w' : sys) : Prop :=
  wf s' /\ is_Some (sv_clients s' !! c) /\ unread c s' <= unread c s /\ status r.

Lemma request_message c s r s' w :
  is_Some (sv_clients s !! c) -> request_post s r s' w -> message_post c s r s' w.
Proof.
  intros [k Hk] (W & F & Hr). destruct (F _ _ Hk) as (k' & Hk' & Ei & _).
  split_and!; [done|eauto| |done]. unfold unread, connection_pending. rewrite Hk, Hk', Ei. lia.
Qed.

Lemma message_trans c s1 s2 r s3 w :
  unread c s2 <= unread c s1 -> message_post c s2 r s3 w -> message_post c s1 r s3 w.
Proof. intros Hle (W & Hc & Hu & Hr). split_and!; [done|done|lia|done]. Qed.

(** Reading the body of a request. *)
Lemma get_body_ok c k n f s w :
  wf s -> sv_clients s !! c = Some k -> 0 <= n ->
  (forall bs k' s' w', wf s' -> sv_clients s' !! c = Some k' -> Forall is_byte bs -> zlen bs = n ->
     wp (f bs) (message_post c s') s' w') ->
  wp (get_body c n f) (message_post c s) s w.
Proof.
  intros W Hk Hn Hf. unfold get_body. wp_steps. eapply wp_on_conn; [done|].
  destruct (vw_clients _ _ _ _ W _ _ Hk) as [Wc _ _ _ _].
  eapply wp_mono; [by apply connection_get_ok|].
  intros o conn w1 (Wc1 & _ & _ & _ & _ & _ & _ & Ho). set (s1 := put_client _ _ _).
  assert (W1 : wf s1) by by apply wf_put_conn.
  assert (Hk1 : sv_clients s1 !! c = Some (set_c_connection conn k)) by look.
  assert (Hle : unread c s1 <= unread c s).
  { unfold unread. rewrite Hk1, Hk. unfold connection_pending. cbn [c_connection set_c_connection].
    destruct o as [bs|]; [|destruct Ho as [-> _]; lia]. destruct Ho as (_ & _ & _ & Hcont & _).
    rewrite <- !zlen_contents by (apply Wc || apply Wc1). rewrite Hcont. unfold zlen. rewrite length_app. lia. }
  destruct o as [bs|]; cbn beta iota.
  - destruct Ho as (-> & Hlen & Hb & _). eapply wp_mono; [by eapply Hf|].
    intros r s' w'. by apply message_trans.
  - wp_steps. split_and!; [done|eauto|done|by right].
Qed.

Lemma message_fail c s w : wf s -> is_Some (sv_clients s !! c) -> message_post c s (-1) s w.
Proof. intros W Hc. split_and!; [done|done|lia|by right]. Qed.

(** A handler without a body. *)
Lemma handler_ok c k (m : M server Z) (b : bool) s w :
  wf s -> sv_clients s !! c = Some k -> wp m (request_post s) s w ->
  wp (if b then mret (-1) else m) (message_post c s) s w.
Proof.
  intros W Hk Hm. destruct b; wp_steps; [apply message_fail; eauto|].
  eapply wp_mono; [exact Hm|]. intros r s' w'. apply request_message. eauto.
Qed.

Lemma handler_body_ok c k n (b : bool) f s w :
  wf s -> sv_clients s !! c = Some k -> 0 <= n ->
  (forall bs k' s' w', wf s' -> sv_clients s' !! c = Some k' -> wp (f bs) (request_post s') s' w') ->
  wp (if b then mret (-1) else get_body c n f) (message_post c s) s w.
Proof.
  intros W Hk Hn Hf. destruct b; wp_steps; [apply message_fail; eauto|].
  eapply get_body_ok; [done..|]. intros bs k' s' w' W' Hk' _ _.
  eapply wp_mono; [by eapply Hf|]. intros r s2 w2. apply request_message. eauto.
Qed.

Lemma open_device_message_ok c k sz s w :
  wf s -> sv_clients s !! c = Some k ->
  wp (if sz <? 2 then mret (-1) else
       get_body c 2 (fun bs =>
         let path_len := u16_of bs in
         if negb (path_len =? sz - 2) then mret (-1) else
         if MAX_PATH_LEN <? path_len then mret (-1) else
         get_body c path_len (fun buf =>
           if (path_len =? 0) ||
              negb (Z.of_nat (strnlen buf (Z.to_nat path_len)) =? u16 (path_len - 1))
           then mret (-1) else
           handle_open_device c (cstring buf)))) (message_post c s) s w.
Proof.
  intros W Hk. wp_case; wp_steps; [apply message_fail; eauto|].
  eapply get_body_ok; [done..|]. intros bs k1 s1 w1 W1 Hk1 Hbs _. cbn zeta.
  wp_case; wp_steps; [apply message_fail; eauto|]. wp_case; wp_steps; [apply message_fail; eauto|].
  eapply get_body_ok; [done|done|by apply u16_of_bound|]. intros buf k2 s2 w2 W2 Hk2 _ _.
  by eapply handler_ok, handle_open_device_ok.
Qed.

Lemma client_handle_opcode_ok c k op sz s w :
  wf s -> sv_clients s !! c = Some k ->
  wp (client_handle_opcode c op sz) (message_post c s) s w.
Proof.
  intros W Hk. unfold client_handle_opcode. wp_step. eapply (wp_mono _ (message_post c s)).
  - destruct (op =? CLIENT_OPEN_SEAT); [by eapply handler_ok, handle_open_seat_ok|].
    destruct (op =? CLIENT_CLOSE_SEAT); [by eapply handler_ok, handle_close_seat_ok|].
    destruct (op =? CLIENT_OPEN_DEVICE); [by eapply open_device_message_ok|].
    destruct (op =? CLIENT_CLOSE_DEVICE).
    { eapply handler_body_ok; [done..|]. intros. by eapply handle_close_device_ok. }
    destruct (op =? CLIENT_SWITCH_SESSION).
    { eapply handler_body_ok; [done..|]. intros. by eapply handle_switch_session_ok. }
    destruct (op =? CLIENT_DISABLE_SEAT); [by eapply handler_ok, handle_disable_seat_ok|].
    destruct (op =? CLIENT_PING); [|wp_steps; apply message_fail; eauto].
    eapply handler_ok; [done..|]. apply reply_ok; [done|eauto|apply one_header].
  - intros r s1 w1 (W1 & [k1 Hk1] & Hu & Hr). wp_case; wp_steps; [by split_and!; eauto|].
    eapply wp_mono; [by eapply client_flush_ok|]. intros r2 s2 w2 Hpost.
    eapply message_trans; [exact Hu|]. apply request_message; [eauto|done].
Qed.

(** The loop over the messages ends: every message takes its header out of the
    buffer, which nothing refills. *)
Lemma client_messages_ok fuel c k s w :
  wf s -> sv_clients s !! c = Some k -> unread c s < 4 * (Z.of_nat fuel + 1) ->
  wp (client_messages fuel c) (fun _ s' w' => wf s' /\ is_Some (sv_clients s' !! c)) s w.
Proof.
  revert k s w. induction fuel as [|fuel IH]; intros k s w W Hk Hfuel; cbn [client_messages]; wp_steps;
    destruct (vw_clients _ _ _ _ W _ _ Hk) as [Wc _ _ _ _]; (eapply wp_on_conn; [done|]);
    (eapply wp_mono; [by apply connection_get_ok|]);
    intros o conn w1 (Wc1 & _ & _ & _ & _ & _ & _ & Ho).
  all: assert (W1 : wf (put_client c (set_c_connection conn k) s)) by by apply wf_put_conn.
  all: destruct o as [bs|]; wp_steps; [|by split; [|look; eauto]].
  all: destruct Ho as (-> & Hlen & Hb & Hcont & ->); (eapply wp_get_client; [look|]).
  all: unfold unread in Hfuel; rewrite Hk in Hfuel; unfold connection_pending in Hfuel.
  all: assert (Hsize : connection_buffer_size (conn_in (c_connection k)) =
         4 + connection_buffer_size (connection_buffer_consume (conn_in (c_connection k)) sizeof_header))
    by (rewrite <- (zlen_contents (conn_in (c_connection k))), Hcont by apply Wc;
        rewrite <- zlen_contents by apply Wc1; unfold zlen in *; rewrite length_app;
        unfold sizeof_header in *; cbn -[contents] in *; lia).
  - exfalso. pose proof (size_bound (connection_buffer_consume (conn_in (c_connection k)) sizeof_header)). lia.
  - wp_case; wp_steps.
    { eapply wp_on_conn; [look|]. unfold connection_restore. wp_steps. rewrite put_client_twice.
      cbn [c_connection set_c_connection]. split; [|look; eauto].
      rewrite restored_conn by done. by apply (wf_put_conn _ _ _ s c k (c_connection k)). }
    eapply wp_mono; [eapply client_handle_opcode_ok; [done|look]|].
    intros r s2 w2 (W2 & [k2 Hk2] & Hu & _). wp_case; wp_steps; [by split; eauto|].
    eapply IH; [done..|]. eapply Z.le_lt_trans; [exact Hu|]. unfold unread.
    cbn -[lookup insert Z.of_nat]. rewrite lookup_insert_eq.
    unfold connection_pending. cbn [c_connection set_c_connection conn_in set_in] in *. lia.
Qed.

(** ** The handler of a client's connection *)

Lemma unread_bound c k s : wf s -> sv_clients s !! c = Some k -> unread c s <= 256.
Proof.
  intros W Hk. unfold unread, connection_pending. rewrite Hk.
  destruct (vw_clients _ _ _ _ W _ _ Hk) as [Wc _ _ _ _]. apply Wc.
Qed.

(** The mask of the client's source is reset once nothing is left to send. *)
Lemma client_writable_ok c k s w :
  wf s -> sv_clients s !! c = Some k ->
  wp (len ← on_conn c connection_flush;
      e ← get_errno;
      if (len =? -1) && negb (e =? EAGAIN) then mret false else
      if 0 <=? len then
        k ← get_client c;
        es ← deref (c_event_source k);
        event_source_fd_update es EVENT_READABLE;;
        mret true
      else mret true) (fun _ s' w' => wf s' /\ is_Some (sv_clients s' !! c)) s w.
Proof.
  intros W Hk. wp_steps. eapply wp_mono.
  { eapply (on_conn_ok nobody Y nobody c k _ (fun _ _ _ => True)); [done..|]. intros Wc.
    eapply wp_mono; [by apply connection_flush_posts|]. by intros r conn w' (? & _). }
  intros r s1 w1 (conn & -> & W1 & F1 & _). wp_steps.
  assert (Hc : is_Some (sv_clients (put_client c (set_c_connection conn k) s) !! c)) by (look; eauto).
  wp_case; wp_steps; [done|]. wp_case; wp_steps; [|done]. eapply wp_get_client; [look|]. wp_steps.
  pose proof (vw_clients _ _ _ _ W _ _ Hk) as [_ Hes _ _ _]. cbn.
  destruct (c_event_source k) as [e|] eqn:He; [|done]. apply (wp_deref _ e); [done|]. wp_steps.
  apply wp_source_update; [eapply wf_source; [done|look|done]|]. wp_steps.
  split; [by apply wf_dirty, wf_upd_source|done].
Qed.

Lemma client_readable_ok c k s w :
  wf s -> sv_clients s !! c = Some k ->
  wp (len ← on_conn c connection_read;
      e ← get_errno;
      if (len =? -1) && negb (e =? EAGAIN) then mret false else
      if len =? 0 then mret false else
      client_messages max_messages c)
    (fun _ s' w' => wf s' /\ is_Some (sv_clients s' !! c)) s w.
Proof.
  intros W Hk. wp_steps. eapply wp_on_conn; [done|].
  destruct (vw_clients _ _ _ _ W _ _ Hk) as [Wc _ _ _ _].
  eapply wp_mono; [by apply connection_read_ok|]. intros r conn w1 (Wc1 & _). wp_steps.
  assert (W1 : wf (put_client c (set_c_connection conn k) s)) by by apply wf_put_conn.
  assert (Hk1 : sv_clients (put_client c (set_c_connection conn k) s) !! c =
    Some (set_c_connection conn k)) by look.
  repeat (wp_case; wp_steps; [by split; eauto|]).
  eapply client_messages_ok; [done..|]. pose proof (unread_bound _ _ _ W1 Hk1). unfold max_messages. lia.
Qed.

Lemma client_events_ok c k mask s w :
  wf s -> sv_clients s !! c = Some k ->
  wp (client_events c mask) (fun _ s' w' => wf s' /\ is_Some (sv_clients s' !! c)) s w.
Proof.
  intros W Hk. assert (Hc : is_Some (sv_clients s !! c)) by eauto.
  unfold client_events. repeat (wp_case; [by wp_steps|]). apply wp_bind.
  eapply (wp_mono _ (fun _ s' w' => wf s' /\ is_Some (sv_clients s' !! c))).
  { wp_case; [by eapply client_writable_ok|by wp_steps]. }
  intros ok s1 w1 [W1 [k1 Hk1]]. wp_case; wp_steps; [by eauto|].
  wp_case; [by eapply client_readable_ok|wp_steps; by eauto].
Qed.

(** Whatever the client sends and the kernel answers, the handler returns, the
    state stays well-formed, and the client is gone exactly if it failed. *)
Lemma client_handle_connection_ok c k mask s w :
  wf s -> sv_clients s !! c = Some k ->
  wp (client_handle_connection c mask) (fun r s' w' =>
    wf s' /\ (r = 0 /\ is_Some (sv_clients s' !! c) \/
      r = -1 /\ exists k1 s1 w1, sv_clients s1 !! c = Some k1 /\ destroyed c k1 s1 w1 s' w')) s w.
Proof.
  intros W Hk. unfold client_handle_connection. wp_step.
  eapply wp_mono; [by eapply client_events_ok|]. intros ok s1 w1 [W1 [k1 Hk1]].
  wp_case; wp_steps; [by eauto|].
  eapply wp_mono; [by eapply client_destroy_wf|]. intros _ s2 w2 (W2 & Hd). wp_steps.
  split; [done|]. right. eauto 8.
Qed.

End Requests.

(** ** seat_destroy *)

Section SeatDestroy.
Context `{K : Kernel} `{Kok : !KernelOk}.
Variable Y : nat -> Prop.
Abbreviation wf := (server_wf nobody Y nobody).
Implicit Types (s : server) (w : sys).

Lemma destroy_clients_ok fuel p t s w :
  wf s -> sv_seats s !! p = Some t -> (length (clients t) <= fuel)%nat ->
  wp (destroy_clients fuel p) (fun _ s' w' => wf s' /\ seats s' = seats s /\
    exists t', sv_seats s' !! p = Some t' /\ clients t' = []) s w.
Proof.
  revert t s w. induction fuel as [|fuel IH]; intros t s w W Ht Hlen; cbn [destroy_clients]; wp_steps;
    (eapply wp_get_seat; [done|]); cbn beta; destruct (clients t) as [|c l] eqn:Ec; wp_steps;
    try by split_and!; eauto.
  { cbn in Hlen. lia. }
  destruct (sw_members _ _ _ _ (vw_seats _ _ _ _ W _ _ Ht) c) as (k & Hk & Hp); [rewrite Ec; left|].
  pose proof (sw_nodup _ _ _ _ (vw_seats _ _ _ _ W _ _ Ht)) as Hnd. rewrite Ec in Hnd.
  apply NoDup_cons in Hnd as [Hout _].
  eapply wp_get_client; [done|]. wp_steps. apply wp_assert; [by apply bool_decide_eq_true|]. wp_steps.
  eapply wp_mono; [by eapply client_destroy_wf|].
  intros _ s1 w1 (W1 & _ & _ & El & _ & Hseat & _).
  destruct (Hseat _ _ Hp Ht) as (_ & t1 & Ht1 & Ec1 & _).
  eapply wp_mono; [eapply IH; [done..|]|].
  - rewrite Ec1, Ec. unfold list_remove_id. rewrite filter_cons, decide_False by tauto.
    etrans; [apply length_filter|]. cbn in Hlen. lia.
  - intros _ s2 w2 (W2 & El2 & Ht2). split_and!; [done|congruence|done].
Qed.

Lemma wf_free_seat p t s :
  wf s -> sv_seats s !! p = Some t -> clients t = [] ->
  wf (set_sv_seats (delete p (sv_seats s)) (set_seats (list_remove_id p (seats s)) s)).
Proof.
  intros [Wc Ws Wct Wsl Win Wi Wcn Wcl Wsi Wso Wun Wca Wsa Wnc] Ht Ec. split; try done; cbn -[lookup delete].
  - intros c k Hk. destruct (Wc _ _ Hk). split; try done. destruct (c_seat k) as [q|]; [|done].
    destruct cw_seat as (Hs & t0 & Ht0 & [[]|[Hin Ho]]). split; [done|]. exists t0.
    cbn. rewrite lookup_delete_ne; [auto|]. intros ->. simplify_eq. rewrite Ec in Hin.
    by apply not_elem_of_nil in Hin.
  - intros q t0 [Hne H0]%lookup_delete_Some. eapply seat_wf_clients with (s := s); auto.
  - intros. eapply control_wf_sources with (s := s); auto.
  - intros q [Hne Hq]%elem_of_list_remove_id. rewrite lookup_delete_ne by done. auto.
  - intros q [Hne Hq]%lookup_delete_is_Some. apply elem_of_list_remove_id. auto.
Qed.

(** A seat is destroyed with all its clients. *)
Lemma seat_destroy_ok p t s w :
  wf s -> sv_seats s !! p = Some t ->
  wp (seat_destroy p) (fun _ s' w' => wf s' /\ seats s' = list_remove_id p (seats s) /\
    sv_seats s' !! p = None) s w.
Proof.
  intros W Ht. unfold seat_destroy. wp_steps. eapply wp_get_seat; [done|]. wp_steps.
  eapply wp_mono; [by eapply destroy_clients_ok|]. intros _ s1 w1 (W1 & El & t1 & Ht1 & Ec1). wp_steps.
  eapply wp_upd_seat; [done|]. wp_steps. split_and!; [|by rewrite <- El|by cbn; rewrite lookup_delete_eq].
  set (s2 := put_seat p (set_group_vts [] t1) s1).
  assert (W2 : wf s2).
  { eapply wf_put_seat; [done..|]. destruct (vw_seats _ _ _ _ W1 _ _ Ht1). split; try done; constructor. }
  eapply (wf_free_seat p (set_group_vts [] t1) s2); [done|look|done].
Qed.

End SeatDestroy.
