(* ===== verification/ControlOk.v ===== *)
(** * What the operations of control.c do *)
From S2P Require Import Prelude Kernel Connection Protocol Devices Terminal State Poller Send Seat Client.
From S2P Require Import Control Invariant Lifecycle Rules SendOk SeatOk SeatSwitch SeatVt.
From S2P Require Import SeatDevices SeatMembers SeatRemove ClientOk.

Section Control.
Context `{K : Kernel} `{Kok : !KernelOk}.
Abbreviation wf := (server_wf nobody nobody nobody).
Implicit Types (s : server) (w : sys).

(** How much of what the control client sent is still unread. *)
Definition control_unread (c : nat) (s : server) : Z :=
  match sv_controls s !! c with
  | Some k => connection_pending (cc_connection k)
  | None => 0
  end.

(** A request keeps the control client, and consumes at most what was there. *)
Definition control_request (c : nat) (s : server) (r : Z) (s' : server) (w' : sys) : Prop :=
  wf s' /\ is_Some (sv_controls s' !! c) /\ control_unread c s' <= control_unread c s /\ status r.

Lemma control_request_trans c s1 s2 r s3 w :
  control_unread c s2 <= control_unread c s1 -> control_request c s2 r s3 w ->
  control_request c s1 r s3 w.
Proof. intros Hle (? & ? & ? & ?). split_and!; [done|done|lia|done]. Qed.

Lemma control_request_done c s w : wf s -> is_Some (sv_controls s !! c) -> control_request c s 0 s w.
Proof. intros. split_and!; [done|done|lia|by left]. Qed.

Lemma control_post_request c k s r s' w :
  sv_controls s !! c = Some k -> control_post nobody nobody c k s s' -> status r ->
  control_request c s r s' w.
Proof.
  intros Hk (W' & _ & _ & k' & Hk' & Ei) Hr. split_and!; [done|eauto| |done].
  unfold control_unread, connection_pending. rewrite Hk, Hk', Ei. lia.
Qed.

Lemma control_error_ok c e s w :
  wf s -> is_Some (sv_controls s !! c) -> wp (control_send_error c e) (control_request c s) s w.
Proof.
  intros W [k Hk]. eapply wp_mono; [by eapply control_send_error_ok|].
  intros r s' w' [Hp Hr]%control_sent_post. by eapply control_post_request.
Qed.

Lemma control_ok_ok c s w :
  wf s -> is_Some (sv_controls s !! c) -> wp (control_send_ok c) (control_request c s) s w.
Proof.
  intros W [k Hk]. eapply wp_mono; [by eapply control_send_ok_ok|].
  intros r s' w' [Hp Hr]%control_sent_post. by eapply control_post_request.
Qed.

Lemma control_message_ok c op payload s w :
  wf s -> is_Some (sv_controls s !! c) -> Forall is_byte payload -> zlen payload <= 256 ->
  wp (control_send_message c op payload) (control_request c s) s w.
Proof.
  intros W [k Hk] Hb Hl. eapply wp_mono; [by eapply control_send_message_ok|].
  intros r s' w' [Hp Hr]%control_sent_post. by eapply control_post_request.
Qed.

(** A seat operation, its failure reported with [errno], its success otherwise. *)
Lemma control_report_ok c (m : M server Z) (f : Z -> M server Z) s w :
  wf s -> is_Some (sv_controls s !! c) ->
  wp m (fun r s' w' => kept nobody nobody s s') s w ->
  (forall r s' w', wf s' -> is_Some (sv_controls s' !! c) -> wp (f r) (control_request c s') s' w') ->
  wp (r ← m; if r =? -1 then e ← get_errno; control_send_error c e else f r)
    (control_request c s) s w.
Proof.
  intros W Hc Hm Hf. wp_step. eapply wp_mono; [exact Hm|].
  intros r s1 w1 (W1 & _ & Ec & _). rewrite <- Ec in Hc.
  assert (Hle : control_unread c s1 <= control_unread c s).
  { unfold control_unread. rewrite Ec. lia. }
  wp_case; wp_steps.
  - eapply wp_mono; [by apply control_error_ok|]. intros r2 s2 w2. by apply control_request_trans.
  - eapply wp_mono; [by apply Hf|]. intros r2 s2 w2. by apply control_request_trans.
Qed.

Lemma with_seat0_ok c f s w :
  wf s -> is_Some (sv_controls s !! c) ->
  (forall p t, sv_seats s !! p = Some t -> wp (f p) (control_request c s) s w) ->
  wp (with_seat0 c f) (control_request c s) s w.
Proof.
  intros W Hc Hf. unfold with_seat0. wp_step. eapply server_get_seat_ok; [done| |].
  - intros p t _ Ht _. by eapply Hf.
  - by apply control_error_ok.
Qed.

Lemma get_request_ok c n f s w :
  wf s -> is_Some (sv_controls s !! c) -> 0 <= n ->
  (forall bs s' w', wf s' -> is_Some (sv_controls s' !! c) ->
     wp (f bs) (control_request c s') s' w') ->
  wp (get_request c n f) (control_request c s) s w.
Proof.
  intros W [k Hk] Hn Hf. unfold get_request. wp_steps. eapply wp_on_control_conn; [done|].
  destruct (vw_controls _ _ _ _ W _ _ Hk) as [Wc _].
  eapply wp_mono; [by apply connection_get_ok|].
  intros o conn w1 (Wc1 & _ & _ & _ & _ & _ & _ & Ho). set (s1 := put_control _ _ _).
  assert (W1 : wf s1) by by eapply wf_put_control.
  assert (Hk1 : sv_controls s1 !! c = Some (set_cc_connection conn k)) by look.
  assert (Hle : control_unread c s1 <= control_unread c s).
  { unfold control_unread. rewrite Hk1, Hk. unfold connection_pending. cbn [cc_connection set_cc_connection].
    destruct o as [bs|]; [|destruct Ho as [-> _]; lia]. destruct Ho as (_ & _ & _ & Hcont & _).
    rewrite <- !zlen_contents by (apply Wc || apply Wc1). rewrite Hcont. unfold zlen.
    rewrite length_app. lia. }
  destruct o as [bs|]; cbn beta iota.
  - eapply wp_mono; [apply Hf; eauto|]. intros r s' w'. by apply control_request_trans.
  - wp_steps. split_and!; [done|eauto|done|by left].
Qed.

(** ** The requests *)

Lemma find_owner_ok pid l Q s w :
  wf s -> (forall p, p ∈ l -> is_Some (sv_seats s !! p)) ->
  (forall c k p t, sv_seats s !! p = Some t -> c ∈ clients t -> sv_clients s !! c = Some k ->
     c_pid k = pid -> Q (Some c) s w) ->
  Q None s w ->
  wp (find_owner pid l) Q s w.
Proof.
  intros W. induction l as [|p l IH]; intros Hin HS HN; cbn [find_owner]; [by wp_steps|].
  destruct (Hin p (list_elem_of_here p l)) as [t Ht]. wp_steps. eapply wp_get_seat; [done|]. wp_steps.
  eapply first_client_ok; [exact (wf_seat_members _ _ _ _ _ W Ht)|..].
  - intros c k Hc Hk Hpid. wp_steps. eapply HS; [done..|]. lia.
  - intros _. apply IH; [|done|done]. intros q Hq. apply Hin. by right.
Qed.

Lemma handle_create_group_vt_ok c s w :
  wf s -> is_Some (sv_controls s !! c) -> wp (handle_create_group_vt c) (control_request c s) s w.
Proof.
  intros W Hc. apply get_request_ok; [done|done|done|]. clear s w W Hc. intros bs s w W Hc. wp_steps.
  unfold control_find_owner_client. wp_steps. eapply find_owner_ok; [done|apply W| |by apply control_error_ok].
  intros own k p t Ht Hin Hk _. wp_step. eapply wp_get_client; [done|]. cbn beta.
  pose proof (wf_member_seat _ _ _ _ _ _ _ _ W Ht Hin Hk) as Hp. rewrite Hp. wp_step.
  eapply wp_mono; [by eapply (seat_create_group_vt_ok nobody nobody)|]. intros r s1 w1 Hpost.
  eapply group_post_kept in Hpost as (W1 & F1 & Ec & _); [|done..].
  rewrite <- Ec in Hc.
  assert (Hle : control_unread c s1 <= control_unread c s) by (unfold control_unread; rewrite Ec; lia).
  destruct (F1 _ _ Hk) as (k1 & Hk1 & _). wp_case; wp_steps.
  - eapply wp_mono; [by apply control_error_ok|]. intros r2 s2 w2. by apply control_request_trans.
  - eapply wp_get_client; [done|].
    eapply wp_mono; [apply control_message_ok; [done|done| |done]|].
    + apply Forall_app. auto using int_bytes_byte.
    + intros r2 s2 w2. by apply control_request_trans.
Qed.

Lemma handle_destroy_group_vt_ok c s w :
  wf s -> is_Some (sv_controls s !! c) -> wp (handle_destroy_group_vt c) (control_request c s) s w.
Proof.
  intros W Hc. apply get_request_ok; [done|done|done|]. clear s w W Hc. intros bs s w W Hc.
  apply with_seat0_ok; [done..|]. intros p t Ht. apply control_report_ok; [done|done| |].
  - eapply wp_mono; [by eapply seat_destroy_group_vt_ok|]. intros r s' w'. cbn beta.
    destruct (seat_find_group_vt t (int_of bs)); [|intros (_ & _ & ->); by apply kept_refl].
    intros (_ & ->). by apply kept_put_seat, wf_remove_group.
  - intros r s' w' W' Hc'. wp_steps. by apply control_request_done.
Qed.

Lemma handle_get_active_vt_ok c s w :
  wf s -> is_Some (sv_controls s !! c) -> wp (handle_get_active_vt c) (control_request c s) s w.
Proof.
  intros W Hc. apply with_seat0_ok; [done..|]. intros p t Ht.
  apply control_report_ok; [done|done|by eapply seat_get_active_vt_ok|].
  intros r s' w' W' Hc'. apply control_message_ok; [done..|apply int_bytes_byte|done].
Qed.

Lemma handle_find_free_vt_ok c s w :
  wf s -> is_Some (sv_controls s !! c) -> wp (handle_find_free_vt c) (control_request c s) s w.
Proof.
  intros W Hc. apply with_seat0_ok; [done..|]. intros p t Ht. apply control_report_ok; [done|done| |].
  - eapply (seat_find_available_vt_ok); [done|]. intros r w' _. by apply kept_refl.
  - intros r s' w' W' Hc'. apply control_message_ok; [done..|apply int_bytes_byte|done].
Qed.

Lemma handle_switch_vt_ok c s w :
  wf s -> is_Some (sv_controls s !! c) -> wp (handle_switch_vt c) (control_request c s) s w.
Proof.
  intros W Hc. apply get_request_ok; [done|done|done|]. clear s w W Hc. intros bs s w W Hc.
  apply with_seat0_ok; [done..|]. intros p t Ht. apply control_report_ok; [done|done| |].
  - eapply wp_mono; [by eapply (seat_switch_vt_ok nobody nobody)|]. intros r s' w' Hpost.
    by eapply control_switch_kept in Hpost as [? _].
  - intros r s' w' W' Hc'. by apply control_ok_ok.
Qed.

Lemma control_client_handle_opcode_ok c op sz s w :
  wf s -> is_Some (sv_controls s !! c) ->
  wp (control_client_handle_opcode c op sz) (control_request c s) s w.
Proof.
  intros W Hc. pose proof (fun e => control_error_ok c e s w W Hc) as Herr.
  unfold control_client_handle_opcode.
  repeat (wp_case; [wp_case; [done|] |]); [| | | | |done].
  - by apply handle_create_group_vt_ok.
  - by apply handle_destroy_group_vt_ok.
  - by apply handle_get_active_vt_ok.
  - by apply handle_find_free_vt_ok.
  - by apply handle_switch_vt_ok.
Qed.

(** ** The handler of a control connection *)

Lemma control_unread_bound c k s : wf s -> sv_controls s !! c = Some k -> control_unread c s <= 256.
Proof.
  intros W Hk. unfold control_unread, connection_pending. rewrite Hk.
  destruct (vw_controls _ _ _ _ W _ _ Hk) as [Wc _]. apply Wc.
Qed.

Definition control_alive (c : nat) (s' : server) : Prop := wf s' /\ is_Some (sv_controls s' !! c).

Lemma control_messages_ok fuel c k s w :
  wf s -> sv_controls s !! c = Some k -> control_unread c s < 4 * (Z.of_nat fuel + 1) ->
  wp (control_messages fuel c) (fun _ s' w' => control_alive c s') s w.
Proof.
  revert k s w. induction fuel as [|fuel IH]; intros k s w W Hk Hfuel; cbn [control_messages]; wp_steps;
    destruct (vw_controls _ _ _ _ W _ _ Hk) as [Wc _]; (eapply wp_on_control_conn; [done|]);
    (eapply wp_mono; [by apply connection_get_ok|]);
    intros o conn w1 (Wc1 & _ & _ & _ & _ & _ & _ & Ho).
  all: assert (W1 : wf (put_control c (set_cc_connection conn k) s)) by by eapply wf_put_control.
  all: destruct o as [bs|]; wp_steps; [|by split; [|look; eauto]].
  all: destruct Ho as (-> & Hlen & Hb & Hcont & ->); (eapply wp_get_control; [look|]).
  all: unfold control_unread in Hfuel; rewrite Hk in Hfuel; unfold connection_pending in Hfuel.
  all: assert (Hsize : connection_buffer_size (conn_in (cc_connection k)) =
         4 + connection_buffer_size (connection_buffer_consume (conn_in (cc_connection k)) sizeof_header))
    by (rewrite <- (zlen_contents (conn_in (cc_connection k))), Hcont by apply Wc;
        rewrite <- zlen_contents by apply Wc1; unfold zlen in *; rewrite length_app;
        unfold sizeof_header in *; cbn -[contents] in *; lia).
  - exfalso. pose proof (size_bound (connection_buffer_consume (conn_in (cc_connection k)) sizeof_header)). lia.
  - wp_case; wp_steps.
    { eapply wp_on_control_conn; [look|]. unfold connection_restore. wp_steps. rewrite put_control_twice.
      cbn [cc_connection set_cc_connection]. split; [|look; eauto].
      rewrite restored_conn by done. by apply (wf_put_control _ _ _ s c k). }
    eapply wp_mono; [apply control_client_handle_opcode_ok; [done|look; eauto]|].
    intros r s2 w2 (W2 & [k2 Hk2] & Hu & _). wp_case; wp_steps; [by split; eauto|].
    eapply IH; [done..|]. eapply Z.le_lt_trans; [exact Hu|]. unfold control_unread.
    cbn -[lookup insert Z.of_nat]. rewrite lookup_insert_eq.
    unfold connection_pending. cbn [cc_connection set_cc_connection conn_in set_in] in *. lia.
Qed.

Lemma control_writable_ok c k s w :
  wf s -> sv_controls s !! c = Some k ->
  wp (len ← on_control_conn c connection_flush;
      e ← get_errno;
      if (len =? -1) && negb (e =? EAGAIN) then mret false else
      if 0 <=? len then
        k ← get_control c;
        es ← deref (cc_event_source k);
        r ← event_source_fd_update es EVENT_READABLE;
        mret (negb (r =? -1))
      else mret true) (fun _ s' w' => control_alive c s') s w.
Proof.
  intros W Hk. wp_steps. eapply wp_mono.
  { eapply (on_control_conn_ok nobody nobody nobody c k _ (fun _ _ _ => True)); [done..|]. intros Wc.
    eapply wp_mono; [by apply connection_flush_posts|]. by intros r conn w' (? & _). }
  intros r s1 w1 (conn & -> & W1 & _). wp_steps.
  assert (Hc : control_alive c (put_control c (set_cc_connection conn k) s)) by (split; [done|look; eauto]).
  wp_case; wp_steps; [done|]. wp_case; wp_steps; [|done]. eapply wp_get_control; [look|]. wp_steps.
  pose proof (vw_controls _ _ _ _ W _ _ Hk) as [_ Hes]. cbn.
  destruct (cc_event_source k) as [e|] eqn:He; [|done]. apply (wp_deref _ e); [done|]. wp_steps.
  apply wp_source_update; [eapply wf_control_source; [done|look|done]|]. wp_steps.
  split; [by apply wf_dirty, wf_upd_source|apply Hc].
Qed.

Lemma control_readable_ok c k s w :
  wf s -> sv_controls s !! c = Some k ->
  wp (len ← on_control_conn c connection_read;
      e ← get_errno;
      if (len =? -1) && negb (e =? EAGAIN) then mret false else
      if len =? 0 then mret false else
      control_messages max_messages c)
    (fun _ s' w' => control_alive c s') s w.
Proof.
  intros W Hk. wp_steps. eapply wp_on_control_conn; [done|].
  destruct (vw_controls _ _ _ _ W _ _ Hk) as [Wc _].
  eapply wp_mono; [by apply connection_read_ok|]. intros r conn w1 (Wc1 & _). wp_steps.
  assert (W1 : wf (put_control c (set_cc_connection conn k) s)) by by eapply wf_put_control.
  assert (Hk1 : sv_controls (put_control c (set_cc_connection conn k) s) !! c =
    Some (set_cc_connection conn k)) by look.
  repeat (wp_case; wp_steps; [by split; eauto|]).
  eapply control_messages_ok; [done..|]. pose proof (control_unread_bound _ _ _ W1 Hk1).
  unfold max_messages. lia.
Qed.

Lemma control_events_ok c mask s w :
  control_alive c s -> wp (control_events c mask) (fun _ s' w' => control_alive c s') s w.
Proof.
  intros Ha. unfold control_events. wp_case; wp_steps; [done|].
  eapply (wp_mono _ (fun _ s' w' => control_alive c s')).
  { wp_case; [destruct Ha as [W [k Hk]]; by eapply control_writable_ok|by wp_steps]. }
  intros ok s1 w1 Ha1. wp_case; wp_steps; [done|].
  eapply (wp_mono _ (fun _ s' w' => control_alive c s')).
  { wp_case; [destruct Ha1 as [W [k Hk]]; by eapply control_readable_ok|by wp_steps]. }
  intros ok2 s2 w2 Ha2. wp_case; by wp_steps.
Qed.

Lemma control_client_handle_connection_ok c mask s w :
  wf s -> is_Some (sv_controls s !! c) ->
  wp (control_client_handle_connection c mask) (fun r s' w' =>
    wf s' /\ (r = 0 /\ is_Some (sv_controls s' !! c) \/ r = -1 /\ sv_controls s' !! c = None)) s w.
Proof.
  intros W Hc. unfold control_client_handle_connection. wp_step.
  eapply wp_mono; [by apply control_events_ok|]. intros ok s1 w1 [W1 [k1 Hk1]].
  wp_case; wp_steps; [by eauto|]. apply (wf_exempt _ nobody _ (eq c) _ nobody) in W1; [|done..].
  eapply wp_mono; [by eapply control_client_destroy_ok|].
  intros _ s2 w2 (W2 & _ & _ & _ & Ed). wp_steps. split; [done|]. right. split; [done|].
  by rewrite Ed, lookup_delete_eq.
Qed.

(** ** New control connections *)

Lemma prepare_control_fd_silent f : silent (prepare_control_fd f).
Proof. unfold prepare_control_fd. silent_auto. Qed.

Lemma get_peer_silent f : silent (get_peer f).
Proof. unfold get_peer. silent_auto. Qed.

Lemma control_handle_connection_ok f mask s w :
  wf s -> wp (control_handle_connection f mask) (fun r s' w' => wf s' /\ status r) s w.
Proof.
  intros W. unfold control_handle_connection.
  assert (Hdone : forall w', wp (mret 0) (fun r s' w' => wf s' /\ status r) s w').
  { intros w'. wp_steps. split; [done|by left]. }
  assert (Hclose : forall n w', wp (close n;; mret 0) (fun r s' w' => wf s' /\ status r) s w').
  { intros n w'. wp_step. apply wp_silent; [auto with silent|]. auto. }
  wp_case; [wp_steps; split; [done|by right]|]. wp_case; [done|]. wp_steps.
  apply wp_ext. intros r _. wp_case; [done|]. wp_steps.
  apply wp_silent; [apply prepare_control_fd_silent|]. intros r2 w2 _. wp_case; [done|]. wp_steps.
  apply wp_silent; [apply get_peer_silent|]. intros peer w3 _.
  destruct peer as [[[pid uid] gid]|]; [|done]. wp_steps.
  apply wp_ext. intros r4 _. wp_case; [done|]. wp_steps. apply wp_ext. intros r5 _. wp_case; [done|].
  wp_steps. set (c := fresh (dom (sv_controls s))).
  assert (Hc : sv_controls s !! c = None) by (apply not_elem_of_dom, is_fresh).
  pose proof (wf_control_enter nobody s c (ControlClient None (new_connection (r_ret r)) pid uid gid)
    W Hc (new_connection_wf _) eq_refl) as W1.
  set (s1 := set_control_clients _ _) in W1 |- *.
  apply wp_add_fd; intros w6 _; cbn zeta; wp_step; (eapply wp_upd_control; [look|]); wp_steps.
  - eapply wp_mono; [eapply control_client_destroy_ok; [|look]|].
    { eapply wf_put_control; [exact W1|look|apply new_connection_wf|done]. }
    intros _ s2 w7 (W2 & _). wp_steps. split; [done|by left].
  - split; [|by left]. apply (wf_control_attach nobody s1);
      [exact W1|look|done|left|apply infinite_is_fresh].
Qed.

End Control.
