(* ===== verification/PollerOk.v ===== *)
(** * The poller keeps its array, its sources and its signals in order *)
From S2P Require Import Prelude Kernel Connection Protocol Devices Terminal State Poller Send Seat.
From S2P Require Import Client Control Server Daemon Frames.
From S2P Require Import Invariant Lifecycle Rules SendOk SeatOk.

(** ** Regeneration *)

(** The sources that stay, numbered from [n]. *)
Definition live (l : list event_source_fd) : list event_source_fd :=
  filter (fun x => es_killed x = false) l.

Lemma live_cons x l : live (x :: l) = if es_killed x then live l else x :: live l.
Proof. unfold live. rewrite filter_cons. by destruct (es_killed x). Qed.

Fixpoint indexed (n : Z) (l : list event_source_fd) : list event_source_fd :=
  match l with
  | [] => []
  | x :: l' => set_es_pollfd_idx n x :: indexed (n + 1) l'
  end.

(** The array entry of a source. *)
Definition entry (x : event_source_fd) : pollfd :=
  Pollfd (es_fd x) (event_mask_to_poll_mask (es_mask x)) 0.

Lemma indexed_ids n l : es_id <$> indexed n l = es_id <$> l.
Proof. revert n. induction l as [|x l IH]; intros n; [done|]. cbn. by f_equal. Qed.

(** One source among others. *)
Lemma ids_apart l1 x l2 :
  NoDup (es_id <$> l1 ++ x :: l2) ->
  Forall (fun y => es_id y ≠ es_id x) l1 /\ Forall (fun y => es_id y ≠ es_id x) l2 /\
  NoDup (es_id <$> l1 ++ l2).
Proof.
  rewrite !fmap_app, fmap_cons, !NoDup_app, NoDup_cons. intros (N1 & Hout & Hx & N2). split_and!.
  - apply Forall_forall. intros y Hy Ey. apply (Hout (es_id x)); [|left].
    rewrite <- Ey. by apply list_elem_of_fmap_2.
  - apply Forall_forall. intros y Hy Ey. apply Hx. rewrite <- Ey. by apply list_elem_of_fmap_2.
  - done.
  - intros e He1 He2. apply (Hout e He1). by right.
  - done.
Qed.

Section Regenerate.
Context `{K : Kernel}.
Implicit Types (s : server) (w : sys).

Lemma find_source_mid s l1 x l2 :
  sv_sources s = l1 ++ x :: l2 -> NoDup (es_id <$> sv_sources s) -> find_source (es_id x) s = Some x.
Proof.
  intros E Hnd. rewrite E in Hnd. apply ids_apart in Hnd as (H1 & _ & _). unfold find_source. rewrite E.
  rewrite (list_find_app_r (fun y => es_id y = es_id x)).
  - cbn. by rewrite decide_True.
  - by apply list_find_None.
Qed.

Lemma free_source_mid s l1 x l2 :
  sv_sources s = l1 ++ x :: l2 -> NoDup (es_id <$> sv_sources s) ->
  free_source (es_id x) s = set_sv_sources (l1 ++ l2) s.
Proof.
  intros E Hnd. rewrite E in Hnd. apply ids_apart in Hnd as (H1 & H2 & _). unfold free_source. f_equal.
  rewrite E, filter_app, filter_cons, decide_False by tauto. f_equal; by apply filter_keeps_all.
Qed.

Lemma upd_source_mid s f l1 x l2 :
  sv_sources s = l1 ++ x :: l2 -> NoDup (es_id <$> sv_sources s) ->
  upd_source (es_id x) f s = set_sv_sources (l1 ++ f x :: l2) s.
Proof.
  intros E Hnd. rewrite E in Hnd. apply ids_apart in Hnd as (H1 & H2 & _). unfold upd_source. f_equal.
  assert (Hid : forall l, Forall (fun y => es_id y ≠ es_id x) l ->
    (fun y => if decide (es_id y = es_id x) then f y else y) <$> l = l).
  { induction 1 as [|y l Hy _ IH]; [done|]. by rewrite fmap_cons, IH, decide_False. }
  by rewrite E, fmap_app, fmap_cons, decide_True, !Hid.
Qed.

Lemma wp_store_pollfd idx pfd Q s w :
  0 <= idx < zlen (pollfds s) -> Q () (set_pollfds (<[Z.to_nat idx := pfd]> (pollfds s)) s) w ->
  wp (store_pollfd idx pfd) Q s w.
Proof.
  intros Hi HQ. unfold store_pollfd. wp_steps.
  rewrite (proj2 (Z.leb_le 0 idx)), (proj2 (Z.ltb_lt idx _)) by lia. by wp_steps.
Qed.

(** The loop: the sources in [todo] that live are numbered and entered in the
    array, the others freed. *)
Lemma regenerate_fds_ok todo done arr rest Q s w :
  sv_sources s = done ++ todo -> NoDup (es_id <$> sv_sources s) ->
  pollfds s = arr ++ rest -> (length (live todo) <= length rest)%nat ->
  (let n := length (live todo) in
   Q (zlen arr + Z.of_nat n)
     (set_sv_sources (done ++ indexed (zlen arr) (live todo))
        (set_pollfds (arr ++ (entry <$> live todo) ++ drop n rest) s)) w) ->
  wp (regenerate_fds (es_id <$> todo) (zlen arr)) Q s w.
Proof.
  revert done arr rest s. induction todo as [|x todo IH]; intros done arr rest s E Hnd Ea Hlen HQ.
  - cbn [fmap list_fmap regenerate_fds]. wp_steps. cbn zeta in HQ.
    change (live []) with (@nil event_source_fd) in HQ. cbn [length indexed fmap list_fmap app] in HQ.
    rewrite Z.add_0_r, drop_0, app_nil_r in HQ. rewrite app_nil_r in E. rewrite <- Ea, <- E in HQ.
    by destruct s.
  - rewrite fmap_cons. cbn [regenerate_fds]. wp_steps.
    apply (wp_deref _ x); [by eapply find_source_mid|]. rewrite live_cons in Hlen, HQ.
    destruct (es_killed x) eqn:Hk.
    + wp_steps. rewrite (free_source_mid s done x todo) by done.
      apply (IH done arr rest); [done| |done|done|exact HQ].
      rewrite E in Hnd. by apply ids_apart in Hnd as (_ & _ & ?).
    + cbn [length] in Hlen. wp_steps.
      rewrite (upd_source_mid s _ done x todo) by done.
      destruct rest as [|r rest]; [cbn in Hlen; lia|].
      assert (Hz : zlen (pollfds s) = zlen arr + 1 + zlen rest)
        by (rewrite Ea; unfold zlen; rewrite length_app; cbn; lia).
      apply wp_assert; [unfold zlen in *; lia|]. wp_steps.
      apply wp_store_pollfd; [cbn; unfold zlen in *; lia|]. wp_steps. cbn [pollfds set_sv_sources].
      replace (zlen arr + 1) with (zlen (arr ++ [entry x])) by (unfold zlen; rewrite length_app; cbn; lia).
      apply (IH (done ++ [set_es_pollfd_idx (zlen arr) x]) (arr ++ [entry x]) rest).
      * cbn. by rewrite <- app_assoc.
      * cbn -[fmap]. rewrite E, fmap_app, fmap_cons in Hnd. by rewrite fmap_app, fmap_cons.
      * cbn. rewrite Ea. unfold zlen. rewrite Nat2Z.id, insert_app_r_alt, Nat.sub_diag by done. cbn.
        by rewrite <- app_assoc.
      * cbn [length] in Hlen. lia.
      * cbn zeta in HQ |- *. cbn [length indexed] in HQ. cbn [drop] in HQ. rewrite fmap_cons in HQ.
        rewrite <- !app_assoc. unfold zlen in *. rewrite !length_app. cbn [length app] in *.
        replace (Z.of_nat (length arr + 1) + Z.of_nat (length (live todo)))
          with (Z.of_nat (length arr) + Z.of_nat (S (length (live todo)))) by lia.
        replace (Z.of_nat (length arr + 1)) with (Z.of_nat (length arr) + 1) by lia.
        exact HQ.
Qed.

(** The array for the sources of a state: the signal pipe, then every live source. *)
Definition poll_array (s : server) : list pollfd :=
  Pollfd (fst (signal_fds s)) POLLIN 0 :: (entry <$> live (sv_sources s)).

Definition live_signals (s : server) : list event_source_signal :=
  filter (fun bps => sg_killed bps = false) (signals s).

(** The state after [regenerate]: the sources that were removed are freed, the
    others are numbered, and the array starts with their entries. *)
Definition regenerated (s s' : server) : Prop :=
  exists rest, s' = set_signals (live_signals s)
    (set_sv_sources (indexed 1 (live (sv_sources s))) (set_pollfds (poll_array s ++ rest) s)).

Lemma regenerate_rest s w :
  NoDup (es_id <$> sv_sources s) -> fd_event_sources s = 1 + Z.of_nat (live_count (sv_sources s)) ->
  fd_event_sources s <= zlen (pollfds s) ->
  wp (store_pollfd 0 (Pollfd (fst (signal_fds s)) POLLIN 0);;
      s ← get;
      idx ← regenerate_fds (es_id <$> sv_sources s) 1;
      s ← get;
      assert_ (idx =? fd_event_sources s);;
      modify (set_signals (live_signals s));;
      mret 0) (fun r s' w' => r = 0 /\ w' = w /\ regenerated s s') s w.
Proof.
  intros Hnd Hcount Hlen. wp_steps. apply wp_store_pollfd; [lia|]. unfold zlen in Hlen.
  destruct (pollfds s) as [|p rest] eqn:Ep; cbn [length] in Hlen; [lia|]. cbn [insert list_insert Z.to_nat].
  set (p0 := Pollfd _ _ _). wp_steps.
  apply (regenerate_fds_ok (sv_sources s) [] [p0] rest); [done|done|done|unfold live_count, live in *; lia|].
  cbn zeta. wp_steps. apply wp_assert.
  { cbn. unfold live_count, live in *. unfold zlen. cbn. lia. }
  wp_steps. split_and!; [done|done|]. eexists. cbn [app]. unfold poll_array. cbn [app]. reflexivity.
Qed.

Lemma regenerate_ok s w :
  NoDup (es_id <$> sv_sources s) -> fd_event_sources s = 1 + Z.of_nat (live_count (sv_sources s)) ->
  wp regenerate (fun r s' w' =>
    r = -1 /\ s' = s /\ refused w w' \/ r = 0 /\ quiet w w' /\ regenerated s s') s w.
Proof.
  intros Hnd Hcount. unfold regenerate. wp_steps. destruct (Z.ltb_spec (zlen (pollfds s)) (fd_event_sources s)).
  - wp_steps. apply wp_ext. intros r _. wp_case.
    { wp_steps. left. split_and!; [done|done|]. apply refused_logged. left. lia. }
    do 3 wp_step. cbn [negb]. set (s1 := set_pollfds _ s).
    eapply wp_mono; [apply (regenerate_rest s1)|].
    + done.
    + done.
    + cbn. unfold zlen in *. rewrite length_app, length_replicate. lia.
    + intros z s' w' (-> & -> & rest & ->). right. split_and!; [done|auto with wp|]. by exists rest.
  - wp_step. cbn [negb]. eapply wp_mono; [by apply regenerate_rest|].
    intros z s' w' (-> & -> & Hr). right. by split_and!.
Qed.

End Regenerate.

(** ** The poller's invariant *)

Definition vt_known (s : server) : Prop := forall p t, sv_seats s !! p = Some t -> cur_vt t ≠ -1.

(** A source of a VT signal has been raised and not yet dispatched. *)
Definition vt_signalled (s : server) : Prop :=
  Exists (fun bps => sg_raised bps = true /\ sg_func bps ≠ server_handle_kill_fn) (signals s).

(** What poll(2) is asked about a descriptor. *)
Definition asked (p : pollfd) : Z * Z := (pf_fd p, pf_events p).

(** The index of a source is that of its entry in the array. *)
Definition placed (s : server) (x : event_source_fd) : Prop :=
  es_pollfd_idx x = -1 \/
  0 < es_pollfd_idx x /\
  exists pfd, pollfds s !! Z.to_nat (es_pollfd_idx x) = Some pfd /\ pf_fd pfd = es_fd x.

(** The array is up to date: it asks for the signal pipe and for every source. *)
Definition current (s : server) : Prop :=
  Forall (fun x => es_killed x = false) (sv_sources s) /\
  (asked <$> poll_array s) `prefix_of` (asked <$> pollfds s).

(** The signal and the function of a source. *)
Definition handled (bps : event_source_signal) : Z * signal_handler_fn := (sg_signal bps, sg_func bps).

Record poller_wf (s : server) : Prop := {
  pw_global : global_poller s = true;
  pw_placed : Forall (placed s) (sv_sources s);
  pw_current : poll_dirty s = false -> current s;
  pw_signal_ids : NoDup (sg_id <$> signals s);
  pw_signals_live : Forall (fun bps => sg_killed bps = false) (signals s);
  pw_signal_table : handled <$> signals s = reverse server_signals;
  pw_queue : Forall vt_numbered (vt_event_queue s);
  pw_vt : vt_signalled s -> vt_known s;
  pw_thread : vt_event_thread_live s = true -> vt_event_thread_started s = true
}.

Lemma evolves_known s s' :
  Forall vt_numbered (vt_event_queue s) -> evolves s s' -> vt_known s -> vt_known s'.
Proof. intros Hq E Hk p t' Ht'. destruct (ev_vt _ _ E Hq p t' Ht') as (t & Ht & Hc). eauto. Qed.

(** The handlers preserve it. *)
Lemma poller_wf_evolves s s' : poller_wf s -> evolves s s' -> poller_wf s'.
Proof.
  intros [G P C I L F Q V T] E. pose proof (evolves_known _ _ Q E) as HK.
  destruct E as [Ep (new & old & Es & Hn & Ho) Ed Eq _ _]. unfold poller_private in Ep.
  injection Ep as Esig Efds Epipe Epoll Eg Er Est El Ef Evp.
  split; rewrite ?Esig, ?El, ?Est; try congruence; try done.
  - rewrite Es. apply Forall_app. split; [eapply Forall_impl; [exact Hn|]; by left|].
    eapply Forall2_Forall_r; [exact Ho|]. eapply Forall_impl; [exact P|]. intros x Hx y [_ _ Hf _ Hi _].
    unfold placed. by rewrite Hi, Hf, Epoll.
  - intros Hd. destruct Ed as [|(Ed & _ & Ess)]; [congruence|]. unfold current, poll_array in *.
    rewrite Ess, Epoll, Efds. apply C. congruence.
  - by eapply Forall_suffix.
  - unfold vt_signalled. rewrite Esig. auto.
Qed.

(** Changes of fields it does not mention. *)
Definition poller_fields (s : server) :=
  (global_poller s, sv_sources s, poll_dirty s, pollfds s, signal_fds s, signals s, vt_event_queue s, sv_seats s).

Lemma poller_wf_same s s' :
  poller_fields s' = poller_fields s ->
  (vt_event_thread_live s' = true -> vt_event_thread_started s' = true) -> poller_wf s -> poller_wf s'.
Proof.
  intros E T' [G P C I L F Q V T]. injection E as Eg Es Ed Ep Ef Esig Eq Ese.
  unfold vt_signalled, vt_known, current, poll_array in *.
  split; unfold vt_signalled, vt_known, current, poll_array;
    rewrite ?Eg, ?Es, ?Ed, ?Ep, ?Ef, ?Esig, ?Eq, ?Ese; try done.
  eapply Forall_impl; [exact P|]. intros x. unfold placed. by rewrite Ep.
Qed.

(** ** Regeneration makes the array current *)

Lemma live_all l : Forall (fun x => es_killed x = false) (live l).
Proof. apply Forall_forall. by intros x [? _]%list_elem_of_filter. Qed.

Lemma live_id l : Forall (fun x => es_killed x = false) l -> live l = l.
Proof. induction 1 as [|x l Hx _ IH]; [done|]. by rewrite live_cons, Hx, IH. Qed.

Lemma indexed_lookup n l i x :
  indexed n l !! i = Some x -> exists y, l !! i = Some y /\ x = set_es_pollfd_idx (n + Z.of_nat i) y.
Proof.
  revert n i. induction l as [|y l IH]; intros n [|i]; cbn; [done|done| |].
  - intros [= <-]. exists y. by rewrite Z.add_0_r.
  - intros (z & Hz & ->)%IH. exists z. split; [done|]. f_equal. lia.
Qed.

Lemma indexed_killed n l :
  Forall (fun x => es_killed x = false) l -> Forall (fun x => es_killed x = false) (indexed n l).
Proof. intros H. revert n. induction H; intros n; cbn; constructor; auto. Qed.

Lemma indexed_entries n l : entry <$> indexed n l = entry <$> l.
Proof. revert n. induction l as [|x l IH]; intros n; [done|]. cbn. by f_equal. Qed.

Lemma regenerated_current s s' : regenerated s s' -> current s'.
Proof.
  intros [rest ->]. split; cbn.
  - apply indexed_killed, live_all.
  - unfold poll_array. cbn. rewrite (live_id (indexed _ _)) by apply indexed_killed, live_all.
    rewrite indexed_entries. exists (asked <$> rest). by rewrite fmap_app.
Qed.

Lemma regenerated_placed s s' : regenerated s s' -> Forall (placed s') (sv_sources s').
Proof.
  intros [rest ->]. cbn. apply Forall_lookup. intros i x (y & Hy & ->)%indexed_lookup.
  right. cbn [es_pollfd_idx set_es_pollfd_idx es_fd pollfds set_signals set_sv_sources set_pollfds].
  split; [lia|]. exists (entry y). split; [|done].
  replace (Z.to_nat (1 + Z.of_nat i)) with (S i) by lia.
  change (((entry <$> live (sv_sources s)) ++ rest) !! i = Some (entry y)).
  rewrite lookup_app_l; [by rewrite list_lookup_fmap, Hy|]. rewrite length_fmap. by eapply lookup_lt_Some.
Qed.

Lemma elem_of_indexed n l x :
  x ∈ indexed n l -> exists y idx, y ∈ l /\ x = set_es_pollfd_idx idx y.
Proof.
  rewrite list_elem_of_lookup. intros [i (y & Hy & ->)%indexed_lookup]. eexists y, _.
  split; [by eapply list_elem_of_lookup_2|done].
Qed.

Lemma indexed_elem n l y : y ∈ l -> exists idx, set_es_pollfd_idx idx y ∈ indexed n l.
Proof.
  intros Hy. revert n. induction Hy as [y l|y z l _ IH]; intros n; cbn; [eexists; left|].
  destruct (IH (n + 1)) as [idx Hi]. exists idx. by right.
Qed.

Lemma live_count_indexed n l : live_count (indexed n l) = live_count l.
Proof. revert n. induction l as [|x l IH]; intros n; [done|]. cbn [indexed]. by rewrite !live_count_cons, IH. Qed.

Lemma live_count_live l : live_count (live l) = live_count l.
Proof.
  induction l as [|x l IH]; [done|]. rewrite live_cons, live_count_cons.
  destruct (es_killed x) eqn:E; [done|]. by rewrite live_count_cons, E, IH.
Qed.

Lemma live_ids l : NoDup (es_id <$> l) -> NoDup (es_id <$> live l).
Proof. apply NoDup_fmap_filter. Qed.

Lemma wf_regenerated s s' : daemon_wf s -> regenerated s s' -> daemon_wf s'.
Proof.
  intros [Wc Ws Wct Wsl Win Wi Wcn Wcl Wsi Wso Wun Wca Wsa Wnc] [rest ->]. set (s' := set_signals _ _).
  assert (Hlive : forall fn e d, live_source s fn e d -> live_source s' fn e d).
  { intros fn e d (x & Hx & He & Hk & Hf & Hd).
    destruct (indexed_elem 1 (live (sv_sources s)) x) as [idx Hi]; [by apply list_elem_of_filter|].
    by exists (set_es_pollfd_idx idx x). }
  split; try done; cbn -[live_count].
  - intros c k Hk. destruct (Wc _ _ Hk). split; try done. destruct (c_event_source k); auto.
  - intros. by apply seat_wf_clients with (s := s); auto.
  - intros c k Hk. destruct (Wct _ _ Hk). split; try done. destruct (cc_event_source k); auto.
  - rewrite indexed_ids. by apply live_ids.
  - apply Forall_forall. intros x (y & idx & [_ Hy]%list_elem_of_filter & ->)%elem_of_indexed.
    rewrite Forall_forall in Wso. exact (Wso _ Hy).
  - by rewrite live_count_indexed, live_count_live.
Qed.

Lemma poller_wf_regenerated s s' :
  poller_wf s -> regenerated s s' -> poller_wf (set_poll_dirty false s').
Proof.
  intros [G P C I L F Q V T] R. pose proof (regenerated_current _ _ R) as HC.
  pose proof (regenerated_placed _ _ R) as HP. destruct R as [rest ->].
  assert (Hsig : live_signals s = signals s) by by apply filter_keeps_all.
  split; try done; cbn.
  - by rewrite Hsig.
  - by rewrite Hsig.
  - by rewrite Hsig.
  - unfold vt_signalled. cbn. by rewrite Hsig.
Qed.

(** ** The call of poll(2) *)

Lemma current_length s :
  daemon_wf s -> current s ->
  fd_event_sources s = zlen (poll_array s) /\ fd_event_sources s <= zlen (pollfds s).
Proof.
  intros W [Hl Hp]. rewrite (vw_count _ _ _ _ W). apply prefix_length in Hp. rewrite !length_fmap in Hp.
  unfold poll_array, zlen in *. cbn in *. rewrite length_fmap in *. unfold live_count, live in *. lia.
Qed.

(** What the kernel reported, written over the array it was given. *)
Lemma revents_asked (l : list pollfd) (v : list Z) :
  length v = length l ->
  asked <$> zip_with (fun p v => Pollfd (pf_fd p) (pf_events p) v) l v = asked <$> l.
Proof.
  revert v. induction l as [|p l IH]; intros [|x v] Hl; cbn in *; try done. f_equal. apply IH. lia.
Qed.

Lemma placed_asked s s' x : asked <$> pollfds s' = asked <$> pollfds s -> placed s x -> placed s' x.
Proof.
  intros E [H|(Hpos & pfd & Hp & Hf)]; [by left|]. right. split; [done|].
  assert (Hl : (asked <$> pollfds s') !! Z.to_nat (es_pollfd_idx x) = Some (asked pfd))
    by (rewrite E, list_lookup_fmap, Hp; done).
  rewrite list_lookup_fmap in Hl. destruct (pollfds s' !! _) as [q|]; [|done]. exists q. split; [done|].
  injection Hl as Hq _. congruence.
Qed.

Lemma poller_wf_asked arr s :
  poller_wf s -> asked <$> arr = asked <$> pollfds s -> poller_wf (set_pollfds arr s).
Proof.
  intros [G P C I L F Q V T] E. split; try done; cbn.
  - eapply Forall_impl; [exact P|]. intros x. by apply placed_asked.
  - intros Hd. destruct (C Hd) as [H1 H2]. split; [done|]. cbn. by rewrite E.
Qed.

Section Poll.
Context `{K : Kernel} `{Kok : !KernelOk}.
Implicit Types (s : server) (w : sys).

(** The last call was poll(2), over these descriptors, with this answer. *)
Definition polled (s : server) (r : reply) (w w' : sys) : Prop :=
  exists t, interrupted (Poll (asked <$> poll_array s) (-1)) t /\
    r = answer (t ++ trace w) (Poll (asked <$> poll_array s) (-1)) /\
    trace w' = (Poll (asked <$> poll_array s) (-1), r) :: t ++ trace w.

Lemma poll_fds_ok s w :
  daemon_wf s -> current s ->
  wp poll_fds (fun r s' w' => quiet w w' /\ exists rep, polled s rep w w' /\ r = r_ret rep /\
    (r = -1 /\ s' = s /\ refused w w' \/
     r ≠ -1 /\ exists arr, s' = set_pollfds arr s /\ asked <$> arr = asked <$> pollfds s /\
       pf_revents <$> take (length (poll_array s)) arr = resize (length (poll_array s)) 0 (r_vals rep))) s w.
Proof.
  intros W C. destruct (current_length s W C) as [En Hlen]. unfold poll_fds. wp_steps.
  rewrite (proj2 (Z.ltb_ge _ _)) by done. wp_steps.
  set (given := take _ _).
  assert (Hg : asked <$> given = asked <$> poll_array s).
  { destruct C as [_ [rest Hp]]. unfold given. rewrite fmap_take, Hp, En. unfold zlen.
    rewrite Nat2Z.id, take_app_length'; [done|by rewrite length_fmap]. }
  assert (Hlg : length given = length (poll_array s)) by (rewrite <- (length_fmap asked), Hg; apply length_fmap).
  change (fun p => (pf_fd p, pf_events p)) with asked. rewrite Hg.
  apply wp_retry. intros r t e Ht Hr Hans.
  assert (Hq : quiet w (logged (Sys (t ++ trace w) e) (Poll (asked <$> poll_array s) (-1)) r)) by by apply quiet_retry.
  destruct (Z.eqb_spec (r_ret r) (-1)); wp_steps.
  - split; [done|]. exists r. split_and!; [by exists t|done|]. left. split_and!; [done|done|].
    eapply refused_l, refused_logged; [by exists t|by left].
  - split; [done|]. exists r. split_and!; [by exists t|done|]. right. split; [done|].
    eexists. split_and!; [reflexivity| |].
    + rewrite fmap_app, revents_asked by (rewrite length_resize; done). rewrite <- fmap_app. unfold given.
      by rewrite take_drop.
    + rewrite take_app_length'; [|rewrite length_zip_with, length_resize; lia].
      rewrite Hlg. apply fmap_zip_with_r; [done|]. rewrite length_resize. lia.
Qed.

End Poll.
