(* ===== verification/ServerOk.v ===== *)
(** * What the operations of server.c do *)
From S2P Require Import Prelude Kernel Connection Protocol Devices Terminal State Poller Send Seat Client.
From S2P Require Import Control Server Frames Invariant Lifecycle Rules SendOk SeatOk SeatSwitch SeatVt.
From S2P Require Import SeatDevices SeatMembers SeatRemove ClientOk ControlOk.

Section Handlers.
Context `{K : Kernel} `{Kok : !KernelOk}.
Abbreviation wf := (server_wf nobody nobody nobody).
Implicit Types (s : server) (w : sys).

Lemma set_nonblock_silent f : silent (set_nonblock f).
Proof. unfold set_nonblock. silent_auto. Qed.

(** A new client is idle, unseated, and has no session yet. *)
Definition fresh_client (f : Z) (pid uid gid : Z) : client :=
  Client true None (new_connection f) pid uid gid None (-1) CLIENT_NEW [].

Lemma client_create_ok f Q s w :
  (forall w', quiet w w' -> Q None s w') ->
  (forall pid uid gid w', quiet w w' ->
     let c := fresh (dom (sv_clients s)) in
     Q (Some c) (set_idle_clients (c :: idle_clients s) (put_client c (fresh_client f pid uid gid) s)) w') ->
  wp (client_create f) Q s w.
Proof.
  intros HN HS. unfold client_create. wp_steps.
  apply wp_silent; [apply get_peer_silent|]. intros peer w1 Hq1.
  destruct peer as [[[pid uid] gid]|]; wp_steps; [|by apply HN].
  apply wp_ext. intros r _. assert (quiet w (logged w1 Calloc r)) by (etrans; [done|]; auto with wp).
  wp_case; wp_steps; [by apply HN|by apply HS].
Qed.

(** A new client on descriptor [f]. *)
Definition entered (f : Z) (s s' : server) : Prop :=
  running s' = running s /\
  exists c k, sv_clients s !! c = None /\ sv_clients s' !! c = Some k /\ fd (c_connection k) = f.

Lemma server_add_client_ok f s w :
  wf s -> wp (server_add_client f) (fun r s' w' => wf s' /\ (r = 0 /\ entered f s s' \/ r = -1)) s w.
Proof.
  intros W. unfold server_add_client.
  assert (Hclose : forall w', wp (close f;; mret (-1)) (fun r s' w' => wf s' /\ (r = 0 /\ entered f s s' \/ r = -1)) s w').
  { intros w'. wp_step. apply wp_silent; [auto with silent|]. intros. wp_steps. split; [done|by right]. }
  wp_steps. apply wp_silent; [apply set_nonblock_silent|]. intros r w1 _. wp_case; [done|]. wp_steps.
  apply client_create_ok; [intros; apply Hclose|]. intros pid uid gid w2 _. cbn zeta.
  set (c := fresh (dom (sv_clients s))).
  assert (Hc : sv_clients s !! c = None) by (apply not_elem_of_dom, is_fresh).
  pose proof (wf_enter nobody s c (fresh_client f pid uid gid) W Hc (new_connection_wf _)
    eq_refl eq_refl eq_refl eq_refl) as W1.
  set (s1 := set_idle_clients _ _) in W1 |- *. wp_step.
  apply wp_add_fd; intros w3 _; cbn zeta; wp_step; (eapply wp_upd_client; [look|]); wp_steps.
  - eapply wp_mono; [eapply client_destroy_ok; [|look|done]|].
    { eapply wf_set_client; [exact W1|look| |done|done|done].
      by apply (vw_clients _ _ _ _ W1 c (fresh_client f pid uid gid)); look. }
    intros _ s2 w4 [W2 _]. wp_steps. split; [done|by right].
  - split; [|left; split; [done|]].
    2: { split; [done|]. exists c. eexists. split_and!; [done|look|done]. }
    apply (wf_attach nobody s1);
      [exact W1|look|done|done|apply infinite_is_fresh].
Qed.

Lemma wf_running b s : wf s -> wf (set_running b s).
Proof. by apply wf_same. Qed.

Lemma server_handle_connection_ok f mask s w :
  wf s -> wp (server_handle_connection f mask) (fun r s' w' => wf s' /\ status r) s w.
Proof.
  intros W. unfold server_handle_connection. wp_case; wp_steps.
  { apply wp_ext. intros r _. wp_steps. split; [by apply wf_running|by right]. }
  wp_case; wp_steps; [|split; [done|by left]]. apply wp_ext. intros r _.
  wp_case; wp_steps; [split; [done|by left]|].
  eapply wp_mono; [by apply server_add_client_ok|]. intros r2 s' w' [W' _]. wp_steps. split; [done|by left].
Qed.

Lemma server_handle_kill_ok s w :
  wf s -> wp server_handle_kill (fun r s' w' => wf s' /\ status r) s w.
Proof. intros W. unfold server_handle_kill. wp_steps. split; [by apply wf_running|by left]. Qed.

(** The VT signals are safe once the current VT of the seat is known. *)
Lemma server_handle_vt_acq_ok s w :
  wf s -> (forall p t, sv_seats s !! p = Some t -> 0 < cur_vt t) ->
  wp server_handle_vt_acq (fun r s' w' => wf s' /\ status r) s w.
Proof.
  intros W Hvt. unfold server_handle_vt_acq. wp_steps.
  eapply server_get_seat_ok; [done| |wp_steps; split; [done|by right]]. intros p t _ Ht _. wp_steps.
  destruct (vt_bound t) eqn:Eb.
  - eapply wp_mono; [eapply seat_vt_activate_ok; [done|done|apply Z.lt_le_incl; eauto]|].
    intros r s' w' (_ & _ & t1 & _ & _ & Hr & -> & _). wp_steps. split; [by eapply refreshed_wf|by left].
  - unfold seat_vt_activate. wp_steps. eapply wp_get_seat; [done|]. rewrite Eb. cbn [negb]. wp_steps.
    split; [done|by left].
Qed.

Lemma server_handle_vt_rel_ok s w :
  wf s -> (forall p t, sv_seats s !! p = Some t -> 0 < cur_vt t) ->
  wp server_handle_vt_rel (fun r s' w' => wf s' /\ status r) s w.
Proof.
  intros W Hvt. unfold server_handle_vt_rel. wp_steps.
  eapply server_get_seat_ok; [done| |wp_steps; split; [done|by right]]. intros p t _ Ht _. wp_steps.
  specialize (Hvt _ _ Ht). destruct (vt_bound t) eqn:Eb.
  - eapply wp_mono; [eapply seat_vt_release_ok; [done|done|done|lia]|]. intros r s' w' [_ Hp]. wp_steps.
    eapply release_kept in Hp as [W' _]; [|done..]. split; [done|by left].
  - unfold seat_vt_release. wp_steps. eapply wp_get_seat; [done|]. rewrite Eb. wp_steps.
    split; [done|by left].
Qed.

Lemma evolves_queue q s : q `suffix_of` vt_event_queue s -> evolves s (set_vt_event_queue q s).
Proof.
  intros Hq. split; try done; cbn.
  - exists [], (sv_sources s). split_and!; [done|constructor|reflexivity].
  - by right.
  - eauto.
Qed.

(** Every message of the watcher is taken, in order. *)
Lemma vt_event_messages_ok fuel s w :
  wf s -> Forall vt_numbered (vt_event_queue s) -> (length (vt_event_queue s) <= fuel)%nat ->
  wp (vt_event_messages fuel) (fun _ s' w' => wf s' /\ evolves s s' /\ vt_event_queue s' = []) s w.
Proof.
  revert s w. induction fuel as [|fuel IH]; intros s w W Hm Hlen; cbn [vt_event_messages]; wp_steps;
    destruct (vt_event_queue s) as [|msg rest] eqn:Eq; wp_steps; try (by split_and!).
  { cbn in Hlen. lia. }
  apply Forall_cons in Hm as [Hpos Hm]. cbn [length] in Hlen.
  set (s1 := set_vt_event_queue rest s).
  assert (W1 : wf s1) by by apply (wf_same _ _ _ s).
  assert (E1 : evolves s s1) by (apply evolves_queue; rewrite Eq; by exists [msg]).
  eapply server_get_seat_ok; [done| |].
  - intros p t _ Ht _. wp_step.
    eapply wp_mono; [apply wp_respects; [by apply serves_vt_event|by eapply seat_handle_vt_event_wf]|].
    intros _ s2 w2 [[W2 _] E2]. pose proof (ev_queue _ _ E2) as Hsuf. cbn in Hsuf.
    eapply wp_mono; [apply IH; [done|by eapply Forall_suffix|]|].
    + apply suffix_length in Hsuf. lia.
    + intros _ s3 w3 (W3 & E3 & Hq). split_and!; [done| |done]. by etrans; [|etrans].
  - wp_steps. eapply wp_mono; [by apply IH; [| |cbn; lia]|].
    intros _ s3 w3 (W3 & E3 & Hq). split_and!; [done| |done]. by etrans.
Qed.

Lemma server_handle_vt_event_ok f mask s w :
  wf s -> Forall vt_numbered (vt_event_queue s) ->
  wp (server_handle_vt_event f mask) (fun r s' w' => wf s' /\ evolves s s' /\ status r) s w.
Proof.
  intros W Hm. unfold server_handle_vt_event. wp_case; wp_steps; [split_and!; [done|done|by right]|].
  wp_case; wp_steps; [split_and!; [done|done|by left]|].
  eapply wp_mono; [by apply vt_event_messages_ok|]. intros _ s1 w1 (W1 & E1 & _). wp_steps.
  split_and!; [done|done|by left].
Qed.

Lemma poller_add_fd_ok f mask fn data s w :
  wf s -> fn ≠ client_handle_connection_fn -> fn ≠ control_client_handle_connection_fn ->
  wp (poller_add_fd f mask fn data) (fun _ s' w' => wf s') s w.
Proof.
  intros W H1 H2. apply wp_add_fd; intros w' _; [done|]. cbn zeta.
  destruct W as [Wc Ws Wct Wsl Win Wi Wcn Wcl Wsi Wso Wun Wca Wsa Wnc].
  assert (Hlive : forall fn0 e d, live_source s fn0 e d -> forall x n b,
    live_source (set_sv_sources (x :: sv_sources s) (set_poll_dirty b (set_fd_event_sources n s))) fn0 e d).
  { intros fn0 e d (y & Hy & ?) x n b. exists y. split; [by right|done]. }
  split; try done; cbn -[fmap live_count].
  - intros c k Hk. destruct (Wc _ _ Hk). split; try done. destruct (c_event_source k); [|done].
    by apply Hlive.
  - intros. eapply seat_wf_clients with (s := s); auto.
  - intros c k Hk. destruct (Wct _ _ Hk). split; [done|]. destruct (cc_event_source k); [|done].
    by apply Hlive.
  - rewrite fmap_cons. constructor; [apply infinite_is_fresh|done].
  - constructor; [|done]. intros _. cbn. by destruct fn.
  - rewrite live_count_cons. cbn [es_killed]. lia.
Qed.

End Handlers.

