(* ===== verification/DispatchOk.v ===== *)
(** * The dispatch calls every ready source, once and in order

    The handlers keep the invariants whatever the poller calls them for; the loop
    over the list of sources, which the handlers change under it, visits exactly
    the sources that were on the list when it began. *)
From S2P Require Import Prelude Kernel Connection Protocol Devices Terminal State Poller Send Seat Client.
From S2P Require Import Control Server Daemon Trace Frames Invariant Lifecycle Rules SendOk SeatOk SeatSwitch.
From S2P Require Import SeatVt SeatDevices SeatMembers SeatRemove ClientOk ControlOk PollerOk ServerOk.

Definition daemon_ok (s : server) : Prop := daemon_wf s /\ poller_wf s.

Lemma daemon_ok_evolves s s' : daemon_ok s -> daemon_wf s' -> evolves s s' -> daemon_ok s'.
Proof. intros [_ P] W E. split; [done|by eapply poller_wf_evolves]. Qed.

(** A source that is served refers to an allocated object, which holds it. *)
Lemma live_source_object s fn e c :
  daemon_wf s -> live_source s fn e c ->
  match fn with
  | client_handle_connection_fn => exists k, sv_clients s !! c = Some k /\ c_event_source k = Some e
  | control_client_handle_connection_fn =>
      exists k, sv_controls s !! c = Some k /\ cc_event_source k = Some e
  | _ => True
  end.
Proof.
  intros W (x & Hx & Ei & Hk & Ef & Ed). pose proof (vw_sources _ _ _ _ W) as Wso.
  rewrite Forall_forall in Wso. specialize (Wso _ Hx Hk). by rewrite Ef, Ed, Ei in Wso.
Qed.

Section Calls.
Context `{K : Kernel} `{Kok : !KernelOk}.
Implicit Types (s : server) (w : sys).

(** The calls of the handlers. *)
Lemma call_fd_func_ok x f mask s w :
  daemon_ok s -> x ∈ sv_sources s -> es_killed x = false ->
  wp (call_fd_func (es_func x) f mask (es_data x)) (fun _ s' w' => daemon_wf s' /\ evolves s s') s w.
Proof.
  intros [W P] Hx Hk. assert (Hl : live_source s (es_func x) (es_id x) (es_data x)) by by exists x.
  pose proof (live_source_object _ _ _ _ W Hl) as Ho. unfold call_fd_func. destruct (es_func x).
  - eapply wp_mono; [apply (wp_respects evolves), server_handle_connection_ok; [apply serves_connection|done]|].
    by intros r s' w' [[? _] ?].
  - eapply wp_mono; [apply (wp_respects evolves), control_handle_connection_ok; [apply serves_control_connection|done]|].
    by intros r s' w' [[? _] ?].
  - destruct Ho as (k & Hc & _).
    eapply wp_mono; [apply (wp_respects evolves); [apply serves_client|by eapply client_handle_connection_ok]|].
    by intros r s' w' [[? _] ?].
  - destruct Ho as (k & Hc & _).
    eapply wp_mono; [apply (wp_respects evolves); [apply serves_control_client|]|].
    + eapply control_client_handle_connection_ok; eauto.
    + by intros r s' w' [[? _] ?].
  - eapply wp_mono; [apply server_handle_vt_event_ok; [done|apply P]|]. by intros r s' w' (? & ? & _).
Qed.

Lemma vt_known_positive s : daemon_wf s -> vt_known s -> forall p t, sv_seats s !! p = Some t -> 0 < cur_vt t.
Proof. intros W Hk p t Ht. destruct (sw_cur _ _ _ _ (vw_seats _ _ _ _ W _ _ Ht)); [|done]. by destruct (Hk _ _ Ht). Qed.

Lemma call_signal_func_ok fn s w :
  daemon_wf s -> (fn ≠ server_handle_kill_fn -> vt_known s) ->
  wp (call_signal_func fn) (fun _ s' w' => (daemon_wf s' /\ (fn = server_handle_kill_fn -> running s' = false)) /\
    evolves s s') s w.
Proof.
  intros W Hk. apply (wp_respects evolves).
  { destruct fn; [apply serves_vt_rel|apply serves_vt_acq|apply serves_kill]. }
  destruct fn; cbn [call_signal_func].
  - eapply wp_mono; [apply server_handle_vt_rel_ok; [done|by apply vt_known_positive, Hk]|]. by intros r s' w' [? _].
  - eapply wp_mono; [apply server_handle_vt_acq_ok; [done|by apply vt_known_positive, Hk]|]. by intros r s' w' [? _].
  - unfold server_handle_kill. wp_steps. split; [by apply wf_running|done].
Qed.

End Calls.

(** ** The loop over the descriptor sources *)

Lemma find_source_listed e s :
  e ∈ es_id <$> sv_sources s -> exists x, find_source e s = Some x /\ x ∈ sv_sources s /\ es_id x = e.
Proof.
  intros (x & -> & Hx)%list_elem_of_fmap. unfold find_source.
  destruct (list_find_elem_of (fun y => es_id y = es_id x) (sv_sources s) x Hx eq_refl) as [[i y] Hy].
  rewrite Hy. exists y. apply list_find_Some in Hy as (Hy & E & _). split_and!; [done| |done].
  by eapply list_elem_of_lookup_2.
Qed.

Lemma same_source_ids l l' : Forall2 same_source l l' -> es_id <$> l' = es_id <$> l.
Proof. induction 1 as [|x y l l' H _ IH]; [done|]. rewrite !fmap_cons, IH. by rewrite (ss_id _ _ H). Qed.

(** The sources that were listed stay listed, in their order, behind the new ones. *)
Lemma evolves_ids s s' : evolves s s' -> exists new, es_id <$> sv_sources s' = new ++ (es_id <$> sv_sources s).
Proof.
  intros E. destruct (ev_sources _ _ E) as (new & old & -> & _ & Ho). exists (es_id <$> new).
  by rewrite fmap_app, (same_source_ids _ _ Ho).
Qed.

Lemma next_after_mid e l1 l2 : NoDup (l1 ++ e :: l2) -> next_after e (l1 ++ e :: l2) = hd_error l2.
Proof.
  induction l1 as [|x l1 IH]; cbn.
  - by rewrite decide_True.
  - intros [Hx Hnd]%NoDup_cons. rewrite decide_False; [auto|]. intros ->. apply Hx. set_solver.
Qed.

Section Loop.
Context `{K : Kernel} `{Kok : !KernelOk}.
Implicit Types (s : server) (w : sys).

Lemma dispatch_fd_ok e s w :
  daemon_ok s -> e ∈ es_id <$> sv_sources s ->
  wp (dispatch_fd e) (fun _ s' w' => daemon_ok s' /\ evolves s s') s w.
Proof.
  intros D He. destruct (find_source_listed _ _ He) as (x & Hf & Hx & <-).
  assert (Hs : evolves s s) by done.
  unfold dispatch_fd. wp_steps. apply (wp_deref _ x); [done|]. wp_case; wp_steps; [done|].
  apply orb_false_iff in E as [Ei Ek].
  assert (Hp : placed s x) by (eapply Forall_forall; [apply D|done]).
  destruct Hp as [?|(Hpos & pfd & Hpfd & Efd)]; [lia|].
  apply wp_assert. { apply lookup_lt_Some in Hpfd. unfold zlen. lia. }
  wp_steps. unfold load_pollfd. wp_steps. rewrite (proj2 (Z.ltb_ge _ _)) by lia.
  apply (wp_deref _ pfd); [done|]. wp_case; wp_steps; [done|].
  eapply wp_mono; [by apply call_fd_func_ok|]. intros r s' w' [W' E']. wp_steps.
  split; [by eapply daemon_ok_evolves|done].
Qed.

Lemma dispatch_each_ok l s w :
  daemon_ok s -> l ⊆ (es_id <$> sv_sources s) ->
  wp (for_each dispatch_fd l) (fun _ s' w' => daemon_ok s' /\ evolves s s') s w.
Proof.
  revert s w. induction l as [|e l IH]; intros s w D Hl; cbn [for_each]; [by wp_steps|].
  wp_step. eapply wp_mono; [apply dispatch_fd_ok; [done|set_solver]|]. intros _ s1 w1 [D1 E1].
  destruct (evolves_ids _ _ E1) as [new Hids].
  eapply wp_mono; [apply IH; [done|rewrite Hids; set_solver]|]. intros _ s2 w2 [D2 E2]. split; [done|by etrans].
Qed.

(** Following the links while the handlers run is the same as going through the
    list as it was. *)
Lemma dispatch_fds_each fuel pre todo s w :
  daemon_ok s -> es_id <$> sv_sources s = pre ++ todo -> (length todo <= fuel)%nat ->
  dispatch_fds fuel (hd_error todo) s w = for_each dispatch_fd todo s w.
Proof.
  revert fuel pre s w. induction todo as [|e todo IH]; intros fuel pre s w D Hids Hlen; [by destruct fuel|].
  cbn in Hlen. destruct fuel as [|fuel]; [lia|]. cbn [hd_error dispatch_fds for_each].
  pose proof (dispatch_fd_ok e s w D) as Hok. rewrite Hids in Hok. specialize (Hok ltac:(set_solver)).
  unfold wp in Hok. unfold mbind, M_bind. destruct (dispatch_fd e s w) as [[[[] s1] w1]| | |]; [|done..].
  destruct Hok as [D1 E1]. cbn. destruct (evolves_ids _ _ E1) as [new Hids1].
  pose proof (vw_source_ids _ _ _ _ (proj1 D1)) as Hnd. rewrite Hids1, Hids, app_assoc in Hnd |- *.
  rewrite next_after_mid by done.
  apply (IH fuel ((new ++ pre) ++ [e])); [done| |lia]. by rewrite Hids1, Hids, <- !app_assoc.
Qed.

(** The loop as the dispatch starts it. *)
Lemma dispatch_fds_ok s w :
  daemon_ok s ->
  wp (dispatch_fds (length (sv_sources s)) (hd_error (es_id <$> sv_sources s)))
    (fun _ s' w' => daemon_ok s' /\ evolves s s') s w.
Proof.
  intros D. unfold wp. rewrite (dispatch_fds_each _ [] _ s w D eq_refl) by by rewrite length_fmap.
  by apply dispatch_each_ok.
Qed.

End Loop.

(** ** Signals *)

Definition vt_signal (sig : Z) : Prop := sig = SIGUSR1 \/ sig = SIGUSR2.

(** What signals may arrive: the kernel sends the VT signals for a VT the daemon
    has set up, so after it has learnt the current one. *)
Definition may_arrive (s : server) (sig : Z) : Prop := vt_signal sig -> vt_known s.

(** The sources for [sig] are marked. *)
Definition raise_signal (sig : Z) (s : server) : server :=
  set_signals ((fun bps => if sg_signal bps =? sig then set_sg_raised true bps else bps) <$> signals s) s.

(** Changes of the marks of the signal sources alone. *)
Lemma signals_ok f n s :
  (forall b, sg_id (f b) = sg_id b /\ handled (f b) = handled b /\ sg_killed (f b) = sg_killed b) ->
  (vt_signalled (set_signals (f <$> signals s) s) -> vt_known s) ->
  daemon_ok s -> daemon_ok (set_signal_pipe n (set_signals (f <$> signals s) s)).
Proof.
  intros Hf Hv [W [G P C I L F Q V T]]. split; [by apply (wf_same _ _ _ s)|]. split; try done; cbn -[fmap].
  - rewrite <- list_fmap_compose. erewrite list_fmap_ext; [exact I|]. intros i b _. apply Hf.
  - apply Forall_fmap. eapply Forall_impl; [exact L|]. intros b Hb. unfold compose.
    by destruct (Hf b) as (_ & _ & ->).
  - rewrite <- list_fmap_compose. erewrite list_fmap_ext; [exact F|]. intros i b _. apply Hf.
Qed.

Lemma server_signals_vt sig fn : (sig, fn) ∈ server_signals -> fn ≠ server_handle_kill_fn -> vt_signal sig.
Proof.
  unfold server_signals, vt_signal. intros Hin Hk. repeat (apply elem_of_cons in Hin as [[= -> ->]|Hin]); auto; try done.
  by apply elem_of_nil in Hin.
Qed.

Lemma raise_signal_ok sig n s :
  daemon_ok s -> may_arrive s sig -> daemon_ok (set_signal_pipe n (raise_signal sig s)).
Proof.
  intros D Ha. apply signals_ok; [| |done].
  - intros b. by destruct (sg_signal b =? sig).
  - intros [b [Hb [Hr Hfn]]]%Exists_exists. cbn in Hb. apply list_elem_of_fmap in Hb as (b0 & -> & Hb).
    destruct (Z.eqb_spec (sg_signal b0) sig) as [<-|_].
    + apply Ha. eapply server_signals_vt; [|exact Hfn]. cbn. apply elem_of_reverse.
      rewrite <- (pw_signal_table _ (proj2 D)). by apply (list_elem_of_fmap_2 handled).
    + apply (pw_vt _ (proj2 D)), Exists_exists. eauto.
Qed.

Lemma may_arrive_raise sig n s sig' :
  may_arrive s sig' -> may_arrive (set_signal_pipe n (raise_signal sig s)) sig'.
Proof. done. Qed.

Section Signals.
Context `{K : Kernel} `{Kok : !KernelOk}.
Implicit Types (s : server) (w : sys).

Lemma signal_handler_ok sig s w :
  daemon_ok s -> may_arrive s sig ->
  wp (signal_handler sig) (fun _ s' w' => daemon_ok s' /\ exists n, s' = set_signal_pipe n (raise_signal sig s)) s w.
Proof.
  intros D Ha. assert (Hs : forall n, daemon_ok (set_signal_pipe n (raise_signal sig s)))
    by (intros; by apply raise_signal_ok).
  unfold signal_handler. wp_steps. rewrite (pw_global _ (proj2 D)). cbn [negb]. wp_steps.
  apply wp_ext. intros r _. wp_steps. fold (raise_signal sig s). wp_case; wp_steps.
  - assert (E0 : raise_signal sig s = set_signal_pipe (signal_pipe s) (raise_signal sig s)) by by destruct s.
    rewrite E0. split; [apply Hs|eauto].
  - split; [apply Hs|by eexists].
Qed.

(** What a turn of the loop over the signals leaves alone: the list, the marks of
    the other sources; and a daemon told to stop stays so. *)
Record turned (id : option nat) (s s' : server) : Prop := {
  tn_ids : sg_id <$> signals s' = sg_id <$> signals s;
  tn_known : vt_known s -> vt_known s';
  tn_running : running s' = true -> running s = true;
  tn_marks : forall b, b ∈ signals s -> sg_raised b = true -> Some (sg_id b) ≠ id -> b ∈ signals s'
}.

Lemma turned_trans s1 s2 s3 id : turned id s1 s2 -> turned id s2 s3 -> turned id s1 s3.
Proof. intros [] []. split; [congruence|auto..]. Qed.

Lemma turned_weaken id s s' : turned None s s' -> turned id s s'.
Proof. intros []. split; auto. Qed.

Lemma turned_evolves s s' : poller_wf s -> evolves s s' -> turned None s s'.
Proof.
  intros P E. pose proof (evolves_known _ _ (pw_queue _ P) E) as HK.
  destruct E as [Ep _ _ _ _ Er]. injection Ep as Esig _ _ _ _ _ _ _ _ _. split; rewrite ?Esig; auto.
Qed.

Lemma turned_raise sig n s : turned None s (set_signal_pipe n (raise_signal sig s)).
Proof.
  split; try done; cbn -[fmap].
  - rewrite <- list_fmap_compose. apply list_fmap_ext. intros i b _. cbn. by destruct (_ =? _).
  - intros b Hb Hr _. apply list_elem_of_fmap. exists b. split; [|done].
    destruct (_ =? _); [|done]. destruct b; cbn in Hr. by subst.
Qed.

Lemma turned_clear id s : turned (Some id) s (upd_signal id (set_sg_raised false) s).
Proof.
  split; try done; cbn -[fmap].
  - rewrite <- list_fmap_compose. apply list_fmap_ext. intros i b _. cbn. by case_decide.
  - intros b Hb _ Hid. apply list_elem_of_fmap. exists b. split; [|done]. rewrite decide_False; congruence.
Qed.

Lemma clear_signal_ok id s : daemon_ok s -> daemon_ok (upd_signal id (set_sg_raised false) s).
Proof.
  intros D. pose proof (signals_ok (fun b => if decide (sg_id b = id) then set_sg_raised false b else b)
    (signal_pipe s) s) as H. replace (set_signal_pipe _ _) with (upd_signal id (set_sg_raised false) s) in H by by destruct s.
  apply H; [intros b; by case_decide| |done].
  intros [b [Hb [Hr Hfn]]]%Exists_exists. cbn in Hb. apply list_elem_of_fmap in Hb as (b0 & -> & Hb).
  case_decide; [done|]. apply (pw_vt _ (proj2 D)), Exists_exists. eauto.
Qed.

Lemma late_signals_ok l s w :
  daemon_ok s -> Forall (may_arrive s) l ->
  wp (for_each signal_handler l) (fun _ s' w' => daemon_ok s' /\ turned None s s') s w.
Proof.
  revert s w. induction l as [|sig l IH]; intros s w D Ha; cbn [for_each]; wp_steps; [by split; [|split]|].
  apply Forall_cons in Ha as [Hs Ha].
  eapply wp_mono; [by apply signal_handler_ok|]. intros _ s1 w1 [D1 [n ->]].
  eapply wp_mono; [apply IH; [done|exact Ha]|].
  intros _ s2 w2 [D2 T2]. split; [done|]. eapply turned_trans; [apply turned_raise|done].
Qed.

(** A source of a signal that stops the daemon is marked. *)
Definition stopping (b : event_source_signal) : Prop :=
  sg_raised b = true /\ sg_killed b = false /\ sg_func b = server_handle_kill_fn.

Lemma find_signal_listed id s :
  id ∈ sg_id <$> signals s -> exists b, find_signal id s = Some b /\ b ∈ signals s /\ sg_id b = id.
Proof.
  intros (x & -> & Hx)%list_elem_of_fmap. unfold find_signal.
  destruct (list_find_elem_of (fun y => sg_id y = sg_id x) (signals s) x Hx eq_refl) as [[i y] Hy].
  rewrite Hy. exists y. apply list_find_Some in Hy as (Hy & E & _). split_and!; [done| |done].
  by eapply list_elem_of_lookup_2.
Qed.

Lemma dispatch_signal_ok late id s w :
  daemon_ok s -> id ∈ sg_id <$> signals s -> (forall sig, Forall (may_arrive s) (late sig)) ->
  wp (dispatch_signal late id) (fun _ s' w' => daemon_ok s' /\ turned (Some id) s s' /\
    (forall b, b ∈ signals s -> sg_id b = id -> stopping b -> running s' = false) /\
    (forall b, b ∈ signals s' -> sg_id b = id -> sg_raised b = true -> sg_killed b = true)) s w.
Proof.
  intros D Hid Hl. destruct (find_signal_listed _ _ Hid) as (b & Hf & Hb & <-).
  assert (Hb' : forall b', b' ∈ signals s -> sg_id b' = sg_id b -> b' = b).
  { intros b' Hb' E. eapply (NoDup_fmap_inj sg_id); [apply D|done..]. }
  unfold dispatch_signal. wp_steps. apply (wp_deref _ b); [done|]. wp_case; wp_steps.
  { split_and!; [done|by split| |].
    - intros b' H1 H2 (Hr & Hk & _). rewrite (Hb' _ H1 H2) in Hr, Hk. by rewrite Hr, Hk in E.
    - intros b' H1 H2 Hr. rewrite (Hb' _ H1 H2) in *. by rewrite Hr in E. }
  apply orb_false_iff in E as [Er%negb_false_iff Ek].
  eapply wp_mono; [apply call_signal_func_ok; [apply D|]|].
  { intros Hfn. apply (pw_vt _ (proj2 D)), Exists_exists. eauto. }
  intros _ s1 w1 [[W1 Hstop] E1]. pose proof (daemon_ok_evolves _ _ D W1 E1) as D1.
  pose proof (turned_evolves _ _ (proj2 D) E1) as T1. wp_steps.
  eapply wp_mono; [apply late_signals_ok; [done|]|].
  { eapply Forall_impl; [apply Hl|]. intros sig Ha Hv. apply T1. by apply Ha. }
  intros _ s2 w2 [D2 T2]. wp_steps. pose proof (turned_clear (sg_id b) s2) as T3. split_and!.
  - by apply clear_signal_ok.
  - eapply turned_trans; [apply turned_weaken, T1|]. eapply turned_trans; [apply turned_weaken, T2|done].
  - intros b' H1 H2 (_ & _ & Hfn). rewrite (Hb' _ H1 H2) in Hfn. specialize (Hstop Hfn).
    change (running s2 = false). destruct (running s2) eqn:E2; [|done]. apply (tn_running _ _ _ T2) in E2. congruence.
  - intros b' Hin Eid. unfold upd_signal in Hin. cbn in Hin. apply list_elem_of_fmap in Hin as (b0 & -> & _).
    case_decide as Hd; [done|]. by destruct Hd.
Qed.

(** The whole loop: a stopping signal stops the daemon. *)
Lemma dispatch_signals_ok late l s w :
  daemon_ok s -> l ⊆ (sg_id <$> signals s) -> (forall sig, Forall (may_arrive s) (late sig)) ->
  wp (for_each (dispatch_signal late) l) (fun _ s' w' => daemon_ok s' /\ (running s' = true -> running s = true) /\
    (forall b, b ∈ signals s -> sg_id b ∈ l -> stopping b -> running s' = false)) s w.
Proof.
  revert s w. induction l as [|id l IH]; intros s w D Hsub Ha; cbn [for_each]; wp_steps.
  { split_and!; [done|done|]. intros b _ Hin. by apply not_elem_of_nil in Hin. }
  eapply wp_mono; [apply dispatch_signal_ok; [done|set_solver|done]|]. intros _ s1 w1 (D1 & T1 & H1 & _).
  eapply wp_mono; [apply IH; [done|rewrite (tn_ids _ _ _ T1); set_solver|]|].
  { intros sig. eapply Forall_impl; [apply Ha|]. intros sig' Hs Hv. apply T1. by apply Hs. }
  intros _ s2 w2 (D2 & R2 & H2). split_and!; [done|intros; by apply T1, R2|].
  intros b Hb Hin Hst. destruct (decide (sg_id b = id)) as [E|Hne].
  - specialize (H1 _ Hb E Hst). destruct (running s2) eqn:E2; [|done]. rewrite R2 in H1; done.
  - apply (H2 b); [|set_solver|done]. apply T1; [done|apply Hst|congruence].
Qed.

End Signals.

(** ** One turn of the poller *)

Lemma regenerated_array s s' : regenerated s s' -> poll_array s' = poll_array s.
Proof.
  intros [rest ->]. unfold poll_array. cbn.
  by rewrite (live_id (indexed _ _)), indexed_entries by apply indexed_killed, live_all.
Qed.

Lemma first_revents arr n vals :
  pf_revents <$> take (S n) arr = resize (S n) 0 vals ->
  exists p0, arr !! 0%nat = Some p0 /\ pf_revents p0 = nth 0 vals 0.
Proof. destruct arr as [|p arr], vals as [|v vals]; cbn; try done; intros [= E _]; eauto. Qed.

Section Turn.
Context `{K : Kernel} `{Kok : !KernelOk}.
Implicit Types (s : server) (w : sys).

Lemma drain_signal_pipe_ok fuel Q s w :
  (signal_pipe s <= fuel)%nat -> (forall w', sys_le w w' -> Q () (set_signal_pipe 0 s) w') ->
  wp (drain_signal_pipe fuel) Q s w.
Proof.
  revert s. induction fuel as [|fuel IH]; intros s Hn HQ; cbn [drain_signal_pipe]; wp_steps;
    destruct (Nat.eqb_spec (signal_pipe s) 0) as [E|E].
  1, 3: wp_steps; replace s with (set_signal_pipe 0 s) by (rewrite <- E; by destruct s); apply HQ; auto with wp.
  - lia.
  - wp_steps. apply IH; [cbn; lia|exact HQ].
Qed.

(** A marked source of a stopping signal is served. *)
Definition told_to_stop (s : server) : Prop := Exists stopping (signals s).

Lemma dispatch_ok late p0 s w :
  daemon_ok s -> (forall sig, Forall (may_arrive s) (late sig)) -> pollfds s !! 0%nat = Some p0 ->
  wp (dispatch late) (fun _ s' w' => (daemon_ok s' /\ (running s' = true -> running s = true) /\
    (has_event (pf_revents p0) POLLIN = true -> told_to_stop s -> running s' = false)) /\ sys_le w w') s w.
Proof.
  intros D Ha H0. apply wp_extends; [apply extends_dispatch|].
  unfold dispatch, load_pollfd. wp_steps. apply (wp_deref _ p0); [done|]. wp_step.
  apply (wp_mono _ (fun _ s' w' => daemon_ok s' /\ (running s' = true -> running s = true) /\
    (has_event (pf_revents p0) POLLIN = true -> told_to_stop s -> running s' = false))).
  - wp_case; wp_steps; [|done]. apply drain_signal_pipe_ok; [done|]. intros w1 _.
    set (s1 := set_signal_pipe 0 s). wp_steps.
    assert (D1 : daemon_ok s1).
    { destruct D as [W P]. split; [by apply (wf_same _ _ _ s)|]. by apply (poller_wf_same s); [|apply P|]. }
    eapply wp_mono; [by apply (dispatch_signals_ok late _ s1)|]. intros _ s2 w2 (D2 & R2 & Hst).
    split_and!; [done|done|]. intros _ [b [Hb Hs]]%Exists_exists. apply (Hst b); [done| |done].
    by apply list_elem_of_fmap_2.
  - intros _ s1 w1 (D1 & R1 & Hst). wp_steps.
    eapply wp_mono; [by apply dispatch_fds_ok|]. intros _ s2 w2 [D2 E2]. split_and!; [done| |].
    + intros Hr. by apply R1, E2.
    + intros Hp Hs. specialize (Hst Hp Hs). destruct (running s2) eqn:Er; [|done].
      apply (ev_running _ _ E2) in Er. congruence.
Qed.

Lemma poller_poll_ok late s w :
  daemon_ok s -> (forall sig, Forall (may_arrive s) (late sig)) ->
  wp (poller_poll late) (fun r s' w' => daemon_ok s' /\ (running s' = true -> running s = true) /\
    (r = -1 /\ refused w w' \/
     r = 0 /\ exists rep w0 w1, sys_le w w0 /\ polled s rep w0 w1 /\ sys_le w1 w' /\ r_ret rep ≠ -1 /\
       (has_event (r_val 0 rep) POLLIN = true -> told_to_stop s -> running s' = false))) s w.
Proof.
  intros D Ha. unfold poller_poll. do 3 wp_step.
  apply (wp_mono _ (fun ok s' w' => ok = false /\ s' = s /\ refused w w' \/
    ok = true /\ daemon_ok s' /\ current s' /\ running s' = running s /\ sys_le w w' /\
    poll_array s' = poll_array s /\ (told_to_stop s -> told_to_stop s') /\ (vt_known s -> vt_known s'))).
  { destruct D as [W P]. wp_case; wp_steps.
    - eapply wp_mono; [apply regenerate_ok; apply W|].
      intros r s1 w1 [(-> & -> & Hr)|(-> & Hq & R)]; cbn [Z.eqb]; wp_steps; [by left|]. right.
      pose proof (wf_dirty _ _ _ _ false (wf_regenerated _ _ W R)) as W1.
      pose proof (poller_wf_regenerated _ _ P R) as P1. pose proof (regenerated_current _ _ R) as C1.
      pose proof (regenerated_array _ _ R) as A1.
      split_and!; [done|by split|done| |by apply quiet_le|done| |]; destruct R as [rest ->]; try done.
      intros [b [Hb Hs]]%Exists_exists. apply Exists_exists. exists b. split; [|done].
      apply list_elem_of_filter. split; [apply Hs|done].
    - right. split_and!; try done. by apply P. }
  intros ok s1 w1 [(-> & -> & Hr)|(-> & D1 & C1 & R1 & L1 & A1 & S1 & V1)]; cbn [negb].
  { wp_steps. split_and!; [done|done|by left]. }
  wp_step. eapply wp_mono; [apply poll_fds_ok; [apply D1|done]|].
  intros r s2 w2 (Hq & rep & Hp & -> & [(Hr & -> & Href)|(Hr & arr & -> & Easked & Erev)]).
  { rewrite Hr. cbn [Z.eqb]. wp_steps. split_and!; [done|by rewrite R1|]. left. split; [done|by eapply refused_l]. }
  rewrite (proj2 (Z.eqb_neq _ _)) by done. wp_step.
  set (s2 := set_pollfds arr s1).
  assert (D2 : daemon_ok s2).
  { split; [by apply (wf_same _ _ _ s1); try done; apply D1|]. by apply poller_wf_asked; [apply D1|]. }
  destruct (first_revents _ _ _ Erev) as (p0 & E0 & Ev).
  eapply wp_mono; [apply (dispatch_ok late p0 s2 w2 D2); [|done]|].
  { intros sig. eapply Forall_impl; [apply Ha|]. intros sig' Hs Hv. apply V1, Hs, Hv. }
  intros _ s3 w3 [(D3 & R3 & Hst) L3]. wp_steps. split_and!; [done|by rewrite <- R1|]. right.
  split; [done|]. exists rep, w1, w2. split_and!; [done| |done|done|].
  - unfold polled in *. by rewrite <- A1.
  - intros Hpoll Hstop. apply Hst; [|by apply S1]. by rewrite Ev.
Qed.

End Turn.
