(* ===== verification/StartOk.v ===== *)
(** * Starting and stopping the server

    [server_finish] frees every object of a well-formed state; [server_init]
    builds one, or frees what it had built. *)
From S2P Require Import Prelude Kernel Connection Protocol Devices Terminal State Poller Send Seat Client.
From S2P Require Import Control Server Daemon Frames Invariant Lifecycle Rules SendOk SeatOk SeatSwitch.
From S2P Require Import SeatVt SeatDevices SeatMembers SeatRemove ClientOk ControlOk PollerOk ServerOk.

(** ** Stopping *)

(** Destroying clients does not concern the control clients, and makes nobody idle. *)
Definition shrinks (s s' : server) : Prop :=
  sv_controls s' = sv_controls s /\ control_clients s' = control_clients s /\
  idle_clients s' ⊆ idle_clients s.

#[export] Instance shrinks_preorder : PreOrder shrinks.
Proof.
  split; [by intros s|]. intros s1 s2 s3 (? & ? & ?) (? & ? & ?). split_and!; [congruence..|]. by etrans.
Qed.

#[export] Instance shrinks_leaves `{K : Kernel} : Leaves shrinks.
Proof.
  split; [apply _|done|done| |done|done|].
  - intros c s. split_and!; [done|done|]. intros c0. cbn. rewrite elem_of_list_remove_id. tauto.
  - intros e s w a s' w'. unfold event_source_fd_destroy, deref, mbind, M_bind, mret, M_ret. cbn.
    destruct (find_source e s); [|done]. by intros [= <- <- <-].
Qed.

Lemma subset_nil (l : list nat) : l ⊆ [] -> l = [].
Proof. destruct l as [|c l]; [done|]. intros H. by destruct (not_elem_of_nil c (H c ltac:(left))). Qed.

Section Finish.
Context `{K : Kernel} `{Kok : !KernelOk}.
Abbreviation wf := (server_wf nobody nobody nobody).
Implicit Types (s : server) (w : sys).

(** One turn of the loop over the control clients. *)
Lemma finish_control_wf c k s conn :
  wf s -> sv_controls s !! c = Some k ->
  let s1 := set_control_clients (list_remove_id c (control_clients s)) s in
  let s2 := match cc_event_source k with
            | Some e => upd_source e (set_es_killed true)
                          (set_poll_dirty true (set_fd_event_sources (fd_event_sources s1 - 1) s1))
            | None => s1
            end in
  let s3 := put_control c (set_cc_connection conn k) s2 in
  wf (set_sv_controls (delete c (sv_controls s3)) s3).
Proof.
  intros W Hk. cbn zeta.
  apply (wf_exempt _ nobody _ (eq c) _ nobody) in W; [|done..].
  apply (wf_control_unlink _ _ _ _ c) in W; [|done]. set (s1 := set_control_clients _ s) in *.
  destruct (cc_event_source k) as [e|] eqn:He.
  - pose proof (wf_control_kill _ _ s1 c k e W eq_refl Hk He) as W2.
    set (s2 := upd_source e _ _) in *.
    apply (wf_control_free nobody) with (k := set_cc_event_source None k) in W2; [|look|done|].
    + revert W2. cbn -[lookup delete]. by rewrite !delete_insert_eq.
    + cbn. rewrite elem_of_list_remove_id. tauto.
  - apply (wf_control_free nobody) with (k := k) in W; [|done|done|].
    + revert W. cbn -[lookup delete]. by rewrite !delete_insert_eq.
    + cbn. rewrite elem_of_list_remove_id. tauto.
Qed.

Lemma finish_controls_ok fuel s w :
  wf s -> (length (control_clients s) <= fuel)%nat ->
  wp (finish_controls fuel) (fun _ s' w' => wf s' /\ control_clients s' = []) s w.
Proof.
  revert s w. induction fuel as [|fuel IH]; intros s w W Hlen; cbn [finish_controls]; wp_steps;
    destruct (control_clients s) as [|c l] eqn:Ec; wp_steps; try done.
  { cbn in Hlen. lia. }
  destruct (vw_control_list _ _ _ _ W c) as [k Hk]; [rewrite Ec; left|].
  pose proof (vw_controls _ _ _ _ W _ _ Hk) as Wk.
  pose proof (fun conn => finish_control_wf c k s conn W Hk) as Wfin. cbn zeta in Wfin.
  set (s1 := set_control_clients _ s) in *.
  eapply wp_get_control; [exact Hk|]. wp_steps.
  set (s2 := match cc_event_source k with Some e => _ | None => s1 end) in Wfin.
  assert (Hs2 : sv_controls s2 = sv_controls s /\ control_clients s2 = list_remove_id c (c :: l))
    by (rewrite <- Ec; unfold s2; by destruct (cc_event_source k)).
  destruct Hs2 as [Ek2 Ec2].
  apply (wp_mono _ (fun _ s' w' => s' = s2 /\ w' = w)).
  { unfold s2. destruct (cc_event_source k) as [e|] eqn:He; wp_steps; [|done].
    apply wp_source_destroy; [|by wp_steps]. by eapply (wf_control_source _ _ _ s). }
  intros _ ? ? [-> ->]. wp_steps. eapply wp_on_control_conn; [by rewrite Ek2|].
  eapply wp_mono; [apply connection_close_fds_ok, Wk|]. intros _ conn w1 _. wp_steps.
  eapply wp_get_control; [look|]. wp_steps. unfold close. wp_steps. apply wp_ext. intros r _. wp_steps.
  eapply wp_mono; [apply IH; [apply Wfin|]|done].
  cbn. rewrite Ec2. unfold list_remove_id. rewrite filter_cons, decide_False by tauto.
  etrans; [apply length_filter|]. cbn in Hlen. lia.
Qed.

Lemma finish_idle_ok fuel s w :
  wf s -> (length (idle_clients s) <= fuel)%nat ->
  wp (finish_idle fuel) (fun _ s' w' => wf s' /\ idle_clients s' = [] /\
    control_clients s' = control_clients s) s w.
Proof.
  revert s w. induction fuel as [|fuel IH]; intros s w W Hlen; cbn [finish_idle]; wp_steps;
    destruct (idle_clients s) as [|c l] eqn:Ec; wp_steps; try done.
  { cbn in Hlen. lia. }
  destruct (vw_idle _ _ _ _ W c) as (k & Hk & _); [rewrite Ec; left|].
  eapply wp_mono; [apply wp_respects; [apply (leaves_client_destroy shrinks)|by eapply client_destroy_wf]|].
  intros _ s1 w1 [(W1 & _ & Ei & _) (_ & Ecc & _)].
  eapply wp_mono; [apply IH; [done|]|].
  - rewrite Ei, Ec. unfold list_remove_id. rewrite filter_cons, decide_False by tauto.
    etrans; [apply length_filter|]. cbn in Hlen. lia.
  - intros _ s2 w2 (W2 & Ei2 & Ecc2). split_and!; [done|done|congruence].
Qed.

Lemma shrinks_seat_destroy p : respects shrinks (seat_destroy p).
Proof.
  unfold seat_destroy. apply respects_bind; [apply _|respects_auto|intros t].
  apply respects_bind; [apply _|apply (leaves_destroy_clients shrinks)|intros _].
  apply respects_bind; [apply _|apply respects_upd_seat; [apply _|done]|intros _].
  by apply respects_modify.
Qed.

Lemma finish_seats_ok fuel s w :
  wf s -> (length (seats s) <= fuel)%nat ->
  wp (finish_seats fuel) (fun _ s' w' => wf s' /\ seats s' = [] /\ shrinks s s') s w.
Proof.
  revert s w. induction fuel as [|fuel IH]; intros s w W Hlen; cbn [finish_seats]; wp_steps;
    destruct (seats s) as [|p l] eqn:Ec; wp_steps; try done.
  { cbn in Hlen. lia. }
  destruct (vw_seat_list _ _ _ _ W p) as [t Ht]; [rewrite Ec; left|].
  eapply wp_mono; [apply wp_respects; [apply shrinks_seat_destroy|by eapply seat_destroy_ok]|].
  intros _ s1 w1 [(W1 & El & _) Hsh].
  eapply wp_mono; [apply IH; [done|]|].
  - rewrite El, Ec. unfold list_remove_id. rewrite filter_cons, decide_False by tauto.
    etrans; [apply length_filter|]. cbn in Hlen. lia.
  - intros _ s2 w2 (W2 & El2 & Hsh2). split_and!; [done|done|by etrans].
Qed.

(** Nothing is left: every object is freed, and the global pointer is clear. *)
Record released (s : server) : Prop := {
  rl_clients : sv_clients s = ∅;
  rl_seats : sv_seats s = ∅;
  rl_controls : sv_controls s = ∅;
  rl_sources : sv_sources s = [];
  rl_signals : signals s = [];
  rl_pollfds : pollfds s = [];
  rl_global : global_poller s = false;
  rl_thread : vt_event_thread_live s = false /\ vt_event_thread_started s = false
}.

(** With empty lists a well-formed state has no objects. *)
Lemma wf_nothing s :
  wf s -> seats s = [] -> idle_clients s = [] -> control_clients s = [] ->
  sv_clients s = ∅ /\ sv_seats s = ∅ /\ sv_controls s = ∅.
Proof.
  intros W Es Ei Ec.
  assert (Hseats : sv_seats s = ∅).
  { apply map_empty. intros p. destruct (sv_seats s !! p) as [t|] eqn:Ht; [|done].
    assert (p ∈ seats s) as Hp by (eapply vw_seated; eauto). rewrite Es in Hp. by apply not_elem_of_nil in Hp. }
  split_and!; [|done|].
  - apply map_empty. intros c. destruct (sv_clients s !! c) as [k|] eqn:Hk; [|done].
    destruct (vw_clients _ _ _ _ W _ _ Hk) as [_ _ _ _ Hs]. destruct (c_seat k) as [p|] eqn:Hp.
    + destruct Hs as (_ & t & Ht & _). rewrite Hseats in Ht. by rewrite lookup_empty in Ht.
    + destruct (vw_unseated _ _ _ _ W _ _ Hk Hp) as [Hi|[]]. rewrite Ei in Hi. by apply not_elem_of_nil in Hi.
  - apply map_empty. intros c. destruct (sv_controls s !! c) as [k|] eqn:Hk; [|done].
    destruct (vw_controlled _ _ _ _ W c) as [Hi|[]]; [eauto|]. rewrite Ec in Hi. by apply not_elem_of_nil in Hi.
Qed.

Lemma finish_fds_ok fuel Q s w :
  (length (sv_sources s) <= fuel)%nat -> Q () (set_sv_sources [] s) w -> wp (finish_fds fuel) Q s w.
Proof.
  revert s. induction fuel as [|fuel IH]; intros s Hlen HQ; cbn [finish_fds]; wp_steps;
    destruct (sv_sources s) as [|x l] eqn:Ex; wp_steps.
  - by rewrite <- Ex in HQ; destruct s.
  - cbn in Hlen. lia.
  - by rewrite <- Ex in HQ; destruct s.
  - apply IH; [cbn in *; lia|exact HQ].
Qed.

Lemma finish_signals_ok fuel Q s w :
  (length (signals s) <= fuel)%nat -> (forall w', Q () (set_signals [] s) w') -> wp (finish_signals fuel) Q s w.
Proof.
  revert s w. induction fuel as [|fuel IH]; intros s w Hlen HQ; cbn [finish_signals]; wp_steps;
    destruct (signals s) as [|x l] eqn:Ex; wp_steps.
  - specialize (HQ w). by rewrite <- Ex in HQ; destruct s.
  - cbn in Hlen. lia.
  - specialize (HQ w). by rewrite <- Ex in HQ; destruct s.
  - apply wp_ext. intros r _. wp_steps. apply IH; [cbn in *; lia|exact HQ].
Qed.

Lemma poller_finish_ok Q s w :
  (forall w', Q 0 (set_global_poller false (set_pollfds [] (set_signals [] (set_sv_sources [] s)))) w') ->
  wp poller_finish Q s w.
Proof.
  intros HQ. unfold poller_finish. wp_steps. apply finish_fds_ok; [done|]. wp_steps.
  apply finish_signals_ok; [done|]. intros w'. wp_steps. apply HQ.
Qed.

(** ** The shutdown as a whole *)

Lemma serves_finish_controls fuel : serves (finish_controls fuel).
Proof. induction fuel as [|fuel IH]; cbn [finish_controls]; respects_auto. Qed.

Lemma serves_finish_idle fuel : serves (finish_idle fuel).
Proof. induction fuel as [|fuel IH]; cbn [finish_idle]; respects_auto. Qed.

Lemma serves_seat_destroy p : serves (seat_destroy p).
Proof.
  unfold seat_destroy. apply respects_bind; [apply _|respects_auto|intros t].
  apply respects_bind; [apply _|apply (leaves_destroy_clients evolves)|intros _]. respects_auto.
  apply evolves_own; try done. cbn. intros q t1 [_ H1]%lookup_delete_Some. eauto.
Qed.

#[local] Hint Resolve serves_seat_destroy : respects.

Lemma serves_finish_seats fuel : serves (finish_seats fuel).
Proof. induction fuel as [|fuel IH]; cbn [finish_seats]; respects_auto. Qed.

Lemma wp_close_field get clear Q s w :
  (forall s' w', s' = s /\ get s = -1 \/ s' = clear s -> Q () s' w') -> wp (close_field get clear) Q s w.
Proof.
  intros HQ. unfold close_field, close. wp_steps. wp_case; wp_steps; [apply HQ; left; split; [done|lia]|].
  apply wp_ext. intros r _. wp_steps. apply HQ. by right.
Qed.

(** The watcher is gone and its descriptors are closed. *)
Definition watcher_gone (s : server) : Prop :=
  vt_event_running s = false /\ vt_event_thread_started s = false /\ vt_event_thread_live s = false /\
  vt_event_fd s = -1 /\ vt_event_pipe s = (-1, -1).

Lemma watcher_gone_same s s' : poller_private s' = poller_private s -> watcher_gone s -> watcher_gone s'.
Proof. unfold watcher_gone, poller_private. intros [= _ _ _ _ _ -> -> -> -> ->]. done. Qed.

Lemma finish_watcher_ok s w :
  wf s -> (vt_event_thread_live s = true -> vt_event_thread_started s = true) ->
  wp finish_watcher (fun _ s' w' => wf s' /\ watcher_gone s') s w.
Proof.
  intros W Ht. unfold finish_watcher. wp_steps.
  apply (wp_mono _ (fun _ s' w' => wf s' /\ vt_event_running s' = false /\
    vt_event_thread_started s' = false /\ vt_event_thread_live s' = false)).
  { wp_case; wp_steps.
    - apply wp_ext. intros r1 _. wp_steps. apply wp_ext. intros r2 _. wp_steps.
      split_and!; [by apply (wf_same _ _ _ s)|done..].
    - split_and!; [by apply (wf_same _ _ _ s)|done|done|].
      cbn. destruct (vt_event_thread_live s); [|done]. specialize (Ht eq_refl). cbn in *. congruence. }
  intros _ s1 w1 (W1 & E1 & E2 & E3). wp_steps.
  apply wp_close_field. intros s2 w2 H2. wp_steps.
  apply wp_close_field. intros s3 w3 H3. wp_steps.
  apply wp_close_field. intros s4 w4 H4. split.
  - destruct H2 as [[-> ?]| ->], H3 as [[-> ?]| ->], H4 as [[-> ?]| ->]; by apply (wf_same _ _ _ s1).
  - unfold watcher_gone. destruct (vt_event_pipe s1) as [a b] eqn:Ep.
    destruct H2 as [[-> ?]| ->], H3 as [[-> ?]| ->], H4 as [[-> ?]| ->]; cbn in *; rewrite ?Ep in *;
      cbn in *; subst; by split_and!.
Qed.

Lemma server_finish_ok s w :
  wf s -> (vt_event_thread_live s = true -> vt_event_thread_started s = true) ->
  wp server_finish (fun _ s' w' => released s' /\ watcher_gone s') s w.
Proof.
  intros W Ht. unfold server_finish. wp_step.
  eapply wp_mono; [by apply finish_watcher_ok|]. intros _ s0 w0 [W0 G0].
  wp_steps. eapply wp_mono; [apply wp_respects; [apply serves_finish_controls|by apply finish_controls_ok]|].
  intros _ s1 w1 [[W1 C1] [P1 _ _ _ _ _]]. wp_steps.
  eapply wp_mono; [apply wp_respects; [apply serves_finish_idle|by apply finish_idle_ok]|].
  intros _ s2 w2 [(W2 & I2 & C2) [P2 _ _ _ _ _]]. wp_steps.
  eapply wp_mono; [apply wp_respects; [apply serves_finish_seats|by apply finish_seats_ok]|].
  intros _ s3 w3 [(W3 & S3 & _ & C3 & I3) [P3 _ _ _ _ _]]. rewrite I2 in I3. apply subset_nil in I3.
  wp_steps. apply poller_finish_ok. intros w4. wp_steps.
  assert (G3 : watcher_gone s3) by (eapply watcher_gone_same; [|exact G0]; congruence).
  destruct (wf_nothing s3 W3) as (Ec & Es & Ek); [done|done|congruence|].
  split; [|done]. by split; try done; destruct G3 as (_ & ? & ? & _).
Qed.

End Finish.

(** ** Starting *)

Section Start.
Context `{K : Kernel} `{Kok : !KernelOk}.
Abbreviation wf := (server_wf nobody nobody nobody).
Implicit Types (s : server) (w : sys).

(** The server before it has a seat. *)
Definition bare_server (fds : Z * Z) : server :=
  Server false [] 1 true [] fds 0 [] true ∅ [] ∅ [] ∅ [] false false false (-1) (-1, -1) [].

Lemma bare_wf fds : wf (bare_server fds).
Proof.
  split; try done; cbn; try constructor; try (by intros c Hc; apply not_elem_of_nil in Hc).
  - by destruct H.
  - by intros p [? ?].
Qed.

(** The calls the start depends on, and a kernel that may fail one of them. *)
Definition startup_call (c : call) : bool :=
  match c with
  | Calloc | Strdup _ | Pipe | Fcntl _ _ | Socket | Bind _ _ | Listen _ | Chmod _ _ | Chown _ _ _ | Unlink _ => true
  | _ => false
  end.

Definition denies : Prop := exists h c, startup_call c = true /\ r_ret (answer h c) = -1.

Lemma denied h c r : r = answer h c -> (r_ret r =? -1) = true -> startup_call c = true -> denies.
Proof. intros -> Hr Hc. exists h, c. split; [done|lia]. Qed.
#[local] Hint Resolve denied : core.

Lemma poller_set_nonblock_ok f Q s w :
  (forall w', denies -> Q (-1) s w') -> (forall w', Q 0 s w') -> wp (poller_set_nonblock f) Q s w.
Proof.
  intros HF HQ. unfold poller_set_nonblock. wp_steps. apply wp_ext. intros r Hr. wp_case; wp_steps; [eauto|].
  apply wp_ext. intros r2 Hr2. wp_case; wp_steps; eauto.
Qed.

Lemma poller_init_ok Q s w :
  global_poller s = false ->
  (forall w', denies -> Q (-1) s w') ->
  (forall fds w', denies -> Q (-1) (set_signal_pipe 0 (set_signal_fds fds s)) w') ->
  (forall fds w', Q 0 (set_global_poller true (set_fd_event_sources 1 (set_poll_dirty true (set_pollfds []
     (set_signals [] (set_sv_sources [] (set_signal_pipe 0 (set_signal_fds fds s)))))))) w') ->
  wp poller_init Q s w.
Proof.
  intros Hg HF1 HF2 HQ. unfold poller_init. wp_steps. apply wp_assert; [by rewrite Hg|]. wp_steps.
  apply wp_ext. intros r Hr. wp_case; wp_steps; [eauto|].
  apply poller_set_nonblock_ok; [intros w1 Hd; by wp_steps; apply HF2|]. intros w1. wp_steps.
  apply poller_set_nonblock_ok; [intros w2 Hd; by wp_steps; apply HF2|]. intros w2. wp_steps. apply HQ.
Qed.

(** A signal source is added to the list, not raised. *)
Lemma poller_add_signal_ok sig fn Q s w :
  (forall w', denies -> Q None s w') ->
  (forall w', let id := fresh (sg_id <$> signals s) in
     Q (Some id) (set_signals (EventSourceSignal id fn sig false false :: signals s) s) w') ->
  wp (poller_add_signal sig fn) Q s w.
Proof.
  intros HF HQ. unfold poller_add_signal. wp_steps. apply wp_ext. intros r Hr. wp_case; wp_steps; [eauto|].
  apply wp_ext. intros r2 _. wp_steps. apply HQ.
Qed.

(** No signal source is raised. *)
Definition unsignalled (s : server) : Prop := Forall (fun bps => sg_raised bps = false) (signals s).

(** The signal sources while they are being added. *)
Record fresh_signals (s : server) : Prop := {
  fs_ids : NoDup (sg_id <$> signals s);
  fs_live : Forall (fun bps => sg_killed bps = false) (signals s);
  fs_unsignalled : unsignalled s
}.

Lemma add_signals_ok l s w :
  fresh_signals s ->
  wp (add_signals l) (fun ok s' w' => exists sigs, s' = set_signals sigs s /\
    (ok = false /\ denies \/
     ok = true /\ fresh_signals s' /\ handled <$> sigs = reverse l ++ (handled <$> signals s))) s w.
Proof.
  assert (Hid : forall s0, s0 = set_signals (signals s0) s0) by by intros [].
  revert s w. induction l as [|[sig fn] l IH]; intros s w F; cbn [add_signals]; wp_steps.
  - exists (signals s). split; [done|]. right. by split_and!.
  - apply poller_add_signal_ok; intros w1; [intros Hd|cbn zeta]; wp_steps.
    + exists (signals s). split; [done|]. by left.
    + set (x := EventSourceSignal _ fn sig false false). destruct F as [F1 F2 F3].
      eapply wp_mono; [apply IH|].
      * split; cbn -[fmap]; [rewrite fmap_cons; constructor; [apply infinite_is_fresh|done]|by constructor..].
      * intros ok s' w' (sigs & -> & Hok). exists sigs. split; [done|].
        destruct Hok as [?|(-> & F' & Ht)]; [by left|right]. split_and!; [done|exact F'|].
        rewrite Ht, reverse_cons, <- app_assoc. done.
Qed.

Lemma bare_poller sigs fds :
  fresh_signals (set_signals sigs (bare_server fds)) -> handled <$> sigs = reverse server_signals ->
  poller_wf (set_signals sigs (bare_server fds)).
Proof.
  intros [F1 F2 F3] Ht. by split.
Qed.

(** The seat of a new server. *)
Definition new_seat (bound : bool) : seat := Seat (str "seat0") [] None None bound (-1) 0 [].

Definition with_seat (p : nat) (bound : bool) (s : server) : server :=
  set_seats (p :: seats s) (put_seat p (new_seat bound) s).

Lemma wf_with_seat bound p s : wf s -> sv_seats s !! p = None -> wf (with_seat p bound s).
Proof.
  intros [Wc Ws Wct Wsl Win Wi Wcn Wcl Wsi Wso Wun Wca Wsa Wnc] Hp. split; try done; cbn -[lookup insert].
  - intros c k Hk. destruct (Wc _ _ Hk) as [? ? ? ? Hs]. split; try done. destruct (c_seat k) as [q|]; [|done].
    destruct Hs as (? & t & Ht & ?). split; [done|]. exists t. split; [|done].
    cbn -[lookup insert]. rewrite lookup_insert_ne; [done|congruence].
  - intros q t [[<- <-]|[_ Ht]]%lookup_insert_Some; [|by apply (seat_wf_clients _ s); auto].
    split; cbn; try done; try (by left); try constructor; by intros c ?%not_elem_of_nil.
  - intros. by eapply control_wf_sources with (s := s); auto.
  - intros q [->|Hq]%elem_of_cons; rewrite lookup_insert_is_Some'; auto.
  - intros q [<-|Hq]%lookup_insert_is_Some'; [left|right; auto].
Qed.

Lemma poller_with_seat bound p s : poller_wf s -> unsignalled s -> poller_wf (with_seat p bound s).
Proof.
  intros [G P C I L F Q V T] U. split; try done. intros [bps [Hin [Hr _]]]%Exists_exists. exfalso.
  unfold unsignalled in U. rewrite Forall_forall in U. specialize (U _ Hin). congruence.
Qed.

Lemma seat_create_ok bound Q s w :
  (forall w', denies -> Q None s w') ->
  (forall w', let p := fresh (dom (sv_seats s)) in Q (Some p) (put_seat p (new_seat bound) s) w') ->
  wp (seat_create (str "seat0") bound) Q s w.
Proof.
  intros HF HQ. unfold seat_create. wp_steps. apply wp_ext. intros r Hr. wp_case; wp_steps; [eauto|].
  apply wp_ext. intros r2 Hr2. wp_case; wp_steps; [eauto|]. apply HQ.
Qed.

(** The server is up: its one seat is empty and the poller is in order. *)
Record ready (bound : bool) (s : server) : Prop := {
  rd_wf : wf s;
  rd_poller : poller_wf s;
  rd_unsignalled : unsignalled s;
  rd_seat : exists p, sv_seats s = {[p := new_seat bound]} /\ seats s = [p];
  rd_clients : sv_clients s = ∅ /\ sv_controls s = ∅;
  rd_sources : Forall (fun x => es_func x = server_handle_vt_event_fn) (sv_sources s)
}.

(** The fields of the watcher. *)
Definition watcher_fields (s : server) :=
  (sv_sources s, fd_event_sources s, poller_fields s,
   (sv_clients s, sv_controls s, seats s, idle_clients s, control_clients s)).

Lemma ready_same bound s s' :
  watcher_fields s' = watcher_fields s ->
  (vt_event_thread_live s' = true -> vt_event_thread_started s' = true) -> ready bound s -> ready bound s'.
Proof.
  intros E T [W P U (p & Hp & Hl) [Hc Hk] S]. unfold watcher_fields in E.
  injection E as Es En Eg _ Ed Ep Ef Esig Eq Ese Ec Ek El Ei Ecl.
  split; [| |unfold unsignalled; by rewrite Esig|exists p; split; congruence|split; congruence|by rewrite Es].
  - by apply (wf_same _ _ _ s).
  - apply (poller_wf_same s); [|done|done]. unfold poller_fields. congruence.
Qed.

Lemma create_vt_event_pipe_ok s w :
  wp create_vt_event_pipe (fun r s' w' => exists p, s' = set_vt_event_pipe p s) s w.
Proof.
  assert (Hid : s = set_vt_event_pipe (vt_event_pipe s) s) by by destruct s.
  assert (Hcl : forall f, silent (set_cloexec f)) by (intros; unfold set_cloexec; silent_auto).
  unfold create_vt_event_pipe. wp_steps. apply wp_ext. intros r _. wp_case; wp_steps; [by eexists|].
  wp_case; wp_steps; [eauto|]. apply wp_ext. intros r2 _. wp_case; wp_steps; [eauto|].
  apply wp_silent; [apply Hcl|]. intros c0 w1 _. wp_steps.
  apply (wp_mono _ (fun _ s' w' => s' = set_vt_event_pipe (r_val 0 r2, r_val 1 r2) s)).
  { wp_case; wp_steps; [done|]. apply wp_silent; [apply Hcl|]. by intros. }
  intros c1 ? w2 ->. wp_case; wp_steps; [|eauto].
  unfold close. wp_steps. apply wp_ext. intros r3 _. wp_steps. apply wp_ext. intros r4 _. wp_steps. eauto.
Qed.

(** A source of the server itself is added. *)
Lemma poller_add_fd_full f mask fn data s w :
  wf s -> poller_wf s -> fn ≠ client_handle_connection_fn -> fn ≠ control_client_handle_connection_fn ->
  wp (poller_add_fd f mask fn data) (fun o s' w' => wf s' /\ poller_wf s' /\
    (o = None /\ denies /\ s' = s \/
     exists e n x, o = Some e /\ es_func x = fn /\ es_fd x = f /\
       s' = set_sv_sources (x :: sv_sources s) (set_poll_dirty true (set_fd_event_sources n s)))) s w.
Proof.
  intros W P H1 H2.
  assert (Hadd : wp (poller_add_fd f mask fn data) (fun o s' w' => o = None /\ denies /\ s' = s \/
     exists e n x, o = Some e /\ es_func x = fn /\ es_fd x = f /\
       s' = set_sv_sources (x :: sv_sources s) (set_poll_dirty true (set_fd_event_sources n s))) s w).
  { unfold poller_add_fd. wp_steps. apply wp_ext. intros r Hr.
    wp_case; wp_steps; [left; split_and!; eauto|]. right. eexists _, _, (EventSourceFd _ fn f mask data false (-1)). split_and!; try reflexivity. }
  eapply wp_mono.
  { apply (wp_respects evolves); [apply serves_add_fd|]. apply wp_and; [by apply poller_add_fd_ok|exact Hadd]. }
  intros o s' w' [[W' Ho] E]. split_and!; [done|by eapply poller_wf_evolves|done].
Qed.

Lemma start_vt_event_thread_ok bound s w :
  ready bound s -> vt_event_thread_live s = false ->
  wp start_vt_event_thread (fun _ s' w' => ready bound s') s w.
Proof.
  intros R T. unfold start_vt_event_thread. wp_steps.
  apply wp_silent; [by apply terminal_open_silent|]. intros f w1 _. wp_steps.
  set (s1 := set_vt_event_fd f s). assert (R1 : ready bound s1) by by apply (ready_same _ s); [|cbn; congruence|].
  wp_case; wp_steps; [done|].
  eapply wp_mono; [apply create_vt_event_pipe_ok|]. intros r ? w2 [pp ->]. set (s2 := set_vt_event_pipe pp s1).
  assert (R2 : ready bound s2) by by apply (ready_same _ s1); [|cbn; congruence|].
  wp_case; wp_steps; [done|]. apply wp_silent; [apply set_nonblock_silent|]. intros r3 w3 _.
  wp_case; wp_steps; [done|].
  assert (Hadd : wp (poller_add_fd (fst (vt_event_pipe s2)) EVENT_READABLE server_handle_vt_event_fn 0)
    (fun _ s' w' => ready bound s' /\ vt_event_thread_live s' = false) s2 w3).
  { eapply wp_mono; [apply poller_add_fd_full; [apply R2|apply R2|done|done]|].
    intros o s' w' (W' & P' & [(_ & _ & ->)|(e & n & x & _ & Ef & _ & ->)]); [done|]. split; [|done].
    destruct R2 as [_ _ U2 S2 C2 F2]. split; try done. by constructor. }
  eapply wp_mono; [exact Hadd|]. intros es s3 w4 [R3 T3]. destruct es as [e|]; wp_steps; [|done].
  apply wp_ext. intros r4 _. wp_case; wp_steps; apply (ready_same _ s3); try done. cbn. congruence.
Qed.

Definition vt_bound_of (vtenv : option bytes) : bool :=
  match vtenv with None => true | Some v => strcmp_eq v (str "1") end.

(** [server_init] from the zeroed structure: the server is ready, or everything
    is freed and some call was denied. *)
Lemma server_init_ok vtenv w :
  wp (server_init vtenv) (fun r s' w' =>
    r = 0 /\ ready (vt_bound_of vtenv) s' /\ running s' = true \/
    r = -1 /\ released s' /\ denies) zero_server w.
Proof.
  unfold server_init. wp_step. apply poller_init_ok; [done| | |].
  { intros w1 Hd. wp_steps. right. by split_and!. }
  { intros fds w1 Hd. wp_steps. right. by split_and!. }
  intros fds w1. wp_steps.
  change (set_vt_event_running false _) with (bare_server fds).
  eapply wp_mono; [apply add_signals_ok; split; constructor|].
  intros ok ? w2 (sigs & -> & Hok). set (s1 := set_signals sigs (bare_server fds)) in *.
  assert (W1 : wf s1) by by apply (wf_same _ _ _ (bare_server fds)); try done; apply bare_wf.
  assert (Hfin : forall w', denies -> wp (server_finish;; mret (-1)) (fun r s' w' =>
    r = 0 /\ ready (vt_bound_of vtenv) s' /\ running s' = true \/
    r = -1 /\ released s' /\ denies) s1 w').
  { intros w' Hd. wp_step. eapply wp_mono; [by apply server_finish_ok|]. intros _ s' w3 [? _]. wp_steps.
    right. by split_and!. }
  destruct Hok as [[-> Hd]|(-> & F & Ht)]; cbn [negb]; [by apply Hfin|]. rewrite app_nil_r in Ht.
  pose proof (bare_poller sigs fds F Ht) as P. pose proof (fs_unsignalled _ F) as U.
  wp_step. apply seat_create_ok; [done|]. intros w3. cbn zeta.
  set (p := fresh _). wp_step. wp_step.
  change (set_seats _ _) with (with_seat p (vt_bound_of vtenv) s1).
  assert (R : ready (vt_bound_of vtenv) (with_seat p (vt_bound_of vtenv) s1)).
  { split; [by apply wf_with_seat|by apply poller_with_seat|done| |done|constructor].
    exists p. by split. }
  wp_step. eapply wp_mono; [by apply start_vt_event_thread_ok|]. intros ? s2 w4 R2. wp_steps.
  left. split_and!; [done| |done]. by apply (ready_same _ s2); [|apply R2|].
Qed.

End Start.
