(* ===== verification/DaemonOk.v ===== *)
(** * The daemon as a transition system

    [main] sets the daemon up, and then its loop, the signals and the watcher
    thread take turns.  Every turn keeps the invariants of the server and of the
    poller and completes; the last one frees everything. *)
From S2P Require Import Prelude Kernel Connection Protocol Devices Terminal State Poller Send Seat Client.
From S2P Require Import Control Server Daemon Trace Frames Invariant Lifecycle Rules SendOk SeatOk SeatSwitch.
From S2P Require Import SeatVt SeatDevices SeatMembers SeatRemove ClientOk ControlOk PollerOk ServerOk DispatchOk.
From S2P Require Import StartOk.

(** ** The start of main *)

Section Start.
Context `{K : Kernel} `{Kok : !KernelOk}.
Implicit Types (s : server) (w : sys) (o : settings).

Lemma parse_options_silent args o : silent (parse_options args o).
Proof.
  revert o. induction args as [|a args IH]; intros o; cbn [parse_options]; [silent_auto|].
  destruct a; silent_auto. destruct (parse_level optarg); silent_auto.
Qed.

(** A file is in the way of a socket. *)
Definition occupied : Prop := exists h path, r_ret (answer h (Lstat path)) = 0.

Lemma clear_socket_path_ok path u Q s w :
  (forall w', occupied -> Q false s w') -> (forall w', Q true s w') -> wp (clear_socket_path path u) Q s w.
Proof.
  intros HF HT. unfold clear_socket_path. wp_steps. apply wp_ext. intros r Hr. wp_case; wp_steps; [apply HT|].
  assert (occupied) by (exists (trace w), path; rewrite <- Hr; lia).
  wp_case; wp_steps; [by apply HF|]. wp_case; wp_steps; [by apply HF|].
  apply wp_ext. intros r2 _. wp_steps. destruct (r_ret r2 =? -1); [by apply HF|by apply HT].
Qed.

Lemma open_socket_internal_ok path u g b mode Q s w :
  (forall w', denies -> Q (-1) s w') -> (forall f w', f ≠ -1 -> Q f s w') ->
  wp (open_socket_internal path u g b mode) Q s w.
Proof.
  intros HF HT. unfold open_socket_internal. wp_steps. apply wp_ext. intros r Hr. wp_case.
  { wp_steps. apply HF. by eapply denied. }
  assert (Hclose : forall w', denies -> wp (close (r_ret r);; mret (-1)) Q s w').
  { intros w' Hd. wp_step. apply wp_silent; [auto with silent|]. intros. wp_steps. auto. }
  assert (Hok : forall w', Q (r_ret r) s w') by (intros; apply HT; lia).
  wp_step. apply (wp_mono _ (fun ok s' w' => s' = s /\ (ok = true \/ ok = false /\ denies))).
  - wp_steps. apply wp_ext. intros r1 Hr1. wp_case; wp_steps; [split; [done|right; split; [done|by eapply denied]]|].
    apply wp_ext. intros r2 Hr2. wp_case; [wp_steps; split; [done|right; split; [done|by eapply denied]]|].
    wp_step. apply (wp_mono _ (fun ok s' w' => s' = s /\ (ok = true \/ ok = false /\ denies))).
    { wp_case; wp_steps; [|split; [done|by left]]. apply wp_ext. intros r3 Hr3. wp_steps. split; [done|].
      destruct (r_ret r3 =? -1) eqn:E3; [right; split; [done|by eapply denied]|by left]. }
    intros ok ? w3 [-> [->|[-> Hd]]]; cbn [negb]; [|wp_steps; split; [done|by right]].
    wp_case; wp_steps; [|split; [done|by left]]. apply wp_ext. intros r4 Hr4. wp_steps. split; [done|].
    destruct (r_ret r4 =? -1) eqn:E4; [right; split; [done|by eapply denied]|by left].
  - intros ok ? w' [-> [->|[-> Hd]]]; [wp_steps; apply Hok|by apply Hclose].
Qed.

(** The labels of [main]. *)
Lemma error_server_ok ret s w :
  daemon_ok s -> wp (error_server ret) (fun r s' w' => r = ret /\ released s') s w.
Proof.
  intros [W P]. unfold error_server. wp_steps. eapply wp_mono; [apply server_finish_ok; [done|apply P]|].
  intros _ s' w' [? _]. by wp_steps.
Qed.

Lemma error_socket_ok o ret s w :
  daemon_ok s -> wp (error_socket o ret) (fun r s' w' => r = ret /\ released s') s w.
Proof. intros D. unfold error_socket. wp_steps. apply wp_ext. intros r _. wp_steps. by apply error_server_ok. Qed.

Lemma error_control_socket_ok o f ret s w :
  daemon_ok s -> wp (error_control_socket o f ret) (fun r s' w' => r = ret /\ released s') s w.
Proof.
  intros D. unfold error_control_socket. destruct (control_socket_path o) as [path|]; wp_steps; [|by apply error_socket_ok].
  wp_case; wp_steps.
  - apply wp_ext. intros r _. wp_steps. by apply error_socket_ok.
  - apply wp_silent; [auto with silent|]. intros _ w1 _. wp_steps.
    apply wp_ext. intros r _. wp_steps. by apply error_socket_ok.
Qed.

(** The daemon is up and listens. *)
Record up (bound : bool) (o : settings) (s : server) : Prop := {
  up_ok : daemon_ok s;
  up_running : running s = true;
  up_seat : exists p, sv_seats s = {[p := new_seat bound]} /\ seats s = [p];
  up_clients : sv_clients s = ∅ /\ sv_controls s = ∅;
  up_listens : exists x, x ∈ sv_sources s /\ es_func x = server_handle_connection_fn;
  up_controls : control_socket_path o ≠ None ->
    exists x, x ∈ sv_sources s /\ es_func x = control_handle_connection_fn
}.

Lemma main_sockets_ok bound o s w :
  ready bound s -> running s = true ->
  wp (main_sockets o) (fun st s' w' =>
    match st with
    | Running o' f => o' = o /\ up bound o s'
    | Exited r => r = 1 /\ released s' /\ denies
    end) s w.
Proof.
  intros R Hrun. pose proof (conj (rd_wf _ _ R) (rd_poller _ _ R) : daemon_ok s) as D.
  unfold main_sockets, open_socket, open_control_socket. wp_steps.
  apply open_socket_internal_ok.
  { intros w1 Hd. wp_steps. eapply wp_mono; [by apply error_server_ok|]. intros r s' w' [-> ?]. by wp_steps. }
  intros f w1 Hf. rewrite (proj2 (Z.eqb_neq f (-1))) by done. wp_steps.
  eapply wp_mono; [by apply poller_add_fd_full; [apply D|apply D| |]|].
  intros es s1 w2 (W1 & P1 & Hes). pose proof (conj W1 P1 : daemon_ok s1) as D1.
  destruct Hes as [(-> & Hd & ->)|(e & n & x & -> & Ef & _ & E1)].
  { wp_steps. apply wp_silent; [auto with silent|]. intros _ w3 _. wp_steps.
    eapply wp_mono; [by apply error_socket_ok|]. intros r s' w' [-> ?]. by wp_steps. }
  assert (U1 : forall s2, daemon_ok s2 -> running s2 = running s1 -> sv_seats s2 = sv_seats s1 ->
    seats s2 = seats s1 -> sv_clients s2 = sv_clients s1 -> sv_controls s2 = sv_controls s1 ->
    sv_sources s1 ⊆ sv_sources s2 -> (control_socket_path o ≠ None ->
      exists x, x ∈ sv_sources s2 /\ es_func x = control_handle_connection_fn) -> up bound o s2).
  { intros s2 D2 E2 E3 E4 E5 E6 Hsub Hc. destruct (rd_seat _ _ R) as (p & Hp & Hl). subst s1.
    split; [done|by rewrite E2|exists p; by rewrite E3, E4|rewrite E5, E6; apply R| |done].
    exists x. split; [|done]. apply Hsub. left. }
  destruct (control_socket_path o) as [path|]; wp_steps; [|by split; [|apply U1]].
  apply open_socket_internal_ok.
  { intros w3 Hd. wp_steps. eapply wp_mono; [by apply error_socket_ok|]. intros r s' w' [-> ?]. by wp_steps. }
  intros f2 w3 Hf2. rewrite (proj2 (Z.eqb_neq f2 (-1))) by done. wp_steps.
  eapply wp_mono; [by apply poller_add_fd_full; [apply D1|apply D1| |]|].
  intros es s2 w4 (W2 & P2 & Hes). pose proof (conj W2 P2 : daemon_ok s2) as D2.
  destruct Hes as [(-> & Hd & ->)|(e2 & n2 & x2 & -> & Ef2 & _ & ->)].
  - wp_steps. apply wp_silent; [auto with silent|]. intros _ w5 _. wp_steps.
    eapply wp_mono; [by apply error_control_socket_ok|]. intros r s' w' [-> ?]. by wp_steps.
  - wp_steps. split; [done|]. apply U1; try done; cbn; [set_solver|]. intros _. exists x2. split; [left|done].
Qed.

(** Why [main] exits before its loop: its options, a file at the path of a
    socket, or a call that was denied. *)
Definition turned_away (defaultpath : bytes) (args : list opt) (w : sys) (r : Z) : Prop :=
  (exists w', parse_options args (default_settings defaultpath) zero_server w = Done (inr r, zero_server, w')) \/
  r = 1 /\ (occupied \/ denies).


Section Outcome.
Variables (defaultpath : bytes) (vtenv : option bytes) (args : list opt) (w0 : sys).

Definition start_outcome (st : started) (s' : server) (w' : sys) : Prop :=
  match st with
  | Running o f => up (vt_bound_of vtenv) o s'
  | Exited r => released s' /\ turned_away defaultpath args w0 r
  end.

Lemma main_up_ok o w : wp (main_up vtenv o) start_outcome zero_server w.
Proof.
  unfold main_up. wp_step. eapply wp_mono; [apply server_init_ok|].
  intros r s1 w3 [(-> & R & Hrun)|(-> & Hrel & Hd)]; cbn [Z.eqb]; [|wp_steps; split; [done|right; auto]].
  wp_step. eapply wp_mono; [by apply main_sockets_ok|]. intros [r|o' f] s2 w4.
  - intros (-> & Hrel & Hd). wp_steps. split; [done|right; auto].
  - intros [-> U]. wp_step. wp_case; wp_steps; [done|]. apply wp_ext. intros r _. wp_steps.
    apply wp_silent; [auto with silent|]. intros _ w5 _. by wp_steps.
Qed.

Lemma main_start_ok : wp (main_start defaultpath vtenv args) start_outcome zero_server w0.
Proof.
  assert (Hz : released zero_server) by done.
  unfold main_start. wp_step.
  apply (wp_mono _ (fun res s' w' => s' = zero_server /\
    parse_options args (default_settings defaultpath) zero_server w0 = Done (res, zero_server, w'))).
  { unfold wp. pose proof (parse_options_silent args (default_settings defaultpath) zero_server w0) as Hs.
    revert Hs. unfold wp. destruct (parse_options _ _ zero_server w0) as [[[res s1] w1]| | |]; [|done..].
    by intros [-> _]. }
  intros res ? w1 [-> Hres]. destruct res as [o|ret]; [|wp_steps; split; [done|left; eauto]].
  assert (Haway : forall w', occupied -> wp (mret (Exited 1)) start_outcome zero_server w').
  { intros w' Ho. wp_steps. split; [done|]. right. auto. }
  wp_step. apply clear_socket_path_ok; [by apply Haway|]. intros w2. cbn [negb]. wp_step.
  destruct (control_socket_path o) as [path|]; [|wp_steps; apply main_up_ok].
  apply clear_socket_path_ok; [by apply Haway|]. intros w3. apply main_up_ok.
Qed.

End Outcome.

End Start.

(** ** The turns of the loop *)

Section Turns.
Context `{K : Kernel} `{Kok : !KernelOk}.
Implicit Types (s : server) (w : sys) (o : settings).

Lemma main_turn_ok o f late s w :
  daemon_ok s -> (forall sig, Forall (may_arrive s) (late sig)) ->
  wp (main_turn o f late) (fun r s' w' =>
    match r with
    | Some ret => released s' /\ (running s = false /\ ret = 0 \/ running s = true /\ ret = 1 /\ refused w w')
    | None => daemon_ok s' /\ running s = true
    end) s w.
Proof.
  intros D Ha. unfold main_turn. wp_steps. destruct (running s) eqn:Er; cbn [negb]; wp_steps.
  - eapply wp_mono; [by apply poller_poll_ok|]. intros r s1 w1 (D1 & _ & [[-> Href]|[-> _]]); cbn [Z.eqb Pos.eqb]; wp_steps; [|done].
    eapply wp_mono; [apply wp_extends; [apply extends_error_control_socket|by apply error_control_socket_ok]|].
    intros ret s' w' [[-> Hrel] Hle]. wp_steps. split; [done|]. right. split_and!; [done|done|by eapply refused_r].
  - eapply wp_mono; [by apply error_control_socket_ok|]. intros ret s' w' [-> Hrel]. wp_steps. auto.
Qed.

(** The watcher's turn: at most one message more. *)
Lemma server_vt_event_loop_ok s w :
  daemon_ok s -> wp server_vt_event_loop (fun _ s' w' => daemon_ok s' /\ running s' = running s /\
    exists b q, s' = set_vt_event_thread_live b (set_vt_event_queue (vt_event_queue s ++ q) s)) s w.
Proof.
  intros [W P].
  assert (Hlive : forall b q, (b = true -> vt_event_thread_live s = true) -> Forall vt_numbered q ->
    daemon_ok (set_vt_event_thread_live b (set_vt_event_queue (vt_event_queue s ++ q) s))).
  { intros b q Hb Hq. split; [by apply (wf_same _ _ _ s)|]. destruct P as [G P C I L F Q V T].
    split; try done; cbn; [by apply Forall_app|auto]. }
  unfold server_vt_event_loop. do 3 wp_step.
  apply (wp_mono _ (fun more s' w' => exists q, Forall vt_numbered q /\
    s' = set_vt_event_queue (vt_event_queue s ++ q) s)).
  { unfold server_vt_event_turn.
    assert (Hnone : exists q, Forall vt_numbered q /\ s = set_vt_event_queue (vt_event_queue s ++ q) s).
    { exists []. split; [constructor|]. rewrite app_nil_r. by destruct s. }
    wp_steps. wp_case; wp_steps; [exact Hnone|]. apply wp_ext. intros r Hr. wp_case; wp_steps; [exact Hnone|].
    wp_case; wp_steps; [exact Hnone|]. apply wp_ext. intros r2 Hr2. wp_case; wp_steps; [exact Hnone|].
    eexists. split; [|reflexivity]. apply Forall_singleton. unfold vt_numbered. cbn.
    pose proof (waitevent_vt (trace w) (vt_event_fd s)) as Hv. rewrite <- Hr in Hv. specialize (Hv ltac:(lia)).
    rewrite i32_small; lia. }
  intros more ? w1 (q & Hq & ->). wp_step. wp_case; wp_steps.
  - split_and!; [|done|exists (vt_event_thread_live s), q; by destruct s].
    specialize (Hlive (vt_event_thread_live s) q). by destruct s; apply Hlive.
  - split_and!; [by apply Hlive|done|eauto].
Qed.

End Turns.

(** ** The transition system *)

(** What may happen next while the daemon is up. *)
Inductive action :=
| Iterate (late : Z -> list Z)   (* the main loop takes a turn *)
| Interrupt (sig : Z)            (* a signal arrives *)
| Watch.                         (* the watcher thread takes a turn *)

Section System.
Context `{K : Kernel}.

(** The exit status, if the daemon has exited. *)
Definition perform (o : settings) (f : Z) (a : action) : M server (option Z) :=
  match a with
  | Iterate late => main_turn o f late
  | Interrupt sig => signal_handler sig;; mret None
  | Watch => server_vt_event_loop;; mret None
  end.

Definition enabled (s : server) (a : action) : Prop :=
  match a with
  | Iterate late => forall sig, Forall (may_arrive s) (late sig)
  | Interrupt sig => may_arrive s sig
  | Watch => vt_event_thread_live s = true
  end.

Inductive reachable (defaultpath : bytes) (vtenv : option bytes) (args : list opt) (w0 : sys) :
    settings -> Z -> server * sys -> Prop :=
| reach_start o f s w :
    main_start defaultpath vtenv args zero_server w0 = Done (Running o f, s, w) ->
    reachable defaultpath vtenv args w0 o f (s, w)
| reach_step o f st a s' w' :
    reachable defaultpath vtenv args w0 o f st -> enabled st.1 a ->
    perform o f a st.1 st.2 = Done (None, s', w') ->
    reachable defaultpath vtenv args w0 o f (s', w').

End System.

(** ** Being told to stop *)

(** From here on poll(2), when it succeeds, finds the signal pipe readable. *)
Definition pipe_reported `{K : Kernel} (s : server) (w : sys) : Prop :=
  forall h, trace w `suffix_of` h ->
    r_ret (answer h (Poll (asked <$> poll_array s) (-1))) ≠ -1 ->
    has_event (r_val 0 (answer h (Poll (asked <$> poll_array s) (-1)))) POLLIN = true.

Lemma raised_stops sig n s :
  daemon_ok s -> (sig = SIGINT \/ sig = SIGTERM) -> told_to_stop (set_signal_pipe n (raise_signal sig s)).
Proof.
  intros [_ P] Hsig. assert (Hin : (sig, server_handle_kill_fn) ∈ reverse server_signals).
  { apply elem_of_reverse. unfold server_signals. destruct Hsig as [->| ->]; [do 2 right; left|do 3 right; left]. }
  rewrite <- (pw_signal_table _ P) in Hin. apply list_elem_of_fmap in Hin as (b & [= Hs Hf] & Hb).
  apply Exists_exists. exists (set_sg_raised true b). split.
  - cbn -[fmap]. apply list_elem_of_fmap. exists b. split; [|done]. by rewrite <- Hs, Z.eqb_refl.
  - split_and!; [done| |done]. pose proof (pw_signals_live _ P) as L. rewrite Forall_forall in L. exact (L _ Hb).
Qed.

Section Stopping.
Context `{K : Kernel} `{Kok : !KernelOk}.

Lemma sys_le_suffix w w' : sys_le w w' -> trace w `suffix_of` trace w'.
Proof. intros [t ->]. by exists t. Qed.

(** A turn of the main loop after a stopping signal: the daemon has exited, or
    will with the next turn. *)
Lemma stopping_turn_ok o f late s w :
  daemon_ok s -> (forall sig, Forall (may_arrive s) (late sig)) -> told_to_stop s -> pipe_reported s w ->
  wp (main_turn o f late) (fun r s' w' =>
    match r with Some _ => released s' | None => daemon_ok s' /\ running s' = false end) s w.
Proof.
  intros D Ha Hst Hp. unfold main_turn. wp_steps. destruct (running s) eqn:Er; cbn [negb]; wp_steps.
  - eapply wp_mono; [by apply poller_poll_ok|]. intros r s1 w1 (D1 & _ & [[-> Href]|(-> & H)]).
    + cbn [Z.eqb Pos.eqb]. wp_steps. eapply wp_mono; [by apply error_control_socket_ok|].
      intros ret s' w' [_ Hrel]. by wp_steps.
    + destruct H as (rep & w2 & w3 & L2 & (t & _ & Hrep & _) & _ & Hr & Hstop). cbn [Z.eqb]. wp_steps.
      split; [done|]. apply Hstop; [|done]. rewrite Hrep. apply Hp; [|by rewrite <- Hrep].
      apply suffix_app_r, sys_le_suffix, L2.
  - eapply wp_mono; [by apply error_control_socket_ok|]. intros ret s' w' [-> Hrel]. by wp_steps.
Qed.

(** Once it is told to stop, the next turn is the last. *)
Lemma last_turn_ok o f late s w :
  daemon_ok s -> running s = false ->
  wp (main_turn o f late) (fun r s' w' => r = Some 0 /\ released s') s w.
Proof.
  intros D Er. unfold main_turn. wp_steps. rewrite Er. cbn [negb]. wp_steps.
  eapply wp_mono; [by apply error_control_socket_ok|]. intros ret s' w' [-> Hrel]. by wp_steps.
Qed.

Lemma signal_handler_polls sig s w :
  daemon_ok s -> may_arrive s sig -> pipe_reported s w ->
  wp (signal_handler sig) (fun _ s' w' => daemon_ok s' /\ pipe_reported s' w' /\
    exists n, s' = set_signal_pipe n (raise_signal sig s)) s w.
Proof.
  intros D Ha Hp. eapply wp_mono; [apply wp_extends; [|by apply signal_handler_ok]|].
  { extends_auto. }
  intros _ s' w' [[D' [n ->]] Hle]. split_and!; [done| |eauto].
  intros h Hh. apply Hp. etrans; [|exact Hh]. by apply sys_le_suffix.
Qed.

End Stopping.

Section Invariance.
Context `{K : Kernel} `{Kok : !KernelOk}.

Lemma perform_ok o f a s w :
  daemon_ok s -> enabled s a ->
  wp (perform o f a) (fun r s' w' => match r with Some _ => released s' | None => daemon_ok s' end) s w.
Proof.
  intros D He. destruct a as [late|sig|]; cbn [perform enabled] in *.
  - eapply wp_mono; [by apply main_turn_ok|]. by intros [ret|] s' w' [? _].
  - wp_steps. eapply wp_mono; [by apply signal_handler_ok|]. intros _ s' w' [? _]. by wp_steps.
  - wp_steps. eapply wp_mono; [by apply server_vt_event_loop_ok|]. intros _ s' w' [? _]. by wp_steps.
Qed.

Lemma reachable_ok defaultpath vtenv args w0 o f st :
  reachable defaultpath vtenv args w0 o f st -> daemon_ok st.1.
Proof.
  induction 1 as [o f s w Hs|o f st a s' w' _ IH He Hp]; cbn.
  - pose proof (main_start_ok defaultpath vtenv args w0) as Hok. unfold wp in Hok. rewrite Hs in Hok.
    apply Hok.
  - pose proof (perform_ok o f a _ st.2 IH He) as Hok. unfold wp in Hok. by rewrite Hp in Hok.
Qed.

End Invariance.
