(* ===== verification/EmbeddedOk.v ===== *)
(** * The server inside libseat: it lives as long as its client

    In the build inside libseat the destruction of a client stops the server.  As
    long as the server runs, no client has gone: [keeps], which holds by the shape
    of the code.  The loop of the child is then as safe as that of the daemon. *)
From S2P Require Import Prelude Kernel Connection Protocol Devices Terminal State Poller Send Seat Client.
From S2P Require Import Control Server Daemon Embedded Trace Frames Invariant Lifecycle Rules SendOk SeatOk.
From S2P Require Import ClientOk ControlOk PollerOk ServerOk DispatchOk StartOk DaemonOk.

(** If the server still runs, it ran before, and all clients are still there. *)
Definition keeps (s s' : server) : Prop :=
  running s' = true -> running s = true /\ dom (sv_clients s) ⊆ dom (sv_clients s').

#[export] Instance keeps_preorder : PreOrder keeps.
Proof.
  split; [by intros s|]. intros s1 s2 s3 H1 H2 H3. destruct (H2 H3) as [R2 D2]. destruct (H1 R2) as [R1 D1].
  split; [done|by etrans].
Qed.

Lemma keeps_own s s' :
  dom (sv_clients s) ⊆ dom (sv_clients s') -> (running s' = true -> running s = true) -> keeps s s'.
Proof. intros Hd Hr H. auto. Qed.

Lemma keeps_put_client c k s : keeps s (put_client c k s).
Proof. apply keeps_own; [cbn; set_solver|done]. Qed.

Section Keeps.
Context `{K : Kernel}.
Hypothesis Hbuild : libseat_build = true.

#[local] Hint Resolve keeps_put_client : respects.
#[local] Hint Extern 5 (keeps _ _) => (apply keeps_own; [cbn; set_solver|by cbn]) : respects.

Lemma keeps_upd_client c f : respects keeps (upd_client c f).
Proof. apply respects_upd_client; [apply _|apply keeps_put_client]. Qed.
#[local] Hint Resolve keeps_upd_client : respects.

Lemma keeps_on_conn {A} c (m : M connection A) : respects keeps (on_conn c m).
Proof. apply respects_on_conn; [apply _|apply keeps_put_client]. Qed.
#[local] Hint Resolve keeps_on_conn : respects.

Lemma keeps_on_device {A} c id (m : M seat_device A) : respects keeps (on_device c id m).
Proof. apply respects_on_device; [apply _|apply keeps_put_client]. Qed.
#[local] Hint Resolve keeps_on_device : respects.

(** Destroying a client clears the flag first; nothing sets it again. *)
Lemma keeps_client_destroy c : respects keeps (client_destroy c).
Proof.
  intros s w [] s' w' E Hr. exfalso. revert E. unfold client_destroy. rewrite Hbuild. unfold mbind at 1, M_bind at 1.
  destruct ((client_server c;; modify (set_running false)) s w) as [[[[] s1] w1]| | |] eqn:E1; [|done..].
  assert (Hs1 : running s1 = false).
  { revert E1. unfold mbind, M_bind. destruct (client_server c s w) as [[[[] s2] w2]| | |]; [|done..].
    by intros [= <- _]. }
  assert (Hrest : forall m : M server (), serves m -> m s1 w1 = Done ((), s', w') -> False).
  { intros m Hm E. pose proof (ev_running _ _ (Hm _ _ _ _ _ E) Hr). congruence. }
  apply Hrest. respects_auto.
Qed.
#[local] Hint Resolve keeps_client_destroy : respects.

Lemma keeps_close_devices fuel c : respects keeps (close_devices fuel c).
Proof. induction fuel as [|fuel IH]; cbn [close_devices]; respects_auto. Qed.
#[local] Hint Resolve keeps_close_devices : respects.

Lemma keeps_client_messages fuel c : respects keeps (client_messages fuel c).
Proof. induction fuel as [|fuel IH]; cbn [client_messages]; respects_auto. Qed.
#[local] Hint Resolve keeps_client_messages : respects.

Lemma keeps_control_messages fuel c : respects keeps (control_messages fuel c).
Proof. induction fuel as [|fuel IH]; cbn [control_messages]; respects_auto. Qed.
#[local] Hint Resolve keeps_control_messages : respects.

Lemma keeps_vt_event_messages fuel : respects keeps (vt_event_messages fuel).
Proof. induction fuel as [|fuel IH]; cbn [vt_event_messages]; respects_auto. Qed.
#[local] Hint Resolve keeps_vt_event_messages : respects.

Lemma keeps_call_fd_func func fd mask data : respects keeps (call_fd_func func fd mask data).
Proof. respects_auto. Qed.
#[local] Hint Resolve keeps_call_fd_func : respects.

Lemma keeps_call_signal_func func : respects keeps (call_signal_func func).
Proof. respects_auto. Qed.
#[local] Hint Resolve keeps_call_signal_func : respects.

Lemma keeps_dispatch_fds fuel e : respects keeps (dispatch_fds fuel e).
Proof. revert e. induction fuel as [|fuel IH]; intros e; cbn [dispatch_fds]; respects_auto. Qed.
#[local] Hint Resolve keeps_dispatch_fds : respects.

Lemma keeps_drain_signal_pipe fuel : respects keeps (drain_signal_pipe fuel).
Proof. induction fuel as [|fuel IH]; cbn [drain_signal_pipe]; respects_auto. Qed.
#[local] Hint Resolve keeps_drain_signal_pipe : respects.

Lemma keeps_regenerate_fds l idx : respects keeps (regenerate_fds l idx).
Proof. revert idx. induction l as [|e l IH]; intros idx; cbn [regenerate_fds]; respects_auto. Qed.
#[local] Hint Resolve keeps_regenerate_fds : respects.

Lemma keeps_poller_poll late : respects keeps (poller_poll late).
Proof. respects_auto. Qed.

End Keeps.

(** ** The child as a transition system *)

Section Child.
Context `{K : Kernel}.

Definition child_perform (f : Z) (a : action) : M server (option Z) :=
  match a with
  | Iterate late => builtin_child_turn f late
  | Interrupt sig => signal_handler sig;; mret None
  | Watch => server_vt_event_loop;; mret None
  end.

(** The states of the child that serves descriptor [f] for client [c]. *)
Inductive hosted (vtenv : option bytes) (f other : Z) (w0 : sys) (c : nat) : server * sys -> Prop :=
| hosted_start s w k :
    builtin_child_start vtenv f other zero_server w0 = Done (None, s, w) ->
    sv_clients s !! c = Some k -> fd (c_connection k) = f ->
    hosted vtenv f other w0 c (s, w)
| hosted_step st a s' w' :
    hosted vtenv f other w0 c st -> enabled st.1 a ->
    child_perform f a st.1 st.2 = Done (None, s', w') ->
    hosted vtenv f other w0 c (s', w').

Context `{Kok : !KernelOk}.
Implicit Types (s : server) (w : sys).

Lemma child_server_error_ok f res s w :
  daemon_ok s -> wp (child_server_error f res) (fun r s' w' => r = res /\ released s') s w.
Proof.
  intros [W P]. unfold child_server_error, child_error. wp_step.
  eapply wp_mono; [apply server_finish_ok; [done|apply P]|]. intros _ s1 w1 [Hr _]. wp_step.
  apply wp_silent; [auto with silent|]. intros _ w2 _. by wp_steps.
Qed.

Lemma builtin_child_start_ok vtenv f other w :
  wp (builtin_child_start vtenv f other) (fun r s' w' =>
    match r with
    | Some ret => ret = 1 /\ released s'
    | None => daemon_ok s' /\ running s' = true /\ exists c k, sv_clients s' !! c = Some k /\ fd (c_connection k) = f
    end) zero_server w.
Proof.
  unfold builtin_child_start. wp_step. apply wp_silent; [auto with silent|]. intros _ w1 _. wp_step.
  eapply wp_mono; [apply server_init_ok|]. intros r s1 w2 [(-> & R & Hrun)|(-> & Hrel & _)]; cbn [Z.eqb Pos.eqb].
  2: { unfold child_error. wp_steps. apply wp_silent; [auto with silent|]. intros _ w3 _. by wp_steps. }
  wp_step. eapply wp_mono; [apply (wp_respects evolves); [respects_auto|apply server_add_client_ok, R]|].
  intros r s2 w3 [[W2 Hr] E2].
  assert (D2 : daemon_ok s2) by (eapply daemon_ok_evolves; [split; apply R|done|done]).
  destruct Hr as [[-> (Er & c & k & _ & Hk & Hf)]| ->]; cbn [Z.eqb Pos.eqb]; wp_steps.
  - split_and!; [done|congruence|by exists c, k].
  - eapply wp_mono; [by apply child_server_error_ok|]. intros ret s3 w4 [-> ?]. by wp_steps.
Qed.

(** One turn of the child: it has exited because it was told to or because the
    poll was refused, or it goes on; its client is there as long as it runs. *)
Lemma child_perform_ok f a s w :
  libseat_build = true -> daemon_ok s -> enabled s a ->
  wp (child_perform f a) (fun r s' w' =>
    match r with
    | Some ret => released s' /\ exists late, a = Iterate late /\
        (running s = false /\ ret = 0 \/ running s = true /\ ret = 1 /\ refused w w')
    | None => daemon_ok s' /\ keeps s s' /\ (forall late, a = Iterate late -> running s = true)
    end) s w.
Proof.
  intros Hb D He. destruct a as [late|sig|]; cbn [child_perform enabled] in *.
  - unfold builtin_child_turn. do 2 wp_step. destruct (running s) eqn:Er; cbn [negb]; wp_step.
    + eapply wp_mono; [apply wp_respects; [by apply keeps_poller_poll|by apply poller_poll_ok]|].
      intros r s1 w1 [(D1 & _ & Hr) K1]. destruct Hr as [[-> Href]|[-> _]]; cbn [Z.eqb Pos.eqb]; wp_steps; [|by split_and!].
      eapply wp_mono; [apply wp_extends; [|by apply child_server_error_ok]|].
      { pose proof extends_server_finish. unfold child_server_error, child_error. extends_auto. }
      intros ret s2 w2 [[-> Hrel] Hle]. wp_steps. split; [done|]. exists late. split; [done|]. right.
      split_and!; [done|done|by eapply refused_r].
    + eapply wp_mono; [by apply child_server_error_ok|]. intros ret s2 w2 [-> Hrel]. wp_steps. split; [done|]. eauto.
  - wp_steps. eapply wp_mono; [by apply signal_handler_ok|]. intros _ s' w' [D' [n ->]]. wp_steps.
    split_and!; [done| |done]. by apply keeps_own.
  - wp_steps. eapply wp_mono; [by apply server_vt_event_loop_ok|]. intros _ s' w' (D' & _ & b & q & ->). wp_steps.
    split_and!; [done| |done]. by apply keeps_own.
Qed.

Lemma hosted_ok vtenv f other w0 c st :
  libseat_build = true -> hosted vtenv f other w0 c st ->
  daemon_ok st.1 /\ (running st.1 = true -> is_Some (sv_clients st.1 !! c)).
Proof.
  intros Hb. induction 1 as [s w k Hs Hk Hf|st a s' w' _ [D IH] He Hp]; cbn.
  - pose proof (builtin_child_start_ok vtenv f other w0) as Hok. unfold wp in Hok. rewrite Hs in Hok.
    split; [apply Hok|by eauto].
  - pose proof (child_perform_ok f a _ st.2 Hb D He) as Hok. unfold wp in Hok. rewrite Hp in Hok.
    destruct Hok as (D' & Hk & _). split; [done|]. intros Hr. destruct (Hk Hr) as [Hr0 Hd].
    specialize (IH Hr0). rewrite <- elem_of_dom in IH |- *. by apply Hd.
Qed.

End Child.
