(* ===== verification/Demo.v ===== *)
(** * A concrete operating system

    The theorems hold for every kernel that keeps the laws of [KernelOk].  This
    is one: calls succeed, no socket file is in the way, the peers never read
    slowly, and what they send, what poll(2) reports and what VT switches happen
    is a scenario; when the script of poll(2) is over, it reports the signal pipe.
    Witnesses and examples run on it. *)
From S2P Require Import Prelude Kernel Connection Protocol Devices Terminal State Poller Send Seat Client.
From S2P Require Import Control Server Daemon Invariant Lifecycle Rules SendOk SeatOk SeatSwitch SeatVt.
From S2P Require Import SeatDevices SeatMembers SeatRemove ClientOk ControlOk PollerOk ServerOk DispatchOk.
From S2P Require Import StartOk DaemonOk.

(** The messages that arrive, one per recvmsg(2); what poll(2) reports, call by
    call; the VT switches, as the VT left and the VT entered. *)
Record scenario := Scenario {
  sc_msgs : list bytes;
  sc_polls : list (list Z);
  sc_vts : list (Z * Z)
}.

Definition says (msgs : list bytes) : scenario := Scenario msgs [] [].

Definition is_recv (c : call) : bool := match c with Recvmsg _ _ => true | _ => false end.
Definition is_poll (c : call) : bool := match c with Poll _ _ => true | _ => false end.
Definition is_wait (c : call) : bool := match c with Ioctl _ VT_WAITEVENT => true | _ => false end.

(** How many calls of a kind there have been. *)
Definition count_calls (kind : call -> bool) (h : history) : nat := length (filter (fun x => kind x.1 = true) h).

Lemma count_calls_app kind h1 h2 : count_calls kind (h1 ++ h2) = (count_calls kind h1 + count_calls kind h2)%nat.
Proof. unfold count_calls. rewrite <- length_app. f_equal. apply filter_app. Qed.

Section Demo.
Variable sc : scenario.

Definition demo_answer (h : history) (c : call) : reply :=
  match c with
  | Sendmsg _ d _ => reply_ret (zlen d)
  | Recvmsg _ room =>
      match sc_msgs sc !! count_calls is_recv h with
      | Some d =>
          if room <=? 0 then reply_err EAGAIN else
          let d := (fun b => b mod 256) <$> take (Z.to_nat room) d in
          Reply (zlen d) 0 [] d []
      | None => reply_err EAGAIN
      end
  | Poll _ _ => Reply 1 0 (default [POLLIN] (sc_polls sc !! count_calls is_poll h)) [] []
  | Ioctl _ VT_WAITEVENT =>
      match sc_vts sc !! count_calls is_wait h with
      | Some (old, new) =>
          if (0 <? new) && (new <? 2 ^ 31) then Reply 0 0 [VT_EVENT_SWITCH; old; new] [] [] else reply_err EINVAL
      | None => reply_err EINVAL
      end
  | Open _ _ => reply_ret (Z.of_nat (length h) + 10)
  | Socket => reply_ret (Z.of_nat (length h) + 10)
  | Pipe | Pipe2 _ | Socketpair => Reply 0 0 [Z.of_nat (length h) + 10; Z.of_nat (length h) + 5000] [] []
  | Fork => reply_ret 400
  | Dup _ => reply_ret (Z.of_nat (length h) + 1000)
  | Accept _ => reply_ret (Z.of_nat (length h) + 100)
  | Realpath p => Reply 0 0 [] p []
  | Ioctl _ VT_GETSTATE => Reply 0 0 [1] [] []
  | Ioctl _ VT_OPENQRY => Reply 0 0 [7] [] []
  | Ioctl _ (DRM_IOCTL_AUTH_MAGIC _) => reply_err EACCES
  | Getpeer _ => Reply 0 0 [500; 0; 0] [] []
  | Lstat _ => reply_err ENOENT
  | _ => reply_ret 0
  end.

Definition demo : Kernel := {| answer := demo_answer; eintr_limit := 1; has_hidiocrevoke := true; libseat_build := false |}.

Lemma demo_ok : @KernelOk demo.
Proof.
  split; cbn -[Z.of_nat].
  - intros h _ d _ Hd. right. unfold zlen. destruct d; [done|]. cbn [length]. lia.
  - intros h _ room. destruct (sc_msgs sc !! _) as [d|]; [|by left].
    destruct (Z.leb_spec room 0); [by left|right]. cbn -[Z.of_nat]. unfold zlen.
    rewrite length_fmap, length_take. lia.
  - intros h _ room. destruct (sc_msgs sc !! _) as [d|]; [|done].
    destruct (room <=? 0); [done|]. cbn. apply Forall_fmap, Forall_true. intros b. cbn. unfold is_byte.
    apply Z.mod_pos_bound. lia.
  - intros h _ room. destruct (sc_msgs sc !! _) as [d|]; [|done]. by destruct (room <=? 0).
  - intros h _. destruct (sc_vts sc !! _) as [[old new]|]; [|done].
    destruct (Z.ltb_spec 0 new), (Z.ltb_spec new (2 ^ 31)); cbn; unfold r_val; cbn; lia.
  - intros h _. unfold r_val. cbn -[Z.of_nat]. lia.
  - intros h c. left. unfold is_eintr.
    destruct c; try match goal with req : ioctl_request |- _ => destruct req end; cbn; try done;
      try (by rewrite (proj2 (Z.eqb_neq _ _)) by (unfold zlen; lia)).
    + destruct (sc_vts sc !! _) as [[old new]|]; [|done]. by destruct (0 <? new), (new <? _).
    + destruct (sc_msgs sc !! _) as [d|]; [|done]. destruct (room <=? 0); [done|].
      cbn. by rewrite (proj2 (Z.eqb_neq _ _)) by (unfold zlen; lia).
Qed.

(** ** Runs *)

(** The actions of a run; no signal arrives in the middle of a dispatch. *)
Inductive event := Turn | Signal (sig : Z) | Switch.

Definition action_of (ev : event) : action :=
  match ev with Turn => Iterate (fun _ => []) | Signal sig => Interrupt sig | Switch => Watch end.

(** The condition [enabled], decided. *)
Definition enabled_b (s : server) (ev : event) : bool :=
  match ev with
  | Turn => true
  | Signal sig =>
      negb ((sig =? SIGUSR1) || (sig =? SIGUSR2)) ||
      forallb (fun pt => negb (cur_vt pt.2 =? -1)) (map_to_list (sv_seats s))
  | Switch => vt_event_thread_live s
  end.

Lemma enabled_b_true s ev : enabled_b s ev = true -> enabled s (action_of ev).
Proof.
  destruct ev as [|sig|]; cbn -[map_to_list]; [by intros; constructor| |done].
  rewrite orb_true_iff, forallb_forall. intros [H|H] Hv p t Ht.
  - exfalso. destruct Hv as [->| ->]; done.
  - specialize (H (p, t)). cbn in H. assert (Hin : In (p, t) (map_to_list (sv_seats s)))
      by (by apply list_elem_of_In, elem_of_map_to_list). specialize (H Hin). lia.
Qed.

Definition demo_path : bytes := str "/run/seatd.sock".

(** The daemon after [main_start]. *)
Definition boot (args : list opt) : option (settings * Z * (server * sys)) :=
  match @main_start demo demo_path None args zero_server (Sys [] 0) with
  | Done (Running o f, s, w) => Some (o, f, (s, w))
  | _ => None
  end.

Fixpoint run (o : settings) (f : Z) (evs : list event) (st : server * sys) : option (server * sys) :=
  match evs with
  | [] => Some st
  | ev :: evs' =>
      if enabled_b st.1 ev then
        match @perform demo o f (action_of ev) st.1 st.2 with
        | Done (None, s', w') => run o f evs' (s', w')
        | _ => None
        end
      else None
  end.

Abbreviation reached args := (@reachable demo demo_path None args (Sys [] 0)).

Lemma run_reachable args o f evs st st' :
  reached args o f st -> run o f evs st = Some st' -> reached args o f st'.
Proof.
  revert st. induction evs as [|ev evs IH]; intros st Hr; cbn [run]; [by intros [= <-]|].
  destruct (enabled_b _ ev) eqn:He; [|done].
  destruct (perform _ _ _ _ _) as [[[[r|] s1] w1]| | |] eqn:E; [done| |done..].
  intros Hrun. eapply IH, Hrun. by eapply reach_step; [|apply enabled_b_true|].
Qed.

(** A run from the start: the settings of the daemon, and where it ends. *)
Definition play (args : list opt) (evs : list event) : option (settings * Z * (server * sys)) :=
  '(o, f, st) ← boot args; st' ← run o f evs st; Some (o, f, st').

Lemma play_reachable args evs o f st : play args evs = Some (o, f, st) -> reached args o f st.
Proof.
  unfold play, boot. destruct (main_start _ _ _ _ _) as [[[[r|o0 f0] s0] w0]| | |] eqn:E; cbn; try done.
  destruct (run o0 f0 evs (s0, w0)) as [st'|] eqn:Er; [|done]. intros [= <- <- <-].
  eapply run_reachable, Er. by apply reach_start.
Qed.

End Demo.

Abbreviation reached sc args := (@reachable (demo sc) demo_path None args (Sys [] 0)).

Definition w_start : sys := Sys [] 0.
Definition demo_settings : settings := default_settings demo_path.

(** Where a run ends; the lemmas below show that the runs used do end. *)
Definition after (sc : scenario) (args : list opt) (evs : list event) : settings * Z * (server * sys) :=
  default (demo_settings, -1, (zero_server, w_start)) (play sc args evs).

Lemma after_reachable sc args evs o f :
  is_Some (play sc args evs) -> (after sc args evs).1 = (o, f) ->
  reached sc args o f ((after sc args evs).2.1, (after sc args evs).2.2).
Proof.
  rewrite <- surjective_pairing. intros [[[o' f'] st] E]. unfold after. rewrite E. cbn. intros [= <- <-].
  by eapply play_reachable.
Qed.

Lemma reached_ok sc args o f s w : reached sc args o f (s, w) -> daemon_ok s.
Proof. exact (@reachable_ok (demo sc) (demo_ok sc) _ _ _ _ _ _ (s, w)). Qed.

Lemma reached_wf sc args o f s w : reached sc args o f (s, w) -> server_wf nobody nobody nobody s.
Proof. intros H. by apply reached_ok in H as [? _]. Qed.

(** Messages of a client. *)
Definition msg_open_seat : bytes := header_bytes (Header CLIENT_OPEN_SEAT 0).
Definition msg_open_device (p : bytes) : bytes :=
  header_bytes (Header CLIENT_OPEN_DEVICE (zlen p + 3)) ++ u16_bytes (zlen p + 1) ++ p ++ [0].
Definition msg_disable : bytes := header_bytes (Header CLIENT_DISABLE_SEAT 0).

(** A client connects, opens the seat and a graphics device. *)
Definition session_script : scenario :=
  Scenario [msg_open_seat; msg_open_device (str "/dev/dri/card0")] [[0; POLLIN]; [0; POLLIN]; [0; POLLIN]] [].
Definition session_events : list event := [Turn; Turn; Turn].

(** One client, active on VT 1 with a graphics device. *)
Definition one : server * sys := (after session_script [] session_events).2.
Definition one_client : client := default (fresh_client 0 0 0 0) (sv_clients one.1 !! 0%nat).
Definition one_seat : seat := default (new_seat true) (sv_seats one.1 !! 0%nat).

Lemma one_reachable : reached session_script [] demo_settings (-1) (one.1, one.2).
Proof. apply after_reachable; [vm_compute; eauto|vm_compute; reflexivity]. Qed.

Lemma one_wf : server_wf nobody nobody nobody one.1.
Proof. exact (reached_wf _ _ _ _ _ _ one_reachable). Qed.

Lemma one_ok : daemon_ok one.1.
Proof. exact (reached_ok _ _ _ _ _ _ one_reachable). Qed.

Lemma one_client_eq : sv_clients one.1 !! 0%nat = Some one_client.
Proof. vm_compute. reflexivity. Qed.

Lemma one_seat_eq : sv_seats one.1 !! 0%nat = Some one_seat.
Proof. vm_compute. reflexivity. Qed.

Lemma one_client_seat : c_seat one_client = Some 0%nat.
Proof. vm_compute. reflexivity. Qed.

(** The VT changed to 2, and the client was asked to stop. *)
Definition leaving_script : scenario :=
  Scenario (sc_msgs session_script ++ [msg_disable])
    (sc_polls session_script ++ [[0; 0; 0; POLLIN]; [0; POLLIN]]) [(1, 2)].
Definition leaving : server * sys := (after leaving_script [] (session_events ++ [Switch; Turn])).2.
Definition leaving_client : client := default one_client (sv_clients leaving.1 !! 0%nat).
Definition leaving_seat : seat := default one_seat (sv_seats leaving.1 !! 0%nat).

Lemma leaving_reachable : reached leaving_script [] demo_settings (-1) (leaving.1, leaving.2).
Proof. apply after_reachable; [vm_compute; eauto|vm_compute; reflexivity]. Qed.

Lemma leaving_wf : server_wf nobody nobody nobody leaving.1.
Proof. exact (reached_wf _ _ _ _ _ _ leaving_reachable). Qed.

Lemma leaving_client_eq : sv_clients leaving.1 !! 0%nat = Some leaving_client.
Proof. vm_compute. reflexivity. Qed.

Lemma leaving_seat_eq : sv_seats leaving.1 !! 0%nat = Some leaving_seat.
Proof. vm_compute. reflexivity. Qed.

(** A client that has connected, and nothing more. *)
Definition idle : server * sys := (after session_script [] (take 1 session_events)).2.
Definition idle_client : client := default one_client (sv_clients idle.1 !! 0%nat).
Definition idle_seat : seat := default one_seat (sv_seats idle.1 !! 0%nat).

Lemma idle_reachable : reached session_script [] demo_settings (-1) (idle.1, idle.2).
Proof. apply after_reachable; [vm_compute; eauto|vm_compute; reflexivity]. Qed.

Lemma idle_wf : server_wf nobody nobody nobody idle.1.
Proof. exact (reached_wf _ _ _ _ _ _ idle_reachable). Qed.

(** The client has acknowledged that it stopped. *)
Definition stopped : server * sys := (after leaving_script [] (session_events ++ [Switch; Turn; Turn])).2.
Definition stopped_client : client := default one_client (sv_clients stopped.1 !! 0%nat).
Definition stopped_seat : seat := default one_seat (sv_seats stopped.1 !! 0%nat).

Lemma stopped_reachable : reached leaving_script [] demo_settings (-1) (stopped.1, stopped.2).
Proof. apply after_reachable; [vm_compute; eauto|vm_compute; reflexivity]. Qed.

Lemma stopped_wf : server_wf nobody nobody nobody stopped.1.
Proof. exact (reached_wf _ _ _ _ _ _ stopped_reachable). Qed.

Lemma one_live : live_source one.1 client_handle_connection_fn 2 0.
Proof.
  unfold live_source. vm_compute. eexists. split; [left|by split_and!].
Qed.

(** The client of [one], and a control client that asks for the active VT. *)
Definition control_args : list opt := [Opt_c (str "/run/seatd.control")].
Definition control_script : scenario :=
  Scenario (sc_msgs session_script ++ [header_bytes (Header CONTROL_GET_ACTIVE_VT 0)])
    [[0; 0; POLLIN]; [0; POLLIN]; [0; POLLIN]; [0; 0; POLLIN]; [0; POLLIN]] [].
Definition controlled_run : settings * Z * (server * sys) := after control_script control_args [Turn; Turn; Turn; Turn].
Definition controlled : server * sys := controlled_run.2.

Lemma controlled_reachable :
  reached control_script control_args controlled_run.1.1 controlled_run.1.2 (controlled.1, controlled.2).
Proof. apply after_reachable; [vm_compute; eauto|vm_compute; reflexivity]. Qed.

(** After the run to [one] poll(2) reports the signal pipe. *)
Lemma one_reported : @pipe_reported (demo session_script) one.1 one.2.
Proof.
  intros h [t ->] _.
  assert (Hn : (length (sc_polls session_script) <= count_calls is_poll (t ++ trace one.2))%nat).
  { assert (E : count_calls is_poll (trace one.2) = 3%nat) by (vm_compute; reflexivity).
    rewrite count_calls_app, E. cbn. lia. }
  change (has_event (r_val 0 (Reply 1 0
    (default [POLLIN] (sc_polls session_script !! count_calls is_poll (t ++ trace one.2))) [] [])) POLLIN = true).
  by rewrite (lookup_ge_None_2 _ _ Hn).
Qed.
