(* ===== verification/CommonTheorems.v ===== *)
(** * Theorems about common/: lists, buffers, messages, paths

    The lemmas of [LinkedList], [Connection], [Protocol], [Devices] and
    [Terminal] in the form a client of that code relies on. *)
From S2P Require Import Prelude Kernel LinkedList Connection Protocol Devices Terminal Demo.

(** ** common/linked_list.c *)

(** C34: simulation of lists by linked nodes.  Over any sequence of insertions,
    removals and takes that makes sense on a family of disjoint lists, the
    pointer code ends without a failed assertion or a NULL dereference, makes no
    system call, and leaves the nodes linked as exactly the lists that the
    sequence produces, with the removed nodes detached. *)
Theorem linked_list_simulation (ops : list list_op) (h : heap) (A A' : lists) (w : sys) :
  represents h A -> list_steps ops A A' ->
  exists h', for_each exec ops h w = Done ((), h', w) /\ represents h' A'.
Proof.
  intros R Hs. destruct (wp_done _ _ _ _ (exec_steps_ok ops h A A' w R Hs)) as ([] & h' & w' & E & -> & R').
  eauto.
Qed.

(** Two heads and a free node; the node is put on the first list, taken over to
    the second, and removed. *)
Definition two_heads : heap :=
  {[0%nat := Node (Some 0%nat) (Some 0%nat); 1%nat := Node (Some 1%nat) (Some 1%nat); 2%nat := Node None None]}.
Definition three_ops : list list_op := [Insert 0 2; Take 1 0; Remove 2].

Lemma two_heads_represents :
  represents two_heads (Lists {[0%nat := []; 1%nat := []]} {[2%nat]}).
Proof.
  assert (Hc : forall l xs, ({[0%nat := []; 1%nat := []]} : gmap nat (list nat)) !! l = Some xs ->
    xs = [] /\ (l = 0%nat \/ l = 1%nat)).
  { intros l xs [[<- <-]|[_ [<- <-]%lookup_singleton_Some]]%lookup_insert_Some; auto. }
  split; cbn [on free].
  - intros l xs [-> [-> | ->]]%Hc; (split; [done|apply NoDup_singleton]).
  - intros l1 l2 xs1 xs2 a Hn [-> _]%Hc [-> _]%Hc ->%list_elem_of_singleton.
    by intros ->%list_elem_of_singleton.
  - intros e ->%elem_of_singleton. split; [by eexists|]. split; [done|].
    intros l xs [-> [-> | ->]]%Hc; by intros ?%list_elem_of_singleton.
Qed.

Lemma linked_list_simulation_witness :
  exists h' A', for_each exec three_ops two_heads (Sys [] 0) = Done ((), h', Sys [] 0) /\
    represents h' A' /\ nx h' 2 = None.
Proof.
  assert (Hs : exists A', list_steps three_ops (Lists {[0%nat := []; 1%nat := []]} {[2%nat]}) A').
  { eexists. econstructor; [by apply (step_insert 0 2 [])|]. econstructor.
    - by apply (step_take 1 0 [] [2%nat]).
    - econstructor; [|constructor]. by apply (step_remove 1 2 [] []). }
  destruct Hs as [A' Hs].
  destruct (linked_list_simulation three_ops two_heads _ A' (Sys [] 0) two_heads_represents Hs)
    as (h' & E & R).
  exists h', A'. split; [exact E|]. split; [exact R|]. revert E. vm_compute. by intros [= <-].
Defined.

(** ** common/connection.c *)

(** C32: the ring buffer is a byte queue.  For every well-formed buffer,
    wherever its free-running 32-bit indices stand, a put that fits appends,
    a copy reads a prefix, a consume drops a prefix, a restore undoes the
    consume, and the vectors handed to sendmsg and recvmsg cover the queue and
    the free space exactly; all of it keeps the buffer well-formed. *)
Theorem ring_buffer_refines_queue (b : connection_buffer) (src : bytes) (n : Z) :
  buffer_wf b -> Forall is_byte src -> connection_buffer_size b + zlen src <= CONNECTION_BUFFER_SIZE ->
  0 <= n <= connection_buffer_size b ->
  (buffer_wf (buffer_write b src) /\ contents (buffer_write b src) = contents b ++ src) /\
  connection_buffer_copy b n = take (Z.to_nat n) (contents b) /\
  (buffer_wf (connection_buffer_consume b n) /\
   contents (connection_buffer_consume b n) = drop (Z.to_nat n) (contents b)) /\
  connection_buffer_restore (connection_buffer_consume b n) n = b /\
  (contents b ≠ [] -> gather (data b) (connection_buffer_get_iov b) = contents b) /\
  (zlen (contents b) < CONNECTION_BUFFER_SIZE ->
   iov_total (connection_buffer_put_iov b) = CONNECTION_BUFFER_SIZE - zlen (contents b) /\
   scatter (data b) (connection_buffer_put_iov b) src = data (buffer_write b src)).
Proof.
  intros W Hs Hfit Hn. unfold CONNECTION_BUFFER_SIZE in *. rewrite !zlen_contents by done.
  split_and!; auto using write_wf, contents_write, copy_contents, consume_wf, contents_consume, restore_consume.
  - intros Hne. apply gather_get_iov; [done|]. intros E. apply Hne, length_zero_iff_nil.
    by rewrite length_contents, E.
  - intros Hlt. split; [by apply total_put_iov|by apply scatter_put_iov].
Qed.

(** A buffer about to wrap around, in the array and in the 32-bit index. *)
Definition wrapping : connection_buffer :=
  Buffer 1 (2 ^ 32 - 2) (replicate 254 7 ++ [5; 6]).

Lemma wrapping_wf : buffer_wf wrapping.
Proof.
  split; cbn -[connection_buffer_size]; try lia; try done.
  repeat constructor; unfold is_byte; lia.
Qed.

Lemma ring_buffer_refines_queue_witness :
  contents wrapping = [5; 6; 7] /\
  contents (buffer_write wrapping [1; 2]) = [5; 6; 7; 1; 2] /\
  contents (connection_buffer_consume wrapping 2) = [7].
Proof.
  destruct (ring_buffer_refines_queue wrapping [1; 2] 2) as ((_ & Hp) & _ & (_ & Hc) & _).
  - apply wrapping_wf.
  - repeat constructor; unfold is_byte; lia.
  - by vm_compute.
  - by vm_compute.
  - split; [by vm_compute|]. rewrite Hp, Hc. split; by vm_compute.
Defined.

Section Connections.
Context `{K : Kernel} `{Kok : !KernelOk}.


(** [connection_put] is all or nothing.  It queues all of the bytes behind
    what is there, or fails and queues none of them; to make room it may send a
    prefix of the queue, in order.  It fails only if the kernel refuses to take
    that prefix, or if the message is larger than the whole buffer. *)
Theorem connection_put_atomic (src : bytes) (c : connection) (w : sys) :
  conn_wf c -> Forall is_byte src ->
  exists r c' w' d, connection_put src c w = Done (r, c', w') /\ conn_wf c' /\
    conn_in c' = conn_in c /\ fd c' = fd c /\ sends (fd c) d w w' /\
    (r = 0 /\ contents (conn_out c) ++ src = d ++ contents (conn_out c') /\
       want_flush c' = true /\ zlen src <= CONNECTION_BUFFER_SIZE \/
     r = -1 /\ contents (conn_out c) = d ++ contents (conn_out c') /\
       (refused w w' \/ CONNECTION_BUFFER_SIZE < zlen src)).
Proof.
  intros W Hs. destruct (wp_done _ _ _ _ (connection_put_ok src c w W Hs))
    as (r & c' & w' & E & W' & ? & ? & ? & d & ? & ?).
  exists r, c', w', d. auto 10.
Qed.

(** [connection_read] appends exactly the bytes of the one [recvmsg] that
    was not interrupted, and returns the length of the whole queue; when it fails
    the queue is as it was, and the reason is a refused call or a full buffer, of
    bytes or of the descriptors that came along.
    The kernel is never offered more room than the buffer has. *)
Theorem connection_read_appends (c : connection) (w : sys) :
  conn_wf c ->
  exists r c' w', connection_read c w = Done (r, c', w') /\ conn_wf c' /\
    conn_out c' = conn_out c /\ fd c' = fd c /\ quiet w w' /\
    (r = -1 /\ contents (conn_in c') = contents (conn_in c) /\ (refused w w' \/ errno w' = EOVERFLOW) \/
     exists m t1 t2,
       let call := Recvmsg (fd c) (CONNECTION_BUFFER_SIZE - connection_buffer_size (conn_in c)) in
       trace w' = t2 ++ (call, m) :: t1 ++ trace w /\ interrupted call t1 /\
       r = zlen (contents (conn_in c')) /\
       contents (conn_in c') = contents (conn_in c) ++ r_bytes m /\
       m = answer (t1 ++ trace w) call /\ r_ret m <> -1).
Proof.
  intros W. destruct (wp_done _ _ _ _ (connection_read_ok c w W))
    as (r & c' & w' & E & W' & ? & ? & ? & ? & ? & ?).
  exists r, c', w'. auto 10.
Qed.

(** a header survives the connection.  When a header's bytes are at the
    front of the received queue, reading four bytes and decoding them gives the
    header back and leaves the rest; and the sequence of a read that takes the
    header and a restore, which the daemon uses for incomplete messages, leaves
    the connection exactly as it was. *)
Theorem header_roundtrip (h : proto_header) (rest : bytes) (c : connection) (w : sys) :
  conn_wf c -> 0 <= opcode h < 2 ^ 16 -> 0 <= size h < 2 ^ 16 ->
  contents (conn_in c) = header_bytes h ++ rest ->
  (exists bs c', connection_get sizeof_header c w = Done (Some bs, c', w) /\ header_of bs = h /\
     conn_wf c' /\ contents (conn_in c') = rest) /\
  (connection_get sizeof_header;; connection_restore sizeof_header) c w = Done ((), c, w).
Proof.
  intros W Ho Hz E. assert (Hsz : connection_buffer_size (conn_in c) = 4 + zlen rest).
  { rewrite <- zlen_contents by apply W. rewrite E. unfold zlen. rewrite length_app, length_header_bytes. lia. }
  assert (0 <= zlen rest) by (unfold zlen; lia). unfold sizeof_header. split.
  - rewrite connection_get_eq by (done || lia). rewrite (proj2 (Z.ltb_ge _ _)) by lia.
    eexists _, _. split; [done|]. rewrite E. replace (Z.to_nat 4) with (length (header_bytes h))
      by by rewrite length_header_bytes.
    rewrite take_app_length. split; [by rewrite <- (app_nil_r (header_bytes h)), header_of_bytes|].
    split; [apply set_in_wf, consume_wf; try apply W; lia|]. cbn [conn_in set_in].
    rewrite contents_consume by (try apply W; lia). rewrite E.
    replace (Z.to_nat 4) with (length (header_bytes h)) by by rewrite length_header_bytes.
    apply drop_app_length.
  - apply connection_restore_get; [done|lia].
Qed.

End Connections.

(** A connection with three bytes to send, and a ping and a byte received. *)
Definition ping_header : proto_header := Header CLIENT_PING 0.
Definition busy_connection : connection :=
  set_in (buffer_write empty_buffer (header_bytes ping_header ++ [9]))
    (set_want_flush true (set_out (buffer_write empty_buffer [1; 2; 3]) (new_connection 7))).

Lemma busy_connection_wf : conn_wf busy_connection.
Proof.
  assert (Hb : forall src, Forall is_byte src -> zlen src <= 256 -> buffer_wf (buffer_write empty_buffer src)).
  { intros src Hs Hl. apply write_wf; [apply empty_buffer_wf|done|]. by change (0 + zlen src <= 256). }
  apply set_in_wf; [|apply Hb; [apply Forall_app; split; [apply header_bytes_byte|]|]];
    [|repeat constructor; unfold is_byte; lia|by vm_compute].
  destruct (new_connection_wf 7). split; cbn; try done.
  apply Hb; [repeat constructor; unfold is_byte; lia|by vm_compute].
Qed.


Lemma connection_put_atomic_witness :
  exists r c' w' d, @connection_put (demo (says [])) (replicate 255 4) busy_connection (Sys [] 0) =
    Done (r, c', w') /\ sends 7 d (Sys [] 0) w' /\ d = [1; 2; 3].
Proof.
  destruct (@connection_put_atomic (demo (says [])) (demo_ok (says [])) (replicate 255 4) busy_connection (Sys [] 0))
    as (r & c' & w' & d & E & _ & _ & _ & Hs & _).
  - apply busy_connection_wf.
  - apply Forall_replicate. unfold is_byte. lia.
  - exists r, c', w', d. split; [exact E|]. split; [exact Hs|].
    destruct Hs as [_ Hd]. specialize (Hd 7). cbn in Hd. rewrite <- Hd. revert E. vm_compute.
    by intros [= _ _ <-].
Defined.

Lemma connection_read_appends_witness :
  exists c' w', @connection_read (demo (says [[8; 9]])) busy_connection (Sys [] 0) = Done (7, c', w') /\
    contents (conn_in c') = header_bytes ping_header ++ [9; 8; 9].
Proof.
  destruct (@connection_read_appends (demo (says [[8; 9]])) (demo_ok _) busy_connection (Sys [] 0)
    busy_connection_wf) as (r & c' & w' & E & _).
  assert (Hrun : exists c0 w0, @connection_read (demo (says [[8; 9]])) busy_connection (Sys [] 0) = Done (7, c0, w0) /\
    contents (conn_in c0) = header_bytes ping_header ++ [9; 8; 9])
    by (eexists _, _; split; [vm_compute; reflexivity|vm_compute; reflexivity]).
  destruct Hrun as (c0 & w0 & E0 & H0). exists c', w'. rewrite E in E0. by injection E0 as -> -> ->.
Defined.

Lemma header_roundtrip_witness :
  exists bs c', connection_get sizeof_header busy_connection (Sys [] 0) = Done (Some bs, c', Sys [] 0) /\
    header_of bs = ping_header /\ contents (conn_in c') = [9].
Proof.
  destruct (header_roundtrip ping_header [9] busy_connection (Sys [] 0))
    as [(bs & c' & E & Hh & _ & Hc) _].
  - apply busy_connection_wf.
  - by vm_compute.
  - by vm_compute.
  - by vm_compute.
  - exists bs, c'. auto.
Defined.

(** ** common/terminal.c: paths *)

(** [get_tty_path] on FreeBSD, where the digits are produced by hand.
    VT [n] is device [n - 1] in base 32 ([0] for VT 0 as well); the loops build
    exactly that name in the 16-byte buffer, for every VT up to the 2^30-th, and
    refuse larger numbers with ENOMEM instead of overrunning it. *)
Theorem freebsd_tty_path (S : Type) (tty : Z) (s : S) (w : sys) :
  0 <= tty < 2 ^ 31 ->
  get_tty_path FreeBSD tty s w =
    if tty - 1 <? 2 ^ 30
    then Done (Some (str "/dev/ttyv" ++ numeral 32 (Z.max 0 (tty - 1))), s, w)
    else Done (None, s, Sys (trace w) ENOMEM).
Proof. apply get_tty_path_freebsd_ok. Qed.

Lemma freebsd_tty_path_witness :
  get_tty_path FreeBSD 1057 () (Sys [] 0) = Done (Some (str "/dev/ttyv110"), (), Sys [] 0).
Proof. rewrite (freebsd_tty_path () 1057 () (Sys [] 0)) by lia. by vm_compute. Defined.

(** ** common/wscons.c *)

(** [path_is_wscons] compares the wsmux prefix over the length of another
    one, so it accepts the multiplexer only by its bare name, which is not a
    device: every numbered device /dev/wsmux0, /dev/wsmux1, ... is refused. *)
Theorem wsmux_devices_refused (c : Z) (rest : bytes) :
  path_is_wscons NetBSD (str "/dev/wsmux") = true /\
  path_is_wscons NetBSD (str "/dev/wsmux" ++ c :: rest) = false.
Proof. apply wsmux_exact. Qed.
