(* ===== verification/SeatTheorems.v ===== *)
(** * Theorems about seatd/seat.c

    Each says that an operation, in any well-formed state of the daemon and
    whatever the kernel answers, returns, and what it leaves.  The conditions are
    those under which the daemon calls it. *)
From S2P Require Import Prelude Kernel Connection Protocol Devices Terminal State Poller Send Seat Client.
From S2P Require Import Control Server Invariant Lifecycle Rules SendOk SeatOk SeatSwitch SeatVt.
From S2P Require Import SeatDevices SeatMembers SeatRemove ClientOk ControlOk ServerOk Demo.

Section Seats.
Context `{K : Kernel} `{Kok : !KernelOk}.
Abbreviation wf := (server_wf nobody nobody nobody).
Implicit Types (s : server) (w : sys) (p c : nat) (t : seat) (k : client).



(** C24: [seat_activate] opens the right client.  With an active client it does
    nothing.  Otherwise it opens the queued client, else on a VT-bound seat one
    that owns the current VT by its session or a grouped VT, else the first of the
    list; when there is none to choose it fails and changes nothing. *)
Theorem seat_activate_chooses p t s w :
  wf s -> sv_seats s !! p = Some t ->
  exists r s' w', seat_activate p s w = Done (r, s', w') /\ activated_seat p t s w r s' w'.
Proof. intros W Ht. exact (wp_done _ _ _ _ (seat_activate_ok _ _ _ p t s w W Ht)). Qed.






(** C30: [seat_add_client] assigns the right session.  On a VT-bound seat the
    session is the current VT, as read again, and is not that of another client
    while an active one is on its way out; on another seat it is the smallest
    positive number no client has, and the search ends.  The client is then the
    first of the seat's list and of no other.  Every refusal has its reason and
    its error number. *)
Theorem seat_add_client_session c k p t s w :
  wf s -> sv_seats s !! p = Some t -> sv_clients s !! c = Some k ->
  exists r s' w', seat_add_client p c s w = Done (r, s', w') /\ wf s' /\ add_post p c t k s r s' w'.
Proof.
  intros W Ht Hk. destruct (wp_done _ _ _ _ (seat_add_client_ok nobody nobody p t c k s w W Ht Hk))
    as (r & s' & w' & E & Ha & _). exists r, s', w'.
  destruct (add_post_wf _ _ _ _ _ _ _ _ _ _ W Ht Hk Ha) as [W' _]. auto.
Qed.


(** closing a device undoes opening it.  Whatever device the client opens,
    new or shared, closing the id it got brings the daemon's state back to exactly
    what it was. *)
Theorem open_close_device_roundtrip c k dev_path id s w s1 w1 :
  wf s -> sv_clients s !! c = Some k -> is_Some (c_seat k) ->
  seat_open_device c dev_path s w = Done (Some id, s1, w1) ->
  exists w2, seat_close_device c id s1 w1 = Done ((), s, w2).
Proof.
  intros W Hk Hs E. pose proof (seat_open_device_ok nobody nobody c k dev_path s w W Hk Hs) as Ho.
  unfold wp in Ho. rewrite E in Ho. destruct Ho as [Ho _].
  destruct (open_device_close c k dev_path id s w s1 w1) as (k1 & d & Hk1 & Es & Et & Hd & <- & Wd & Eback);
    [by apply (vw_clients _ _ _ _ W _ _ Hk)|done|done|].
  destruct Hs as [p Hp]. destruct (wf_seated _ _ _ _ _ _ W Hk Hp) as (t & Ht & _).
  edestruct (wp_done (seat_close_device c (device_id d)) (fun _ s' w' => s' = s)) as ([] & s2 & w2 & E2 & ->).
  - eapply seat_close_device_ok; [done|by rewrite Es|by rewrite Et|done|done|]. intros. exact Eback.
  - eauto.
Qed.

(** grouped VTs.  [seat_create_group_vt] registers a positive VT, the one
    asked for or one the kernel says is free, that is neither the owner's session
    nor a grouped VT; the seat then knows its owner, and destroying the VT restores
    the seat.  Every refusal leaves the seat alone. *)
Theorem group_vt_create_destroy own k p t req user sess s w :
  wf s -> sv_seats s !! p = Some t -> sv_clients s !! own = Some k -> c_seat k = Some p ->
  exists r s' w', seat_create_group_vt p own req user sess s w = Done (r, s', w') /\ wf s' /\
    group_post p own t k req user sess s w r s' w' /\
    (0 < r -> seat_get_group_vt_owner_pid p r s' w' = Done (Some (c_pid k), s', w') /\
       exists w'', seat_destroy_group_vt p r s' w' = Done (0, s, w'')).
Proof.
  intros W Ht Hk Hp.
  destruct (wp_done _ _ _ _ (seat_create_group_vt_ok nobody nobody p t own k req user sess s w Ht Hk Hp))
    as (r & s' & w' & E & Hpost). exists r, s', w'.
  destruct (group_post_kept _ _ _ _ _ _ _ _ _ _ _ _ _ _ W Ht Hk Hp Hpost) as [W' _].
  split_and!; try done. intros Hr. destruct Hpost as [(-> & _)|(_ & _ & _ & Hnew & _ & ->)]; [lia|].
  by eapply group_vt_known.
Qed.

(** [seat_destroy] takes all clients of the seat with it.  The loop ends,
    the seat is gone from the server and freed, and the state is well-formed: no
    client refers to it any more. *)
Theorem seat_destroy_complete p t s w :
  wf s -> sv_seats s !! p = Some t ->
  exists s' w', seat_destroy p s w = Done ((), s', w') /\ wf s' /\
    seats s' = list_remove_id p (seats s) /\ sv_seats s' !! p = None /\
    (forall c k, sv_clients s' !! c = Some k -> c_seat k ≠ Some p).
Proof.
  intros W Ht. destruct (wp_done _ _ _ _ (seat_destroy_ok nobody p t s w W Ht))
    as ([] & s' & w' & E & W' & El & Hn). exists s', w'. split_and!; try done.
  intros c k Hk Hp. destruct (wf_seated _ _ _ _ _ _ W' Hk Hp) as (t' & Ht' & _). congruence.
Qed.

End Seats.

(** ** Witnesses

    The theorems at states of runs on the kernel of [Demo]: one client, active on
    VT 1 with a graphics device, or the same client asked to stop. *)

Abbreviation dk := (demo session_script).
Abbreviation dok := (demo_ok session_script).



Lemma seat_activate_chooses_witness :
  exists r s' w', @seat_activate dk 0 one.1 one.2 = Done (r, s', w') /\
    activated_seat 0 one_seat one.1 one.2 r s' w'.
Proof. exact (@seat_activate_chooses dk dok 0 one_seat one.1 one.2 one_wf one_seat_eq). Defined.






Lemma seat_add_client_session_witness :
  exists s' w', @seat_add_client dk 0 0 idle.1 idle.2 = Done (0, s', w') /\
    add_post 0 0 idle_seat idle_client idle.1 0 s' w'.
Proof.
  destruct (@seat_add_client_session dk 0 idle_client 0 idle_seat idle.1 idle.2)
    as (r & s' & w' & E & _ & Ha).
  - exact idle_wf.
  - vm_compute. reflexivity.
  - vm_compute. reflexivity.
  - assert (Er : r = 0) by (revert E; vm_compute; by intros [= <-]). subst r. eauto.
Defined.


Lemma open_close_device_roundtrip_witness :
  exists id s1 w1 w2, @seat_open_device dk 0 (str "/dev/input/event0") one.1 one.2 = Done (Some id, s1, w1) /\
    @seat_close_device dk 0 id s1 w1 = Done ((), one.1, w2).
Proof.
  destruct (@seat_open_device dk 0 (str "/dev/input/event0") one.1 one.2) as [[[[id|] s1] w1]| | |] eqn:E;
    try (vm_compute in E; discriminate E).
  destruct (@open_close_device_roundtrip dk 0 one_client (str "/dev/input/event0") id one.1 one.2 s1 w1)
    as [w2 E2].
  - exact one_wf.
  - exact one_client_eq.
  - rewrite one_client_seat. eauto.
  - exact E.
  - exists id, s1, w1, w2. auto.
Defined.

Lemma group_vt_create_destroy_witness :
  exists r s' w', @seat_create_group_vt dk 0 0 0 (str "u") (str "s") one.1 one.2 = Done (r, s', w') /\
    exists w'', @seat_destroy_group_vt dk 0 r s' w' = Done (0, one.1, w'').
Proof.
  destruct (@group_vt_create_destroy dk dok 0 one_client 0 one_seat 0 (str "u") (str "s") one.1 one.2)
    as (r & s' & w' & E & _ & _ & Hd).
  - exact one_wf.
  - exact one_seat_eq.
  - exact one_client_eq.
  - exact one_client_seat.
  - assert (Er : r = 7) by (revert E; vm_compute; by intros [= <-]). subst r.
    exists 7, s', w'. split; [exact E|]. by apply Hd.
Defined.

Lemma seat_destroy_complete_witness :
  exists s' w', @seat_destroy dk 0 one.1 one.2 = Done ((), s', w') /\ sv_seats s' !! 0%nat = None.
Proof.
  destruct (@seat_destroy_complete dk dok 0 one_seat one.1 one.2 one_wf one_seat_eq)
    as (s' & w' & E & _ & _ & Hn & _). eauto.
Defined.
