(* ===== verification/DaemonTheorems.v ===== *)
(** * Theorems about the daemon as a whole

    [main] starts the daemon or exits; once it is up, its loop, the signals and
    the watcher thread take turns, and [reachable] are the states it can get to,
    under any kernel that keeps the laws and whatever the peers send. *)
From S2P Require Import Prelude Kernel Connection Protocol Devices Terminal State Poller Send Seat Client.
From S2P Require Import Control Server Daemon Invariant Lifecycle Rules SendOk SeatOk SeatSwitch SeatVt.
From S2P Require Import SeatDevices SeatMembers SeatRemove ClientOk ControlOk PollerOk ServerOk DispatchOk.
From S2P Require Import StartOk DaemonOk Demo.

Section Daemon.
Context `{K : Kernel} `{Kok : !KernelOk}.
Abbreviation wf := (server_wf nobody nobody nobody).
Implicit Types (s : server) (w : sys).

Section Up.
Variables (defaultpath : bytes) (vtenv : option bytes) (args : list opt) (w0 : sys) (o : settings) (f : Z).
Abbreviation up_to s w := (reachable defaultpath vtenv args w0 o f (s, w)).



(** C3: the seat is granted to one client at a time.  In every reachable state,
    of the clients of a seat at most one is active or on its way out, and the seat
    knows it as its active client; conversely its active client is one of them. *)
Theorem one_open_client s w (p : nat) (t : seat) :
  up_to s w -> sv_seats s !! p = Some t ->
  (forall c k, sv_clients s !! c = Some k -> c_seat k = Some p -> is_open (state k) = true ->
     active_client t = Some c) /\
  (forall c, active_client t = Some c -> c ∈ clients t /\
     exists k, sv_clients s !! c = Some k /\ c_seat k = Some p /\ is_open (state k) = true).
Proof.
  intros Hr Ht. destruct (reachable_ok _ _ _ _ _ _ _ Hr) as [W _]. cbn in W. split.
  - intros c k Hk Hp Ho. destruct (wf_open_client _ _ s c k W Hk Ho) as (p' & t' & ? & ? & _ & ?).
    by simplify_eq.
  - intros c Hc. destruct (wf_active _ _ _ _ _ _ W Ht Hc) as (k & ? & ? & ? & ?). eauto 8.
Qed.

(** C4: the poller's sources and the daemon's objects match.  In every reachable
    state each live source of a client or control client calls back an allocated
    object that holds this very source, each object holds a live source, and each
    is on the list its seat or the server keeps of such objects: no callback can
    reach freed memory, no connection is left unserved, no object is leaked. *)
Theorem sources_match_objects s w :
  up_to s w ->
  (forall e c, live_source s client_handle_connection_fn e c ->
     exists k, sv_clients s !! c = Some k /\ c_event_source k = Some e) /\
  (forall c k, sv_clients s !! c = Some k ->
     (exists e, c_event_source k = Some e /\ live_source s client_handle_connection_fn e c) /\
     match c_seat k with
     | Some p => exists t, sv_seats s !! p = Some t /\ c ∈ clients t /\ p ∈ seats s
     | None => c ∈ idle_clients s
     end) /\
  (forall e c, live_source s control_client_handle_connection_fn e c ->
     exists k, sv_controls s !! c = Some k /\ cc_event_source k = Some e) /\
  (forall c k, sv_controls s !! c = Some k -> c ∈ control_clients s /\
     exists e, cc_event_source k = Some e /\ live_source s control_client_handle_connection_fn e c).
Proof.
  intros Hr. destruct (reachable_ok _ _ _ _ _ _ _ Hr) as [W _]. cbn in W. split_and!.
  - intros e c Hl. by apply live_source_object in Hl.
  - intros c k Hk. destruct (vw_clients _ _ _ _ W _ _ Hk) as [_ Hs _ _ Hseat]. split.
    + destruct (c_event_source k) as [e|]; [eauto|done].
    + destruct (c_seat k) as [p|] eqn:Hp.
      * destruct Hseat as (_ & t & Ht & [[]|[Hin _]]). exists t. split_and!; [done..|].
        apply (vw_seated _ _ _ _ W). eauto.
      * by destruct (vw_unseated _ _ _ _ W _ _ Hk Hp) as [?|[]].
  - intros e c Hl. by apply live_source_object in Hl.
  - intros c k Hk. destruct (vw_controls _ _ _ _ W _ _ Hk) as [_ Hs]. split.
    + destruct (vw_controlled _ _ _ _ W c) as [?|[]]; [eauto|done].
    + destruct (cc_event_source k) as [e|]; [eauto|done].
Qed.

(** a control client is dropped whole or kept whole, and its requests reach
    the clients only through the seat: when its connection is served in a reachable
    state, the handler returns 0 and it is still there, or -1 and it is freed. *)
Theorem control_connection_outcome s w (e c : nat) (mask : Z) :
  up_to s w -> live_source s control_client_handle_connection_fn e c ->
  exists r s' w', control_client_handle_connection c mask s w = Done (r, s', w') /\ wf s' /\
    (r = 0 /\ is_Some (sv_controls s' !! c) \/ r = -1 /\ sv_controls s' !! c = None).
Proof.
  intros Hr Hl. destruct (reachable_ok _ _ _ _ _ _ _ Hr) as [W _]. cbn in W.
  destruct (live_source_object _ _ _ _ W Hl) as (k & Hk & _).
  exact (wp_done _ _ _ _ (control_client_handle_connection_ok c mask s w W (ex_intro _ k Hk))).
Qed.

(** C6: SIGINT and SIGTERM stop the daemon.  In a reachable state the signal is
    noted; as poll(2) reports the pipe the note was written to, the next turn of
    the main loop is the last, or the one after it is and gives status 0.  When the
    daemon has exited everything is freed. *)
Theorem stop_signal_stops s w (sig : Z) :
  up_to s w -> sig = SIGINT \/ sig = SIGTERM -> pipe_reported s w ->
  exists s1 w1, perform o f (Interrupt sig) s w = Done (None, s1, w1) /\
    forall late, enabled s1 (Iterate late) ->
      exists r s2 w2, perform o f (Iterate late) s1 w1 = Done (r, s2, w2) /\
        match r with
        | Some _ => released s2
        | None => forall late', exists s3 w3,
            perform o f (Iterate late') s2 w2 = Done (Some 0, s3, w3) /\ released s3
        end.
Proof.
  intros Hr Hsig Hp. pose proof (reachable_ok _ _ _ _ _ _ _ Hr) as D. cbn in D.
  assert (Ha : may_arrive s sig) by (intros [->| ->]; by destruct Hsig).
  destruct (wp_done _ _ _ _ (signal_handler_polls sig s w D Ha Hp)) as ([] & s1 & w1 & E1 & D1 & Hp1 & n & ->).
  exists (set_signal_pipe n (raise_signal sig s)), w1. split.
  { cbn. unfold mbind, M_bind. by rewrite E1. }
  intros late Hl.
  destruct (wp_done _ _ _ _ (stopping_turn_ok o f late _ w1 D1 Hl (raised_stops _ _ _ D Hsig) Hp1))
    as (r & s2 & w2 & E2 & H2).
  exists r, s2, w2. split; [exact E2|]. destruct r as [ret|]; [done|]. destruct H2 as [D2 R2]. intros late'.
  destruct (wp_done _ _ _ _ (last_turn_ok o f late' s2 w2 D2 R2)) as (r & s3 & w3 & E3 & -> & Hrel).
  by exists s3, w3.
Qed.

End Up.

(** C5: [main] starts the daemon or exits cleanly.  From the zeroed structure
    it returns: the daemon is up, with the invariants of the server and the poller,
    one empty seat called seat0, bound to the VTs as SEATD_VTBOUND says, and its
    sockets registered; or it has exited with everything freed, and then because
    of its options (with the status they give), because of a file at the path of
    a socket, or because a call was denied (with status 1). *)
Theorem main_start_outcome (defaultpath : bytes) (vtenv : option bytes) (args : list opt) w :
  exists st s' w', main_start defaultpath vtenv args zero_server w = Done (st, s', w') /\
    match st with
    | Running o f => up (vt_bound_of vtenv) o s'
    | Exited r => released s' /\ turned_away defaultpath args w r
    end.
Proof. exact (wp_done _ _ _ _ (main_start_ok defaultpath vtenv args w)). Qed.


(** C11: the poller asks for what it serves.  In a state with the invariants
    one poll completes with the invariants: it fails because the kernel refused
    it, or it asked poll(2) for the signal pipe and then, in the order of the list,
    for exactly the live sources with their present masks, whether or not the
    array had to be rebuilt. *)
Theorem poller_poll_asks s w (late : Z -> list Z) :
  wf s -> poller_wf s -> enabled s (Iterate late) ->
  exists r s' w', poller_poll late s w = Done (r, s', w') /\ wf s' /\ poller_wf s' /\
    (r = -1 /\ refused w w' \/
     r = 0 /\ exists rep w0 w1, sys_le w w0 /\ polled s rep w0 w1 /\ sys_le w1 w' /\ r_ret rep ≠ -1).
Proof.
  intros W P Ha. destruct (wp_done _ _ _ _ (poller_poll_ok late s w (conj W P) Ha)) as (r & s' & w' & E & [W' P'] & _ & H).
  exists r, s', w'. split_and!; [done..|]. destruct H as [?|(-> & rep & w1 & w2 & ? & ? & ? & ? & _)]; [by left|].
  right. split; [done|]. by exists rep, w1, w2.
Qed.

(** C12: the dispatch skips no source and serves none twice.  The loop follows
    the links of the list of sources while the handlers it calls add and remove
    sources; it does the same as one that goes through the list as it was at the
    beginning. *)
Theorem dispatch_follows_list s w :
  wf s -> poller_wf s ->
  dispatch_fds (length (sv_sources s)) (hd_error (es_id <$> sv_sources s)) s w =
  for_each dispatch_fd (es_id <$> sv_sources s) s w /\
  exists s' w', for_each dispatch_fd (es_id <$> sv_sources s) s w = Done ((), s', w') /\ wf s' /\ poller_wf s'.
Proof.
  intros W P. split.
  - apply (dispatch_fds_each _ []); [done|done|]. by rewrite length_fmap.
  - destruct (wp_done _ _ _ _ (dispatch_each_ok (es_id <$> sv_sources s) s w (conj W P) ltac:(done)))
      as ([] & s' & w' & E & [? ?] & _). eauto 8.
Qed.

End Daemon.

(** ** Runs on a concrete kernel *)

Abbreviation dk := (demo session_script).
Abbreviation dok := (demo_ok session_script).



Lemma one_open_client_witness :
  reached session_script [] demo_settings (-1) (one.1, one.2) /\ sv_seats one.1 !! 0%nat = Some one_seat /\
  (forall c, active_client one_seat = Some c -> c ∈ clients one_seat).
Proof.
  split_and!; [exact one_reachable|exact one_seat_eq|]. intros c Hc.
  by destruct (@one_open_client dk dok demo_path None [] w_start demo_settings (-1) one.1 one.2 0 one_seat
    one_reachable one_seat_eq) as [_ H]; destruct (H c Hc).
Defined.

Lemma sources_match_objects_witness :
  exists e, c_event_source one_client = Some e /\ live_source one.1 client_handle_connection_fn e 0.
Proof.
  destruct (@sources_match_objects dk dok demo_path None [] w_start demo_settings (-1) one.1 one.2 one_reachable)
    as (_ & H & _).
  exact (proj1 (H 0%nat one_client one_client_eq)).
Defined.

Lemma control_connection_outcome_witness :
  exists r s' w',
    @control_client_handle_connection (demo control_script) 0 1 controlled.1 controlled.2 = Done (r, s', w') /\
    r = 0 /\ is_Some (sv_controls s' !! 0%nat).
Proof.
  destruct (@control_connection_outcome (demo control_script) (demo_ok control_script) demo_path None control_args
    w_start controlled_run.1.1 controlled_run.1.2 controlled.1 controlled.2 4 0 1 controlled_reachable)
    as (r & s' & w' & E & _).
  { unfold live_source. vm_compute. eexists. split; [left|by split_and!]. }
  exists r, s', w'. split; [exact E|]. revert E. vm_compute. intros [= <- <- <-]. split; [done|eauto].
Defined.

Lemma main_start_outcome_witness :
  exists o f s' w', @main_start dk demo_path None [] zero_server w_start = Done (Running o f, s', w') /\
    up true o s'.
Proof.
  destruct (@main_start_outcome dk dok demo_path None [] w_start) as ([r|o f] & s' & w' & E & H).
  - exfalso. revert E. vm_compute. discriminate.
  - exists o, f, s', w'. split; [exact E|exact H].
Defined.

Lemma stop_signal_stops_witness :
  @pipe_reported dk one.1 one.2 /\
  exists s1 w1, @perform dk demo_settings (-1) (Interrupt SIGTERM) one.1 one.2 = Done (None, s1, w1) /\
    exists r s2 w2, @perform dk demo_settings (-1) (Iterate (fun _ => [])) s1 w1 = Done (r, s2, w2).
Proof.
  split; [exact one_reported|].
  destruct (@stop_signal_stops dk dok demo_path None [] w_start demo_settings (-1) one.1 one.2 SIGTERM
    one_reachable (or_intror eq_refl) one_reported) as (s1 & w1 & E1 & H).
  exists s1, w1. split; [exact E1|].
  destruct (H (fun _ => [])) as (r & s2 & w2 & E2 & _); [intros sig; constructor|].
  exists r, s2, w2. exact E2.
Defined.


Lemma poller_poll_asks_witness :
  enabled one.1 (Iterate (fun _ => [])) /\
  exists r s' w', @poller_poll dk (fun _ => []) one.1 one.2 = Done (r, s', w') /\ poller_wf s'.
Proof.
  assert (He : enabled one.1 (Iterate (fun _ => []))) by (intros; constructor).
  split; [exact He|].
  destruct (@poller_poll_asks dk dok one.1 one.2 (fun _ => []) (proj1 one_ok) (proj2 one_ok) He)
    as (r & s' & w' & E & _ & P & _).
  exists r, s', w'. split; [exact E|exact P].
Defined.

Lemma dispatch_follows_list_witness :
  exists s' w', for_each (@dispatch_fd dk) (es_id <$> sv_sources one.1) one.1 one.2 = Done ((), s', w') /\
    poller_wf s'.
Proof.
  destruct (@dispatch_follows_list dk dok one.1 one.2 (proj1 one_ok) (proj2 one_ok)) as (_ & s' & w' & E & _ & P).
  exists s', w'. split; [exact E|exact P].
Defined.
