(* ===== verification/FindingTheorems.v ===== *)
(** * Runs and theorems behind the findings

    Behaviour of the code that its comments or its callers do not expect, each
    shown by a run of the whole daemon on a kernel that keeps the laws, or by a
    theorem about the function. *)
From S2P Require Import Prelude Kernel Connection Protocol Devices Terminal State Poller Send Seat Client.
From S2P Require Import Control Server Daemon Invariant PollerOk DispatchOk StartOk DaemonOk Demo.

(** ** A disabled client that is DRM master *)

(** The last request for DRM master, or to drop it, on a descriptor. *)
Fixpoint last_master (f : Z) (h : history) : option ioctl_request :=
  match h with
  | [] => None
  | (Ioctl g req, _) :: h' =>
      match req with
      | DRM_IOCTL_SET_MASTER | DRM_IOCTL_DROP_MASTER => if g =? f then Some req else last_master f h'
      | _ => last_master f h'
      end
  | _ :: h' => last_master f h'
  end.

(** The VT changes from 1 to 2, back to 1, and to 2 again, with the signals the
    kernel sends before each; only then does the client acknowledge that it was
    disabled. *)
Definition flicker_script : scenario :=
  Scenario (sc_msgs session_script ++ [msg_disable])
    (sc_polls session_script ++
       [[POLLIN]; [0; 0; 0; POLLIN]; [POLLIN]; [0; 0; 0; POLLIN]; [POLLIN]; [0; 0; 0; POLLIN]; [0; POLLIN]])
    [(1, 2); (2, 1); (1, 2)].
Definition flicker_events : list event :=
  session_events ++ [Signal SIGUSR1; Turn; Switch; Turn; Signal SIGUSR2; Turn; Switch; Turn;
                     Signal SIGUSR1; Turn; Switch; Turn; Turn].

(** C36: a disabled client can be left DRM master on another client's VT.  If the VT
    comes back while the client still owes the acknowledgement that it was
    disabled, DRM master is restored to it; when the VT leaves again, neither the
    release nor the change event nor the acknowledgement takes it away, because
    the client is no longer active. *)
Theorem disabled_client_keeps_master :
  exists s w k d t, reached flicker_script [] demo_settings (-1) (s, w) /\
    sv_clients s !! 0%nat = Some k /\ state k = CLIENT_DISABLED /\
    d ∈ devices k /\ dev_type d = SEAT_DEVICE_TYPE_DRM /\ active d = true /\
    last_master (dev_fd d) (trace w) = Some DRM_IOCTL_SET_MASTER /\
    sv_seats s !! 0%nat = Some t /\ cur_vt t = 2 /\ session k = 1.
Proof.
  set (st := (after flicker_script [] flicker_events).2).
  assert (Hr : reached flicker_script [] demo_settings (-1) (st.1, st.2)).
  { apply after_reachable; [vm_compute; eauto|vm_compute; reflexivity]. }
  exists st.1, st.2. eexists _, _, _. split; [exact Hr|]. clear Hr.
  split; [vm_compute; reflexivity|]. split; [vm_compute; reflexivity|]. split; [left|].
  split_and!; vm_compute; reflexivity.
Qed.

(** ** A VT signal before the VT is known *)

(** A machine whose terminals cannot be opened, with a poll(2) that reports the
    signal pipe. *)
Definition blind_answer (h : history) (c : call) : reply :=
  match c with Open _ _ => reply_err ENOENT | _ => demo_answer (says []) h c end.
Definition blind : Kernel := {| answer := blind_answer; eintr_limit := 1; has_hidiocrevoke := true; libseat_build := false |}.

Lemma blind_ok : @KernelOk blind.
Proof.
  pose proof (demo_ok (says [])) as [H1 H2 H3 H4 H5 H6 H7].
  split; [exact H1|exact H2|exact H3|exact H4|exact H5|exact H6|].
  intros h c. left. destruct (H7 h c) as [H|[]]. by destruct c.
Qed.

(** Whether a signal right after the start aborts the daemon in its next turn. *)
Definition aborts_on `{K : Kernel} (sig : Z) : bool :=
  match main_start demo_path None [] zero_server w_start with
  | Done (Running o f, s, w) =>
      match perform o f (Interrupt sig) s w with
      | Done (None, s1, w1) =>
          match perform o f (Iterate (fun _ => [])) s1 w1 with Aborted => true | _ => false end
      | _ => false
      end
  | _ => false
  end.

Lemma aborts_on_run `{K : Kernel} sig :
  aborts_on sig = true ->
  exists o f s w s1 w1,
    reachable demo_path None [] w_start o f (s, w) /\
    perform o f (Interrupt sig) s w = Done (None, s1, w1) /\
    perform o f (Iterate (fun _ => [])) s1 w1 = Aborted.
Proof.
  unfold aborts_on. destruct (main_start _ _ _ _ _) as [[[[r|o f] s] w]| | |] eqn:E; try done.
  destruct (perform o f (Interrupt _) s w) as [[[[r|] s1] w1]| | |] eqn:E1; try done.
  destruct (perform o f (Iterate _) s1 w1) eqn:E2; try done. intros _.
  exists o, f, s, w, s1, w1. split_and!; [by apply reach_start|done|done].
Qed.

(** C37: SIGUSR1 can abort the daemon.  Where the current VT could not be read,
    the seat still has the VT -1; the signal makes the daemon release that VT, and
    the terminal is opened with a negative number, which an assertion forbids.
    Progress of the daemon therefore needs that VT signals come only after the VT
    is known. *)
Theorem vt_signal_aborts :
  @KernelOk blind /\
  exists o f s w s1 w1,
    @reachable blind demo_path None [] w_start o f (s, w) /\
    @perform blind o f (Interrupt SIGUSR1) s w = Done (None, s1, w1) /\
    @perform blind o f (Iterate (fun _ => [])) s1 w1 = Aborted.
Proof. split; [exact blind_ok|]. apply aborts_on_run. vm_compute. reflexivity. Qed.

(** ** Signals *)

(** a signal that arrives while the function of its source runs is lost.
    The mark of the source is cleared after the function has returned, so a second
    signal of the same kind in between leaves no mark, and the function is not
    called for it. *)
Theorem late_signal_lost `{K : Kernel} `{Kok : !KernelOk} (late : Z -> list Z) (b : event_source_signal) s w :
  daemon_wf s -> poller_wf s -> enabled s (Iterate late) ->
  b ∈ signals s -> sg_raised b = true -> sg_signal b ∈ late (sg_signal b) ->
  exists s' w', dispatch_signal late (sg_id b) s w = Done ((), s', w') /\
    poller_wf s' /\ forall b', b' ∈ signals s' -> sg_id b' = sg_id b -> sg_raised b' = false.
Proof.
  intros W P Ha Hb _ _.
  destruct (wp_done _ _ _ _ (dispatch_signal_ok late (sg_id b) s w (conj W P) (list_elem_of_fmap_2 _ _ _ Hb) Ha))
    as ([] & s' & w' & E & [_ P'] & _ & _ & Hc).
  exists s', w'. split_and!; [done|done|]. intros b' Hb' Hid. destruct (sg_raised b') eqn:Er; [|done].
  specialize (Hc _ Hb' Hid Er). pose proof (pw_signals_live _ P') as L. rewrite Forall_forall in L.
  rewrite (L _ Hb') in Hc. done.
Qed.

(** SIGUSR1 was noted in the state [one]. *)
Definition signalled : server := set_signal_pipe 1 (raise_signal SIGUSR1 one.1).
Definition signalled_source : event_source_signal :=
  EventSourceSignal 0 server_handle_vt_rel_fn SIGUSR1 true false.

Lemma one_may_arrive : may_arrive one.1 SIGUSR1.
Proof. apply (enabled_b_true _ (Signal SIGUSR1)). vm_compute. reflexivity. Qed.

Lemma signalled_ok : daemon_ok signalled.
Proof. exact (raise_signal_ok SIGUSR1 1 one.1 one_ok one_may_arrive). Qed.

Lemma signalled_late : enabled signalled (Iterate (fun _ => [SIGUSR1])).
Proof. intros sig. constructor; [exact (may_arrive_raise _ _ _ _ one_may_arrive)|constructor]. Qed.

Lemma late_signal_lost_witness :
  let late := fun _ : Z => [SIGUSR1] in
  exists s' w', @dispatch_signal (demo session_script) late 0 signalled one.2 = Done ((), s', w') /\
    forall b', b' ∈ signals s' -> sg_id b' = 0%nat -> sg_raised b' = false.
Proof.
  intros late.
  destruct (@late_signal_lost (demo session_script) (demo_ok _) late signalled_source signalled one.2)
    as (s' & w' & E & _ & H).
  - exact (proj1 signalled_ok).
  - exact (proj2 signalled_ok).
  - exact signalled_late.
  - vm_compute. do 3 right. left.
  - reflexivity.
  - left.
  - exists s', w'. split; [exact E|exact H].
Defined.

(** the poller never gives a signal back.  [event_source_signal_destroy] is
    to restore the default action with the last source of a signal, but it counts
    the source it destroys: no call is made, ever. *)
Theorem signal_destroy_keeps_handler `{K : Kernel} (id : nat) (b : event_source_signal) s w :
  find_signal id s = Some b -> sg_killed b = false ->
  exists s', event_source_signal_destroy id s w = Done (0, s', w).
Proof.
  intros Hf Hk. unfold event_source_signal_destroy, mbind, M_bind. cbn -[filter find_signal].
  rewrite Hf. cbn -[filter find_signal].
  destruct (length _ =? 0)%nat eqn:E; [|eexists; reflexivity]. exfalso.
  apply Nat.eqb_eq, length_zero_iff_nil in E.
  assert (Hb : b ∈ signals s).
  { unfold find_signal in Hf. destruct (list_find _ _) as [[i b']|] eqn:Hl; [|done]. injection Hf as <-.
    apply list_find_Some in Hl as (Hl & _). by eapply list_elem_of_lookup_2. }
  eapply not_elem_of_nil. rewrite <- E. apply list_elem_of_filter. eauto.
Qed.

Lemma signal_destroy_keeps_handler_witness :
  exists s', @event_source_signal_destroy (demo session_script) 0 one.1 one.2 = Done (0, s', one.2).
Proof.
  eapply (@signal_destroy_keeps_handler (demo session_script) 0); vm_compute; reflexivity.
Defined.
