(* ===== verification/EmbeddedTheorems.v ===== *)
(** * Theorems about the server inside libseat

    The child that the builtin backend forks. *)
From S2P Require Import Prelude Kernel Connection Protocol State Server Daemon Embedded Invariant.
From S2P Require Import PollerOk ServerOk DispatchOk StartOk DaemonOk EmbeddedOk Demo.


(** ** An embedded server *)






