(* ===== verification/Backend.v ===== *)
(** * include/libseat.h, include/backend.h: the state of the client library

    libseat is the other end of the daemon's socket.  A program that uses it holds
    a pointer to a [struct libseat], the base of the object of the backend that
    opened the seat; the state of the model is that object, or [None] when there
    is none: before the seat is opened, and after it is freed. *)
From S2P Require Import Prelude Kernel Connection Protocol.

(** [struct backend_seatd] of libseat/backend/seatd.c.  The listener is the class
    below; the pending events are the opcodes in the order of the list. *)
Record backend_seatd := BackendSeatd {
  bs_connection : connection;
  pending_events : list Z;
  awaiting_pong : bool;
  bs_error : bool;
  bs_seat_name : bytes     (* char[MAX_SEAT_LEN] *)
}.

(** [struct backend_noop] of libseat/backend/noop.c. *)
Record backend_noop := BackendNoop {
  initial_setup : bool;
  sockets : Z * Z
}.

(** [struct backend_logind] of libseat/backend/logind.c; [bus] tells whether the
    pointer is set. *)
Record backend_logind := BackendLogind {
  bus : bool;
  session_id : option bytes;
  lg_seat : option bytes;
  lg_path : option bytes;
  seat_path : option bytes;
  active : bool;
  lg_initial_setup : bool
}.

(** [struct libseat]: the implementation it points to tells which object it is
    the base of. *)
Inductive libseat :=
| Seatd (b : backend_seatd)
| Noop (b : backend_noop)
| Logind (b : backend_logind).

Definition handle : Type := option libseat.

Definition set_bs_connection x b := BackendSeatd x (pending_events b) (awaiting_pong b) (bs_error b) (bs_seat_name b).
Definition set_pending_events x b := BackendSeatd (bs_connection b) x (awaiting_pong b) (bs_error b) (bs_seat_name b).
Definition set_awaiting_pong x b := BackendSeatd (bs_connection b) (pending_events b) x (bs_error b) (bs_seat_name b).
Definition set_bs_error x b := BackendSeatd (bs_connection b) (pending_events b) (awaiting_pong b) x (bs_seat_name b).
Definition set_bs_seat_name x b := BackendSeatd (bs_connection b) (pending_events b) (awaiting_pong b) (bs_error b) x.

Definition set_bus x b := BackendLogind x (session_id b) (lg_seat b) (lg_path b) (seat_path b) (active b) (lg_initial_setup b).
Definition set_session_id x b := BackendLogind (bus b) x (lg_seat b) (lg_path b) (seat_path b) (active b) (lg_initial_setup b).
Definition set_lg_seat x b := BackendLogind (bus b) (session_id b) x (lg_path b) (seat_path b) (active b) (lg_initial_setup b).
Definition set_lg_path x b := BackendLogind (bus b) (session_id b) (lg_seat b) x (seat_path b) (active b) (lg_initial_setup b).
Definition set_seat_path x b := BackendLogind (bus b) (session_id b) (lg_seat b) (lg_path b) x (active b) (lg_initial_setup b).
Definition set_lg_active x b := BackendLogind (bus b) (session_id b) (lg_seat b) (lg_path b) (seat_path b) x (lg_initial_setup b).
Definition set_lg_initial_setup x b := BackendLogind (bus b) (session_id b) (lg_seat b) (lg_path b) (seat_path b) (active b) x.

(** [struct libseat_seat_listener]: the functions of the application. *)
Class Listener := {
  listener_enable_seat : M handle ();
  listener_disable_seat : M handle ()
}.

(** A call of one of them, which the history records. *)
Definition notify `{K : Kernel} `{L : Listener} (enabled : bool) : M handle () :=
  ext (Notify enabled);;
  if enabled then listener_enable_seat else listener_disable_seat.

(** The object of a backend, through a pointer to it. *)
Definition seatd_of (h : handle) : option backend_seatd :=
  match h with Some (Seatd b) => Some b | _ => None end.
Definition noop_of (h : handle) : option backend_noop :=
  match h with Some (Noop b) => Some b | _ => None end.
Definition logind_of (h : handle) : option backend_logind :=
  match h with Some (Logind b) => Some b | _ => None end.

Definition get_logind : M handle backend_logind := h ← get; deref (logind_of h).
Definition upd_logind (f : backend_logind -> backend_logind) : M handle () :=
  zoom logind_of (fun b _ => Some (Logind b)) (modify f).

Definition get_backend : M handle backend_seatd := h ← get; deref (seatd_of h).
Definition on_backend {A} (m : M backend_seatd A) : M handle A :=
  zoom seatd_of (fun b _ => Some (Seatd b)) m.
Definition upd_backend (f : backend_seatd -> backend_seatd) : M handle () := on_backend (modify f).
Definition on_connection {A} (m : M connection A) : M handle A :=
  on_backend (zoom (fun b => Some (bs_connection b)) set_bs_connection m).
