(* ===== verification/LibseatSeatd.v ===== *)
(** * libseat/backend/seatd.c: the client of the daemon

    The backend that opens a seat through the daemon's socket.  Requests are
    written to the connection and the library waits for the response; events that
    arrive in between are queued for the next dispatch.  [patience] is the number of
    times a request polls for its response: a request that is still waiting then
    is a [Hang]. *)
From S2P Require Import Prelude Kernel Connection Protocol Backend.

Section Seatd.
Context `{K : Kernel} `{L : Listener}.

(** [strncpy] into [sun_path], less its last byte. *)
Definition seatd_connect (default_path : bytes) (sock_env : option bytes) : M handle Z :=
  r ← ext Socket;
  let f := r_ret r in
  if f =? -1 then mret (-1) else
  let path := default default_path sock_env in
  r ← ext (Connect f (take 107 path));
  if r_ret r =? -1 then ext (Close f);; mret (-1) else
  mret f.

Definition backend_seatd_from_libseat_backend : M handle backend_seatd :=
  h ← get;
  o ← deref h;
  match o with Seatd b => mret b | _ => abort end.

(** ** Losing the connection *)

Definition cleanup : M handle () :=
  b ← get_backend;
  let f := fd (bs_connection b) in
  (if f =? -1 then mret () else ext (Shutdown f);; mret ());;
  on_connection connection_close_fds;;
  upd_backend (set_pending_events []).

Definition destroy : M handle () :=
  b ← get_backend;
  let f := fd (bs_connection b) in
  (if f =? -1 then mret () else ext (Close f);; on_connection (modify (set_fd (-1))));;
  cleanup;;
  modify (fun _ => None).

Definition set_error : M handle () :=
  b ← get_backend;
  if bs_error b then mret () else
  stored_errno ← get_errno;
  upd_backend (set_bs_error true);;
  cleanup;;
  set_errno stored_errno.

(** ** The connection, with errors that end it *)

Definition conn_put (src : bytes) : M handle Z :=
  r ← on_connection (connection_put src);
  if r =? -1 then set_error;; mret (-1) else mret 0.

Definition conn_flush : M handle Z :=
  r ← on_connection connection_flush;
  if r =? -1 then set_error;; mret (-1) else mret 0.

(** The bytes read; [None] is the return value -1. *)
Definition conn_get (target_len : Z) : M handle (option bytes) :=
  o ← on_connection (connection_get target_len);
  match o with
  | None => set_error;; fail_with EBADMSG None
  | Some bs => mret (Some bs)
  end.

Definition conn_get_fd : M handle (option Z) :=
  o ← on_connection connection_get_fd;
  match o with
  | None => set_error;; fail_with EBADMSG None
  | Some f => mret (Some f)
  end.

(** The size of the message; [None] is [SIZE_MAX]. *)
Definition read_header (expected_opcode expected_size : Z) (variable : bool) : M handle (option Z) :=
  o ← conn_get sizeof_header;
  match o with
  | None => set_error;; mret None
  | Some bs =>
      let header := header_of bs in
      if negb (opcode header =? expected_opcode) then
        if negb (opcode header =? SERVER_ERROR) || negb (size header =? 4) then
          set_error;; fail_with EBADMSG None
        else
        m ← conn_get 4;
        match m with
        | None => set_error;; fail_with EBADMSG None
        | Some msg => fail_with (int_of msg) None
        end
      else
      if (negb variable && negb (size header =? expected_size)) ||
         (variable && (size header <? expected_size))
      then set_error;; fail_with EBADMSG None
      else mret (Some (size header))
  end.

(** ** Events *)

Definition queue_event (opcode : Z) : M handle Z :=
  r ← ext Calloc;
  if r_ret r =? -1 then mret (-1) else
  upd_backend (fun b => set_pending_events (opcode :: pending_events b) b);;
  mret 0.

(** The loop over the list taken from the backend. *)
Fixpoint run_events (list : list Z) (executed : Z) : M handle Z :=
  match list with
  | [] => mret executed
  | opcode :: list' =>
      (if opcode =? SERVER_DISABLE_SEAT then get_backend;; notify false
       else if opcode =? SERVER_ENABLE_SEAT then get_backend;; notify true
       else abort);;
      run_events list' (executed + 1)
  end.

Definition execute_events : M handle Z :=
  b ← get_backend;
  upd_backend (set_pending_events []);;
  run_events (pending_events b) 0.

(** The loop over the messages in the buffer, with the return value and the
    opcode stored.  [want_opcode]: the caller gave a pointer for the opcode. *)
Fixpoint read_and_queue_loop (fuel : nat) (want_opcode : bool) (packets : Z) : M handle (Z * Z) :=
  o ← on_connection (connection_get sizeof_header);
  match o with
  | None => mret (packets, 0)
  | Some bs =>
      let header := header_of bs in
      match fuel with
      | O => hang
      | S fuel' =>
          let packets := packets + 1 in
          if opcode header =? SERVER_PONG then
            upd_backend (set_awaiting_pong false);;
            read_and_queue_loop fuel' want_opcode packets
          else if (opcode header =? SERVER_DISABLE_SEAT) || (opcode header =? SERVER_ENABLE_SEAT) then
            r ← queue_event (opcode header);
            if r =? -1 then set_error;; mret (-1, 0) else
            read_and_queue_loop fuel' want_opcode packets
          else if negb want_opcode then
            set_error;;
            set_errno EBADMSG;;
            on_connection (connection_restore sizeof_header);;
            mret (-1, 0)
          else
            b ← get_backend;
            on_connection (connection_restore sizeof_header);;
            mret (packets,
              if size header <=? connection_pending (bs_connection b) then opcode header else 0)
      end
  end.

(** Every message takes its header out of the 256-byte buffer. *)
Definition read_and_queue (want_opcode : bool) : M handle (Z * Z) :=
  read_and_queue_loop 64 want_opcode 0.

Definition poll_connection (timeout : Z) : M handle Z :=
  b ← get_backend;
  r ← ext (Poll [(fd (bs_connection b), POLLIN)] timeout);
  if r_ret r =? -1 then
    e ← get_errno;
    mret (if (e =? EAGAIN) || (e =? EINTR) then 0 else -1)
  else
  let revents := r_val 0 r in
  if has_event revents (Z.lor POLLERR POLLHUP) then
    set_error;; fail_with EPIPE (-1)
  else
  if has_event revents POLLIN then
    len ← on_connection connection_read;
    if len =? 0 then set_error;; fail_with EIO (-1) else
    e ← get_errno;
    if (len =? -1) && negb (e =? EAGAIN) then set_error;; mret (-1) else
    mret len
  else mret 0.

(** The [while (true)] of [read_until_response]. *)
Fixpoint await_response (patience : nat) : M handle Z :=
  '(r, opcode) ← read_and_queue true;
  if r =? -1 then mret (-1) else
  if negb (opcode =? 0) then mret 0 else
  match patience with
  | O => hang
  | S patience' =>
      r ← poll_connection (-1);
      if r =? -1 then mret (-1) else await_response patience'
  end.

Definition read_until_response (patience : nat) : M handle Z :=
  r ← conn_flush;
  if r =? -1 then mret (-1) else await_response patience.

(** ** The operations of [seatd_impl] *)

Definition get_fd : M handle Z :=
  backend ← backend_seatd_from_libseat_backend;
  mret (fd (bs_connection backend)).

Definition seat_name : M handle bytes :=
  backend ← backend_seatd_from_libseat_backend;
  mret (cstring (bs_seat_name backend)).

Definition dispatch (timeout : Z) : M handle Z :=
  backend ← backend_seatd_from_libseat_backend;
  if bs_error backend then fail_with ENOTCONN (-1) else
  '(predispatch, _) ← read_and_queue false;
  if predispatch =? -1 then mret (-1) else
  n ← execute_events;
  let predispatch := predispatch + n in
  let immediate_read := (0 <? predispatch) || (timeout =? 0) in
  read ← (if immediate_read then on_connection connection_read else poll_connection timeout);
  e ← get_errno;
  if read =? 0 then mret predispatch else
  if (read =? -1) && negb (e =? EAGAIN) then mret (-1) else
  '(postdispatch, _) ← read_and_queue false;
  if postdispatch =? -1 then mret (-1) else
  n ← execute_events;
  mret (predispatch + (postdispatch + n)).

(** [conn_put(a) == -1 || conn_put(b) == -1 || ...] *)
Fixpoint conn_puts (msgs : list bytes) : M handle Z :=
  match msgs with
  | [] => mret 0
  | m :: msgs' => r ← conn_put m; if r =? -1 then mret (-1) else conn_puts msgs'
  end.

(** [... || read_until_response() == -1] *)
Definition send_request (patience : nat) (msgs : list bytes) : M handle Z :=
  r ← conn_puts msgs;
  if r =? -1 then mret (-1) else read_until_response patience.

(** [calloc], with the connection's descriptor set. *)
Definition new_backend (f : Z) : backend_seatd :=
  BackendSeatd (new_connection f) [] false false (replicate 64 0).

(** The name in the response, as [_open_seat] stores it; [inr] is [res] at
    [goto backend_error]. *)
Definition read_seat_name (size : Z) : M handle (() + Z) :=
  o ← conn_get 2;
  match o with
  | None => e ← get_errno; mret (inr (i32 (- e)))
  | Some rmsg =>
      let seat_name_len := u16_of rmsg in
      if negb (seat_name_len =? size - 2) then mret (inr (- EBADMSG)) else
      if MAX_SEAT_LEN <? seat_name_len then mret (inr (- EBADMSG)) else
      o ← conn_get seat_name_len;
      match o with
      | None => e ← get_errno; mret (inr (i32 (- e)))
      | Some name =>
          upd_backend (fun b => set_bs_seat_name (memcpy (bs_seat_name b) 0 name) b);;
          b ← get_backend;
          seat_name_len ←
            (if (seat_name_len =? 0) ||
                ((seat_name_len <? MAX_SEAT_LEN) &&
                 negb (nth (Z.to_nat (seat_name_len - 1)) (bs_seat_name b) 0 =? 0))
             then
               upd_backend (fun b => set_bs_seat_name (memcpy (bs_seat_name b) seat_name_len [0]) b);;
               mret (u16 (seat_name_len + 1))
             else mret seat_name_len);
          b ← get_backend;
          if (seat_name_len =? 0) ||
             negb (Z.of_nat (strnlen (bs_seat_name b) (Z.to_nat seat_name_len)) =?
                   u16 (seat_name_len - 1))
          then mret (inr (- EBADMSG))
          else mret (inl ())
      end
  end.

(** [_open_seat] from the request to [backend_error]. *)
Definition open_request (patience : nat) : M handle (() + Z) :=
  r ← send_request patience [header_bytes (Header CLIENT_OPEN_SEAT 0)];
  if r =? -1 then e ← get_errno; mret (inr (i32 (- e))) else
  o ← read_header SERVER_SEAT_OPENED 2 true;
  match o with
  | None => e ← get_errno; mret (inr (i32 (- e)))
  | Some size => read_seat_name size
  end.

(** Whether the result is a seat. *)
Definition _open_seat (patience : nat) (f : Z) : M handle bool :=
  r ← ext Calloc;
  if r_ret r =? -1 then ext (Close f);; mret false else
  modify (fun _ => Some (Seatd (new_backend f)));;
  o ← open_request patience;
  match o with
  | inl _ => execute_events;; mret true
  | inr res => destroy;; set_errno (i32 (- res));; mret false
  end.

Definition open_seat (patience : nat) (default_path : bytes) (sock_env : option bytes) : M handle bool :=
  f ← seatd_connect default_path sock_env;
  if f =? -1 then mret false else _open_seat patience f.

(** [close_seat] up to [done]. *)
Definition close_request (patience : nat) (backend : backend_seatd) : M handle Z :=
  if bs_error backend then mret (- ENOTCONN) else
  r ← send_request patience [header_bytes (Header CLIENT_CLOSE_SEAT 0)];
  res ← (if r =? -1 then e ← get_errno; mret (i32 (- e)) else mret 0);
  o ← read_header SERVER_SEAT_CLOSED 0 false;
  match o with
  | None => e ← get_errno; mret (i32 (- e))
  | Some _ => mret res
  end.

Definition close_seat (patience : nat) : M handle Z :=
  backend ← backend_seatd_from_libseat_backend;
  res ← close_request patience backend;
  execute_events;;
  destroy;;
  if res <? 0 then fail_with (i32 (- res)) (-1) else mret 0.

Definition send_ping : M handle Z :=
  r ← conn_put (header_bytes (Header CLIENT_PING 0));
  if r =? -1 then mret (-1) else
  r ← conn_flush;
  if r =? -1 then mret (-1) else mret 0.

Definition check_pending_events : M handle () :=
  '(r, _) ← read_and_queue false;
  if r =? -1 then mret () else
  b ← get_backend;
  if bool_decide (pending_events b = []) then mret () else
  if awaiting_pong b then mret () else
  r ← send_ping;
  if r =? -1 then mret () else
  upd_backend (set_awaiting_pong true).

(** [res] of [open_device], and the descriptor stored through [fd] if one was. *)
Definition device_response : M handle (Z * option Z) :=
  let failed :=
    e ← get_errno;
    let res := i32 (- e) in
    assert_ (res <? 0);;
    mret (res, None) in
  o ← read_header SERVER_DEVICE_OPENED 4 false;
  match o with
  | None => failed
  | Some _ =>
      o ← conn_get 4;
      match o with
      | None => failed
      | Some rmsg =>
          o ← conn_get_fd;
          match o with
          | None => failed
          | Some f => mret (int_of rmsg, Some f)
          end
      end
  end.

Definition open_device (patience : nat) (path : bytes) : M handle (Z * option Z) :=
  backend ← backend_seatd_from_libseat_backend;
  if bs_error backend then fail_with ENOTCONN (-1, None) else
  let pathlen := zlen path + 1 in
  if MAX_PATH_LEN <? pathlen then fail_with EINVAL (-1, None) else
  r ← send_request patience
        [header_bytes (Header CLIENT_OPEN_DEVICE (2 + pathlen)); u16_bytes pathlen; path ++ [0]];
  if r =? -1 then mret (-1, None) else
  '(res, f) ← device_response;
  check_pending_events;;
  if res <? 0 then fail_with (i32 (- res)) (-1, f) else mret (res, f).

(** What [close_device], [switch_session] and [disable_seat] do with a response
    that has no body. *)
Definition finish_request (expected_opcode : Z) : M handle Z :=
  o ← read_header expected_opcode 0 false;
  res ← (match o with
         | None => e ← get_errno; mret (i32 (- e))
         | Some _ => mret 0
         end);
  check_pending_events;;
  if res <? 0 then fail_with (i32 (- res)) (-1) else mret 0.

Definition close_device (patience : nat) (device_id : Z) : M handle Z :=
  backend ← backend_seatd_from_libseat_backend;
  if bs_error backend then fail_with ENOTCONN (-1) else
  if device_id <? 0 then fail_with EINVAL (-1) else
  r ← send_request patience [header_bytes (Header CLIENT_CLOSE_DEVICE 4); int_bytes device_id];
  if r =? -1 then mret (-1) else finish_request SERVER_DEVICE_CLOSED.

Definition switch_session (patience : nat) (session : Z) : M handle Z :=
  backend ← backend_seatd_from_libseat_backend;
  if bs_error backend then fail_with ENOTCONN (-1) else
  if session <? 0 then fail_with EINVAL (-1) else
  r ← send_request patience [header_bytes (Header CLIENT_SWITCH_SESSION 4); int_bytes session];
  if r =? -1 then mret (-1) else finish_request SERVER_SESSION_SWITCHED.

Definition disable_seat (patience : nat) : M handle Z :=
  backend ← backend_seatd_from_libseat_backend;
  if bs_error backend then fail_with ENOTCONN (-1) else
  r ← send_request patience [header_bytes (Header CLIENT_DISABLE_SEAT 0)];
  if r =? -1 then mret (-1) else finish_request SERVER_SEAT_DISABLED.

(** [builtin_impl]: the daemon as a child process.  [fork] is modelled for the
    parent; the child runs [builtin_child_start] and [builtin_child_turn] of
    [Embedded]. *)
Definition builtin_open_seat (patience : nat) : M handle bool :=
  r ← ext Socketpair;
  if r_ret r =? -1 then mret false else
  let fds := (r_val 0 r, r_val 1 r) in
  pid ← ext Fork;
  if r_ret pid =? -1 then
    ext (Close (fst fds));;
    ext (Close (snd fds));;
    mret false
  else
  ext (Close (fst fds));;
  _open_seat patience (snd fds).

End Seatd.
