(* ===== verification/LibseatNoop.v ===== *)
(** * libseat/backend/noop.c: the backend without a daemon

    It opens the devices itself; its listener is told once that the seat is
    enabled. *)
From S2P Require Import Prelude Kernel Backend.

Section Noop.
Context `{K : Kernel} `{L : Listener}.

Definition backend_noop_from_libseat_backend : M handle backend_noop :=
  h ← get;
  o ← deref h;
  match o with Noop b => mret b | _ => abort end.

Definition noop_destroy (backend : backend_noop) : M handle () :=
  ext (Close (fst (sockets backend)));;
  ext (Close (snd (sockets backend)));;
  modify (fun _ => None).

Definition noop_close_seat : M handle Z :=
  backend ← backend_noop_from_libseat_backend;
  noop_destroy backend;;
  mret 0.

Definition noop_disable_seat : M handle Z := mret 0.

Definition noop_seat_name : M handle bytes := mret (str "seat0").

Definition noop_open_device (path : bytes) : M handle (Z * option Z) :=
  r ← ext (Open path [O_RDWR; O_NOCTTY; O_NOFOLLOW; O_CLOEXEC; O_NONBLOCK]);
  let tmpfd := r_ret r in
  if tmpfd <? 0 then mret (-1, None) else mret (tmpfd, Some tmpfd).

Definition noop_close_device (device_id : Z) : M handle Z := mret 0.

Definition noop_switch_session (s : Z) : M handle Z := mret (-1).

Definition noop_get_fd : M handle Z :=
  backend ← backend_noop_from_libseat_backend;
  mret (fst (sockets backend)).

Definition dispatch_background (timeout : Z) : M handle Z :=
  backend ← backend_noop_from_libseat_backend;
  (if initial_setup backend then
     modify (fun _ => Some (Noop (BackendNoop false (sockets backend))));;
     notify true
   else mret ());;
  h ← get;
  backend ← deref (noop_of h);
  r ← ext (Poll [(fst (sockets backend), POLLIN)] timeout);
  if r_ret r <? 0 then
    e ← get_errno;
    if (e =? EAGAIN) || (e =? EINTR) then mret 0 else mret (-1)
  else mret 0.

Definition noop_open_seat : M handle bool :=
  r ← ext Calloc;
  if r_ret r =? -1 then mret false else
  r ← ext Socketpair;
  if negb (r_ret r =? 0) then mret false else
  modify (fun _ => Some (Noop (BackendNoop true (r_val 0 r, r_val 1 r))));;
  mret true.

End Noop.
