(* ===== verification/LibseatLogind.v ===== *)
(** * libseat/backend/logind.c: the backend that asks logind

    A client of logind over sd-bus.  The functions of sd-bus and sd-login are calls
    that the environment answers; sd-bus runs the handlers of this file from
    [sd_bus_process].  Freeing an sd_bus_error is left out, as are the texts that
    are read only to be logged. *)
From S2P Require Import Prelude Kernel Connection Protocol Backend.

Definition ECONNRESET : Z := 104.

Definition login1_path : bytes := str "/org/freedesktop/login1".
Definition manager_interface : bytes := str "org.freedesktop.login1.Manager".
Definition session_interface : bytes := str "org.freedesktop.login1.Session".
Definition seat_interface : bytes := str "org.freedesktop.login1.Seat".
Definition property_interface : bytes := str "org.freedesktop.DBus.Properties".
Definition peer_interface : bytes := str "org.freedesktop.DBus.Peer".

(** The numbers of a device, as in sys/sysmacros.h. *)
Definition major (dev : Z) : Z :=
  Z.lor (Z.land (Z.shiftr dev 8) 4095) (Z.land (Z.shiftr dev 32) 4294963200).
Definition minor (dev : Z) : Z :=
  Z.lor (Z.land dev 255) (Z.land (Z.shiftr dev 12) 4294967040).

(** A string that may be NULL, as an argument. *)
Definition arg_of (s : option bytes) : bytes := default [] s.

Section Logind.
Context `{K : Kernel} `{L : Listener}.

Definition backend_logind_from_libseat_backend : M handle backend_logind :=
  h ← get;
  o ← deref h;
  match o with Logind b => mret b | _ => abort end.

Definition logind_destroy : M handle () :=
  backend ← get_logind;
  (if bus backend then ext (Bus sd_bus_unref);; mret () else mret ());;
  modify (fun _ => None).

Definition ping_handler : M handle Z :=
  r ← ext (Bus sd_bus_message_is_method_error);
  if negb (r_ret r =? 0) then mret (-1) else mret 0.

Definition logind_send_ping : M handle Z :=
  get_logind;;
  ret ← ext (Bus (sd_bus_call_method_async login1_path peer_interface (str "Ping")));
  mret (if r_ret ret <? 0 then r_ret ret else 0).

Definition logind_check_pending_events : M handle () :=
  get_logind;;
  queued_read ← ext (Bus sd_bus_get_n_queued_read);
  queued_write ← ext (Bus sd_bus_get_n_queued_write);
  if (r_val 0 queued_read =? 0) && (r_val 0 queued_write =? 0) then mret () else
  logind_send_ping;;
  mret ().

(** [sd_bus_call_method] with a reply that is read and released. *)
Definition call_method_reply {A} (path interface member : bytes) (args : list bus_arg)
    (failed : Z -> A) (read : Z -> M handle A) : M handle A :=
  r ← ext (Bus (sd_bus_call_method path interface member args));
  if r_ret r <? 0 then mret (failed (r_ret r)) else
  a ← read (r_ret r);
  ext (Bus sd_bus_message_unref);;
  mret a.

(** With a reply that is only released. *)
Definition call_method (path interface member : bytes) (args : list bus_arg) : M handle Z :=
  call_method_reply path interface member args (fun ret => ret) (fun ret => mret ret).

(** The end of most requests. *)
Definition finish_call (ret : Z) : M handle Z :=
  logind_check_pending_events;;
  if ret <? 0 then fail_with (i32 (- ret)) (-1) else mret 0.

(** [open_device] between the call and [out]: [ret], and the duplicate. *)
Definition take_device : M handle (Z * Z) :=
  m ← ext (Bus (sd_bus_message_read (str "hb")));
  if r_ret m <? 0 then mret (r_ret m, -1) else
  d ← ext (Fcntl (if r_ret m =? 0 then -1 else r_val 0 m) (F_DUPFD_CLOEXEC 0));
  if r_ret d <? 0 then e ← get_errno; mret (i32 (- e), r_ret d) else
  mret (r_ret m, r_ret d).

Definition logind_open_device (path : bytes) : M handle (Z * option Z) :=
  session ← backend_logind_from_libseat_backend;
  st ← ext (Stat path);
  if r_ret st <? 0 then mret (-1, None) else
  '(ret, tmpfd) ← call_method_reply (arg_of (lg_path session)) session_interface (str "TakeDevice")
      [BusU (major (r_val 0 st)); BusU (minor (r_val 0 st))] (fun ret => (ret, -1)) (fun _ => take_device);
  logind_check_pending_events;;
  if ret <? 0 then fail_with (i32 (- ret)) (-1, None) else mret (tmpfd, Some tmpfd).

Definition logind_close_device (device_id : Z) : M handle Z :=
  session ← backend_logind_from_libseat_backend;
  if device_id <? 0 then fail_with EINVAL (-1) else
  st ← ext (Fstat device_id);
  if r_ret st <? 0 then mret (-1) else
  ret ← call_method (arg_of (lg_path session)) session_interface (str "ReleaseDevice")
          [BusU (major (r_val 0 st)); BusU (minor (r_val 0 st))];
  finish_call ret.

Definition logind_switch_session (s : Z) : M handle Z :=
  session ← backend_logind_from_libseat_backend;
  if s <? 0 then fail_with EINVAL (-1) else
  ret ← call_method (arg_of (seat_path session)) seat_interface (str "SwitchTo") [BusU s];
  finish_call ret.

Definition logind_disable_seat : M handle Z := mret 0.

Definition logind_get_fd : M handle Z :=
  backend_logind_from_libseat_backend;;
  fd ← ext (Bus sd_bus_get_fd);
  if 0 <=? r_ret fd then mret (r_ret fd) else fail_with (i32 (- r_ret fd)) (-1).

Definition logind_poll_connection (timeout : Z) : M handle Z :=
  get_logind;;
  fd ← ext (Bus sd_bus_get_fd);
  r ← ext (Poll [(r_ret fd, POLLIN)] timeout);
  if r_ret r =? -1 then
    e ← get_errno;
    if (e =? EAGAIN) || (e =? EINTR) then mret 0 else mret (-1)
  else
  if has_event (r_val 0 r) (Z.lor POLLERR POLLHUP) then fail_with ECONNRESET (-1) else
  mret 0.

Definition logind_seat_name : M handle bytes :=
  backend ← backend_logind_from_libseat_backend;
  mret (arg_of (lg_seat backend)).

(** ** The session *)

(** The property is written as an int through [&session->active], a bool: its low
    byte is the flag, and the next one is [initial_setup], which is thereby cleared. *)
Definition session_get_active : M handle Z :=
  session ← get_logind;
  r ← ext (Bus (sd_bus_get_property_trivial (arg_of (lg_path session)) session_interface (str "Active")));
  (if r_ret r <? 0 then mret () else
     upd_logind (fun b => set_lg_initial_setup false (set_lg_active (negb (r_val 0 r =? 0)) b)));;
  mret (r_ret r).

Definition session_take_control : M handle Z :=
  session ← get_logind;
  call_method (arg_of (lg_path session)) session_interface (str "TakeControl") [BusB false].

Definition session_release_control : M handle () :=
  session ← get_logind;
  call_method (arg_of (lg_path session)) session_interface (str "ReleaseControl") [];;
  mret ().

Definition session_set_type (type : bytes) : M handle Z :=
  session ← get_logind;
  call_method (arg_of (lg_path session)) session_interface (str "SetType") [BusS type].

Definition set_active (value : bool) : M handle () :=
  backend ← get_logind;
  if eqb (active backend) value then mret () else
  upd_logind (set_lg_active value);;
  notify value.

(** ** The handlers of signals *)

(** Disable the seat, and acknowledge that the device is paused. *)
Definition pause_device (major minor : Z) : M handle () :=
  set_active false;;
  session ← get_logind;
  ext (Bus (sd_bus_call_method (arg_of (lg_path session)) session_interface (str "PauseDeviceComplete")
    [BusU major; BusU minor]));;
  mret ().

Definition handle_pause_device : M handle Z :=
  m ← ext (Bus (sd_bus_message_read (str "uus")));
  if r_ret m <? 0 then mret 0 else
  let major := r_val 0 m in
  let minor := r_val 1 m in
  let gone := strcmp_eq (r_bytes m) (str "gone") in
  let pause := strcmp_eq (r_bytes m) (str "pause") in
  if gone then mret 0 else
  (if pause : bool then pause_device major minor else mret ());;
  mret 0.

(** [if (ret < 0) goto error] *)
Definition or_error (m : M handle Z) (next : M handle Z) : M handle Z :=
  ret ← m; if ret <? 0 then mret ret else next.

Definition bus_ret (c : bus_call) : M handle Z := r ← ext (Bus c); mret (r_ret r).

(** The changed properties with their values, one turn per entry; the last [ret]. *)
Fixpoint changed_properties (patience : nat) : M handle Z :=
  match patience with
  | O => hang
  | S patience' =>
      ret ← bus_ret (sd_bus_message_enter_container (str "e") (str "sv"));
      if ret <=? 0 then mret ret else
      s ← ext (Bus (sd_bus_message_read_basic (str "s")));
      if r_ret s <? 0 then mret (r_ret s) else
      or_error
        (if strcmp_eq (r_bytes s) (str "Active") then
           or_error (bus_ret (sd_bus_message_enter_container (str "v") (str "b")))
             (value ← ext (Bus (sd_bus_message_read_basic (str "b")));
              if r_ret value <? 0 then mret (r_ret value) else
              set_active (negb (r_val 0 value =? 0));;
              bus_ret sd_bus_message_exit_container)
         else bus_ret (sd_bus_message_skip (str "v")))
        (or_error (bus_ret sd_bus_message_exit_container) (changed_properties patience'))
  end.

(** The changed properties without values. *)
Fixpoint invalidated_properties (patience : nat) : M handle Z :=
  match patience with
  | O => hang
  | S patience' =>
      s ← ext (Bus (sd_bus_message_read_basic (str "s")));
      if r_ret s <=? 0 then mret (r_ret s) else
      (if strcmp_eq (r_bytes s) (str "Active") then
         session ← get_logind;
         value ← ext (Bus (sd_bus_get_property_trivial (arg_of (lg_path session)) session_interface (str "Active")));
         if r_ret value <? 0 then mret () else set_active (negb (r_val 0 value =? 0))
       else mret ());;
      invalidated_properties patience'
  end.

Definition handle_properties_changed (patience : nat) : M handle Z :=
  interface ← ext (Bus (sd_bus_message_read_basic (str "s")));
  if r_ret interface <? 0 then mret 0 else
  if negb (strcmp_eq (r_bytes interface) session_interface) then mret 0 else
  or_error (bus_ret (sd_bus_message_enter_container (str "a") (str "{sv}")))
    (or_error (changed_properties patience)
      (or_error (bus_ret sd_bus_message_exit_container)
        (or_error (bus_ret (sd_bus_message_enter_container (str "a") (str "s")))
          (or_error (invalidated_properties patience)
            (bus_ret sd_bus_message_exit_container)))));;
  mret 0.

(** ** Dispatching *)

(** [sd_bus_process], with the handler that it runs. *)
Definition process (patience : nat) : M handle Z :=
  get_logind;;
  r ← ext (Bus sd_bus_process);
  ret ← (if r_val 0 r =? 1 then handle_pause_device else
         if r_val 0 r =? 2 then handle_properties_changed patience else
         if r_val 0 r =? 3 then ping_handler else mret 0);
  bus_ret (sd_bus_processed ret).

Fixpoint process_all (turns patience : nat) (total_dispatched : Z) : M handle Z :=
  match turns with
  | O => hang
  | S turns' =>
      dispatched ← process patience;
      if 0 <? dispatched then process_all turns' patience (total_dispatched + dispatched)
      else mret total_dispatched
  end.

Definition dispatch_and_execute (patience : nat) (timeout : Z) : M handle Z :=
  backend ← backend_logind_from_libseat_backend;
  (if lg_initial_setup backend then
     upd_logind (set_lg_initial_setup false);;
     notify (active backend)
   else mret ());;
  total_dispatched ← process_all patience patience 0;
  if (total_dispatched =? 0) && negb (timeout =? 0) then
    r ← logind_poll_connection timeout;
    if r =? -1 then mret (-1) else
    total_dispatched ← process_all patience patience total_dispatched;
    logind_check_pending_events;;
    mret total_dispatched
  else
    logind_check_pending_events;;
    mret total_dispatched.

(** ** Opening and closing *)

Definition add_signal_matches : M handle Z :=
  backend ← get_logind;
  ret ← bus_ret (sd_bus_match_signal (arg_of (lg_path backend)) session_interface (str "PauseDevice"));
  if ret <? 0 then mret ret else
  ret ← bus_ret (sd_bus_match_signal (arg_of (lg_path backend)) property_interface (str "PropertiesChanged"));
  if ret <? 0 then mret ret else mret 0.

(** The object path in a reply, stored by [store]. *)
Definition read_object_path (store : option bytes -> backend_logind -> backend_logind) : M handle Z :=
  m ← ext (Bus (sd_bus_message_read (str "o")));
  if r_ret m <? 0 then mret (r_ret m) else
  d ← ext (Strdup (r_bytes m));
  if r_ret d =? -1 then upd_logind (store None);; mret (- ENOMEM) else
  upd_logind (store (Some (r_bytes m)));;
  mret (r_ret m).

Definition manager_get_session_path : M handle Z :=
  session ← get_logind;
  call_method_reply login1_path manager_interface (str "GetSession") [BusS (arg_of (session_id session))]
    (fun ret => ret) (fun _ => read_object_path set_lg_path).

Definition manager_get_seat_path : M handle Z :=
  session ← get_logind;
  call_method_reply login1_path manager_interface (str "GetSeat") [BusS (arg_of (lg_seat session))]
    (fun ret => ret) (fun _ => read_object_path set_seat_path).

(** The label [error] of [get_display_session]. *)
Definition no_session (ret : Z) : M handle Z := upd_logind (set_session_id None);; mret ret.

Definition get_display_session (xdg_session_id : option bytes) : M handle Z :=
  match xdg_session_id with
  | Some id =>
      r ← ext (Bus (sd_session_is_active id));
      if r_ret r <? 0 then no_session (r_ret r) else
      d ← ext (Strdup id);
      if r_ret d =? -1 then no_session (- ENOMEM) else
      upd_logind (set_session_id (Some id));;
      mret 0
  | None =>
      pid ← ext Getpid;
      r ← ext (Bus (sd_pid_get_session (r_ret pid)));
      if r_ret r =? 0 then upd_logind (set_session_id (Some (r_bytes r)));; mret 0 else
      uid ← ext Getuid;
      r ← ext (Bus (sd_uid_get_display (r_ret uid)));
      if r_ret r <? 0 then no_session (r_ret r) else
      upd_logind (set_session_id (Some (r_bytes r)));;
      mret 0
  end.

(** [sd_session_get_seat(backend->id, &backend->seat)] *)
Definition session_get_seat : M handle Z :=
  backend ← get_logind;
  r ← ext (Bus (sd_session_get_seat (arg_of (session_id backend))));
  (if r_ret r <? 0 then mret () else upd_logind (set_lg_seat (Some (r_bytes r))));;
  mret (r_ret r).

(** [sd_bus_default_system(&backend->bus)] *)
Definition default_system_bus : M handle Z :=
  r ← ext (Bus sd_bus_default_system);
  (if r_ret r <? 0 then mret () else upd_logind (set_bus true));;
  mret (r_ret r).

(** The calls of [logind_open_seat] that can fail, each of them [goto error]. *)
Definition open_session (xdg_session_id : option bytes) : M handle Z :=
  or_error (get_display_session xdg_session_id)
    (or_error session_get_seat
      (or_error default_system_bus
        (or_error manager_get_session_path
          (or_error manager_get_seat_path
            (or_error add_signal_matches
              (or_error session_get_active session_take_control)))))).

Definition new_logind : backend_logind := BackendLogind false None None None None false false.

Definition logind_open_seat (xdg_session_id xdg_session_type : option bytes) : M handle bool :=
  r ← ext Calloc;
  if r_ret r =? -1 then mret false else
  modify (fun _ => Some (Logind new_logind));;
  ret ← open_session xdg_session_id;
  if ret <? 0 then
    logind_destroy;;
    fail_with (i32 (- ret)) false
  else
  match xdg_session_type with
  | Some env => session_set_type env;; mret ()
  | None => mret ()
  end;;
  upd_logind (set_lg_initial_setup true);;
  logind_check_pending_events;;
  mret true.

Definition logind_close_seat : M handle Z :=
  backend_logind_from_libseat_backend;;
  session_release_control;;
  logind_destroy;;
  mret 0.

End Logind.
