(* ===== verification/Libseat.v ===== *)
(** * libseat/libseat.c: the choice of a backend, and the calls through it

    A build has the backends its options enable. *)
From S2P Require Import Prelude Kernel Protocol Backend LibseatSeatd LibseatNoop LibseatLogind.

(** The options of a build, and the environment of the process. *)
Record build := Build {
  SEATD_ENABLED : bool;
  LOGIND_ENABLED : bool;
  BUILTIN_ENABLED : bool;
  SEATD_DEFAULTPATH : bytes
}.

Record environment := Environment {
  LIBSEAT_BACKEND : option bytes;
  SEATD_SOCK : option bytes;
  XDG_SESSION_ID : option bytes;
  XDG_SESSION_TYPE : option bytes
}.

Inductive seat_impl := seatd_impl | logind_impl | builtin_impl | noop_impl.
#[global] Instance seat_impl_eq_dec : EqDecision seat_impl.
Proof. solve_decision. Defined.

Record named_backend := NamedBackend {
  nb_name : bytes;
  nb_backend : seat_impl
}.

Definition impls (b : build) : list named_backend :=
  (if SEATD_ENABLED b then [NamedBackend (str "seatd") seatd_impl] else []) ++
  (if LOGIND_ENABLED b then [NamedBackend (str "logind") logind_impl] else []) ++
  (if BUILTIN_ENABLED b then [NamedBackend (str "builtin") builtin_impl] else []) ++
  [NamedBackend (str "noop") noop_impl].

Section Libseat.
Context `{K : Kernel} `{L : Listener}.
Variables (b : build) (env : environment) (patience : nat).

(** [iter->backend->open_seat(listener, data)] *)
Definition impl_open_seat (i : seat_impl) : M handle bool :=
  match i with
  | seatd_impl => open_seat patience (SEATD_DEFAULTPATH b) (SEATD_SOCK env)
  | logind_impl => logind_open_seat (XDG_SESSION_ID env) (XDG_SESSION_TYPE env)
  | builtin_impl => builtin_open_seat patience
  | noop_impl => noop_open_seat
  end.

(** The loop over the backends by name. *)
Fixpoint find_backend (backend_type : bytes) (iter : list named_backend) : option seat_impl :=
  match iter with
  | [] => None
  | nb :: iter' =>
      if strcmp_eq backend_type (nb_name nb) then Some (nb_backend nb)
      else find_backend backend_type iter'
  end.

(** The loop over the backends when none is asked for. *)
Fixpoint open_first (iter : list named_backend) : M handle bool :=
  match iter with
  | [] => fail_with ENOSYS false
  | nb :: iter' =>
      if bool_decide (nb_backend nb = noop_impl) then open_first iter' else
      ok ← impl_open_seat (nb_backend nb);
      if ok : bool then mret true else open_first iter'
  end.

(** [has_listener]: the listener and both of its functions are there. *)
Definition libseat_open_seat (has_listener : bool) : M handle bool :=
  if negb has_listener then fail_with EINVAL false else
  match LIBSEAT_BACKEND env with
  | Some backend_type =>
      match find_backend backend_type (impls b) with
      | None => fail_with EINVAL false
      | Some i => impl_open_seat i
      end
  | None => open_first (impls b)
  end.

(** [seat->impl], through a pointer that must be valid. *)
Definition seat_object : M handle libseat := h ← get; deref h.

Definition libseat_disable_seat : M handle Z :=
  o ← seat_object;
  match o with
  | Seatd _ => disable_seat patience
  | Noop _ => noop_disable_seat
  | Logind _ => logind_disable_seat
  end.

Definition libseat_close_seat : M handle Z :=
  o ← seat_object;
  match o with
  | Seatd _ => close_seat patience
  | Noop _ => noop_close_seat
  | Logind _ => logind_close_seat
  end.

Definition libseat_seat_name : M handle bytes :=
  o ← seat_object;
  match o with
  | Seatd _ => seat_name
  | Noop _ => noop_seat_name
  | Logind _ => logind_seat_name
  end.

Definition libseat_open_device (path : bytes) : M handle (Z * option Z) :=
  o ← seat_object;
  match o with
  | Seatd _ => open_device patience path
  | Noop _ => noop_open_device path
  | Logind _ => logind_open_device path
  end.

Definition libseat_close_device (device_id : Z) : M handle Z :=
  o ← seat_object;
  match o with
  | Seatd _ => close_device patience device_id
  | Noop _ => noop_close_device device_id
  | Logind _ => logind_close_device device_id
  end.

Definition libseat_get_fd : M handle Z :=
  o ← seat_object;
  match o with
  | Seatd _ => get_fd
  | Noop _ => noop_get_fd
  | Logind _ => logind_get_fd
  end.

Definition libseat_dispatch (timeout : Z) : M handle Z :=
  o ← seat_object;
  match o with
  | Seatd _ => dispatch timeout
  | Noop _ => dispatch_background timeout
  | Logind _ => dispatch_and_execute patience timeout
  end.

Definition libseat_switch_session (session : Z) : M handle Z :=
  o ← seat_object;
  match o with
  | Seatd _ => switch_session patience session
  | Noop _ => noop_switch_session session
  | Logind _ => logind_switch_session session
  end.

End Libseat.
