(* ===== verification/LibseatOk.v ===== *)
(** * What the operations of libseat/backend/seatd.c do

    The invariant of the backend's object, what its operations put on the wire,
    and partial correctness ([wlp]) for the code that waits for the daemon. *)
From S2P Require Import Prelude Kernel Waiting Connection Protocol Backend LibseatSeatd.

(** ** The invariant *)

Definition is_event (op : Z) : Prop := op = SERVER_DISABLE_SEAT \/ op = SERVER_ENABLE_SEAT.

Record backend_wf (b : backend_seatd) : Prop := {
  bw_conn : conn_wf (bs_connection b);
  bw_events : Forall is_event (pending_events b);
  bw_name : length (bs_seat_name b) = 64%nat
}.

Lemma new_backend_wf f : backend_wf (new_backend f).
Proof. split; [apply new_connection_wf|constructor|done]. Qed.

Abbreviation in_queue b := (contents (conn_in (bs_connection b))).
Abbreviation out_queue b := (contents (conn_out (bs_connection b))).
Abbreviation bs_fd b := (fd (bs_connection b)).

(** From [b] to [b'], [q] was queued for the daemon behind what was queued
    before, and part of the queue was sent; an error stays. *)
Record queues (q : bytes) (b : backend_seatd) (w : sys) (b' : backend_seatd) (w' : sys) : Prop := {
  qu_wf : backend_wf b';
  qu_fd : bs_fd b' = bs_fd b;
  qu_name : bs_seat_name b' = bs_seat_name b;
  qu_error : bs_error b = true -> bs_error b' = true;
  qu_sent : exists d, sends (bs_fd b) d w w' /\ out_queue b ++ q = d ++ out_queue b'
}.

(** Nothing is queued. *)
Abbreviation moves := (queues []).

Lemma queues_trans q1 q2 b1 w1 b2 w2 b3 w3 :
  queues q1 b1 w1 b2 w2 -> queues q2 b2 w2 b3 w3 -> queues (q1 ++ q2) b1 w1 b3 w3.
Proof.
  intros [W1 F1 N1 E1 (d1 & S1 & C1)] [W2 F2 N2 E2 (d2 & S2 & C2)].
  split; [done|congruence|congruence|auto|]. rewrite F1 in S2.
  exists (d1 ++ d2). split; [by eapply sends_trans|].
  by rewrite (app_assoc (out_queue b1)), C1, <- !app_assoc, C2.
Qed.

Lemma moves_queues q b1 w1 b2 w2 b3 w3 :
  moves b1 w1 b2 w2 -> queues q b2 w2 b3 w3 -> queues q b1 w1 b3 w3.
Proof. intros H1 H2. exact (queues_trans [] q _ _ _ _ _ _ H1 H2). Qed.

Lemma queues_moves q b1 w1 b2 w2 b3 w3 :
  queues q b1 w1 b2 w2 -> moves b2 w2 b3 w3 -> queues q b1 w1 b3 w3.
Proof. intros H1 H2. rewrite <- (app_nil_r q). by eapply queues_trans. Qed.

(** A step that leaves the outgoing queue alone and sends nothing. *)
Lemma moves_quiet b w b' w' :
  backend_wf b' -> bs_fd b' = bs_fd b -> bs_seat_name b' = bs_seat_name b ->
  (bs_error b = true -> bs_error b' = true) ->
  conn_out (bs_connection b') = conn_out (bs_connection b) -> quiet w w' -> moves b w b' w'.
Proof.
  intros W F N E C Hq. split; try done. exists []. rewrite C, app_nil_r.
  split; [by apply sends_quiet|done].
Qed.

Lemma moves_refl b w : backend_wf b -> moves b w b w.
Proof. intros. by apply moves_quiet. Qed.

Lemma moves_errno b w e : backend_wf b -> moves b w b (Sys (trace w) e).
Proof. intros. apply moves_quiet; auto with wp. Qed.

Lemma queues_errno q b w b' w' e : queues q b w b' w' -> queues q b w b' (Sys (trace w') e).
Proof. intros H. eapply queues_moves; [done|]. apply moves_errno, H. Qed.

Create HintDb libseat.
#[export] Hint Resolve moves_refl moves_errno queues_errno qu_wf : libseat.
#[export] Hint Extern 1 (backend_wf _) => eapply qu_wf; eassumption : libseat.

(** The state after an operation: the object, with its new value. *)
Definition backend_post {A} (Q : A -> backend_seatd -> sys -> Prop) : A -> handle -> sys -> Prop :=
  fun a h w => exists b, h = Some (Seatd b) /\ Q a b w.

(** ** Rules for the accesses *)

Lemma wp_get_backend b Q w :
  Q b (Some (Seatd b)) w -> wp get_backend Q (Some (Seatd b)) w.
Proof. done. Qed.

Lemma wp_upd_backend f b (Q : () -> handle -> sys -> Prop) w :
  Q () (Some (Seatd (f b))) w -> wp (upd_backend f) Q (Some (Seatd b)) w.
Proof. done. Qed.

Lemma wp_on_connection {B} (m : M connection B) b Q w :
  wp m (fun a c w' => Q a (Some (Seatd (set_bs_connection c b))) w') (bs_connection b) w ->
  wp (on_connection m) Q (Some (Seatd b)) w.
Proof.
  intros Hm. unfold on_connection, on_backend. eapply wp_zoom; [done|]. cbn beta.
  by eapply wp_zoom.
Qed.

Lemma set_conn_wf c b : backend_wf b -> conn_wf c -> backend_wf (set_bs_connection c b).
Proof. by intros [] ?. Qed.

Section Operations.
Context `{KOk : KernelOk}.

(** ** Losing the connection *)

(** The descriptors in the buffers are closed and the events dropped; what is
    queued in either direction stays. *)
Lemma cleanup_ok b w :
  backend_wf b ->
  wp cleanup (backend_post (fun _ b' w' =>
    moves b w b' w' /\ pending_events b' = [] /\ bs_error b' = bs_error b /\
    conn_in (bs_connection b') = conn_in (bs_connection b) /\ awaiting_pong b' = awaiting_pong b)) (Some (Seatd b)) w.
Proof.
  intros [Wc We Wn]. unfold cleanup. wp_step. apply wp_get_backend. wp_step.
  apply (wp_mono _ (fun _ h w1 => h = Some (Seatd b) /\ quiet w w1)).
  { wp_case; wp_steps; [done|]. apply wp_ext. intros r _. wp_steps. split; [done|auto with wp]. }
  intros _ h w1 [-> Hq1]. wp_step. apply wp_on_connection.
  eapply wp_mono; [by apply connection_close_fds_ok|]. cbn beta.
  intros _ c w2 (W2 & Ei & Eo & Ef & _ & Hq2 & _). apply wp_upd_backend. eexists. split; [done|].
  split_and!; [|done..].
  apply moves_quiet; try done. by etrans.
Qed.

Lemma set_error_ok b w :
  backend_wf b ->
  wp set_error (backend_post (fun _ b' w' =>
    moves b w b' w' /\ bs_error b' = true /\
    conn_in (bs_connection b') = conn_in (bs_connection b) /\ errno w' = errno w))
    (Some (Seatd b)) w.
Proof.
  intros W. unfold set_error. wp_step. apply wp_get_backend. wp_case.
  { wp_steps. eexists. split; [done|]. split_and!; auto with libseat. }
  wp_steps. apply wp_upd_backend. wp_steps.
  eapply wp_mono; [by apply (cleanup_ok (set_bs_error true b)); destruct W|].
  intros _ h w1 (b1 & -> & M1 & _ & E1 & Ei & _). wp_steps. eexists. split; [done|].
  split_and!; try done. apply queues_errno. destruct M1. by split.
Qed.

(** ** The connection *)

(** Part of the queue is sent, all of it if the flush succeeds. *)
Lemma conn_put_ok src b w :
  backend_wf b -> Forall is_byte src ->
  wp (conn_put src) (backend_post (fun r b' w' =>
    in_queue b' = in_queue b /\
    (r = 0 /\ queues src b w b' w' /\ bs_error b' = bs_error b /\ pending_events b' = pending_events b \/
     r = -1 /\ moves b w b' w' /\ bs_error b' = true))) (Some (Seatd b)) w.
Proof.
  intros W Hs. unfold conn_put. wp_step. apply wp_on_connection.
  eapply wp_mono; [by apply connection_put_ok; [apply W|]|]. cbn beta.
  intros r c w1 (Wc & Ei & _ & Ef & d & Hd & Hr).
  assert (W1 : backend_wf (set_bs_connection c b)) by by apply set_conn_wf.
  destruct Hr as [(-> & Eo & _)|(-> & Eo & _)].
  - wp_steps. eexists. split; [done|]. cbn. rewrite Ei. split; [done|]. left. split_and!; try done.
    split; try done. eauto.
  - wp_steps. eapply wp_mono; [by apply set_error_ok|]. intros _ h w2 (b2 & -> & M2 & E2 & Ei2 & _). wp_steps.
    eexists. split; [done|]. rewrite Ei2. cbn. rewrite Ei. split; [done|]. right. split_and!; try done.
    eapply moves_queues; [|done]. split; try done. exists d. by rewrite app_nil_r.
Qed.

Lemma conn_flush_ok b w :
  backend_wf b ->
  wp conn_flush (backend_post (fun r b' w' =>
    in_queue b' = in_queue b /\ moves b w b' w' /\
    (r = 0 /\ out_queue b' = [] /\ bs_error b' = bs_error b /\ pending_events b' = pending_events b \/
     r = -1 /\ bs_error b' = true))) (Some (Seatd b)) w.
Proof.
  intros W. unfold conn_flush. wp_step. apply wp_on_connection.
  eapply wp_mono; [by apply connection_flush_ok, W|]. cbn beta.
  intros r c w1 (Wc & Ei & _ & Ef & (d & Hd & Eo) & Hr).
  assert (M1 : moves b w (set_bs_connection c b) w1).
  { split; try done; [by apply set_conn_wf|]. exists d. by rewrite app_nil_r. }
  destruct (Z.eqb_spec r (-1)) as [->|Hne].
  - wp_steps. eapply wp_mono; [apply set_error_ok, M1|]. intros _ h w2 (b2 & -> & M2 & E2 & Ei2 & _). wp_steps.
    eexists. split; [done|]. rewrite Ei2. cbn. rewrite Ei. split_and!; [done|by eapply moves_queues|auto].
  - wp_steps. eexists. split; [done|]. cbn. rewrite Ei. split_and!; try done. left.
    destruct Hr as [(-> & _)|(_ & -> & _)]; done.
Qed.

(** A step that only consumes input. *)
Lemma moves_consume b c w w' :
  backend_wf b -> conn_wf c -> fd c = bs_fd b -> conn_out c = conn_out (bs_connection b) ->
  trace w' = trace w -> moves b w (set_bs_connection c b) w'.
Proof.
  intros W Wc Ef Eo Et. apply moves_quiet; try done; [by apply set_conn_wf|].
  destruct w as [t e], w' as [t' e']; simpl in Et; subst t'. apply (quiet_errno (Sys t e)).
Qed.

Lemma conn_get_ok n b w :
  backend_wf b -> 0 <= n ->
  wp (conn_get n) (backend_post (fun o b' w' =>
    moves b w b' w' /\
    match o with
    | Some bs => w' = w /\ zlen bs = n /\ Forall is_byte bs /\ in_queue b = bs ++ in_queue b' /\
        bs_error b' = bs_error b /\ pending_events b' = pending_events b
    | None => bs_error b' = true /\ errno w' = EBADMSG /\ zlen (in_queue b) < n
    end)) (Some (Seatd b)) w.
Proof.
  intros W Hn. unfold conn_get. wp_step. apply wp_on_connection.
  eapply wp_mono; [by apply connection_get_ok; [apply W|]|]. cbn beta.
  intros o c w1 (Wc & Eo & _ & _ & Ef & _ & Et & Ho).
  pose proof (moves_consume b c w w1 W Wc Ef Eo Et) as M1.
  destruct o as [bs|].
  - destruct Ho as (-> & Hl & Hb & Hc & _). wp_steps. eexists. split; [done|]. split_and!; done.
  - destruct Ho as [-> Hlt]. wp_steps. eapply wp_mono; [apply set_error_ok, M1|].
    intros _ h w2 (b2 & -> & M2 & E2 & Ei2 & _). wp_steps. eexists. split; [done|].
    split_and!; try done; [|by rewrite zlen_contents by apply W].
    apply queues_errno. by eapply moves_queues.
Qed.

Lemma conn_get_fd_ok b w :
  backend_wf b ->
  wp conn_get_fd (backend_post (fun o b' w' =>
    moves b w b' w' /\ in_queue b' = in_queue b /\
    match o with
    | Some _ => bs_error b' = bs_error b /\ pending_events b' = pending_events b
    | None => bs_error b' = true /\ errno w' = EBADMSG
    end)) (Some (Seatd b)) w.
Proof.
  intros W. unfold conn_get_fd. wp_step. apply wp_on_connection.
  eapply wp_mono; [by apply connection_get_fd_ok, W|]. cbn beta.
  intros o c w1 (Wc & Ei & Eo & _ & Ef & _ & Et).
  pose proof (moves_consume b c w w1 W Wc Ef Eo Et) as M1.
  destruct o as [f|].
  - wp_steps. eexists. split; [done|]. cbn. rewrite Ei. split_and!; done.
  - wp_steps. eapply wp_mono; [apply set_error_ok, M1|].
    intros _ h w2 (b2 & -> & M2 & E2 & Ei2 & _). wp_steps. eexists. split; [done|].
    rewrite Ei2. cbn. rewrite Ei. split_and!; try done. apply queues_errno. by eapply moves_queues.
Qed.

(** ** Messages *)

(** The input starts with a whole message with this opcode. *)
Definition message_ready (op : Z) (b : backend_seatd) : Prop :=
  4 + size (header_of (in_queue b)) <= zlen (in_queue b) /\ opcode (header_of (in_queue b)) = op.

(** The ways a response can be refused: the connection is given up, or the daemon
    reported an error. *)
Definition header_refused (b b' : backend_seatd) (w' : sys) : Prop :=
  bs_error b' = true /\ errno w' = EBADMSG \/
  bs_error b' = bs_error b /\ opcode (header_of (in_queue b)) = SERVER_ERROR /\
    errno w' = int_of (drop 4 (in_queue b)).

Lemma header_of_app bs rest : zlen bs = 4 -> header_of (bs ++ rest) = header_of bs.
Proof.
  unfold header_of, zlen. intros Hl. rewrite (take_app_le _ _ 2) by lia.
  rewrite (drop_app_le _ _ 2) by lia. rewrite take_app_le by (rewrite length_drop; lia). done.
Qed.

Lemma int_of_app bs rest : zlen bs = 4 -> int_of (bs ++ rest) = int_of bs.
Proof. unfold int_of, zlen. intros Hl. by rewrite take_app_le by lia. Qed.

(** Give the connection up. *)
Lemma give_up_ok {A} e (a : A) b w :
  backend_wf b ->
  wp (set_error;; fail_with e a) (backend_post (fun a' b' w' =>
    a' = a /\ moves b w b' w' /\ bs_error b' = true /\ errno w' = e)) (Some (Seatd b)) w.
Proof.
  intros W. wp_step. eapply wp_mono; [by apply set_error_ok|].
  intros _ h w1 (b1 & -> & M1 & E1 & _). wp_steps. eexists. split; [done|]. split_and!; auto with libseat.
Qed.

Lemma read_header_ok op sz variable b w :
  backend_wf b ->
  wp (read_header op sz variable) (backend_post (fun o b' w' =>
    moves b w b' w' /\
    match o with
    | Some n => w' = w /\ header_of (in_queue b) = Header op n /\ in_queue b' = drop 4 (in_queue b) /\
        bs_error b' = bs_error b /\ pending_events b' = pending_events b /\
        (if variable then sz <= n else n = sz)
    | None => header_refused b b' w'
    end)) (Some (Seatd b)) w.
Proof.
  intros W. unfold read_header. wp_step. eapply wp_mono; [by apply conn_get_ok|].
  intros o h w1 (b1 & -> & M1 & Ho). pose proof (qu_wf _ _ _ _ _ M1) as W1. destruct o as [bs|].
  2: { destruct Ho as (E1 & Ee & _). wp_steps. eapply wp_mono; [by apply set_error_ok|].
       intros _ h w2 (b2 & -> & M2 & E2 & _ & Ee2). wp_steps. eexists. split; [done|].
       split; [by eapply moves_queues|]. left. by rewrite Ee2. }
  destruct Ho as (-> & Hl & Hb & Hc & Ee & Ep). pose proof (header_of_app bs (in_queue b1) Hl) as Hh.
  rewrite <- Hc in Hh. rewrite <- Hh.
  assert (Hbad : wp (set_error;; fail_with EBADMSG None) (backend_post (fun o b' w' =>
    moves b w b' w' /\
    match o with
    | Some n => w' = w /\ header_of (in_queue b) = Header op n /\ in_queue b' = drop 4 (in_queue b) /\
        bs_error b' = bs_error b /\ pending_events b' = pending_events b /\
        (if variable then sz <= n else n = sz)
    | None => header_refused b b' w'
    end)) (Some (Seatd b1)) w).
  { eapply wp_mono; [by apply give_up_ok|]. intros o h w2 (b2 & -> & -> & M2 & E2 & Ee2).
    eexists. split; [done|]. split; [by eapply moves_queues|]. by left. }
  assert (Hd : in_queue b1 = drop 4 (in_queue b)).
  { rewrite Hc. unfold zlen, sizeof_header in Hl. by rewrite drop_app_length' by lia. }
  destruct (Z.eqb_spec (opcode (header_of (in_queue b))) op) as [Eop|Eop]; cbn [negb].
  - wp_case; [exact Hbad|]. wp_steps. eexists. split; [done|]. split; [done|]. split_and!; try done.
    + subst op. by destruct (header_of (in_queue b)).
    + destruct variable; cbn in E |- *; lia.
  - wp_case; [exact Hbad|]. wp_step. eapply wp_mono; [by apply conn_get_ok|].
    intros o h w2 (b2 & -> & M2 & Ho). destruct o as [msg|].
    + destruct Ho as (-> & Hlm & _ & Hcm & Ee2 & _). wp_steps. eexists. split; [done|].
      split; [apply queues_errno; by eapply moves_queues|]. right. split; [congruence|].
      split; [lia|]. cbn [errno]. by rewrite <- Hd, Hcm, int_of_app.
    + destruct Ho as (E2 & Ee2 & _). eapply wp_mono; [apply give_up_ok, M2|].
      intros o h w3 (b3 & -> & -> & M3 & E3 & Ee3). eexists. split; [done|].
      split; [eapply moves_queues; [done|]; by eapply moves_queues|]. by left.
Qed.

Lemma queue_event_ok op b w :
  backend_wf b -> is_event op ->
  wp (queue_event op) (backend_post (fun r b' w' =>
    moves b w b' w' /\ bs_connection b' = bs_connection b /\ bs_error b' = bs_error b /\
    (r = 0 /\ pending_events b' = op :: pending_events b \/ r = -1 /\ b' = b))) (Some (Seatd b)) w.
Proof.
  intros W He. unfold queue_event. wp_step. apply wp_ext. intros r _. wp_case; wp_steps.
  - eexists. split; [done|]. split_and!; auto. apply moves_quiet; auto with wp.
  - apply wp_upd_backend. wp_steps. eexists. split; [done|]. split_and!; auto.
    apply moves_quiet; auto with wp. destruct W. split; [done|by constructor|done].
Qed.

(** What [read_and_queue] does: events move from the input to the front of the
    list, until the input has no header left or another message is next. *)
Definition queued (want : bool) (b : backend_seatd) (r op : Z) (b' : backend_seatd) : Prop :=
  r = -1 /\ op = 0 /\ bs_error b' = true \/
  0 <= r /\ bs_error b' = bs_error b /\ (op <> 0 -> want = true /\ message_ready op b') /\
    exists evs, pending_events b' = evs ++ pending_events b.

Lemma zlen_drop4 (l : bytes) : 4 <= zlen l -> zlen (drop 4 l) = zlen l - 4.
Proof. unfold zlen. intros. rewrite length_drop. lia. Qed.

(** The header is put back. *)
Lemma restore_ok b b1 c w w1 :
  backend_wf b -> backend_wf b1 -> moves b w b1 w1 ->
  c = set_in (connection_buffer_consume (conn_in (bs_connection b)) sizeof_header) (bs_connection b) ->
  conn_in (bs_connection b1) = conn_in c ->
  wp (on_connection (connection_restore sizeof_header)) (backend_post (fun _ b' w' =>
    moves b w b' w' /\ conn_in (bs_connection b') = conn_in (bs_connection b) /\
    bs_error b' = bs_error b1 /\ pending_events b' = pending_events b1)) (Some (Seatd b1)) w1.
Proof.
  intros W W1 M1 -> Ei. apply wp_on_connection. unfold connection_restore. wp_steps.
  rewrite Ei. cbn [conn_in set_in]. rewrite restore_consume by apply W. eexists. split; [done|].
  split_and!; try done. eapply moves_queues; [done|]. apply moves_quiet; try done.
  apply set_conn_wf; [done|]. apply set_in_wf; [apply W1|apply W].
Qed.

(** After a header that is not an event. *)
Lemma other_message_ok want packets bs c b w :
  backend_wf b -> 0 <= packets -> zlen bs = sizeof_header -> conn_wf c ->
  in_queue b = bs ++ contents (conn_in c) -> moves b w (set_bs_connection c b) w ->
  c = set_in (connection_buffer_consume (conn_in (bs_connection b)) sizeof_header) (bs_connection b) ->
  wp (if negb want then
        set_error;;
        set_errno EBADMSG;;
        on_connection (connection_restore sizeof_header);;
        mret (-1, 0)
      else
        b1 ← get_backend;
        on_connection (connection_restore sizeof_header);;
        mret (packets + 1,
          if size (header_of bs) <=? connection_pending (bs_connection b1) then opcode (header_of bs) else 0))
    (backend_post (fun '(r, op) b' w' => moves b w b' w' /\ queued want b r op b'))
    (Some (Seatd (set_bs_connection c b))) w.
Proof.
  intros W Hp Hl Wc Hc M1 Ec. destruct want; cbn [negb].
  - wp_step. apply wp_get_backend. wp_step.
    eapply wp_mono; [by eapply (restore_ok b _ c w); [|apply M1|..]|].
    intros _ h w2 (b2 & -> & M2 & Ei & Ee & Ep). wp_steps. eexists. split; [done|]. split; [done|right].
    split_and!; [lia|done| |by exists []]. intros Hop. split; [done|]. unfold message_ready.
    rewrite Ei, Hc, header_of_app by done. destruct (Z.leb_spec (size (header_of bs))
      (connection_pending (bs_connection (set_bs_connection c b)))) as [Hle|]; [|done].
    split; [|done]. change (connection_pending _) with (connection_buffer_size (conn_in c)) in Hle.
    rewrite <- zlen_contents in Hle by apply Wc.
    unfold zlen, sizeof_header in *. rewrite length_app. lia.
  - wp_step. eapply wp_mono; [apply set_error_ok, M1|]. intros _ h w2 (b2 & -> & M2 & E2 & Ei2 & _).
    wp_steps. eapply wp_mono; [eapply (restore_ok b b2 c w); [done|apply M2| |done..]|].
    { apply queues_errno. by eapply moves_queues. }
    intros _ h w3 (b3 & -> & M3 & _ & E3 & _). wp_steps. eexists. split; [done|]. split; [done|left].
    split_and!; congruence.
Qed.

Lemma queued_after want b b1 r op b' :
  queued want b1 r op b' -> bs_error b1 = bs_error b ->
  (exists evs, pending_events b1 = evs ++ pending_events b) -> queued want b r op b'.
Proof.
  intros [?|(Hr & He & Hop & evs & Hp)] Ee [evs1 Hp1]; [by left|right].
  split_and!; [done|congruence|done|]. exists (evs ++ evs1). by rewrite Hp, Hp1, app_assoc.
Qed.

Lemma read_and_queue_loop_ok fuel want packets b w :
  backend_wf b -> 0 <= packets -> zlen (in_queue b) < 4 * (Z.of_nat fuel + 1) ->
  wp (read_and_queue_loop fuel want packets) (backend_post (fun '(r, op) b' w' =>
    moves b w b' w' /\ queued want b r op b')) (Some (Seatd b)) w.
Proof.
  revert packets b w. induction fuel as [|fuel IH]; intros packets b w W Hp Hf; cbn [read_and_queue_loop];
    wp_step; apply wp_on_connection;
    (eapply wp_mono; [by apply connection_get_ok; [apply W|]|]); cbn beta;
    intros o c w1 (Wc & Eo & _ & _ & Ef & _ & Et & Ho).
  all: pose proof (moves_consume b c w w1 W Wc Ef Eo Et) as M1.
  all: destruct o as [bs|]; [|destruct Ho as [-> _]; wp_steps; eexists; split; [done|]; split; [done|right];
    split_and!; try done; by exists []].
  all: destruct Ho as (-> & Hl & _ & Hc & Ec); assert (Hs : zlen (in_queue b) = 4 + zlen (contents (conn_in c)))
    by (rewrite Hc; unfold zlen, sizeof_header in *; rewrite length_app; lia).
  { unfold zlen in *. lia. }
  assert (Hnext : forall b1 w1, moves b w b1 w1 -> conn_in (bs_connection b1) = conn_in c ->
    bs_error b1 = bs_error b -> (exists evs, pending_events b1 = evs ++ pending_events b) ->
    wp (read_and_queue_loop fuel want (packets + 1)) (backend_post (fun '(r, op) b' w' =>
      moves b w b' w' /\ queued want b r op b')) (Some (Seatd b1)) w1).
  { intros b1 w1 M2 Ei Ee Hp1. eapply wp_mono; [apply IH; [apply M2|lia|rewrite Ei; lia]|].
    intros [r op] h w2 (b2 & -> & M3 & Hq). eexists. split; [done|].
    split; [by eapply moves_queues|by eapply queued_after]. }
  wp_case.
  { wp_step. apply wp_upd_backend. apply Hnext; [|done..|by exists []].
    eapply moves_queues; [exact M1|]. apply moves_quiet; try done. by destruct (qu_wf _ _ _ _ _ M1). }
  wp_case; [|by apply other_message_ok].
  wp_step. eapply wp_mono; [apply queue_event_ok; [apply M1|unfold is_event; lia]|].
  intros r h w2 (b2 & -> & M2 & Ei2 & Ee2 & Hr). destruct Hr as [[-> Hr]|[-> ->]].
  - wp_steps. apply Hnext; [by eapply moves_queues|by rewrite Ei2|done|]. rewrite Hr. by eexists [_].
  - wp_steps. eapply wp_mono; [apply set_error_ok, M2|]. intros _ h w3 (b3 & -> & M3 & E3 & _). wp_steps.
    eexists. split; [done|]. split; [|by left]. eapply moves_queues; [exact M1|]. by eapply moves_queues.
Qed.

Lemma read_and_queue_ok want b w :
  backend_wf b ->
  wp (read_and_queue want) (backend_post (fun '(r, op) b' w' =>
    moves b w b' w' /\ queued want b r op b')) (Some (Seatd b)) w.
Proof.
  intros W. apply read_and_queue_loop_ok; [done..|]. pose proof (wf_in _ (bw_conn _ W)) as Wi.
  rewrite zlen_contents by done. pose proof (wf_size _ Wi). unfold CONNECTION_BUFFER_SIZE in *. lia.
Qed.

(** ** Waiting *)

Lemma poll_connection_ok timeout b w :
  backend_wf b ->
  wp (poll_connection timeout) (backend_post (fun r b' w' =>
    moves b w b' w' /\ -1 <= r /\ (r <> -1 -> bs_error b' = bs_error b))) (Some (Seatd b)) w.
Proof.
  intros W. unfold poll_connection. wp_step. apply wp_get_backend. wp_step. apply wp_ext. intros r _.
  set (w1 := logged w _ r). assert (M0 : moves b w b w1) by (apply moves_quiet; try done; by apply quiet_logged).
  wp_case.
  { wp_steps. eexists. split; [done|]. split_and!; [done|case_match; lia|done]. }
  wp_case.
  { eapply wp_mono; [by apply give_up_ok|]. intros a h w2 (b2 & -> & -> & M2 & E2 & _).
    eexists. split; [done|]. split_and!; [by eapply moves_queues|lia|done]. }
  wp_case; [|wp_steps; eexists; split; [done|]; by split_and!].
  wp_step. apply wp_on_connection. eapply wp_mono; [apply connection_read_ok, W|]. cbn beta.
  intros len c w2 (Wc & Eo & _ & Ef & _ & Hq & Hr).
  assert (M2 : moves b w (set_bs_connection c b) w2).
  { eapply moves_queues; [exact M0|]. apply moves_quiet; try done. by apply set_conn_wf. }
  assert (-1 <= len).
  { destruct Hr as [[-> _]|(m & t1 & t2 & _ & _ & -> & _)]; unfold zlen; lia. }
  wp_case.
  { eapply wp_mono; [apply give_up_ok, M2|]. intros a h w3 (b3 & -> & -> & M3 & E4 & _).
    eexists. split; [done|]. split_and!; [by eapply moves_queues|lia|done]. }
  wp_steps. wp_case.
  - wp_step. eapply wp_mono; [apply set_error_ok, M2|]. intros _ h w3 (b3 & -> & M3 & E4 & _). wp_steps.
    eexists. split; [done|]. split_and!; [by eapply moves_queues|lia|done].
  - wp_steps. eexists. split; [done|]. by split_and!.
Qed.

Lemma await_response_ok A patience b w :
  backend_wf b ->
  wlp A (await_response patience) (backend_post (fun r b' w' =>
    moves b w b' w' /\
    (r = -1 \/ r = 0 /\ bs_error b' = bs_error b /\ exists op, message_ready op b'))) (Some (Seatd b)) w.
Proof.
  revert b w. induction patience as [|n IH]; intros b w W; cbn [await_response];
    (eapply wlp_seq; [by apply read_and_queue_ok|]); intros [r op] h w1 (b1 & -> & M1 & Hq); cbn beta iota.
  all: destruct (Z.eqb_spec r (-1)) as [->|Hr];
    [apply wlp_wp, wp_ret; eexists; split; [done|]; auto|].
  all: destruct Hq as [(? & _)|(_ & E1 & Hop & _)]; [done|].
  all: destruct (Z.eqb_spec op 0) as [->|Hne]; cbn [negb];
    [|apply wlp_wp, wp_ret; eexists; split; [done|]; split; [done|]; right; destruct (Hop Hne); eauto].
  { done. }
  eapply wlp_seq; [apply poll_connection_ok, M1|]. intros r2 h w2 (b2 & -> & M2 & _ & E2).
  destruct (Z.eqb_spec r2 (-1)) as [->|Hr2].
  { apply wlp_wp, wp_ret. eexists. split; [done|]. split; [by eapply moves_queues|]. by left. }
  eapply wlp_mono; [apply IH, M2|]. intros r3 h w3 (b3 & -> & M3 & H3). eexists. split; [done|].
  split; [eapply moves_queues; [exact M1|]; by eapply moves_queues|].
  destruct H3 as [?|(-> & E3 & Hm)]; [by left|right]. split_and!; [done| |done]. rewrite E3, E2 by done. done.
Qed.

(** ** Requests *)

(** What is queued when a request is cut short. *)
Lemma conn_puts_ok msgs b w :
  backend_wf b -> Forall (Forall is_byte) msgs ->
  wp (conn_puts msgs) (backend_post (fun r b' w' =>
    r = 0 /\ queues (concat msgs) b w b' w' /\ bs_error b' = bs_error b \/
    r = -1 /\ bs_error b' = true /\ exists q, q `prefix_of` concat msgs /\ queues q b w b' w'))
    (Some (Seatd b)) w.
Proof.
  intros W Hm. revert b w W. induction Hm as [|m msgs Hm _ IH]; intros b w W; cbn [conn_puts].
  { wp_steps. eexists. split; [done|]. left. split_and!; auto with libseat. }
  wp_step. eapply wp_mono; [by apply conn_put_ok|]. intros r h w1 (b1 & -> & _ & Hr).
  destruct Hr as [(-> & Q1 & E1 & _)|(-> & M1 & E1)].
  - wp_steps. eapply wp_mono; [apply IH, Q1|]. intros r h w2 (b2 & -> & Hr). eexists. split; [done|].
    destruct Hr as [(-> & Q2 & E2)|(-> & E2 & q & Hq & Q2)]; [left|right]; split_and!; try congruence.
    + cbn [concat]. by eapply queues_trans.
    + exists (m ++ q). split; [by apply prefix_app|]. by eapply queues_trans.
  - wp_steps. eexists. split; [done|]. right. split_and!; [done..|]. exists []. split; [apply prefix_nil|done].
Qed.

Lemma moves_out_empty b w b' w' : moves b w b' w' -> out_queue b = [] -> out_queue b' = [].
Proof. intros M E. destruct (qu_sent _ _ _ _ _ M) as (d & _ & Ed). rewrite E in Ed. by destruct d, (out_queue b'). Qed.

Lemma send_request_ok A patience msgs b w :
  backend_wf b -> Forall (Forall is_byte) msgs ->
  wlp A (send_request patience msgs) (backend_post (fun r b' w' =>
    r = 0 /\ queues (concat msgs) b w b' w' /\ out_queue b' = [] /\ bs_error b' = bs_error b /\
      (exists op, message_ready op b') \/
    r = -1 /\ exists q, q `prefix_of` concat msgs /\ queues q b w b' w')) (Some (Seatd b)) w.
Proof.
  intros W Hm. unfold send_request. eapply wlp_seq; [by apply conn_puts_ok|].
  intros r h w1 (b1 & -> & [(-> & Q1 & E1)|(-> & _ & q & Hq & Q1)]); cbn [Z.eqb Pos.eqb].
  2: { apply wlp_wp, wp_ret. eexists. split; [done|]. eauto. }
  unfold read_until_response. eapply wlp_seq; [apply conn_flush_ok, Q1|].
  intros r h w2 (b2 & -> & _ & M2 & [(-> & Eo & E2 & _)|(-> & _)]); cbn [Z.eqb Pos.eqb].
  2: { apply wlp_wp, wp_ret. eexists. split; [done|]. right. split; [done|]. eexists. split; [done|].
       by eapply queues_moves. }
  eapply wlp_mono; [apply await_response_ok, M2|]. intros r h w3 (b3 & -> & M3 & Hr). eexists. split; [done|].
  assert (Q3 : queues (concat msgs) b w b3 w3).
  { eapply queues_moves; [|exact M3]. by eapply queues_moves. }
  destruct Hr as [->|(-> & E3 & Hop)]; [right; eauto|left]. split_and!; [done..| |congruence|done].
  by eapply moves_out_empty.
Qed.

Definition ping : bytes := header_bytes (Header CLIENT_PING 0).

(** A ping is queued at most. *)
Lemma check_pending_events_ok b w :
  backend_wf b ->
  wp check_pending_events (backend_post (fun _ b' w' =>
    exists q, (q = [] \/ q = ping) /\ queues q b w b' w')) (Some (Seatd b)) w.
Proof.
  intros W. unfold check_pending_events. wp_step. eapply wp_mono; [by apply read_and_queue_ok|].
  intros [r op] h w1 (b1 & -> & M1 & _). wp_case; [wp_steps; eexists; eauto|].
  wp_step. apply wp_get_backend. wp_case; [wp_steps; eexists; eauto|].
  wp_case; [wp_steps; eexists; eauto|]. unfold send_ping. wp_step. wp_step.
  eapply wp_mono; [apply conn_put_ok; [apply M1|apply header_bytes_byte]|].
  intros r2 h w2 (b2 & -> & _ & [(-> & Q2 & _)|(-> & M2 & _)]); wp_steps.
  2: { eexists. split; [done|]. exists []. split; [auto|by eapply moves_queues]. }
  eapply wp_mono; [apply conn_flush_ok, Q2|].
  intros r3 h w3 (b3 & -> & _ & M3 & Hr).
  assert (Q3 : queues ping b w b3 w3) by (eapply moves_queues; [exact M1|]; by eapply queues_moves).
  destruct Hr as [(-> & _)|(-> & _)]; wp_steps; [apply wp_upd_backend|]; eexists; (split; [done|]);
    exists ping; (split; [auto|]); [|done].
  eapply queues_moves; [exact Q3|]. apply moves_quiet; try done. by destruct (qu_wf _ _ _ _ _ Q3).
Qed.

(** How a response counts as a success: it is the one expected, or an error with
    a code that is not positive. *)
Definition accepted (op : Z) (b : backend_seatd) : Prop :=
  opcode (header_of (in_queue b)) = op \/
  opcode (header_of (in_queue b)) = SERVER_ERROR /\ int_of (drop 4 (in_queue b)) <= 0.

Lemma i32_range x : - 2 ^ 31 <= i32 x < 2 ^ 31.
Proof. unfold i32. pose proof (Z.mod_pos_bound (x + 2 ^ 31) (2 ^ 32)). lia. Qed.

Lemma int_of_range bs : - 2 ^ 31 <= int_of bs < 2 ^ 31.
Proof. apply i32_range. Qed.

(** [-errno] is negative for every positive [errno]. *)
Lemma negated_errno e : - 2 ^ 31 <= e < 2 ^ 31 -> 0 <= i32 (- e) -> e <= 0.
Proof. intros He Hr. destruct (Z.le_gt_cases e 0); [done|]. rewrite i32_small in Hr; lia. Qed.

Lemma refused_not_accepted op b b' w :
  header_refused b b' w -> 0 <= i32 (- errno w) -> accepted op b.
Proof.
  intros [[_ ->]|(_ & Hop & ->)] Hr; [done|right]. split; [done|].
  apply negated_errno; [apply int_of_range|done].
Qed.

Lemma finish_request_ok op b w :
  backend_wf b ->
  wp (finish_request op) (backend_post (fun r b' w' =>
    (r = 0 /\ accepted op b \/ r = -1) /\
    exists q, (q = [] \/ q = ping) /\ queues q b w b' w')) (Some (Seatd b)) w.
Proof.
  intros W. unfold finish_request. wp_step. eapply wp_mono; [by apply read_header_ok|].
  intros o h w1 (b1 & -> & M1 & Ho). wp_step.
  apply (wp_mono _ (fun res h w' => h = Some (Seatd b1) /\ w' = w1 /\ (0 <= res -> accepted op b))).
  { destruct o as [n|]; wp_steps; split_and!; try done; intros Hr.
    - left. by destruct Ho as (_ & -> & _).
    - by eapply refused_not_accepted. }
  intros res h w2 (-> & -> & Hres). wp_step. eapply wp_mono; [apply check_pending_events_ok, M1|].
  intros _ h w3 (b3 & -> & q & Hq & Q3). wp_case; wp_steps; eexists; (split; [done|]).
  - split; [by right|]. exists q. split; [done|]. apply queues_errno. by eapply moves_queues.
  - split; [left; split; [done|apply Hres; lia]|]. exists q. split; [done|by eapply moves_queues].
Qed.

(** ** The requests of an open seat *)

Inductive request :=
| OpenDevice (path : bytes)
| CloseDevice (device_id : Z)
| SwitchSession (session : Z)
| DisableSeat.

Definition perform_request (patience : nat) (q : request) : M handle Z :=
  match q with
  | OpenDevice path => '(r, _) ← open_device patience path; mret r
  | CloseDevice id => close_device patience id
  | SwitchSession n => switch_session patience n
  | DisableSeat => disable_seat patience
  end.

(** The message of a request, as the daemon should receive it. *)
Definition request_bytes (q : request) : bytes :=
  match q with
  | OpenDevice path =>
      header_bytes (Header CLIENT_OPEN_DEVICE (3 + zlen path)) ++ u16_bytes (zlen path + 1) ++ path ++ [0]
  | CloseDevice id => header_bytes (Header CLIENT_CLOSE_DEVICE 4) ++ int_bytes id
  | SwitchSession n => header_bytes (Header CLIENT_SWITCH_SESSION 4) ++ int_bytes n
  | DisableSeat => header_bytes (Header CLIENT_DISABLE_SEAT 0)
  end.

Definition response_opcode (q : request) : Z :=
  match q with
  | OpenDevice _ => SERVER_DEVICE_OPENED
  | CloseDevice _ => SERVER_DEVICE_CLOSED
  | SwitchSession _ => SERVER_SESSION_SWITCHED
  | DisableSeat => SERVER_SEAT_DISABLED
  end.

(** The arguments the library accepts. *)
Definition request_valid (q : request) : Prop :=
  match q with
  | OpenDevice path => Forall is_byte path /\ zlen path < 256
  | CloseDevice id => 0 <= id
  | SwitchSession n => 0 <= n
  | DisableSeat => True
  end.

(** Only [open_device] asserts something about the response. *)
Definition may_assert (q : request) : Prop :=
  match q with OpenDevice _ => True | _ => False end.

(** What the daemon has been sent when a request returns [r]: what was queued
    before, then the message, and a ping at most; all of the message if the
    request succeeded. *)
Definition delivered (q : request) (r : Z) (b : backend_seatd) (w w' : sys) : Prop :=
  exists d, sends (bs_fd b) d w w' /\ d `prefix_of` out_queue b ++ request_bytes q ++ ping /\
    (0 <= r -> out_queue b ++ request_bytes q `prefix_of` d).

(** The outcome of a request. *)
Definition request_post (q : request) (b : backend_seatd) (w : sys) (r : Z) (b' : backend_seatd) (w' : sys) : Prop :=
  -1 <= r /\ (exists sent, queues sent b w b' w') /\ delivered q r b w w'.

(** The request was cut short. *)
Lemma request_cut q s b w b' w' :
  s `prefix_of` request_bytes q -> queues s b w b' w' -> request_post q b w (-1) b' w'.
Proof.
  intros Hs Q. split_and!; [lia|eauto|]. destruct (qu_sent _ _ _ _ _ Q) as (d & Hd & E).
  exists d. split_and!; [done| |lia]. trans (out_queue b ++ s); [by exists (out_queue b')|].
  apply prefix_app. by apply prefix_app_r.
Qed.

(** The request was sent, and answered. *)
Lemma request_sent q r s b w b1 w1 b' w' :
  -1 <= r -> s = [] \/ s = ping -> queues (request_bytes q) b w b1 w1 -> out_queue b1 = [] ->
  queues s b1 w1 b' w' -> request_post q b w r b' w'.
Proof.
  intros Hr Hs Q1 Eo Q2. split_and!; [done|eauto using queues_trans|].
  destruct (qu_sent _ _ _ _ _ Q1) as (d1 & Hd1 & E1), (qu_sent _ _ _ _ _ Q2) as (d2 & Hd2 & E2).
  rewrite Eo, app_nil_r in E1. rewrite Eo in E2. cbn in E2. rewrite (qu_fd _ _ _ _ _ Q1) in Hd2.
  exists (d1 ++ d2). split_and!; [by eapply sends_trans| |intros _; rewrite E1; by exists d2].
  rewrite app_assoc, E1. apply prefix_app. trans s; [by exists (out_queue b')|].
  destruct Hs as [-> | ->]; [apply prefix_nil|done].
Qed.

(** The requests whose response has no body. *)
Lemma simple_request_ok A patience msgs q b w :
  backend_wf b -> Forall (Forall is_byte) msgs -> concat msgs = request_bytes q ->
  wlp A (r ← send_request patience msgs;
         if r =? -1 then mret (-1) else finish_request (response_opcode q))
    (backend_post (request_post q b w)) (Some (Seatd b)) w.
Proof.
  intros W Hm Eq. apply wlp_bind. eapply wlp_mono; [by apply send_request_ok|].
  intros r h w1 (b1 & -> & [(-> & Q1 & Eo & _)|(-> & s & Hs & Q1)]); cbn [Z.eqb Pos.eqb]; rewrite Eq in *.
  - apply wlp_wp. eapply wp_mono; [apply finish_request_ok, Q1|].
    intros r h w2 (b2 & -> & Hr & s & Hs & Q2). eexists. split; [done|]. eapply request_sent; eauto. lia.
  - apply wlp_wp, wp_ret. eexists. split; [done|]. by eapply request_cut.
Qed.

(** What [open_device] makes of the response. *)
Lemma device_response_ok b w :
  backend_wf b ->
  wlp True device_response (backend_post (fun '(res, f) b' w' =>
    moves b w b' w' /\ (f = None -> res < 0))) (Some (Seatd b)) w.
Proof.
  intros W. unfold device_response.
  set (Post := backend_post (fun '((res, f) : Z * option Z) b' w' => moves b w b' w' /\ (f = None -> res < 0))).
  set (failed := get_errno ≫= _). assert (Hf : forall b1 w1, moves b w b1 w1 -> wlp True failed Post (Some (Seatd b1)) w1).
  { intros b1 w1 M1. unfold failed. apply wlp_bind, wlp_wp, wp_get_errno. cbn zeta. apply wlp_bind, wlp_assert; [done|].
    intros Hr. apply wlp_wp, wp_ret. eexists. split; [done|]. split; [done|lia]. }
  eapply wlp_seq; [by apply read_header_ok|]. intros o h w1 (b1 & -> & M1 & _).
  destruct o as [n|]; [|by apply Hf].
  eapply wlp_seq; [apply conn_get_ok; [apply M1|done]|]. intros o h w2 (b2 & -> & M2 & _).
  assert (M02 : moves b w b2 w2) by by eapply moves_queues.
  destruct o as [rmsg|]; [|by apply Hf].
  eapply wlp_seq; [apply conn_get_fd_ok, M02|]. intros o h w3 (b3 & -> & M3 & _).
  assert (M03 : moves b w b3 w3) by by eapply moves_queues.
  destruct o as [f|]; [|by apply Hf]. apply wlp_wp, wp_ret. eexists. by split.
Qed.

(** The object behind the pointer a function is given. *)
Lemma wlp_from_base {B} A (f : backend_seatd -> M handle B) b Q w :
  wlp A (f b) Q (Some (Seatd b)) w ->
  wlp A (backend_seatd_from_libseat_backend ≫= f) Q (Some (Seatd b)) w.
Proof. done. Qed.

Lemma wp_from_base {B} (f : backend_seatd -> M handle B) b Q w :
  wp (f b) Q (Some (Seatd b)) w -> wp (backend_seatd_from_libseat_backend ≫= f) Q (Some (Seatd b)) w.
Proof. done. Qed.

Lemma open_device_ok patience path b w :
  backend_wf b -> bs_error b = false -> request_valid (OpenDevice path) ->
  wlp True (open_device patience path) (backend_post (fun '(r, f) b' w' =>
    (0 <= r -> f <> None) /\ request_post (OpenDevice path) b w r b' w')) (Some (Seatd b)) w.
Proof.
  intros W He [Hb Hl]. unfold open_device. apply wlp_from_base. rewrite He. unfold MAX_PATH_LEN.
  rewrite (proj2 (Z.ltb_ge 256 (zlen path + 1))) by lia.
  set (msgs := [_; _; _]). assert (Em : concat msgs = request_bytes (OpenDevice path)).
  { unfold msgs. cbn [concat request_bytes]. rewrite app_nil_r. by replace (2 + (zlen path + 1)) with (3 + zlen path) by lia. }
  apply wlp_bind. eapply wlp_mono; [apply send_request_ok; [done|]|].
  { apply Forall_cons_2; [apply header_bytes_byte|]. apply Forall_cons_2; [apply le_bytes_byte|].
    apply Forall_singleton, Forall_app. split; [done|by apply Forall_singleton]. }
  rewrite Em. intros r h w1 (b1 & -> & [(-> & Q1 & Eo & _)|(-> & s & Hs & Q1)]); cbn [Z.eqb Pos.eqb].
  2: { apply wlp_wp, wp_ret. eexists. split; [done|]. split; [lia|]. by eapply request_cut. }
  apply wlp_bind. eapply wlp_mono; [apply device_response_ok, Q1|]. intros [res f] h w2 (b2 & -> & M2 & Hf).
  eapply wlp_seq; [apply check_pending_events_ok, M2|]. intros _ h w3 (b3 & -> & s & Hs & Q3).
  pose proof (moves_out_empty _ _ _ _ M2 Eo) as Eo2. assert (Q2 : queues (request_bytes (OpenDevice path)) b w b2 w2).
  { by eapply queues_moves. }
  apply wlp_wp. wp_case; wp_steps; eexists; (split; [done|]); (split; [|eapply request_sent; eauto with libseat; lia]).
  - lia.
  - intros _ ->. lia.
Qed.

Lemma int_request_bytes h n : Forall (Forall is_byte) [header_bytes h; int_bytes n].
Proof. apply Forall_cons_2; [apply header_bytes_byte|]. apply Forall_singleton, le_bytes_byte. Qed.

(** Every request returns or waits, and queues its message, all of it when it
    succeeds. *)
Lemma perform_request_ok patience q b w :
  backend_wf b -> bs_error b = false -> request_valid q ->
  wlp (may_assert q) (perform_request patience q) (backend_post (request_post q b w)) (Some (Seatd b)) w.
Proof.
  intros W He Hv. destruct q as [path|id|n|]; cbn [perform_request may_assert request_valid] in *.
  { apply wlp_bind. eapply wlp_mono; [by apply open_device_ok|]. intros [r f] h w1 (b1 & -> & _ & Hs).
    apply wlp_wp, wp_ret. eexists. eauto. }
  all: unfold close_device, switch_session, disable_seat; apply wlp_from_base; rewrite He.
  1,2: rewrite (proj2 (Z.ltb_ge _ 0)) by done.
  - apply (simple_request_ok _ _ _ (CloseDevice id)); [done|apply int_request_bytes|cbn [concat]; by rewrite app_nil_r].
  - apply (simple_request_ok _ _ _ (SwitchSession n)); [done|apply int_request_bytes|cbn [concat]; by rewrite app_nil_r].
  - apply (simple_request_ok _ _ _ DisableSeat); [done|apply Forall_singleton, header_bytes_byte|cbn [concat]; by rewrite app_nil_r].
Qed.

End Operations.
