(* ===== verification/LibseatOpen.v ===== *)
(** * An open seat of libseat, and the law of the application's listener *)
From S2P Require Import Prelude Kernel Waiting Connection Protocol Backend LibseatSeatd LibseatOk.

(** ** The listener *)

(** The name of the seat is a string inside its array. *)
Definition named (b : backend_seatd) : Prop := (strnlen (bs_seat_name b) 64 < 64)%nat.

(** The session of an open seat of logind is known. *)
Record logind_wf (b : backend_logind) : Prop := {
  lw_bus : bus b = true;
  lw_id : is_Some (session_id b);
  lw_seat : is_Some (lg_seat b);
  lw_path : is_Some (lg_path b);
  lw_seat_path : is_Some (seat_path b)
}.

Definition same_session (b b' : backend_logind) : Prop :=
  bus b' = bus b /\ session_id b' = session_id b /\ lg_seat b' = lg_seat b /\ lg_path b' = lg_path b /\
  seat_path b' = seat_path b.

(** An open seat. *)
Definition seat_open (h : handle) : Prop :=
  match h with
  | Some (Seatd b) => backend_wf b /\ named b
  | Some (Noop _) => True
  | Some (Logind b) => logind_wf b
  | None => False
  end.

(** The seat is still the same. *)
Definition same_seat (h h' : handle) : Prop :=
  seat_open h' /\
  match h, h' with
  | Some (Seatd b), Some (Seatd b') => bs_fd b' = bs_fd b
  | Some (Noop b), Some (Noop b') => sockets b' = sockets b
  | Some (Logind b), Some (Logind b') => same_session b b'
  | _, _ => False
  end.

(** The functions of the listener may use the seat, but not close it. *)
Class ListenerOk `{K : Kernel} `{L : Listener} := {
  listener_enable_ok : forall h w, seat_open h ->
    wlp False listener_enable_seat (fun _ h' w' => same_seat h h' /\ sys_le w w') h w;
  listener_disable_ok : forall h w, seat_open h ->
    wlp False listener_disable_seat (fun _ h' w' => same_seat h h' /\ sys_le w w') h w
}.

Lemma same_seat_refl h : seat_open h -> same_seat h h.
Proof. intros Ho. split; [done|]. by destruct h as [[b|b|b]|]. Qed.

Lemma same_seat_trans h1 h2 h3 : same_seat h1 h2 -> same_seat h2 h3 -> same_seat h1 h3.
Proof.
  intros [_ H1] [H2 H3]. split; [done|].
  destruct h1 as [[b1|b1|b1]|], h2 as [[b2|b2|b2]|], h3 as [[b3|b3|b3]|]; try done; try congruence.
  unfold same_session in *. naive_solver congruence.
Qed.

Lemma queues_same_seat q b w b' w' :
  queues q b w b' w' -> named b -> same_seat (Some (Seatd b)) (Some (Seatd b')) /\ sys_le w w'.
Proof.
  intros [W F N E (d & Hd & _)] Hn. split; [|by apply sends_le in Hd].
  split; [|done]. split; [done|]. unfold named. by rewrite N.
Qed.

(** A call of the listener. *)
Lemma notify_ok `{K : Kernel} `{L : Listener} {LOk : ListenerOk} enabled h w :
  seat_open h -> wlp False (notify enabled) (fun _ h' w' => same_seat h h' /\ sys_le w w') h w.
Proof.
  intros Ho. unfold notify. apply wlp_bind, wlp_ext. intros r _.
  assert (Hl : sys_le w (logged w (Notify enabled) r)) by apply sys_le_logged.
  destruct enabled; (eapply wlp_mono; [(by apply listener_enable_ok) || (by apply listener_disable_ok)|]);
    intros _ h' w' [Hs Hle]; (split; [done|by etrans]).
Qed.
