(* ===== verification/LibseatLogindOk.v ===== *)
(** * What the operations of libseat/backend/logind.c do

    The operations are proved to keep a predicate of the object and the history,
    given what their calls, their listener and their acknowledgements do to it. *)
From S2P Require Import Prelude Kernel Waiting Connection Protocol Backend LibseatSeatd LibseatLogind.
From S2P Require Import LibseatOk LibseatOpen.

(** The acknowledgement that a device is paused, a call without a reply. *)
Definition is_pause_complete (c : call) : bool :=
  match c with
  | Bus (sd_bus_call_method _ _ member _) => bool_decide (member = str "PauseDeviceComplete")
  | _ => false
  end.

(** The calls that change what the program holds or what the application was told. *)
Definition is_plain (c : call) : bool :=
  match c with
  | Notify _ | Bus (sd_bus_call_method _ _ _ _) | Bus sd_bus_message_unref
  | Bus sd_bus_default_system | Bus sd_bus_unref => false
  | _ => true
  end.

(** The object is kept, with a property of it and of the history. *)
Definition logind_post {A} (P : A -> backend_logind -> sys -> Prop) (a : A) (h : handle) (w : sys) : Prop :=
  exists b, h = Some (Logind b) /\ P a b w.

Lemma wp_get_logind `{K : Kernel} Q b w : Q b (Some (Logind b)) w -> wp get_logind Q (Some (Logind b)) w.
Proof. done. Qed.

Lemma wlp_get_logind `{K : Kernel} A Q b w : Q b (Some (Logind b)) w -> wlp A get_logind Q (Some (Logind b)) w.
Proof. done. Qed.

Lemma wlp_logind_from_base `{K : Kernel} A Q b w :
  Q b (Some (Logind b)) w -> wlp A backend_logind_from_libseat_backend Q (Some (Logind b)) w.
Proof. done. Qed.

(** A predicate of the number of messages held, the object and the history. *)
Abbreviation predicate := (Z -> backend_logind -> sys -> Prop).

(** What it must bear. *)
Class Bears (P : predicate) := {
  bears_call : forall n b w c r, is_plain c = true -> P n b w -> P n b (logged w c r);
  bears_errno : forall n b w e, P n b w -> P n b (Sys (trace w) e);
  bears_method : forall n b w path interface member args r,
    member <> str "PauseDeviceComplete" -> P n b w ->
    P (if r_ret r <? 0 then n else n + 1) b (logged w (Bus (sd_bus_call_method path interface member args)) r);
  bears_unref : forall n b w r, P (n + 1) b w -> P n b (logged w (Bus sd_bus_message_unref) r)
}.

(** Predicates that stay true as the history grows, and conjunctions. *)
Lemma bears_stable (Q : backend_logind -> sys -> Prop) :
  (forall b w w', Q b w -> sys_le w w' -> Q b w') -> Bears (fun _ => Q).
Proof. intros HQ. split; intros; (eapply HQ; [done|]); (apply sys_le_logged || apply sys_le_errno). Qed.

Lemma bears_and (P Q : predicate) : Bears P -> Bears Q -> Bears (fun n b w => P n b w /\ Q n b w).
Proof.
  intros [P1 P2 P3 P4] [Q1 Q2 Q3 Q4]. split; [intros n b w c r Hc [? ?]|intros n b w e [? ?]
    |intros n b w path interface member args r Hm [? ?]|intros n b w r [? ?]]; eauto.
Qed.

Section Keeping.
Context `{K : Kernel} `{L : Listener}.

Definition kept {A} (P : predicate) (m : M handle A) : Prop :=
  forall n b w, P n b w -> wlp False m (logind_post (fun _ => P n)) (Some (Logind b)) w.

Variable P : predicate.

Lemma kept_ret {A} (a : A) : kept P (mret a).
Proof. intros n b w Hp. by exists b. Qed.

Lemma kept_bind {A B} (m : M handle A) (f : A -> M handle B) : kept P m -> (forall a, kept P (f a)) -> kept P (m ≫= f).
Proof.
  intros Hm Hf n b w Hp. apply wlp_bind. eapply wlp_mono; [by apply Hm|]. intros a h w1 (b1 & -> & Hp1). by apply Hf.
Qed.

Lemma kept_hang {A} : kept P (@hang handle A).
Proof. done. Qed.

Lemma kept_get_errno : kept P get_errno.
Proof. intros n b w Hp. by exists b. Qed.

Lemma kept_get_logind : kept P get_logind.
Proof. intros n b w Hp. by exists b. Qed.

Lemma kept_from_base : kept P backend_logind_from_libseat_backend.
Proof. intros n b w Hp. by exists b. Qed.

Context {HP : Bears P}.

Lemma kept_ext c : is_plain c = true -> kept P (ext c).
Proof. intros Hc n b w Hp. apply wlp_ext. intros r _. exists b. split; [done|by apply bears_call]. Qed.

Lemma kept_fail_with {A} e (a : A) : kept P (fail_with e a).
Proof. intros n b w Hp. exists b. split; [done|by apply bears_errno]. Qed.

(** A message is held while it is read. *)
Lemma kept_method {A} path interface member args (failed : Z -> A) read :
  member <> str "PauseDeviceComplete" -> (forall r, kept P (read r)) ->
  kept P (call_method_reply path interface member args failed read).
Proof.
  intros Hm Hr n b w Hp. unfold call_method_reply. apply wlp_bind, wlp_ext. intros r _.
  apply (bears_method n b w path interface member args r Hm) in Hp. destruct (r_ret r <? 0); [by exists b|].
  apply wlp_bind. eapply wlp_mono; [by apply Hr|]. intros a h w1 (b1 & -> & Hp1).
  apply wlp_bind, wlp_ext. intros r1 _. exists b1. split; [done|by apply bears_unref].
Qed.

End Keeping.

Create HintDb kept.
#[export] Hint Resolve kept_ret kept_hang kept_get_errno kept_get_logind kept_from_base kept_fail_with : kept.
#[export] Hint Extern 1 (kept _ (ext _)) => (apply kept_ext; [apply _|reflexivity]) : kept.

(** Walk the code. *)
Ltac kept_step :=
  match goal with
  | |- forall _, _ => intros
  | |- kept _ (_ ≫= _) => apply kept_bind
  | |- kept _ (if ?b then _ else _) => destruct b
  | |- kept _ (match ?x with _ => _ end) => destruct x
  | |- kept _ (let _ := _ in _) => cbn zeta
  | |- kept _ (call_method _ _ _ _) => unfold call_method
  | |- kept _ (call_method_reply _ _ _ _ _ _) => apply kept_method; [apply _|done|]
  | |- kept _ _ => solve [eauto with kept typeclass_instances]
  end.
Ltac kept_auto := repeat kept_step.

(** ** The operations that only talk to logind *)

Section Calls.
Context `{K : Kernel} `{L : Listener} (P : predicate) {HP : Bears P}.

Lemma kept_bus_ret c : is_plain (Bus c) = true -> kept P (bus_ret c).
Proof. intros Hc. unfold bus_ret. apply kept_bind; [by apply kept_ext; [apply _|]|]. kept_auto. Qed.

Lemma kept_check_pending_events : kept P logind_check_pending_events.
Proof. unfold logind_check_pending_events, logind_send_ping. kept_auto. Qed.
#[local] Hint Resolve kept_check_pending_events : kept.

Lemma kept_finish_call ret : kept P (finish_call ret).
Proof. unfold finish_call. kept_auto. Qed.
#[local] Hint Resolve kept_finish_call : kept.

Lemma kept_open_device path : kept P (logind_open_device path).
Proof.
  unfold logind_open_device, take_device. kept_auto.
Qed.

Lemma kept_close_device id : kept P (logind_close_device id).
Proof. unfold logind_close_device. kept_auto. Qed.

Lemma kept_switch_session n : kept P (logind_switch_session n).
Proof. unfold logind_switch_session. kept_auto. Qed.

Lemma kept_get_fd : kept P logind_get_fd.
Proof. unfold logind_get_fd. kept_auto. Qed.

Lemma kept_poll_connection timeout : kept P (logind_poll_connection timeout).
Proof. unfold logind_poll_connection. kept_auto. Qed.

Lemma kept_seat_name : kept P logind_seat_name.
Proof. unfold logind_seat_name. kept_auto. Qed.

End Calls.

(** ** The handlers *)

(** What the predicate must bear of the handlers. *)
Class Processes `{K : Kernel} `{L : Listener} (P : predicate) := {
  processes_bears :: Bears P;
  processes_active : forall value, kept P (set_active value);
  processes_pause : forall major minor, kept P (pause_device major minor)
}.

Section Processing.
Context `{K : Kernel} `{L : Listener} (P : predicate) {HP : Processes P}.
#[local] Hint Resolve processes_active processes_pause : kept.
#[local] Hint Extern 1 (kept _ (bus_ret _)) => (apply kept_bus_ret; [apply _|reflexivity]) : kept.

Lemma kept_or_error m next : kept P m -> kept P next -> kept P (or_error m next).
Proof. intros Hm Hn. unfold or_error. kept_auto. Qed.

Lemma kept_handle_pause_device : kept P handle_pause_device.
Proof. unfold handle_pause_device. kept_auto. Qed.

Lemma kept_changed_properties n : kept P (changed_properties n).
Proof.
  induction n as [|n IH]; cbn [changed_properties]; [apply kept_hang|]. kept_auto.
  all: repeat (apply kept_or_error; kept_auto).
Qed.

Lemma kept_invalidated_properties n : kept P (invalidated_properties n).
Proof. induction n as [|n IH]; cbn [invalidated_properties]; [apply kept_hang|]. kept_auto. Qed.
#[local] Hint Resolve kept_handle_pause_device kept_changed_properties kept_invalidated_properties : kept.

Lemma kept_handle_properties_changed n : kept P (handle_properties_changed n).
Proof.
  unfold handle_properties_changed. kept_auto.
  all: repeat (apply kept_or_error; kept_auto).
Qed.
#[local] Hint Resolve kept_handle_properties_changed : kept.

Lemma kept_process n : kept P (process n).
Proof. unfold process, ping_handler. kept_auto. Qed.
#[local] Hint Resolve kept_process : kept.

Lemma kept_process_all turns n total : kept P (process_all turns n total).
Proof. revert total. induction turns as [|t IH]; intros total; cbn [process_all]; kept_auto. Qed.
#[local] Hint Resolve kept_process_all kept_poll_connection kept_check_pending_events : kept.

(** The first dispatch tells the application the state of its seat. *)
Lemma dispatch_and_execute_ok patience timeout n b w :
  (lg_initial_setup b = false -> P n b w) ->
  (lg_initial_setup b = true ->
     wlp False (notify (active b)) (logind_post (fun _ => P n)) (Some (Logind (set_lg_initial_setup false b))) w) ->
  wlp False (dispatch_and_execute patience timeout) (logind_post (fun _ => P n)) (Some (Logind b)) w.
Proof.
  intros H0 H1. unfold dispatch_and_execute. apply wlp_bind, wlp_logind_from_base.
  apply wlp_bind. apply (wlp_mono _ _ (logind_post (fun _ => P n))).
  - destruct (lg_initial_setup b); [|by exists b; auto]. apply wlp_bind. by apply H1.
  - intros [] h w1 (b1 & -> & Hp).
    assert (Hk : kept P (total_dispatched ← process_all patience patience 0;
      if (total_dispatched =? 0) && negb (timeout =? 0) then
        r ← logind_poll_connection timeout;
        if r =? -1 then mret (-1) else
        total_dispatched ← process_all patience patience total_dispatched;
        logind_check_pending_events;;
        mret total_dispatched
      else logind_check_pending_events;; mret total_dispatched)) by kept_auto.
    by apply Hk.
Qed.

End Processing.

(** ** Safety *)

(** The session is open and still the one it was, however many messages are held. *)
Definition still_session (b0 : backend_logind) (w0 : sys) (n : Z) (b : backend_logind) (w : sys) : Prop :=
  logind_wf b /\ same_session b0 b /\ sys_le w0 w.

Lemma same_session_trans b1 b2 b3 : same_session b1 b2 -> same_session b2 b3 -> same_session b1 b3.
Proof. unfold same_session. naive_solver congruence. Qed.

Lemma same_session_wf b b' : same_session b b' -> logind_wf b -> logind_wf b'.
Proof. intros (? & ? & ? & ? & ?) []. split; congruence. Qed.

Section Safety.
Context `{K : Kernel} `{L : Listener} {LOk : ListenerOk}.

Lemma still_session_le b0 w0 n n' b w w' :
  still_session b0 w0 n b w -> sys_le w w' -> still_session b0 w0 n' b w'.
Proof. intros (W & S & Hle) Hle'. split_and!; [done..|by etrans]. Qed.

#[export] Instance still_session_bears b0 w0 : Bears (still_session b0 w0).
Proof. apply (bears_stable (still_session b0 w0 0)). intros b w w'. by apply still_session_le. Qed.

Lemma notify_session b0 w0 n value b w :
  still_session b0 w0 n b w -> wlp False (notify value) (logind_post (fun _ => still_session b0 w0 n)) (Some (Logind b)) w.
Proof.
  intros (W & S & Hle). eapply wlp_mono; [by apply (notify_ok value (Some (Logind b)))|].
  intros [] h w1 [[Ho Hs] Hle1]. destruct h as [[| |b1]|]; try done. eexists. split; [done|].
  split_and!; [done|by eapply same_session_trans|by etrans].
Qed.

Lemma still_session_flags b0 w0 n b b' w :
  same_session b b' -> still_session b0 w0 n b w -> still_session b0 w0 n b' w.
Proof. intros Hs (W & S & Hle). split_and!; [by eapply same_session_wf|by eapply same_session_trans|done]. Qed.

#[export] Instance still_session_processes b0 w0 : Processes (still_session b0 w0).
Proof.
  assert (Ha : forall value, kept (still_session b0 w0) (set_active value)).
  { intros value n b w Hp. unfold set_active. apply wlp_bind, wlp_get_logind.
    destruct (eqb (active b) value); [by exists b|]. apply wlp_bind. apply notify_session.
    apply (still_session_flags b0 w0 n b); [by unfold same_session|done]. }
  split; [apply _|done|]. intros major minor. unfold pause_device. apply kept_bind; [done|]. intros _.
  apply kept_bind; [apply kept_get_logind|]. intros session n b w Hp. apply wlp_bind, wlp_ext. intros r _.
  exists b. split; [done|]. eapply still_session_le; [done|apply sys_le_logged].
Qed.

(** The operations on an open seat. *)
Lemma logind_dispatch_ok patience timeout b w :
  logind_wf b ->
  wlp False (dispatch_and_execute patience timeout) (logind_post (fun _ => still_session b w 0)) (Some (Logind b)) w.
Proof.
  intros W. assert (Hp : still_session b w 0 b w) by by unfold still_session, same_session; split_and!.
  apply dispatch_and_execute_ok; [apply _|done|]. intros _. apply notify_session.
  apply (still_session_flags b w 0 b); [by unfold same_session; split_and!|done].
Qed.

End Safety.

(** ** The books

    What the program holds and what it has told the application, by its history. *)

(** References to the bus. *)
Fixpoint bus_refs (h : history) : Z :=
  match h with
  | [] => 0
  | (Bus sd_bus_default_system, r) :: h' => (if r_ret r <? 0 then 0 else 1) + bus_refs h'
  | (Bus sd_bus_unref, _) :: h' => bus_refs h' - 1
  | _ :: h' => bus_refs h'
  end.

(** Messages. *)
Fixpoint msg_refs (h : history) : Z :=
  match h with
  | [] => 0
  | (Bus (sd_bus_call_method _ _ member _), r) :: h' =>
      (if (r_ret r <? 0) || bool_decide (member = str "PauseDeviceComplete") then 0 else 1) + msg_refs h'
  | (Bus sd_bus_message_unref, _) :: h' => msg_refs h' - 1
  | _ :: h' => msg_refs h'
  end.

(** The calls of the listener, latest first. *)
Fixpoint notes (h : history) : list bool :=
  match h with
  | [] => []
  | (Notify enabled, _) :: h' => enabled :: notes h'
  | _ :: h' => notes h'
  end.

Lemma plain_books c r h :
  is_plain c = true ->
  bus_refs ((c, r) :: h) = bus_refs h /\ msg_refs ((c, r) :: h) = msg_refs h /\ notes ((c, r) :: h) = notes h.
Proof. destruct c; try done. match goal with c : bus_call |- _ => by destruct c end. Qed.

(** No pause was acknowledged. *)
Definition without_pauses (w w' : sys) : Prop :=
  exists t, trace w' = t ++ trace w /\ Forall (fun x => is_pause_complete x.1 = false) t.

(** Since [w0], a pause was acknowledged only when the last the application was
    told is that its seat is disabled. *)
Definition acknowledged (w0 w : sys) : Prop :=
  forall t1 c r t2, trace w = t1 ++ (c, r) :: t2 ++ trace w0 -> is_pause_complete c = true ->
    exists l, notes (t2 ++ trace w0) = false :: l.

Lemma acknowledged_app w0 w w' :
  sys_le w0 w -> acknowledged w0 w -> without_pauses w w' -> acknowledged w0 w'.
Proof.
  intros [t0 E0] Ha (t & Et & Hp) t1 c r t2 E Hc. rewrite Et, E0 in E.
  assert (Hlen : (length t <= length t1)%nat).
  { apply not_gt. intros Hlt. assert (Hin : (c, r) ∈ t).
    { apply (list_elem_of_lookup_2 _ (length t1)). rewrite <- (lookup_app_l t (t0 ++ trace w0)) by lia. rewrite E.
      by apply list_lookup_middle. }
    rewrite Forall_forall in Hp. specialize (Hp _ Hin). cbn in Hp. congruence. }
  apply (Ha (drop (length t) t1) c r t2); [|done]. rewrite E0.
  apply (f_equal (drop (length t))) in E. rewrite drop_app_length, drop_app_le in E by lia. exact E.
Qed.

Lemma without_pauses_logged w c r : is_pause_complete c = false -> without_pauses w (logged w c r).
Proof. intros Hc. exists [(c, r)]. split; [done|by apply Forall_singleton]. Qed.

Lemma acknowledged_refl w : acknowledged w w.
Proof.
  intros t1 c r t2 E _. apply (f_equal length) in E. rewrite length_app in E. cbn in E. rewrite length_app in E. lia.
Qed.

Lemma acknowledged_logged w0 w c r :
  is_pause_complete c = false -> sys_le w0 w -> acknowledged w0 w -> acknowledged w0 (logged w c r).
Proof. intros Hc Hle Ha. eapply acknowledged_app; [done..|by apply without_pauses_logged]. Qed.

Lemma plain_no_pause c : is_plain c = true -> is_pause_complete c = false.
Proof. destruct c; try done. match goal with c : bus_call |- _ => by destruct c end. Qed.

(** The books since [w0]: the bus if the object has it, the messages held, what the
    application was told, and the acknowledgements. *)
Record booked (w0 : sys) (told : list bool) (n : Z) (b : backend_logind) (w : sys) : Prop := {
  bk_le : sys_le w0 w;
  bk_bus : bus_refs (trace w) = bus_refs (trace w0) + Z.b2z (bus b);
  bk_msg : msg_refs (trace w) = msg_refs (trace w0) + n;
  bk_notes : notes (trace w) = told ++ notes (trace w0);
  bk_ack : acknowledged w0 w
}.

Lemma booked_same w0 told n b b' w : bus b' = bus b -> booked w0 told n b w -> booked w0 told n b' w.
Proof. intros E []. by split; rewrite ?E. Qed.

#[export] Instance booked_bears w0 told : Bears (booked w0 told).
Proof.
  split.
  - intros n b w c r Hc [L1 B1 M1 N1 A1]. destruct (plain_books c r (trace w) Hc) as (E1 & E2 & E3).
    split; cbn [trace logged]; rewrite ?E1, ?E2, ?E3; try done.
    + etrans; [exact L1|apply sys_le_logged].
    + apply acknowledged_logged; [by apply plain_no_pause|done..].
  - intros n b w e [L1 B1 M1 N1 A1]. by split.
  - intros n b w path interface member args r Hm [L1 B1 M1 N1 A1]. split; cbn [trace logged bus_refs msg_refs notes]; try done.
    + etrans; [exact L1|apply sys_le_logged].
    + rewrite bool_decide_false, orb_false_r by done. destruct (r_ret r <? 0); lia.
    + apply acknowledged_logged; [by apply bool_decide_eq_false|done..].
  - intros n b w r [L1 B1 M1 N1 A1]. split; cbn [trace logged bus_refs msg_refs notes]; try done;
      [etrans; [exact L1|apply sys_le_logged]|lia|by apply acknowledged_logged].
Qed.

(** ** Opening *)

Section Opening.
Context `{K : Kernel} `{L : Listener}.
Variable w0 : sys.

(** The books are kept, and on success [F] holds. *)
Definition filled (F : backend_logind -> sys -> Prop) (ret : Z) (h : handle) (w' : sys) : Prop :=
  exists b', h = Some (Logind b') /\ booked w0 [] 0 b' w' /\ (0 <= ret -> F b' w').

(** A step of [open_session]. *)
Definition fills (F : backend_logind -> backend_logind -> sys -> Prop) (m : M handle Z) : Prop :=
  forall b w, booked w0 [] 0 b w -> wp m (filled (F b)) (Some (Logind b)) w.

Lemma or_error_filled F G m next b w :
  wp m (filled F) (Some (Logind b)) w ->
  (forall b1 w1, F b1 w1 -> booked w0 [] 0 b1 w1 -> wp next (filled G) (Some (Logind b1)) w1) ->
  wp (or_error m next) (filled G) (Some (Logind b)) w.
Proof.
  intros Hm Hn. unfold or_error. wp_step. eapply wp_mono; [exact Hm|]. intros ret h w1 (b1 & -> & Hb1 & HF).
  wp_case; [|apply Hn; [apply HF; lia|done]]. wp_steps. exists b1. split_and!; [done..|lia].
Qed.

Lemma get_display_session_fills xdg : fills (fun b b' _ => exists id, b' = set_session_id (Some id) b) (get_display_session xdg).
Proof.
  intros b w Hb. unfold get_display_session, no_session.
  assert (Hno : forall ret w1, ret < 0 -> booked w0 [] 0 b w1 -> wp (upd_logind (set_session_id None);; mret ret)
    (filled (fun b' _ => exists id, b' = set_session_id (Some id) b)) (Some (Logind b)) w1).
  { intros ret w1 Hr Hb1. eexists. split; [done|]. split; [by eapply booked_same; [|done]|lia]. }
  assert (Hyes : forall id w1, booked w0 [] 0 b w1 -> wp (upd_logind (set_session_id (Some id));; mret 0)
    (filled (fun b' _ => exists id, b' = set_session_id (Some id) b)) (Some (Logind b)) w1).
  { intros id w1 Hb1. eexists. split; [done|]. split; [by eapply booked_same; [|done]|eauto]. }
  assert (Hcall : forall w1 c r, is_plain c = true -> booked w0 [] 0 b w1 -> booked w0 [] 0 b (logged w1 c r))
    by (intros; by apply bears_call).
  destruct xdg as [id|].
  - wp_step. apply wp_ext. intros r _. wp_case; [apply Hno; [lia|auto]|]. wp_step. apply wp_ext. intros d _.
    wp_case; [by apply Hno; auto|]. apply Hyes. auto.
  - wp_step. apply wp_ext. intros pid _. wp_step. apply wp_ext. intros r _. wp_case; [apply Hyes; auto|].
    wp_step. apply wp_ext. intros uid _. wp_step. apply wp_ext. intros r2 _. wp_case; [apply Hno; [lia|auto]|].
    apply Hyes. auto.
Qed.

Lemma session_get_seat_fills : fills (fun b b' _ => exists seat, b' = set_lg_seat (Some seat) b) session_get_seat.
Proof.
  intros b w Hb. unfold session_get_seat. wp_step. apply wp_get_logind.
  wp_step. apply wp_ext. intros r _. wp_step. wp_case; wp_steps.
  - exists b. split_and!; [done|by apply bears_call|lia].
  - eexists. split; [reflexivity|]. split; [by eapply booked_same; [|by apply bears_call]|eauto].
Qed.

(** The reference to the bus. *)
Lemma default_system_bus_fills b w :
  booked w0 [] 0 b w -> bus b = false ->
  wp default_system_bus (filled (fun b' _ => b' = set_bus true b)) (Some (Logind b)) w.
Proof.
  intros [L1 B1 M1 N1 A1] Hbus. rewrite Hbus in B1. cbn in B1. unfold default_system_bus. wp_step. apply wp_ext. intros r _.
  wp_step. wp_case; wp_steps.
  - exists b. split_and!; [done| |lia]. split; cbn [trace logged bus_refs msg_refs notes]; try done.
    + etrans; [exact L1|apply sys_le_logged].
    + rewrite E, Hbus. cbn. lia.
    + by apply acknowledged_logged.
  - eexists. split; [reflexivity|]. split; [|done]. split; cbn [trace logged bus_refs msg_refs notes]; try done.
    + etrans; [exact L1|apply sys_le_logged].
    + rewrite E. cbn. lia.
    + by apply acknowledged_logged.
Qed.

(** A method call whose reply is read. *)
Lemma method_fills path interface member args read F b w :
  member <> str "PauseDeviceComplete" -> booked w0 [] 0 b w ->
  (forall w1 r, 0 <= r_ret r -> w1 = logged w (Bus (sd_bus_call_method path interface member args)) r -> booked w0 [] 1 b w1 ->
    wp (read (r_ret r)) (fun ret h w' => exists b', h = Some (Logind b') /\ booked w0 [] 1 b' w' /\
      (0 <= ret -> forall q, F b' (logged w' (Bus sd_bus_message_unref) q))) (Some (Logind b)) w1) ->
  wp (call_method_reply path interface member args (fun ret => ret) read)
    (filled F) (Some (Logind b)) w.
Proof.
  intros Hm Hb Hr. unfold call_method_reply. wp_step. apply wp_ext. intros r _.
  apply (bears_method 0 b w path interface member args r Hm) in Hb. wp_case.
  { wp_steps. exists b. split_and!; [done..|lia]. }
  wp_step. eapply wp_mono; [apply Hr; [lia|done|done]|]. intros ret h w1 (b1 & -> & Hb1 & HF). wp_step. apply wp_ext.
  intros q _. wp_steps. exists b1. split_and!; [done|by apply bears_unref|auto].
Qed.

Lemma read_object_path_fills store b w :
  (forall x b, bus (store x b) = bus b) -> booked w0 [] 1 b w ->
  wp (read_object_path store) (fun ret h w' => exists b', h = Some (Logind b') /\ booked w0 [] 1 b' w' /\
    (0 <= ret -> exists path, b' = store (Some path) b)) (Some (Logind b)) w.
Proof.
  intros Hs Hb. unfold read_object_path. wp_step. apply wp_ext. intros m _.
  wp_case; [wp_steps; exists b; split_and!; [done|by apply bears_call|lia]|]. wp_step. apply wp_ext. intros d _.
  wp_case; wp_steps; (eexists; split; [reflexivity|]).
  - split; [|unfold ENOMEM; lia]. eapply booked_same; [apply Hs|]. by do 2 (apply bears_call; [done|]).
  - split; [|eauto]. eapply booked_same; [apply Hs|]. by do 2 (apply bears_call; [done|]).
Qed.

Lemma object_path_fills store path interface member args b w :
  member <> str "PauseDeviceComplete" -> (forall x b, bus (store x b) = bus b) -> booked w0 [] 0 b w ->
  wp (call_method_reply path interface member args (fun ret => ret) (fun _ => read_object_path store))
    (filled (fun b' _ => exists p, b' = store (Some p) b)) (Some (Logind b)) w.
Proof.
  intros Hm Hs Hb. apply (method_fills _ _ _ _ _ (fun b' _ => exists p, b' = store (Some p) b)); [done|done|].
  intros w1 r _ _ Hb1. eapply wp_mono; [by apply read_object_path_fills|]. intros ret h w' (b' & -> & Hb' & HF). exists b'. auto.
Qed.

Lemma manager_get_session_path_fills : fills (fun b b' _ => exists path, b' = set_lg_path (Some path) b) manager_get_session_path.
Proof. intros b w Hb. unfold manager_get_session_path. wp_step. apply wp_get_logind. by apply object_path_fills. Qed.

Lemma manager_get_seat_path_fills : fills (fun b b' _ => exists path, b' = set_seat_path (Some path) b) manager_get_seat_path.
Proof. intros b w Hb. unfold manager_get_seat_path. wp_step. apply wp_get_logind. by apply object_path_fills. Qed.

Lemma add_signal_matches_fills : fills (fun b b' _ => b' = b) add_signal_matches.
Proof.
  intros b w Hb. unfold add_signal_matches, bus_ret. wp_step. apply wp_get_logind. wp_steps. apply wp_ext. intros r _. wp_steps.
  wp_case; wp_steps; [exists b; split_and!; [done|by apply bears_call|done]|]. apply wp_ext. intros r2 _. wp_steps.
  wp_case; wp_steps; exists b; (split_and!; [done|by do 2 (apply bears_call; [done|])|done]).
Qed.

Lemma session_get_active_fills :
  fills (fun b b' _ => exists v, b' = set_lg_initial_setup false (set_lg_active v b)) session_get_active.
Proof.
  intros b w Hb. unfold session_get_active. wp_step. apply wp_get_logind. wp_step. apply wp_ext. intros r _. wp_step.
  wp_case; wp_steps.
  - exists b. split_and!; [done|by apply bears_call|lia].
  - eexists. split; [reflexivity|]. split; [by eapply booked_same; [|by apply bears_call]|eauto].
Qed.

(** The call that takes control of the session, granted. *)
Definition in_control (b : backend_logind) (w : sys) : Prop :=
  exists t r, trace w = t ++ trace w0 /\ 0 <= r_ret r /\
    (Bus (sd_bus_call_method (arg_of (lg_path b)) session_interface (str "TakeControl") [BusB false]), r) ∈ t.

Lemma session_take_control_fills : fills (fun b b' w' => b' = b /\ in_control b w') session_take_control.
Proof.
  intros b w Hb. unfold session_take_control, call_method. wp_step. apply wp_get_logind.
  pose proof (bk_le _ _ _ _ _ Hb) as [t Et].
  apply (method_fills _ _ _ _ _ (fun b' w' => b' = b /\ in_control b w')); [done|done|].
  intros w1 r Hr -> Hb1. wp_steps. exists b. split_and!; [done..|]. intros _ q. split; [done|].
  eexists (_ :: _ :: t), r. cbn [trace logged]. rewrite Et. split; [reflexivity|]. split; [done|]. right. left.
Qed.

Lemma open_session_ok xdg w :
  booked w0 [] 0 new_logind w ->
  wp (open_session xdg) (filled (fun b' w' => logind_wf b' /\ in_control b' w')) (Some (Logind new_logind)) w.
Proof.
  intros Hb. unfold open_session.
  eapply or_error_filled; [by apply get_display_session_fills|]. cbn beta. intros b1 w1 [id ->] Hb1.
  eapply or_error_filled; [by apply session_get_seat_fills|]. cbn beta. intros b2 w2 [seat ->] Hb2.
  eapply or_error_filled; [by apply (default_system_bus_fills _ _ Hb2)|]. cbn beta. intros b3 w3 -> Hb3.
  eapply or_error_filled; [by apply manager_get_session_path_fills|]. cbn beta. intros b4 w4 [path ->] Hb4.
  eapply or_error_filled; [by apply manager_get_seat_path_fills|]. cbn beta. intros b5 w5 [seat_path ->] Hb5.
  eapply or_error_filled; [by apply add_signal_matches_fills|]. cbn beta. intros b6 w6 -> Hb6.
  eapply or_error_filled; [by apply session_get_active_fills|]. cbn beta. intros b7 w7 [v ->] Hb7.
  eapply wp_mono; [by apply session_take_control_fills|]. intros ret h w8 (b8 & -> & Hb8 & HF).
  eexists. split; [done|]. split; [done|]. intros Hret. destruct (HF Hret) as [-> Hc]. split; [|done]. by split.
Qed.

End Opening.

(** Nothing is held any more. *)
Definition settled_books (w0 : sys) (told : list bool) (w : sys) : Prop :=
  sys_le w0 w /\ bus_refs (trace w) = bus_refs (trace w0) /\ msg_refs (trace w) = msg_refs (trace w0) /\
  notes (trace w) = told ++ notes (trace w0).

Section Seat.
Context `{K : Kernel} `{L : Listener}.
Implicit Types (w : sys).

Lemma logind_destroy_ok w0 told b w :
  booked w0 told 0 b w ->
  wp logind_destroy (fun _ h w' => h = None /\ settled_books w0 told w' /\ sys_le w w') (Some (Logind b)) w.
Proof.
  intros [L1 B1 M1 N1 A1]. unfold logind_destroy. wp_step. apply wp_get_logind. wp_step. destruct (bus b); cbn in B1.
  - wp_steps. apply wp_ext. intros r _. wp_steps. split; [done|]. split; [|apply sys_le_logged].
    unfold settled_books. cbn [trace logged bus_refs msg_refs notes].
    split_and!; [etrans; [exact L1|apply sys_le_logged]|lia|lia|done].
  - wp_steps. split; [done|]. split; [|done]. split_and!; [done|lia|lia|done].
Qed.

Lemma in_control_le w0 b b' w w' : in_control w0 b w -> lg_path b' = lg_path b -> sys_le w w' -> in_control w0 b' w'.
Proof.
  intros (t & r & Et & Hr & Hin) Ep [t' Et']. exists (t' ++ t), r. rewrite Et', Et, Ep, app_assoc.
  split_and!; [done..|]. apply elem_of_app. by right.
Qed.

(** A seat that has just been opened. *)
Definition fresh_session (w0 : sys) (b : backend_logind) (w : sys) : Prop :=
  logind_wf b /\ lg_initial_setup b = true /\ in_control w0 b w /\ booked w0 [] 0 b w.

(** The last calls wait for nothing but their answers. *)
Lemma session_set_type_returns env b w : returns (session_set_type env) (Some (Logind b)) w.
Proof.
  apply (returns_wp _ (fun _ _ _ => True)). unfold session_set_type, call_method, call_method_reply.
  wp_step. apply wp_get_logind. wp_step. apply wp_ext. intros r _. wp_case; wp_steps; [done|]. apply wp_ext. by intros; wp_steps.
Qed.

Lemma check_pending_events_returns b w : returns logind_check_pending_events (Some (Logind b)) w.
Proof.
  apply (returns_wp _ (fun _ _ _ => True)). unfold logind_check_pending_events, logind_send_ping.
  wp_step. apply wp_get_logind. wp_step. apply wp_ext. intros r _. wp_step. apply wp_ext. intros q _.
  wp_case; wp_steps; [done|]. apply wp_get_logind. wp_steps. apply wp_ext. by intros; wp_steps.
Qed.

(** A session with the flag for the first dispatch. *)
Lemma session_setup_ok w0 b w :
  logind_wf b -> in_control w0 b w -> booked w0 [] 0 b w ->
  wp (upd_logind (set_lg_initial_setup true);; logind_check_pending_events;; mret true)
    (fun ok h w' => ok = true /\ exists b', h = Some (Logind b') /\ fresh_session w0 b' w') (Some (Logind b)) w.
Proof.
  intros W C B. set (b1 := set_lg_initial_setup true b).
  assert (HB : Bears (fun n b w' => booked w0 [] n b w' /\ (b = b1 /\ in_control w0 b w'))).
  { apply bears_and; [apply _|]. apply (bears_stable (fun b w' => b = b1 /\ in_control w0 b w')).
    intros b2 w3 w4 [? ?] ?. split; [done|by eapply in_control_le]. }
  wp_step. change (wp (upd_logind (set_lg_initial_setup true)) ?Q (Some (Logind b)) w) with (Q () (Some (Logind b1)) w). cbn beta.
  wp_step. eapply wp_mono; [apply wp_returns; [apply (kept_check_pending_events _ (HP := HB) 0 b1)|apply check_pending_events_returns]|].
  { split; [by eapply booked_same; [|done]|]. split; [done|by eapply in_control_le]. }
  intros [] h w3 (b2 & -> & B3 & -> & C3). wp_steps. split; [done|]. exists b1. split; [done|]. split_and!; [|done..]. by destruct W.
Qed.

Lemma logind_open_seat_ok xdg_session_id xdg_session_type w :
  wp (logind_open_seat xdg_session_id xdg_session_type) (fun ok h w' =>
    if ok then exists b, h = Some (Logind b) /\ fresh_session w b w'
    else h = None /\ settled_books w [] w') None w.
Proof.
  assert (B0 : booked w [] 0 new_logind w) by (split; [done|cbn; lia|lia|done|apply acknowledged_refl]).
  unfold logind_open_seat. wp_step. apply wp_ext. intros r _.
  apply (bears_call 0 new_logind w Calloc r eq_refl) in B0. wp_case.
  { wp_steps. destruct B0 as [L1 B1 M1 N1 A1]. split; [done|]. split_and!; [done|done|cbn in *; lia|done]. }
  wp_steps. eapply wp_mono; [by apply (open_session_ok w)|]. intros ret h w1 (b1 & -> & Hb1 & Hok).
  destruct (Z.ltb_spec ret 0).
  { wp_step. eapply wp_mono; [by apply logind_destroy_ok|]. intros [] h w2 (-> & Hs & _). wp_steps. by split. }
  destruct (Hok ltac:(lia)) as [W1 C1].
  assert (HB : Bears (fun n b w' => booked w [] n b w' /\ (logind_wf b /\ in_control w b w'))).
  { apply bears_and; [apply _|]. apply (bears_stable (fun b w' => logind_wf b /\ in_control w b w')).
    intros b w2 w3 [? ?] ?. split; [done|by eapply in_control_le]. }
  wp_step. apply (wp_mono _ (logind_post (fun _ b w' => booked w [] 0 b w' /\ (logind_wf b /\ in_control w b w')))).
  - destruct xdg_session_type as [env|]; [|by exists b1]. wp_step.
    assert (Hk : kept (fun n b w' => booked w [] n b w' /\ (logind_wf b /\ in_control w b w')) (session_set_type env))
      by (unfold session_set_type; kept_auto).
    eapply wp_mono; [apply wp_returns; [by apply Hk|apply session_set_type_returns]|].
    intros r1 h w2 (b2 & -> & Hb2). wp_steps. by exists b2.
  - intros [] h w2 (b2 & -> & Hb2 & W2 & C2). eapply wp_mono; [by apply (session_setup_ok w)|]. by intros ok h w3 [-> Hf].
Qed.

(** The next call after [w] is the one that gives up control of the session. *)
Definition releases (b : backend_logind) (w w' : sys) : Prop :=
  exists t r, trace w' = t ++ (Bus (sd_bus_call_method (arg_of (lg_path b)) session_interface
    (str "ReleaseControl") []), r) :: trace w.

Lemma releases_le b w w1 w' : releases b w w1 -> sys_le w1 w' -> releases b w w'.
Proof. intros (t & r & E) [t' E']. exists (t' ++ t), r. by rewrite E', E, app_assoc. Qed.

(** Closing gives back what the seat held. *)
Lemma session_release_control_ok w0 told b w :
  booked w0 told 0 b w ->
  wp session_release_control (fun _ h w' => h = Some (Logind b) /\ booked w0 told 0 b w' /\ releases b w w') (Some (Logind b)) w.
Proof.
  intros Hb. unfold session_release_control, call_method, call_method_reply. wp_step. apply wp_get_logind.
  wp_steps. apply wp_ext. intros r _.
  apply (bears_method 0 b w (arg_of (lg_path b)) session_interface (str "ReleaseControl") [] r) in Hb; [|done].
  wp_case; wp_steps; [split_and!; [done..|by exists [], r]|]. apply wp_ext. intros q _. wp_steps.
  split_and!; [done|by apply bears_unref|by eexists [_], r].
Qed.

Lemma logind_close_seat_ok w0 told b w :
  booked w0 told 0 b w ->
  wp logind_close_seat (fun r h w' => r = 0 /\ h = None /\ settled_books w0 told w' /\ releases b w w') (Some (Logind b)) w.
Proof.
  intros Hb. unfold logind_close_seat. wp_step. apply wp_get_logind. wp_step.
  eapply wp_mono; [by apply session_release_control_ok|]. intros [] h w1 (-> & Hb1 & Hr).
  wp_step. eapply wp_mono; [by apply logind_destroy_ok|]. intros [] h w2 (-> & Hs & Hle). wp_steps.
  split_and!; [done..|by eapply releases_le].
Qed.

End Seat.
