(* ===== verification/LibseatSeat.v ===== *)
(** * An open seat of libseat, from open to close

    What opening, dispatching and closing do for every listener that keeps its
    law. *)
From S2P Require Import Prelude Kernel Waiting Connection Protocol Backend LibseatSeatd LibseatNoop.
From S2P Require Import LibseatLogind Libseat LibseatOk LibseatOpen LibseatLogindOk.

Section Seat.
Context `{KOk : KernelOk} `{L : Listener} {LOk : ListenerOk}.

(** ** Events *)

Lemma run_events_ok evs n h w :
  Forall is_event evs -> seat_open h -> seatd_of h <> None ->
  wlp False (run_events evs n) (fun r h' w' => r = n + zlen evs /\ same_seat h h' /\ sys_le w w') h w.
Proof.
  intros He. revert n h w. induction He as [|op evs Hop _ IH]; intros n h w Ho Hs; cbn [run_events].
  { apply wlp_wp, wp_ret. unfold zlen. split_and!; [cbn; lia|by apply same_seat_refl|done]. }
  apply wlp_bind.
  apply (wlp_mono _ _ (fun _ h' w' => same_seat h h' /\ sys_le w w')).
  { destruct h as [[b| |]|]; try done. destruct Hop as [-> | ->]; cbn [Z.eqb Pos.eqb]; by apply (notify_ok _ (Some (Seatd b))). }
  intros _ h1 w1 [S1 L1]. eapply wlp_mono; [apply IH; [apply S1|]|].
  { destruct S1 as [_ S1]. by destruct h as [[]|], h1 as [[]|]. }
  intros r h2 w2 (-> & S2 & L2). split_and!; [unfold zlen; cbn [length]; lia|exact (same_seat_trans _ _ _ S1 S2)|by etrans].
Qed.

Lemma execute_events_ok b w :
  backend_wf b -> named b ->
  wlp False execute_events (fun r h' w' =>
    r = zlen (pending_events b) /\ same_seat (Some (Seatd b)) h' /\ sys_le w w') (Some (Seatd b)) w.
Proof.
  intros W Hn. unfold execute_events. apply wlp_bind, wlp_wp, wp_get_backend.
  apply wlp_bind, wlp_wp, wp_upd_backend. destruct W as [Wc We Wl].
  eapply wlp_mono; [by apply run_events_ok|]. intros r h' w' (-> & S1 & L1). done.
Qed.

(** ** Closing *)

(** The descriptor is closed along the way. *)
Definition closes (f : Z) (w w' : sys) : Prop :=
  exists t, trace w' = t ++ trace w /\ Close f ∈ t.*1.

Lemma closes_l f w0 w1 w2 : sys_le w0 w1 -> closes f w1 w2 -> closes f w0 w2.
Proof.
  intros [t0 E0] (t & E & Hc). exists (t ++ t0). rewrite E, E0, app_assoc. split; [done|].
  rewrite fmap_app, elem_of_app. by left.
Qed.

Lemma closes_r f w0 w1 w2 : closes f w0 w1 -> sys_le w1 w2 -> closes f w0 w2.
Proof.
  intros (t & E & Hc) [t1 E1]. exists (t1 ++ t). rewrite E1, E, app_assoc. split; [done|].
  rewrite fmap_app, elem_of_app. by right.
Qed.

Lemma closes_logged f w r : closes f w (logged w (Close f) r).
Proof. exists [(Close f, r)]. split; [done|]. by left. Qed.

Lemma moves_le b w b' w' : moves b w b' w' -> sys_le w w'.
Proof. intros M. destruct (qu_sent _ _ _ _ _ M) as (d & Hd & _). by apply sends_le in Hd. Qed.

Lemma destroy_ok b w :
  backend_wf b -> bs_fd b <> -1 ->
  wp destroy (fun _ h w' => h = None /\ closes (bs_fd b) w w') (Some (Seatd b)) w.
Proof.
  intros W Hf. unfold destroy. wp_step. apply wp_get_backend.
  rewrite (proj2 (Z.eqb_neq _ _) Hf). do 2 wp_step. apply wp_ext. intros r _. wp_steps.
  apply wp_on_connection, wp_modify. wp_step.
  eapply wp_mono; [apply cleanup_ok, set_conn_wf; [done|apply set_fd_wf, W]|].
  intros _ h w1 (b1 & -> & M1 & _). wp_steps. split; [done|].
  eapply closes_r; [apply closes_logged|]. by eapply moves_le.
Qed.

Lemma close_request_ok patience b w :
  backend_wf b ->
  wlp False (close_request patience b) (backend_post (fun _ b1 w1 => exists q, queues q b w b1 w1)) (Some (Seatd b)) w.
Proof.
  intros W. unfold close_request. destruct (bs_error b). { apply wlp_wp, wp_ret. eexists. eauto using moves_refl. }
  apply wlp_bind. eapply wlp_mono; [apply send_request_ok; [done|apply Forall_singleton, header_bytes_byte]|].
  intros r h w1 (b1 & -> & Hr). assert (Q1 : exists q, queues q b w b1 w1).
  { destruct Hr as [(_ & ? & _)|(_ & q & _ & ?)]; eauto. }
  destruct Q1 as [q Q1]. apply wlp_wp. wp_step.
  apply (wp_mono _ (fun _ h w' => h = Some (Seatd b1) /\ w' = w1)); [wp_case; by wp_steps|].
  intros res h w2 [-> ->]. wp_step. eapply wp_mono; [apply read_header_ok, Q1|].
  intros o h w2 (b2 & -> & M2 & _). pose proof (queues_moves _ _ _ _ _ _ _ Q1 M2).
  destruct o; wp_steps; eexists; eauto.
Qed.

Lemma close_seat_ok patience b w :
  backend_wf b -> named b -> bs_fd b <> -1 ->
  wlp False (close_seat patience) (fun r h w' =>
    h = None /\ (r = 0 \/ r = -1) /\ closes (bs_fd b) w w') (Some (Seatd b)) w.
Proof.
  intros W Hn Hf. unfold close_seat. apply wlp_from_base. apply wlp_bind.
  eapply wlp_mono; [by apply close_request_ok|].
  intros res h w1 (b1 & -> & q & Q1). destruct (queues_same_seat _ _ _ _ _ Q1 Hn) as [[[W1 Hn1] Ef] L1].
  apply wlp_bind. eapply wlp_mono; [by apply execute_events_ok|]. intros n h w2 (_ & S2 & L2).
  destruct S2 as [Ho2 S2]. destruct h as [[b2| |]|]; try done. destruct Ho2 as [W2 Hn2].
  eapply wlp_seq; [apply destroy_ok; [done|congruence]|]. intros _ h w3 [-> C3].
  rewrite S2, Ef in C3. assert (C : closes (bs_fd b) w w3).
  { eapply closes_l; [|exact C3]. by etrans. }
  apply wlp_wp. wp_case; wp_steps; (split_and!; auto).
Qed.

(** ** Opening *)

Lemma strnlen_stop s n m : (strnlen s n < n)%nat -> (n <= m)%nat -> (strnlen s m < m)%nat.
Proof.
  revert n m. induction s as [|c s IH]; intros n m Hn Hm.
  { destruct m; cbn; lia. }
  destruct n as [|n]; [cbn in Hn; lia|]. destruct m as [|m]; [lia|]. cbn in *.
  destruct (c =? 0); [lia|]. specialize (IH n m). lia.
Qed.

(** The object may change, its descriptor not. *)
Definition holds (b : backend_seatd) (w : sys) (b' : backend_seatd) (w' : sys) : Prop :=
  backend_wf b' /\ bs_fd b' = bs_fd b /\ sys_le w w'.

Lemma holds_trans b1 w1 b2 w2 b3 w3 : holds b1 w1 b2 w2 -> holds b2 w2 b3 w3 -> holds b1 w1 b3 w3.
Proof. intros (_ & F1 & L1) (W2 & F2 & L2). split_and!; [done|congruence|by etrans]. Qed.

Lemma queues_holds q b w b' w' : queues q b w b' w' -> holds b w b' w'.
Proof. intros [W F _ _ (d & Hd & _)]. split_and!; [done..|]. by apply sends_le in Hd. Qed.

Lemma set_name_wf name b : backend_wf b -> length name = 64%nat -> backend_wf (set_bs_seat_name name b).
Proof. by intros [] ?. Qed.

(** The name is stored, with a terminator added if there is none and room for it;
    the result is a string. *)
Lemma store_seat_name_ok len name b w :
  backend_wf b -> zlen name = len -> 0 <= len <= 64 ->
  wp (upd_backend (fun b => set_bs_seat_name (memcpy (bs_seat_name b) 0 name) b);;
      b ← get_backend;
      seat_name_len ←
        (if (len =? 0) || ((len <? MAX_SEAT_LEN) && negb (nth (Z.to_nat (len - 1)) (bs_seat_name b) 0 =? 0))
         then upd_backend (fun b => set_bs_seat_name (memcpy (bs_seat_name b) len [0]) b);; mret (u16 (len + 1))
         else mret len);
      b ← get_backend;
      if (seat_name_len =? 0) ||
         negb (Z.of_nat (strnlen (bs_seat_name b) (Z.to_nat seat_name_len)) =? u16 (seat_name_len - 1))
      then mret (inr (- EBADMSG)) else mret (inl ()))
    (backend_post (fun o b' w' => holds b w b' w' /\ (o = inl () -> named b'))) (Some (Seatd b)) w.
Proof.
  intros W Hl Hle. wp_step. apply wp_upd_backend. wp_step. apply wp_get_backend. wp_step.
  set (b1 := set_bs_seat_name _ b).
  assert (W1 : backend_wf b1).
  { apply set_name_wf; [done|]. destruct W as [_ _ Wl]. rewrite length_memcpy; unfold zlen in *; lia. }
  apply (wp_mono _ (fun n h w' => w' = w /\ 0 <= n <= 64 /\
    exists b2, h = Some (Seatd b2) /\ backend_wf b2 /\ bs_fd b2 = bs_fd b)).
  { unfold MAX_SEAT_LEN. wp_case; [|wp_steps; split_and!; [done|lia|lia|eauto]]. wp_step. apply wp_upd_backend. wp_steps.
    rewrite u16_small by lia. split_and!; [done|lia|lia|]. eexists. split_and!; [done| |done].
    apply set_name_wf; [done|]. destruct W1 as [_ _ Wl1]. rewrite length_memcpy; unfold zlen; cbn [length]; lia. }
  intros n h w1 (-> & Hn & b2 & -> & W2 & F2). wp_step. apply wp_get_backend. wp_case; wp_steps.
  { eexists. split; [done|]. by split. }
  eexists. split; [done|]. split; [done|]. intros _. apply orb_false_iff in E as [E0 E].
  rewrite u16_small in E by lia. unfold named. apply (strnlen_stop _ (Z.to_nat n)); lia.
Qed.

Lemma read_seat_name_ok sz b w :
  backend_wf b ->
  wp (read_seat_name sz) (backend_post (fun o b' w' =>
    holds b w b' w' /\ (o = inl () -> named b'))) (Some (Seatd b)) w.
Proof.
  intros W. unfold read_seat_name. wp_step. eapply wp_mono; [by apply conn_get_ok|].
  intros o h w1 (b1 & -> & M1 & Ho). pose proof (queues_holds _ _ _ _ _ M1) as H1.
  destruct o as [rmsg|]; [|wp_steps; eexists; split; [done|]; by split].
  destruct Ho as (_ & _ & Hb & _). pose proof (u16_of_bound _ Hb) as Hu.
  wp_case; [wp_steps; eexists; split; [done|]; by split|].
  wp_case; [wp_steps; eexists; split; [done|]; by split|].
  wp_step. eapply wp_mono; [apply conn_get_ok; [apply M1|lia]|].
  intros o h w2 (b2 & -> & M2 & Ho). pose proof (holds_trans _ _ _ _ _ _ H1 (queues_holds _ _ _ _ _ M2)) as H2.
  destruct o as [name|]; [|wp_steps; eexists; split; [done|]; by split].
  destruct Ho as (_ & Hl & _). unfold MAX_SEAT_LEN in E0.
  eapply wp_mono; [apply store_seat_name_ok; [apply M2|done|lia]|].
  intros o h w3 (b3 & -> & H3 & Hn). eexists. split; [done|]. split; [by eapply holds_trans|done].
Qed.

Lemma open_request_ok patience b w :
  backend_wf b ->
  wlp False (open_request patience) (backend_post (fun o b' w' =>
    holds b w b' w' /\ (o = inl () -> named b'))) (Some (Seatd b)) w.
Proof.
  intros W. unfold open_request. apply wlp_bind.
  eapply wlp_mono; [apply send_request_ok; [done|apply Forall_singleton, header_bytes_byte]|].
  intros r h w1 (b1 & -> & Hr). assert (Q1 : exists q, queues q b w b1 w1).
  { destruct Hr as [(_ & ? & _)|(_ & q & _ & ?)]; eauto. }
  destruct Q1 as [q Q1]. pose proof (queues_holds _ _ _ _ _ Q1) as H1. apply wlp_wp.
  wp_case; [wp_steps; eexists; split; [done|]; by split|].
  wp_step. eapply wp_mono; [apply read_header_ok, Q1|]. intros o h w2 (b2 & -> & M2 & _).
  pose proof (holds_trans _ _ _ _ _ _ H1 (queues_holds _ _ _ _ _ M2)) as H2.
  destruct o as [n|]; [|wp_steps; eexists; split; [done|]; by split].
  eapply wp_mono; [apply read_seat_name_ok, M2|]. intros o h w3 (b3 & -> & H3 & Hn).
  eexists. split; [done|]. split; [by eapply holds_trans|done].
Qed.

(** What opening leaves: a seat, or nothing and the descriptor closed. *)
Definition opened (f : Z) (w : sys) (ok : bool) (h : handle) (w' : sys) : Prop :=
  sys_le w w' /\
  if ok then exists b, h = Some (Seatd b) /\ backend_wf b /\ named b /\ bs_fd b = f
  else h = None /\ closes f w w'.

Lemma _open_seat_ok patience f w :
  f <> -1 -> wlp False (_open_seat patience f) (opened f w) None w.
Proof.
  intros Hf. unfold _open_seat. apply wlp_bind, wlp_wp, wp_ext. intros r _. set (w1 := logged w Calloc r).
  assert (L1 : sys_le w w1) by apply sys_le_logged. destruct (r_ret r =? -1).
  { apply wlp_wp. wp_step. apply wp_ext. intros r2 _. wp_steps.
    assert (C : closes f w (logged w1 (Close f) r2)) by (eapply closes_l; [done|apply closes_logged]).
    split; [|done]. destruct C as (t & Et & _). by exists t. }
  apply wlp_bind, wlp_wp, wp_modify. apply wlp_bind. eapply wlp_mono; [apply open_request_ok, new_backend_wf|].
  intros o h w2 (b2 & -> & (W2 & F2 & L2) & Hn). change (bs_fd (new_backend f)) with f in F2. destruct o as [[]|res].
  - apply wlp_bind. eapply wlp_mono; [by apply execute_events_ok, Hn|]. intros n h w3 (_ & S3 & L3).
    apply wlp_wp, wp_ret. split; [etrans; [exact L1|]; by etrans|]. destruct S3 as [Ho S3].
    destruct h as [[b3| |]|]; try done. destruct Ho. exists b3. split_and!; try done. congruence.
  - eapply wlp_seq; [apply destroy_ok; [done|congruence]|]. intros _ h w3 [-> C3]. rewrite F2 in C3.
    apply wlp_wp. wp_steps.
    assert (C : closes f w w3) by (eapply closes_l; [|exact C3]; by etrans).
    split; [destruct C as (t & Et & _); by exists t|]. by split.
Qed.

(** ** Dispatching *)

Lemma read_connection_ok b w :
  backend_wf b ->
  wp (on_connection connection_read) (backend_post (fun r b' w' => moves b w b' w')) (Some (Seatd b)) w.
Proof.
  intros W. apply wp_on_connection. eapply wp_mono; [apply connection_read_ok, W|]. cbn beta.
  intros len c w1 (Wc & Eo & _ & Ef & _ & Hq & _). eexists. split; [done|].
  apply moves_quiet; try done. by apply set_conn_wf.
Qed.

(** The same open seat of the daemon, after some time. *)
Definition still_open (b : backend_seatd) (w : sys) (h : handle) (w' : sys) : Prop :=
  exists b', h = Some (Seatd b') /\ backend_wf b' /\ named b' /\ bs_fd b' = bs_fd b /\ sys_le w w'.

Lemma still_open_trans b1 w1 b2 w2 h w3 :
  still_open b1 w1 (Some (Seatd b2)) w2 -> still_open b2 w2 h w3 -> still_open b1 w1 h w3.
Proof.
  intros (? & [= <-] & W2 & _ & F2 & L2) (b3 & -> & W3 & N3 & F3 & L3). exists b3.
  split_and!; [done..|congruence|by etrans].
Qed.

Lemma queues_still_open q b w b' w' : queues q b w b' w' -> named b -> still_open b w (Some (Seatd b')) w'.
Proof.
  intros Q Hn. destruct (queues_same_seat _ _ _ _ _ Q Hn) as [[[W N] F] L']. exists b'. by split_and!.
Qed.

Lemma still_open_same b w h w' : still_open b w h w' <-> same_seat (Some (Seatd b)) h /\ sys_le w w'.
Proof.
  split.
  - intros (b' & -> & W & N & F & L'). by split.
  - intros [[Ho S1] L']. destruct h as [[b'| |]|]; try done. destruct Ho. exists b'. by split_and!.
Qed.

(** [read_and_queue(backend, NULL)] and, if it succeeds, [execute_events]. *)
Lemma queue_seat_ok b w :
  backend_wf b -> named b ->
  wp (read_and_queue false) (fun p h w' => still_open b w h w' /\ -1 <= p.1) (Some (Seatd b)) w.
Proof.
  intros W Hn. eapply wp_mono; [by apply read_and_queue_ok|]. intros [r op] h w1 (b1 & -> & M1 & Hq).
  split; [by eapply queues_still_open|]. destruct Hq as [(-> & _)|(? & _)]; cbn; lia.
Qed.

Lemma execute_seat_ok b w :
  backend_wf b -> named b ->
  wlp False execute_events (fun n h w' => still_open b w h w' /\ 0 <= n) (Some (Seatd b)) w.
Proof.
  intros W Hn. eapply wlp_mono; [by apply execute_events_ok|]. intros n h w1 (-> & HS).
  split; [by apply still_open_same|unfold zlen; lia].
Qed.

Lemma seatd_dispatch_ok timeout b w :
  backend_wf b -> named b ->
  wlp False (dispatch timeout) (fun r h' w' => -1 <= r /\ still_open b w h' w') (Some (Seatd b)) w.
Proof.
  intros W Hn. unfold dispatch. apply wlp_from_base. destruct (bs_error b).
  { apply wlp_wp, wp_fail_with. split; [lia|]. exists b. split_and!; [done..|apply sys_le_errno]. }
  eapply wlp_seq; [by apply queue_seat_ok|]. cbn beta. intros [pre op] h w1 [O1 Hpre]. cbn [fst] in Hpre.
  destruct (Z.eqb_spec pre (-1)); [apply wlp_wp, wp_ret; split; [lia|done]|].
  pose proof O1 as (b1 & -> & W1 & N1 & _).
  apply wlp_bind. eapply wlp_mono; [by apply execute_seat_ok|]. cbn beta. intros n2 h w2 [O2 Hn2].
  pose proof (still_open_trans _ _ _ _ _ _ O1 O2) as O02. pose proof O2 as (b2 & -> & W2 & N2 & _).
  apply wlp_bind, wlp_wp.
  apply (wp_mono _ (backend_post (fun r b' w' => moves b2 w2 b' w'))).
  { destruct (_ || _); [by apply read_connection_ok|]. eapply wp_mono; [by apply poll_connection_ok|].
    intros r h w3 (b3 & -> & M3 & _). by eexists. }
  intros rd h w3 (b3 & -> & M3). pose proof (queues_still_open _ _ _ _ _ M3 N2) as O3.
  pose proof (still_open_trans _ _ _ _ _ _ O02 O3) as O03. apply wlp_bind, wlp_wp, wp_get_errno.
  destruct (rd =? 0); [apply wlp_wp, wp_ret; split; [lia|done]|].
  destruct (_ && _); [apply wlp_wp, wp_ret; split; [lia|done]|].
  pose proof O3 as (? & [= <-] & W3 & N3 & _).
  eapply wlp_seq; [by apply queue_seat_ok|]. cbn beta. intros [post op4] h w4 [O4 Hpost]. cbn [fst] in Hpost.
  pose proof (still_open_trans _ _ _ _ _ _ O03 O4) as O04.
  destruct (Z.eqb_spec post (-1)); [apply wlp_wp, wp_ret; split; [lia|done]|].
  pose proof O4 as (b4 & -> & W4 & N4 & _).
  apply wlp_bind. eapply wlp_mono; [by apply execute_seat_ok|]. cbn beta. intros n5 h w5 [O5 Hn5].
  apply wlp_wp, wp_ret. split; [lia|]. exact (still_open_trans _ _ _ _ _ _ O04 O5).
Qed.

(** ** Requests, whatever the arguments *)

(** Whether the library sends the request at all, and the error if not. *)
Definition request_error (b : backend_seatd) (q : request) : option Z :=
  if bs_error b then Some ENOTCONN else
  match q with
  | OpenDevice path => if MAX_PATH_LEN <? zlen path + 1 then Some EINVAL else None
  | CloseDevice n | SwitchSession n => if n <? 0 then Some EINVAL else None
  | DisableSeat => None
  end.

(** A request that is not sent makes no call and changes nothing. *)
Lemma request_not_sent patience q b w e :
  request_error b q = Some e ->
  perform_request patience q (Some (Seatd b)) w = Done (-1, Some (Seatd b), Sys (trace w) e).
Proof.
  intros Hq. apply wp_exact.
  destruct q as [path|n|n|]; cbn [perform_request]; [apply wp_bind|..];
    unfold open_device, close_device, switch_session, disable_seat; apply wp_from_base;
    unfold request_error in Hq; destruct (bs_error b); simplify_eq; try by wp_steps.
  all: destruct (_ <? _); simplify_eq; by wp_steps.
Qed.

(** Paths are made of bytes. *)
Definition request_bytes_ok (q : request) : Prop :=
  match q with OpenDevice path => Forall is_byte path | _ => True end.

Lemma request_sent_valid b q : request_bytes_ok q -> request_error b q = None -> bs_error b = false /\ request_valid q.
Proof.
  unfold request_error, MAX_PATH_LEN. intros Hb. destruct (bs_error b); [done|].
  destruct q; cbn in *; try (case_match; [done|]); intros _; (split; [done|]); try done; try lia.
  split; [done|lia].
Qed.

Lemma perform_request_seat patience q b w :
  backend_wf b -> named b -> request_bytes_ok q ->
  wlp (may_assert q) (perform_request patience q) (fun r h w' => -1 <= r /\ still_open b w h w') (Some (Seatd b)) w.
Proof.
  intros W Hn Hb. destruct (request_error b q) as [e|] eqn:E.
  - unfold wlp. rewrite (request_not_sent _ _ _ _ e) by done. split; [lia|]. exists b.
    split_and!; [done..|apply sys_le_errno].
  - destruct (request_sent_valid b q Hb E) as [He Hv]. eapply wlp_mono; [by apply perform_request_ok|].
    intros r h w1 (b1 & -> & Hr & (s & Q) & _). split; [lia|by eapply queues_still_open].
Qed.

(** ** libseat.c *)

(** The calls on an open seat that leave it open. *)
Inductive api_call :=
| ApiRequest (q : request)
| ApiDispatch (timeout : Z)
| ApiGetFd
| ApiSeatName.

Definition api (patience : nat) (c : api_call) : M handle Z :=
  match c with
  | ApiRequest (OpenDevice path) => '(r, _) ← libseat_open_device patience path; mret r
  | ApiRequest (CloseDevice id) => libseat_close_device patience id
  | ApiRequest (SwitchSession n) => libseat_switch_session patience n
  | ApiRequest DisableSeat => libseat_disable_seat patience
  | ApiDispatch timeout => libseat_dispatch patience timeout
  | ApiGetFd => libseat_get_fd
  | ApiSeatName => libseat_seat_name;; mret 0
  end.

Definition api_bytes_ok (c : api_call) : Prop :=
  match c with ApiRequest q => request_bytes_ok q | _ => True end.

Definition api_may_assert (c : api_call) : Prop :=
  match c with ApiRequest q => may_assert q | _ => False end.

Lemma api_seatd_ok patience c b w :
  backend_wf b -> named b -> api_bytes_ok c ->
  wlp (api_may_assert c) (api patience c) (fun _ h w' => still_open b w h w') (Some (Seatd b)) w.
Proof.
  intros W Hn Hb. destruct c as [q|timeout| |].
  - pose proof (perform_request_seat patience q b w W Hn Hb) as Hp.
    apply (wlp_mono _ _ _ (fun _ h w' => still_open b w h w')) in Hp; [|by intros ??? [_ ?]]. by destruct q.
  - eapply wlp_mono; [by apply (seatd_dispatch_ok timeout)|]. by intros ??? [_ ?].
  - exists b. by split_and!.
  - exists b. by split_and!.
Qed.

Lemma dispatch_background_ok timeout b w :
  wlp False (dispatch_background timeout) (fun _ h' w' => same_seat (Some (Noop b)) h' /\ sys_le w w')
    (Some (Noop b)) w.
Proof.
  unfold dispatch_background. apply wlp_bind, wlp_wp. unfold backend_noop_from_libseat_backend.
  wp_steps. eapply wp_deref; [done|]. wp_steps. apply wlp_bind.
  apply (wlp_mono _ _ (fun _ h' w' => same_seat (Some (Noop b)) h' /\ sys_le w w')).
  { destruct (initial_setup b); [|apply wlp_wp, wp_ret; by split].
    apply wlp_bind, wlp_wp, wp_modify.
    eapply wlp_mono; [by apply (notify_ok true (Some (Noop (BackendNoop false (sockets b)))))|].
    intros _ h1 w1 [[Ho S1] L1]. split; [|done]. by destruct h1 as [[]|]. }
  intros _ h1 w1 [[Ho S1] L1]. destruct h1 as [[|b1|]|]; try done. apply wlp_wp. wp_steps.
  eapply wp_deref; [done|]. wp_steps. apply wp_ext. intros r _.
  assert (L2 : sys_le w (logged w1 (Poll [((sockets b1).1, POLLIN)] timeout) r)) by (etrans; [done|]; auto with wp).
  wp_case; wp_steps; [wp_case; wp_steps|]; done.
Qed.

Lemma api_logind_ok patience c b w :
  logind_wf b ->
  wlp (api_may_assert c) (api patience c) (fun _ h' w' => same_seat (Some (Logind b)) h' /\ sys_le w w') (Some (Logind b)) w.
Proof.
  intros W. assert (Hp : still_session b w 0 b w) by by unfold still_session, same_session; split_and!.
  apply (wlp_weaken False); [done|]. apply (wlp_mono _ _ (logind_post (fun _ => still_session b w 0))).
  2: { intros r h w1 (b1 & -> & W1 & S1 & L1). by split. }
  destruct c as [[path|id|n|]|timeout| |].
  - assert (Hk : kept (still_session b w) ('(r, _) ← logind_open_device path; mret r)).
    { apply kept_bind; [apply kept_open_device, _|]. intros [r o]. apply kept_ret. }
    by apply Hk.
  - by apply (kept_close_device (still_session b w) id).
  - by apply (kept_switch_session (still_session b w) n).
  - by exists b.
  - by apply (logind_dispatch_ok patience timeout).
  - by apply (kept_get_fd (still_session b w)).
  - by exists b.
Qed.

Lemma api_ok patience c h w :
  seat_open h -> api_bytes_ok c ->
  wlp (api_may_assert c) (api patience c) (fun _ h' w' => same_seat h h' /\ sys_le w w') h w.
Proof.
  intros Ho Hb. destruct h as [[b|b|b]|]; [| | |done].
  - destruct Ho as [W Hn]. eapply wlp_mono; [by apply api_seatd_ok|].
    intros ? h w1 HS. by apply still_open_same.
  - assert (S0 : same_seat (Some (Noop b)) (Some (Noop b))) by done.
    destruct c as [[path|id|n|]|timeout| |]; try by split.
    + apply wlp_wp. cbn [api]. unfold libseat_open_device, seat_object, noop_open_device. wp_steps.
      eapply wp_deref; [done|]. wp_steps. apply wp_ext. intros r _. wp_case; wp_steps; (split; [done|auto with wp]).
    + by apply dispatch_background_ok.
  - by apply api_logind_ok.
Qed.

Lemma open_seat_ok patience default_path sock_env w :
  wlp False (open_seat patience default_path sock_env) (fun ok h _ =>
    if ok then seat_open h /\ noop_of h = None else h = None) None w.
Proof.
  unfold open_seat, seatd_connect. apply wlp_bind, wlp_wp. wp_step. apply wp_ext. intros r _.
  destruct (Z.eqb_spec (r_ret r) (-1)) as [_|Hr]. { wp_steps. by apply wlp_wp, wp_ret. }
  wp_step. apply wp_ext. intros r2 _. wp_case.
  { wp_step. apply wp_ext. intros r3 _. wp_steps. by apply wlp_wp, wp_ret. }
  wp_steps. rewrite (proj2 (Z.eqb_neq _ _) Hr). eapply wlp_mono; [by apply _open_seat_ok|].
  intros ok h w1 [_ Hok]. destruct ok; [|by destruct Hok]. by destruct Hok as (b & -> & W & Hn & _).
Qed.

Lemma builtin_open_seat_ok patience w :
  wlp False (builtin_open_seat patience) (fun ok h _ =>
    if ok then seat_open h /\ noop_of h = None else h = None) None w.
Proof.
  unfold builtin_open_seat. apply wlp_bind, wlp_wp, wp_ext. intros r Hr.
  destruct (Z.eqb_spec (r_ret r) (-1)) as [_|Hne]; [by apply wlp_wp, wp_ret|].
  pose proof (socketpair_fds (trace w)) as Hf. rewrite <- Hr in Hf. specialize (Hf Hne).
  apply wlp_bind, wlp_wp, wp_ext. intros pid _. destruct (r_ret pid =? -1).
  { apply wlp_wp. wp_step. apply wp_ext. intros r1 _. wp_step. apply wp_ext. intros r2 _. by wp_steps. }
  apply wlp_bind, wlp_wp, wp_ext. intros r1 _. eapply wlp_mono; [apply _open_seat_ok; cbn; lia|].
  intros ok h w1 [_ Hok]. destruct ok; [|by destruct Hok]. by destruct Hok as (b & -> & W & Hn & _).
Qed.

Lemma impl_open_seat_ok bd env patience i w :
  wlp False (impl_open_seat bd env patience i) (fun ok h _ =>
    if ok then seat_open h /\ (i <> noop_impl -> noop_of h = None) else h = None) None w.
Proof.
  destruct i; cbn [impl_open_seat].
  - eapply wlp_mono; [apply open_seat_ok|]. intros [] h w1; naive_solver.
  - eapply wlp_mono; [apply wlp_wp, logind_open_seat_ok|]. intros [] h w1; [|by intros [-> _]].
    intros (b & -> & W & _). by split.
  - eapply wlp_mono; [apply builtin_open_seat_ok|]. intros [] h w1; naive_solver.
  - apply wlp_wp. unfold noop_open_seat. wp_step. apply wp_ext. intros r _. wp_case; [by wp_steps|].
    wp_step. apply wp_ext. intros r2 _. wp_case; by wp_steps.
Qed.

(** Without a choice by the environment, the first backend that works, and an
    error if none does; the no-op backend is never the answer. *)
Lemma open_first_ok bd env patience l w :
  wlp False (open_first bd env patience l) (fun ok h w' =>
    if ok then seat_open h /\ noop_of h = None else h = None /\ errno w' = ENOSYS) None w.
Proof.
  revert w. induction l as [|nb l IH]; intros w; cbn [open_first].
  { by apply wlp_wp, wp_fail_with. }
  case_bool_decide as Hn; [apply IH|]. apply wlp_bind. eapply wlp_mono; [apply impl_open_seat_ok|].
  intros [] h w1 Hok; [apply wlp_wp, wp_ret; naive_solver|]. subst h. apply IH.
Qed.

End Seat.
