(* ===== verification/Wire.v ===== *)
(** * The two ends of the socket

    What the daemon makes of the messages that libseat writes: the bytes of a
    request, wherever the ring buffer has them, become the call of its handler
    with the arguments the application gave. *)
From S2P Require Import Prelude Kernel Waiting Connection Protocol Devices Terminal State Poller Send Seat Client.
From S2P Require Import Invariant Rules Backend LibseatSeatd LibseatOk.

(** The messages a client sends. *)
Inductive message :=
| M_open_seat
| M_close_seat
| M_ping
| M_request (q : request).

Definition message_bytes (m : message) : bytes :=
  match m with
  | M_open_seat => header_bytes (Header CLIENT_OPEN_SEAT 0)
  | M_close_seat => header_bytes (Header CLIENT_CLOSE_SEAT 0)
  | M_ping => header_bytes (Header CLIENT_PING 0)
  | M_request q => request_bytes q
  end.

(** What fits the daemon's buffer: the library accepts longer paths.  The
    numbers are [int]s; a path is a C string. *)
Definition message_fits (m : message) : Prop :=
  match m with
  | M_request (OpenDevice path) => Forall is_byte path /\ Forall (fun b => b <> 0) path /\ zlen path <= 249
  | M_request (CloseDevice n) | M_request (SwitchSession n) => 0 <= n < 2 ^ 31
  | _ => True
  end.

Lemma bind_done {S A B} (m : M S A) (f : A -> M S B) s w a s' w' :
  m s w = Done (a, s', w') -> (m ≫= f) s w = f a s' w'.
Proof. unfold mbind, M_bind. by intros ->. Qed.

Lemma consume_add b n m :
  connection_buffer_consume (connection_buffer_consume b n) m = connection_buffer_consume b (n + m).
Proof.
  unfold connection_buffer_consume. cbn. f_equal. unfold u32. rewrite Zplus_mod_idemp_l. f_equal. lia.
Qed.

(** A client of which [n] bytes of input have been taken. *)
Definition consumed (n : Z) (k : client) : client :=
  set_c_connection
    (set_in (connection_buffer_consume (conn_in (c_connection k)) n) (c_connection k)) k.

Lemma consumed_add n m k : consumed m (consumed n k) = consumed (n + m) k.
Proof. unfold consumed. cbn. by rewrite consume_add. Qed.

Section Daemon.
Context `{KOk : KernelOk}.

(** The handler of a message. *)
Definition serve (c : nat) (m : message) : M server Z :=
  match m with
  | M_open_seat => handle_open_seat c
  | M_close_seat => handle_close_seat c
  | M_ping => handle_ping c
  | M_request (OpenDevice path) => handle_open_device c path
  | M_request (CloseDevice id) => handle_close_device c id
  | M_request (SwitchSession n) => handle_switch_session c n
  | M_request DisableSeat => handle_disable_seat c
  end.

(** The input of client [c] starts with [bs]. *)
Definition reads (c : nat) (k : client) (bs rest : bytes) (s : server) : Prop :=
  sv_clients s !! c = Some k /\ conn_wf (c_connection k) /\ contents (conn_in (c_connection k)) = bs ++ rest.

Lemma reads_consumed c k bs rest1 rest s :
  reads c k (bs ++ rest1) rest s -> reads c (consumed (zlen bs) k) rest1 rest (put_client c (consumed (zlen bs) k) s).
Proof.
  intros (Hk & Wc & Hc). pose proof (wf_in _ Wc) as Wi.
  assert (Hs : 0 <= zlen bs <= connection_buffer_size (conn_in (c_connection k))).
  { rewrite <- zlen_contents, Hc by done. unfold zlen. rewrite !length_app. lia. }
  split_and!; [look| |].
  - apply set_in_wf; [done|by apply consume_wf].
  - cbn. rewrite contents_consume, Hc, <- app_assoc by done. unfold zlen. by rewrite Nat2Z.id, drop_app_length.
Qed.

Lemma on_conn_get c k bs rest s w n :
  reads c k bs rest s -> zlen bs = n ->
  on_conn c (connection_get n) s w = Done (Some bs, put_client c (consumed n k) s, w).
Proof.
  intros (Hk & Wc & Hc) <-. pose proof (wf_in _ Wc) as Wi.
  assert (Hs : connection_buffer_size (conn_in (c_connection k)) = zlen bs + zlen rest).
  { rewrite <- zlen_contents, Hc by done. unfold zlen. rewrite length_app. lia. }
  apply wp_exact. eapply wp_on_conn; [done|]. unfold wp. rewrite connection_get_eq by (done || unfold zlen; lia).
  rewrite (proj2 (Z.ltb_ge _ _)) by (unfold zlen in *; lia). rewrite Hc. unfold zlen. rewrite Nat2Z.id, take_app_length.
  done.
Qed.

Lemma get_body_eq c k bs rest1 rest s w n f :
  reads c k (bs ++ rest1) rest s -> zlen bs = n ->
  get_body c n f s w = f bs (put_client c (consumed n k) s) w.
Proof.
  intros Hr Hl. unfold get_body. erewrite bind_done; [|apply (on_conn_get c k bs (rest1 ++ rest)); [|done]]; [done|].
  destruct Hr as (? & ? & Hc). split_and!; try done. by rewrite Hc, app_assoc.
Qed.

Lemma consumed_0 k : conn_wf (c_connection k) -> consumed 0 k = k.
Proof.
  intros Wc. pose proof (wf_tail _ (wf_in _ Wc)) as Ht.
  assert (E : connection_buffer_consume (conn_in (c_connection k)) 0 = conn_in (c_connection k)).
  { unfold connection_buffer_consume. rewrite Z.add_0_r, u32_small by done. by destruct (conn_in _). }
  unfold consumed. rewrite E. by destruct k as [? ? []].
Qed.

(** A message without a body. *)
Lemma serve_empty c k rest s : reads c k [] rest s -> put_client c (consumed 0 k) s = s.
Proof. intros (Hk & Wc & _). rewrite consumed_0 by done. by apply put_client_same. Qed.

(** A body of one [int]. *)
Lemma int_body_eq c k n rest s w (f : Z -> M server Z) :
  reads c k (int_bytes n) rest s -> 0 <= n < 2 ^ 31 ->
  get_body c 4 (fun bs => f (int_of bs)) s w = f n (put_client c (consumed 4 k) s) w.
Proof.
  intros Hr Hn. rewrite (get_body_eq c k (int_bytes n) [] rest) by (by rewrite ?app_nil_r).
  rewrite <- (app_nil_r (int_bytes n)), int_of_bytes by lia. done.
Qed.

Lemma strnlen_path path : Forall (fun b => b <> 0) path ->
  strnlen (path ++ [0]) (S (length path)) = length path.
Proof. induction 1 as [|b path Hb _ IH]; [done|]. cbn. rewrite (proj2 (Z.eqb_neq _ _) Hb). by rewrite <- IH at 2. Qed.

(** The path of an [open_device] message. *)
Lemma path_body_eq c k path rest s w :
  reads c k (u16_bytes (zlen path + 1) ++ path ++ [0]) rest s ->
  Forall (fun b => b <> 0) path -> zlen path <= 249 ->
  get_body c 2 (fun bs =>
    let path_len := u16_of bs in
    if negb (path_len =? (3 + zlen path) - 2) then mret (-1) else
    if MAX_PATH_LEN <? path_len then mret (-1) else
    get_body c path_len (fun buf =>
      if (path_len =? 0) || negb (Z.of_nat (strnlen buf (Z.to_nat path_len)) =? u16 (path_len - 1))
      then mret (-1) else handle_open_device c (cstring buf))) s w =
  handle_open_device c path (put_client c (consumed (3 + zlen path) k) s) w.
Proof.
  intros Hr Hnz Hl. rewrite (get_body_eq c k (u16_bytes (zlen path + 1)) (path ++ [0]) rest) by done.
  assert (E : u16_of (u16_bytes (zlen path + 1)) = zlen path + 1).
  { unfold u16_of, u16_bytes. rewrite firstn_all2 by by rewrite length_le_bytes.
    rewrite le_value_bytes, Z.mod_small; [done|]. unfold zlen in *. cbn -[Z.pow]. lia. }
  cbn zeta. rewrite E. replace (3 + zlen path - 2) with (zlen path + 1) by lia. rewrite Z.eqb_refl. cbn [negb].
  unfold MAX_PATH_LEN. rewrite (proj2 (Z.ltb_ge 256 (zlen path + 1))) by lia.
  apply reads_consumed in Hr as Hr1. rewrite (get_body_eq c (consumed 2 k) (path ++ [0]) [] rest).
  2: { by rewrite app_nil_r. }
  2: { unfold zlen. rewrite length_app. cbn. lia. }
  rewrite u16_small by (unfold zlen in *; lia).
  rewrite (proj2 (Z.eqb_neq (zlen path + 1) 0)) by (unfold zlen; lia).
  replace (Z.to_nat (zlen path + 1)) with (S (length path)) by (unfold zlen; lia).
  rewrite strnlen_path by done. rewrite (proj2 (Z.eqb_eq _ _)) by (unfold zlen; lia). cbn [orb negb].
  rewrite cstring_app, consumed_add, put_client_twice by done.
  by replace (2 + (zlen path + 1)) with (3 + zlen path) by lia.
Qed.

(** The header and the body of a message. *)
Definition message_header (m : message) : proto_header :=
  match m with
  | M_open_seat => Header CLIENT_OPEN_SEAT 0
  | M_close_seat => Header CLIENT_CLOSE_SEAT 0
  | M_ping => Header CLIENT_PING 0
  | M_request (OpenDevice path) => Header CLIENT_OPEN_DEVICE (3 + zlen path)
  | M_request (CloseDevice _) => Header CLIENT_CLOSE_DEVICE 4
  | M_request (SwitchSession _) => Header CLIENT_SWITCH_SESSION 4
  | M_request DisableSeat => Header CLIENT_DISABLE_SEAT 0
  end.

Definition message_body (m : message) : bytes :=
  match m with
  | M_request (OpenDevice path) => u16_bytes (zlen path + 1) ++ path ++ [0]
  | M_request (CloseDevice n) | M_request (SwitchSession n) => int_bytes n
  | _ => []
  end.

Lemma message_split m : message_bytes m = header_bytes (message_header m) ++ message_body m.
Proof. destruct m as [| | |[]]; cbn [message_bytes message_header message_body request_bytes]; by rewrite ?app_nil_r. Qed.

Lemma message_size m : message_fits m ->
  size (message_header m) = zlen (message_body m) /\ 0 <= opcode (message_header m) < 2 ^ 16 /\
  0 <= size (message_header m) < 2 ^ 16.
Proof.
  destruct m as [| | |[path|n|n|]]; cbn [message_header message_body message_fits size opcode]; intros Hf;
    try (split_and!; done || lia).
  destruct Hf as (_ & _ & Hl). unfold zlen in *. rewrite !length_app. cbn -[Z.pow]. unfold CLIENT_OPEN_DEVICE, CLIENT_EVENT. lia.
Qed.

(** The handler is called with the arguments of the message, once its body is
    taken off the input. *)
Lemma handle_opcode_eq c k m rest s w :
  reads c k (message_body m) rest s -> message_fits m ->
  client_handle_opcode c (opcode (message_header m)) (size (message_header m)) s w =
    (res ← serve c m; if res =? -1 then mret res else client_flush c)
      (put_client c (consumed (zlen (message_body m)) k) s) w.
Proof.
  intros Hr Hf. unfold client_handle_opcode.
  assert (E : forall body : M server Z, body s w = serve c m (put_client c (consumed (zlen (message_body m)) k) s) w ->
    (res ← body; if res =? -1 then mret res else client_flush c) s w =
    (res ← serve c m; if res =? -1 then mret res else client_flush c)
      (put_client c (consumed (zlen (message_body m)) k) s) w).
  { intros body Hb. unfold mbind, M_bind. by rewrite Hb. }
  apply E. clear E. destruct m as [| | |[path|n|n|]]; cbn [message_header message_body message_fits size opcode serve] in *;
    try (change (zlen (A:=Z) []) with 0; by rewrite (serve_empty _ _ _ _ Hr)).
  - destruct Hf as (_ & Hnz & Hl).
    replace (zlen (u16_bytes (zlen path + 1) ++ path ++ [0])) with (3 + zlen path)
      by (unfold zlen; rewrite !length_app; cbn; lia).
    rewrite <- (path_body_eq c k path rest) by done.
    change (CLIENT_OPEN_DEVICE =? CLIENT_OPEN_SEAT) with false.
    change (CLIENT_OPEN_DEVICE =? CLIENT_CLOSE_SEAT) with false.
    rewrite Z.eqb_refl, (proj2 (Z.ltb_ge (3 + zlen path) 2)) by (unfold zlen; lia). done.
  - exact (int_body_eq c k n rest s w (handle_close_device c) Hr Hf).
  - exact (int_body_eq c k n rest s w (handle_switch_session c) Hr Hf).
Qed.

Lemma get_client_eq c k s w : sv_clients s !! c = Some k -> get_client c s w = Done (k, s, w).
Proof. intros Hk. unfold get_client, mbind, M_bind. cbn. by rewrite Hk. Qed.

(** One turn of the daemon's loop over its input, on a message of the library. *)
Lemma client_messages_eq fuel c k m rest s w :
  reads c k (message_bytes m) rest s -> message_fits m ->
  client_messages (S fuel) c s w =
    (r ← (res ← serve c m; if res =? -1 then mret res else client_flush c);
     if r =? -1 then mret false else client_messages fuel c)
      (put_client c (consumed (zlen (message_bytes m)) k) s) w.
Proof.
  intros Hr Hf. destruct (message_size m Hf) as (Es & Ho & Hs). rewrite message_split in Hr.
  cbn [client_messages].
  assert (Hr0 : reads c k (header_bytes (message_header m)) (message_body m ++ rest) s).
  { destruct Hr as (? & ? & Hc). split_and!; [done..|]. by rewrite Hc, <- app_assoc. }
  assert (Hl : zlen (header_bytes (message_header m)) = 4) by (unfold zlen; by rewrite length_header_bytes).
  erewrite bind_done; [|exact (on_conn_get c k _ _ s w _ Hr0 Hl)]. cbn beta iota zeta.
  apply reads_consumed in Hr as Hr1. rewrite Hl in Hr1. pose proof Hr1 as (Hk1 & Wc1 & Hc1).
  assert (Eh : header_of (header_bytes (message_header m)) = message_header m).
  { rewrite <- (app_nil_r (header_bytes _)). by apply header_of_bytes. }
  rewrite Eh.
  erewrite bind_done; [|by apply get_client_eq]. cbn beta.
  rewrite (proj2 (Z.ltb_ge _ _)).
  2: { unfold connection_pending. rewrite <- zlen_contents, Hc1, Es by apply Wc1. unfold zlen. rewrite length_app. lia. }
  unfold mbind at 1, M_bind at 1. rewrite (handle_opcode_eq c _ m rest) by done.
  rewrite put_client_twice, consumed_add, message_split. unfold zlen at 2. rewrite length_app, Nat2Z.inj_add.
  rewrite <- Hl. done.
Qed.

End Daemon.

(** ** Responses *)

(** The backend after [n] bytes of its input have been taken. *)
Definition eaten (n : Z) (b : backend_seatd) : backend_seatd :=
  set_bs_connection (set_in (connection_buffer_consume (conn_in (bs_connection b)) n) (bs_connection b)) b.

(** The input of the library starts with [bs]. *)
Definition receives (b : backend_seatd) (bs rest : bytes) : Prop := backend_wf b /\ in_queue b = bs ++ rest.

Lemma receives_eaten b bs rest1 rest : receives b (bs ++ rest1) rest -> receives (eaten (zlen bs) b) rest1 rest.
Proof.
  intros [W Hc]. pose proof (wf_in _ (bw_conn _ W)) as Wi.
  assert (Hs : 0 <= zlen bs <= connection_buffer_size (conn_in (bs_connection b))).
  { rewrite <- zlen_contents, Hc by done. unfold zlen. rewrite !length_app. lia. }
  split.
  - apply set_conn_wf; [done|]. apply set_in_wf; [apply W|by apply consume_wf].
  - cbn. rewrite contents_consume, Hc, <- app_assoc by done. unfold zlen. by rewrite Nat2Z.id, drop_app_length.
Qed.

Lemma receives_all b bs rest : receives b bs rest -> receives (eaten (zlen bs) b) [] rest.
Proof. intros Hr. apply receives_eaten. by rewrite app_nil_r. Qed.

Section Library.
Context `{KOk : KernelOk}.

Lemma connection_take_eq b bs rest n w :
  receives b bs rest -> zlen bs = n ->
  on_connection (connection_get n) (Some (Seatd b)) w = Done (Some bs, Some (Seatd (eaten n b)), w).
Proof.
  intros [W Hc] <-. pose proof (wf_in _ (bw_conn _ W)) as Wi.
  assert (Hs : connection_buffer_size (conn_in (bs_connection b)) = zlen bs + zlen rest).
  { rewrite <- zlen_contents, Hc by done. unfold zlen. rewrite length_app. lia. }
  apply wp_exact. apply wp_on_connection. unfold wp. rewrite connection_get_eq by (apply W || unfold zlen; lia).
  rewrite (proj2 (Z.ltb_ge _ _)) by (unfold zlen in *; lia). rewrite Hc. unfold zlen. by rewrite Nat2Z.id, take_app_length.
Qed.

Lemma conn_get_eq b bs rest n w :
  receives b bs rest -> zlen bs = n ->
  conn_get n (Some (Seatd b)) w = Done (Some bs, Some (Seatd (eaten n b)), w).
Proof. intros Hr Hl. unfold conn_get. by erewrite bind_done; [|by eapply connection_take_eq]. Qed.

(** The response that is expected. *)
Lemma read_header_match op n sz (variable : bool) b rest w :
  receives b (header_bytes (Header op n)) rest -> 0 <= op < 2 ^ 16 -> 0 <= n < 2 ^ 16 ->
  (if variable then sz <= n else n = sz) ->
  read_header op sz variable (Some (Seatd b)) w = Done (Some n, Some (Seatd (eaten 4 b)), w).
Proof.
  intros Hr Ho Hn Hv. unfold read_header. erewrite bind_done; [|by eapply conn_get_eq].
  cbn beta iota zeta. rewrite <- (app_nil_r (header_bytes _)), header_of_bytes by done. cbn [opcode size].
  rewrite Z.eqb_refl. cbn [negb]. destruct variable; cbn [negb andb orb]; [|by rewrite (proj2 (Z.eqb_eq n sz))].
  by rewrite (proj2 (Z.ltb_ge n sz)).
Qed.

(** An error the daemon reports instead. *)
Lemma read_header_error op sz variable e b rest w :
  receives b (header_bytes (Header SERVER_ERROR 4) ++ int_bytes e) rest -> op <> SERVER_ERROR ->
  - 2 ^ 31 <= e < 2 ^ 31 ->
  read_header op sz variable (Some (Seatd b)) w =
    Done (None, Some (Seatd (eaten 4 (eaten 4 b))), Sys (trace w) e).
Proof.
  intros Hr Ho He. unfold read_header. apply receives_eaten in Hr as Hr1.
  change (zlen (header_bytes (Header SERVER_ERROR 4))) with 4 in Hr1.
  erewrite bind_done.
  2: { eapply (conn_get_eq _ (header_bytes (Header SERVER_ERROR 4)) (int_bytes e ++ rest)); [|done].
       destruct Hr as [W Hc]. split; [done|]. by rewrite Hc, <- app_assoc. }
  cbn beta iota zeta. change (header_of (header_bytes (Header SERVER_ERROR 4))) with (Header SERVER_ERROR 4).
  cbn [opcode size]. rewrite (proj2 (Z.eqb_neq SERVER_ERROR op)) by done. cbn [negb orb].
  rewrite !Z.eqb_refl. cbn [negb orb]. erewrite bind_done; [|by eapply conn_get_eq].
  cbn beta iota. by rewrite <- (app_nil_r (int_bytes e)), int_of_bytes.
Qed.

(** The descriptor that comes with an opened device. *)
Lemma conn_get_fd_eq b f rest w :
  backend_wf b -> contents (fds_in (bs_connection b)) = int_bytes f ++ rest -> - 2 ^ 31 <= f < 2 ^ 31 ->
  exists b', conn_get_fd (Some (Seatd b)) w = Done (Some f, Some (Seatd b'), w) /\ backend_wf b'.
Proof.
  intros W Hc Hf. pose proof (wf_fds_in _ (bw_conn _ W)) as Wf. eexists. split; [apply wp_exact|].
  - unfold conn_get_fd. wp_step. apply wp_on_connection. unfold connection_get_fd. wp_steps.
    assert (Hs : connection_buffer_size (fds_in (bs_connection b)) = 4 + zlen rest).
    { rewrite <- zlen_contents, Hc by done. unfold zlen. rewrite length_app. cbn. lia. }
    rewrite (proj2 (Z.ltb_ge _ 4)) by (unfold zlen in *; lia). rewrite copy_contents by (done || unfold zlen in *; lia).
    wp_steps. split_and!; try done. rewrite Hc. f_equal. exact (int_of_bytes f rest Hf).
  - apply set_conn_wf; [done|]. apply set_fds_in_wf; [apply W|]. apply consume_wf; [done|].
    rewrite <- zlen_contents, Hc by done. unfold zlen. rewrite length_app. cbn. lia.
Qed.

(** What the daemon answers to a request: it is done, with the number of the
    device for [open_device], or it failed. *)
Inductive response :=
| R_done (id : Z)
| R_error (error_code : Z).

Definition response_bytes (q : request) (r : response) : bytes :=
  match r with
  | R_error e => header_bytes (Header SERVER_ERROR 4) ++ int_bytes e
  | R_done id =>
      match q with
      | OpenDevice _ => header_bytes (Header SERVER_DEVICE_OPENED 4) ++ int_bytes id
      | _ => header_bytes (Header (response_opcode q) 0)
      end
  end.

(** What the library does with a response, after [send_request]. *)
Definition read_response (q : request) : M handle Z :=
  match q with
  | OpenDevice _ =>
      '(res, f) ← device_response;
      check_pending_events;;
      if res <? 0 then fail_with (i32 (- res)) (-1) else mret res
  | _ => finish_request (response_opcode q)
  end.

Definition request_msgs (q : request) : list bytes :=
  match q with
  | OpenDevice path =>
      [header_bytes (Header CLIENT_OPEN_DEVICE (2 + (zlen path + 1))); u16_bytes (zlen path + 1); path ++ [0]]
  | CloseDevice id => [header_bytes (Header CLIENT_CLOSE_DEVICE 4); int_bytes id]
  | SwitchSession n => [header_bytes (Header CLIENT_SWITCH_SESSION 4); int_bytes n]
  | DisableSeat => [header_bytes (Header CLIENT_DISABLE_SEAT 0)]
  end.

(** The error codes are positive; a device comes with its descriptor. *)
Definition response_valid (b : backend_seatd) (q : request) (r : response) : Prop :=
  match r with
  | R_error e => 0 < e < 2 ^ 31
  | R_done id =>
      match q with
      | OpenDevice _ => 0 <= id < 2 ^ 31 /\
          exists f more, contents (fds_in (bs_connection b)) = int_bytes f ++ more /\ - 2 ^ 31 <= f < 2 ^ 31
      | _ => True
      end
  end.

(** The return value of the function. *)
Definition response_value (q : request) (r : response) : Z :=
  match r with R_error _ => -1 | R_done id => match q with OpenDevice _ => id | _ => 0 end end.

Definition understood (q : request) (r : response) (ret : Z) (b : backend_seatd) (w : sys) : Prop :=
  ret = response_value q r /\ backend_wf b /\ match r with R_error e => errno w = e | _ => True end.

Lemma i32_neg_neg e : 0 < e < 2 ^ 31 -> i32 (- e) = - e /\ i32 (- - e) = e.
Proof. intros He. rewrite !i32_small; lia. Qed.

Lemma response_opcode_bound q : 0 <= response_opcode q < 2 ^ 16.
Proof. by destruct q. Qed.

Lemma response_not_error q : response_opcode q <> SERVER_ERROR.
Proof. by destruct q. Qed.

(** The common end of all requests. *)
Lemma finish_ok res v b w :
  backend_wf b ->
  wp (check_pending_events;; if res <? 0 then fail_with (i32 (- res)) (-1) else mret v)
    (backend_post (fun ret b' w' => backend_wf b' /\
      if res <? 0 then ret = -1 /\ errno w' = i32 (- res) else ret = v)) (Some (Seatd b)) w.
Proof.
  intros W. wp_step. eapply wp_mono; [by apply check_pending_events_ok|].
  intros _ h w1 (b1 & -> & q & _ & Q). destruct (res <? 0); wp_steps; eexists; (split; [done|]);
    (split; [apply Q|done]).
Qed.

(** After an error, whatever the request. *)
Lemma finish_error q e v b w :
  backend_wf b -> 0 < e < 2 ^ 31 ->
  wp (check_pending_events;; if i32 (- e) <? 0 then fail_with (i32 (- i32 (- e))) (-1) else mret v)
    (backend_post (understood q (R_error e))) (Some (Seatd b)) w.
Proof.
  intros W He. eapply wp_mono; [by apply finish_ok|]. intros ret h w1 (b1 & -> & W1 & Hr).
  destruct (i32_neg_neg e He) as [E1 E2]. rewrite !E1, E2 in Hr. rewrite (proj2 (Z.ltb_lt (- e) 0)) in Hr by lia.
  destruct Hr as [-> Hr]. eexists. split; [done|]. by split_and!.
Qed.

Lemma finish_request_understood op q r b rest w :
  receives b (match r with R_error e => header_bytes (Header SERVER_ERROR 4) ++ int_bytes e
                         | R_done _ => header_bytes (Header op 0) end) rest ->
  0 <= op < 2 ^ 16 -> op <> SERVER_ERROR ->
  (forall e, r = R_error e -> 0 < e < 2 ^ 31) -> (forall id, r = R_done id -> response_value q r = 0) ->
  wp (finish_request op) (backend_post (understood q r)) (Some (Seatd b)) w.
Proof.
  intros Hr Ho Hne He Hv. unfold finish_request. destruct r as [id|e].
  - apply wp_bind. unfold wp at 1. rewrite (read_header_match op 0 0 false b rest) by done.
    do 2 wp_step. eapply wp_mono; [apply (finish_ok 0 0)|].
    { apply (receives_all b _ rest Hr). }
    intros ret h w1 (b1 & -> & W1 & Hret). cbn in Hret. subst ret. eexists. split; [done|]. split_and!; [|done..].
    by rewrite (Hv id).
  - specialize (He e eq_refl). apply wp_bind. unfold wp at 1. rewrite (read_header_error op 0 false e b rest) by (done || lia).
    do 4 wp_step. cbn [errno]. apply finish_error; [|done].
    apply receives_eaten, receives_all in Hr. apply Hr.
Qed.

Lemma device_response_error e b rest w :
  receives b (header_bytes (Header SERVER_ERROR 4) ++ int_bytes e) rest -> 0 < e < 2 ^ 31 ->
  device_response (Some (Seatd b)) w =
    Done ((i32 (- e), None), Some (Seatd (eaten 4 (eaten 4 b))), Sys (trace w) e).
Proof.
  intros Hr He. unfold device_response. erewrite bind_done; [|by apply (read_header_error _ _ _ e b rest); [..|lia]].
  cbn beta iota. destruct (i32_neg_neg e He) as [E _]. unfold mbind, M_bind, get_errno. cbn [errno].
  rewrite E, (proj2 (Z.ltb_lt (- e) 0)) by lia. done.
Qed.

Lemma device_response_opened id f more b rest w :
  receives b (header_bytes (Header SERVER_DEVICE_OPENED 4) ++ int_bytes id) rest -> 0 <= id < 2 ^ 31 ->
  contents (fds_in (bs_connection b)) = int_bytes f ++ more -> - 2 ^ 31 <= f < 2 ^ 31 ->
  exists b', device_response (Some (Seatd b)) w = Done ((id, Some f), Some (Seatd b'), w) /\ backend_wf b'.
Proof.
  intros Hr Hid Hc Hf. apply receives_eaten in Hr as Hr1.
  change (zlen (header_bytes (Header SERVER_DEVICE_OPENED 4))) with 4 in Hr1.
  apply receives_all in Hr1 as Hr2. destruct Hr2 as [W2 _]. change (zlen (int_bytes id)) with 4 in W2.
  destruct (conn_get_fd_eq (eaten 4 (eaten 4 b)) f more w W2) as (b' & E & W'); [done..|].
  exists b'. split; [|done]. unfold device_response.
  erewrite bind_done; [|apply (read_header_match _ 4 _ _ b (int_bytes id ++ rest)); [|done..]].
  2: { destruct Hr as [W Hc0]. split; [done|]. by rewrite Hc0, <- app_assoc. }
  cbn beta iota. erewrite bind_done; [|exact (conn_get_eq _ _ _ 4 w Hr1 eq_refl)]. cbn beta iota.
  erewrite bind_done; [|exact E]. cbn beta iota.
  by rewrite <- (app_nil_r (int_bytes id)), int_of_bytes by lia.
Qed.

(** The library understands every answer of the daemon. *)
Lemma read_response_ok q r b rest w :
  receives b (response_bytes q r) rest -> response_valid b q r ->
  wp (read_response q) (backend_post (understood q r)) (Some (Seatd b)) w.
Proof.
  intros Hr Hv. destruct q as [path|id|n|].
  2-4: eapply finish_request_understood; [by destruct r|done|done|by intros e ->|by intros ? ->].
  cbn [read_response]. apply wp_bind. unfold wp at 1. destruct r as [id|e].
  - destruct Hv as (Hid & f & more & Hc & Hf).
    destruct (device_response_opened id f more b rest w) as (b' & -> & W'); [done..|].
    eapply wp_mono; [by apply finish_ok|]. intros ret h w1 (b1 & -> & W1 & Hret).
    rewrite (proj2 (Z.ltb_ge id 0)) in Hret by lia. subst ret. eexists. split; [done|]. by split_and!.
  - rewrite (device_response_error e b rest w) by done. apply finish_error; [|done].
    apply receives_eaten, receives_all in Hr. apply Hr.
Qed.

End Library.
