(* ===== verification/LibseatWait.v ===== *)
(** * Waiting for the daemon ends

    A request of libseat polls until its response is complete.  On a socket that
    poll(2) reports on truthfully and that delivers a bounded number of bytes, the
    loop ends: the measure is the number of bytes still to come. *)
From S2P Require Import Prelude Kernel Waiting Connection Protocol Backend LibseatSeatd LibseatOk LibseatOpen.
From S2P Require Import LibseatSeat.
From S2P Require Import State Client Wire.

(** The bytes received on a descriptor. *)
Fixpoint received (f : Z) (h : history) : Z :=
  match h with
  | [] => 0
  | (Recvmsg g _, r) :: h' => received f h' + (if (g =? f) && (0 <? r_ret r) then r_ret r else 0)
  | _ :: h' => received f h'
  end.

Lemma received_cons f c r h : received f h <= received f ((c, r) :: h).
Proof. destruct c; cbn [received]; try lia. case_match; lia. Qed.

Lemma received_app f t h : received f h <= received f (t ++ h).
Proof.
  induction t as [|[c r] t IH]; [cbn; lia|]. change (((c, r) :: t) ++ h) with ((c, r) :: (t ++ h)).
  pose proof (received_cons f c r (t ++ h)). lia.
Qed.

Lemma received_interrupted f c t h : interrupted c t -> received f (t ++ h) = received f h.
Proof.
  induction 1 as [|[c' r] t [E1 E2] _ IH]; [done|]. cbn in E1, E2. subst c'.
  unfold is_eintr in E2. apply andb_true_iff in E2 as [E2 _].
  destruct c; cbn [app received]; try done. rewrite (proj2 (Z.ltb_ge _ _)) by lia. rewrite andb_false_r. lia.
Qed.

Lemma received_le f w w' : sys_le w w' -> received f (trace w) <= received f (trace w').
Proof. intros [t ->]. apply received_app. Qed.

(** A socket that is not closed under the library: poll(2) without a timeout
    returns because of an event or a lasting error, a read of a readable socket is
    never the end of the stream, and at most [total] bytes arrive in all. *)
Record attentive `{Kernel} (f total : Z) : Prop := {
  at_error : forall h, let r := answer h (Poll [(f, POLLIN)] (-1)) in
    r_ret r = -1 -> r_errno r <> EAGAIN /\ r_errno r <> EINTR;
  at_event : forall h, let r := answer h (Poll [(f, POLLIN)] (-1)) in
    r_ret r <> -1 -> has_event (r_val 0 r) (Z.lor POLLERR POLLHUP) = true \/ has_event (r_val 0 r) POLLIN = true;
  at_stream : forall h room, r_ret (answer h (Recvmsg f room)) <> 0;
  at_total : forall h room, total <= received f h -> r_ret (answer h (Recvmsg f room)) = -1
}.

Section Wait.
Context `{KOk : KernelOk}.

(** A poll that does not fail has received something. *)
Lemma poll_progress total b w :
  backend_wf b -> attentive (bs_fd b) total ->
  wp (poll_connection (-1)) (backend_post (fun r b' w' =>
    moves b w b' w' /\
    (r <> -1 -> received (bs_fd b) (trace w) < total /\
                received (bs_fd b) (trace w) < received (bs_fd b) (trace w')))) (Some (Seatd b)) w.
Proof.
  intros W At. unfold poll_connection. wp_step. apply wp_get_backend. wp_step. apply wp_ext. intros r Hr.
  set (w1 := logged w _ r). assert (M0 : moves b w b w1) by (apply moves_quiet; try done; by apply quiet_logged).
  assert (R0 : received (bs_fd b) (trace w1) = received (bs_fd b) (trace w)) by done.
  destruct (Z.eqb_spec (r_ret r) (-1)) as [Er|Er].
  { wp_steps. eexists. split; [done|]. split; [done|]. unfold w1, logged. cbn [errno].
    rewrite Er, Z.eqb_refl. pose proof (at_error _ _ At (trace w)) as [H1 H2]; [by rewrite <- Hr|]. rewrite <- Hr in *.
    by rewrite (proj2 (Z.eqb_neq _ _) H1), (proj2 (Z.eqb_neq _ _) H2). }
  pose proof (at_event _ _ At (trace w)) as Hev. cbv zeta in Hev. rewrite <- Hr in Hev. specialize (Hev Er).
  wp_case.
  { eapply wp_mono; [by apply give_up_ok|]. intros a h w2 (b2 & -> & -> & M2 & _).
    eexists. split; [done|]. split; [by eapply moves_queues|done]. }
  destruct Hev as [?|Hev]; [congruence|]. rewrite Hev.
  wp_step. apply wp_on_connection. eapply wp_mono; [apply connection_read_ok, W|]. cbn beta.
  intros len c w2 (Wc & Eo & _ & Ef & _ & Hq & Hlen).
  assert (M2 : moves b w (set_bs_connection c b) w2).
  { eapply moves_queues; [exact M0|]. apply moves_quiet; try done. by apply set_conn_wf. }
  wp_case.
  { eapply wp_mono; [apply give_up_ok, M2|]. intros a h w3 (b3 & -> & -> & M3 & _).
    eexists. split; [done|]. split; [by eapply moves_queues|done]. }
  destruct Hlen as [[-> _]|(m & t1 & t2 & Ht & Hi & -> & _ & Hm & Hne)].
  { wp_steps. wp_case; wp_steps; [|by eexists].
    eapply wp_mono; [apply set_error_ok, M2|]. intros _ h w3 (b3 & -> & M3 & _). wp_steps.
    eexists. split; [done|]. split; [by eapply moves_queues|done]. }
  wp_steps. rewrite (proj2 (Z.eqb_neq _ (-1))) by (unfold zlen; lia). wp_steps. eexists. split; [done|]. split; [done|].
  intros _. set (room := 256 - _) in *. pose proof (received_interrupted (bs_fd b) _ _ (trace w1) Hi) as Ri.
  assert (Hlt : received (bs_fd b) (trace w) < total).
  { destruct (Z.lt_ge_cases (received (bs_fd b) (trace w)) total) as [?|Hge]; [done|].
    destruct Hne. rewrite Hm. apply (at_total _ _ At). lia. }
  split; [done|]. rewrite Ht. pose proof (received_app (bs_fd b) t2 ((Recvmsg (bs_fd b) room, m) :: t1 ++ trace w1)) as Ra.
  cbn [received] in Ra. rewrite Z.eqb_refl in Ra.
  destruct (recvmsg_ret (t1 ++ trace w1) (bs_fd b) room) as [?|[Hret _]]; rewrite <- Hm in *; [done|].
  pose proof (at_stream _ _ At (t1 ++ trace w1) room) as H0. rewrite <- Hm in H0.
  rewrite (proj2 (Z.ltb_lt 0 (r_ret m))) in Ra by lia. cbn [andb] in Ra. lia.
Qed.

(** More turns than bytes that can still come. *)
Definition enough (patience : nat) (total : Z) (b : backend_seatd) (w : sys) : Prop :=
  Z.max 0 (total - received (bs_fd b) (trace w)) < Z.of_nat patience.

Lemma enough_moves q patience total b w b' w' :
  queues q b w b' w' -> enough patience total b w -> enough patience total b' w'.
Proof.
  intros Q. unfold enough. rewrite (qu_fd _ _ _ _ _ Q). destruct (qu_sent _ _ _ _ _ Q) as (d & Hd & _).
  apply sends_le in Hd. pose proof (received_le (bs_fd b) _ _ Hd). lia.
Qed.

(** The loop ends when no more bytes can come than it has turns. *)
Lemma await_returns total patience b w :
  backend_wf b -> attentive (bs_fd b) total -> enough patience total b w ->
  returns (await_response patience) (Some (Seatd b)) w.
Proof.
  revert b w. induction patience as [|n IH]; intros b w W At Hn; cbn [await_response];
    (eapply returns_seq; [by apply read_and_queue_ok|]); intros [r op] h w1 (b1 & -> & M1 & _); cbn beta iota.
  all: destruct (r =? -1); [done|]; destruct (negb (op =? 0)); [done|].
  all: apply (enough_moves _ _ _ _ _ _ _ M1) in Hn; rewrite <- (qu_fd _ _ _ _ _ M1) in At.
  { unfold enough in Hn. lia. }
  eapply returns_seq; [by apply (poll_progress total); [apply M1|]|]. intros r2 h w2 (b2 & -> & M2 & Hp).
  destruct (Z.eqb_spec r2 (-1)) as [|Hne]; [done|]. apply IH; [apply M2|by rewrite (qu_fd _ _ _ _ _ M2)|].
  destruct (Hp Hne) as [H1 H2]. unfold enough in *. rewrite (qu_fd _ _ _ _ _ M2). lia.
Qed.

Lemma send_request_returns total patience msgs b w :
  backend_wf b -> Forall (Forall is_byte) msgs -> attentive (bs_fd b) total -> enough patience total b w ->
  returns (send_request patience msgs) (Some (Seatd b)) w.
Proof.
  intros W Hm At Hn. unfold send_request. eapply returns_seq; [by apply conn_puts_ok|].
  intros r h w1 (b1 & -> & Hr). assert (Q1 : exists q, queues q b w b1 w1).
  { destruct Hr as [(_ & ? & _)|(_ & _ & q & _ & ?)]; eauto. }
  destruct Q1 as [q Q1]. destruct (r =? -1); [done|]. unfold read_until_response.
  eapply returns_seq; [apply conn_flush_ok, Q1|]. intros r2 h w2 (b2 & -> & _ & M2 & _). destruct (r2 =? -1); [done|].
  pose proof (queues_moves _ _ _ _ _ _ _ Q1 M2) as Q2. apply (await_returns total); [apply Q2| |by eapply enough_moves].
  by rewrite (qu_fd _ _ _ _ _ Q2).
Qed.

Lemma device_response_returns b w : backend_wf b -> returns device_response (Some (Seatd b)) w.
Proof.
  intros W. unfold device_response. set (failed := get_errno ≫= _).
  assert (Hf : forall h w1, returns failed h w1).
  { intros h w1. unfold failed, returns, mbind, M_bind, get_errno, assert_. by destruct (_ <? 0). }
  eapply returns_seq; [by apply read_header_ok|]. intros o h w1 (b1 & -> & M1 & _). destruct o; [|apply Hf].
  eapply returns_seq; [apply conn_get_ok; [apply M1|done]|]. intros o h w2 (b2 & -> & M2 & _). destruct o; [|apply Hf].
  eapply returns_seq; [apply conn_get_fd_ok, M2|]. intros o h w3 (b3 & -> & M3 & _). by destruct o; [|apply Hf].
Qed.

Lemma from_base_eq {B} (f : backend_seatd -> M handle B) b w :
  (backend_seatd_from_libseat_backend ≫= f) (Some (Seatd b)) w = f b (Some (Seatd b)) w.
Proof. done. Qed.

(** The number that [open_device] returns. *)
Lemma open_device_split patience path b w :
  request_error b (OpenDevice path) = None ->
  ('(r, _) ← open_device patience path; mret r) (Some (Seatd b)) w =
    (r ← send_request patience (request_msgs (OpenDevice path));
     if r =? -1 then mret (-1) else read_response (OpenDevice path)) (Some (Seatd b)) w.
Proof.
  unfold request_error. destruct (bs_error b) eqn:Eb; [done|]. destruct (_ <? _) eqn:El; [done|]. intros _.
  unfold open_device. unfold mbind at 1, M_bind at 1. rewrite from_base_eq, Eb. cbv zeta. rewrite El.
  cbn [request_msgs read_response]. unfold mbind, M_bind. destruct (send_request _ _ _ _) as [[[r h] w1]| | |]; try done.
  destruct (r =? -1); [done|]. destruct (device_response h w1) as [[[[res f] h2] w2]| | |]; try done.
  destruct (check_pending_events h2 w2) as [[[[] h3] w3]| | |]; try done. by destruct (res <? 0).
Qed.

(** A request is its message, and then its response. *)
Lemma perform_request_split patience q b w :
  request_error b q = None ->
  perform_request patience q (Some (Seatd b)) w =
    (r ← send_request patience (request_msgs q);
     if r =? -1 then mret (-1) else read_response q) (Some (Seatd b)) w.
Proof.
  destruct q as [path|n|n|]; cbn [perform_request]; [by apply open_device_split|..];
    unfold request_error, close_device, switch_session, disable_seat; rewrite from_base_eq;
    destruct (bs_error b); try done; by destruct (n <? 0).
Qed.

Lemma request_msgs_byte q : request_bytes_ok q -> Forall (Forall is_byte) (request_msgs q).
Proof.
  destruct q; cbn [request_msgs request_bytes_ok]; intros Hb; try apply int_request_bytes.
  - apply Forall_cons_2; [apply header_bytes_byte|]. apply Forall_cons_2; [apply le_bytes_byte|].
    apply Forall_singleton, Forall_app. split; [done|by apply Forall_singleton].
  - apply Forall_singleton, header_bytes_byte.
Qed.

Lemma read_response_returns q b w : backend_wf b -> returns (read_response q) (Some (Seatd b)) w.
Proof.
  intros W. destruct q; cbn [read_response]; try (eapply returns_wp; by apply finish_request_ok).
  apply returns_bind; [by apply device_response_returns|]. intros [res f] h w1 E.
  pose proof (device_response_ok b w W) as Hd. unfold wlp in Hd. rewrite E in Hd. destruct Hd as (b1 & -> & M1 & _).
  eapply returns_seq; [apply check_pending_events_ok, M1|]. intros _ h w2 _. by destruct (res <? 0).
Qed.

Lemma perform_request_returns total patience q b w :
  backend_wf b -> request_bytes_ok q -> attentive (bs_fd b) total -> enough patience total b w ->
  returns (perform_request patience q) (Some (Seatd b)) w.
Proof.
  intros W Hb At Hn. destruct (request_error b q) as [e|] eqn:E.
  { unfold returns. by rewrite (request_not_sent _ _ _ _ e). }
  unfold returns. rewrite perform_request_split by done.
  apply returns_bind; [by eapply send_request_returns; [|apply request_msgs_byte|..]|].
  intros r h w1 Es. destruct (r =? -1); [done|].
  pose proof (send_request_ok False patience (request_msgs q) b w W (request_msgs_byte q Hb)) as Hs.
  unfold wlp in Hs. rewrite Es in Hs. destruct Hs as (b1 & -> & Hs). apply read_response_returns.
  destruct Hs as [(_ & Q & _)|(_ & s & _ & Q)]; apply Q.
Qed.

(** More patience makes no difference to a request that returns. *)
#[local] Opaque read_and_queue poll_connection.

Lemma await_more n m h w :
  returns (await_response n) h w -> (n <= m)%nat -> await_response m h w = await_response n h w.
Proof.
  revert m h w. induction n as [|n IH]; intros m h w Hr Hle.
  - destruct m as [|m]; [done|]. unfold returns in Hr. cbn [await_response] in *.
    unfold mbind, M_bind in *. destruct (read_and_queue true h w) as [[[[r op] h1] w1]| | |]; try done.
    destruct (r =? -1); [done|]. by destruct (negb (op =? 0)).
  - destruct m as [|m]; [lia|]. unfold returns in Hr. cbn [await_response] in *. unfold mbind, M_bind in *.
    destruct (read_and_queue true h w) as [[[[r op] h1] w1]| | |]; try done.
    destruct (r =? -1); [done|]. destruct (negb (op =? 0)); [done|].
    destruct (poll_connection (-1) h1 w1) as [[[r2 h2] w2]| | |]; try done. destruct (r2 =? -1); [done|].
    apply IH; [done|lia].
Qed.

Lemma send_request_more n m msgs h w :
  returns (send_request n msgs) h w -> (n <= m)%nat -> send_request m msgs h w = send_request n msgs h w.
Proof.
  unfold returns, send_request, read_until_response, mbind, M_bind. intros Hr Hle.
  destruct (conn_puts msgs h w) as [[[r h1] w1]| | |]; try done. destruct (r =? -1); [done|].
  destruct (conn_flush h1 w1) as [[[r2 h2] w2]| | |]; try done. destruct (r2 =? -1); [done|]. by apply await_more.
Qed.

Lemma perform_request_more n m q b w :
  returns (perform_request n q) (Some (Seatd b)) w -> (n <= m)%nat ->
  perform_request m q (Some (Seatd b)) w = perform_request n q (Some (Seatd b)) w.
Proof.
  intros Hr Hle. destruct (request_error b q) as [e|] eqn:E; [by rewrite !(request_not_sent _ _ _ _ e)|].
  unfold returns in Hr. rewrite perform_request_split in Hr |- * by done. rewrite perform_request_split by done.
  unfold mbind, M_bind in *. rewrite (send_request_more n m); [done| |done].
  unfold returns. by destruct (send_request n _ _ _) as [[[r h1] w1]| | |].
Qed.

(** ** Closing *)

Section Close.
Context `{L : Listener} {LOk : ListenerOk}.

(** An application whose functions return. *)
Record prompt : Prop := {
  prompt_enable : forall h w, seat_open h -> returns listener_enable_seat h w;
  prompt_disable : forall h w, seat_open h -> returns listener_disable_seat h w
}.

Lemma run_events_returns evs n b w :
  prompt -> Forall is_event evs -> seat_open (Some (Seatd b)) -> returns (run_events evs n) (Some (Seatd b)) w.
Proof.
  intros [Pe Pd] He. revert n b w. induction He as [|op evs Hop _ IH]; intros n b w Ho; cbn [run_events]; [done|].
  set (m := if op =? _ then _ else _).
  assert (Hm : returns m (Some (Seatd b)) w /\
    wlp False m (fun _ h' w' => same_seat (Some (Seatd b)) h' /\ sys_le w w') (Some (Seatd b)) w).
  { unfold m. destruct Hop as [-> | ->].
    - split; [by apply Pd|by apply (notify_ok false (Some (Seatd b)))].
    - split; [by apply Pe|by apply (notify_ok true (Some (Seatd b)))]. }
  destruct Hm as [Hr Hw]. apply returns_bind; [done|]. intros [] h' w' E. unfold wlp in Hw. rewrite E in Hw.
  destruct Hw as [[Ho' Hsame] _]. destruct h' as [[b'| |]|]; try done. by apply IH.
Qed.

Lemma close_request_returns total patience b w :
  backend_wf b -> attentive (bs_fd b) total -> enough patience total b w ->
  returns (close_request patience b) (Some (Seatd b)) w.
Proof.
  intros W At Hn. unfold close_request. destruct (bs_error b); [done|]. assert (Hb : Forall (Forall is_byte)
    [header_bytes (Header CLIENT_CLOSE_SEAT 0)]) by apply Forall_singleton, header_bytes_byte.
  apply returns_bind; [by eapply send_request_returns|]. intros r h w1 E.
  pose proof (send_request_ok False patience _ b w W Hb) as Hs. unfold wlp in Hs. rewrite E in Hs.
  destruct Hs as (b1 & -> & Hr). assert (W1 : backend_wf b1) by (destruct Hr as [(_ & Q & _)|(_ & q & _ & Q)]; apply Q).
  apply returns_bind; [by destruct (r =? -1)|]. intros res h w2 E2.
  assert (h = Some (Seatd b1)) as -> by (destruct (r =? -1); by inversion E2).
  eapply returns_seq; [by apply read_header_ok|]. intros o h w3 _. by destruct o.
Qed.

Lemma close_seat_returns total patience b w :
  prompt -> backend_wf b -> named b -> bs_fd b <> -1 -> attentive (bs_fd b) total -> enough patience total b w ->
  returns (close_seat patience) (Some (Seatd b)) w.
Proof.
  intros Hp W Hn Hf At He. unfold close_seat, returns. rewrite from_base_eq.
  apply returns_bind; [by eapply close_request_returns|]. intros res h w1 E.
  pose proof (close_request_ok patience b w W) as Hc. unfold wlp in Hc. rewrite E in Hc.
  destruct Hc as (b1 & -> & q & Q1). destruct (queues_same_seat _ _ _ _ _ Q1 Hn) as [[[W1 Hn1] Ef] _].
  apply returns_bind.
  { apply (run_events_returns (pending_events b1)); [done|apply W1|]. split; [by destruct W1|exact Hn1]. }
  intros n h w2 E2. pose proof (execute_events_ok b1 w1 W1 Hn1) as Hx. unfold wlp in Hx. rewrite E2 in Hx.
  destruct Hx as (_ & [Ho2 S2] & _). destruct h as [[b2| |]|]; try done. destruct Ho2 as [W2 _].
  eapply returns_seq; [apply destroy_ok; [done|congruence]|]. intros _ h w3 _. by destruct (res <? 0).
Qed.

End Close.

End Wait.
