(* ===== verification/LibseatTheorems.v ===== *)
(** * Theorems about libseat and its conversation with the daemon

    The library's calls are safe for every listener that keeps its law; what it
    writes is what the daemon reads, and the other way round. *)
From S2P Require Import Prelude Kernel Waiting Connection Protocol State Send Client Daemon Demo.
From S2P Require Import Backend LibseatSeatd LibseatNoop LibseatLogind Libseat LibseatOk LibseatOpen.
From S2P Require Import LibseatLogindOk LibseatSeat Wire LibseatWait.

(** ** An application *)



(** ** Safety *)




(** ** The wire *)

Lemma fits_valid q : message_fits (M_request q) -> request_valid q.
Proof. destruct q; cbn; try lia; naive_solver lia. Qed.

(** C8: a request reaches its handler.  A request on a connection with nothing
    queued sends its message in order, followed by a ping at most, and all of it
    if it succeeds; and when the daemon finds the bytes of the message at the front
    of its input, wherever they lie in the ring buffer and whatever follows, it
    calls the handler of that request with the arguments of the application, on
    the state without those bytes. *)
Theorem request_reaches_handler `{KOk : KernelOk} (patience : nat) (q : request) (b : backend_seatd) (w : sys) :
  backend_wf b -> bs_error b = false -> out_queue b = [] -> message_fits (M_request q) ->
  match perform_request patience q (Some (Seatd b)) w with
  | Done (r, _, w') => exists d, sent (bs_fd b) (trace w') = sent (bs_fd b) (trace w) ++ d /\
      d `prefix_of` request_bytes q ++ ping /\ (0 <= r -> request_bytes q `prefix_of` d)
  | Hang => True
  | Aborted => may_assert q
  | Fault => False
  end /\
  (forall fuel c k rest s w1, reads c k (request_bytes q) rest s ->
     client_messages (S fuel) c s w1 =
       (r ← (res ← serve c (M_request q); if res =? -1 then mret res else client_flush c);
        if r =? -1 then mret false else client_messages fuel c)
         (put_client c (consumed (zlen (request_bytes q)) k) s) w1).
Proof.
  intros W He Eo Hf. split.
  - pose proof (perform_request_ok patience q b w W He (fits_valid q Hf)) as Hp. unfold wlp in Hp.
    destruct (perform_request _ _ _ _) as [[[r h] w']| | |]; try done.
    destruct Hp as (b' & _ & _ & _ & d & [_ Hd] & Hpre & Hall). rewrite Eo in *. exists d.
    rewrite Hd, Z.eqb_refl. by split_and!.
  - intros fuel c k rest s w1 Hr. by apply (client_messages_eq fuel c k (M_request q) rest).
Qed.

(** C13: a response reaches the application.  When the daemon's answer to a request
    is at the front of the library's input, the rest of the request returns, and
    returns what the daemon said: the number of the device, 0, or -1 with the
    daemon's error code in errno. *)
Theorem response_reaches_caller `{KOk : KernelOk} (q : request) (r : response)
    (b : backend_seatd) (rest : bytes) (w : sys) :
  receives b (response_bytes q r) rest -> response_valid b q r ->
  exists b' w', read_response q (Some (Seatd b)) w = Done (response_value q r, Some (Seatd b'), w') /\
    backend_wf b' /\ (forall e, r = R_error e -> errno w' = e).
Proof.
  intros Hr Hv. destruct (wp_done _ _ _ _ (read_response_ok q r b rest w Hr Hv))
    as (ret & h & w' & E & b' & -> & -> & W' & He).
  exists b', w'. split_and!; [done..|]. by intros e ->.
Qed.


(** ** Witnesses

    A daemon that says [msgs], one after the other, each time it is polled. *)

Definition b0 : backend_seatd := new_backend 3.
Definition w0 : sys := Sys [] 0.






(** A daemon that sends one stream of bytes, in pieces as large as the reader has
    room for. *)
Definition line_answer (stream : bytes) (h : history) (c : call) : reply :=
  match c with
  | Recvmsg f room =>
      let d := take (Z.to_nat room) (drop (Z.to_nat (received f h)) stream) in
      if zlen d =? 0 then reply_err EAGAIN else Reply (zlen d) 0 [] d []
  | Poll _ _ => Reply 1 0 [POLLIN] [] []
  | _ => demo_answer (says []) h c
  end.
Definition line (stream : bytes) : Kernel :=
  {| answer := line_answer stream; eintr_limit := 1; has_hidiocrevoke := true; libseat_build := false |}.

Lemma line_ok stream : Forall is_byte stream -> @KernelOk (line stream).
Proof.
  intros Hs. destruct (demo_ok (says [])) as [H1 H2 H3 H4 H5 H6 H7].
  split; [exact H1| | | |exact H5|exact H6|]; cbn -[Z.of_nat].
  - intros h f room. destruct (Z.eqb_spec (zlen (take (Z.to_nat room) (drop (Z.to_nat (received f h)) stream))) 0);
      [by left|right]. cbn [r_ret r_bytes]. unfold zlen in *. rewrite length_take in *. lia.
  - intros h f room. case_match; [done|]. cbn. by apply Forall_take, Forall_drop.
  - intros h f room. by case_match.
  - intros h c. left. destruct (H7 h c) as [E|[]]. unfold is_eintr in *. destruct c; try exact E; try done. cbn.
    case_match; [done|]. cbn. by rewrite (proj2 (Z.eqb_neq _ _)) by (unfold zlen; lia).
Qed.


(** A device with the number 1 is closed; the daemon answers after an event. *)
Definition close_stream : bytes :=
  header_bytes (Header SERVER_DISABLE_SEAT 0) ++ header_bytes (Header SERVER_DEVICE_CLOSED 0).

Lemma close_stream_byte : Forall is_byte close_stream.
Proof. apply Forall_app. split; apply header_bytes_byte. Qed.


Lemma response_reaches_caller_witness :
  let r := R_error EACCES in
  exists b' w', @read_response (line close_stream) DisableSeat
    (Some (Seatd (set_bs_connection (set_in (buffer_write empty_buffer (response_bytes DisableSeat r))
       (new_connection 3)) b0))) w0 = Done (-1, Some (Seatd b'), w') /\ errno w' = EACCES.
Proof.
  intros r.
  destruct (@response_reaches_caller (line close_stream) (line_ok _ close_stream_byte) DisableSeat r
    (set_bs_connection (set_in (buffer_write empty_buffer (response_bytes DisableSeat r)) (new_connection 3)) b0) [] w0)
    as (b' & w' & E & _ & He).
  - split; [|by vm_compute]. apply set_conn_wf; [apply new_backend_wf|]. apply set_in_wf; [apply new_connection_wf|].
    apply write_wf; [apply empty_buffer_wf| |by vm_compute]. apply Forall_app. split; apply le_bytes_byte || apply header_bytes_byte.
  - by vm_compute.
  - exists b', w'. split; [exact E|by apply He].
Defined.

(** A server with one client, which has sent a request. *)
Definition close_msg : bytes := request_bytes (CloseDevice 1).
Definition asking : client :=
  Client true None (set_in (buffer_write empty_buffer close_msg) (new_connection 4)) 1 2 3 None (-1) CLIENT_NEW [].
Definition asked_server : server := put_client 0 asking zero_server.

Lemma asked_reads : reads 0 asking close_msg [] asked_server.
Proof.
  split_and!; [done| |by vm_compute]. apply set_in_wf; [apply new_connection_wf|].
  apply write_wf; [apply empty_buffer_wf| |by vm_compute]. apply Forall_app. split; [apply header_bytes_byte|apply le_bytes_byte].
Qed.

Lemma request_reaches_handler_witness :
  (exists h w', @perform_request (line close_stream) 3 (CloseDevice 1) (Some (Seatd b0)) w0 = Done (0, h, w') /\
     close_msg `prefix_of` sent 3 (trace w')) /\
  @client_messages (line close_stream) 1 0 asked_server w0 =
    (r ← (res ← @handle_close_device (line close_stream) 0 1;
          if res =? -1 then mret res else @client_flush (line close_stream) 0);
     if r =? -1 then mret false else @client_messages (line close_stream) 0 0)
      (put_client 0 (consumed 8 asking) asked_server) w0.
Proof.
  destruct (@request_reaches_handler (line close_stream) (line_ok _ close_stream_byte) 3 (CloseDevice 1) b0 w0
    (new_backend_wf 3) eq_refl ltac:(by vm_compute) ltac:(by vm_compute)) as [Hsend Hread].
  split; [|exact (Hread 0%nat 0%nat asking [] asked_server w0 asked_reads)].
  assert (Hrun : exists h w', @perform_request (line close_stream) 3 (CloseDevice 1) (Some (Seatd b0)) w0 =
    Done (0, h, w')) by (eexists _, _; vm_compute; reflexivity).
  destruct Hrun as (h & w' & E). rewrite E in Hsend. destruct Hsend as (d & Hd & _ & Hall).
  exists h, w'. split; [done|]. change (bs_fd b0) with 3 in Hd. rewrite Hd. by apply Hall.
Defined.
