(* ===== verification/LibseatFindings.v ===== *)
(** * Behaviour of libseat that its documentation does not lead one to expect *)
From S2P Require Import Prelude Kernel Waiting Connection Protocol State Poller Send Client Daemon Demo.
From S2P Require Import Invariant Rules Backend LibseatSeatd LibseatOk LibseatOpen LibseatLogindOk LibseatSeat.
From S2P Require Import Wire LibseatWait.

(** ** The order of events *)

Definition events_bytes (evs : list Z) : bytes := concat ((fun op => header_bytes (Header op 0)) <$> evs).

Section Events.
Context `{KOk : KernelOk}.

Lemma connection_empty_eq b w :
  receives b [] [] -> on_connection (connection_get sizeof_header) (Some (Seatd b)) w =
    Done (None, Some (Seatd b), Sys (trace w) EAGAIN).
Proof.
  intros [W Hc]. apply wp_exact. apply wp_on_connection. unfold wp. rewrite connection_get_eq by (apply W || done).
  rewrite <- zlen_contents, Hc by apply W. change (zlen (A:=Z) ([] ++ [])) with 0. cbn. split_and!; try done.
  by destruct b.
Qed.

Lemma event_header op : is_event op -> header_of (header_bytes (Header op 0)) = Header op 0.
Proof. intros [-> | ->]; by vm_compute. Qed.

(** The events in the input are put in front of the list, one by one. *)
Lemma read_events_ok evs fuel packets b w :
  (forall h, r_ret (answer h Calloc) <> -1) ->
  receives b (events_bytes evs) [] -> Forall is_event evs -> (length evs <= fuel)%nat ->
  wp (read_and_queue_loop fuel false packets) (backend_post (fun p b' w' =>
    p = (packets + zlen evs, 0) /\ pending_events b' = rev evs ++ pending_events b /\ backend_wf b'))
    (Some (Seatd b)) w.
Proof.
  intros Hal Hr He. revert fuel packets b w Hr. induction He as [|op evs Hop _ IH]; intros fuel packets b w Hr Hf.
  { destruct fuel; cbn [read_and_queue_loop]; apply wp_bind; unfold wp at 1; rewrite connection_empty_eq by done;
      wp_steps; eexists; (split; [done|]); (split_and!; [|done|apply Hr]); unfold zlen; cbn; f_equal; lia. }
  destruct fuel as [|fuel]; cbn [length] in Hf; [lia|]. cbn [read_and_queue_loop].
  change (events_bytes (op :: evs)) with (header_bytes (Header op 0) ++ events_bytes evs) in Hr.
  apply wp_bind. unfold wp at 1.
  rewrite (connection_take_eq b (header_bytes (Header op 0)) (events_bytes evs ++ []));
    [|destruct Hr as [W Hc]; split; [done|by rewrite Hc, app_assoc]|done].
  rewrite event_header by done. apply receives_eaten in Hr as Hr1. change (zlen (header_bytes _)) with 4 in Hr1.
  cbn [opcode]. rewrite (proj2 (Z.eqb_neq op SERVER_PONG)) by (by destruct Hop as [-> | ->]).
  replace ((op =? SERVER_DISABLE_SEAT) || (op =? SERVER_ENABLE_SEAT)) with true by (by destruct Hop as [-> | ->]).
  unfold queue_event. do 2 wp_step. apply wp_ext. intros r Hrep.
  rewrite (proj2 (Z.eqb_neq (r_ret r) (-1))) by (rewrite Hrep; apply Hal). wp_step. apply wp_upd_backend. do 2 wp_step.
  eapply wp_mono; [apply IH; [|lia]|].
  - destruct Hr1 as [[Wc We Wn] Hc]. split; [|done]. split; [done|by constructor|done].
  - intros p h w1 (b1 & -> & -> & Hp & W1). eexists. split; [done|]. split_and!; [|rewrite Hp|done].
    + f_equal. unfold zlen. cbn [length]. lia.
    + cbn. by rewrite <- app_assoc.
Qed.

End Events.

(** C38: events are executed in the reverse of the order in which the daemon sent
    them.  The events read in one go stand in the list of pending events newest
    first, and [execute_events] runs the list from its head. *)
Theorem events_reversed `{KOk : KernelOk} `{L : Listener} (evs : list Z) (b : backend_seatd) (w : sys) :
  (forall h, r_ret (answer h Calloc) <> -1) ->
  receives b (events_bytes evs) [] -> Forall is_event evs -> (length evs <= 64)%nat ->
  exists b' w', read_and_queue false (Some (Seatd b)) w = Done ((zlen evs, 0), Some (Seatd b'), w') /\
    execute_events (Some (Seatd b')) w' =
      run_events (rev evs ++ pending_events b) 0 (Some (Seatd (set_pending_events [] b'))) w'.
Proof.
  intros Hal Hr He Hl. destruct (wp_done _ _ _ _ (read_events_ok evs 64 0 b w Hal Hr He Hl))
    as (p & h & w' & E & b' & -> & -> & Hp & _).
  exists b', w'. split; [exact E|]. unfold execute_events. rewrite <- Hp. done.
Qed.

(** An application that does nothing about it. *)
Definition idle : Listener := {| listener_enable_seat := mret (); listener_disable_seat := mret () |}.

(** The daemon enables the seat and then disables it; the application is told the
    opposite, and ends up believing that it has the seat. *)
Definition two_events : bytes := events_bytes [SERVER_ENABLE_SEAT; SERVER_DISABLE_SEAT].
Definition b_events : backend_seatd :=
  set_bs_connection (set_in (buffer_write empty_buffer two_events) (new_connection 3)) (new_backend 3).

Lemma b_events_receives : receives b_events two_events [].
Proof.
  split; [|by vm_compute]. apply set_conn_wf; [apply new_backend_wf|]. apply set_in_wf; [apply new_connection_wf|].
  apply write_wf; [apply empty_buffer_wf| |by vm_compute]. apply Forall_app. split; [apply header_bytes_byte|].
  apply Forall_app. split; [apply header_bytes_byte|done].
Qed.

Lemma events_reversed_witness :
  let K := demo (says []) in
  exists b' w' h w'', @read_and_queue K false (Some (Seatd b_events)) (Sys [] 0) = Done ((2, 0), Some (Seatd b'), w') /\
    @run_events K idle [SERVER_DISABLE_SEAT; SERVER_ENABLE_SEAT] 0
      (Some (Seatd (set_pending_events [] b'))) w' = Done (2, h, w'') /\
    notes (trace w'') = [true; false].
Proof.
  intros K.
  destruct (@events_reversed K (demo_ok _) idle [SERVER_ENABLE_SEAT; SERVER_DISABLE_SEAT] b_events (Sys [] 0))
    as (b' & w' & E1 & E2); [done|exact b_events_receives| |cbn; lia|].
  { apply Forall_cons_2; [by right|]. apply Forall_cons_2; [by left|constructor]. }
  assert (Hrun : exists b1 w1 h w2, @read_and_queue K false (Some (Seatd b_events)) (Sys [] 0) =
      Done ((2, 0), Some (Seatd b1), w1) /\
    @execute_events K idle (Some (Seatd b1)) w1 = Done (2, h, w2) /\ notes (trace w2) = [true; false])
    by (eexists _, _, _, _; split_and!; vm_compute; reflexivity).
  destruct Hrun as (b1 & w1 & h & w2 & F1 & F2 & F3). rewrite E1 in F1. injection F1 as -> ->.
  exists b1, w1, h, w2. rewrite <- F2, E2. split_and!; [exact E1|done|exact F3].
Defined.

(** ** The end of the stream *)

Section Eof.
Context `{KOk : KernelOk}.








End Eof.





(** ** Long paths *)

Section LongPath.
Context `{KOk : KernelOk}.

(** The header of a message that is never whole: it is looked at and put back. *)
Lemma incomplete_message_eq fuel c k p s w :
  reads c k p [] s -> 4 <= zlen p -> zlen p < 4 + size (header_of p) ->
  client_messages fuel c s w = Done (true, s, w).
Proof.
  intros (Hk & Wc & Hc) Hl Hs. rewrite app_nil_r in Hc.
  assert (Hr : reads c k (take 4 p) (drop 4 p) s) by (split_and!; [done..|by rewrite take_drop]).
  assert (Hl4 : zlen (take 4 p) = 4) by (unfold zlen in *; rewrite length_take; lia).
  assert (Eh : header_of (take 4 p) = header_of p) by (by rewrite <- (take_drop 4 p) at 2; rewrite header_of_app).
  set (s1 := put_client c (consumed 4 k) s).
  assert (Hk1 : sv_clients s1 !! c = Some (consumed 4 k)) by (unfold s1, put_client; cbn; by rewrite lookup_insert_eq).
  assert (Hb : connection_pending (c_connection (consumed 4 k)) = zlen p - 4).
  { unfold connection_pending. cbn. rewrite size_consume; rewrite <- ?zlen_contents, ?Hc by apply Wc; [done|apply Wc|lia]. }
  destruct fuel; cbn [client_messages];
    (erewrite bind_done; [|exact (on_conn_get c k _ _ s w _ Hr Hl4)]); cbn beta iota zeta; fold s1;
    (erewrite bind_done; [|by apply get_client_eq]); rewrite Hb, Eh, (proj2 (Z.ltb_lt _ _)) by lia;
    apply wp_exact; wp_step; (eapply wp_on_conn; [done|]); unfold connection_restore; wp_steps;
    (split_and!; [done| |done]); unfold s1; rewrite put_client_twice; unfold consumed;
    cbn [c_connection set_c_connection]; unfold sizeof_header; rewrite restored_conn by done;
    (replace (set_c_connection _ _) with k by by destruct k); by apply put_client_same.
Qed.

(** Fewer bytes than a header. *)
Lemma no_header_eq fuel c k p s w :
  reads c k p [] s -> zlen p < 4 -> client_messages fuel c s w = Done (true, s, Sys (trace w) EAGAIN).
Proof.
  intros (Hk & Wc & Hc) Hl. rewrite app_nil_r in Hc.
  assert (E : on_conn c (connection_get sizeof_header) s w = Done (None, s, Sys (trace w) EAGAIN)).
  { apply wp_exact. eapply wp_on_conn; [done|]. unfold wp. rewrite connection_get_eq by done.
    rewrite <- zlen_contents, Hc by apply Wc. unfold sizeof_header. rewrite (proj2 (Z.ltb_lt _ _)) by done.
    split_and!; [done| |done]. replace (set_c_connection _ _) with k by by destruct k. by apply put_client_same. }
  destruct fuel; cbn [client_messages]; by erewrite bind_done; [|exact E].
Qed.

(** A full buffer cannot be read into. *)
Lemma full_buffer_eq c k s w :
  sv_clients s !! c = Some k -> connection_buffer_size (conn_in (c_connection k)) = 256 ->
  client_events c EVENT_READABLE s w = Done (false, s, Sys (trace w) EOVERFLOW).
Proof.
  intros Hk Hs. unfold client_events. change (has_event EVENT_READABLE EVENT_ERROR) with false.
  change (has_event EVENT_READABLE EVENT_HANGUP) with false. change (has_event EVENT_READABLE EVENT_WRITABLE) with false.
  change (has_event EVENT_READABLE EVENT_READABLE) with true. cbn iota. apply wp_exact. do 3 wp_step. cbn [negb]. wp_step.
  eapply wp_on_conn; [done|]. unfold connection_read. do 2 wp_step. rewrite Hs.
  change (CONNECTION_BUFFER_SIZE <=? 256) with true. do 3 wp_step. cbn [errno].
  change ((-1 =? -1) && negb (EOVERFLOW =? EAGAIN)) with true. wp_steps. split_and!; [done| |done].
  replace (set_c_connection _ _) with k by by destruct k. by apply put_client_same.
Qed.

End LongPath.

(** C40: a path that the library accepts but the daemon cannot read.  The library
    takes paths of up to 255 characters; from 250 characters on the message is
    longer than the buffer of a connection.  As long as the daemon has a part of
    the message it waits for the rest, and when its buffer is full it cannot read
    any more and drops the client. *)
Theorem long_path_drops_client `{KOk : KernelOk} (path p : bytes) (b : backend_seatd) (c : nat) (k : client)
    (s : server) (w : sys) (fuel : nat) :
  250 <= zlen path <= 255 -> bs_error b = false ->
  p `prefix_of` request_bytes (OpenDevice path) -> reads c k p [] s ->
  request_error b (OpenDevice path) = None /\
  (exists e, client_messages fuel c s w = Done (true, s, Sys (trace w) e)) /\
  zlen p <= 256 /\
  (zlen p = 256 -> client_events c EVENT_READABLE s w = Done (false, s, Sys (trace w) EOVERFLOW)).
Proof.
  intros Hl He Hp Hr. pose proof Hr as (Hk & Wc & Hc). rewrite app_nil_r in Hc.
  assert (Hz : zlen p = connection_buffer_size (conn_in (c_connection k))) by (rewrite <- zlen_contents by apply Wc; by rewrite Hc).
  pose proof (wf_size _ (wf_in _ Wc)) as Hs. unfold CONNECTION_BUFFER_SIZE in Hs. split_and!.
  - unfold request_error, MAX_PATH_LEN. rewrite He, (proj2 (Z.ltb_ge 256 (zlen path + 1))) by lia. done.
  - destruct (Z.lt_ge_cases (zlen p) 4) as [Hlt|Hge]; [eexists; by eapply no_header_eq|].
    exists (errno w). replace (Sys (trace w) (errno w)) with w by by destruct w. apply (incomplete_message_eq fuel c k p s w Hr Hge).
    destruct Hp as [rest Hp]. assert (Eh : header_of p = Header CLIENT_OPEN_DEVICE (3 + zlen path)).
    { assert (E : take 4 p = header_bytes (Header CLIENT_OPEN_DEVICE (3 + zlen path))).
      { apply (f_equal (take 4)) in Hp. rewrite (take_app_le p) in Hp by (unfold zlen in *; lia). rewrite <- Hp. cbn [request_bytes].
        by rewrite take_app_length' by by rewrite length_header_bytes. }
      rewrite <- (take_drop 4 p), E. apply header_of_bytes; [by vm_compute|cbn [size]; lia]. }
    rewrite Eh. cbn [size]. lia.
  - lia.
  - intros Hfull. apply (full_buffer_eq c k); [done|lia].
Qed.

Definition long_path : bytes := replicate 250 97.
Definition long_part : bytes := take 256 (request_bytes (OpenDevice long_path)).
Definition stuck_client : client :=
  Client true None (set_in (buffer_write empty_buffer long_part) (new_connection 4)) 1 2 3 None (-1) CLIENT_NEW [].
Definition stuck_server : server := put_client 0 stuck_client zero_server.

Lemma stuck_reads : reads 0 stuck_client long_part [] stuck_server.
Proof.
  assert (Hb : Forall is_byte (request_bytes (OpenDevice long_path))).
  { apply Forall_app. split; [apply header_bytes_byte|]. apply Forall_app. split; [apply le_bytes_byte|].
    apply Forall_app. split; [by apply Forall_replicate|by apply Forall_singleton]. }
  split_and!; [done| |by vm_compute]. apply set_in_wf; [apply new_connection_wf|].
  apply write_wf; [apply empty_buffer_wf|by apply Forall_take|by vm_compute].
Qed.

Lemma long_path_drops_client_witness :
  request_error (new_backend 3) (OpenDevice long_path) = None /\
  @client_events (demo (says [])) 0 EVENT_READABLE stuck_server (Sys [] 0) = Done (false, stuck_server, Sys [] EOVERFLOW).
Proof.
  destruct (@long_path_drops_client (demo (says [])) (demo_ok _) long_path long_part (new_backend 3) 0 stuck_client
    stuck_server (Sys [] 0) max_messages) as (Ha & _ & _ & Hfull);
    [by vm_compute|done|apply prefix_take|exact stuck_reads|].
  split; [exact Ha|exact (Hfull eq_refl)].
Defined.
