(* ===== verification/LogindTheorems.v ===== *)
(** * Theorems about a seat of logind

    From [logind_open_seat] on, through any calls of the library: what the
    application is told, what logind is told, and what the library holds. *)
From S2P Require Import Prelude Kernel Waiting Connection Protocol Backend LibseatSeatd LibseatNoop.
From S2P Require Import LibseatLogind Libseat LibseatOk LibseatOpen LibseatLogindOk LibseatSeat Demo.

(** ** The application *)

(** The seat is as it was, and so are the books. *)
Definition undisturbed (b : backend_logind) (w : sys) (h : handle) (w' : sys) : Prop :=
  h = Some (Logind b) /\ without_pauses w w' /\ bus_refs (trace w') = bus_refs (trace w) /\
  msg_refs (trace w') = msg_refs (trace w) /\ notes (trace w') = notes (trace w).

(** A listener that uses the seat, but does not dispatch from its functions. *)
Class ListenerQuiet `{K : Kernel} `{L : Listener} := {
  quiet_enable : forall b w, logind_wf b ->
    wlp False listener_enable_seat (fun _ => undisturbed b w) (Some (Logind b)) w;
  quiet_disable : forall b w, logind_wf b ->
    wlp False listener_disable_seat (fun _ => undisturbed b w) (Some (Logind b)) w
}.

(** ** The invariant *)

(** Each note is news. *)
Fixpoint alternating (l : list bool) : Prop :=
  match l with
  | x :: (y :: _) as l' => x <> y /\ alternating l'
  | _ => True
  end.

(** What the application was told is the state of the object. *)
Definition informed (told : list bool) (b : backend_logind) : Prop :=
  lg_initial_setup b = true /\ told = [] \/
  lg_initial_setup b = false /\ alternating told /\ exists l, told = active b :: l.

(** The session is controlled, with [told] told to the application. *)
Record session_at (w0 : sys) (told : list bool) (n : Z) (b : backend_logind) (w : sys) : Prop := {
  sa_wf : logind_wf b;
  sa_control : in_control w0 b w;
  sa_books : booked w0 told n b w
}.

Definition session_inv (w0 : sys) (n : Z) (b : backend_logind) (w : sys) : Prop :=
  exists told, session_at w0 told n b w /\ informed told b.

(** While messages are processed. *)
Definition processing (w0 : sys) (n : Z) (b : backend_logind) (w : sys) : Prop :=
  lg_initial_setup b = false /\ session_inv w0 n b w.

Lemma without_pauses_le w w' : without_pauses w w' -> sys_le w w'.
Proof. intros (t & Et & _). by exists t. Qed.

Lemma session_at_log w0 told told' n n' b w c r :
  session_at w0 told n b w -> booked w0 told' n' b (logged w c r) -> session_at w0 told' n' b (logged w c r).
Proof.
  intros [W C B] B'. split; [done| |done]. eapply in_control_le; [done..|apply sys_le_logged].
Qed.

#[export] Instance session_at_bears w0 told : Bears (session_at w0 told).
Proof.
  split.
  - intros n b w c r Hc Hs. apply (session_at_log _ told _ n); [done|by apply bears_call, Hs].
  - intros n b w e [W C B]. by split; [| |apply bears_errno].
  - intros n b w path interface member args r Hm Hs. apply (session_at_log _ told _ n); [done|by apply bears_method, Hs].
  - intros n b w r Hs. apply (session_at_log _ told _ (n + 1)); [done|by apply bears_unref, Hs].
Qed.

Lemma bears_exists {X} (P : X -> predicate) : (forall x, Bears (P x)) -> Bears (fun n b w => exists x, P x n b w).
Proof.
  intros HP. split; [intros n b w c r Hc [x Hx]|intros n b w e [x Hx]|intros n b w path interface member args r Hm [x Hx]
    |intros n b w r [x Hx]]; exists x; [by apply bears_call|by apply bears_errno|by apply bears_method|by apply bears_unref].
Qed.

(** A predicate of the object alone. *)
Lemma bears_pure (Q : backend_logind -> Prop) : Bears (fun _ b _ => Q b).
Proof. by split. Qed.

#[export] Instance session_inv_bears w0 : Bears (session_inv w0).
Proof. apply bears_exists. intros told. apply bears_and; [apply _|apply bears_pure]. Qed.

#[export] Instance processing_bears w0 : Bears (processing w0).
Proof. apply bears_and; [apply (bears_pure (fun b => lg_initial_setup b = false))|apply _]. Qed.

(** ** Telling the application *)

Section Session.
Context `{K : Kernel} `{L : Listener} {LQ : ListenerQuiet}.
Variable w0 : sys.

(** A listener that leaves the seat alone leaves the session as it was. *)
Lemma session_at_undisturbed told n b w h w' :
  session_at w0 told n b w -> undisturbed b w h w' -> h = Some (Logind b) /\ session_at w0 told n b w'.
Proof.
  intros [W C [L1 B1 M1 N1 A1]] (-> & Hp & E1 & E2 & E3). pose proof (without_pauses_le _ _ Hp) as Hle.
  split; [done|]. split; [done|by eapply in_control_le|].
  split; rewrite ?E1, ?E2, ?E3; [by etrans|done..|by eapply acknowledged_app].
Qed.

Lemma notify_session_at value told n b w :
  session_at w0 told n b w ->
  wlp False (notify value) (fun _ h w' => h = Some (Logind b) /\ session_at w0 (value :: told) n b w') (Some (Logind b)) w.
Proof.
  intros Hs. unfold notify. apply wlp_bind, wlp_ext. intros r _.
  assert (Hs1 : session_at w0 (value :: told) n b (logged w (Notify value) r)).
  { apply (session_at_log _ told _ n); [done|]. destruct Hs as [W C [L1 B1 M1 N1 A1]].
    split; cbn [trace logged bus_refs msg_refs notes]; try done;
      [etrans; [exact L1|apply sys_le_logged]|by rewrite N1|by apply acknowledged_logged]. }
  pose proof (sa_wf _ _ _ _ _ Hs1) as W.
  destruct value; (eapply wlp_mono; [by apply quiet_enable || by apply quiet_disable|]);
    intros [] h w' Hu; by apply (session_at_undisturbed _ _ _ _ _ _ Hs1).
Qed.

(** The flag of the object may change. *)
Lemma session_at_same told n b b' w :
  same_session b b' -> session_at w0 told n b w -> session_at w0 told n b' w.
Proof.
  intros Hs [W C B]. pose proof Hs as (Hb & _ & _ & Hp & _).
  split; [by eapply same_session_wf|by eapply in_control_le|by eapply booked_same].
Qed.

(** After [set_active value] the application knows that its seat is [value]. *)
Lemma set_active_told value n b w :
  processing w0 n b w ->
  wlp False (set_active value) (logind_post (fun _ b' w' => processing w0 n b' w' /\ active b' = value)) (Some (Logind b)) w.
Proof.
  intros (Hi & told & Hs & Hn). unfold set_active. apply wlp_bind, wlp_get_logind.
  destruct (eqb (active b) value) eqn:E. { apply eqb_prop in E. exists b. split; [done|]. split; [|done]. split; [done|]. by exists told. }
  apply eqb_false_iff in E. apply wlp_bind. set (b1 := set_lg_active value b).
  change (wlp False (upd_logind (set_lg_active value)) ?Q (Some (Logind b)) w) with (Q () (Some (Logind b1)) w). cbn beta.
  assert (Hs1 : session_at w0 told n b1 w) by (eapply session_at_same; [|exact Hs]; by unfold same_session).
  eapply wlp_mono; [by apply notify_session_at|]. intros [] h w' [-> Hs2]. exists b1. split; [done|]. split; [|done].
  split; [done|]. exists (value :: told). split; [done|]. right. split; [done|].
  destruct Hn as [[? _]|(_ & Ha & l & ->)]; [congruence|]. split; [|by eexists]. split; [|done]. by apply not_eq_sym.
Qed.

(** The acknowledgement follows the news. *)
Lemma pause_acknowledged n b w path interface args r :
  processing w0 n b w -> active b = false ->
  processing w0 n b (logged w (Bus (sd_bus_call_method path interface (str "PauseDeviceComplete") args)) r).
Proof.
  intros (Hi & told & Hs & Hn) Ha. split; [done|]. exists told. split; [|done]. apply (session_at_log _ told _ n); [done|].
  destruct Hs as [W C [L1 B1 M1 N1 A1]].
  split; cbn [trace logged bus_refs msg_refs notes]; try done; [etrans; [exact L1|apply sys_le_logged]| |].
  - rewrite bool_decide_true, orb_true_r by done. lia.
  - intros t1 c q t2 E Hc. destruct t1 as [|x t1]; cbn in E.
    + injection E as <- <- Et. rewrite <- Et, N1. destruct Hn as [[? _]|(_ & _ & l & ->)]; [congruence|]. rewrite Ha. by eexists.
    + injection E as _ Et. by eapply A1.
Qed.

#[export] Instance processing_processes : Processes (processing w0).
Proof.
  split; [apply _| |].
  - intros value n b w Hp. eapply wlp_mono; [by apply set_active_told|]. intros [] h w' (b' & -> & Hp' & _). by exists b'.
  - intros major minor n b w Hp. unfold pause_device. apply wlp_bind.
    eapply wlp_mono; [by apply set_active_told|]. intros [] h w1 (b1 & -> & Hp1 & Ha).
    apply wlp_bind, wlp_get_logind, wlp_bind, wlp_ext. intros r _. exists b1. split; [done|]. by apply pause_acknowledged.
Qed.

(** Every call of the library keeps the session. *)
Lemma session_dispatch patience timeout b w :
  session_inv w0 0 b w ->
  wlp False (dispatch_and_execute patience timeout) (logind_post (fun _ => session_inv w0 0)) (Some (Logind b)) w.
Proof.
  intros Hs. eapply wlp_mono; [apply (dispatch_and_execute_ok (processing w0) patience timeout 0 b w)|].
  - by intros Hi.
  - intros Hi. destruct Hs as (told & Hs & [[_ ->]|[? _]]); [|congruence].
    set (b1 := set_lg_initial_setup false b). assert (Hs1 : session_at w0 [] 0 b1 w)
      by (eapply session_at_same; [|exact Hs]; by unfold same_session).
    eapply wlp_mono; [by apply notify_session_at|]. intros [] h w' [-> Hs2]. exists b1. split; [done|]. split; [done|].
    exists [active b]. split; [done|]. right. split_and!; [done..|by eexists].
  - intros r h w' (b' & -> & _ & Hs'). by exists b'.
Qed.

Lemma session_api patience c b w :
  session_inv w0 0 b w -> wlp False (api patience c) (logind_post (fun _ => session_inv w0 0)) (Some (Logind b)) w.
Proof.
  intros Hs. destruct c as [[path|id|n|]|timeout| |].
  - assert (Hk : kept (session_inv w0) ('(r, _) ← logind_open_device path; mret r)).
    { apply kept_bind; [apply kept_open_device, _|]. intros [r o]. apply kept_ret. }
    by apply Hk.
  - by apply (kept_close_device (session_inv w0) id).
  - by apply (kept_switch_session (session_inv w0) n).
  - by exists b.
  - by apply session_dispatch.
  - by apply (kept_get_fd (session_inv w0)).
  - by exists b.
Qed.

End Session.

(** ** The session *)

(** What an application reaches by opening a seat of logind in [w0] and calling the
    library. *)
Inductive logind_session `{K : Kernel} `{L : Listener} (w0 : sys) : handle -> sys -> Prop :=
  | session_opened (xdg_session_id xdg_session_type : option bytes) h w :
      logind_open_seat xdg_session_id xdg_session_type None w0 = Done (true, h, w) -> logind_session w0 h w
  | session_called (patience : nat) (c : api_call) (r : Z) h w h' w' :
      logind_session w0 h w -> api patience c h w = Done (r, h', w') -> logind_session w0 h' w'.

Lemma logind_session_inv `{K : Kernel} `{L : Listener} {LQ : ListenerQuiet} w0 h w :
  logind_session w0 h w -> exists b, h = Some (Logind b) /\ session_inv w0 0 b w.
Proof.
  induction 1 as [xid xtype h w E|patience c r h w h' w' _ (b & -> & Hs) E].
  - pose proof (logind_open_seat_ok xid xtype w0) as Hc. unfold wp in Hc. rewrite E in Hc.
    destruct Hc as (b & -> & W & Hi & C & B). exists b. split; [done|]. exists []. split; [by split|by left].
  - pose proof (session_api w0 patience c b w Hs) as Hc. unfold wlp in Hc. rewrite E in Hc. exact Hc.
Qed.

(** C16: the application knows the state of its seat.  In every state that a session
    of logind reaches, whatever logind sends, the seat is still the open session
    whose control was taken; the application has been told each change of its seat
    once, and the last it was told is what the library holds; and no pause was ever
    acknowledged to logind before the application was told that its seat is disabled. *)
Theorem logind_session_informed `{K : Kernel} `{L : Listener} {LQ : ListenerQuiet} (w0 w : sys) (h : handle) :
  logind_session w0 h w ->
  exists b told, h = Some (Logind b) /\ logind_wf b /\ in_control w0 b w /\
    notes (trace w) = told ++ notes (trace w0) /\ informed told b /\ acknowledged w0 w.
Proof.
  intros Hs. destruct (logind_session_inv w0 h w Hs) as (b & -> & told & [W C [L1 B1 M1 N1 A1]] & Hn).
  exists b, told. by split_and!.
Qed.

(** C17: a session of logind gives back what it takes.  Opening returns: with control
    of the session and one reference to the bus, or with nothing held.  Every state
    of the session holds that one reference and no message, and closing it returns
    0, after it gave up control and with nothing held. *)
Theorem logind_session_balanced `{K : Kernel} `{L : Listener} {LQ : ListenerQuiet} (w0 : sys) :
  (forall xdg_session_id xdg_session_type, exists ok h w,
     logind_open_seat xdg_session_id xdg_session_type None w0 = Done (ok, h, w) /\
     if ok : bool then exists b, h = Some (Logind b) /\ fresh_session w0 b w else h = None /\ settled_books w0 [] w) /\
  (forall h w, logind_session w0 h w ->
     bus_refs (trace w) = bus_refs (trace w0) + 1 /\ msg_refs (trace w) = msg_refs (trace w0) /\
     forall patience, exists b w', h = Some (Logind b) /\ libseat_close_seat patience h w = Done (0, None, w') /\ releases b w w' /\
       bus_refs (trace w') = bus_refs (trace w0) /\ msg_refs (trace w') = msg_refs (trace w0) /\
       notes (trace w') = notes (trace w)).
Proof.
  split.
  - intros xid xtype. destruct (wp_done _ _ _ _ (logind_open_seat_ok xid xtype w0)) as (ok & h & w & E & Hp). by exists ok, h, w.
  - intros h w Hs. destruct (logind_session_inv w0 h w Hs) as (b & -> & told & [W C B] & _).
    pose proof (bk_bus _ _ _ _ _ B) as B1. pose proof (bk_msg _ _ _ _ _ B) as M1. rewrite (lw_bus _ W) in B1. cbn in B1.
    split_and!; [lia..|]. intros patience.
    destruct (wp_done _ _ _ _ (logind_close_seat_ok w0 told b w B)) as (r & h & w' & E & -> & -> & (_ & B2 & M2 & N2) & Hr).
    exists b, w'. split_and!; [done..|]. by rewrite N2, (bk_notes _ _ _ _ _ B).
Qed.

(** ** Witnesses

    A logind that pauses a device of the session when it is first dispatched, and an
    application that answers by disabling its seat. *)

Definition obliging `{K : Kernel} : Listener := {|
  listener_enable_seat := mret ();
  listener_disable_seat := libseat_disable_seat 0;; mret ()
|}.

Lemma obliging_quiet `{K : Kernel} : @ListenerQuiet _ obliging.
Proof.
  split; intros b w W; (apply wlp_wp, wp_ret || (apply wlp_bind, wlp_wp, wp_ret; apply wlp_wp, wp_ret));
    (split_and!; [done| |done..]); by exists [].
Qed.

Definition processed_before (h : history) : bool :=
  existsb (fun x => match x.1 with Bus (sd_bus_processed _) => true | _ => false end) h.

Definition pausing_answer (h : history) (c : call) : reply :=
  match c with
  | Bus sd_bus_process => Reply 0 0 [if processed_before h then 0 else 1] [] []
  | Bus (sd_bus_processed _) => Reply (if processed_before h then 0 else 1) 0 [] [] []
  | Bus (sd_bus_message_read _) => Reply 1 0 [226; 0] (str "pause") []
  | Bus (sd_bus_get_property_trivial _ _ _) => Reply 0 0 [1] [] []
  | _ => Reply 0 0 [] [] []
  end.

Definition pausing : Kernel :=
  {| answer := pausing_answer; eintr_limit := 1; has_hidiocrevoke := true; libseat_build := false |}.

Lemma pausing_session :
  exists h w, @logind_session pausing (obliging (K := pausing)) (Sys [] 0) h w /\ notes (trace w) = [false; true] /\
    Exists (fun x => is_pause_complete x.1 = true) (trace w).
Proof.
  assert (H1 : exists h w, @logind_open_seat pausing None None None (Sys [] 0) = Done (true, h, w) /\
    exists r h' w', @api pausing (obliging (K := pausing)) 3 (ApiDispatch 0) h w = Done (r, h', w') /\ notes (trace w') = [false; true] /\
      existsb (fun x => is_pause_complete x.1) (trace w') = true).
  { eexists _, _. split; [vm_compute; reflexivity|]. eexists _, _, _. split; [vm_compute; reflexivity|]. split; vm_compute; reflexivity. }
  destruct H1 as (h & w & E & r & h' & w' & E' & En & Ee). exists h', w'. split_and!; [|done|].
  - eapply session_called; [|exact E']. eapply session_opened. exact E.
  - apply Exists_exists. apply existsb_exists in Ee as (x & Hx & Hp). exists x. split; [by apply list_elem_of_In|done].
Qed.

Lemma logind_session_informed_witness :
  exists h w b, @logind_session pausing (obliging (K := pausing)) (Sys [] 0) h w /\ h = Some (Logind b) /\ active b = false /\
    Exists (fun x => is_pause_complete x.1 = true) (trace w) /\ acknowledged (Sys [] 0) w.
Proof.
  destruct pausing_session as (h & w & Hs & Hn & He).
  destruct (@logind_session_informed pausing _ (obliging_quiet (K := pausing)) (Sys [] 0) w h Hs) as (b & told & -> & W & C & N & Hi & A).
  exists (Some (Logind b)), w, b. split_and!; [done..| |done|done]. rewrite Hn in N. cbn in N. rewrite app_nil_r in N. subst told.
  destruct Hi as [[_ ?]|(_ & _ & l & E)]; [discriminate|]. by injection E.
Defined.

Lemma logind_session_balanced_witness :
  exists h w w', @logind_session pausing (obliging (K := pausing)) (Sys [] 0) h w /\
    @libseat_close_seat pausing (obliging (K := pausing)) 3 h w = Done (0, None, w') /\ bus_refs (trace w) = 1 /\ bus_refs (trace w') = 0.
Proof.
  destruct pausing_session as (h & w & Hs & Hn & He).
  destruct (@logind_session_balanced pausing _ (obliging_quiet (K := pausing)) (Sys [] 0)) as [_ Hb].
  destruct (Hb h w Hs) as (B & M & Hc). destruct (Hc 3%nat) as (b & w' & _ & E & _ & B' & _).
  exists h, w, w'. by split_and!.
Defined.
