(* ===== verification/Launcher.v ===== *)
(** * seatd-launch

    The program of seatd-launch/seatd-launch.c: it starts seatd, waits until it is
    ready, gives the socket to the user, drops its privileges and runs the user's
    command; when that has ended, it stops seatd.

    fork(2) returns in two processes; a history in which it has returned 0 is that
    of the child, so [launch_main] covers the launcher and both children.  A child
    ends in execve(2), whose return is a failure. *)
From S2P Require Import Prelude Kernel Terminal State Server.

Definition ECHILD : Z := 10.

(** What getopt(3) returns; [Launch_unknown] is ['?']. *)
Inductive launch_opt :=
| Launch_l (optarg : bytes)
| Launch_v
| Launch_h
| Launch_unknown.

(** The option loop: [loglevel], a buffer of 16 bytes, or the status of an early return. *)
Fixpoint launch_options (args : list launch_opt) (loglevel : bytes) : bytes + Z :=
  match args with
  | [] => inl loglevel
  | Launch_l optarg :: args' => launch_options args' (take 15 optarg)
  | Launch_v :: _ => inr 0
  | Launch_h :: _ => inr 0
  | Launch_unknown :: _ => inr 1
  end.

(** Wait statuses. *)
Definition WIFEXITED (status : Z) : bool := Z.land status 127 =? 0.
Definition WEXITSTATUS (status : Z) : Z := Z.land (Z.shiftr status 8) 255.
Definition WTERMSIG (status : Z) : Z := Z.land status 127.
Definition WIFSIGNALED (status : Z) : bool := (0 <? WTERMSIG status) && (WTERMSIG status <? 127).

(** [pipebuf], a buffer of 16 bytes, and the arguments of seatd. *)
Definition pipebuf (fd : Z) : bytes := take 15 (numeral 10 fd).

Definition seatd_argv (fd : Z) (loglevel : bytes) : list bytes :=
  [str "seatd"; str "-n"; pipebuf fd; str "-l"; loglevel; str "-z"].

Section Launcher.
Context `{K : Kernel}.
Variables SEATD_INSTALLPATH SEATD_DEFAULTPATH : bytes.
Variable patience : nat.   (* turns of the loops that wait *)

(** The child that becomes seatd. *)
Definition exec_seatd (pipe0 pipe1 : Z) (loglevel : bytes) : M () Z :=
  ext (Close pipe0);;
  ext (Execve SEATD_INSTALLPATH (seatd_argv pipe1 loglevel) []);;
  mret 1.

(** Wait for seatd to be ready: whether it is, or [goto error_seatd]. *)
Fixpoint wait_ready (patience : nat) (seatd_child pipe0 : Z) : M () bool :=
  match patience with
  | O => hang
  | S patience' =>
      p ← ext (Waitpid seatd_child true);
      if r_ret p =? seatd_child then mret false else
      e ← get_errno;
      if (r_ret p =? -1) && (negb (e =? EINTR) && negb (e =? ECHILD)) then mret false else
      r ← ext (Poll [(pipe0, POLLIN)] 1000);
      if r_ret r =? -1 then
        e ← get_errno;
        if (e =? EAGAIN) || (e =? EINTR) then wait_ready patience' seatd_child pipe0 else mret false
      else
      if has_event (r_val 0 r) POLLIN then
        n ← ext (Read pipe0 1);
        e ← get_errno;
        if (r_ret n =? -1) && negb (e =? EINTR) then mret false else
        if 0 <? r_ret n then mret true else wait_ready patience' seatd_child pipe0
      else wait_ready patience' seatd_child pipe0
  end.

(** Give the socket to the user and drop privileges: whether all of it worked. *)
Definition drop_privileges : M () bool :=
  uid ← ext Getuid;
  gid ← ext Getgid;
  r ← ext (Chown SEATD_DEFAULTPATH (r_ret uid) (r_ret gid));
  if r_ret r =? -1 then mret false else
  r ← ext (Chmod SEATD_DEFAULTPATH 448);
  if r_ret r =? -1 then mret false else
  r ← ext (Setgid (r_ret gid));
  if r_ret r =? -1 then mret false else
  r ← ext (Setuid (r_ret uid));
  mret (negb (r_ret r =? -1)).

(** The child that becomes the command. *)
Definition exec_target (command : list bytes) : M () Z :=
  ext (Setenv (str "SEATD_SOCK") SEATD_DEFAULTPATH);;
  ext (Execvp (hd [] command) command);;
  mret 1.

(** Wait for the command to end: its status, or [goto error_seatd]. *)
Fixpoint wait_target (patience : nat) (child : Z) : M () (option Z) :=
  match patience with
  | O => hang
  | S patience' =>
      p ← ext (Waitpid child false);
      if r_ret p =? child then mret (Some (r_val 0 p)) else
      e ← get_errno;
      if (r_ret p =? -1) && negb (e =? EINTR) then mret None else wait_target patience' child
  end.

(** The label [error_seatd]. *)
Definition error_seatd (seatd_child : Z) : M () Z :=
  ext (Kill seatd_child SIGTERM);; mret 1.

(** The end of [main]. *)
Definition exit_status (status : Z) : M () Z :=
  if WIFEXITED status then mret (WEXITSTATUS status) else
  if WIFSIGNALED status then mret (128 + WTERMSIG status) else
  abort.

(** [main] from the second fork on. *)
Definition launch_target (seatd_child : Z) (command : list bytes) : M () Z :=
  child ← ext Fork;
  if r_ret child =? -1 then error_seatd seatd_child else
  if r_ret child =? 0 then exec_target command else
  status ← wait_target patience (r_ret child);
  match status with
  | None => error_seatd seatd_child
  | Some status =>
      ext (Kill seatd_child SIGTERM);;
      exit_status status
  end.

(** [main]; [command] is what getopt leaves of the arguments. *)
Definition launch_main (args : list launch_opt) (command : list bytes) : M () Z :=
  match launch_options args (str "info") with
  | inr ret => mret ret
  | inl loglevel =>
      if bool_decide (command = []) then mret 1 else
      pipe ← ext Pipe;
      if r_ret pipe =? -1 then mret 1 else
      let pipe0 := r_val 0 pipe in
      let pipe1 := r_val 1 pipe in
      seatd_child ← ext Fork;
      if r_ret seatd_child =? -1 then mret 1 else
      if r_ret seatd_child =? 0 then exec_seatd pipe0 pipe1 loglevel else
      ext (Close pipe1);;
      ready ← wait_ready patience (r_ret seatd_child) pipe0;
      if negb ready then error_seatd (r_ret seatd_child) else
      ext (Close pipe0);;
      ok ← drop_privileges;
      if negb ok then error_seatd (r_ret seatd_child) else
      launch_target (r_ret seatd_child) command
  end.

End Launcher.
