(* ===== verification/LauncherOk.v ===== *)
(** * What seatd-launch does

    Its calls, in their order. *)
From S2P Require Import Prelude Kernel Waiting Terminal State Server Launcher.

(** Symbolic execution of code that may wait. *)
Ltac wlp_step :=
  lazymatch goal with
  | |- wlp _ (_ ≫= _) _ _ _ => apply wlp_bind
  | |- wlp _ (mret _) _ _ _ => apply wlp_ret
  | |- wlp _ get_errno _ _ _ => apply wlp_get_errno
  | |- wlp _ (ext _) _ _ _ => apply wlp_ext; let r := fresh "r" in let Hr := fresh "Hr" in intros r Hr
  | |- wlp _ (if ?b then _ else _) _ _ _ => destruct b eqn:?
  end; cbn beta.
Ltac wlp_steps := repeat wlp_step.

(** All calls of a history are of a kind. *)
Definition all_calls (P : call -> Prop) (h : history) : Prop := Forall (fun x => P x.1) h.

Ltac each_call := repeat (apply Forall_cons_2; [done|]); apply Forall_nil_2.

(** The calls of [wait_ready]. *)
Definition waits (pid fd : Z) (c : call) : Prop :=
  c = Waitpid pid true \/ c = Poll [(fd, POLLIN)] 1000 \/ c = Read fd 1.

Section Launch.
Context `{K : Kernel} (A : Prop).
Implicit Types (s : ()) (w : sys) (h : history).

Lemma wait_ready_ok n pid fd s w :
  wlp A (wait_ready n pid fd) (fun ok _ w' => exists h, trace w' = h ++ trace w /\ all_calls (waits pid fd) h /\
    (ok = true -> exists r h', h = (Read fd 1, r) :: h' /\ 0 < r_ret r)) s w.
Proof.
  revert s w. induction n as [|n IH]; intros s w; cbn [wait_ready]; [done|].
  assert (Hnext : forall t w1, trace w1 = t ++ trace w -> all_calls (waits pid fd) t ->
    wlp A (wait_ready n pid fd) (fun ok _ w' => exists h, trace w' = h ++ trace w /\
      all_calls (waits pid fd) h /\
      (ok = true -> exists r h', h = (Read fd 1, r) :: h' /\ 0 < r_ret r)) s w1).
  { intros t w1 E Ht. eapply wlp_mono; [apply IH|]. intros ok s' w' (h & E' & Hh & Hok). exists (h ++ t).
    rewrite E', E, app_assoc. split_and!; [done|by apply Forall_app|]. intros Hk. destruct (Hok Hk) as (r & h' & -> & ?).
    by exists r, (h' ++ t). }
  assert (W1 : forall r, all_calls (waits pid fd) [(Waitpid pid true, r)]).
  { intros r. apply Forall_singleton. left. reflexivity. }
  assert (W2 : forall r1 r2, all_calls (waits pid fd)
    [(Poll [(fd, POLLIN)] 1000, r2); (Waitpid pid true, r1)]).
  { intros r1 r2. apply Forall_cons_2; [by right; left; reflexivity|apply W1]. }
  assert (W3 : forall r1 r2 r3, all_calls (waits pid fd)
    [(Read fd 1, r3); (Poll [(fd, POLLIN)] 1000, r2); (Waitpid pid true, r1)]).
  { intros r1 r2 r3. apply Forall_cons_2; [by right; right; reflexivity|apply W2]. }
  wlp_steps.
  - by eexists [_].
  - by eexists [_].
  - by eapply (Hnext [_; _]).
  - by eexists [_; _].
  - by eexists [_; _; _].
  - eexists [_; _; _]. split_and!; [reflexivity|done|]. intros _. eexists _, _. split; [reflexivity|]. lia.
  - by eapply (Hnext [_; _; _]).
  - by eapply (Hnext [_; _]).
Qed.

Lemma wait_target_ok n child s w :
  wlp A (wait_target n child) (fun o _ w' => exists r h, trace w' = (Waitpid child false, r) :: h ++ trace w /\
    r = answer (h ++ trace w) (Waitpid child false) /\ all_calls (eq (Waitpid child false)) h /\
    match o with Some status => r_ret r = child /\ r_val 0 r = status | None => r_ret r = -1 end) s w.
Proof.
  revert s w. induction n as [|n IH]; intros s w; cbn [wait_target]; [done|]. wlp_steps.
  - exists r, []. split_and!; [done|done|constructor|lia|done].
  - exists r, []. split_and!; [done|done|constructor|lia].
  - eapply wlp_mono; [apply IH|]. intros o s' w' (r' & h & E & Er & Hh & Ho).
    exists r', (h ++ [(Waitpid child false, r)]). rewrite E, <- app_assoc. split_and!; [done|by rewrite Er| |done]. apply Forall_app. split; [done|by apply Forall_singleton].
Qed.

(** ** The privileges *)

Section Paths.
Variables SEATD_INSTALLPATH SEATD_DEFAULTPATH : bytes.

(** Calls that run no other program and stop none. *)
Definition tame (c : call) : Prop :=
  match c with Execve _ _ _ | Execvp _ _ | Kill _ _ => False | _ => True end.

Lemma tame_in c r h : all_calls tame h -> (c, r) ∈ h -> tame c.
Proof. intros Ht Hin. exact (proj1 (Forall_forall _ _) Ht _ Hin). Qed.

(** The last calls, latest first: seatd has reported that it is ready, and the
    launcher has given the socket to its real user and group and become them. *)
Definition unprivileged (fd : Z) (h : history) : Prop :=
  exists u g r1 r2 r3 r4 rc rr h0,
    h = [(Setuid (r_ret u), r4); (Setgid (r_ret g), r3); (Chmod SEATD_DEFAULTPATH 448, r2);
         (Chown SEATD_DEFAULTPATH (r_ret u) (r_ret g), r1); (Getgid, g); (Getuid, u);
         (Close fd, rc); (Read fd 1, rr)] ++ h0 /\
    r_ret r1 <> -1 /\ r_ret r2 <> -1 /\ r_ret r3 <> -1 /\ r_ret r4 <> -1 /\ 0 < r_ret rr.

Lemma drop_privileges_ok s w :
  wlp A (drop_privileges SEATD_DEFAULTPATH) (fun ok _ w' => exists h, trace w' = h ++ trace w /\ all_calls tame h /\
    (ok = true -> exists u g r1 r2 r3 r4,
      h = [(Setuid (r_ret u), r4); (Setgid (r_ret g), r3); (Chmod SEATD_DEFAULTPATH 448, r2);
           (Chown SEATD_DEFAULTPATH (r_ret u) (r_ret g), r1); (Getgid, g); (Getuid, u)] /\
      r_ret r1 <> -1 /\ r_ret r2 <> -1 /\ r_ret r3 <> -1 /\ r_ret r4 <> -1)) s w.
Proof.
  unfold drop_privileges. wlp_steps.
  - eexists [_; _; _]. split_and!; [reflexivity| |done]. each_call.
  - eexists [_; _; _; _]. split_and!; [reflexivity| |done]. each_call.
  - eexists [_; _; _; _; _]. split_and!; [reflexivity| |done]. each_call.
  - eexists [_; _; _; _; _; _]. split_and!; [reflexivity|each_call|].
    intros Hok. do 6 eexists. split; [reflexivity|]. split_and!; lia.
Qed.

(** ** The end of each process *)

(** The launcher has started seatd as process [pid]; [fd] is its end of the pipe. *)
Definition seatd_started (pid fd : Z) (h : history) : Prop :=
  exists h0 f p, h = h0 ++ [(Fork, f); (Pipe, p)] /\ r_ret f = pid /\ pid <> -1 /\ pid <> 0 /\ r_val 0 p = fd.

Inductive launch_end (command : list bytes) : Z -> history -> Prop :=
| end_early ret h :
    (forall c r, (c, r) ∈ h -> c = Pipe \/ c = Fork /\ r_ret r = -1) -> launch_end command ret h
| end_seatd loglevel p f rc rx :
    r_ret f = 0 ->
    launch_end command 1
      [(Execve SEATD_INSTALLPATH (seatd_argv (r_val 1 p) loglevel) [], rx); (Close (r_val 0 p), rc); (Fork, f); (Pipe, p)]
| end_error pid fd h rk :
    seatd_started pid fd h -> all_calls tame h -> launch_end command 1 ((Kill pid SIGTERM, rk) :: h)
| end_target pid fd h f rs rx :
    seatd_started pid fd h -> all_calls tame h -> unprivileged fd h -> r_ret f = 0 ->
    launch_end command 1
      ((Execvp (hd [] command) command, rx) :: (Setenv (str "SEATD_SOCK") SEATD_DEFAULTPATH, rs) :: (Fork, f) :: h)
| end_launcher pid fd h f child hw r rk ret :
    seatd_started pid fd h -> all_calls tame h -> unprivileged fd h ->
    r_ret f = child -> child <> -1 -> child <> 0 ->
    all_calls (eq (Waitpid child false)) hw -> r_ret r = child ->
    (WIFEXITED (r_val 0 r) = true /\ ret = WEXITSTATUS (r_val 0 r) \/
     WIFSIGNALED (r_val 0 r) = true /\ ret = 128 + WTERMSIG (r_val 0 r)) ->
    launch_end command ret ((Kill pid SIGTERM, rk) :: (Waitpid child false, r) :: hw ++ (Fork, f) :: h).

Definition ends (command : list bytes) (w : sys) (ret : Z) (_ : ()) (w' : sys) : Prop :=
  exists h, trace w' = h ++ trace w /\ launch_end command ret h.

(** The status reported for the command is neither an exit nor a signal. *)
Hypothesis HA : forall h child, r_ret (answer h (Waitpid child false)) = child ->
  WIFEXITED (r_val 0 (answer h (Waitpid child false))) = false ->
  WIFSIGNALED (r_val 0 (answer h (Waitpid child false))) = false -> A.

Lemma error_seatd_ok command pid fd h w w1 s :
  trace w1 = h ++ trace w -> seatd_started pid fd h -> all_calls tame h ->
  wlp A (error_seatd pid) (ends command w) s w1.
Proof.
  intros E Hs Ht. unfold error_seatd. wlp_steps. eexists (_ :: h). cbn [trace logged]. rewrite E.
  split; [reflexivity|]. by eapply end_error.
Qed.

Lemma seatd_started_app pid fd t h : seatd_started pid fd h -> seatd_started pid fd (t ++ h).
Proof. intros (h0 & f & p & -> & ?). exists (t ++ h0), f, p. by rewrite app_assoc. Qed.

(** The beginning of a history is not changed by what follows. *)
Lemma seatd_started_same pid fd pid' fd' t h :
  seatd_started pid fd h -> seatd_started pid' fd' (t ++ h) -> pid' = pid.
Proof.
  intros (h0 & f & p & -> & <- & _) (h1 & f' & p' & E & <- & _). rewrite app_assoc in E.
  apply app_inj_2 in E as [_ E]; [|done]. by simplify_eq.
Qed.

Lemma launch_target_ok patience command pid fd h w w1 s :
  trace w1 = h ++ trace w -> seatd_started pid fd h -> all_calls tame h -> unprivileged fd h ->
  wlp A (launch_target SEATD_DEFAULTPATH patience pid command) (ends command w) s w1.
Proof.
  intros E Hs Ht Hu. unfold launch_target. wlp_step. wlp_step. wlp_step.
  { eapply (error_seatd_ok _ _ fd (_ :: h)); [cbn [trace logged]; by rewrite E| |by apply Forall_cons_2].
    by apply (seatd_started_app _ _ [_]). }
  wlp_step.
  { unfold exec_target. wlp_steps. eexists (_ :: _ :: _ :: h). cbn [trace logged]. rewrite E. split; [reflexivity|].
    eapply end_target; [done..|lia]. }
  wlp_step. eapply wlp_mono; [apply wait_target_ok|].
  intros o s1 w2 (r2 & hw & E2 & Er & Hw & Ho). cbn [trace logged] in E2. rewrite E in E2.
  assert (Hw' : all_calls tame hw) by (eapply Forall_impl; [exact Hw|]; by intros ? <-).
  destruct o as [status|].
  - destruct Ho as [Ho <-]. wlp_step. wlp_step.
    assert (Hend : forall ret, (WIFEXITED (r_val 0 r2) = true /\ ret = WEXITSTATUS (r_val 0 r2) \/
        WIFSIGNALED (r_val 0 r2) = true /\ ret = 128 + WTERMSIG (r_val 0 r2)) ->
      ends command w ret () (logged w2 (Kill pid SIGTERM) r0)).
    { intros ret Hret. eexists (_ :: _ :: hw ++ (Fork, r) :: h). cbn [trace logged]. rewrite E2.
      split; [cbn; by rewrite <- app_assoc|]. eapply end_launcher; [done..|lia|lia|done|done|done]. }
    unfold exit_status. destruct s1. wlp_step; [wlp_step; apply Hend; auto|].
    wlp_step; [wlp_step; apply Hend; auto|]. eapply HA; rewrite <- Er; done.
  - eapply (error_seatd_ok _ _ fd (_ :: hw ++ _ :: h)); [rewrite E2; cbn; by rewrite <- app_assoc| |].
    + rewrite app_comm_cons. apply seatd_started_app. by apply (seatd_started_app _ _ [_]).
    + apply Forall_cons_2; [done|]. apply Forall_app. split; [done|]. by apply Forall_cons_2.
Qed.

Lemma launch_main_ok patience args command s w :
  wlp A (launch_main SEATD_INSTALLPATH SEATD_DEFAULTPATH patience args command) (ends command w) s w.
Proof.
  assert (He : forall h ret s w', trace w' = h ++ trace w -> (forall c r, (c, r) ∈ h -> c = Pipe \/ c = Fork /\ r_ret r = -1) ->
    ends command w ret s w') by (intros h ret s0 w' E Hh; exists h; split; [done|by apply end_early]).
  unfold launch_main. destruct (launch_options args _) as [loglevel|ret]; [|apply (He []); [done|set_solver]].
  wlp_step; [apply (He []); [done|set_solver]|]. wlp_step. wlp_step.
  wlp_step; [eapply (He [_]); [reflexivity|intros c r0 Hin%list_elem_of_singleton; naive_solver]|].
  cbn zeta. wlp_step. wlp_step. wlp_step.
  { eapply (He [_; _]); [reflexivity|]. intros c r1 [Hin|Hin%list_elem_of_singleton]%elem_of_cons; [|naive_solver].
    right. simplify_eq. split; [done|lia]. }
  wlp_step. { unfold exec_seatd. wlp_steps. eexists [_; _; _; _]. split; [reflexivity|]. apply end_seatd. lia. }
  wlp_step. wlp_step. wlp_step.
  set (h1 := [(Close (r_val 1 r), r1); (Fork, r0); (Pipe, r)]).
  assert (S1 : seatd_started (r_ret r0) (r_val 0 r) h1).
  { exists [(Close (r_val 1 r), r1)], r0, r. split_and!; [done|done|lia|lia|done]. }
  assert (T1 : all_calls tame h1) by each_call.
  eapply wlp_mono; [apply wait_ready_ok|]. intros ready s1 w1 (h2 & E2 & H2 & Hready).
  change (trace w1 = h2 ++ h1 ++ trace w) in E2. rewrite app_assoc in E2.
  assert (T2 : all_calls tame h2) by (eapply Forall_impl; [exact H2|]; by intros ? [-> | [-> | ->]]).
  assert (T3 : all_calls tame (h2 ++ h1)) by by apply Forall_app.
  pose proof (seatd_started_app _ _ h2 _ S1) as S2.
  destruct ready; cbn [negb]; [|by eapply error_seatd_ok]. destruct (Hready eq_refl) as (rr & h2' & -> & Hrr).
  wlp_step. wlp_step. wlp_step. eapply wlp_mono; [apply drop_privileges_ok|].
  intros ok s2 w2 (h3 & E3 & H3 & Hok). cbn [trace logged] in E3. rewrite E2 in E3.
  set (h4 := h3 ++ (Close (r_val 0 r), r2) :: ((Read (r_val 0 r) 1, rr) :: h2') ++ h1).
  assert (E4 : trace w2 = h4 ++ trace w) by (rewrite E3; unfold h4; cbn; by rewrite <- !app_assoc; cbn; rewrite <- app_assoc).
  assert (S4 : seatd_started (r_ret r0) (r_val 0 r) h4).
  { unfold h4. rewrite app_comm_cons, app_assoc. apply seatd_started_app, S1. }
  assert (T4 : all_calls tame h4) by (apply Forall_app; split; [done|]; by apply Forall_cons_2).
  destruct ok; cbn [negb]; [|by eapply error_seatd_ok]. eapply launch_target_ok; [done..|].
  destruct (Hok eq_refl) as (u & g & q1 & q2 & q3 & q4 & -> & ? & ? & ? & ?).
  exists u, g, q1, q2, q3, q4, r2, rr, (h2' ++ h1). by split_and!.
Qed.

End Paths.

End Launch.

(** ** The waiting ends *)

(** How often waitpid(2) was called for a process. *)
Fixpoint waited (pid : Z) (nohang : bool) (h : history) : nat :=
  match h with
  | [] => 0
  | (Waitpid p b, _) :: h' => (if (p =? pid) && eqb b nohang then 1 else 0) + waited pid nohang h'
  | _ :: h' => waited pid nohang h'
  end.

(** From the turn [N] on, seatd is found to have ended, or what it wrote can be
    read; and the command is found to have ended, or cannot be waited for. *)
Record heard `{K : Kernel} (N : nat) : Prop := {
  heard_seatd : forall pid fd h, (N <= waited pid true h)%nat ->
    r_ret (answer h (Waitpid pid true)) = pid \/
    forall t, let h' := t ++ h in
      r_ret (answer h' (Poll [(fd, POLLIN)] 1000)) <> -1 /\
      has_event (r_val 0 (answer h' (Poll [(fd, POLLIN)] 1000))) POLLIN = true /\
      0 < r_ret (answer h' (Read fd 1));
  heard_target : forall pid h, (N <= waited pid false h)%nat ->
    r_ret (answer h (Waitpid pid false)) = pid \/
    r_ret (answer h (Waitpid pid false)) = -1 /\ r_errno (answer h (Waitpid pid false)) <> EINTR
}.

Section Returns.
Context `{K : Kernel} (N : nat).
Hypothesis HN : heard N.
Implicit Types (s : ()) (w : sys).

Lemma waited_self pid b r h : waited pid b ((Waitpid pid b, r) :: h) = S (waited pid b h).
Proof. cbn. by rewrite Z.eqb_refl, eqb_reflx. Qed.

Lemma waited_app pid b t h : (waited pid b h <= waited pid b (t ++ h))%nat.
Proof. induction t as [|[c r] t IH]; [done|]. destruct c; cbn; lia. Qed.

Lemma returns_ext {A} c (f : reply -> M () A) s w :
  (forall r, r = answer (trace w) c -> returns (f r) s (logged w c r)) -> returns (ext c ≫= f) s w.
Proof. intros Hf. by apply Hf. Qed.

Lemma returns_errno {A} (f : Z -> M () A) s w : returns (f (errno w)) s w -> returns (get_errno ≫= f) s w.
Proof. done. Qed.

Lemma wait_ready_returns n pid fd s w :
  (0 < n)%nat -> (N < waited pid true (trace w) + n)%nat -> returns (wait_ready n pid fd) s w.
Proof.
  revert w. induction n as [|n IH]; intros w Hn Hw; [lia|]. cbn [wait_ready].
  apply returns_ext. intros p Hp. destruct (Z.eqb_spec (r_ret p) pid) as [|Hne]; [done|].
  apply returns_errno. case_match; [done|].
  assert (Hnext : forall w', (exists t, trace w' = t ++ trace (logged w (Waitpid pid true) p)) ->
    (waited pid true (trace w) < N)%nat -> returns (wait_ready n pid fd) s w').
  { intros w' [t E] Hlt. apply IH; [lia|]. rewrite E. pose proof (waited_app pid true t (trace (logged w (Waitpid pid true) p))) as Hle.
    cbn [trace logged] in Hle. rewrite waited_self in Hle. cbn [trace logged]. lia. }
  destruct (decide (waited pid true (trace w) < N)%nat) as [Hlt|Hge].
  - apply returns_ext. intros r Hr. case_match; [apply returns_errno; case_match; [|done]|];
      [apply Hnext; [by eexists [_]|done]|]. case_match; [|apply Hnext; [by eexists [_]|done]].
    apply returns_ext. intros r2 Hr2. apply returns_errno. case_match; [done|]. case_match; [done|].
    apply Hnext; [by eexists [_; _]|done].
  - destruct (heard_seatd _ HN pid fd (trace w)) as [Hx|Hx]; [lia|congruence|].
    apply returns_ext. intros r Hr. destruct (Hx [(Waitpid pid true, p)]) as (Hpoll & Hev & _).
    cbn [trace logged] in Hr. cbn [app] in Hpoll, Hev. rewrite <- Hr in Hpoll, Hev.
    rewrite (proj2 (Z.eqb_neq _ _) Hpoll), Hev. apply returns_ext. intros r2 Hr2.
    destruct (Hx [(Poll [(fd, POLLIN)] 1000, r); (Waitpid pid true, p)]) as (_ & _ & Hread).
    cbn [trace logged] in Hr2. cbn [app] in Hread. rewrite <- Hr2 in Hread. apply returns_errno.
    rewrite (proj2 (Z.eqb_neq (r_ret r2) (-1))) by lia. cbn [andb]. by rewrite (proj2 (Z.ltb_lt _ _) Hread).
Qed.

Lemma wait_target_returns n pid s w :
  (0 < n)%nat -> (N < waited pid false (trace w) + n)%nat -> returns (wait_target n pid) s w.
Proof.
  revert w. induction n as [|n IH]; intros w Hn Hw; [lia|]. cbn [wait_target].
  apply returns_ext. intros p Hp. destruct (Z.eqb_spec (r_ret p) pid) as [|Hne]; [done|].
  apply returns_errno. destruct (decide (waited pid false (trace w) < N)%nat) as [Hlt|Hge].
  - case_match; [done|]. apply IH; [lia|]. cbn [trace logged]. rewrite waited_self. lia.
  - destruct (heard_target _ HN pid (trace w)) as [Hx|[Hx He]]; [lia|congruence|]. rewrite <- Hp in Hx, He.
    cbn [errno logged]. rewrite Hx, Z.eqb_refl. by rewrite (proj2 (Z.eqb_neq _ _) He).
Qed.

Lemma launch_main_returns installpath defaultpath n args command s w :
  (N < n)%nat -> returns (launch_main installpath defaultpath n args command) s w.
Proof.
  intros Hn. unfold launch_main. destruct (launch_options _ _); [|done]. case_match; [done|].
  apply returns_ext. intros p _. case_match; [done|]. cbn zeta. apply returns_ext. intros f _.
  case_match; [done|]. case_match; [done|]. apply returns_ext. intros rc _.
  apply returns_bind; [apply wait_ready_returns; lia|]. intros ready s1 w1 _. destruct ready; cbn [negb]; [|done].
  apply returns_ext. intros rc2 _. apply returns_bind.
  { unfold drop_privileges. do 3 (apply returns_ext; intros ? _). case_match; [done|].
    apply returns_ext. intros ? _. case_match; [done|]. apply returns_ext. intros ? _. by case_match. }
  intros ok s2 w2 _. destruct ok; cbn [negb]; [|done]. unfold launch_target. apply returns_ext. intros c _.
  case_match; [done|]. case_match; [done|]. apply returns_bind; [apply wait_target_returns; lia|].
  intros o s3 w3 _. destruct o; [|done]. apply returns_ext. intros rk _. unfold exit_status. by repeat case_match.
Qed.

End Returns.
