(* ===== verification/LauncherTheorems.v ===== *)
(** * Theorems about seatd-launch

    The user's command runs with the user's privileges, after seatd is ready; seatd
    does not outlive it; and seatd understands the options it is given. *)
From S2P Require Import Prelude Kernel Waiting Terminal State Server Daemon StartOk DaemonOk Demo.
From S2P Require Import Launcher LauncherOk.

(** ** The processes *)

(** C19: the command runs unprivileged.  The target is executed only by a child
    whose history ends in this order: seatd's byte was read from the pipe, the
    socket was given to the real user and group and closed to others, the launcher
    set its group and then its user to them, and it forked; each of these calls
    succeeded.  The command is the one given. *)
Theorem target_runs_unprivileged `{K : Kernel} (installpath defaultpath : bytes) (patience : nat)
    (args : list launch_opt) (command : list bytes) (w : sys) (ret : Z) (w' : sys) :
  launch_main installpath defaultpath patience args command () w = Done (ret, (), w') ->
  exists h, trace w' = h ++ trace w /\
    forall file argv r, (Execvp file argv, r) ∈ h ->
      ret = 1 /\ argv = command /\ file = hd [] command /\
      exists rs f fd h0, r_ret f = 0 /\ unprivileged defaultpath fd h0 /\
        h = (Execvp file argv, r) :: (Setenv (str "SEATD_SOCK") defaultpath, rs) :: (Fork, f) :: h0.
Proof.
  intros E. pose proof (launch_main_ok True installpath defaultpath (fun _ _ _ _ _ => I) patience args command () w) as Hm.
  unfold wlp in Hm. rewrite E in Hm. destruct Hm as (h & Eh & Hend). exists h. split; [done|].
  intros file argv r Hin. destruct Hend as [ret h Hh|loglevel p f rc rx Hf|pid fd h rk Hs Ht|pid fd h f rs rx Hs Ht Hu Hf
    |pid fd h f child hw rw rk ret Hs Ht Hu Hf Hc1 Hc2 Hw Hrw Hret].
  - destruct (Hh _ _ Hin) as [?|[? _]]; done.
  - do 4 (apply elem_of_cons in Hin as [?|Hin]; [done|]). by apply not_elem_of_nil in Hin.
  - apply elem_of_cons in Hin as [?|Hin]; [done|]. by destruct (tame_in _ _ _ Ht Hin).
  - apply elem_of_cons in Hin as [[= -> -> ->]|Hin]; [eauto 12|].
    do 2 (apply elem_of_cons in Hin as [?|Hin]; [done|]). by destruct (tame_in _ _ _ Ht Hin).
  - do 2 (apply elem_of_cons in Hin as [?|Hin]; [done|]). apply elem_of_app in Hin as [Hin|Hin].
    + pose proof (proj1 (Forall_forall _ _) Hw _ Hin). done.
    + apply elem_of_cons in Hin as [?|Hin]; [done|]. by destruct (tame_in _ _ _ Ht Hin).
Qed.


(** ** The options of seatd *)

(** How an option stands in the arguments of seatd. *)
Definition spelled (o : opt) : list bytes :=
  match o with
  | Opt_n arg => [str "-n"; arg]
  | Opt_s arg => [str "-s"; arg]
  | Opt_c arg => [str "-c"; arg]
  | Opt_u arg => [str "-u"; arg]
  | Opt_g arg => [str "-g"; arg]
  | Opt_l arg => [str "-l"; arg]
  | Opt_z => [str "-z"]
  | Opt_v => [str "-v"]
  | Opt_h => [str "-h"]
  | Opt_unknown => [str "-?"]
  end.

Definition is_digit (b : Z) : Prop := 48 <= b <= 57.

Lemma digits_value_snoc acc l b :
  Forall is_digit l -> is_digit b -> digits_value acc (l ++ [b]) = 10 * digits_value acc l + (b - 48).
Proof.
  intros Hl Hb. revert acc. induction Hl as [|c l Hc _ IH]; intros acc; cbn [app digits_value].
  - unfold is_digit in Hb. by rewrite (proj2 (Z.leb_le 48 b)), (proj2 (Z.leb_le b 57)) by lia.
  - unfold is_digit in Hc. rewrite (proj2 (Z.leb_le 48 c)), (proj2 (Z.leb_le c 57)) by lia. cbn [andb]. apply IH.
Qed.

Lemma digit_char_decimal n : is_digit (digit_char (n mod 10)) /\ digit_char (n mod 10) - 48 = n mod 10.
Proof.
  pose proof (Z.mod_pos_bound n 10). unfold is_digit, digit_char. rewrite (proj2 (Z.leb_gt 10 (n mod 10))) by lia. lia.
Qed.

Lemma radix_rev_digits f n : Forall is_digit (radix_rev f 10 n).
Proof.
  revert n. induction f as [|f IH]; intros n; [constructor|]. cbn [radix_rev]. case_match; [constructor|].
  constructor; [apply digit_char_decimal|apply IH].
Qed.

Lemma radix_rev_value f n : 0 <= n < 10 ^ Z.of_nat f -> digits_value 0 (rev (radix_rev f 10 n)) = n.
Proof.
  revert n. induction f as [|f IH]; intros n Hn; [cbn in *; lia|].
  destruct (Z.leb_spec n 0); [rewrite radix_rev_done by done; cbn; lia|].
  rewrite radix_rev_unfold by done. cbn [rev]. rewrite digits_value_snoc.
  - rewrite IH by (apply div_bound; lia). destruct (digit_char_decimal n) as [_ ->].
    rewrite (Z.div_mod n 10) at 3 by lia. lia.
  - apply Forall_rev, radix_rev_digits.
  - apply digit_char_decimal.
Qed.

Lemma atoi_digits l b : Forall is_digit (b :: l) -> atoi (b :: l) = i32 (digits_value 0 (b :: l)).
Proof.
  intros Hl. inversion Hl as [|? ? Hb _]; subst. unfold is_digit in Hb. unfold atoi. cbn [skip_space].
  rewrite (proj2 (Z.eqb_neq b 32)), (proj2 (Z.leb_gt b 13)), andb_false_r by lia. cbn [orb].
  by rewrite (proj2 (Z.eqb_neq b 45)), (proj2 (Z.eqb_neq b 43)) by lia.
Qed.

(** atoi(3) reads back what printf(3) has written. *)
Lemma atoi_pipebuf n : 0 <= n < 2 ^ 31 -> atoi (pipebuf n) = n.
Proof.
  intros Hn. unfold pipebuf, numeral. destruct (Z.leb_spec n 0); [by replace n with 0 by lia|].
  set (f := Z.to_nat (Z.log2 n + 1)). assert (Hf : n < 10 ^ Z.of_nat f).
  { unfold f. rewrite Z2Nat.id by (pose proof (Z.log2_nonneg n); lia). destruct (Z.log2_spec n) as [_ Hlt]; [done|].
    eapply Z.lt_le_trans; [exact Hlt|]. apply Z.pow_le_mono_l. lia. }
  rewrite take_ge.
  2: { rewrite length_rev. etrans; [apply (radix_rev_length f 10 n 10); [lia|]|lia].
       change (10 ^ Z.of_nat 10) with 10000000000. lia. }
  pose proof (radix_rev_value f n ltac:(lia)) as Hv. pose proof (radix_rev_digits f n) as Hd. apply Forall_rev in Hd.
  destruct (rev (radix_rev f 10 n)) as [|b l]; [cbn in Hv; lia|]. rewrite atoi_digits, Hv by done. apply i32_small. lia.
Qed.

(** C21: seatd understands the launcher.  The arguments that the launcher gives to
    seatd are the options for the launcher's end of the pipe, the log level, and
    running under a launcher, and seatd takes them as such; when it is up, the last
    it has done is to write to that pipe and to close it. *)
Theorem seatd_options_understood `{K : Kernel} `{Kok : !KernelOk} (fd : Z) (loglevel : bytes) (l : log_level)
    (path : bytes) (vtenv : option bytes) (w : sys) :
  0 <= fd < 2 ^ 31 -> parse_level loglevel = Some l ->
  let opts := [Opt_n (pipebuf fd); Opt_l loglevel; Opt_z] in
  let o := Settings (-1) (-1) fd false false path None l in
  seatd_argv fd loglevel = str "seatd" :: concat (spelled <$> opts) /\
  parse_options opts (default_settings path) zero_server w = Done (inl o, zero_server, w) /\
  forall o' f s' w', main_start path vtenv opts zero_server w = Done (Running o' f, s', w') ->
    o' = o /\ exists r1 r2 h, trace w' = (Close fd, r2) :: (Write fd [10], r1) :: h.
Proof.
  intros Hfd Hl opts o.
  assert (Hp : parse_options opts (default_settings path) zero_server w = Done (inl o, zero_server, w)).
  { unfold opts. cbn [parse_options]. rewrite atoi_pipebuf by done. rewrite (proj2 (Z.ltb_ge fd 0)) by lia.
    by rewrite Hl. }
  split_and!; [done|done|]. intros o' f s' w' E. unfold main_start, mbind, M_bind in E. rewrite Hp in E.
  change (control_socket_path o) with (@None bytes) in E.
  destruct (clear_socket_path _ _ _ _) as [[[ok s1] w1]| | |] eqn:Ec; try done. destruct ok; cbn [negb] in E; [|done].
  assert (s1 = zero_server) as ->.
  { pose proof (clear_socket_path_ok (socket_path o) (unlink_existing_socket o) (fun _ s' _ => s' = zero_server) zero_server w
      ltac:(done) ltac:(done)) as Hc. unfold wp in Hc. by rewrite Ec in Hc. }
  cbn in E. unfold main_up, mbind, M_bind in E. pose proof (server_init_ok vtenv w1) as Hi. unfold wp in Hi.
  destruct (server_init vtenv zero_server w1) as [[[r s2] w2]| | |]; try done.
  destruct Hi as [(-> & Hr & Hrun)|(-> & _)]; [|done]. cbn in E.
  pose proof (main_sockets_ok (vt_bound_of vtenv) o s2 w2 Hr Hrun) as Hm. unfold wp in Hm.
  destruct (main_sockets o s2 w2) as [[[[ret|o2 f2] s3] w3]| | |]; try done. destruct Hm as [-> _].
  change (readiness o) with fd in E. rewrite (proj2 (Z.eqb_neq fd (-1))) in E by lia.
  unfold close, ext, mret, M_ret, mbind, M_bind in E. simplify_eq. split; [done|]. eexists _, _, _. reflexivity.
Qed.

(** ** A launch *)

Definition is_fork (c : call) : bool := match c with Fork => true | _ => false end.

(** seatd is process 400 and ready at once; [child] is what the second fork returns,
    and the command exits with status 3. *)
Definition launch_answer (child : Z) (h : history) (c : call) : reply :=
  match c with
  | Pipe => Reply 0 0 [5; 6] [] []
  | Fork => reply_ret (if decide (count_calls is_fork h = 0%nat) then 400 else child)
  | Waitpid pid nohang => if nohang then reply_ret 0 else Reply pid 0 [3 * 256] [] []
  | Poll _ _ => Reply 1 0 [POLLIN] [] []
  | Read _ _ => reply_ret 1
  | Getuid | Getgid => reply_ret 1000
  | _ => reply_ret 0
  end.

Definition launching (child : Z) : Kernel :=
  {| answer := launch_answer child; eintr_limit := 1; has_hidiocrevoke := true; libseat_build := false |}.

Definition seatd_bin : bytes := str "/usr/bin/seatd".

Lemma target_runs_unprivileged_witness :
  exists w' h f fd h0, @launch_main (launching 0) seatd_bin demo_path 1 [] [str "sway"] () (Sys [] 0) = Done (1, (), w') /\
    trace w' = h /\ r_ret f = 0 /\ unprivileged demo_path fd h0 /\
    exists r rs, h = (Execvp (str "sway") [str "sway"], r) :: (Setenv (str "SEATD_SOCK") demo_path, rs) :: (Fork, f) :: h0.
Proof.
  assert (Hrun : exists w' r t, @launch_main (launching 0) seatd_bin demo_path 1 [] [str "sway"] () (Sys [] 0) =
    Done (1, (), w') /\ trace w' = (Execvp (str "sway") [str "sway"], r) :: t).
  { eexists _, _, _. split; vm_compute; reflexivity. }
  destruct Hrun as (w' & r & t & E & Et).
  destruct (@target_runs_unprivileged (launching 0) seatd_bin demo_path 1 [] [str "sway"] (Sys [] 0) 1 w' E)
    as (h & Eh & Hx). cbn [trace] in Eh. rewrite app_nil_r in Eh.
  destruct (Hx (str "sway") [str "sway"] r) as (_ & _ & _ & rs & f & fd & h0 & Hf & Hu & ->).
  { rewrite <- Eh, Et. left. }
  exists w', (trace w'), f, fd, h0. split_and!; [exact E|done|done|done|by eexists _, _].
Defined.

Lemma seatd_options_understood_witness :
  let opts := [Opt_n (pipebuf 6); Opt_l (str "debug"); Opt_z] in
  exists o f s' w' r1 r2 h, @main_start (demo (says [])) demo_path None opts zero_server (Sys [] 0) =
    Done (Running o f, s', w') /\ readiness o = 6 /\ trace w' = (Close 6, r2) :: (Write 6 [10], r1) :: h.
Proof.
  intros opts.
  assert (Hrun : exists o f s' w', @main_start (demo (says [])) demo_path None opts zero_server (Sys [] 0) =
    Done (Running o f, s', w')) by (eexists _, _, _, _; vm_compute; reflexivity).
  destruct Hrun as (o & f & s' & w' & E).
  destruct (@seatd_options_understood (demo (says [])) (demo_ok _) 6 (str "debug") LIBSEAT_LOG_LEVEL_DEBUG demo_path None
    (Sys [] 0) ltac:(lia) eq_refl) as (_ & _ & Hup).
  destruct (Hup o f s' w' E) as (-> & r1 & r2 & h & Et). eexists _, f, s', w', r1, r2, h.
  split; [exact E|]. split; [reflexivity|exact Et].
Defined.


