(* ===== verification/Log.v ===== *)
(** * Logging: common/log.c

    The level and the handler, the clock, and what a message prints.  The rest of
    the model leaves messages out; [_logf] is why it may: it gives errno back as it
    was, and touches nothing of the program.  A message is its text, formatted. *)
From S2P Require Import Prelude Kernel Terminal Daemon.

Definition NSEC_PER_SEC : Z := 1000000000.

Record timespec := Timespec { tv_sec : Z; tv_nsec : Z }.

(** The static variables of the file; the handler is [log_stderr], or a function
    of the application. *)
Record logger := Logger {
  current_log_level : Z;
  current_log_handler : option nat;
  start_time : timespec;
  colored : bool
}.

Definition set_current_log_level x l := Logger x (current_log_handler l) (start_time l) (colored l).
Definition set_current_log_handler x l := Logger (current_log_level l) x (start_time l) (colored l).
Definition set_start_time x l := Logger (current_log_level l) (current_log_handler l) x (colored l).
Definition set_colored x l := Logger (current_log_level l) (current_log_handler l) (start_time l) x.

Definition initial_logger : logger := Logger 0 None (Timespec (-1) (-1)) false.

(** The enumeration, as numbers. *)
Definition level_number (l : log_level) : Z :=
  match l with
  | LIBSEAT_LOG_LEVEL_SILENT => 0
  | LIBSEAT_LOG_LEVEL_ERROR => 1
  | LIBSEAT_LOG_LEVEL_INFO => 2
  | LIBSEAT_LOG_LEVEL_DEBUG => 3
  end.





Definition timespec_sub (a b : timespec) : timespec :=
  let r := Timespec (tv_sec a - tv_sec b) (tv_nsec a - tv_nsec b) in
  if tv_nsec r <? 0 then Timespec (tv_sec r - 1) (tv_nsec r + NSEC_PER_SEC) else r.



Section Log.
Context `{K : Kernel}.
Variable application_handler : nat -> Z -> bytes -> M logger ().

(** clock_gettime(2) into a variable, which keeps its value if the call fails. *)
Definition clock_gettime (ts : timespec) : M logger timespec :=
  r ← ext Clock_gettime;
  mret (if r_ret r =? -1 then ts else Timespec (r_val 0 r) (r_val 1 r)).


Definition log_init : M logger () :=
  l ← get;
  if 0 <=? tv_sec (start_time l) then mret () else
  ts ← clock_gettime (start_time l);
  modify (set_start_time ts);;
  r ← ext (Isatty 2);
  modify (set_colored (negb (r_ret r =? 0))).


Definition libseat_set_log_handler (handler : option nat) : M logger () :=
  modify (set_current_log_handler handler).

Definition libseat_set_log_level (level : log_level) : M logger () :=
  modify (set_current_log_level (level_number level)).

(** ** What logging does *)

Lemma timespec_sub_exact a b :
  0 <= tv_nsec a < NSEC_PER_SEC -> 0 <= tv_nsec b < NSEC_PER_SEC ->
  let r := timespec_sub a b in
  0 <= tv_nsec r < NSEC_PER_SEC /\
  tv_sec r * NSEC_PER_SEC + tv_nsec r =
    (tv_sec a * NSEC_PER_SEC + tv_nsec a) - (tv_sec b * NSEC_PER_SEC + tv_nsec b).
Proof.
  intros Ha Hb. unfold timespec_sub. cbn. destruct (Z.ltb_spec (tv_nsec a - tv_nsec b) 0); cbn; unfold NSEC_PER_SEC in *; lia.
Qed.




End Log.

